(* ===== verification/_CoqProject ===== *)
-Q . S2P
Prelude.v
CMonad.v
Layout.v
BlockDev.v
Kernel.v
Sched.v
SchedProof.v
MQueue.v
MQueueProof.v
FsOps.v
FreeList.v
InodeProof.v
BlockMap.v
FileRep.v
FileGrow.v
Dir.v
Posix.v
FileIO.v
DirProof.v
DirRemove.v
PathProof.v
Create.v
Unlink.v
OpenProof.v
Volume.v
VolumeIO.v
VolumeTree.v
VolumeCalls.v
Session.v
Exec.v
Format.v
Install.v
Svc.v
Mkdir.v
Listing.v
Move.v
Copy.v
VolumeKernel.v
Boot.v
VolumeStart.v
Shape.v
System.v
Interrupt.v
Devices.v
Libc.v
LibcProof.v
User.v
UserRun.v
UserProof.v
Uart.v
UartProof.v
