(* ===== verification/Prelude.v ===== *)
(** * A verification library for arm-kernel

    ** The program

    arm-kernel is a small kernel for a RealView board with a Cortex-A8: up to eight
    processes under a round-robin scheduler, message channels, a file system with inodes
    on a block device, and a shell with a few programs.  The block device is a Python
    server (device/disk.py) that the kernel talks to over a serial line, in lines of
    hexadecimal text.  Control enters the kernel at three handlers - reset, interrupt,
    supervisor call - which interrupt.s calls with the registers of the interrupted code
    in a structure; what the handler leaves in the structure is what the processor goes
    on with.  Nothing in the kernel is preempted, so each handler is one function from
    context and kernel state to context and kernel state, and the system is the relation
    that takes these steps in any order.

    ** How the code is modelled

    A C function is a definition of the same name in the monad [M (kernel D)] of CMonad.v:
    explicit state passing, with three outcomes.  [Done] is a return; [Undef] is an
    execution to which C gives no result - an index out of an array's bounds, a null or
    wild pointer, the use of an indeterminate value, signed overflow; [Hang] is one that
    never returns.  Theorems say [Done], so they exclude both.  The globals of kernel.c
    are the record [kernel] of Kernel.v, over a type [D] of devices; a pointer into one of
    the kernel's arrays is the index it points at, with [None] for NULL, so that aliasing
    is kept: two descriptors with the same open-file index share its position, two
    open-file entries with the same inode index share the inode.  An [inode_t *] argument is the
    structure, and a function that writes through it returns the new one.  Integers are [Z],
    with every conversion and wrap-around written out ([u32], [u16], [u8], [s32],
    [in_int]); a block is its list of 512 bytes, and structures go to and from bytes by the
    class [Layout].  Code that is not in the repository stays a parameter:
    - the device, the class [BlockDevice] with its laws (BlockDev.v).  The file system is
      verified against the laws; [MemDisk] is the executable instance of the witnesses, and
      UartProof.v makes the driver of device/disk.c, talking to the server of
      device/disk.py, another ([uart_laws]);
    - the linker's symbols, the record [image] of Posix.v;
    - what is in uninitialised locals when the code reads them, the record [junk] of
      Svc.v and arguments of [wipe] and [exec].  The theorems hold for all of them.

    ** The files

    Foundations.
    - Prelude: machine integers, lists and splices, the hint databases.
    - CMonad: outcomes, arrays, the monad, loops with early return, and the calculus [wp]
      of total correctness with its rules and the tactics [wp_step], [wp_steps].
    - Layout: the structures of kernel/fs.h, and the bytes they have on the disk, as instances
      of [Layout] with the round-trip laws [LayoutLaws].
    - BlockDev: the interface to the device, and the device in memory.
    - Kernel: the data of kernel/kernel.h, mqueue.h and terms.h, the globals of kernel.c,
      accesses to them, user memory, the console and device registers.

    Processes and messages (kernel/kernel.c, 35-283).
    - Sched, SchedProof: [fork], [kill], the ready queue and [scheduler].  The queue is
      well-formed in every state that forks, signals and scheduling lead to; the scheduler
      switches to the next process that can run, and every such process has its turn.
    - MQueue, MQueueProof: the channels.  A send and a receive meet, in any conversation
      of any number of processes no call is undefined, and two errors of the code.

    File system, lower half (kernel/kernel.c, 327-713).
    - FsOps: [balloc], [bfree], inodes, the blocks of files.
    - FreeList: the free list as a refinement of a stack of blocks, both in the superblock
      and in the chain of link blocks; [fs_rep s L] says that memory and disk agree on
      the list [L]; [fs_frame] which blocks a call may have written.
    - InodeProof: inodes by number on the disk; reading, writing, finding a free one.
    - BlockMap: the tree of direct and indirect blocks and the address it gives a block.
    - FileRep: [file_rep], a file of at most 139 blocks none of which is free or used
      twice, its bytes, and what a write to one of its blocks does to them.
    - FileGrow: [allocateDataBlocks], and what is lost behind the first indirect table.
    - Format: [wipe] establishes the representations the other files assume.

    File system, upper half (kernel/kernel.c, 37-73, 281-323, 369-427, 715-1103, 1336-1359).
    - Dir: directories and paths, with the functions of string.h they use.
    - Posix: descriptors and the calls on them, [exec], [wipe].
    - FileIO: [fwrite], [fread], [lseek] on the bytes of a file, and the round trip.
    - DirProof, DirRemove: a directory as a list of entries; lookup, insertion, removal.
    - PathProof: the walk along a path as a relation, [path_to_ino] and [cd].
    - Create: [path_to_ino2] makes a file.
    - Unlink: [unlink] removes one and gives its blocks back.
    - OpenProof: the invariant of the descriptor, open-file and inode tables; [open], [close].
    - Session: a file between its open and its close, for the callers of both.
    - Exec: [getProgramEntry] and [exec].

    The volume: the invariant of all files at once.
    - Volume: [volume s L], what every inode in use owns, that nothing is owned twice or
      owned and free, that directories lead to inodes in use and regular files have one
      name; and how it passes from one state to another when few inodes change ([changes]).
    - VolumeIO, VolumeTree: reads, writes, opens and closes; creation and deletion.
    - VolumeCalls: the calls with the arguments a process gives them ([fcall], [call_ok]).
    - Install: [wipe] to its end: a volume with the eight programs in it.
    - Mkdir, Listing, Move: the calls for directories, [mkdir], [ls] and [mv].
    - Copy: what [cp] leaves, which is no copy.
    - VolumeKernel: the kernel with interrupts, scheduling, messages and these calls in any
      order; the other functions do not touch the file system ([still]).
    - VolumeStart: a power cycle keeps a volume; a volume in full, for the witnesses.

    The kernel as a whole (kernel/kernel.c, 1109-1420; kernel/interrupt.s).
    - Svc: the three entry points with the 23 supervisor calls.
    - Boot: what a reset restores.
    - Shape: every array keeps its length and every pointer its range, through every
      function of the kernel (class [Shaped], predicate [keeps], tactic [keep]).
    - System: the step relation of the handlers' runs that return, the reachable states, and
      their shape.  Calls that are undefined in C have no step.
    - Interrupt: the instructions of interrupt.s on a model of the ARM registers; the stubs
      hand exactly the interrupted context to the handlers and continue with what these
      leave, except for the bits 8 to 23 of the status register, which [msr] without a mask
      does not write ([psr_fc], [resume]).

    User code (user/) and the serial line (device/).
    - Libc, LibcProof: text of numbers and the programs P0, P1, P2.
    - User: the wrappers of libc.c, the shell and the other programs, as interaction trees
      whose events are supervisor calls and accesses to the process' memory.
    - UserRun: a tree run against [kernel_handler_svc], with a calculus [uwp].
    - UserProof: the shell's [cat], from the keyboard line through the calls to the console.
    - Uart, UartProof: the driver, the PL011 and the server; blocks go and come over the line.
    - Devices: the register structures of GIC.h, SP804.h and PL011.h as C lays them out, and
      the address of every register kernel.c writes.

    ** What the theorems show

    For each component the behaviour on every branch: what the call returns, the state
    after it as an equation or a record, and what it left alone.  Above them:
    the free list refines a stack; the block map equals its definition in base 128; the
    ready queue and the tables of open files are invariants;
    formatting establishes, and a reset recovers, what the file system theorems assume;
    what is written is read back, through the file system and over the serial line; a
    program's output is the file it was asked to print; and the file system as a whole is an
    invariant of the running machine ([kernel_volume]), from a format ([wipe_installs])
    or a reset ([reset_volume]) on.  Termination is part of all of
    them.  Where the code does not do what it means to, a theorem says what it does:
    the deadlock of the scheduler ([scheduler_deadlock]), the lost wakeup
    ([mq_second_sender_loses_first]) and the missing checks ([mq_unchecked_bounds]) of the
    channels, entries of full directories that are not seen and stale names that are
    ([full_directory_hidden], [stale_name_found]), tables lost
    ([double_indirect_lost]), an inode entry lost ([open_full_leaks]), paths changed
    by a walk ([path_clobbered]), a server that dies ([serial_errors]), files lost in a
    directory that is open ([open_directory_loses]), an entry that is there twice after a
    move ([mv_same_directory]), a copy that is none and overwrites others ([svc_cp_loses],
    [cp_overwrites]), [ls] of a large directory ([svc_ls_overflow]), status bits that leak from
    one process to the next ([stubs_exact]), a stack that starts above its top ([reset_stub]).

    ** Bounds

    A loop is a recursion on its number of rounds; there is fuel in seven places:
    - [rq_rotate] recurses in C; [rotate_fuel] is PROCESS_LIMIT, the longest queue.
      [scheduler_switches] shows that it is enough whenever a process can run, and
      [scheduler_deadlock] that no fuel is when none can.
    - [walk] takes the length of the path, and each component has a character.
    - A string of user memory is read for [STRING_MAX] (4096) bytes; a longer one is [Undef].
    - The loops of P0, P1 and P2 run for a power of two of rounds ([while2]); their theorems
      give the results, so that the bound was not met, or show a state that repeats.
    - [put_digits] takes one more than the length of the buffer it writes to.
    - [urun] runs n nodes of a tree; [uwp] asks for some n that suffices.
    - [table_loop] takes the number of words of the vector table, which it copies one a round.
    The disk driver tries three times ([RETRY]), as the code does.  Files are verified up to
    139 blocks ([MAXBLKS]), the reach of the first indirect table: behind it the
    code loses blocks.  [unlink] is verified for files of at most eleven blocks, since the
    code reads an indirect table after it gave it back.

    ** Not modelled

    - The devices behind their registers: writes to them are recorded by name in the state
      ([k_hw]), reads from the UART are the characters of [k_in].  The interrupt controller
      and the timer are not otherwise modelled; when interrupts come is arbitrary in
      System.v, and they do not come during the run of a program in UserRun.v.
    - The memory map: the kernel's arrays are apart from user memory, and user code cannot
      reach them.  One process can overwrite another's memory ([user_step]).
    - Prototypes, the Makefile, image.ld and the shell scripts.

    ** What is left

    The steps of [kernel_volume] leave out copying a file, which makes the volume none.
    The programs het, ping, pong, blanks and hashs, and the commands of the shell other than
    [cat], have definitions, but no theorem of their own on what they do.  What a
    process may ask for and break the kernel with is known call by call
    ([mq_unchecked_bounds], [kill_correct], [svc_ls_overflow]); there is no theorem that
    lists all such calls. *)

From Stdlib Require Export ZArith Lia.
From stdpp Require Export base numbers list gmap option.

#[global] Set Default Goal Selector "!".

Open Scope Z_scope.

(** ** Machine integers

    C integers are [Z]; a conversion to an unsigned type of width [w] is the
    residue modulo [2^w], a conversion to [int] the two's complement residue. *)

Definition u32 (z : Z) : Z := z mod 2 ^ 32.
Definition u16 (z : Z) : Z := z mod 2 ^ 16.
Definition u8 (z : Z) : Z := z mod 2 ^ 8.
Definition s32 (z : Z) : Z := (z + 2 ^ 31) mod 2 ^ 32 - 2 ^ 31.

Definition is_u32 (z : Z) : Prop := 0 <= z < 2 ^ 32.
Definition is_u16 (z : Z) : Prop := 0 <= z < 2 ^ 16.
Definition is_byte (z : Z) : Prop := 0 <= z < 2 ^ 8.

#[export] Instance is_u32_dec z : Decision (is_u32 z).
Proof. unfold is_u32. apply _. Defined.
#[export] Instance is_u16_dec z : Decision (is_u16 z).
Proof. unfold is_u16. apply _. Defined.
#[export] Instance is_byte_dec z : Decision (is_byte z).
Proof. unfold is_byte. apply _. Defined.

(** The range of [int]: signed arithmetic that leaves it is undefined. *)
Definition in_int (z : Z) : bool := (- 2 ^ 31 <=? z) && (z <? 2 ^ 31).

(** [(uint32_t)-1], what the code returns for "no block". *)
Definition NOADDR : Z := 2 ^ 32 - 1.

Create HintDb arm.
Create Rewrite HintDb arm.

Section IntLemmas.
Implicit Types z a b : Z.

Lemma u32_range z : is_u32 (u32 z).
Proof. apply Z.mod_pos_bound. lia. Qed.

Lemma u32_small z : is_u32 z -> u32 z = z.
Proof. apply Z.mod_small. Qed.

Lemma u32_idem z : u32 (u32 z) = u32 z.
Proof. apply u32_small, u32_range. Qed.

Lemma u16_small z : is_u16 z -> u16 z = z.
Proof. apply Z.mod_small. Qed.

Lemma u8_small z : is_byte z -> u8 z = z.
Proof. apply Z.mod_small. Qed.

Lemma u8_range z : is_byte (u8 z).
Proof. apply Z.mod_pos_bound. lia. Qed.

Lemma s32_small z : - 2 ^ 31 <= z < 2 ^ 31 -> s32 z = z.
Proof. intros. unfold s32. rewrite Z.mod_small; lia. Qed.

Lemma s32_noaddr : s32 NOADDR = -1.
Proof. reflexivity. Qed.

(** Only [(uint32_t)-1] turns into the error value when read back as [int]. *)
Lemma s32_minus1 z : is_u32 z -> s32 z = -1 -> z = NOADDR.
Proof.
  unfold is_u32, s32, NOADDR. intros Hz Heq.
  assert (z < 2 ^ 31 \/ 2 ^ 31 <= z) as [Hl|Hl] by lia.
  - rewrite Z.mod_small in Heq; lia.
  - replace (z + 2 ^ 31) with ((z - 2 ^ 31) + 1 * 2 ^ 32) in Heq by lia.
    rewrite Z.mod_add, Z.mod_small in Heq by lia. lia.
Qed.

Lemma u32_s32 z : is_u32 z -> u32 (s32 z) = z.
Proof.
  unfold is_u32, s32, u32. intros Hz.
  rewrite Zminus_mod, Zmod_mod, <-Zminus_mod.
  replace (z + 2 ^ 31 - 2 ^ 31) with z by lia. by apply Z.mod_small.
Qed.
End IntLemmas.

#[export] Hint Resolve u32_range u8_range : arm.

(** ** Lists: prefixes overwritten in place *)

(** [overlay xs old] is the memory [old] after [xs] is copied onto its front. *)
Definition overlay {A} (xs old : list A) : list A := xs ++ drop (length xs) old.

(** [splice i xs old]: [xs] copied over [old] from index [i]. *)
Definition splice {A} (i : nat) (xs old : list A) : list A :=
  take i old ++ xs ++ drop (i + length xs) old.

Section ListLemmas.
Context {A : Type}.
Implicit Types (l xs : list A) (i n : nat).

Lemma length_overlay xs l :
  (length xs <= length l)%nat -> length (overlay xs l) = length l.
Proof. intros. unfold overlay. rewrite length_app, length_drop. lia. Qed.

Lemma overlay_full xs l : length xs = length l -> overlay xs l = xs.
Proof. intros H. unfold overlay. rewrite drop_ge by lia. apply app_nil_r. Qed.

Lemma Forall_overlay (P : A -> Prop) xs l :
  Forall P xs -> Forall P l -> Forall P (overlay xs l).
Proof. intros. apply Forall_app; split; auto using Forall_drop. Qed.

Lemma length_splice i xs l :
  (i + length xs <= length l)%nat -> length (splice i xs l) = length l.
Proof.
  intros. unfold splice. rewrite !length_app, length_take, length_drop. lia.
Qed.

Lemma splice_nil i l : splice i [] l = l.
Proof. unfold splice. cbn. rewrite Nat.add_0_r. apply take_drop. Qed.

Lemma lookup_splice_out i xs l j :
  (i + length xs <= length l)%nat -> ~ (i <= j < i + length xs)%nat ->
  splice i xs l !! j = l !! j.
Proof.
  intros Hlen Hj. unfold splice. destruct (decide (j < i)%nat).
  - rewrite lookup_app_l by (rewrite length_take; lia). by rewrite lookup_take_lt.
  - rewrite lookup_app_r by (rewrite length_take; lia).
    rewrite lookup_app_r by (rewrite length_take; lia).
    rewrite lookup_drop. f_equal. rewrite length_take. lia.
Qed.

Lemma lookup_splice_in i xs l j :
  (i + length xs <= length l)%nat -> (i <= j < i + length xs)%nat ->
  splice i xs l !! j = xs !! (j - i)%nat.
Proof.
  intros Hlen Hj. unfold splice.
  rewrite lookup_app_r by (rewrite length_take; lia).
  rewrite lookup_app_l by (rewrite length_take; lia).
  f_equal. rewrite length_take. lia.
Qed.

(** A splice grows by one element at its right end. *)
Lemma splice_snoc i xs x l :
  (i + length xs < length l)%nat ->
  splice i (xs ++ [x]) l = <[(i + length xs)%nat := x]> (splice i xs l).
Proof.
  intros Hlen. apply list_eq. intros j.
  destruct (decide (j = i + length xs)%nat) as [->|Hne].
  - rewrite list_lookup_insert_eq by (rewrite length_splice; lia).
    rewrite lookup_splice_in by (rewrite length_app; cbn; lia).
    rewrite lookup_app_r by lia. by replace (_ - _ - _)%nat with 0%nat by lia.
  - rewrite list_lookup_insert_ne by done.
    destruct (decide (i <= j < i + length xs)%nat).
    + rewrite !lookup_splice_in by (rewrite ?length_app; cbn; lia).
      rewrite lookup_app_l; [done|lia].
    + rewrite !lookup_splice_out by (rewrite ?length_app; cbn; lia). done.
Qed.

Lemma take_S_snoc l n x : l !! n = Some x -> take (S n) l = take n l ++ [x].
Proof. apply take_S_r. Qed.

Lemma lookup_lt_ex l n : (n < length l)%nat -> exists x, l !! n = Some x.
Proof. intros. by apply lookup_lt_is_Some_2. Qed.
End ListLemmas.

#[export] Hint Resolve Forall_take Forall_drop Forall_overlay : arm.
