(* ===== verification/CMonad.v ===== *)
(** * The C execution monad

    Results of running C code, bounds-checked arrays, the state monad every
    kernel function is written in, [for] loops with early return, and a total
    correctness calculus ([wp]) with its rules and tactic. *)

From S2P Require Import Prelude.

(** ** Outcomes

    [Undef]: the C standard gives the execution no result (an index out of an
    array's bounds, a NULL dereference, the use of an indeterminate value, signed
    overflow).  [Hang]: the execution never returns (a busy wait nobody ends,
    unbounded recursion). *)

Inductive outcome (A : Type) : Type :=
  | Done (a : A)
  | Undef
  | Hang.
Arguments Done {A} a.
Arguments Undef {A}.
Arguments Hang {A}.

#[export] Instance outcome_ret : MRet outcome := fun A a => Done a.
#[export] Instance outcome_bind : MBind outcome := fun A B k m =>
  match m with Done a => k a | Undef => Undef | Hang => Hang end.

(** ** Arrays with C's bounds *)

(** [a\[i\]] as an rvalue. *)
Definition aget {A} (l : list A) (i : Z) : outcome A :=
  if i <? 0 then Undef
  else match l !! Z.to_nat i with Some x => Done x | None => Undef end.

(** [a\[i\] = x]. *)
Definition aset {A} (l : list A) (i : Z) (x : A) : outcome (list A) :=
  if (0 <=? i) && (i <? Z.of_nat (length l))
  then Done (<[Z.to_nat i := x]> l) else Undef.

Section Arrays.
Context {A : Type}.
Implicit Types (l : list A) (x : A).

Lemma aget_done l i x : 0 <= i -> l !! Z.to_nat i = Some x -> aget l i = Done x.
Proof.
  intros Hi Hl. unfold aget. destruct (Z.ltb_spec i 0); [lia|]. by rewrite Hl.
Qed.

Lemma aget_inv l i x : aget l i = Done x -> 0 <= i /\ l !! Z.to_nat i = Some x.
Proof.
  unfold aget. destruct (Z.ltb_spec i 0); [done|].
  destruct (l !! _) eqn:E; [|done]. intros [= ->]. done.
Qed.

Lemma aget_ex l i :
  0 <= i < Z.of_nat (length l) -> exists x, aget l i = Done x /\ l !! Z.to_nat i = Some x.
Proof.
  intros Hi. destruct (lookup_lt_ex l (Z.to_nat i)) as [x Hx]; [lia|].
  exists x. split; [|done]. apply aget_done; [lia|done].
Qed.

Lemma aget_undef l i : ~ (0 <= i < Z.of_nat (length l)) -> aget l i = Undef.
Proof.
  intros Hi. unfold aget. destruct (Z.ltb_spec i 0); [done|].
  rewrite lookup_ge_None_2; [done|lia].
Qed.

Lemma aset_done l i x :
  0 <= i < Z.of_nat (length l) -> aset l i x = Done (<[Z.to_nat i := x]> l).
Proof.
  intros Hi. unfold aset.
  destruct (Z.leb_spec 0 i), (Z.ltb_spec i (Z.of_nat (length l))); done || lia.
Qed.

Lemma aset_undef l i x : ~ (0 <= i < Z.of_nat (length l)) -> aset l i x = Undef.
Proof.
  intros Hi. unfold aset.
  destruct (Z.leb_spec 0 i), (Z.ltb_spec i (Z.of_nat (length l))); done || lia.
Qed.
End Arrays.

(** ** The state monad over a machine state [S] *)

Definition M (S A : Type) : Type := S -> outcome (A * S).

#[export] Instance M_ret {S} : MRet (M S) := fun A a s => Done (a, s).
#[export] Instance M_bind {S} : MBind (M S) := fun A B k m s =>
  match m s with Done (a, s') => k a s' | Undef => Undef | Hang => Hang end.

Section Operations.
Context {S : Type}.

Definition gets {A} (f : S -> A) : M S A := fun s => Done (f s, s).
Definition modify (f : S -> S) : M S unit := fun s => Done (tt, f s).
Definition lift {A} (o : outcome A) : M S A := fun s =>
  match o with Done a => Done (a, s) | Undef => Undef | Hang => Hang end.

(** A pointer that must not be NULL. *)
Definition deref {A} (p : option A) : M S A :=
  lift match p with Some a => Done a | None => Undef end.

(** [if (b) m]. *)
Definition when (b : bool) (m : M S unit) : M S unit :=
  if b then m else mret tt.

(** [for (i = lo; n more times; i++) body]: [inl] carries the locals on to the
    next iteration, [inr] leaves the function with a value. *)
Fixpoint for_loop {A R} (n : nat) (i : Z) (body : Z -> A -> M S (A + R)) (a : A) :
    M S (A + R) :=
  match n with
  | O => mret (inl a)
  | Datatypes.S n' =>
      r ← body i a;
      match r with
      | inl a' => for_loop n' (i + 1) body a'
      | inr x => mret (inr x)
      end
  end.

(** The same with no early return. *)
Fixpoint for_fold {A} (n : nat) (i : Z) (body : Z -> A -> M S A) (a : A) : M S A :=
  match n with
  | O => mret a
  | Datatypes.S n' => a' ← body i a; for_fold n' (i + 1) body a'
  end.

(** A loop that only has effects. *)
Fixpoint for_do (n : nat) (i : Z) (body : Z -> M S unit) : M S unit :=
  match n with
  | O => mret tt
  | Datatypes.S n' => body i ;; for_do n' (i + 1) body
  end.

(** A search loop: the first iteration that yields a value returns it. *)
Fixpoint for_find {R} (n : nat) (i : Z) (body : Z -> M S (option R)) : M S (option R) :=
  match n with
  | O => mret None
  | Datatypes.S n' =>
      r ← body i;
      match r with
      | Some x => mret (Some x)
      | None => for_find n' (i + 1) body
      end
  end.
End Operations.

(** ** Total correctness

    [wp m Q s]: run from [s], [m] returns, without undefined behaviour, a value
    and a state that satisfy [Q]. *)

Definition wp {S A} (m : M S A) (Q : A -> S -> Prop) (s : S) : Prop :=
  match m s with Done (a, s') => Q a s' | _ => False end.

Section Rules.
Context {S : Type}.
Implicit Types (s : S).

Lemma wp_done {A} (m : M S A) Q s :
  wp m Q s <-> exists a s', m s = Done (a, s') /\ Q a s'.
Proof.
  unfold wp. split.
  - destruct (m s) as [[a s']| |]; [eauto|done|done].
  - by intros (a & s' & -> & HQ).
Qed.

Lemma wp_mono {A} (m : M S A) (P Q : A -> S -> Prop) s :
  wp m P s -> (forall a s', P a s' -> Q a s') -> wp m Q s.
Proof. unfold wp. destruct (m s) as [[a s']| |]; eauto. Qed.

Lemma wp_ret {A} (a : A) Q s : Q a s -> wp (mret a) Q s.
Proof. done. Qed.

Lemma wp_bind {A B} (m : M S A) (k : A -> M S B) Q s :
  wp m (fun a => wp (k a) Q) s -> wp (m ≫= k) Q s.
Proof. unfold wp, mbind, M_bind. destruct (m s) as [[a s']| |]; done. Qed.

Lemma wp_unbind {A B} (m : M S A) (k : A -> M S B) Q s :
  wp (m ≫= k) Q s -> wp m (fun a => wp (k a) Q) s.
Proof. unfold wp, mbind, M_bind. destruct (m s) as [[a s']| |]; done. Qed.

(** [m ;; x ← n; k x], split behind [n]. *)
Lemma wp_unbind_seq {A B C} (m : M S A) (n : A -> M S B) (k : B -> M S C) Q s :
  wp (m ≫= n) (fun b => wp (k b) Q) s -> wp (m ≫= (fun a => n a ≫= k)) Q s.
Proof.
  unfold wp, mbind, M_bind. destruct (m s) as [[a s']| |]; [|done..].
  by destruct (n a s') as [[b s'']| |].
Qed.

Lemma wp_gets {A} (f : S -> A) Q s : Q (f s) s -> wp (gets f) Q s.
Proof. done. Qed.

Lemma wp_modify (f : S -> S) Q s : Q tt (f s) -> wp (modify f) Q s.
Proof. done. Qed.

Lemma wp_lift {A} (o : outcome A) a Q s : o = Done a -> Q a s -> wp (lift o) Q s.
Proof. by intros ->. Qed.

Lemma wp_deref {A} (a : A) Q s : Q a s -> wp (deref (Some a)) Q s.
Proof. done. Qed.

Lemma wp_when (b : bool) (m : M S unit) Q s :
  (b = true -> wp m Q s) -> (b = false -> Q tt s) -> wp (when b m) Q s.
Proof. destruct b; [by intros H _; apply H|by intros _ H; apply H]. Qed.

(** Loop rule: [I] holds before each iteration and at the exit; an early return
    establishes [Q] at once. *)
Lemma wp_for_loop {A R} (I : Z -> A -> S -> Prop) n lo body (a : A)
    (Q : A + R -> S -> Prop) s :
  I lo a s ->
  (forall i b t, lo <= i < lo + Z.of_nat n -> I i b t ->
     wp (body i b) (fun r t' => match r with
                                | inl b' => I (i + 1) b' t'
                                | inr x => Q (inr x) t'
                                end) t) ->
  (forall b t, I (lo + Z.of_nat n) b t -> Q (inl b) t) ->
  wp (for_loop n lo body a) Q s.
Proof.
  revert lo a s. induction n as [|n IH]; intros lo a s Hi Hb He; cbn [for_loop].
  - apply wp_ret, He. by replace (lo + Z.of_nat 0) with lo by lia.
  - apply wp_bind. eapply wp_mono; [apply (Hb lo); [lia|done]|].
    intros [b'|x] t HI; [|by apply wp_ret].
    apply IH; [done| |].
    + intros i b t' Hr. apply Hb. lia.
    + intros b t' H. apply He. by replace (lo + _) with (lo + 1 + Z.of_nat n) by lia.
Qed.

Lemma wp_for_fold {A} (I : Z -> A -> S -> Prop) n lo body (a : A)
    (Q : A -> S -> Prop) s :
  I lo a s ->
  (forall i b t, lo <= i < lo + Z.of_nat n -> I i b t ->
     wp (body i b) (fun b' t' => I (i + 1) b' t') t) ->
  (forall b t, I (lo + Z.of_nat n) b t -> Q b t) ->
  wp (for_fold n lo body a) Q s.
Proof.
  revert lo a s. induction n as [|n IH]; intros lo a s Hi Hb He; cbn [for_fold].
  - apply wp_ret, He. by replace (lo + Z.of_nat 0) with lo by lia.
  - apply wp_bind. eapply wp_mono; [apply (Hb lo); [lia|done]|].
    intros b' t HI. apply IH; [done| |].
    + intros i b t' Hr. apply Hb. lia.
    + intros b t' H. apply He. by replace (lo + _) with (lo + 1 + Z.of_nat n) by lia.
Qed.

Lemma wp_for_do (I : Z -> S -> Prop) n lo body (Q : unit -> S -> Prop) s :
  I lo s ->
  (forall i t, lo <= i < lo + Z.of_nat n -> I i t ->
     wp (body i) (fun _ t' => I (i + 1) t') t) ->
  (forall t, I (lo + Z.of_nat n) t -> Q tt t) ->
  wp (for_do n lo body) Q s.
Proof.
  revert lo s. induction n as [|n IH]; intros lo s Hi Hb He; cbn [for_do].
  - apply wp_ret, He. by replace (lo + Z.of_nat 0) with lo by lia.
  - apply wp_bind. eapply wp_mono; [apply (Hb lo); [lia|done]|].
    intros [] t HI. apply IH; [done| |].
    + intros i t' Hr. apply Hb. lia.
    + intros t' H. apply He. by replace (lo + _) with (lo + 1 + Z.of_nat n) by lia.
Qed.

Lemma wp_for_find {R} (I : Z -> S -> Prop) n lo body (Q : option R -> S -> Prop) s :
  I lo s ->
  (forall i t, lo <= i < lo + Z.of_nat n -> I i t ->
     wp (body i) (fun r t' => match r with
                              | None => I (i + 1) t'
                              | Some x => Q (Some x) t'
                              end) t) ->
  (forall t, I (lo + Z.of_nat n) t -> Q None t) ->
  wp (for_find n lo body) Q s.
Proof.
  revert lo s. induction n as [|n IH]; intros lo s Hi Hb He; cbn [for_find].
  - apply wp_ret, He. by replace (lo + Z.of_nat 0) with lo by lia.
  - apply wp_bind. eapply wp_mono; [apply (Hb lo); [lia|done]|].
    intros [x|] t HI; [by apply wp_ret|].
    apply IH; [done| |].
    + intros i t' Hr. apply Hb. lia.
    + intros t' H. apply He. by replace (lo + _) with (lo + 1 + Z.of_nat n) by lia.
Qed.
End Rules.

(** A search loop over a list whose elements are left alone until the first one that
    satisfies [P], where the loop ends. *)
Lemma wp_search {S A R} (l : list A) (P : A -> bool) body (Q : option R -> S -> Prop) s :
  (forall k x, 0 <= k -> l !! Z.to_nat k = Some x -> P x = false -> body k s = Done (None, s)) ->
  match list_find (fun x => P x = true) l with
  | Some (k, x) => wp (body (Z.of_nat k)) (fun r t => r <> None /\ Q r t) s
  | None => Q None s
  end ->
  wp (for_find (length l) 0 body) Q s.
Proof.
  intros Hb HQ. assert (Hgen : forall j, (j <= length l)%nat ->
    list_find (fun x => P x = true) (take j l) = None ->
    wp (for_find (length l - j) (Z.of_nat j) body) Q s).
  2:{ specialize (Hgen 0%nat). rewrite Nat.sub_0_r in Hgen. apply Hgen; [lia|done]. }
  intros j Hj. remember (length l - j)%nat as n eqn:Hn. revert j Hj Hn.
  induction n as [|n IH]; intros j Hj Hn Hnone; cbn [for_find].
  - apply wp_ret. rewrite take_ge in Hnone by lia. by rewrite Hnone in HQ.
  - destruct (lookup_lt_ex l j) as [x Hx]; [lia|]. apply wp_bind. destruct (P x) eqn:HP.
    + assert (E : list_find (fun x => P x = true) l = Some (j, x)).
      { apply list_find_Some. split_and!; [done|done|]. intros k y Hy Hk.
        apply list_find_None in Hnone. apply (proj1 (list.Forall_forall _ _) Hnone).
        apply (list_elem_of_lookup_2 _ k). by rewrite lookup_take_lt. }
      rewrite E in HQ. apply (wp_mono _ _ _ _ HQ). by intros [r|] t [Hr HQr].
    + unfold wp. rewrite (Hb (Z.of_nat j) x) by (rewrite ?Nat2Z.id; lia || done).
      change (wp (for_find n (Z.of_nat j + 1) body) Q s).
      replace (Z.of_nat j + 1) with (Z.of_nat (Datatypes.S j)) by lia. apply IH; [lia|lia|].
      rewrite (take_S_snoc _ _ _ Hx). apply list_find_app_None. split; [done|].
      apply list_find_None, Forall_singleton. by rewrite HP.
Qed.

(** A search loop over a list that does not change the state finds the first element
    that satisfies [P]. *)
Lemma wp_scan {S A R} (l : list A) (P : A -> bool) (f : Z -> R) body (Q : option R -> S -> Prop) s :
  (forall k x, 0 <= k -> l !! Z.to_nat k = Some x ->
     body k s = Done (if P x then Some (f k) else None, s)) ->
  Q ((fun kx => f (Z.of_nat kx.1)) <$> list_find (fun x => P x = true) l) s ->
  wp (for_find (length l) 0 body) Q s.
Proof.
  intros Hb HQ. apply (wp_search l P).
  - intros k x Hk Hx HP. rewrite (Hb k x) by done. by rewrite HP.
  - destruct (list_find _ l) as [[k x]|] eqn:E; [|done].
    apply list_find_Some in E as (Hx & HP & _).
    unfold wp. rewrite (Hb _ x) by (rewrite ?Nat2Z.id; lia || done). by rewrite HP.
Qed.

(** The result and the final state of a run, for evaluation on concrete states. *)
Definition value {S A} (m : M S A) (s : S) : option A :=
  match m s with Done (a, _) => Some a | _ => None end.
Definition final {S A} (m : M S A) (s : S) : option S :=
  match m s with Done (_, t) => Some t | _ => None end.

(** ** Equational execution *)

Section Run.
Context {S : Type}.
Implicit Types (s : S).

Lemma run_bind {A B} (m : M S A) (k : A -> M S B) s a s' :
  m s = Done (a, s') -> (m ≫= k) s = k a s'.
Proof. unfold mbind, M_bind. by intros ->. Qed.

Lemma run_bind_inv {A B} (m : M S A) (k : A -> M S B) s b t :
  (m ≫= k) s = Done (b, t) -> exists a u, m s = Done (a, u) /\ k a u = Done (b, t).
Proof. unfold mbind, M_bind. destruct (m s) as [[a u]| |]; [|done..]. by exists a, u. Qed.

Lemma run_bind_ext {A B} (m : M S A) (k k' : A -> M S B) s :
  (forall a t, k a t = k' a t) -> (m ≫= k) s = (m ≫= k') s.
Proof. intros Hk. unfold mbind, M_bind. by destruct (m s) as [[a t]| |]. Qed.

Lemma run_bind_assoc {A B C} (m : M S A) (k : A -> M S B) (h : B -> M S C) s :
  ((m ≫= k) ≫= h) s = (m ≫= (fun a => k a ≫= h)) s.
Proof. unfold mbind, M_bind. by destruct (m s) as [[a t]| |]. Qed.

Lemma run_bind_undef {A B} (m : M S A) (k : A -> M S B) s :
  m s = Undef -> (m ≫= k) s = Undef.
Proof. unfold mbind, M_bind. by intros ->. Qed.

Lemma run_wp_undef {A B} (m : M S A) (k : A -> M S B) s :
  wp m (fun a t => k a t = Undef) s -> (m ≫= k) s = Undef.
Proof. unfold wp, mbind, M_bind. destruct (m s) as [[a t]| |]; done. Qed.

(** A loop whose round [j] is undefined. *)
Lemma for_fold_undef {A} (I : Z -> A -> S -> Prop) n lo j body (a : A) s :
  (j < n)%nat -> I lo a s ->
  (forall i b t, lo <= i < lo + Z.of_nat j -> I i b t -> wp (body i b) (fun b' t' => I (i + 1) b' t') t) ->
  (forall b t, I (lo + Z.of_nat j) b t -> body (lo + Z.of_nat j) b t = Undef) ->
  for_fold n lo body a s = Undef.
Proof.
  revert n lo a s. induction j as [|j IH]; intros [|n] lo a s Hj Hi Hb Hu; [lia| |lia|]; cbn [for_fold].
  - apply run_bind_undef. specialize (Hu a s). rewrite Z.add_0_r in Hu. by apply Hu.
  - destruct (proj1 (wp_done _ _ _) (Hb lo a s ltac:(lia) Hi)) as (b & t & E & Ht).
    rewrite (run_bind _ _ _ _ _ E). apply IH; [lia|done| |].
    + intros i b' t' Hi'. apply Hb. lia.
    + replace (lo + 1 + Z.of_nat j) with (lo + Z.of_nat (Datatypes.S j)) by lia. exact Hu.
Qed.

Lemma run_bind_hang {A B} (m : M S A) (k : A -> M S B) s :
  m s = Hang -> (m ≫= k) s = Hang.
Proof. unfold mbind, M_bind. by intros ->. Qed.

Lemma run_gets {A B} (f : S -> A) (k : A -> M S B) s : (gets f ≫= k) s = k (f s) s.
Proof. done. Qed.

Lemma run_modify {B} (f : S -> S) (k : unit -> M S B) s : (modify f ≫= k) s = k tt (f s).
Proof. done. Qed.

Lemma run_deref {A B} (a : A) (k : A -> M S B) s : (deref (Some a) ≫= k) s = k a s.
Proof. done. Qed.

Lemma run_ret {A B} (a : A) (k : A -> M S B) s : (mret a ≫= k) s = k a s.
Proof. done. Qed.

(** A program is its result when its weakest precondition pins the result down. *)
Lemma wp_run {A} (m : M S A) s a s' :
  wp m (fun b t => b = a /\ t = s') s <-> m s = Done (a, s').
Proof.
  rewrite wp_done. split.
  - by intros (? & ? & -> & -> & ->).
  - intros H. eauto.
Qed.

(** The same when only the value is pinned down. *)
Lemma wp_value {A} (m : M S A) s a (P : S -> Prop) :
  wp m (fun b t => b = a /\ P t) s -> exists t, m s = Done (a, t) /\ P t.
Proof. intros (b & t & Hr & -> & HP)%wp_done. eauto. Qed.

Lemma wp_value_of {A} (m : M S A) s a : wp m (fun b _ => b = a) s -> value m s = Some a.
Proof. intros (b & t & Hr & ->)%wp_done. unfold value. by rewrite Hr. Qed.
End Run.

(** Runs the next primitive, whose result is known to [tac]. *)
Ltac run_with tac :=
  first
    [ rewrite run_gets | rewrite run_modify | rewrite run_deref | rewrite run_ret
    | erewrite run_bind; [|tac] ]; cbv beta iota.

(** One step of symbolic execution. *)
Ltac wp_step :=
  lazymatch goal with
  | |- wp (mbind _ _) _ _ => apply wp_bind
  | |- wp (mret _) _ _ => apply wp_ret
  | |- wp (gets _) _ _ => apply wp_gets
  | |- wp (modify _) _ _ => apply wp_modify
  | |- wp (deref (Some _)) _ _ => apply wp_deref
  | |- wp (lift (Done _)) _ _ => eapply wp_lift; [reflexivity|]
  end; cbv beta iota zeta.

Ltac wp_steps := cbv beta iota zeta; repeat wp_step.
