(* ===== verification/Layout.v ===== *)
(** * On-disk layout

    The structures of fs.h as records, and the bytes the ARM compiler gives them
    (little endian, AAPCS alignment): what the casts between [uint8_t*] and the
    structure types in kernel.c compute.  Each layout is an instance of the class
    [Layout]; its round-trip laws are the instance of [LayoutLaws]. *)

From S2P Require Import Prelude.

Definition BLOCK_SIZE : Z := 512.
Definition ROOT_DIR : Z := 0.
Definition NDADDR : nat := 11.
Definition NIADDR : nat := 3.
Definition MAXNAMLEN : nat := 25.

(** ** Little-endian words *)

Fixpoint le_bytes (n : nat) (z : Z) : list Z :=
  match n with
  | O => []
  | S n' => z mod 256 :: le_bytes n' (z / 256)
  end.

Fixpoint le_val (bs : list Z) : Z :=
  match bs with
  | [] => 0
  | b :: bs' => b + 256 * le_val bs'
  end.

(** [n] consecutive slices of [k] elements: how an array of [k]-byte elements
    lies in memory. *)
Fixpoint chunks {A} (k n : nat) (l : list A) : list (list A) :=
  match n with
  | O => []
  | S n' => take k l :: chunks k n' (drop k l)
  end.

(** [(uint32_t* )p] read as an array of [n] words, and back. *)
Definition dec_words (n : nat) (bs : list Z) : list Z := le_val <$> chunks 4 n bs.
Definition enc_words (ws : list Z) : list Z := mjoin (le_bytes 4 <$> ws).

(** ** The structures *)

(** [icommon_t]: the on-core inode, 64 bytes. *)
Record icommon_t := mk_icommon {
  ic_mode : Z;
  ic_size : Z;
  ic_db : list Z;
  ic_ib : list Z;
}.

(** [dir_t]: a directory entry, 32 bytes. *)
Record dir_t := mk_dir {
  d_ino : Z;
  d_namlen : Z;
  d_name : list Z;
}.

(** [fs_t]: the superblock, 512 bytes with its padding. *)
Record fs_t := mk_fs {
  fs_sblkno : Z;
  fs_size : Z;
  fs_iblkno : Z;
  fs_isize : Z;
  fs_dblkno : Z;
  fs_dsize : Z;
  fs_fdbhead : Z;
  fs_fdb : list Z;
  fs_fil : list Z;
  fs_pad : list Z;
}.

(** [mode_t], and the number each enumerator has in [ic_mode]. *)
Inductive mode_t := IFZERO | IFLNK | IFDIR | IFREG.
Definition mode_val (m : mode_t) : Z :=
  match m with IFZERO => 0 | IFLNK => 1 | IFDIR => 2 | IFREG => 3 end.

(** ** The layout class *)

Class Layout (A : Type) := {
  lsize : nat;
  enc : A -> list Z;
  dec : list Z -> A;
  lwf : A -> Prop;
}.
Arguments lsize A {_}.

Class LayoutLaws (A : Type) `{Layout A} := {
  lsize_pos : (0 < lsize A)%nat;
  length_enc (x : A) : lwf x -> length (enc x) = lsize A;
  enc_bytes (x : A) : lwf x -> Forall is_byte (enc x);
  dec_enc (x : A) : lwf x -> dec (enc x) = x;
  dec_wf (bs : list Z) : length bs = lsize A -> Forall is_byte bs -> lwf (dec bs : A);
  enc_dec (bs : list Z) : length bs = lsize A -> Forall is_byte bs -> enc (dec bs : A) = bs;
}.

Definition dec_arr {A} `{Layout A} (n : nat) (bs : list Z) : list A :=
  dec <$> chunks (lsize A) n bs.
Definition enc_arr {A} `{Layout A} (xs : list A) : list Z := mjoin (enc <$> xs).

#[export] Instance icommon_layout : Layout icommon_t := {
  lsize := 64;
  enc ic := enc_words (ic_mode ic :: ic_size ic :: ic_db ic ++ ic_ib ic);
  dec bs :=
    let ws := dec_words 16 bs in
    mk_icommon (nth 0 ws 0) (nth 1 ws 0) (take 11 (drop 2 ws)) (take 3 (drop 13 ws));
  lwf ic := is_u32 (ic_mode ic) /\ is_u32 (ic_size ic) /\
            length (ic_db ic) = NDADDR /\ length (ic_ib ic) = NIADDR /\
            Forall is_u32 (ic_db ic) /\ Forall is_u32 (ic_ib ic);
}.

#[export] Instance dir_layout : Layout dir_t := {
  lsize := 32;
  enc d := le_bytes 4 (d_ino d) ++ le_bytes 2 (d_namlen d) ++ d_name d;
  dec bs := mk_dir (le_val (take 4 bs)) (le_val (take 2 (drop 4 bs))) (drop 6 bs);
  lwf d := is_u32 (d_ino d) /\ is_u16 (d_namlen d) /\
           length (d_name d) = S MAXNAMLEN /\ Forall is_byte (d_name d);
}.

#[export] Instance fs_layout : Layout fs_t := {
  lsize := 512;
  enc f := enc_words ([fs_sblkno f; fs_size f; fs_iblkno f; fs_isize f; fs_dblkno f;
                       fs_dsize f; fs_fdbhead f] ++ fs_fdb f ++ fs_fil f) ++ fs_pad f;
  dec bs :=
    let ws := dec_words 103 bs in
    mk_fs (nth 0 ws 0) (nth 1 ws 0) (nth 2 ws 0) (nth 3 ws 0) (nth 4 ws 0) (nth 5 ws 0)
      (nth 6 ws 0) (take 64 (drop 7 ws)) (take 32 (drop 71 ws)) (drop 412 bs);
  lwf f := (is_u32 (fs_sblkno f) /\ is_u32 (fs_size f) /\ is_u32 (fs_iblkno f) /\
            is_u32 (fs_isize f) /\ is_u32 (fs_dblkno f) /\ is_u32 (fs_dsize f) /\
            is_u32 (fs_fdbhead f)) /\
           (length (fs_fdb f) = 64%nat /\ Forall is_u32 (fs_fdb f)) /\
           (length (fs_fil f) = 32%nat /\ Forall is_u32 (fs_fil f)) /\
           (length (fs_pad f) = 100%nat /\ Forall is_byte (fs_pad f));
}.

(** ** Words *)

Section Words.
Implicit Types (bs ws : list Z) (z : Z) (n k : nat).

Lemma length_le_bytes n z : length (le_bytes n z) = n.
Proof. revert z. induction n; cbn; auto. Qed.

Lemma le_bytes_bytes n z : Forall is_byte (le_bytes n z).
Proof.
  revert z. induction n as [|n IH]; intros z; cbn; constructor; [|done].
  apply Z.mod_pos_bound. lia.
Qed.

Lemma le_val_bound bs : Forall is_byte bs -> 0 <= le_val bs < 256 ^ Z.of_nat (length bs).
Proof.
  induction 1 as [|b bs Hb _ IH]; cbn [le_val length]; [done|].
  rewrite Nat2Z.inj_succ, Z.pow_succ_r by lia. unfold is_byte in Hb. lia.
Qed.

Lemma le_val_bytes n z : 0 <= z < 256 ^ Z.of_nat n -> le_val (le_bytes n z) = z.
Proof.
  revert z. induction n as [|n IH]; intros z Hz; cbn [le_val le_bytes].
  - cbn in Hz. lia.
  - rewrite Nat2Z.inj_succ, Z.pow_succ_r in Hz by lia.
    rewrite IH.
    + pose proof (Z.div_mod z 256). lia.
    + split; [apply Z.div_pos; lia|apply Z.div_lt_upper_bound; lia].
Qed.

Lemma le_bytes_val bs : Forall is_byte bs -> le_bytes (length bs) (le_val bs) = bs.
Proof.
  induction 1 as [|b bs Hb _ IH]; cbn [le_val le_bytes length]; [done|].
  unfold is_byte in Hb. f_equal.
  - rewrite Z.mul_comm, Z.mod_add, Z.mod_small; lia.
  - rewrite Z.mul_comm, Z.div_add, Z.div_small by lia. done.
Qed.

(** The same three laws at the width of a word. *)
Lemma le_val_u32 bs : length bs = 4%nat -> Forall is_byte bs -> is_u32 (le_val bs).
Proof. intros Hl Hb. pose proof (le_val_bound bs Hb) as H. by rewrite Hl in H. Qed.

Lemma le_val_u16 bs : length bs = 2%nat -> Forall is_byte bs -> is_u16 (le_val bs).
Proof. intros Hl Hb. pose proof (le_val_bound bs Hb) as H. by rewrite Hl in H. Qed.

Lemma le_val_le_bytes4 z : is_u32 z -> le_val (le_bytes 4 z) = z.
Proof. apply (le_val_bytes 4). Qed.

Lemma le_bytes4_le_val bs :
  length bs = 4%nat -> Forall is_byte bs -> le_bytes 4 (le_val bs) = bs.
Proof. intros Hl Hb. rewrite <-Hl at 1. by apply le_bytes_val. Qed.

Lemma le_bytes2_le_val bs :
  length bs = 2%nat -> Forall is_byte bs -> le_bytes 2 (le_val bs) = bs.
Proof. intros Hl Hb. rewrite <-Hl at 1. by apply le_bytes_val. Qed.
End Words.

#[export] Hint Rewrite length_le_bytes : arm.
#[export] Hint Resolve le_bytes_bytes : arm.

(** ** Chunks *)

Section Chunks.
Context {A : Type}.
Implicit Types (l : list A) (ls : list (list A)) (k n : nat).

Lemma length_chunks k n l : length (chunks k n l) = n.
Proof. revert l. induction n; cbn; auto. Qed.

Lemma chunks_lookup k n l i :
  (i < n)%nat -> chunks k n l !! i = Some (take k (drop (i * k) l)).
Proof.
  revert l i. induction n as [|n IH]; intros l i Hi; [lia|].
  destruct i as [|i]; cbn [chunks]; [done|].
  change (chunks k n (drop k l) !! i = Some (take k (drop (S i * k) l))).
  rewrite IH by lia. by rewrite drop_drop.
Qed.

Lemma chunks_join k ls :
  Forall (fun l => length l = k) ls -> chunks k (length ls) (mjoin ls) = ls.
Proof.
  induction 1 as [|l ls Hl _ IH]; cbn; [done|].
  rewrite take_app_length', drop_app_length' by done. by f_equal.
Qed.

Lemma join_chunks k n l : length l = (n * k)%nat -> mjoin (chunks k n l) = l.
Proof.
  revert l. induction n as [|n IH]; intros l Hl; cbn.
  - by destruct l.
  - rewrite IH by (rewrite length_drop; lia). apply take_drop.
Qed.

Lemma chunks_Forall_length k n l :
  length l = (n * k)%nat -> Forall (fun c => length c = k) (chunks k n l).
Proof.
  revert l. induction n as [|n IH]; intros l Hl; cbn; constructor.
  - rewrite length_take. lia.
  - apply IH. rewrite length_drop. lia.
Qed.

Lemma chunks_Forall (P : A -> Prop) k n l :
  Forall P l -> Forall (Forall P) (chunks k n l).
Proof.
  revert l. induction n as [|n IH]; intros l Hl; cbn; constructor;
    auto using Forall_take, Forall_drop.
Qed.
End Chunks.

(** ** Arrays of words *)

Section WordArrays.
Implicit Types (bs ws : list Z).

Lemma length_dec_words n bs : length (dec_words n bs) = n.
Proof. unfold dec_words. by rewrite length_fmap, length_chunks. Qed.

Lemma dec_words_u32 n bs :
  length bs = (n * 4)%nat -> Forall is_byte bs -> Forall is_u32 (dec_words n bs).
Proof.
  intros Hl Hb. apply Forall_fmap, Forall_lookup. intros i c Hc. apply le_val_u32.
  - by apply (Forall_lookup_1 _ _ i c (chunks_Forall_length 4 n bs Hl)).
  - by apply (Forall_lookup_1 _ _ i c (chunks_Forall _ 4 n bs Hb)).
Qed.

Lemma enc_words_cons w ws : enc_words (w :: ws) = le_bytes 4 w ++ enc_words ws.
Proof. done. Qed.

Lemma length_enc_words ws : length (enc_words ws) = (length ws * 4)%nat.
Proof.
  induction ws as [|w ws IH]; [done|].
  rewrite enc_words_cons, length_app, IH, length_le_bytes. cbn [length]. lia.
Qed.

Lemma enc_words_bytes ws : Forall is_byte (enc_words ws).
Proof.
  apply Forall_join, Forall_fmap, Forall_true. intros w. apply le_bytes_bytes.
Qed.

Lemma dec_enc_words ws : Forall is_u32 ws -> dec_words (length ws) (enc_words ws) = ws.
Proof.
  intros Hw. unfold dec_words, enc_words.
  rewrite <-(length_fmap (le_bytes 4) ws) at 1.
  rewrite chunks_join.
  - induction Hw as [|w ws Hw' _ IH]; [done|].
    rewrite !fmap_cons, le_val_le_bytes4 by done. by f_equal.
  - apply Forall_fmap, Forall_true. intros w. apply length_le_bytes.
Qed.

Lemma enc_dec_words n bs :
  length bs = (n * 4)%nat -> Forall is_byte bs -> enc_words (dec_words n bs) = bs.
Proof.
  intros Hl Hb. unfold enc_words, dec_words. rewrite <-list_fmap_compose.
  assert (forall cs, Forall (fun c => length c = 4%nat) cs -> Forall (Forall is_byte) cs ->
            (le_bytes 4 ∘ le_val) <$> cs = cs) as Hid.
  { intros cs H1 H2. induction cs as [|c cs IH]; [done|].
    inversion H1; inversion H2; subst.
    rewrite fmap_cons, IH by done. f_equal. by apply le_bytes4_le_val. }
  rewrite Hid by first [by apply chunks_Forall_length | by apply chunks_Forall].
  by apply join_chunks.
Qed.

Lemma dec_words_lookup n bs i :
  (i < n)%nat -> dec_words n bs !! i = Some (le_val (take 4 (drop (i * 4) bs))).
Proof. intros Hi. unfold dec_words. by rewrite list_lookup_fmap, chunks_lookup. Qed.

(** Only the first [4 * n] bytes matter to the [n] words read there. *)
Lemma dec_words_take n bs : dec_words n (take (n * 4) bs) = dec_words n bs.
Proof.
  apply list_eq. intros i. destruct (decide (i < n)%nat).
  - rewrite !dec_words_lookup by done. do 2 f_equal.
    rewrite skipn_firstn_comm, take_take. f_equal. lia.
  - by rewrite !lookup_ge_None_2 by (rewrite length_dec_words; lia).
Qed.

Lemma dec_words_app ws bs :
  Forall is_u32 ws -> dec_words (length ws) (enc_words ws ++ bs) = ws.
Proof.
  intros Hw. rewrite <-dec_words_take, take_app_length' by by rewrite length_enc_words.
  by apply dec_enc_words.
Qed.
End WordArrays.

#[global] Arguments le_bytes : simpl never.
#[global] Arguments le_val : simpl never.
#[global] Arguments enc_words : simpl never.
#[global] Arguments dec_words : simpl never.

(** ** The laws of the three structures *)

Lemma icommon_words ws :
  length ws = 16%nat ->
  nth 0 ws 0 :: nth 1 ws 0 :: take 11 (drop 2 ws) ++ take 3 (drop 13 ws) = ws.
Proof.
  intros Hl. do 16 (destruct ws as [|? ws]; [done|]). by destruct ws.
Qed.

#[export] Instance icommon_laws : LayoutLaws icommon_t.
Proof.
  split; cbn -[take drop].
  - lia.
  - intros ic (_ & _ & Hd & Hi & _).
    rewrite length_enc_words. cbn [length]. rewrite length_app, Hd, Hi. done.
  - intros. apply enc_words_bytes.
  - intros [m z db ib] (Hm & Hz & Hd & Hi & Fd & Fi). cbn -[take drop] in *.
    assert (length (m :: z :: db ++ ib) = 16%nat) as Hl
      by (cbn; rewrite length_app, Hd, Hi; done).
    rewrite <-Hl, dec_enc_words by (repeat constructor; try apply Hm; try apply Hz;
                                    by apply Forall_app).
    change (drop 2 (m :: z :: db ++ ib)) with (db ++ ib).
    change (drop 13 (m :: z :: db ++ ib)) with (drop 11 (db ++ ib)).
    cbn [nth]. f_equal.
    + rewrite take_app_le by (rewrite Hd; done). by apply take_ge; rewrite Hd.
    + rewrite drop_app_ge by (rewrite Hd; done). rewrite Hd.
      by apply take_ge; rewrite Hi.
  - intros bs Hl Hb. pose proof (dec_words_u32 16 bs Hl Hb) as Hw.
    pose proof (length_dec_words 16 bs) as Hlw. revert Hw Hlw.
    generalize (dec_words 16 bs). intros ws Hw Hlw.
    assert (forall i, (i < 16)%nat -> is_u32 (nth i ws 0)) as Hn.
    { intros i Hi. destruct (lookup_lt_ex ws i) as [x Hx]; [lia|].
      rewrite (nth_lookup_Some _ _ _ _ Hx). by apply (Forall_lookup_1 _ _ _ _ Hw Hx). }
    repeat split; try (apply Hn; lia); try (apply Forall_take, Forall_drop; done);
      rewrite length_take, length_drop, Hlw; done.
  - intros bs Hl Hb. rewrite icommon_words by apply length_dec_words.
    by apply enc_dec_words.
Qed.

#[export] Instance dir_laws : LayoutLaws dir_t.
Proof.
  split; cbn -[take drop].
  - lia.
  - intros d (_ & _ & Hn & _). rewrite !length_app, !length_le_bytes, Hn. done.
  - intros d (_ & _ & _ & Hb). rewrite !Forall_app. auto using le_bytes_bytes.
  - intros [i n nm] (Hi & Hn & _ & _). cbn -[take drop] in *. f_equal.
    + rewrite take_app_length' by by rewrite length_le_bytes. by apply le_val_le_bytes4.
    + rewrite drop_app_length', take_app_length' by by rewrite length_le_bytes.
      by apply (le_val_bytes 2).
  - intros bs Hl Hb. split_and!.
    + apply le_val_u32; [rewrite length_take; lia|auto using Forall_take].
    + apply le_val_u16; [rewrite length_take, length_drop; lia|].
      auto using Forall_take, Forall_drop.
    + rewrite length_drop, Hl. done.
    + by apply Forall_drop.
  - intros bs Hl Hb.
    assert (length (take 2 (drop 4 bs)) = 2%nat) as E
      by (rewrite length_take, length_drop; lia).
    rewrite le_bytes4_le_val by (rewrite ?length_take; try lia; auto using Forall_take).
    rewrite le_bytes2_le_val by auto using Forall_take, Forall_drop.
    replace (drop 6 bs) with (drop 2 (drop 4 bs)) by (by rewrite drop_drop).
    by rewrite !take_drop.
Qed.

Lemma fs_words ws :
  length ws = 103%nat ->
  [nth 0 ws 0; nth 1 ws 0; nth 2 ws 0; nth 3 ws 0; nth 4 ws 0; nth 5 ws 0; nth 6 ws 0] ++
  take 64 (drop 7 ws) ++ take 32 (drop 71 ws) = ws.
Proof.
  intros Hl. replace (drop 71 ws) with (drop 64 (drop 7 ws)) by by rewrite drop_drop.
  rewrite (take_ge (drop 64 (drop 7 ws))) by (rewrite !length_drop; lia).
  rewrite take_drop. do 7 (destruct ws as [|? ws]; [done|]). done.
Qed.

Lemma fs_layout_words f :
  lwf f ->
  length ([fs_sblkno f; fs_size f; fs_iblkno f; fs_isize f; fs_dblkno f; fs_dsize f;
           fs_fdbhead f] ++ fs_fdb f ++ fs_fil f) = 103%nat /\
  Forall is_u32 ([fs_sblkno f; fs_size f; fs_iblkno f; fs_isize f; fs_dblkno f; fs_dsize f;
           fs_fdbhead f] ++ fs_fdb f ++ fs_fil f).
Proof.
  intros ((? & ? & ? & ? & ? & ? & ?) & (Hd & ?) & (Hi & ?) & _).
  split; [by rewrite !length_app, Hd, Hi|]. rewrite !Forall_app. split_and!; [|done|done].
  repeat (apply Forall_cons_2; [done|]). apply Forall_nil_2.
Qed.

#[export] Instance fs_laws : LayoutLaws fs_t.
Proof.
  split; cbn -[take drop app].
  - lia.
  - intros f Hf. destruct (fs_layout_words f Hf) as [Hl _]. destruct Hf as (_ & _ & _ & Hp & _).
    by rewrite length_app, length_enc_words, Hl, Hp.
  - intros f Hf. apply Forall_app; split; [apply enc_words_bytes|]. apply Hf.
  - intros f Hf. destruct (fs_layout_words f Hf) as [Hl Hu].
    destruct Hf as (_ & (Hd & _) & (Hi & _) & _).
    pose proof (dec_words_app _ (fs_pad f) Hu) as Hdec.
    pose proof (length_enc_words ([fs_sblkno f; fs_size f; fs_iblkno f; fs_isize f;
      fs_dblkno f; fs_dsize f; fs_fdbhead f] ++ fs_fdb f ++ fs_fil f)) as Hle.
    rewrite Hl in Hdec, Hle. rewrite Hdec. destruct f. cbn -[take drop] in *. f_equal.
    + change (take 64 (fs_fdb0 ++ fs_fil0) = fs_fdb0). by rewrite take_app_length'.
    + change (take 32 (drop 64 (fs_fdb0 ++ fs_fil0)) = fs_fil0).
      rewrite drop_app_length' by done. by rewrite take_ge by lia.
    + by rewrite drop_app_length'.
  - intros bs Hl Hb.
    assert (Forall is_u32 (dec_words 103 bs)) as Hw.
    { rewrite <-dec_words_take.
      apply dec_words_u32; [rewrite length_take; lia|by apply Forall_take]. }
    pose proof (length_dec_words 103 bs) as Hlw. revert Hw Hlw.
    generalize (dec_words 103 bs). intros ws Hw Hlw.
    assert (forall i, (i < 103)%nat -> is_u32 (nth i ws 0)) as Hn.
    { intros i Hi. destruct (lookup_lt_ex ws i) as [x Hx]; [lia|].
      rewrite (nth_lookup_Some _ _ _ _ Hx). by apply (Forall_lookup_1 _ _ _ _ Hw Hx). }
    split_and!; try (apply Hn; lia); auto using Forall_take, Forall_drop;
      rewrite ?length_take, length_drop; lia.
  - intros bs Hl Hb. rewrite fs_words by apply length_dec_words.
    rewrite <-(take_drop 412 bs) at 3. f_equal.
    rewrite <-dec_words_take. apply enc_dec_words; [rewrite length_take; lia|].
    by apply Forall_take.
Qed.

(** ** Arrays of structures in a block *)

Section StructArrays.
Context {A : Type} `{LayoutLaws A}.
Implicit Types (xs : list A) (bs : list Z).

Lemma length_dec_arr n bs : length (dec_arr n bs : list A) = n.
Proof. unfold dec_arr. by rewrite length_fmap, length_chunks. Qed.

Lemma enc_arr_cons x xs : enc_arr (x :: xs) = enc x ++ enc_arr xs.
Proof. done. Qed.

Lemma length_enc_arr xs : Forall lwf xs -> length (enc_arr xs) = (length xs * lsize A)%nat.
Proof.
  induction 1 as [|x xs Hx _ IH]; [done|].
  rewrite enc_arr_cons, length_app, IH, length_enc by done. cbn. lia.
Qed.

Lemma enc_arr_bytes xs : Forall lwf xs -> Forall is_byte (enc_arr xs).
Proof.
  induction 1 as [|x xs Hx _ IH]; [constructor|].
  rewrite enc_arr_cons. apply Forall_app; auto using enc_bytes.
Qed.

Lemma dec_enc_arr xs : Forall lwf xs -> dec_arr (length xs) (enc_arr xs) = xs.
Proof.
  intros Hxs. unfold dec_arr, enc_arr. rewrite <-(length_fmap enc xs), chunks_join.
  - induction Hxs as [|x xs Hx _ IH]; [done|]. by rewrite !fmap_cons, dec_enc, IH.
  - apply Forall_fmap. revert Hxs. apply Forall_impl. intros x Hx. by apply length_enc.
Qed.

Lemma dec_arr_wf n bs :
  length bs = (n * lsize A)%nat -> Forall is_byte bs -> Forall lwf (dec_arr n bs : list A).
Proof.
  intros Hl Hb. apply Forall_fmap, Forall_lookup. intros i c Hc. apply dec_wf.
  - by apply (Forall_lookup_1 _ _ i c (chunks_Forall_length (lsize A) n bs Hl)).
  - by apply (Forall_lookup_1 _ _ i c (chunks_Forall _ (lsize A) n bs Hb)).
Qed.

Lemma enc_dec_arr n bs :
  length bs = (n * lsize A)%nat -> Forall is_byte bs -> enc_arr (dec_arr n bs : list A) = bs.
Proof.
  intros Hl Hb. unfold enc_arr, dec_arr. rewrite <-list_fmap_compose.
  rewrite <-(join_chunks (lsize A) n bs Hl) at 2. f_equal.
  pose proof (chunks_Forall_length (lsize A) n bs Hl) as H1.
  pose proof (chunks_Forall _ (lsize A) n bs Hb) as H2. revert H1 H2.
  generalize (chunks (lsize A) n bs). intros cs. induction cs as [|c cs IH]; [done|].
  intros H1 H2. inversion H1; inversion H2; subst.
  rewrite fmap_cons, IH by done. f_equal. by apply enc_dec.
Qed.

Lemma dec_arr_lookup n bs i :
  (i < n)%nat ->
  (dec_arr n bs : list A) !! i = Some (dec (take (lsize A) (drop (i * lsize A) bs))).
Proof. intros Hi. unfold dec_arr. by rewrite list_lookup_fmap, chunks_lookup. Qed.
End StructArrays.
