(* ===== verification/BlockDev.v ===== *)
(** * The block device interface

    What the file system needs from [disk_rd] and [disk_wr] (device/disk.h), as a
    class with laws.  Every theorem about the file system is proved against the
    laws; [MemDisk] is the executable instance its witnesses run on, and
    UartProof.v shows that the UART driver talking to the disk server is another. *)

From S2P Require Import Prelude CMonad Layout.

(** disk.sh starts the server with 512-byte blocks, and every read in kernel.c asks
    for 512 bytes.  A read returns the block, or [None] when the server refused the
    address three times; [Hang] when no answer ever comes. *)
Class BlockDevice (D : Type) := {
  dev_num : Z;
  dev_rd : D -> Z -> outcome (option (list Z) * D);
  dev_wr : D -> Z -> list Z -> outcome D;
  dev_ok : D -> Prop;
  dev_blk : D -> Z -> list Z;
}.
Arguments dev_num D {_}.

Definition is_block (bs : list Z) : Prop := length bs = 512%nat /\ Forall is_byte bs.

Class BlockDeviceLaws (D : Type) `{BlockDevice D} := {
  dev_num_range : 0 <= dev_num D < 2 ^ 31;
  dev_blk_block (d : D) a : dev_ok d -> 0 <= a < dev_num D -> is_block (dev_blk d a);
  dev_rd_ok (d : D) a :
    dev_ok d -> 0 <= a < dev_num D -> dev_rd d a = Done (Some (dev_blk d a), d);
  dev_rd_refused (d : D) a :
    dev_ok d -> dev_num D <= a < 2 ^ 31 -> dev_rd d a = Done (None, d);
  dev_rd_dead (d : D) a :
    dev_ok d -> 2 ^ 31 <= a < 2 ^ 32 -> dev_rd d a = Hang;
  dev_wr_ok (d : D) a xs :
    dev_ok d -> 0 <= a < dev_num D -> (0 < length xs <= 512)%nat -> Forall is_byte xs ->
    exists d', dev_wr d a xs = Done d' /\ dev_ok d' /\
      forall b, 0 <= b < dev_num D ->
        dev_blk d' b = if decide (b = a) then overlay xs (dev_blk d a) else dev_blk d b;
  dev_wr_refused (d : D) a xs :
    dev_ok d -> dev_num D <= a < 2 ^ 31 -> (0 < length xs)%nat -> Forall is_byte xs ->
    dev_wr d a xs = Done d;
  dev_wr_dead (d : D) a xs :
    dev_ok d -> 2 ^ 31 <= a < 2 ^ 32 -> Forall is_byte xs -> dev_wr d a xs = Hang;
}.

(** ** A disk in memory

    Block [a] is [m !! a], or zeroes, as on an image made by newdisk.sh. *)

Definition zero_block : list Z := replicate 512 0.

Record MemDisk := mk_mem { mem_blocks : gmap Z (list Z) }.

Definition mem_blk (d : MemDisk) (a : Z) : list Z := default zero_block (mem_blocks d !! a).

#[export] Instance mem_device : BlockDevice MemDisk := {
  dev_num := 2048;
  dev_rd d a :=
    if a <? 2048 then Done (Some (mem_blk d a), d)
    else if a <? 2 ^ 31 then Done (None, d) else Hang;
  dev_wr d a xs :=
    if a <? 2048 then Done (mk_mem (<[a := overlay xs (mem_blk d a)]> (mem_blocks d)))
    else if a <? 2 ^ 31 then Done d else Hang;
  dev_ok d := map_Forall (fun _ b => is_block b) (mem_blocks d);
  dev_blk := mem_blk;
}.

Lemma zero_block_block : is_block zero_block.
Proof. split; [done|]. apply Forall_replicate. done. Qed.

Lemma mem_blk_block d a : dev_ok d -> is_block (mem_blk d a).
Proof.
  intros Hok. unfold mem_blk. destruct (mem_blocks d !! a) as [b|] eqn:E; cbn.
  - by apply (Hok a).
  - apply zero_block_block.
Qed.

Lemma overlay_block xs b :
  is_block b -> (length xs <= 512)%nat -> Forall is_byte xs -> is_block (overlay xs b).
Proof.
  intros [Hl Hb] Hx Hbx. split; [|by apply Forall_overlay].
  rewrite length_overlay; lia.
Qed.

#[export] Instance mem_laws : BlockDeviceLaws MemDisk.
Proof.
  split; cbn.
  - lia.
  - intros. by apply mem_blk_block.
  - intros d a _ Ha. by destruct (Z.ltb_spec a 2048); [|lia].
  - intros d a _ Ha. destruct (Z.ltb_spec a 2048); [lia|].
    by destruct (Z.ltb_spec a (2 ^ 31)); [|lia].
  - intros d a _ Ha. destruct (Z.ltb_spec a 2048); [lia|].
    by destruct (Z.ltb_spec a (2 ^ 31)); [lia|].
  - intros d a xs Hok Ha Hl Hb. destruct (Z.ltb_spec a 2048); [|lia].
    eexists. split_and!; [done| |].
    + apply map_Forall_insert_2; [|done]. apply overlay_block; [by apply mem_blk_block|lia|done].
    + intros b _. unfold mem_blk at 1. cbn. case_decide; subst.
      * by rewrite lookup_insert_eq.
      * by rewrite lookup_insert_ne.
  - intros d a xs _ Ha _ _. destruct (Z.ltb_spec a 2048); [lia|].
    by destruct (Z.ltb_spec a (2 ^ 31)); [|lia].
  - intros d a xs _ Ha _. destruct (Z.ltb_spec a 2048); [lia|].
    by destruct (Z.ltb_spec a (2 ^ 31)); [lia|].
Qed.
