(* ===== verification/Kernel.v ===== *)
(** * The kernel's state

    The data of kernel.h and mqueue.h, the globals of kernel.c as one record, the
    kernel monad over it, and its primitive accesses with their rules.  A pointer
    into one of the kernel's arrays is the index it points at, [None] is NULL. *)

From S2P Require Import Prelude CMonad Layout BlockDev.

(** ** Limits *)

Definition PROCESS_LIMIT : Z := 8.
Definition FDT_LIMIT : Z := 16.
Definition OFT_LIMIT : Z := FDT_LIMIT * PROCESS_LIMIT.
Definition AIT_LIMIT : Z := OFT_LIMIT.
Definition MSGCHAN_LIMIT : Z := 32.
Definition STDIO : Z := 0x7FFFFFFF.

(** ** Enumerations of terms.h, by the number a system call passes *)

Inductive sig_t := SIGKILL | SIGWAIT | SIGCONT | SIGPRI0.
Definition sig_of (z : Z) : option sig_t :=
  match z with
  | 0 => Some SIGKILL | 1 => Some SIGWAIT | 2 => Some SIGCONT | 3 => Some SIGPRI0
  | _ => None
  end.

#[export] Instance sig_eq_dec : EqDecision sig_t.
Proof. solve_decision. Defined.

Inductive whence_t := SEEK_SET | SEEK_CUR | SEEK_END.
Definition whence_of (z : Z) : option whence_t :=
  match z with 0 => Some SEEK_SET | 1 => Some SEEK_CUR | 2 => Some SEEK_END | _ => None end.

Inductive oflag_t := O_CREAT | O_EXIST.
Definition oflag_val (o : oflag_t) : Z := match o with O_CREAT => 0 | O_EXIST => 1 end.

(** ** Processes *)

Record ctx_t := mk_ctx { cpsr : Z; pc : Z; gpr : list Z; sp : Z; lr : Z }.

Inductive pst_t := TERMINATED | CREATED | READY | EXECUTING | WAITING.

#[export] Instance pst_eq_dec : EqDecision pst_t.
Proof. solve_decision. Defined.

Record pcb_t := mk_pcb {
  pid : Z;
  prt : Z;
  ctx : ctx_t;
  pst : pst_t;
  defp : Z;
  prio : Z;
  fd : list (option Z);
}.

(** What [memset(p, 0, sizeof(pcb_t))] leaves. *)
Definition zero_ctx : ctx_t := mk_ctx 0 0 (replicate 13 0) 0 0.
Definition zero_pcb : pcb_t := mk_pcb 0 0 zero_ctx TERMINATED 0 0 (replicate 16 None).

Definition set_pid (v : Z) (p : pcb_t) := mk_pcb v (prt p) (ctx p) (pst p) (defp p) (prio p) (fd p).
Definition set_prt (v : Z) (p : pcb_t) := mk_pcb (pid p) v (ctx p) (pst p) (defp p) (prio p) (fd p).
Definition set_ctx (v : ctx_t) (p : pcb_t) :=
  mk_pcb (pid p) (prt p) v (pst p) (defp p) (prio p) (fd p).
Definition set_pst (v : pst_t) (p : pcb_t) :=
  mk_pcb (pid p) (prt p) (ctx p) v (defp p) (prio p) (fd p).
Definition set_defp (v : Z) (p : pcb_t) := mk_pcb (pid p) (prt p) (ctx p) (pst p) v (prio p) (fd p).
Definition set_prio (v : Z) (p : pcb_t) := mk_pcb (pid p) (prt p) (ctx p) (pst p) (defp p) v (fd p).
Definition set_fd (v : list (option Z)) (p : pcb_t) :=
  mk_pcb (pid p) (prt p) (ctx p) (pst p) (defp p) (prio p) v.

Definition set_gpr (i : nat) (v : Z) (c : ctx_t) : ctx_t :=
  mk_ctx (cpsr c) (pc c) (<[i := u32 v]> (gpr c)) (sp c) (lr c).

(** ** Message queues *)

Record mqueue := mk_mq {
  msg_qname : Z;
  msg_qnum : Z;
  msg_qrec : Z;
  msg_lspid : Z;
  msg_lrpid : Z;
  msg_qbuf : list Z;
}.

(** ** Open files *)

Record inode_t := mk_inode { i_number : Z; i_links : Z; i_ic : icommon_t }.

Record ofile_t := mk_ofile { o_inptr : option Z; o_head : Z }.

Definition set_mode (v : Z) (i : inode_t) : inode_t :=
  mk_inode (i_number i) (i_links i)
    (mk_icommon v (ic_size (i_ic i)) (ic_db (i_ic i)) (ic_ib (i_ic i))).
Definition set_size (v : Z) (i : inode_t) : inode_t :=
  mk_inode (i_number i) (i_links i)
    (mk_icommon (ic_mode (i_ic i)) v (ic_db (i_ic i)) (ic_ib (i_ic i))).
Definition set_db (v : list Z) (i : inode_t) : inode_t :=
  mk_inode (i_number i) (i_links i)
    (mk_icommon (ic_mode (i_ic i)) (ic_size (i_ic i)) v (ic_ib (i_ic i))).
Definition set_ib (v : list Z) (i : inode_t) : inode_t :=
  mk_inode (i_number i) (i_links i)
    (mk_icommon (ic_mode (i_ic i)) (ic_size (i_ic i)) (ic_db (i_ic i)) v).
Definition set_number (v : Z) (i : inode_t) : inode_t := mk_inode v (i_links i) (i_ic i).
Definition set_links (v : Z) (i : inode_t) : inode_t := mk_inode (i_number i) v (i_ic i).

(** ** The device registers the kernel writes *)

Inductive hwreg :=
  | UART0_IMSC | UART0_CR | UART0_ICR
  | TIMER0_Load | TIMER0_Ctrl | TIMER0_IntClr
  | GICC0_PMR | GICC0_CTLR | GICC0_EOIR | GICD0_ISENABLER1 | GICD0_CTLR
  | CPSR_I.

#[export] Instance hwreg_eq_dec : EqDecision hwreg.
Proof. solve_decision. Defined.

(** ** The globals of kernel.c

    [k_mem] is the memory user pointers point into (bytes, zero where never written;
    it is apart from the kernel's own objects), [k_out] and [k_in] the characters
    written to and still to be read from UART0, [k_disk] what is behind UART1. *)

Record kernel (D : Type) := mk_kernel {
  k_pcb : list pcb_t;
  k_current : option Z;
  k_rq : list (option Z);
  k_rq_size : Z;
  k_mq : list mqueue;
  k_oft : list ofile_t;
  k_ai : list inode_t;
  k_fs : fs_t;
  k_cwd : Z;
  k_disk : D;
  k_mem : gmap Z Z;
  k_out : list Z;
  k_in : list Z;
  k_hw : hwreg -> Z;
}.
Arguments mk_kernel {D}.
Arguments k_pcb {D}.
Arguments k_current {D}.
Arguments k_rq {D}.
Arguments k_rq_size {D}.
Arguments k_mq {D}.
Arguments k_oft {D}.
Arguments k_ai {D}.
Arguments k_fs {D}.
Arguments k_cwd {D}.
Arguments k_disk {D}.
Arguments k_mem {D}.
Arguments k_out {D}.
Arguments k_in {D}.
Arguments k_hw {D}.

Definition set_k_pcb {D} (v : list pcb_t) (s : kernel D) : kernel D :=
  mk_kernel v (k_current s) (k_rq s) (k_rq_size s) (k_mq s) (k_oft s) (k_ai s) (k_fs s) (k_cwd s) (k_disk s) (k_mem s) (k_out s) (k_in s) (k_hw s).
Definition set_k_current {D} (v : option Z) (s : kernel D) : kernel D :=
  mk_kernel (k_pcb s) v (k_rq s) (k_rq_size s) (k_mq s) (k_oft s) (k_ai s) (k_fs s) (k_cwd s) (k_disk s) (k_mem s) (k_out s) (k_in s) (k_hw s).
Definition set_k_rq {D} (v : list (option Z)) (s : kernel D) : kernel D :=
  mk_kernel (k_pcb s) (k_current s) v (k_rq_size s) (k_mq s) (k_oft s) (k_ai s) (k_fs s) (k_cwd s) (k_disk s) (k_mem s) (k_out s) (k_in s) (k_hw s).
Definition set_k_rq_size {D} (v : Z) (s : kernel D) : kernel D :=
  mk_kernel (k_pcb s) (k_current s) (k_rq s) v (k_mq s) (k_oft s) (k_ai s) (k_fs s) (k_cwd s) (k_disk s) (k_mem s) (k_out s) (k_in s) (k_hw s).
Definition set_k_mq {D} (v : list mqueue) (s : kernel D) : kernel D :=
  mk_kernel (k_pcb s) (k_current s) (k_rq s) (k_rq_size s) v (k_oft s) (k_ai s) (k_fs s) (k_cwd s) (k_disk s) (k_mem s) (k_out s) (k_in s) (k_hw s).
Definition set_k_oft {D} (v : list ofile_t) (s : kernel D) : kernel D :=
  mk_kernel (k_pcb s) (k_current s) (k_rq s) (k_rq_size s) (k_mq s) v (k_ai s) (k_fs s) (k_cwd s) (k_disk s) (k_mem s) (k_out s) (k_in s) (k_hw s).
Definition set_k_ai {D} (v : list inode_t) (s : kernel D) : kernel D :=
  mk_kernel (k_pcb s) (k_current s) (k_rq s) (k_rq_size s) (k_mq s) (k_oft s) v (k_fs s) (k_cwd s) (k_disk s) (k_mem s) (k_out s) (k_in s) (k_hw s).
Definition set_k_fs {D} (v : fs_t) (s : kernel D) : kernel D :=
  mk_kernel (k_pcb s) (k_current s) (k_rq s) (k_rq_size s) (k_mq s) (k_oft s) (k_ai s) v (k_cwd s) (k_disk s) (k_mem s) (k_out s) (k_in s) (k_hw s).
Definition set_k_cwd {D} (v : Z) (s : kernel D) : kernel D :=
  mk_kernel (k_pcb s) (k_current s) (k_rq s) (k_rq_size s) (k_mq s) (k_oft s) (k_ai s) (k_fs s) v (k_disk s) (k_mem s) (k_out s) (k_in s) (k_hw s).
Definition set_k_disk {D} (v : D) (s : kernel D) : kernel D :=
  mk_kernel (k_pcb s) (k_current s) (k_rq s) (k_rq_size s) (k_mq s) (k_oft s) (k_ai s) (k_fs s) (k_cwd s) v (k_mem s) (k_out s) (k_in s) (k_hw s).
Definition set_k_mem {D} (v : gmap Z Z) (s : kernel D) : kernel D :=
  mk_kernel (k_pcb s) (k_current s) (k_rq s) (k_rq_size s) (k_mq s) (k_oft s) (k_ai s) (k_fs s) (k_cwd s) (k_disk s) v (k_out s) (k_in s) (k_hw s).
Definition set_k_out {D} (v : list Z) (s : kernel D) : kernel D :=
  mk_kernel (k_pcb s) (k_current s) (k_rq s) (k_rq_size s) (k_mq s) (k_oft s) (k_ai s) (k_fs s) (k_cwd s) (k_disk s) (k_mem s) v (k_in s) (k_hw s).
Definition set_k_in {D} (v : list Z) (s : kernel D) : kernel D :=
  mk_kernel (k_pcb s) (k_current s) (k_rq s) (k_rq_size s) (k_mq s) (k_oft s) (k_ai s) (k_fs s) (k_cwd s) (k_disk s) (k_mem s) (k_out s) v (k_hw s).
Definition set_k_hw {D} (v : hwreg -> Z) (s : kernel D) : kernel D :=
  mk_kernel (k_pcb s) (k_current s) (k_rq s) (k_rq_size s) (k_mq s) (k_oft s) (k_ai s) (k_fs s) (k_cwd s) (k_disk s) (k_mem s) (k_out s) (k_in s) v.

(** ** The globals at power on: the loader clears .bss *)

Definition zero_inode : inode_t := mk_inode 0 0 (mk_icommon 0 0 (replicate 11 0) (replicate 3 0)).
Definition zero_mq : mqueue := mk_mq 0 0 0 0 0 (replicate 64 0).
Definition zero_fs : fs_t := mk_fs 0 0 0 0 0 0 0 (replicate 64 0) (replicate 32 0) (replicate 100 0).

Definition bss {D} (d : D) (input : list Z) : kernel D :=
  mk_kernel (replicate 8 zero_pcb) None (replicate 8 None) 0 (replicate 32 zero_mq)
    (replicate 128 (mk_ofile None 0)) (replicate 128 zero_inode) zero_fs 0 d ∅ [] input
    (fun _ => 0).

(** ** Arrays of the state

    A global array, as the pair of its projection and its update; both accesses are
    bounds-checked. *)

Record field (D A : Type) := mk_field {
  fget : kernel D -> list A;
  fset : list A -> kernel D -> kernel D;
}.
Arguments mk_field {D A}.
Arguments fget {D A}.
Arguments fset {D A}.

Definition Pcb {D} : field D pcb_t := mk_field k_pcb set_k_pcb.
Definition Rq {D} : field D (option Z) := mk_field k_rq set_k_rq.
Definition Mq {D} : field D mqueue := mk_field k_mq set_k_mq.
Definition Oft {D} : field D ofile_t := mk_field k_oft set_k_oft.
Definition Ai {D} : field D inode_t := mk_field k_ai set_k_ai.

Definition at_ {D A} (F : field D A) (i : Z) : M (kernel D) A :=
  l ← gets (fget F); lift (aget l i).

Definition upd {D A} (F : field D A) (i : Z) (f : A -> A) : M (kernel D) unit :=
  l ← gets (fget F);
  x ← lift (aget l i);
  l' ← lift (aset l i (f x));
  modify (fset F l').

(** [&F\[i\]], a pointer that must stay inside the array. *)
Definition addr_of {D A} (F : field D A) (i : Z) : M (kernel D) (option Z) :=
  _ ← at_ F i; mret (Some i).

Section AccessRules.
Context {D A : Type} (F : field D A).
Implicit Types (s : kernel D) (x : A).

Lemma wp_at i x Q s :
  0 <= i -> fget F s !! Z.to_nat i = Some x -> Q x s -> wp (at_ F i) Q s.
Proof.
  intros Hi Hx HQ. unfold at_. wp_steps.
  apply (wp_lift _ x); [by apply aget_done|done].
Qed.

Lemma wp_upd i x f Q s :
  0 <= i -> fget F s !! Z.to_nat i = Some x ->
  Q tt (fset F (<[Z.to_nat i := f x]> (fget F s)) s) -> wp (upd F i f) Q s.
Proof.
  intros Hi Hx HQ. unfold upd. wp_steps.
  apply (wp_lift _ x); [by apply aget_done|]. wp_steps.
  pose proof (lookup_lt_Some _ _ _ Hx).
  eapply wp_lift; [apply aset_done; lia|]. by wp_steps.
Qed.

Lemma wp_addr_of i x Q s :
  0 <= i -> fget F s !! Z.to_nat i = Some x -> Q (Some i) s -> wp (addr_of F i) Q s.
Proof. intros Hi Hx HQ. unfold addr_of. wp_step. by apply (wp_at i x). Qed.

Lemma at_run i x s :
  0 <= i -> fget F s !! Z.to_nat i = Some x -> at_ F i s = Done (x, s).
Proof. intros Hi Hx. apply wp_run. by eapply wp_at. Qed.

Lemma upd_run i x f s :
  0 <= i -> fget F s !! Z.to_nat i = Some x ->
  upd F i f s = Done (tt, fset F (<[Z.to_nat i := f x]> (fget F s)) s).
Proof. intros Hi Hx. apply wp_run. by eapply wp_upd. Qed.

Lemma at_undef i s : ~ (0 <= i < Z.of_nat (length (fget F s))) -> at_ F i s = Undef.
Proof. intros Hi. unfold at_, mbind, M_bind, gets, lift. by rewrite aget_undef. Qed.

Lemma upd_undef i f s : ~ (0 <= i < Z.of_nat (length (fget F s))) -> upd F i f s = Undef.
Proof. intros Hi. unfold upd, mbind, M_bind, gets, lift. by rewrite aget_undef. Qed.
End AccessRules.

(** [current], dereferenced. *)
Definition cur {D} : M (kernel D) pcb_t :=
  c ← gets k_current; p ← deref c; at_ Pcb p.

Definition upd_cur {D} (f : pcb_t -> pcb_t) : M (kernel D) unit :=
  c ← gets k_current; p ← deref c; upd Pcb p f.

Section CurrentRules.
Context {D : Type}.
Implicit Types (s : kernel D).

Lemma cur_run s p x :
  k_current s = Some p -> 0 <= p -> k_pcb s !! Z.to_nat p = Some x -> cur s = Done (x, s).
Proof.
  intros Hc Hp Hx. unfold cur. rewrite run_gets, Hc, run_deref. by apply (at_run Pcb p).
Qed.

Lemma upd_cur_run s p x f :
  k_current s = Some p -> 0 <= p -> k_pcb s !! Z.to_nat p = Some x ->
  upd_cur f s = Done (tt, set_k_pcb (<[Z.to_nat p := f x]> (k_pcb s)) s).
Proof.
  intros Hc Hp Hx. unfold upd_cur. rewrite run_gets, Hc, run_deref.
  by apply (upd_run Pcb p).
Qed.

Lemma wp_cur s p x Q :
  k_current s = Some p -> 0 <= p -> k_pcb s !! Z.to_nat p = Some x -> Q x s -> wp cur Q s.
Proof. intros. unfold wp. by erewrite cur_run. Qed.

Lemma wp_upd_cur s p x f Q :
  k_current s = Some p -> 0 <= p -> k_pcb s !! Z.to_nat p = Some x ->
  Q tt (set_k_pcb (<[Z.to_nat p := f x]> (k_pcb s)) s) -> wp (upd_cur f) Q s.
Proof. intros. unfold wp. by erewrite upd_cur_run. Qed.
End CurrentRules.

(** ** User memory *)

Definition mem_byte {D} (s : kernel D) (a : Z) : Z := default 0 (k_mem s !! u32 a).

(** The [n] bytes at [a]. *)
Definition mem_read {D} (a : Z) (n : nat) : M (kernel D) (list Z) :=
  gets (fun s => mem_byte s <$> seqZ a (Z.of_nat n)).

Fixpoint mem_store (a : Z) (bs : list Z) (m : gmap Z Z) : gmap Z Z :=
  match bs with
  | [] => m
  | b :: bs' => mem_store (a + 1) bs' (<[u32 a := b]> m)
  end.

Definition mem_write {D} (a : Z) (bs : list Z) : M (kernel D) unit :=
  modify (fun s => set_k_mem (mem_store a bs (k_mem s)) s).

(** The C string at [a] with its terminator; a string with none in the first [n]
    bytes runs off what the model looks at. *)
Fixpoint mem_string {D} (n : nat) (a : Z) : M (kernel D) (list Z) :=
  match n with
  | O => lift Undef
  | S n' =>
      c ← gets (fun s => mem_byte s a);
      if c =? 0 then mret [0]
      else rest ← mem_string n' (a + 1); mret (c :: rest)
  end.

(** *** What was stored is read back *)

Section UserMemory.
Context {D : Type}.
Implicit Types (s : kernel D) (m : gmap Z Z) (bs : list Z).

Lemma mem_store_other a bs m x :
  (forall k, 0 <= k < Z.of_nat (length bs) -> u32 (a + k) <> x) -> mem_store a bs m !! x = m !! x.
Proof.
  revert a m. induction bs as [|b bs IH]; intros a m Hx; [done|]. cbn [mem_store length] in *.
  rewrite IH.
  - apply lookup_insert_ne. intros E. apply (Hx 0); [lia|]. by rewrite Z.add_0_r.
  - intros k Hk. replace (a + 1 + k) with (a + (k + 1)) by lia. apply Hx. lia.
Qed.

Lemma u32_add_inj a k k' : 0 <= k < 2 ^ 32 -> 0 <= k' < 2 ^ 32 -> u32 (a + k) = u32 (a + k') -> k = k'.
Proof.
  unfold u32. intros Hk Hk' E.
  assert (E' : ((a + k) - a) mod 2 ^ 32 = ((a + k') - a) mod 2 ^ 32) by (by rewrite Zminus_mod, E, <-Zminus_mod).
  replace (a + k - a) with k in E' by lia. replace (a + k' - a) with k' in E' by lia.
  by rewrite !Z.mod_small in E'.
Qed.

Lemma mem_store_at a bs m k b :
  Z.of_nat (length bs) <= 2 ^ 32 -> bs !! k = Some b -> mem_store a bs m !! u32 (a + Z.of_nat k) = Some b.
Proof.
  revert a m k. induction bs as [|b' bs IH]; intros a m k Hl Hk; [done|]. cbn [mem_store length] in *.
  destruct k as [|k].
  - injection Hk as ->. rewrite Z.add_0_r, mem_store_other; [by rewrite lookup_insert_eq|].
    intros k Hk E. replace (a + 1 + k) with (a + (k + 1)) in E by lia. rewrite <-(Z.add_0_r a) in E at 2.
    apply u32_add_inj in E; lia.
  - replace (a + Z.of_nat (S k)) with (a + 1 + Z.of_nat k) by lia. apply IH; [lia|done].
Qed.

(** What was stored is read back. *)
Lemma mem_stored s a bs m :
  Z.of_nat (length bs) <= 2 ^ 32 ->
  mem_byte (set_k_mem (mem_store a bs m) s) <$> seqZ a (Z.of_nat (length bs)) = bs.
Proof.
  intros Hl. apply list_eq. intros k. rewrite list_lookup_fmap. destruct (bs !! k) as [b|] eqn:E.
  - pose proof (lookup_lt_Some _ _ _ E). rewrite lookup_seqZ_lt by lia. cbn.
    unfold mem_byte. cbn. by rewrite (mem_store_at a bs m k b).
  - apply lookup_ge_None in E. by rewrite lookup_seqZ_ge by lia.
Qed.
End UserMemory.

(** ** The disk, as the kernel calls it

    A buffer is [None] while its contents are indeterminate.  A refused read leaves
    the buffer as it was, and using an indeterminate buffer is undefined. *)

Section Disk.
Context {D : Type} `{BlockDevice D}.

Definition disk_rd (a : Z) (buf : option (list Z)) : M (kernel D) (option (list Z)) :=
  d ← gets k_disk;
  '(r, d') ← lift (dev_rd d (u32 a));
  modify (set_k_disk d') ;;
  mret match r with Some b => Some b | None => buf end.

Definition disk_wr (a : Z) (x : list Z) : M (kernel D) unit :=
  d ← gets k_disk;
  d' ← lift (dev_wr d (u32 a) x);
  modify (set_k_disk d').

(** A read into a fresh local buffer that is used next. *)
Definition disk_rd_new (a : Z) : M (kernel D) (list Z) :=
  b ← disk_rd a None; deref b.
End Disk.

(** The state after the disk became [d']: what a block write is to the rest of the
    kernel. *)
Section DiskRules.
Context {D : Type} `{BlockDeviceLaws D}.
Implicit Types (s : kernel D).

Definition valid_addr (a : Z) : Prop := 0 <= a < dev_num D.

Lemma valid_addr_u32 a : valid_addr a -> u32 a = a.
Proof.
  unfold valid_addr. intros Ha. pose proof dev_num_range. apply u32_small. red. lia.
Qed.

Lemma set_k_disk_id s : set_k_disk (k_disk s) s = s.
Proof. by destruct s. Qed.

Lemma wp_disk_rd a buf Q s :
  dev_ok (k_disk s) -> valid_addr a -> Q (Some (dev_blk (k_disk s) a)) s ->
  wp (disk_rd a buf) Q s.
Proof.
  intros Hok Ha HQ. unfold disk_rd. wp_steps. rewrite valid_addr_u32 by done.
  eapply wp_lift; [by apply dev_rd_ok|]. wp_steps. by rewrite set_k_disk_id.
Qed.

Lemma wp_disk_rd_new a Q s :
  dev_ok (k_disk s) -> valid_addr a -> Q (dev_blk (k_disk s) a) s ->
  wp (disk_rd_new a) Q s.
Proof. intros Hok Ha HQ. unfold disk_rd_new. wp_step. by apply wp_disk_rd. Qed.

Lemma wp_disk_wr a x Q s :
  dev_ok (k_disk s) -> valid_addr a -> (0 < length x <= 512)%nat -> Forall is_byte x ->
  (forall d', dev_ok d' ->
     (forall b, valid_addr b ->
        dev_blk d' b = if decide (b = a) then overlay x (dev_blk (k_disk s) a)
                       else dev_blk (k_disk s) b) ->
     Q tt (set_k_disk d' s)) ->
  wp (disk_wr a x) Q s.
Proof.
  intros Hok Ha Hl Hb HQ. unfold disk_wr. wp_steps. rewrite valid_addr_u32 by done.
  destruct (dev_wr_ok (k_disk s) a x Hok Ha Hl Hb) as (d' & Hw & Hok' & Hblk).
  eapply wp_lift; [done|]. wp_steps. apply HQ; [done|]. intros b Hb'. by apply Hblk.
Qed.
End DiskRules.
Arguments valid_addr D {_}.
