(* ===== verification/Sched.v ===== *)
(** * Processes and the ready queue

    [kill], [fork], the ready queue and the scheduler of kernel.c (lines 18-35 and
    75-204); [exec] is in Posix.v because it reads a file. *)

From S2P Require Import Prelude CMonad Layout BlockDev Kernel.

(** ** The comparator

    [cmp_pcb] orders two entries of the ready queue ([None] is an empty entry). *)
Definition cmp_pcb (p1 p2 : option pcb_t) : Z :=
  match p1, p2 with
  | None, Some _ => 1
  | Some _, None => -1
  | None, None => 0
  | Some a, Some b =>
      if bool_decide (pst a = TERMINATED) && bool_decide (pst b <> TERMINATED) then 1
      else if bool_decide (pst a <> TERMINATED) && bool_decide (pst b = TERMINATED) then -1
      else if bool_decide (pst a = WAITING) && bool_decide (pst b <> WAITING) then 1
      else if bool_decide (pst a <> WAITING) && bool_decide (pst b = WAITING) then -1
      else if (prio a =? 0) && (prio b >? 0) then 1
      else if (prio a >? 0) && (prio b =? 0) then -1
      else if defp a <? defp b then 1
      else if defp a >? defp b then -1
      else if pid a >? pid b then 1
      else if pid a <? pid b then -1
      else 0
  end.

Section Ops.
Context {D : Type}.
Local Abbreviation K := (M (kernel D)).

(** [rq\[i\] = rq\[i+1\]] for [lo <= i < hi]. *)
Definition rq_shift (lo hi : Z) : K unit :=
  for_do (Z.to_nat (hi - lo)) lo (fun i => x ← at_ Rq (i + 1); upd Rq i (fun _ => x)).

(** The recursion of [rq_rotate] is bounded by [fuel]; running out of it stands for
    a recursion that does not end. *)
Fixpoint rq_rotate (fuel : nat) : K unit :=
  match fuel with
  | O => lift Hang
  | S fuel' =>
      head ← at_ Rq 0;
      size ← gets k_rq_size;
      let last := s32 match head with None => size | Some _ => u32 (size - 1) end in
      rq_shift 0 last ;;
      upd Rq last (fun _ => head) ;;
      h ← at_ Rq 0;
      p ← deref h;
      x ← at_ Pcb p;
      if bool_decide (pst x <> EXECUTING) then rq_rotate fuel' else mret tt
  end.

Definition rq_add (p : Z) : K unit :=
  size ← gets k_rq_size;
  when (size <? PROCESS_LIMIT)
    (q ← addr_of Pcb p;
     upd Rq size (fun _ => q) ;;
     modify (set_k_rq_size (u32 (size + 1)))).

(** [rq_rm] re-reads [rq_size] at every test of its loop. *)
Fixpoint rq_rm_from (fuel : nat) (p : Z) (id : Z) : K unit :=
  match fuel with
  | O => lift Hang
  | S fuel' =>
      size ← gets k_rq_size;
      if p <? size then
        q ← at_ Rq p;
        e ← deref q;
        x ← at_ Pcb e;
        when (pid x =? id)
          (rq_shift p (size - 1) ;;
           upd Rq (size - 1) (fun _ => None) ;;
           modify (set_k_rq_size (size - 1))) ;;
        rq_rm_from fuel' (p + 1) id
      else mret tt
  end.

Definition rq_rm (id : Z) : K unit :=
  size ← gets k_rq_size;
  rq_rm_from (S (Z.to_nat size)) 0 id.

Definition fork (c : ctx_t) : K Z :=
  r ← for_find (Z.to_nat PROCESS_LIMIT) 0 (fun p =>
    x ← at_ Pcb p;
    if bool_decide (pst x = TERMINATED) then
      upd Pcb p (set_pid p) ;;
      parent ← cur;
      upd Pcb p (set_prt (pid parent)) ;;
      upd Pcb p (set_ctx c) ;;
      upd Pcb p (fun x => set_ctx (set_gpr 0 0 (ctx x)) x) ;;
      upd Pcb p (set_pst EXECUTING) ;;
      upd Pcb p (fun x => set_defp 0x7FFFFFFF (set_prio 0x7FFFFFFF x)) ;;
      rq_add p ;;
      mret (Some p)
    else mret None);
  mret match r with Some p => u32 p | None => u32 (-1) end.

Definition kill (p : Z) (sig : Z) : K unit :=
  if (0 <=? p) && (p <=? PROCESS_LIMIT) then
    match sig_of sig with
    | Some SIGKILL => upd Pcb p (set_pst TERMINATED) ;; rq_rm p
    | Some SIGWAIT => upd Pcb p (set_pst WAITING)
    | Some SIGCONT =>
        x ← at_ Pcb p;
        when (bool_decide (pst x = WAITING)) (upd Pcb p (set_pst EXECUTING))
    | Some SIGPRI0 => upd Pcb p (set_defp 0) ;; upd Pcb p (set_prio 0)
    | None => mret tt
    end
  else if (p =? 9) && bool_decide (sig_of sig = Some SIGKILL) then
    for_do (Z.to_nat (PROCESS_LIMIT - 1)) 1 (fun q => upd Pcb q (set_pst TERMINATED))
  else mret tt.

(** Enough recursion for every queue in which some process can run
    (SchedProof.rq_rotate_run); with none, no bound would do (SchedProof.rq_rotate_never). *)
Definition rotate_fuel : nat := Z.to_nat PROCESS_LIMIT.

(** [scheduler] works on the interrupted context [*ctx] the handler passes. *)
Definition scheduler (c : ctx_t) : K ctx_t :=
  rq_rotate rotate_fuel ;;
  h ← at_ Rq 0;
  match h with
  | None => mret c
  | Some p =>
      x ← at_ Pcb p;
      when (prio x =? 0)
        (size ← gets k_rq_size;
         for_do (Z.to_nat size) 0 (fun i =>
           q ← at_ Rq i; e ← deref q; upd Pcb e (fun y => set_prio (defp y) y))) ;;
      now ← gets k_current;
      if bool_decide (now = Some p) then
        upd_cur (fun y => set_prio (u32 (prio y - 1)) y) ;;
        mret c
      else
        me ← cur;
        upd Pcb (pid me) (set_ctx c) ;;
        next ← at_ Pcb p;
        modify (set_k_current (Some p)) ;;
        mret (ctx next)
  end.
End Ops.

(** Scheduling rounds, each interrupting some context. *)
Fixpoint ticks {D} (cs : list ctx_t) : M (kernel D) unit :=
  match cs with
  | [] => mret tt
  | c :: cs' => _ ← scheduler c; ticks cs'
  end.

(** The transitions of the process component: a fork, a signal to a process number of
    the table, a scheduling round. *)
Inductive sched_step {D} : kernel D -> kernel D -> Prop :=
  | step_fork c r s s' : fork c s = Done (r, s') -> sched_step s s'
  | step_kill p z s s' : 0 <= p < PROCESS_LIMIT -> kill p z s = Done (tt, s') -> sched_step s s'
  | step_sched c c' s s' : scheduler c s = Done (c', s') -> sched_step s s'.
