(* ===== verification/SchedProof.v ===== *)
(** * Scheduling: the ready queue refines a list of processes

    The representation of the ready queue as a list ([queue], [sched_wf]), what each
    operation of Sched.v does to it, and the properties of the process component:
    round robin order, fairness, deadlock, the queue invariant, [fork] and [kill]. *)

From S2P Require Import Prelude CMonad Layout BlockDev Kernel Sched.

(** ** The ready queue as a list *)

Definition queue (ps : list Z) : list (option Z) :=
  (Some <$> ps) ++ replicate (8 - length ps) None.

Definition execb {D} (s : kernel D) (p : Z) : bool :=
  match k_pcb s !! Z.to_nat p with
  | Some x => bool_decide (pst x = EXECUTING)
  | None => false
  end.

(** The queue holds the processes [ps], each once, with a pcb of its own index. *)
Record sched_wf {D} (s : kernel D) (ps : list Z) : Prop := {
  sw_pcb : length (k_pcb s) = 8%nat;
  sw_rq : k_rq s = queue ps;
  sw_size : k_rq_size s = Z.of_nat (length ps);
  sw_len : (length ps <= 8)%nat;
  sw_nodup : NoDup ps;
  sw_pids : forall p, p ∈ ps -> exists x, 0 <= p < 8 /\ k_pcb s !! Z.to_nat p = Some x /\ pid x = p;
  sw_cur : exists c x, k_current s = Some c /\ 0 <= c < 8 /\ k_pcb s !! Z.to_nat c = Some x /\ pid x = c;
}.

Lemma length_queue ps : (length ps <= 8)%nat -> length (queue ps) = 8%nat.
Proof. intros. unfold queue. rewrite length_app, length_fmap, length_replicate. lia. Qed.

Lemma queue_lookup ps i p : ps !! i = Some p -> queue ps !! i = Some (Some p).
Proof.
  intros Hi. unfold queue. rewrite lookup_app_l.
  - by rewrite list_lookup_fmap, Hi.
  - rewrite length_fmap. by eapply lookup_lt_Some.
Qed.

Lemma queue_lookup_None ps i :
  (length ps <= i < 8)%nat -> queue ps !! i = Some None.
Proof.
  intros Hi. unfold queue. rewrite lookup_app_r by (rewrite length_fmap; lia).
  rewrite length_fmap. apply lookup_replicate_2. lia.
Qed.

(** What [rq_shift lo hi] makes of the array. *)
Definition shift_list {A} (lo hi : nat) (l : list A) : list A :=
  take lo l ++ take (hi - lo) (drop (S lo) l) ++ drop hi l.

Lemma shift_list_nil {A} lo (l : list A) : shift_list lo lo l = l.
Proof. unfold shift_list. rewrite Nat.sub_diag. cbn. apply take_drop. Qed.

Lemma shift_list_step {A} lo hi (l : list A) x :
  (lo <= hi)%nat -> l !! S hi = Some x ->
  <[hi := x]> (shift_list lo hi l) = shift_list lo (S hi) l.
Proof.
  intros Hle Hx. unfold shift_list. pose proof (lookup_lt_Some _ _ _ Hx) as Hlt.
  assert (hi < length l)%nat as Hh by lia.
  rewrite insert_app_r_alt by (rewrite length_take; lia).
  rewrite length_take, Nat.min_l by lia. f_equal.
  rewrite insert_app_r_alt by (rewrite length_take, length_drop; lia).
  rewrite length_take, length_drop, Nat.min_l by lia.
  replace (hi - lo - (hi - lo))%nat with 0%nat by lia.
  replace (S hi - lo)%nat with (S (hi - lo)) by lia.
  rewrite (take_S_snoc _ _ x).
  2: { rewrite lookup_drop. by replace (S lo + (hi - lo))%nat with (S hi) by lia. }
  destruct (lookup_lt_ex l hi Hh) as [y Hy].
  rewrite (drop_S l y hi Hy). cbn. by rewrite <-app_assoc.
Qed.

Section RqSpecs.
Context {D : Type}.
Implicit Types (s : kernel D) (ps : list Z).

Lemma set_k_rq_same s : set_k_rq (k_rq s) s = s.
Proof. by destruct s. Qed.

Lemma wp_rq_shift lo hi Q s :
  0 <= lo <= hi -> hi < Z.of_nat (length (k_rq s)) ->
  Q tt (set_k_rq (shift_list (Z.to_nat lo) (Z.to_nat hi) (k_rq s)) s) ->
  wp (rq_shift lo hi) Q s.
Proof.
  intros Hlo Hhi HQ. unfold rq_shift.
  apply (wp_for_do (fun i t => t = set_k_rq (shift_list (Z.to_nat lo) (Z.to_nat i) (k_rq s)) s)).
  - by rewrite shift_list_nil, set_k_rq_same.
  - intros i t Hi ->.
    destruct (lookup_lt_ex (k_rq s) (S (Z.to_nat i))) as [x Hx]; [lia|].
    assert (Hs : shift_list (Z.to_nat lo) (Z.to_nat i) (k_rq s) !! Z.to_nat (i + 1) = Some x).
    { replace (Z.to_nat (i + 1)) with (S (Z.to_nat i)) by lia. unfold shift_list.
      rewrite lookup_app_r by (rewrite length_take; lia).
      rewrite lookup_app_r by (rewrite !length_take, length_drop; lia).
      rewrite lookup_drop, <-Hx. f_equal. rewrite !length_take, length_drop. lia. }
    wp_steps. apply (wp_at Rq _ x); [lia|done|].
    destruct (lookup_lt_ex (shift_list (Z.to_nat lo) (Z.to_nat i) (k_rq s)) (Z.to_nat i))
      as [y Hy]; [pose proof (lookup_lt_Some _ _ _ Hs); lia|].
    apply (wp_upd Rq _ y); [lia|done|]. cbn.
    rewrite shift_list_step by (lia || done).
    by replace (Z.to_nat (i + 1)) with (S (Z.to_nat i)) by lia.
  - intros t ->. by replace (lo + Z.of_nat (Z.to_nat (hi - lo))) with hi by lia.
Qed.

Lemma queue_rotate p r :
  (length r < 8)%nat ->
  <[length r := Some p]> (shift_list 0 (length r) (queue (p :: r))) = queue (r ++ [p]).
Proof.
  intros Hr. unfold shift_list, queue. rewrite Nat.sub_0_r, fmap_cons, length_app.
  cbn [take drop app length].
  rewrite drop_0, take_app_length' by by rewrite length_fmap.
  rewrite insert_app_r_alt by (rewrite length_fmap; lia).
  rewrite length_fmap, Nat.sub_diag, fmap_app, <-app_assoc. f_equal.
  assert (drop (length r) (Some p :: (Some <$> r) ++ replicate (8 - S (length r)) None)
          = drop (length r) (Some p :: (Some <$> r)) ++ replicate (8 - S (length r)) None) as ->.
  { change (Some p :: (Some <$> r) ++ ?z) with ((Some p :: (Some <$> r)) ++ z).
    apply drop_app_le. cbn. rewrite length_fmap. lia. }
  destruct (lookup_lt_ex (Some p :: (Some <$> r)) (length r)) as [y Hy];
    [cbn; rewrite length_fmap; lia|].
  rewrite (drop_S _ y) by done. rewrite drop_ge by (cbn; rewrite length_fmap; lia).
  cbn. by replace (length r + 1)%nat with (S (length r)) by lia.
Qed.

Lemma execb_exec s p x :
  k_pcb s !! Z.to_nat p = Some x -> execb s p = bool_decide (pst x = EXECUTING).
Proof. intros Hx. unfold execb. by rewrite Hx. Qed.

Definition set_queue ps s : kernel D := set_k_rq (queue ps) s.

Lemma sched_wf_set_queue s ps ps' :
  sched_wf s ps -> ps' ≡ₚ ps -> sched_wf (set_queue ps' s) ps'.
Proof.
  intros [? ? ? ? ? Hp ?] HP. split; cbn; try done.
  - by rewrite HP.
  - by rewrite HP.
  - by rewrite HP.
  - intros p. rewrite HP. apply Hp.
Qed.

(** The two writes of a turn move the head to the back of the queue. *)
Lemma rq_move_run p r s :
  sched_wf s (p :: r) ->
  rq_shift 0 (Z.of_nat (length r)) s =
    Done (tt, set_k_rq (shift_list 0 (length r) (queue (p :: r))) s) /\
  upd Rq (Z.of_nat (length r)) (fun _ => Some p)
    (set_k_rq (shift_list 0 (length r) (queue (p :: r))) s) =
    Done (tt, set_queue (r ++ [p]) s).
Proof.
  intros Hs. pose proof (sw_rq _ _ Hs) as Hrq. pose proof (sw_len _ _ Hs) as Hlen.
  cbn [length] in Hlen. split.
  - apply wp_run, wp_rq_shift; [lia|rewrite Hrq, length_queue; cbn; lia|].
    by rewrite Nat2Z.id, Hrq.
  - destruct (lookup_lt_ex (shift_list 0 (length r) (queue (p :: r))) (length r)) as [y Hy].
    { unfold shift_list. rewrite !length_app, !length_take, !length_drop, length_queue;
        cbn; lia. }
    rewrite (upd_run Rq _ y) by (rewrite ?Nat2Z.id; lia || done).
    rewrite Nat2Z.id. cbn [fget fset Rq k_rq set_k_rq]. by rewrite queue_rotate by lia.
Qed.

(** One turn of the recursion: the head goes to the back; the turn ends the
    recursion exactly when the new head can run. *)
Lemma rq_rotate_turn fuel p r s :
  sched_wf s (p :: r) ->
  rq_rotate (S fuel) s =
  match r ++ [p] with
  | q :: _ => if execb s q then Done (tt, set_queue (r ++ [p]) s)
              else rq_rotate fuel (set_queue (r ++ [p]) s)
  | [] => Undef
  end.
Proof.
  intros Hs. destruct (rq_move_run p r s Hs) as [Hmove1 Hmove2].
  pose proof Hs as [Hpcb Hrq Hsz Hlen Hnd Hpids Hcur]. cbn [rq_rotate length] in *.
  run_with ltac:(apply (at_run Rq _ (Some p)); [lia|by cbn; rewrite Hrq]).
  rewrite run_gets, Hsz, u32_small, s32_small by (try red; lia).
  replace (Z.of_nat (S (length r)) - 1) with (Z.of_nat (length r)) by lia.
  run_with ltac:(exact Hmove1). run_with ltac:(exact Hmove2).
  destruct (r ++ [p]) as [|q r'] eqn:E; [by destruct r|].
  assert (q ∈ p :: r) as Hq.
  { apply elem_of_Permutation. exists r'. by rewrite <-E, <-Permutation_cons_append. }
  destruct (Hpids q Hq) as (x & Hr & Hx & _).
  run_with ltac:(apply (at_run Rq _ (Some q)); done).
  rewrite run_deref.
  run_with ltac:(apply (at_run Pcb q x); [lia|done]).
  rewrite (execb_exec _ _ _ Hx).
  by destruct (decide (pst x = EXECUTING));
    [rewrite bool_decide_eq_false_2, bool_decide_eq_true_2 by tauto
    |rewrite bool_decide_eq_true_2, bool_decide_eq_false_2 by tauto].
Qed.
End RqSpecs.

(** ** Rotation: round robin over the processes that can run *)

Definition rotate1 {A} (l : list A) : list A :=
  match l with [] => [] | x :: r => r ++ [x] end.

(** The queue after [rq_rotate]: the first process behind the head (the head itself
    last) that can run comes first, the skipped ones go to the back. *)
Definition next_running {D} (s : kernel D) (ps pre : list Z) (p : Z) (post : list Z) : Prop :=
  rotate1 ps = pre ++ p :: post /\ Forall (fun q => execb s q = false) pre /\ execb s p = true.

Section Rotation.
Context {D : Type}.
Implicit Types (s : kernel D) (ps : list Z).

Lemma rq_rotate_run fuel s ps pre p post :
  sched_wf s ps -> next_running s ps pre p post -> (length pre < fuel)%nat ->
  rq_rotate fuel s = Done (tt, set_queue (p :: post ++ pre) s).
Proof.
  revert s ps post fuel. induction pre as [|q pre IH];
    intros s ps post [|fuel] Hs (Hrot & Hpre & Hp) Hfuel; [cbn in Hfuel; lia| | cbn in Hfuel; lia|].
  - destruct ps as [|h r]; [done|]. cbn in Hrot.
    rewrite (rq_rotate_turn _ h r) by done. rewrite Hrot. cbn. by rewrite Hp, app_nil_r.
  - destruct ps as [|h r]; [done|]. cbn in Hrot. inversion_clear Hpre as [|? ? Hq Hpre'].
    rewrite (rq_rotate_turn _ h r) by done. rewrite Hrot. cbn [app]. rewrite Hq.
    rewrite (IH _ (q :: pre ++ p :: post) (post ++ [q])).
    + unfold set_queue. cbn. by rewrite <-app_assoc.
    + eapply sched_wf_set_queue; [done|].
      cbn in Hrot. rewrite <-Hrot. by rewrite <-Permutation_cons_append.
    + split_and!; [cbn; by rewrite <-app_assoc|done|done].
    + cbn in Hfuel. lia.
Qed.

Lemma rq_rotate_never fuel s ps :
  sched_wf s ps -> ps <> [] -> Forall (fun q => execb s q = false) ps ->
  rq_rotate fuel s = Hang.
Proof.
  revert s ps. induction fuel as [|fuel IH]; intros s ps Hs Hne Hex; [done|].
  destruct ps as [|h r]; [done|]. rewrite (rq_rotate_turn _ h r) by done.
  assert (r ++ [h] ≡ₚ h :: r) as HP by by rewrite <-Permutation_cons_append.
  assert (Forall (fun q => execb s q = false) (r ++ [h])) as Hex' by by rewrite HP.
  destruct (r ++ [h]) as [|q r'] eqn:E; [by destruct r|].
  inversion_clear Hex' as [|? ? Hq Hr']. rewrite Hq.
  apply (IH _ (q :: r')); [by eapply sched_wf_set_queue|done|by constructor].
Qed.

(** An empty queue: the NULL head is dereferenced. *)
Lemma rq_rotate_empty fuel s : sched_wf s [] -> rq_rotate (S fuel) s = Undef.
Proof.
  intros Hs. pose proof (sw_rq _ _ Hs) as Hrq. cbn [rq_rotate].
  run_with ltac:(apply (at_run Rq 0 None); [done|cbn; by rewrite Hrq]).
  rewrite run_gets, (sw_size _ _ Hs). change (s32 (Z.of_nat (length []))) with 0.
  run_with ltac:(reflexivity).
  run_with ltac:(apply (upd_run Rq 0 None); [done|cbn; by rewrite Hrq]).
  run_with ltac:(apply (at_run Rq 0 None); [done|cbn; by rewrite Hrq]). done.
Qed.

(** Some process can run: the queue has a decomposition, and the fuel suffices. *)
Lemma next_running_ex s ps p :
  p ∈ ps -> execb s p = true -> exists pre q post, next_running s ps pre q post.
Proof.
  intros Hin Hp. destruct ps as [|h r]; [by apply not_elem_of_nil in Hin|].
  assert (p ∈ r ++ [h]) as Hin' by by rewrite <-Permutation_cons_append.
  unfold next_running. cbn [rotate1]. revert Hin'. generalize (r ++ [h]) as l.
  induction l as [|q l IH]; intros Hin'; [by apply not_elem_of_nil in Hin'|].
  destruct (execb s q) eqn:Eq.
  - exists [], q, l. split_and!; [done|constructor|done].
  - apply elem_of_cons in Hin' as [->|Hin']; [congruence|].
    destruct (IH Hin') as (pre & q' & post & -> & Hpre & Hq').
    exists (q :: pre), q', post. split_and!; [done|by constructor|done].
Qed.

Lemma next_running_perm s ps pre p post :
  next_running s ps pre p post -> p :: post ++ pre ≡ₚ ps.
Proof.
  intros (Hrot & _ & _). destruct ps as [|h r]; [by destruct pre|].
  cbn in Hrot. rewrite (Permutation_cons_append r h), Hrot. cbn.
  change (p :: post ++ pre) with ((p :: post) ++ pre). apply Permutation_app_comm.
Qed.

Lemma next_running_fuel s ps pre p post :
  sched_wf s ps -> next_running s ps pre p post -> (length pre < rotate_fuel)%nat.
Proof.
  intros Hs Hn. pose proof (sw_len _ _ Hs) as Hl.
  rewrite <-(next_running_perm _ _ _ _ _ Hn) in Hl. cbn in Hl.
  rewrite length_app in Hl. change rotate_fuel with 8%nat. lia.
Qed.
End Rotation.

(** ** The scheduler *)

(** The priority reset of every queued process. *)
Definition reset_prio (ps : list Z) (l : list pcb_t) : list pcb_t :=
  imap (fun j x => if bool_decide (Z.of_nat j ∈ ps) then set_prio (defp x) x else x) l.

Lemma alter_insert_list {A} (f : A -> A) (l : list A) i x :
  l !! i = Some x -> <[i := f x]> l = alter f i l.
Proof.
  intros Hx. apply list_eq. intros j. destruct (decide (i = j)) as [->|Hne].
  - rewrite list_lookup_insert_eq by by eapply lookup_lt_Some.
    by rewrite list_lookup_alter_eq, Hx.
  - by rewrite list_lookup_insert_ne, list_lookup_alter_ne.
Qed.

Lemma reset_prio_nil l : reset_prio [] l = l.
Proof.
  unfold reset_prio.
  apply list_eq. intros j. rewrite list_lookup_imap. by destruct (l !! j).
Qed.

Lemma reset_prio_lookup ps l j x :
  l !! j = Some x ->
  reset_prio ps l !! j =
    Some (if bool_decide (Z.of_nat j ∈ ps) then set_prio (defp x) x else x).
Proof. intros Hx. unfold reset_prio. by rewrite list_lookup_imap, Hx. Qed.

Lemma length_reset_prio ps l : length (reset_prio ps l) = length l.
Proof. apply length_imap. Qed.

Lemma reset_prio_step ps l e x :
  0 <= e -> l !! Z.to_nat e = Some x ->
  <[Z.to_nat e := set_prio (defp x) x]> (reset_prio ps l) = reset_prio (ps ++ [e]) l.
Proof.
  intros He Hx. apply list_eq. intros j. destruct (decide (Z.to_nat e = j)) as [<-|Hne].
  - rewrite list_lookup_insert_eq by (rewrite length_reset_prio; by eapply lookup_lt_Some).
    rewrite (reset_prio_lookup _ _ _ x) by done. rewrite bool_decide_eq_true_2; [done|].
    rewrite Z2Nat.id by done. apply elem_of_app. right. by apply list_elem_of_singleton.
  - rewrite list_lookup_insert_ne by done. unfold reset_prio. rewrite !list_lookup_imap.
    destruct (l !! j); [|done]. cbn. f_equal.
    rewrite (bool_decide_ext (Z.of_nat j ∈ ps) (Z.of_nat j ∈ ps ++ [e])); [done|].
    rewrite elem_of_app, list_elem_of_singleton. intuition lia.
Qed.

Section Scheduler.
Context {D : Type}.
Implicit Types (s : kernel D) (ps : list Z) (c : ctx_t).

Lemma wp_reset_loop s ps Q :
  sched_wf s ps ->
  Q tt (set_k_pcb (reset_prio ps (k_pcb s)) s) ->
  wp (for_do (length ps) 0 (fun i =>
        q ← at_ Rq i; e ← deref q; upd Pcb e (fun y => set_prio (defp y) y))) Q s.
Proof.
  intros Hs HQ. apply (wp_for_do (fun i t =>
    t = set_k_pcb (reset_prio (take (Z.to_nat i) ps) (k_pcb s)) s)).
  - rewrite reset_prio_nil. by destruct s.
  - intros i t Hi ->. destruct (lookup_lt_ex ps (Z.to_nat i)) as [e He]; [lia|].
    destruct (sw_pids _ _ Hs e) as (x & Hr & Hx & _); [by eapply list_elem_of_lookup_2|].
    wp_steps. apply (wp_at Rq _ (Some e)); [lia| |].
    { cbn. rewrite (sw_rq _ _ Hs). by apply queue_lookup. }
    wp_steps. eapply (wp_upd Pcb); [lia|by apply reset_prio_lookup|]. cbn.
    replace (Z.to_nat (i + 1)) with (S (Z.to_nat i)) by lia.
    rewrite (take_S_snoc _ _ e) by done. rewrite <-(reset_prio_step _ _ _ x) by (lia || done).
    by destruct (bool_decide _).
  - intros t ->. rewrite take_ge; [done|lia].
Qed.

(** The table after the priority reset [scheduler] makes when the chosen process has
    used up its priority. *)
Definition after_reset (x : pcb_t) ps (l : list pcb_t) : list pcb_t :=
  if prio x =? 0 then reset_prio ps l else l.

Lemma after_reset_lookup x ps l j y :
  l !! j = Some y ->
  exists v, after_reset x ps l !! j = Some (set_prio v y).
Proof.
  intros Hy. unfold after_reset. destruct (prio x =? 0).
  - rewrite (reset_prio_lookup _ _ _ y) by done.
    destruct (bool_decide _); [eauto|]. exists (prio y). by destruct y.
  - exists (prio y). by destruct y.
Qed.

(** The state [scheduler] leaves when it picks [p], and the context it returns. *)
Definition sched_result c (me p : Z) (x : pcb_t) ps' s : ctx_t * kernel D :=
  let l := after_reset x ps' (k_pcb s) in
  if me =? p
  then (c, set_k_pcb (alter (fun y => set_prio (u32 (prio y - 1)) y) (Z.to_nat p) l)
             (set_queue ps' s))
  else (ctx x, set_k_current (Some p)
             (set_k_pcb (alter (set_ctx c) (Z.to_nat me) l) (set_queue ps' s))).

Lemma scheduler_run c s ps pre p post me x :
  sched_wf s ps -> next_running s ps pre p post ->
  k_current s = Some me -> k_pcb s !! Z.to_nat p = Some x ->
  scheduler c s = Done (sched_result c me p x (p :: post ++ pre) s).
Proof.
  intros Hs Hn Hcur Hx. unfold scheduler.
  set (ps' := p :: post ++ pre). set (s1 := set_queue ps' s).
  assert (Hs1 : sched_wf s1 ps') by by eapply sched_wf_set_queue, next_running_perm.
  destruct (sw_pids _ _ Hs1 p) as (x' & Hp & Hx' & _); [left|].
  destruct (sw_cur _ _ Hs) as (c' & y & Hc' & Hcr & Hy & Hyp).
  rewrite Hcur in Hc'. injection Hc' as <-.
  run_with ltac:(eapply rq_rotate_run; eauto using next_running_fuel).
  run_with ltac:(apply (at_run Rq _ (Some p)); done).
  run_with ltac:(apply (at_run Pcb _ x); [lia|done]).
  assert (Hw : when (prio x =? 0) (size ← gets k_rq_size;
      for_do (Z.to_nat size) 0 (fun i =>
        q ← at_ Rq i; e ← deref q; upd Pcb e (fun y => set_prio (defp y) y))) s1
      = Done (tt, set_k_pcb (after_reset x ps' (k_pcb s)) s1)).
  { unfold after_reset. destruct (prio x =? 0); cbn [when].
    - rewrite run_gets. rewrite (sw_size _ _ Hs1), Nat2Z.id.
      apply wp_run. by apply (wp_reset_loop s1).
    - unfold s1. by destruct s. }
  run_with ltac:(exact Hw). rewrite run_gets.
  change (k_current (set_k_pcb _ s1)) with (k_current s). rewrite Hcur.
  unfold sched_result. destruct (Z.eqb_spec me p) as [->|Hne].
  - rewrite bool_decide_eq_true_2 by done.
    destruct (after_reset_lookup x ps' (k_pcb s) _ _ Hx) as [v Hv].
    run_with ltac:(apply (upd_cur_run _ p (set_prio v x)); [done|lia|exact Hv]).
    by rewrite <-(alter_insert_list _ _ _ _ Hv).
  - rewrite bool_decide_eq_false_2 by congruence.
    destruct (after_reset_lookup x ps' (k_pcb s) _ _ Hy) as [v Hv].
    destruct (after_reset_lookup x ps' (k_pcb s) _ _ Hx) as [w Hw'].
    run_with ltac:(apply (cur_run _ me (set_prio v y)); [done|lia|exact Hv]).
    cbn [pid set_prio]. rewrite Hyp.
    run_with ltac:(apply (upd_run Pcb me (set_prio v y)); [lia|exact Hv]).
    run_with ltac:(apply (at_run Pcb _ (set_prio w x)); [lia|]).
    2: { cbn [fget fset Pcb k_pcb set_k_pcb]. by rewrite list_lookup_insert_ne by lia. }
    rewrite run_modify. cbn. rewrite (alter_insert_list _ _ _ _ Hv). done.
Qed.
End Scheduler.

(** ** Removing a process from the queue *)

Section Remove.
Context {D : Type}.
Implicit Types (s : kernel D) (ps a b : list Z).

Lemma queue_remove a p b :
  (length (a ++ p :: b) <= 8)%nat ->
  <[length (a ++ b) := None]> (shift_list (length a) (length (a ++ b)) (queue (a ++ p :: b))) =
  queue (a ++ b).
Proof.
  intros Hl. rewrite length_app in Hl. cbn in Hl.
  unfold shift_list, queue. rewrite !length_app. cbn [length].
  rewrite !fmap_app, fmap_cons, <-!app_assoc. cbn [app].
  set (n := (8 - (length a + S (length b)))%nat).
  rewrite take_app_length' by by rewrite length_fmap.
  replace (S (length a)) with (length (Some <$> a) + 1)%nat by (rewrite length_fmap; lia).
  rewrite drop_app_add. cbn [drop]. rewrite ?drop_0.
  replace (length a + length b - length a)%nat with (length b) by lia.
  rewrite take_app_length' by by rewrite length_fmap.
  replace (length a + length b)%nat with (length (Some <$> a) + length b)%nat at 2
    by by rewrite length_fmap.
  rewrite drop_app_add.
  replace (length a + length b)%nat with (length ((Some <$> a) ++ (Some <$> b)) + 0)%nat
    by (rewrite length_app, !length_fmap; lia).
  rewrite app_assoc, insert_app_r, Nat.add_0_r, <-app_assoc. f_equal. f_equal.
  rewrite length_app, !length_fmap.
  replace (8 - (length a + length b))%nat with (S n) by lia.
  assert (drop (length b) (Some p :: (Some <$> b) ++ replicate n None)
          = drop (length b) (Some p :: (Some <$> b)) ++ replicate n None) as ->.
  { change (Some p :: (Some <$> b) ++ ?z) with ((Some p :: (Some <$> b)) ++ z).
    apply drop_app_le. cbn. rewrite length_fmap. lia. }
  destruct (lookup_lt_ex (Some p :: (Some <$> b)) (length b)) as [y Hy];
    [cbn; rewrite length_fmap; lia|].
  rewrite (drop_S _ y) by done. by rewrite drop_ge by (cbn; rewrite length_fmap; lia).
Qed.

Lemma rq_entry_run s ps i p :
  sched_wf s ps -> ps !! Z.to_nat i = Some p -> 0 <= i ->
  at_ Rq i s = Done (Some p, s) /\
  exists x, 0 <= p < 8 /\ k_pcb s !! Z.to_nat p = Some x /\ pid x = p /\ at_ Pcb p s = Done (x, s).
Proof.
  intros Hs Hp Hi. split.
  - apply (at_run Rq); [done|]. cbn. rewrite (sw_rq _ _ Hs). by apply queue_lookup.
  - destruct (sw_pids _ _ Hs p) as (x & Hr & Hx & Hid); [by eapply list_elem_of_lookup_2|].
    exists x. split_and!; try done; try lia. apply (at_run Pcb); [lia|done].
Qed.

(** No entry from index [i] on is [id]: the loop changes nothing. *)
Lemma rq_rm_absent fuel i id s ps :
  sched_wf s ps -> 0 <= i -> id ∉ drop (Z.to_nat i) ps ->
  (length ps - Z.to_nat i < fuel)%nat ->
  rq_rm_from fuel i id s = Done (tt, s).
Proof.
  intros Hs. revert i. induction fuel as [|fuel IH]; intros i Hi Hid Hf; [lia|].
  cbn [rq_rm_from]. rewrite run_gets, (sw_size _ _ Hs).
  destruct (Z.ltb_spec i (Z.of_nat (length ps))); [|done].
  destruct (lookup_lt_ex ps (Z.to_nat i)) as [p Hp]; [lia|].
  destruct (rq_entry_run s ps i p Hs Hp Hi) as (Hq & x & Hr & Hx & Hpid & Hat).
  run_with ltac:(exact Hq). rewrite run_deref. run_with ltac:(exact Hat).
  rewrite (drop_S _ _ _ Hp) in Hid. apply not_elem_of_cons in Hid as [Hne Hid].
  rewrite Hpid. destruct (Z.eqb_spec p id); [congruence|]. cbn [when]. rewrite run_ret.
  apply IH; [lia| |lia]. by replace (Z.to_nat (i + 1)) with (S (Z.to_nat i)) by lia.
Qed.

Definition dequeued ps s : kernel D :=
  set_k_rq_size (Z.of_nat (length ps)) (set_queue ps s).

Lemma dequeued_wf s a p b :
  sched_wf s (a ++ p :: b) -> sched_wf (dequeued (a ++ b) s) (a ++ b).
Proof.
  intros [? ? ? Hl Hnd Hp ?]. split; cbn; try done.
  - rewrite length_app in *. cbn in Hl. lia.
  - rewrite Permutation_app_comm in Hnd. cbn in Hnd. apply list.NoDup_cons in Hnd as [_ Hnd].
    by rewrite Permutation_app_comm.
  - intros q Hq. apply Hp. apply elem_of_app in Hq as [?|?]; apply elem_of_app;
      [by left|by right; right].
Qed.

Lemma rq_rm_found fuel i id s a b :
  sched_wf s (a ++ id :: b) -> 0 <= i <= Z.of_nat (length a) ->
  (length (a ++ id :: b) - Z.to_nat i < fuel)%nat ->
  rq_rm_from fuel i id s = Done (tt, dequeued (a ++ b) s).
Proof.
  intros Hs. revert i. induction fuel as [|fuel IH]; intros i Hi Hf; [lia|].
  pose proof (sw_len _ _ Hs) as Hlen. pose proof (sw_nodup _ _ Hs) as Hnd.
  cbn [rq_rm_from]. rewrite run_gets, (sw_size _ _ Hs).
  pose proof (length_app a (id :: b)) as Hla. cbn in Hla.
  destruct (Z.ltb_spec i (Z.of_nat (length (a ++ id :: b)))); [|lia].
  destruct (lookup_lt_ex (a ++ id :: b) (Z.to_nat i)) as [p Hp]; [lia|].
  destruct (rq_entry_run s _ i p Hs Hp ltac:(lia)) as (Hq & x & Hr & Hx & Hpid & Hat).
  run_with ltac:(exact Hq). rewrite run_deref. run_with ltac:(exact Hat).
  rewrite Hpid. assert (i = Z.of_nat (length a) \/ i < Z.of_nat (length a)) as [->|Hlt] by lia.
  - rewrite Nat2Z.id, list_lookup_middle in Hp by done. injection Hp as ->.
    rewrite Z.eqb_refl. cbn [when].
    assert (length (a ++ b) = length a + length b)%nat as Hab by apply length_app.
    replace (Z.of_nat (length (a ++ p :: b)) - 1) with (Z.of_nat (length (a ++ b))) by lia.
    rewrite run_bind_assoc. run_with ltac:(apply wp_run, wp_rq_shift;
      [lia|rewrite (sw_rq _ _ Hs), length_queue; lia|done]).
    rewrite !Nat2Z.id, (sw_rq _ _ Hs).
    destruct (lookup_lt_ex (shift_list (length a) (length (a ++ b)) (queue (a ++ p :: b)))
                (length (a ++ b))) as [y Hy].
    { unfold shift_list. rewrite !length_app, !length_take, !length_drop, length_queue by lia.
      cbn. lia. }
    rewrite run_bind_assoc. run_with ltac:(apply (upd_run Rq _ y); [lia|by rewrite Nat2Z.id]).
    rewrite Nat2Z.id, run_modify. cbn [fget fset Rq k_rq set_k_rq].
    rewrite queue_remove by lia.
    apply (rq_rm_absent fuel _ p (dequeued (a ++ b) s) (a ++ b)).
    + by eapply dequeued_wf.
    + lia.
    + rewrite drop_app_ge by lia. intros Hin.
      apply list.NoDup_app in Hnd as (_ & _ & Hnd). apply list.NoDup_cons in Hnd as [Hnd _].
      apply Hnd. eapply elem_of_subseteq; [|exact Hin]. apply subseteq_drop.
    + lia.
  - assert (p <> id) as Hne.
    { intros ->. rewrite lookup_app_l in Hp by lia. apply list_elem_of_lookup_2 in Hp.
      apply list.NoDup_app in Hnd as (_ & Hd & _). apply (Hd id Hp). left. }
    destruct (Z.eqb_spec p id); [done|]. cbn [when]. rewrite run_ret. apply IH; lia.
Qed.

(** [rq_rm] removes a queued process and keeps the order of the others. *)
Lemma rq_rm_run s a id b :
  sched_wf s (a ++ id :: b) -> rq_rm id s = Done (tt, dequeued (a ++ b) s).
Proof.
  intros Hs. unfold rq_rm. rewrite run_gets, (sw_size _ _ Hs), Nat2Z.id.
  apply rq_rm_found; [done|lia|lia].
Qed.

Lemma rq_rm_none s ps id : sched_wf s ps -> id ∉ ps -> rq_rm id s = Done (tt, s).
Proof.
  intros Hs Hid. unfold rq_rm. rewrite run_gets, (sw_size _ _ Hs), Nat2Z.id.
  by apply (rq_rm_absent _ _ _ _ ps); [|lia|rewrite drop_0|lia].
Qed.
End Remove.

(** ** The queue invariant and its preservation *)

(** Every queued process exists, once, and has not been terminated. *)
Definition sched_inv {D} (s : kernel D) : Prop :=
  exists ps, sched_wf s ps /\
    forall p x, p ∈ ps -> k_pcb s !! Z.to_nat p = Some x -> pst x <> TERMINATED.

Section Invariant.
Context {D : Type}.
Implicit Types (s : kernel D) (ps : list Z) (c : ctx_t).

(** A change to one process table entry that keeps its pid. *)
Lemma sched_wf_upd_pcb s ps i x f :
  sched_wf s ps -> k_pcb s !! i = Some x -> pid (f x) = pid x ->
  sched_wf (set_k_pcb (<[i := f x]> (k_pcb s)) s) ps.
Proof.
  intros [? ? ? ? ? Hp (me & y & Hm & Hr & Hy & Hyp)] Hx Hf.
  assert (Hl : forall q z, k_pcb s !! q = Some z ->
            exists z', <[i := f x]> (k_pcb s) !! q = Some z' /\ pid z' = pid z).
  { intros q z Hz. destruct (decide (i = q)) as [<-|Hne].
    - exists (f x). rewrite list_lookup_insert_eq by by eapply lookup_lt_Some.
      split; [done|congruence].
    - exists z. by rewrite list_lookup_insert_ne. }
  split; cbn; try done.
  - by rewrite length_insert.
  - intros p Hin. destruct (Hp p Hin) as (z & Hz & Hlz & Hid).
    destruct (Hl _ _ Hlz) as (z' & ? & ?). exists z'. split_and!; try done; congruence || lia.
  - destruct (Hl _ _ Hy) as (z' & ? & ?). exists me, z'. split_and!; try done; congruence || lia.
Qed.

Lemma sched_wf_alter s ps i f :
  (forall x, pid (f x) = pid x) -> sched_wf s ps ->
  sched_wf (set_k_pcb (alter f i (k_pcb s)) s) ps.
Proof.
  intros Hf Hs. destruct (k_pcb s !! i) as [x|] eqn:Hx.
  - rewrite <-(alter_insert_list _ _ _ _ Hx). apply (sched_wf_upd_pcb s ps i x f); auto.
  - replace (alter f i (k_pcb s)) with (k_pcb s); [by destruct s|].
    apply list_eq. intros j. destruct (decide (i = j)) as [->|].
    + by rewrite list_lookup_alter_eq, Hx.
    + by rewrite list_lookup_alter_ne.
Qed.

Lemma sched_wf_reset s ps qs x :
  sched_wf s ps -> sched_wf (set_k_pcb (after_reset x qs (k_pcb s)) s) ps.
Proof.
  intros [? ? ? ? ? Hp (me & y & Hm & Hr & Hy & Hyp)]. split; cbn; try done.
  - unfold after_reset. destruct (_ =? 0); [by rewrite length_reset_prio|done].
  - intros p Hin. destruct (Hp p Hin) as (z & Hz & Hlz & Hid).
    destruct (after_reset_lookup x qs _ _ _ Hlz) as [v Hv]. by exists (set_prio v z).
  - destruct (after_reset_lookup x qs _ _ _ Hy) as [v Hv]. by exists me, (set_prio v y).
Qed.

Lemma sched_wf_current s ps p x :
  sched_wf s ps -> 0 <= p < 8 -> k_pcb s !! Z.to_nat p = Some x -> pid x = p ->
  sched_wf (set_k_current (Some p) s) ps.
Proof. intros [? ? ? ? ? Hp _] Hr Hx Hid. split; cbn; try done. by exists p, x. Qed.

Lemma sched_result_wf c me p x s ps pre post :
  sched_wf s ps -> next_running s ps pre p post -> k_pcb s !! Z.to_nat p = Some x ->
  sched_wf (snd (sched_result c me p x (p :: post ++ pre) s)) (p :: post ++ pre).
Proof.
  intros Hs Hn Hx.
  assert (Hs1 : sched_wf (set_queue (p :: post ++ pre) s) (p :: post ++ pre)).
  { eapply sched_wf_set_queue; [done|by eapply next_running_perm]. }
  pose proof (sched_wf_reset _ _ (p :: post ++ pre) x Hs1) as Hs2.
  unfold sched_result. destruct (me =? p); cbn [snd].
  - exact (sched_wf_alter _ _ (Z.to_nat p)
      (fun y => set_prio (u32 (prio y - 1)) y) (fun _ => eq_refl) Hs2).
  - pose proof (sched_wf_alter _ _ (Z.to_nat me) (set_ctx c) (fun _ => eq_refl) Hs2) as Hs3.
    destruct (sw_pids _ _ Hs3 p) as (y & Hr & Hy & Hid); [left|].
    by apply (sched_wf_current _ _ p y) in Hs3.
Qed.

(** The process states are not touched by scheduling. *)
Lemma sched_result_pst c me p x s ps' q y :
  k_pcb s !! q = Some y ->
  exists y', k_pcb (snd (sched_result c me p x ps' s)) !! q = Some y' /\
    pid y' = pid y /\ pst y' = pst y /\ defp y' = defp y /\ fd y' = fd y.
Proof.
  intros Hy. destruct (after_reset_lookup x ps' _ _ _ Hy) as [v Hv].
  unfold sched_result. destruct (me =? p); cbn [snd k_pcb set_k_pcb set_k_current].
  - destruct (decide (q = Z.to_nat p)) as [->|Hne].
    + rewrite list_lookup_alter_eq, Hv. by eexists.
    + rewrite list_lookup_alter_ne, Hv by done. by eexists.
  - destruct (decide (q = Z.to_nat me)) as [->|Hne].
    + rewrite list_lookup_alter_eq, Hv. by eexists.
    + rewrite list_lookup_alter_ne, Hv by done. by eexists.
Qed.

Lemma sched_result_execb c me p x s ps' q :
  execb (snd (sched_result c me p x ps' s)) q = execb s q.
Proof.
  unfold execb. destruct (k_pcb s !! Z.to_nat q) as [y|] eqn:Hy.
  - destruct (sched_result_pst c me p x s ps' _ _ Hy) as (y' & -> & _ & -> & _). done.
  - rewrite lookup_ge_None_2; [done|]. apply lookup_ge_None in Hy.
    unfold sched_result. destruct (me =? p); cbn;
      rewrite length_alter; unfold after_reset; destruct (prio x =? 0);
      rewrite ?length_reset_prio; done.
Qed.

Lemma sched_result_current c me p x s ps' :
  k_current s = Some me -> k_current (snd (sched_result c me p x ps' s)) = Some p.
Proof.
  intros Hm. unfold sched_result. destruct (Z.eqb_spec me p) as [->|]; cbn; done.
Qed.
End Invariant.

(** ** [kill] and [fork] keep the queue well formed *)

Definition live {D} (s : kernel D) (ps : list Z) : Prop :=
  forall p x, p ∈ ps -> k_pcb s !! Z.to_nat p = Some x -> pst x <> TERMINATED.

Section KillFork.
Context {D : Type}.
Implicit Types (s : kernel D) (ps : list Z) (c : ctx_t).

Definition put_pcb (p : Z) (x : pcb_t) s : kernel D :=
  set_k_pcb (<[Z.to_nat p := x]> (k_pcb s)) s.

Lemma put_pcb_lookup s ps p x q y :
  sched_wf s ps -> 0 <= p < 8 -> 0 <= q ->
  k_pcb (put_pcb p x s) !! Z.to_nat q = Some y ->
  (q = p /\ y = x) \/ (q <> p /\ k_pcb s !! Z.to_nat q = Some y).
Proof.
  intros Hs Hp Hq. cbn. destruct (decide (q = p)) as [->|Hne].
  - rewrite list_lookup_insert_eq by (rewrite (sw_pcb _ _ Hs); lia).
    intros [= <-]. by left.
  - rewrite list_lookup_insert_ne by lia. by right.
Qed.

Lemma live_put s ps p x :
  sched_wf s ps -> 0 <= p < 8 -> live s ps -> (p ∈ ps -> pst x <> TERMINATED) ->
  live (put_pcb p x s) ps.
Proof.
  intros Hs Hp Hl Hx q y Hin Hy.
  destruct (sw_pids _ _ Hs q Hin) as (_ & Hq & _ & _).
  destruct (put_pcb_lookup s ps p x q y Hs Hp ltac:(lia) Hy) as [[-> ->]|[? ?]]; eauto.
Qed.

Lemma pcb_ex s ps p : sched_wf s ps -> 0 <= p < 8 -> exists x, k_pcb s !! Z.to_nat p = Some x.
Proof. intros Hs Hp. apply lookup_lt_ex. rewrite (sw_pcb _ _ Hs). lia. Qed.

(** [kill] on a process number below the limit: what each signal does. *)
Definition kill_sig (sig : sig_t) (x : pcb_t) : pcb_t :=
  match sig with
  | SIGKILL => set_pst TERMINATED x
  | SIGWAIT => set_pst WAITING x
  | SIGCONT => if bool_decide (pst x = WAITING) then set_pst EXECUTING x else x
  | SIGPRI0 => set_prio 0 (set_defp 0 x)
  end.

Definition kill_queue (p : Z) (sig : sig_t) ps : list Z :=
  if bool_decide (sig = SIGKILL) then filter (fun q => q <> p) ps else ps.

Lemma kill_range p : 0 <= p < 8 -> (0 <=? p) && (p <=? PROCESS_LIMIT) = true.
Proof. intros. unfold PROCESS_LIMIT. lia. Qed.

Lemma filter_ne_notin (p : Z) ps : p ∉ ps -> filter (fun q => q <> p) ps = ps.
Proof.
  intros Hp. induction ps as [|q ps IH]; [done|]. apply not_elem_of_cons in Hp as [Hq Hp].
  rewrite filter_cons_True by congruence. by rewrite IH.
Qed.

Lemma filter_ne_split (p : Z) (a b : list Z) :
  NoDup (a ++ p :: b) -> filter (fun q => q <> p) (a ++ p :: b) = a ++ b.
Proof.
  intros Hnd. apply list.NoDup_app in Hnd as (_ & Ha & Hb).
  apply list.NoDup_cons in Hb as [Hb _].
  rewrite list.filter_app, filter_cons_False by tauto.
  rewrite !filter_ne_notin; [done|done|]. intros Hin. apply (Ha p Hin). left.
Qed.

Lemma kill_run s ps p sig z x :
  sched_wf s ps -> 0 <= p < 8 -> k_pcb s !! Z.to_nat p = Some x -> sig_of z = Some sig ->
  kill p z s =
    Done (tt, if bool_decide (sig = SIGKILL /\ p ∈ ps)
              then dequeued (kill_queue p sig ps) (put_pcb p (kill_sig sig x) s)
              else put_pcb p (kill_sig sig x) s).
Proof.
  intros Hs Hp Hx Hz. unfold kill. rewrite kill_range, Hz by done.
  destruct sig; cbn [kill_sig].
  - run_with ltac:(apply (upd_run Pcb p x); [lia|done]).
    transitivity (rq_rm p (put_pcb p (set_pst TERMINATED x) s)); [done|].
    pose proof (sched_wf_upd_pcb s ps _ x (set_pst TERMINATED) Hs Hx eq_refl) as Hs1.
    destruct (decide (p ∈ ps)) as [Hin|Hin].
    + rewrite bool_decide_eq_true_2 by done. unfold kill_queue.
      rewrite bool_decide_eq_true_2 by done.
      apply list_elem_of_split in Hin as (a & b & ->).
      rewrite filter_ne_split by apply (sw_nodup _ _ Hs). by apply rq_rm_run.
    + rewrite bool_decide_eq_false_2 by tauto. by apply (rq_rm_none _ ps).
  - rewrite bool_decide_eq_false_2 by (intros [? _]; done).
    rewrite (upd_run Pcb p x) by (lia || done). done.
  - rewrite bool_decide_eq_false_2 by (intros [? _]; done).
    run_with ltac:(apply (at_run Pcb p x); [lia|done]).
    destruct (bool_decide (pst x = WAITING)); cbn [when].
    + rewrite (upd_run Pcb p x) by (lia || done). done.
    + unfold put_pcb. rewrite list_insert_id by done. by destruct s.
  - rewrite bool_decide_eq_false_2 by (intros [? _]; done).
    run_with ltac:(apply (upd_run Pcb p x); [lia|done]).
    rewrite (upd_run Pcb p (set_defp 0 x)); [|lia|].
    2: { apply list_lookup_insert_eq. by eapply lookup_lt_Some. }
    cbn. by rewrite list_insert_insert_eq.
Qed.

Lemma kill_unknown s p z : sig_of z = None -> p <> 9 -> kill p z s = Done (tt, s).
Proof.
  intros Hz Hp. unfold kill. rewrite Hz. destruct (_ && _); [done|].
  destruct (Z.eqb_spec p 9); done.
Qed.

Lemma kill_sig_pid sig x : pid (kill_sig sig x) = pid x.
Proof. destruct sig; cbn; try done. by destruct (bool_decide _). Qed.

Lemma kill_sig_live sig x :
  sig <> SIGKILL -> pst x <> TERMINATED -> pst (kill_sig sig x) <> TERMINATED.
Proof. destruct sig; cbn; try done. by destruct (bool_decide _). Qed.

Lemma kill_ok s ps p z :
  sched_wf s ps -> live s ps -> 0 <= p < 8 ->
  exists s' ps', kill p z s = Done (tt, s') /\ sched_wf s' ps' /\ live s' ps'.
Proof.
  intros Hs Hl Hp. destruct (pcb_ex s ps p Hs Hp) as [x Hx].
  destruct (sig_of z) as [sig|] eqn:Hz.
  2: { exists s, ps. split; [|done]. apply kill_unknown; [done|lia]. }
  rewrite (kill_run s ps p sig z x Hs Hp Hx Hz).
  pose proof (sched_wf_upd_pcb s ps _ x (kill_sig sig) Hs Hx (kill_sig_pid sig x)) as Hs1.
  destruct (decide (sig = SIGKILL)) as [->|Hsig].
  - destruct (decide (p ∈ ps)) as [Hin|Hin].
    + rewrite bool_decide_eq_true_2 by done.
      unfold kill_queue. rewrite bool_decide_eq_true_2 by done.
      apply list_elem_of_split in Hin as (a & b & ->).
      rewrite filter_ne_split by apply (sw_nodup _ _ Hs).
      do 2 eexists. split; [done|].
      split; [by apply (dequeued_wf _ a p b)|]. intros q y Hin Hy.
      pose proof (sw_nodup _ _ Hs) as Hnd.
      assert (q ∈ a ++ p :: b /\ q <> p) as [Hin' Hne].
      { apply list.NoDup_app in Hnd as (_ & Ha & Hb). apply list.NoDup_cons in Hb as [Hb _].
        apply elem_of_app in Hin as [Hin|Hin]; split.
        - apply elem_of_app. by left.
        - intros ->. apply (Ha p Hin). left.
        - apply elem_of_app. right. by right.
        - by intros ->. }
      destruct (sw_pids _ _ Hs q Hin') as (_ & Hq & _ & _).
      destruct (put_pcb_lookup s _ p _ q y Hs Hp ltac:(lia) Hy) as [[? _]|[_ ?]]; eauto.
    + rewrite bool_decide_eq_false_2 by tauto. do 2 eexists. split; [done|].
      split; [done|]. by apply live_put.
  - rewrite bool_decide_eq_false_2 by tauto. do 2 eexists. split; [done|].
    split; [done|]. apply live_put; try done. intros Hin. by apply kill_sig_live, (Hl p).
Qed.
End KillFork.

Section Fork.
Context {D : Type}.
Implicit Types (s : kernel D) (ps : list Z) (c : ctx_t).

(** The process table entry [fork] fills; the file descriptors are those the slot's
    last process left. *)
Definition child_pcb (p parent : Z) c (x : pcb_t) : pcb_t :=
  mk_pcb p parent (set_gpr 0 0 c) EXECUTING 0x7FFFFFFF 0x7FFFFFFF (fd x).

Definition enqueued p ps s : kernel D :=
  set_k_rq_size (Z.of_nat (length ps) + 1) (set_queue (ps ++ [p]) s).

Lemma queue_snoc ps p :
  (length ps < 8)%nat -> <[length ps := Some p]> (queue ps) = queue (ps ++ [p]).
Proof.
  intros Hl. unfold queue. rewrite length_app, fmap_app. cbn [length].
  rewrite insert_app_r_alt by (rewrite length_fmap; lia).
  rewrite length_fmap, Nat.sub_diag, <-app_assoc. f_equal.
  replace (8 - length ps)%nat with (S (8 - (length ps + 1)))%nat by lia. done.
Qed.

(** A process that is not queued finds room in the queue. *)
Lemma queue_room s ps p : sched_wf s ps -> 0 <= p < 8 -> p ∉ ps -> (length ps < 8)%nat.
Proof.
  intros Hs Hp Hin.
  assert (p :: ps ⊆+ seqZ 0 8) as Hsub.
  { apply NoDup_submseteq.
    - apply list.NoDup_cons. split; [done|apply (sw_nodup _ _ Hs)].
    - intros q [->|Hq]%elem_of_cons; apply elem_of_seqZ; [lia|].
      destruct (sw_pids _ _ Hs q Hq) as (_ & ? & _). lia. }
  apply submseteq_length in Hsub. rewrite length_seqZ in Hsub. cbn in Hsub. lia.
Qed.

Lemma rq_add_run s ps p x :
  sched_wf s ps -> 0 <= p < 8 -> p ∉ ps -> k_pcb s !! Z.to_nat p = Some x ->
  rq_add p s = Done (tt, enqueued p ps s).
Proof.
  intros Hs Hp Hin Hx. pose proof (queue_room _ _ _ Hs Hp Hin) as Hroom.
  unfold rq_add. rewrite run_gets, (sw_size _ _ Hs).
  unfold PROCESS_LIMIT. destruct (Z.ltb_spec (Z.of_nat (length ps)) 8); [|lia]. cbn [when].
  run_with ltac:(apply wp_run; apply (wp_addr_of Pcb p x); [lia|done|done]).
  destruct (lookup_lt_ex (k_rq s) (length ps)) as [y Hy].
  { rewrite (sw_rq _ _ Hs), length_queue by lia. lia. }
  run_with ltac:(apply (upd_run Rq _ y); [lia|by rewrite Nat2Z.id]).
  rewrite Nat2Z.id, u32_small by (red; lia). cbn [fget fset Rq].
  rewrite (sw_rq _ _ Hs), queue_snoc by done. done.
Qed.

Lemma enqueued_wf s ps p x :
  sched_wf s ps -> 0 <= p < 8 -> p ∉ ps -> k_pcb s !! Z.to_nat p = Some x -> pid x = p ->
  sched_wf (enqueued p ps s) (ps ++ [p]).
Proof.
  intros Hs Hp Hin Hx Hid. pose proof (queue_room _ _ _ Hs Hp Hin) as Hroom.
  destruct Hs as [? ? ? ? Hnd Hpids ?]. split; cbn; try done.
  - rewrite length_app. cbn. lia.
  - rewrite length_app. cbn. lia.
  - rewrite <-Permutation_cons_append. by apply list.NoDup_cons.
  - intros q. rewrite elem_of_app, list_elem_of_singleton. intros [Hq| ->]; [by apply Hpids|].
    by exists x.
Qed.

Lemma put_child_wf s ps p x me c :
  sched_wf s ps -> 0 <= p < 8 -> p ∉ ps -> k_pcb s !! Z.to_nat p = Some x ->
  k_current s = Some me -> sched_wf (put_pcb p (child_pcb p me c x) s) ps.
Proof.
  intros [Hlen ? ? ? ? Hpids (me' & y & Hm & Hr & Hy & Hyid)] Hp Hin Hx Hme.
  assert (Hlt : <[Z.to_nat p := child_pcb p me c x]> (k_pcb s) !! Z.to_nat p
                = Some (child_pcb p me c x)).
  { apply list_lookup_insert_eq. by eapply lookup_lt_Some. }
  rewrite Hme in Hm. injection Hm as <-. split; cbn; try done.
  - by rewrite length_insert.
  - intros q Hq. destruct (Hpids q Hq) as (z & Hz & Hlz & Hidz).
    exists z. rewrite list_lookup_insert_ne; [done|]. intros ?. apply Hin.
    by replace p with q by lia.
  - destruct (decide (me = p)) as [->|Hne]; [by exists p, (child_pcb p p c x)|].
    exists me, y. by rewrite list_lookup_insert_ne by lia.
Qed.

(** The updates [fork] makes to the slot it picks. *)
Lemma fork_fill_run s ps p x me c :
  sched_wf s ps -> 0 <= p < 8 -> p ∉ ps -> k_pcb s !! Z.to_nat p = Some x ->
  k_current s = Some me ->
  wp (upd Pcb p (set_pid p) ;;
      parent ← cur;
      upd Pcb p (set_prt (pid parent)) ;;
      upd Pcb p (set_ctx c) ;;
      upd Pcb p (fun x => set_ctx (set_gpr 0 0 (ctx x)) x) ;;
      upd Pcb p (set_pst EXECUTING) ;;
      upd Pcb p (fun x => set_defp 0x7FFFFFFF (set_prio 0x7FFFFFFF x)) ;;
      rq_add p ;;
      mret (Some p))
    (fun r t => r = Some p /\ t = enqueued p ps (put_pcb p (child_pcb p me c x) s)) s.
Proof.
  intros Hs Hp Hin Hx Hme. destruct (sw_cur _ _ Hs) as (me' & y & Hm & Hr & Hy & Hyid).
  rewrite Hme in Hm. injection Hm as <-.
  assert (Hlt : forall z, <[Z.to_nat p := z]> (k_pcb s) !! Z.to_nat p = Some z).
  { intros z. apply list_lookup_insert_eq. by eapply lookup_lt_Some. }
  assert (exists y', <[Z.to_nat p := set_pid p x]> (k_pcb s) !! Z.to_nat me = Some y' /\ pid y' = me)
    as (y' & Hy' & Hid').
  { destruct (decide (me = p)) as [->|Hne]; [by eexists; split; [apply Hlt|]|].
    exists y. by rewrite list_lookup_insert_ne by lia. }
  pose proof (put_child_wf s ps p x me c Hs Hp Hin Hx Hme) as Hs2.
  wp_steps. apply (wp_upd Pcb p x); [lia|done|]. cbn [fget fset Pcb].
  wp_steps. apply (wp_cur _ me y'); [done|lia|done|]. rewrite Hid'.
  wp_steps. apply (wp_upd Pcb p (set_pid p x)); [lia|apply Hlt|].
  cbn [fget fset Pcb k_pcb set_k_pcb]. rewrite list_insert_insert_eq.
  do 3 (wp_steps; eapply (wp_upd Pcb p); [lia|apply Hlt|];
        cbn [fget fset Pcb k_pcb set_k_pcb]; rewrite list_insert_insert_eq).
  wp_steps. eapply (wp_upd Pcb p); [lia|apply Hlt|].
  cbn [fget fset Pcb k_pcb set_k_pcb]. rewrite list_insert_insert_eq.
  wp_steps. apply (wp_mono _ (fun _ t => t = enqueued p ps (put_pcb p (child_pcb p me c x) s))).
  - unfold wp. change (match rq_add p (put_pcb p (child_pcb p me c x) s) with
      | Done (_, t) => t = enqueued p ps (put_pcb p (child_pcb p me c x) s) | _ => False end).
    by rewrite (rq_add_run _ ps p (child_pcb p me c x)) by (done || apply Hlt).
  - intros [] t ->. by wp_steps.
Qed.

(** [fork] when slot [p] is the lowest free one. *)
Lemma fork_run s ps p x me c :
  sched_wf s ps -> live s ps -> 0 <= p < 8 -> k_pcb s !! Z.to_nat p = Some x ->
  pst x = TERMINATED -> k_current s = Some me ->
  (forall q y, 0 <= q < p -> k_pcb s !! Z.to_nat q = Some y -> pst y <> TERMINATED) ->
  fork c s = Done (p, enqueued p ps (put_pcb p (child_pcb p me c x) s)).
Proof.
  intros Hs Hl Hp Hx Hterm Hme Hlow. apply wp_run. unfold fork. wp_steps.
  apply (wp_for_find (fun i t => t = s /\ i <= p)); [by split; [|lia]| |].
  - intros i t Hi [-> Hip]. destruct (pcb_ex s ps i Hs) as [y Hy]; [unfold PROCESS_LIMIT in Hi; lia|].
    wp_steps. apply (wp_at Pcb i y); [lia|done|]. destruct (decide (i = p)) as [->|Hne].
    + rewrite Hx in Hy. injection Hy as <-. rewrite bool_decide_eq_true_2 by done.
      assert (p ∉ ps) as Hin by (intros Hin; by apply (Hl p x)).
      eapply wp_mono; [by apply (fork_fill_run s ps p x me)|].
      intros r t [-> ->]. wp_steps. split; [|done]. apply u32_small. red. lia.
    + rewrite bool_decide_eq_false_2 by (apply (Hlow i y); [lia|done]). wp_steps.
      split; [done|lia].
  - intros t [_ Hc]. unfold PROCESS_LIMIT in Hc. lia.
Qed.

Lemma fork_full_run s ps c :
  sched_wf s ps -> (forall q y, 0 <= q < 8 -> k_pcb s !! Z.to_nat q = Some y -> pst y <> TERMINATED) ->
  fork c s = Done (u32 (-1), s).
Proof.
  intros Hs Hfull. apply wp_run. unfold fork. wp_steps.
  apply (wp_for_find (fun _ t => t = s)); [done| |].
  - intros i t Hi ->. unfold PROCESS_LIMIT in Hi. destruct (pcb_ex s ps i Hs) as [y Hy]; [lia|].
    wp_steps. apply (wp_at Pcb i y); [lia|done|].
    by rewrite bool_decide_eq_false_2 by (apply (Hfull i y); [lia|done]).
  - intros t ->. by wp_steps.
Qed.

(** Either some slot is the lowest free one or none is free. *)
Lemma lowest_free s ps :
  sched_wf s ps ->
  (exists p x, 0 <= p < 8 /\ k_pcb s !! Z.to_nat p = Some x /\ pst x = TERMINATED /\
     forall q y, 0 <= q < p -> k_pcb s !! Z.to_nat q = Some y -> pst y <> TERMINATED) \/
  (forall q y, 0 <= q < 8 -> k_pcb s !! Z.to_nat q = Some y -> pst y <> TERMINATED).
Proof.
  intros Hs.
  assert (forall n : nat, (n <= 8)%nat ->
    (exists p x, 0 <= p < Z.of_nat n /\ k_pcb s !! Z.to_nat p = Some x /\ pst x = TERMINATED /\
      forall q y, 0 <= q < p -> k_pcb s !! Z.to_nat q = Some y -> pst y <> TERMINATED) \/
    (forall q y, 0 <= q < Z.of_nat n -> k_pcb s !! Z.to_nat q = Some y -> pst y <> TERMINATED))
    as Hall.
  { induction n as [|n IH]; intros Hn; [right; intros; lia|].
    destruct (IH ltac:(lia)) as [(p & x & Hp & H)|Hno].
    - left. exists p, x. split; [lia|done].
    - destruct (pcb_ex s ps (Z.of_nat n) Hs ltac:(lia)) as [x Hx].
      destruct (decide (pst x = TERMINATED)) as [Ht|Ht].
      + left. exists (Z.of_nat n), x. split_and!; try done; try lia.
      + right. intros q y Hq Hy. assert (q = Z.of_nat n \/ q < Z.of_nat n) as [->|] by lia.
        * congruence.
        * apply (Hno q y); [lia|done]. }
  by apply (Hall 8%nat).
Qed.

Lemma fork_ok s ps c :
  sched_wf s ps -> live s ps ->
  exists r s' ps', fork c s = Done (r, s') /\ sched_wf s' ps' /\ live s' ps'.
Proof.
  intros Hs Hl. destruct (lowest_free s ps Hs) as [(p & x & Hp & Hx & Ht & Hlow)|Hfull].
  - destruct (sw_cur _ _ Hs) as (me & y & Hme & Hr & Hy & Hyid).
    rewrite (fork_run s ps p x me c) by done.
    assert (p ∉ ps) as Hin by (intros Hin; by apply (Hl p x)).
    do 3 eexists. split; [done|].
    assert (Hput : k_pcb (put_pcb p (child_pcb p me c x) s) !! Z.to_nat p
                   = Some (child_pcb p me c x)).
    { apply list_lookup_insert_eq. by eapply lookup_lt_Some. }
    pose proof (put_child_wf s ps p x me c Hs Hp Hin Hx Hme) as Hs1.
    split; [by apply (enqueued_wf _ _ _ (child_pcb p me c x))|].
    intros q z Hq Hz. change (k_pcb (put_pcb p (child_pcb p me c x) s) !! Z.to_nat q = Some z) in Hz.
    apply elem_of_app in Hq as [Hq| ->%list_elem_of_singleton].
    + destruct (sw_pids _ _ Hs q Hq) as (_ & Hqr & _ & _).
      destruct (put_pcb_lookup s ps p _ q z Hs Hp ltac:(lia) Hz) as [[-> _]|[_ ?]]; [done|].
      by apply (Hl q).
    + rewrite Hput in Hz. by injection Hz as <-.
  - rewrite (fork_full_run s ps) by done. by exists (u32 (-1)), s, ps.
Qed.
End Fork.

(** With nothing that can run, [scheduler] does not return: it recurses for ever, or it
    dereferences the NULL head of an empty queue. *)
Lemma scheduler_stuck {D} c (s : kernel D) ps :
  sched_wf s ps -> Forall (fun q => execb s q = false) ps ->
  scheduler c s = match ps with [] => Undef | _ => Hang end.
Proof.
  intros Hs Hex. unfold scheduler. destruct ps as [|h r].
  - apply run_bind_undef. by apply rq_rotate_empty.
  - apply run_bind_hang. by apply (rq_rotate_never _ _ (h :: r)).
Qed.

(** ** What the process component promises *)

Section Promises.
Context {D : Type}.
Implicit Types (s : kernel D) (ps : list Z) (c : ctx_t).

Lemma app_split_first (pre post l1 l2 : list Z) q p :
  pre ++ q :: post = l1 ++ p :: l2 -> p ∉ pre ->
  (q = p /\ pre = l1) \/ exists m, l1 = pre ++ q :: m /\ post = m ++ p :: l2.
Proof.
  revert l1. induction pre as [|a pre IH]; intros [|b l1] Heq Hp; cbn in Heq.
  - injection Heq as -> ->. by left.
  - injection Heq as -> ->. right. by exists l1.
  - injection Heq as -> _. destruct Hp. left.
  - injection Heq as -> Heq. apply not_elem_of_cons in Hp as [_ Hp].
    destruct (IH l1 Heq Hp) as [[-> ->]|(m & -> & ->)]; [by left|]. right. by exists m.
Qed.

(** Every state with queue [ps] and the same runnable processes reaches [p] within
    the number of processes ahead of it, plus one. *)
Lemma fair_aux (ex : Z -> bool) p n :
  forall ps l1 l2, rotate1 ps = l1 ++ p :: l2 -> (length l1 <= n)%nat -> ex p = true ->
  exists k, (1 <= k <= S (length l1))%nat /\
    forall s cs, sched_wf s ps -> (forall q, execb s q = ex q) -> length cs = k ->
      exists s', ticks cs s = Done (tt, s') /\ k_current s' = Some p.
Proof.
  induction n as [n IH] using lt_wf_ind. intros ps l1 l2 Hrot Hn Hex.
  assert (Hfirst : exists pre q post, rotate1 ps = pre ++ q :: post /\
            Forall (fun r => ex r = false) pre /\ ex q = true).
  { rewrite Hrot. clear -Hex. induction l1 as [|a l1 IHl]; [by exists [], p, l2|].
    destruct (ex a) eqn:Ea; [by exists [], a, (l1 ++ p :: l2)|].
    destruct IHl as (pre & q & post & Heq & Hf & Hq).
    exists (a :: pre), q, post. rewrite <-app_comm_cons, Heq. split_and!; [done|by constructor|done]. }
  destruct Hfirst as (pre & q & post & Hpre & Hf & Hq).
  assert (Hpp : p ∉ pre).
  { intros Hin. rewrite list.Forall_forall in Hf. rewrite (Hf p Hin) in Hex. done. }
  (* what one round does, from any such state *)
  assert (Hround : forall s c, sched_wf s ps -> (forall r, execb s r = ex r) ->
            exists c' s', scheduler c s = Done (c', s') /\ k_current s' = Some q /\
              sched_wf s' (q :: post ++ pre) /\ forall r, execb s' r = ex r).
  { intros s c Hs Hexs.
    assert (Hnr : next_running s ps pre q post).
    { split_and!; [done| |by rewrite Hexs].
      revert Hf. apply Forall_impl. intros r Hr. by rewrite Hexs. }
    destruct (sw_cur _ _ Hs) as (me & y & Hme & _).
    destruct (sw_pids _ _ Hs q) as (x & _ & Hx & _).
    { rewrite <-(next_running_perm _ _ _ _ _ Hnr). left. }
    pose proof (scheduler_run c s ps pre q post me x Hs Hnr Hme Hx) as Hrun.
    destruct (sched_result c me q x (q :: post ++ pre) s) as [c' s'] eqn:E.
    exists c', s'. split; [done|].
    replace s' with (snd (sched_result c me q x (q :: post ++ pre) s)) by by rewrite E.
    split_and!; [by apply sched_result_current|by eapply sched_result_wf|].
    intros r. by rewrite sched_result_execb. }
  rewrite Hpre in Hrot. destruct (app_split_first _ _ _ _ _ _ Hrot Hpp) as [[-> _]|(m & -> & ->)].
  - exists 1%nat. split; [lia|]. intros s [|c [|]] Hs Hexs Hlen; try done.
    destruct (Hround s c Hs Hexs) as (c' & s' & Hrun & Hc & _).
    exists s'. split; [|done]. cbn [ticks]. by run_with ltac:(exact Hrun).
  - rewrite length_app in Hn. cbn in Hn.
    destruct (IH (length m) ltac:(lia) (q :: (m ++ p :: l2) ++ pre) m (l2 ++ pre ++ [q]))
      as (k & Hk & Hall); [|lia|done|].
    { cbn [rotate1]. by rewrite <-!app_assoc. }
    exists (S k). split; [rewrite length_app; cbn; lia|].
    intros s [|c cs] Hs Hexs Hlen; [done|].
    destruct (Hround s c Hs Hexs) as (c' & s' & Hrun & _ & Hs' & Hexs').
    destruct (Hall s' cs Hs' Hexs') as (s'' & Ht & Hc); [by injection Hlen|].
    exists s''. split; [|done]. cbn [ticks]. by run_with ltac:(exact Hrun).
Qed.

Lemma sched_step_inv s s' : sched_inv s -> sched_step s s' -> sched_inv s'.
Proof.
  intros (ps & Hs & Hl) Hstep. inversion Hstep as [c r t t' H|p z t t' Hp H|c c' t t' H]; subst.
  - destruct (fork_ok s ps c Hs Hl) as (r' & s2 & ps' & H' & Hs' & Hl').
    rewrite H in H'. injection H' as <- <-. by exists ps'.
  - destruct (kill_ok s ps p z Hs Hl Hp) as (s2 & ps' & H' & Hs' & Hl').
    rewrite H in H'. injection H' as <-. by exists ps'.
  - destruct (sw_cur _ _ Hs) as (me & y & Hme & _).
    destruct (decide (Exists (fun q => execb s q = true) ps)) as [Hex|Hno].
    + apply list.Exists_exists in Hex as (p & Hin & Hp).
      destruct (next_running_ex s ps p Hin Hp) as (pre & q & post & Hn).
      destruct (sw_pids _ _ Hs q) as (x & _ & Hx & _).
      { rewrite <-(next_running_perm _ _ _ _ _ Hn). left. }
      rewrite (scheduler_run c s ps pre q post me x) in H by done.
      assert (s' = snd (sched_result c me q x (q :: post ++ pre) s)) as ->.
      { destruct (sched_result _ _ _ _ _ _) as [c2 s2]. by injection H as <- <-. }
      exists (q :: post ++ pre). split; [by eapply sched_result_wf|].
      intros r z Hr Hz. rewrite (next_running_perm _ _ _ _ _ Hn) in Hr.
      destruct (sw_pids _ _ Hs r Hr) as (z0 & _ & Hz0 & _).
      destruct (sched_result_pst c me q x s (q :: post ++ pre) _ _ Hz0)
        as (z' & Hz' & _ & Hpst & _).
      rewrite Hz' in Hz. injection Hz as <-. rewrite Hpst. by apply (Hl r).
    + exfalso. rewrite (scheduler_stuck c s ps Hs) in H.
      * by destruct ps.
      * apply list.Forall_forall. intros q Hq. apply not_true_is_false. intros Hex.
        apply Hno, list.Exists_exists. eauto.
Qed.
End Promises.

(** ** Properties *)

(** A table of three processes, the second one waiting: what the witnesses run on. *)
Definition demo_pcb (i : Z) (st : pst_t) : pcb_t :=
  mk_pcb i 0 (mk_ctx 0x50 (100 + i) (replicate 13 i) 0 0) st 1 1 (replicate 16 None).

Definition demo : kernel unit :=
  set_k_current (Some 0) (set_k_rq_size 3 (set_k_rq (queue [0; 1; 2])
    (set_k_pcb ([demo_pcb 0 EXECUTING; demo_pcb 1 WAITING; demo_pcb 2 EXECUTING]
                ++ replicate 5 zero_pcb) (bss tt [])))).

Lemma demo_pids p :
  p ∈ [0; 1; 2] ->
  exists x, 0 <= p < 8 /\ k_pcb demo !! Z.to_nat p = Some x /\ pid x = p /\ pst x <> TERMINATED.
Proof.
  rewrite !elem_of_cons. intros [->|[->|[->|H]]]; [..|by apply not_elem_of_nil in H];
    (eexists; split_and!; [lia|lia|reflexivity|reflexivity|done]).
Qed.

Lemma demo_wf : sched_wf demo [0; 1; 2].
Proof.
  split; try reflexivity.
  - cbn. lia.
  - by apply (bool_decide_unpack _).
  - intros p Hp. destruct (demo_pids p Hp) as (x & ? & ? & ? & _). eauto.
  - exists 0. eexists. split_and!; [reflexivity|lia|lia|reflexivity|reflexivity].
Qed.

Lemma demo_live : live demo [0; 1; 2].
Proof. intros p x Hp Hx. destruct (demo_pids p Hp) as (y & ? & Hy & ? & ?). congruence. Qed.

Section Properties.
Context {D : Type}.
Implicit Types (s : kernel D) (ps : list Z) (c : ctx_t).

(** C5: round robin and context switch.  In a well-formed state, when the first
    process behind the head that can run is [p] and it is not the current one,
    [scheduler] returns the saved context of [p], makes [p] current and head of the
    queue with the skipped processes behind the others, saves the interrupted
    context in the old process's table entry, and changes no other context, no
    process state, default priority or file descriptor. *)
Theorem scheduler_switches c s ps pre p post me x :
  sched_wf s ps -> next_running s ps pre p post ->
  k_current s = Some me -> k_pcb s !! Z.to_nat p = Some x -> me <> p ->
  exists s', scheduler c s = Done (ctx x, s') /\
    k_current s' = Some p /\ sched_wf s' (p :: post ++ pre) /\
    ctx <$> k_pcb s' !! Z.to_nat me = Some c /\
    (forall q, q <> Z.to_nat me -> ctx <$> k_pcb s' !! q = ctx <$> k_pcb s !! q) /\
    (forall q y, k_pcb s !! q = Some y -> exists y', k_pcb s' !! q = Some y' /\
       pid y' = pid y /\ pst y' = pst y /\ defp y' = defp y /\ fd y' = fd y).
Proof.
  intros Hs Hn Hme Hx Hne.
  pose proof (scheduler_run c s ps pre p post me x Hs Hn Hme Hx) as Hrun.
  pose proof (sched_result_wf c me p x s ps pre post Hs Hn Hx) as Hwf.
  pose proof (sched_result_pst c me p x s (p :: post ++ pre)) as Hpst.
  pose proof (sched_result_current c me p x s (p :: post ++ pre) Hme) as Hcur.
  destruct (sw_cur _ _ Hs) as (me' & y & Hm & _ & Hy & _).
  rewrite Hme in Hm. injection Hm as <-.
  unfold sched_result in *. destruct (Z.eqb_spec me p); [done|]. cbn [snd] in *.
  eexists. split; [exact Hrun|]. split_and!; try done.
  - cbn. rewrite list_lookup_alter_eq.
    destruct (after_reset_lookup x (p :: post ++ pre) _ _ _ Hy) as [v ->]. done.
  - intros q Hq. cbn. rewrite list_lookup_alter_ne by done.
    destruct (k_pcb s !! q) as [z|] eqn:Hz.
    + destruct (after_reset_lookup x (p :: post ++ pre) _ _ _ Hz) as [v ->]. done.
    + rewrite lookup_ge_None_2; [done|]. apply lookup_ge_None in Hz.
      unfold after_reset. destruct (_ =? 0); by rewrite ?length_reset_prio.
Qed.

(** C7: fairness.  A queued process that can run becomes the current one after at
    most as many scheduling rounds as there are queued processes, whatever contexts
    those rounds interrupt. *)
Theorem scheduler_fair s ps p :
  sched_wf s ps -> p ∈ ps -> execb s p = true ->
  exists n, (1 <= n <= length ps)%nat /\
    forall cs, length cs = n -> exists s', ticks cs s = Done (tt, s') /\ k_current s' = Some p.
Proof.
  intros Hs Hin Hp.
  assert (p ∈ rotate1 ps) as (l1 & l2 & Hrot)%list_elem_of_split.
  { destruct ps as [|h r]; [by apply not_elem_of_nil in Hin|]. cbn.
    by rewrite <-Permutation_cons_append. }
  destruct (fair_aux (D := D) (execb s) p (length l1) ps l1 l2 Hrot ltac:(lia) Hp)
    as (n & Hn & Hall).
  exists n. split; [|intros cs Hcs; by apply Hall].
  assert (length (rotate1 ps) = length ps) as Hl.
  { destruct ps as [|h r]; [done|]. cbn. rewrite length_app. cbn. lia. }
  rewrite Hrot, length_app in Hl. cbn in Hl. lia.
Qed.

(** C33: deadlock.  When every queued process is blocked, the recursion of
    [rq_rotate] never ends, however deep it is allowed to go, and so [scheduler]
    does not return; when the queue is empty it dereferences NULL. *)
Theorem scheduler_deadlock c s ps :
  sched_wf s ps -> Forall (fun p => execb s p = false) ps ->
  (ps <> [] -> forall fuel, rq_rotate fuel s = Hang) /\
  scheduler c s = match ps with [] => Undef | _ => Hang end.
Proof.
  intros Hs Hex. split; [|by apply scheduler_stuck].
  intros Hne fuel. by apply (rq_rotate_never _ _ ps).
Qed.

(** C6: the queue invariant.  From any state in which the queue holds each queued
    process once and none that was terminated, every sequence of forks, signals to
    process numbers of the table, and scheduling rounds stays in such states. *)
Theorem sched_reachable_inv s s' : sched_inv s -> rtc sched_step s s' -> sched_inv s'.
Proof.
  intros Hinv. induction 1 as [|s1 s2 s3 Hstep _ IH]; [done|].
  by apply IH, (sched_step_inv s1).
Qed.


(** [kill] of a process number of the table.  SIGKILL terminates it and takes it
    out of the queue, keeping the others' order; SIGWAIT blocks it, SIGCONT makes a
    blocked one (and no other) runnable, SIGPRI0 clears its priorities; any other
    signal number does nothing.  [kill] of the number PROCESS_LIMIT itself, which the
    guard lets through, writes behind the process table. *)
Theorem kill_correct s ps p z x :
  sched_wf s ps -> 0 <= p < PROCESS_LIMIT -> k_pcb s !! Z.to_nat p = Some x ->
  (exists s', kill p z s = Done (tt, s') /\
    match sig_of z with
    | Some sig => sched_wf s' (kill_queue p sig ps) /\
                  k_pcb s' = <[Z.to_nat p := kill_sig sig x]> (k_pcb s)
    | None => s' = s
    end) /\
  (sig_of z <> None -> kill PROCESS_LIMIT z s = Undef).
Proof.
  intros Hs Hp Hx. change PROCESS_LIMIT with 8 in Hp. split.
  - destruct (sig_of z) as [sig|] eqn:Hz.
    + rewrite (kill_run s ps p sig z x) by done. eexists. split; [done|].
      pose proof (sched_wf_upd_pcb s ps _ x (kill_sig sig) Hs Hx (kill_sig_pid sig x)) as Hs1.
      unfold kill_queue. destruct (decide (sig = SIGKILL)) as [->|Hne].
      * rewrite (bool_decide_eq_true_2 (SIGKILL = SIGKILL)) by done.
        destruct (decide (p ∈ ps)) as [Hin|Hin].
        -- rewrite bool_decide_eq_true_2 by done. split; [|done].
           apply list_elem_of_split in Hin as (a & b & ->).
           rewrite filter_ne_split by apply (sw_nodup _ _ Hs). by apply (dequeued_wf _ a p b).
        -- rewrite bool_decide_eq_false_2 by tauto. rewrite filter_ne_notin by done. done.
      * rewrite !bool_decide_eq_false_2 by tauto. done.
    + exists s. split; [|done]. apply kill_unknown; [done|lia].
  - intros Hz. unfold kill. cbn. destruct (sig_of z) as [sig|]; [|done].
    assert (length (k_pcb s) = 8%nat) as Hl by apply (sw_pcb _ _ Hs).
    destruct sig;
      first [apply upd_undef | apply run_bind_undef, upd_undef | apply run_bind_undef, at_undef];
      cbn; rewrite Hl; unfold PROCESS_LIMIT; lia.
Qed.
End Properties.

(** ** Witnesses *)

Lemma demo_next : next_running demo [0; 1; 2] [1] 2 [0].
Proof. split_and!; [done|by constructor|done]. Qed.

Lemma scheduler_switches_witness :
  exists s', scheduler zero_ctx demo = Done (ctx (demo_pcb 2 EXECUTING), s') /\
    k_current s' = Some 2 /\ k_rq s' = queue [2; 0; 1].
Proof.
  destruct (scheduler_switches zero_ctx demo [0; 1; 2] [1] 2 [0] 0 (demo_pcb 2 EXECUTING)
    demo_wf demo_next eq_refl eq_refl ltac:(lia)) as (s' & Hrun & Hc & Hwf & _).
  exists s'. split_and!; [done|done|apply (sw_rq _ _ Hwf)].
Defined.

Lemma scheduler_fair_witness :
  exists n, (1 <= n <= 3)%nat /\
    forall cs, length cs = n -> exists s', ticks cs demo = Done (tt, s') /\ k_current s' = Some 0.
Proof.
  apply (scheduler_fair demo [0; 1; 2] 0); [apply demo_wf|left|reflexivity].
Defined.

Definition demo_blocked : kernel unit :=
  put_pcb 2 (demo_pcb 2 WAITING) (put_pcb 0 (demo_pcb 0 WAITING) demo).

Lemma demo_blocked_wf : sched_wf demo_blocked [0; 1; 2].
Proof.
  apply (sched_wf_upd_pcb (put_pcb 0 (demo_pcb 0 WAITING) demo) _ 2
           (demo_pcb 2 EXECUTING) (fun _ => demo_pcb 2 WAITING)); [|done|done].
  by apply (sched_wf_upd_pcb demo _ 0 (demo_pcb 0 EXECUTING)
              (fun _ => demo_pcb 0 WAITING)); [apply demo_wf|done|done].
Qed.

Lemma scheduler_deadlock_witness :
  rq_rotate 100 demo_blocked = Hang /\ scheduler zero_ctx demo_blocked = Hang.
Proof.
  destruct (scheduler_deadlock zero_ctx demo_blocked [0; 1; 2] demo_blocked_wf) as [H1 H2];
    [by repeat constructor|].
  split; [by apply H1|exact H2].
Defined.

Lemma sched_reachable_inv_witness :
  exists s', rtc sched_step demo s' /\ sched_inv s' /\ k_rq s' = queue [2; 0].
Proof.
  assert (Hkill : exists s', kill 1 0 demo = Done (tt, s') /\ k_rq s' = queue [0; 2])
    by (eexists; split; [vm_compute; reflexivity|reflexivity]).
  destruct Hkill as (s1 & Hkill & Hq).
  assert (Htick : exists c' s', scheduler zero_ctx s1 = Done (c', s') /\ k_rq s' = queue [2; 0]).
  { vm_compute in Hkill. injection Hkill as <-.
    do 2 eexists; split; [vm_compute; reflexivity|reflexivity]. }
  destruct Htick as (c' & s' & Htick & Hq').
  assert (Hr : rtc sched_step demo s').
  { eapply rtc_l; [apply (step_kill 1 0); [done|exact Hkill]|].
    eapply rtc_l; [by apply (step_sched zero_ctx c')|apply rtc_refl]. }
  exists s'. split_and!; [done| |done].
  apply (sched_reachable_inv demo); [|done]. exists [0; 1; 2]. split; [apply demo_wf|apply demo_live].
Defined.


Lemma kill_correct_witness :
  (exists s', kill 1 0 demo = Done (tt, s') /\ k_rq s' = queue [0; 2]) /\
  kill 8 0 demo = Undef.
Proof.
  destruct (kill_correct demo [0; 1; 2] 1 0 (demo_pcb 1 WAITING) demo_wf ltac:(done) eq_refl)
    as [(s' & Hrun & Hwf & _) Hlim].
  split; [|by apply Hlim]. exists s'. split; [done|]. apply (sw_rq _ _ Hwf).
Defined.

(** [kill(9, SIGKILL)] marks every process but the first terminated without taking
    it out of the queue, so the next [fork] reuses a slot that is still queued: on a
    table of three processes, process 1 is then in the ready queue twice. *)
Theorem kill_all_leaves_queued :
  k_rq <$> final (kill 9 0) demo = Some (queue [0; 1; 2]) /\
  value (kill 9 0 ;; fork zero_ctx) demo = Some 1 /\
  k_rq <$> final (kill 9 0 ;; fork zero_ctx) demo = Some (queue [0; 1; 2; 1]).
Proof. split_and!; vm_compute; reflexivity. Qed.
