(* ===== verification/MQueue.v ===== *)
(** * Message queues

    The synchronous channels of kernel.c (lines 210-275): opening, unlinking, sending
    and receiving on one of the 32 one-message queues. *)

From S2P Require Import Prelude CMonad Layout BlockDev Kernel Sched.

Definition set_qname (v : Z) (q : mqueue) :=
  mk_mq v (msg_qnum q) (msg_qrec q) (msg_lspid q) (msg_lrpid q) (msg_qbuf q).
Definition set_qnum (v : Z) (q : mqueue) :=
  mk_mq (msg_qname q) v (msg_qrec q) (msg_lspid q) (msg_lrpid q) (msg_qbuf q).
Definition set_qrec (v : Z) (q : mqueue) :=
  mk_mq (msg_qname q) (msg_qnum q) v (msg_lspid q) (msg_lrpid q) (msg_qbuf q).
Definition set_lspid (v : Z) (q : mqueue) :=
  mk_mq (msg_qname q) (msg_qnum q) (msg_qrec q) v (msg_lrpid q) (msg_qbuf q).
Definition set_lrpid (v : Z) (q : mqueue) :=
  mk_mq (msg_qname q) (msg_qnum q) (msg_qrec q) (msg_lspid q) v (msg_qbuf q).
Definition set_qbuf (v : list Z) (q : mqueue) :=
  mk_mq (msg_qname q) (msg_qnum q) (msg_qrec q) (msg_lspid q) (msg_lrpid q) v.

Section Ops.
Context {D : Type}.
Local Abbreviation K := (M (kernel D)).

Definition mq_open (name : Z) : K Z :=
  r ← for_find (Z.to_nat MSGCHAN_LIMIT) 0 (fun i =>
    q ← at_ Mq i; if msg_qname q =? name then mret (Some i) else mret None);
  match r with
  | Some i => mret i
  | None =>
      r ← for_find (Z.to_nat MSGCHAN_LIMIT) 0 (fun i =>
        q ← at_ Mq i;
        if msg_qname q =? 0 then
          upd Mq i (set_qname name) ;;
          upd Mq i (set_qnum 0) ;;
          upd Mq i (set_qrec 0) ;;
          upd Mq i (set_lspid 0) ;;
          upd Mq i (set_lrpid 0) ;;
          mret (Some i)
        else mret None);
      mret match r with Some i => i | None => -1 end
  end.

Definition mq_unlink (m : Z) : K Z :=
  if (0 <=? m) && (m <=? MSGCHAN_LIMIT) then upd Mq m (set_qname 0) ;; mret 0
  else mret (-1).

(** [memcpy(mq\[mqd\].msg_qbuf, ptr, len)]: the buffer has 64 bytes. *)
Definition mq_fill (mqd ptr len : Z) : K unit :=
  if len <=? 64 then
    data ← mem_read ptr (Z.to_nat len);
    upd Mq mqd (fun q => set_qbuf (overlay data (msg_qbuf q)) q)
  else lift Undef.

Definition mq_send (mqd ptr len : Z) : K Z :=
  me ← cur;
  upd Mq mqd (set_lspid (pid me)) ;;
  me ← cur;
  kill (pid me) 1 ;;
  q ← at_ Mq mqd;
  if msg_qnum q =? 0 then
    upd Mq mqd (fun q => set_qnum (msg_qnum q + 1) q) ;;
    mq_fill mqd ptr len ;;
    q ← at_ Mq mqd;
    when (msg_qrec q =? 1)
      (kill (msg_lrpid q) 2 ;;
       upd Mq mqd (set_qrec 0)) ;;
    mret 0
  else mret (-1).

(** [memcpy(ptr, mq\[mqd\].msg_qbuf, len)]. *)
Definition mq_drain (mqd ptr len : Z) : K unit :=
  if len <=? 64 then
    q ← at_ Mq mqd; mem_write ptr (take (Z.to_nat len) (msg_qbuf q))
  else lift Undef.

Definition mq_receive (mqd ptr len : Z) : K Z :=
  me ← cur;
  upd Mq mqd (set_lrpid (pid me)) ;;
  q ← at_ Mq mqd;
  me ← cur;
  if (msg_qnum q >? 0) && negb (msg_lspid q =? pid me) then
    upd Mq mqd (fun q => set_qnum (msg_qnum q - 1) q) ;;
    mq_drain mqd ptr len ;;
    q ← at_ Mq mqd;
    kill (msg_lspid q) 2 ;;
    mret (s32 len)
  else
    upd Mq mqd (set_qrec 1) ;;
    me ← cur;
    kill (pid me) 1 ;;
    mret (-1).
End Ops.

(** Process [p] runs [m]: the scheduler has made it current. *)
Definition as_proc {D A} (p : Z) (m : M (kernel D) A) : M (kernel D) A :=
  modify (set_k_current (Some p)) ;; m.

(** One system call on a channel by process [p]. *)
Inductive mq_call : Type :=
  | CallOpen (name : Z)
  | CallUnlink (m : Z)
  | CallSend (mqd ptr len : Z)
  | CallReceive (mqd ptr len : Z).

Definition run_call {D} (c : mq_call) : M (kernel D) Z :=
  match c with
  | CallOpen name => mq_open name
  | CallUnlink m => mq_unlink m
  | CallSend mqd ptr len => mq_send mqd ptr len
  | CallReceive mqd ptr len => mq_receive mqd ptr len
  end.
