(* ===== verification/MQueueProof.v ===== *)
(** * Channels: rendezvous, the one-message invariant, lost senders

    What each call of MQueue.v does on each branch, and the properties built on it. *)

From S2P Require Import Prelude CMonad Layout BlockDev Kernel Sched SchedProof MQueue.

(** ** Well-formed channels *)

(** A channel holds at most one message, its receiver flag is a boolean, the processes
    it remembers are process numbers, its buffer has 64 bytes. *)
Definition chan_wf (q : mqueue) : Prop :=
  (msg_qnum q = 0 \/ msg_qnum q = 1) /\ (msg_qrec q = 0 \/ msg_qrec q = 1) /\
  0 <= msg_lspid q < 8 /\ 0 <= msg_lrpid q < 8 /\ length (msg_qbuf q) = 64%nat.

Record mq_wf {D} (s : kernel D) (ps : list Z) : Prop := {
  mw_sched : sched_wf s ps;
  mw_len : length (k_mq s) = 32%nat;
  mw_chan : Forall chan_wf (k_mq s);
}.

Definition put_mq {D} (m : Z) (q : mqueue) (s : kernel D) : kernel D :=
  set_k_mq (<[Z.to_nat m := q]> (k_mq s)) s.

Section Frame.
Context {D : Type}.
Implicit Types (s t : kernel D) (ps : list Z).

(** [sched_wf] reads only the process table, the queue and [current]. *)
Lemma sched_wf_ext s t ps :
  k_pcb t = k_pcb s -> k_rq t = k_rq s -> k_rq_size t = k_rq_size s ->
  k_current t = k_current s -> sched_wf s ps -> sched_wf t ps.
Proof.
  intros H1 H2 H3 H4 [? ? ? ? ? ? ?].
  split; rewrite ?H1, ?H2, ?H3, ?H4; done.
Qed.

Lemma sched_wf_put_mq s ps m q : sched_wf s ps -> sched_wf (put_mq m q s) ps.
Proof. by apply sched_wf_ext. Qed.

Lemma chan_ex s m :
  length (k_mq s) = 32%nat -> 0 <= m < 32 -> exists q, k_mq s !! Z.to_nat m = Some q.
Proof. intros Hl Hm. apply lookup_lt_ex. lia. Qed.

Lemma wp_upd_mq m q f Q s :
  0 <= m -> k_mq s !! Z.to_nat m = Some q -> Q tt (put_mq m (f q) s) -> wp (upd Mq m f) Q s.
Proof. intros Hm Hq HQ. by apply (wp_upd Mq m q). Qed.

Lemma put_mq_lookup m q s q0 :
  k_mq s !! Z.to_nat m = Some q0 -> k_mq (put_mq m q s) !! Z.to_nat m = Some q.
Proof. intros Hq. apply list_lookup_insert_eq. by eapply lookup_lt_Some. Qed.

Lemma put_mq_twice m q q' s : put_mq m q (put_mq m q' s) = put_mq m q s.
Proof. unfold put_mq. cbn. by rewrite list_insert_insert_eq. Qed.

(** A signal other than SIGKILL to a process of the table. *)
Lemma wp_kill s ps p z sig x Q :
  sched_wf s ps -> 0 <= p < 8 -> k_pcb s !! Z.to_nat p = Some x -> sig_of z = Some sig ->
  sig <> SIGKILL -> Q tt (put_pcb p (kill_sig sig x) s) -> wp (kill p z) Q s.
Proof.
  intros Hs Hp Hx Hz Hne HQ. unfold wp. rewrite (kill_run s ps p sig z x) by done.
  by rewrite bool_decide_eq_false_2 by tauto.
Qed.

Lemma put_pcb_same p x y s :
  k_pcb s !! Z.to_nat p = Some x -> k_pcb (put_pcb p y s) !! Z.to_nat p = Some y.
Proof. intros Hx. apply list_lookup_insert_eq. by eapply lookup_lt_Some. Qed.

Lemma put_pcb_other p q y s :
  0 <= p -> 0 <= q -> p <> q -> k_pcb (put_pcb p y s) !! Z.to_nat q = k_pcb s !! Z.to_nat q.
Proof. intros. apply list_lookup_insert_ne. lia. Qed.

Lemma sched_wf_put_sig s ps p x sig :
  sched_wf s ps -> k_pcb s !! Z.to_nat p = Some x ->
  sched_wf (put_pcb p (kill_sig sig x) s) ps.
Proof.
  intros Hs Hx. apply (sched_wf_upd_pcb s ps _ x (kill_sig sig)); auto using kill_sig_pid.
Qed.
End Frame.

(** ** The four ways a call on an open channel ends *)

(** Waking process [r]: what [kill(r, SIGCONT)] does to the table. *)
Definition wake (r : Z) (l : list pcb_t) : list pcb_t :=
  alter (kill_sig SIGCONT) (Z.to_nat r) l.

Definition chan_state {D} (l : list pcb_t) (m : Z) (q : mqueue) (s : kernel D) : kernel D :=
  set_k_pcb l (put_mq m q s).

Definition mem_put {D} (a : Z) (bs : list Z) (s : kernel D) : kernel D :=
  set_k_mem (mem_store a bs (k_mem s)) s.

Definition sleep (p : Z) (x : pcb_t) (l : list pcb_t) : list pcb_t :=
  <[Z.to_nat p := set_pst WAITING x]> l.

(** The bytes of a message in the sender's memory. *)
Definition message {D} (s : kernel D) (ptr len : Z) : list Z :=
  mem_byte s <$> seqZ ptr (Z.of_nat (Z.to_nat len)).

Definition sent {D} (s : kernel D) (p ptr len : Z) (q : mqueue) : mqueue :=
  mk_mq (msg_qname q) 1 0 p (msg_lrpid q) (overlay (message s ptr len) (msg_qbuf q)).

Section Calls.
Context {D : Type}.
Implicit Types (s t : kernel D) (ps : list Z).

(** The caller [p] and the channel [m] it names. *)
Record caller s ps p x m q : Prop := {
  ca_sched : sched_wf s ps;
  ca_cur : k_current s = Some p;
  ca_pcb : k_pcb s !! Z.to_nat p = Some x;
  ca_chan : 0 <= m < 32 /\ k_mq s !! Z.to_nat m = Some q;
  ca_wf : chan_wf q;
}.

Lemma caller_pid s ps p x m q : caller s ps p x m q -> 0 <= p < 8 /\ pid x = p.
Proof.
  intros [Hs Hc Hx _ _]. destruct (sw_cur _ _ Hs) as (c & y & Hc' & Hr & Hy & Hid).
  rewrite Hc in Hc'. injection Hc' as <-. rewrite Hx in Hy. injection Hy as <-. done.
Qed.

Lemma length_message s ptr len : length (message s ptr len) = Z.to_nat len.
Proof. unfold message. rewrite length_fmap, length_seqZ. lia. Qed.

(** Any process of the table can be woken. *)
Lemma wp_wake s ps r Q :
  sched_wf s ps -> 0 <= r < 8 -> Q tt (set_k_pcb (wake r (k_pcb s)) s) ->
  wp (kill r 2) Q s.
Proof.
  intros Hs Hr HQ. destruct (pcb_ex s ps r Hs Hr) as [y Hy].
  apply (wp_kill s ps r 2 SIGCONT y); try done.
  unfold put_pcb. by rewrite (alter_insert_list _ _ _ _ Hy).
Qed.

Lemma wp_sleep s ps p x Q :
  sched_wf s ps -> 0 <= p < 8 -> k_pcb s !! Z.to_nat p = Some x ->
  Q tt (set_k_pcb (sleep p x (k_pcb s)) s) -> wp (kill p 1) Q s.
Proof. intros Hs Hp Hx HQ. by apply (wp_kill s ps p 1 SIGWAIT x). Qed.

(** The common start of both outcomes of [mq_send]. *)
Lemma wp_send_prefix s ps p x m q (k : M (kernel D) Z) Q :
  caller s ps p x m q ->
  wp k Q (chan_state (sleep p x (k_pcb s)) m (set_lspid p q) s) ->
  wp (me ← cur; upd Mq m (set_lspid (pid me)) ;; me ← cur; kill (pid me) 1 ;; k) Q s.
Proof.
  intros Hca Hk. destruct (caller_pid _ _ _ _ _ _ Hca) as [Hp Hid].
  destruct Hca as [Hs Hc Hx [Hm Hq] _].
  wp_steps. apply (wp_cur _ p x); [done|lia|done|].
  wp_steps. apply (wp_upd_mq _ q); [lia|done|].
  wp_steps. apply (wp_cur _ p x); [done|lia|done|]. rewrite Hid.
  wp_steps. apply (wp_sleep _ ps p x); [by apply sched_wf_put_mq|lia|done|]. exact Hk.
Qed.

(** An empty channel: the message is stored, the sender blocks, a receiver that
    waits is woken, and the call succeeds. *)
Lemma send_run_empty s ps p x m q ptr len :
  caller s ps p x m q -> msg_qnum q = 0 -> len <= 64 ->
  mq_send m ptr len s =
    Done (0, chan_state
      ((if msg_qrec q =? 1 then wake (msg_lrpid q) else id) (sleep p x (k_pcb s)))
      m (sent s p ptr len q) s).
Proof.
  intros Hca Hn Hlen. apply wp_run. unfold mq_send. eapply wp_send_prefix; [done|].
  destruct (caller_pid _ _ _ _ _ _ Hca) as [Hp Hid].
  destruct Hca as [Hs Hc Hx [Hm Hq] (_ & Hrec & _ & Hlr & Hbuf)].
  set (s1 := chan_state (sleep p x (k_pcb s)) m (set_lspid p q) s).
  assert (Hs1 : sched_wf s1 ps).
  { apply (sched_wf_put_sig (put_mq m (set_lspid p q) s) ps p x SIGWAIT); [|done].
    by apply sched_wf_put_mq. }
  assert (Hq1 : k_mq s1 !! Z.to_nat m = Some (set_lspid p q)) by by apply (put_mq_lookup _ _ _ q).
  wp_steps. apply (wp_at Mq _ (set_lspid p q)); [lia|done|].
  cbn [set_lspid msg_qnum]. rewrite Hn, Z.eqb_refl.
  wp_steps. apply (wp_upd_mq _ (set_lspid p q)); [lia|done|].
  wp_steps. unfold mq_fill. destruct (Z.leb_spec len 64); [|lia].
  wp_steps. apply wp_gets.
  eapply wp_upd_mq; [lia|by eapply put_mq_lookup|]. rewrite put_mq_twice.
  wp_steps. eapply (wp_at Mq); [lia|by eapply put_mq_lookup|].
  cbn [set_lspid set_qnum set_qbuf msg_qrec msg_lrpid].
  wp_steps. apply wp_when; intros Hr.
  - rewrite Hr. wp_steps. apply (wp_wake _ ps); [by apply sched_wf_put_mq|done|].
    eapply (wp_upd_mq m (set_qbuf _ _)); [lia|by eapply put_mq_lookup|].
    wp_steps. split; [done|]. unfold s1, chan_state, put_mq, sent, set_qrec, set_qbuf, set_qnum.
    cbn. by rewrite !list_insert_insert_eq, Hn.
  - assert (Hr0 : msg_qrec q = 0) by (destruct Hrec as [?|Hrec]; [done|by rewrite Hrec in Hr]).
    rewrite Hr. wp_steps. split; [done|]. unfold s1, chan_state, put_mq, sent, set_qbuf, set_qnum.
    cbn. by rewrite !list_insert_insert_eq, Hn, Hr0.
Qed.

(** An occupied channel: the sender blocks, becomes the channel's last sender, and is
    told to try again. *)
Lemma send_run_full s ps p x m q ptr len :
  caller s ps p x m q -> msg_qnum q = 1 ->
  mq_send m ptr len s = Done (-1, chan_state (sleep p x (k_pcb s)) m (set_lspid p q) s).
Proof.
  intros Hca Hn. apply wp_run. unfold mq_send. eapply wp_send_prefix; [done|].
  destruct Hca as [_ _ _ [Hm Hq] _].
  wp_steps. eapply (wp_at Mq); [lia|by apply (put_mq_lookup _ _ _ q)|].
  cbn [set_lspid msg_qnum]. rewrite Hn. cbn [Z.eqb]. by wp_steps.
Qed.

Lemma wp_receive_prefix s ps p x m q (k : mqueue -> pcb_t -> M (kernel D) Z) Q :
  caller s ps p x m q ->
  wp (k (set_lrpid p q) x) Q (put_mq m (set_lrpid p q) s) ->
  wp (me ← cur; upd Mq m (set_lrpid (pid me)) ;; q ← at_ Mq m; me ← cur; k q me) Q s.
Proof.
  intros Hca Hk. destruct (caller_pid _ _ _ _ _ _ Hca) as [Hp Hid].
  destruct Hca as [Hs Hc Hx [Hm Hq] _].
  wp_steps. apply (wp_cur _ p x); [done|lia|done|]. rewrite Hid.
  wp_steps. apply (wp_upd_mq _ q); [lia|done|].
  wp_steps. apply (wp_at Mq _ (set_lrpid p q)); [lia|by eapply put_mq_lookup|].
  wp_steps. by apply (wp_cur _ p x); [done|lia|done|].
Qed.

(** A message somebody else sent: it is copied out, the channel is empty again and
    the last sender is woken. *)
Lemma receive_run_ready s ps p x m q ptr len :
  caller s ps p x m q -> msg_qnum q = 1 -> msg_lspid q <> p -> 0 <= len <= 64 ->
  mq_receive m ptr len s =
    Done (len, mem_put ptr (take (Z.to_nat len) (msg_qbuf q))
                 (chan_state (wake (msg_lspid q) (k_pcb s)) m (set_qnum 0 (set_lrpid p q)) s)).
Proof.
  intros Hca Hn Hls Hlen. apply wp_run. unfold mq_receive.
  eapply wp_receive_prefix; [done|].
  destruct (caller_pid _ _ _ _ _ _ Hca) as [Hp Hid].
  destruct Hca as [Hs Hc Hx [Hm Hq] (_ & _ & Hlr & _)].
  cbn [set_lrpid msg_qnum msg_lspid]. rewrite Hn, Hid. cbn [Z.gtb Z.compare].
  destruct (Z.eqb_spec (msg_lspid q) p); [done|]. cbn [negb andb].
  wp_steps. eapply wp_upd_mq; [lia|by apply (put_mq_lookup _ _ _ q)|]. rewrite put_mq_twice.
  wp_steps. unfold mq_drain. destruct (Z.leb_spec len 64); [|lia].
  wp_steps. eapply (wp_at Mq); [lia|by apply (put_mq_lookup _ _ _ q)|].
  unfold mem_write. wp_steps.
  eapply (wp_at Mq); [lia|by apply (put_mq_lookup _ _ _ q)|].
  cbn [set_lrpid set_qnum msg_lspid msg_qbuf].
  wp_steps. apply (wp_wake _ ps); [by apply (sched_wf_ext s)|done|].
  wp_steps. rewrite s32_small by lia. split; [done|]. cbn [set_lrpid msg_qnum].
  by rewrite Hn.
Qed.

(** Nothing to receive, or only the caller's own message: the caller blocks, leaves
    its flag on the channel, and is told to try again. *)
Lemma receive_run_wait s ps p x m q ptr len :
  caller s ps p x m q -> msg_qnum q = 0 \/ msg_lspid q = p ->
  mq_receive m ptr len s =
    Done (-1, chan_state (sleep p x (k_pcb s)) m (set_qrec 1 (set_lrpid p q)) s).
Proof.
  intros Hca Hcase. apply wp_run. unfold mq_receive.
  eapply wp_receive_prefix; [done|].
  destruct (caller_pid _ _ _ _ _ _ Hca) as [Hp Hid].
  destruct Hca as [Hs Hc Hx [Hm Hq] _]. cbn [set_lrpid msg_qnum msg_lspid]. rewrite Hid.
  assert ((msg_qnum q >? 0) && negb (msg_lspid q =? p) = false) as ->.
  { destruct Hcase as [-> | ->]; [done|]. by rewrite Z.eqb_refl, andb_false_r. }
  wp_steps. eapply wp_upd_mq; [lia|by apply (put_mq_lookup _ _ _ q)|]. rewrite put_mq_twice.
  wp_steps. apply (wp_cur _ p x); [done|lia|done|]. rewrite Hid.
  wp_steps. apply (wp_sleep _ ps p x); [by apply sched_wf_put_mq|lia|done|]. by wp_steps.
Qed.

(** A longer message leaves the buffer of the channel, either way. *)
Lemma send_run_overflow s ps p x m q ptr len :
  caller s ps p x m q -> msg_qnum q = 0 -> 64 < len -> mq_send m ptr len s = Undef.
Proof.
  intros Hca Hn Hlen. destruct (caller_pid _ _ _ _ _ _ Hca) as [Hp Hid].
  destruct Hca as [Hs Hc Hx [Hm Hq] _]. unfold mq_send.
  run_with ltac:(by apply (cur_run _ p x); [|lia|]).
  run_with ltac:(apply (upd_run Mq m q); [lia|done]).
  run_with ltac:(by apply (cur_run _ p x); [|lia|]). rewrite Hid.
  run_with ltac:(apply (kill_run _ ps p SIGWAIT 1 x); [by apply (sched_wf_ext s)|done..]).
  rewrite bool_decide_eq_false_2 by (intros [? _]; done).
  run_with ltac:(apply (at_run Mq m (set_lspid p q)); [lia|]).
  2: { cbn. apply list_lookup_insert_eq. by eapply lookup_lt_Some. }
  cbn [set_lspid msg_qnum]. rewrite Hn. cbn [Z.eqb].
  run_with ltac:(apply (upd_run Mq m (set_lspid p q)); [lia|]).
  2: { cbn. apply list_lookup_insert_eq. by eapply lookup_lt_Some. }
  apply run_bind_undef. unfold mq_fill. by destruct (Z.leb_spec len 64); [lia|].
Qed.

Lemma receive_run_overflow s ps p x m q ptr len :
  caller s ps p x m q -> msg_qnum q = 1 -> msg_lspid q <> p -> 64 < len ->
  mq_receive m ptr len s = Undef.
Proof.
  intros Hca Hn Hls Hlen. destruct (caller_pid _ _ _ _ _ _ Hca) as [Hp Hid].
  destruct Hca as [Hs Hc Hx [Hm Hq] _]. unfold mq_receive.
  run_with ltac:(by apply (cur_run _ p x); [|lia|]). rewrite Hid.
  run_with ltac:(apply (upd_run Mq m q); [lia|done]).
  run_with ltac:(apply (at_run Mq m (set_lrpid p q)); [lia|]).
  2: { cbn. apply list_lookup_insert_eq. by eapply lookup_lt_Some. }
  run_with ltac:(by apply (cur_run _ p x); [|lia|]).
  cbn [set_lrpid msg_qnum msg_lspid]. rewrite Hn, Hid. cbn [Z.gtb Z.compare].
  destruct (Z.eqb_spec (msg_lspid q) p); [done|]. cbn [negb andb].
  run_with ltac:(apply (upd_run Mq m (set_lrpid p q)); [lia|]).
  2: { cbn. apply list_lookup_insert_eq. by eapply lookup_lt_Some. }
  apply run_bind_undef. unfold mq_drain. by destruct (Z.leb_spec len 64); [lia|].
Qed.
End Calls.

(** ** Opening a channel *)

(** The first channel that satisfies [P]. *)
Definition first_chan (P : mqueue -> bool) (l : list mqueue) (i : Z) : Prop :=
  exists q, 0 <= i /\ l !! Z.to_nat i = Some q /\ P q = true /\
    forall j q', 0 <= j < i -> l !! Z.to_nat j = Some q' -> P q' = false.

Definition no_chan (P : mqueue -> bool) (l : list mqueue) : Prop :=
  Forall (fun q => P q = false) l.

Definition named (name : Z) (q : mqueue) : bool := msg_qname q =? name.

(** What opening a fresh channel makes of its record. *)
Definition opened (name : Z) (q : mqueue) : mqueue := mk_mq name 0 0 0 0 (msg_qbuf q).

Section Open.
Context {D : Type}.
Implicit Types (s t : kernel D).

Lemma first_or_none P (l : list mqueue) : no_chan P l \/ exists i, first_chan P l i.
Proof.
  destruct (list_find (fun q => P q = true) l) as [[n q]|] eqn:E.
  - right. exists (Z.of_nat n). apply list_find_Some in E as (Hq & Hp & Hmin).
    exists q. rewrite Nat2Z.id. split_and!; [lia|done|done|].
    intros j q' Hj Hq'. specialize (Hmin (Z.to_nat j) q' Hq' ltac:(lia)).
    by apply not_true_is_false.
  - left. apply list_find_None in E. revert E. apply Forall_impl.
    intros q. by destruct (P q).
Qed.

Lemma first_chan_unique P l i j : first_chan P l i -> first_chan P l j -> i = j.
Proof.
  intros (q & Hi & Hq & Hp & Hmin) (q' & Hj & Hq' & Hp' & Hmin').
  destruct (Z.lt_trichotomy i j) as [H|[H|H]]; [|done|].
  - rewrite (Hmin' i q) in Hp by (done || lia). done.
  - rewrite (Hmin j q') in Hp' by (done || lia). done.
Qed.

(** A search over the channels whose hit runs [act]. *)
Lemma wp_chan_search (P : mqueue -> bool) (act : Z -> M (kernel D) (option Z)) s Q :
  length (k_mq s) = 32%nat ->
  (forall i q, first_chan P (k_mq s) i -> k_mq s !! Z.to_nat i = Some q ->
     wp (act i) (fun r t => exists x, r = Some x /\ Q (Some x) t) s) ->
  (no_chan P (k_mq s) -> Q None s) ->
  wp (for_find (Z.to_nat MSGCHAN_LIMIT) 0 (fun i =>
        q ← at_ Mq i; if P q then act i else mret None)) Q s.
Proof.
  intros Hl Hhit Hmiss.
  apply (wp_for_find (fun i t => t = s /\
    forall j q, 0 <= j < i -> k_mq s !! Z.to_nat j = Some q -> P q = false)).
  - split; [done|]. intros j q Hj. lia.
  - intros i t Hi [-> Hpre]. destruct (chan_ex s i Hl) as [q Hq]; [unfold MSGCHAN_LIMIT in *; lia|].
    wp_steps. apply (wp_at Mq i q); [lia|done|]. destruct (P q) eqn:E.
    + eapply wp_mono; [apply (Hhit i q); [|done]|].
      * exists q. split_and!; [lia|done|done|done].
      * intros r t (x & -> & HQ). done.
    + wp_steps. split; [done|]. intros j q' Hj Hq'.
      destruct (decide (j = i)) as [->|]; [by simplify_eq|]. apply (Hpre j); [lia|done].
  - intros t [-> Hpre]. apply Hmiss. apply Forall_lookup. intros j q Hq.
    pose proof (lookup_lt_Some _ _ _ Hq).
    apply (Hpre (Z.of_nat j)); [unfold MSGCHAN_LIMIT in *; lia|by rewrite Nat2Z.id].
Qed.

Lemma wp_open_fresh i q name s (Q : option Z -> kernel D -> Prop) :
  0 <= i -> k_mq s !! Z.to_nat i = Some q -> Q (Some i) (put_mq i (opened name q) s) ->
  wp (upd Mq i (set_qname name) ;; upd Mq i (set_qnum 0) ;; upd Mq i (set_qrec 0) ;;
      upd Mq i (set_lspid 0) ;; upd Mq i (set_lrpid 0) ;; mret (Some i)) Q s.
Proof.
  intros Hi Hq HQ. wp_steps. eapply wp_upd_mq; [done|done|].
  do 4 (wp_steps; eapply wp_upd_mq; [done|by apply (put_mq_lookup _ _ _ q)|];
        rewrite put_mq_twice).
  wp_steps. exact HQ.
Qed.

(** The three outcomes of [mq_open]. *)
Lemma mq_open_cases s name :
  length (k_mq s) = 32%nat ->
  (exists i, first_chan (named name) (k_mq s) i /\ mq_open name s = Done (i, s)) \/
  (no_chan (named name) (k_mq s) /\ exists i q,
     first_chan (named 0) (k_mq s) i /\ k_mq s !! Z.to_nat i = Some q /\
     mq_open name s = Done (i, put_mq i (opened name q) s)) \/
  (no_chan (named name) (k_mq s) /\ no_chan (named 0) (k_mq s) /\
     mq_open name s = Done (-1, s)).
Proof.
  intros Hl.
  assert (Hrun : wp (mq_open name) (fun r t =>
    (first_chan (named name) (k_mq s) r /\ t = s) \/
    (no_chan (named name) (k_mq s) /\ exists q,
       first_chan (named 0) (k_mq s) r /\ k_mq s !! Z.to_nat r = Some q /\
       t = put_mq r (opened name q) s) \/
    (no_chan (named name) (k_mq s) /\ no_chan (named 0) (k_mq s) /\ r = -1 /\ t = s)) s).
  { unfold mq_open. wp_step.
    eapply (wp_mono _ (fun r t => t = s /\ match r with
      | Some i => first_chan (named name) (k_mq s) i
      | None => no_chan (named name) (k_mq s) end)).
    - apply (wp_chan_search (named name)); [done| |done].
      intros i q Hf _. wp_steps. eauto.
    - intros r t [-> Hr]. destruct r as [i|]; [wp_steps; auto|]. wp_step.
      eapply (wp_mono _ (fun r t => match r with
        | Some i => exists q, first_chan (named 0) (k_mq s) i /\
            k_mq s !! Z.to_nat i = Some q /\ t = put_mq i (opened name q) s
        | None => no_chan (named 0) (k_mq s) /\ t = s end)).
      + apply wp_chan_search; [done| |done]. intros i q Hf Hq.
        apply (wp_open_fresh i q); [by destruct Hf as (?&?&_)|done|]. eauto 10.
      + intros [i|] t; wp_steps.
        * intros (q & ? & ? & ->). right; left. eauto.
        * intros [? ->]. right; right. done. }
  apply wp_done in Hrun as (r & t & Hr & [[Hf ->]|[[Hn (q & Hf & Hq & ->)]|(Hn & Hn0 & -> & ->)]]).
  - left. eauto.
  - right; left. eauto 10.
  - right; right. done.
Qed.

(** A channel that was just claimed is found again. *)
Lemma reopen_run s name i q :
  length (k_mq s) = 32%nat -> no_chan (named name) (k_mq s) -> 0 <= i ->
  k_mq s !! Z.to_nat i = Some q ->
  mq_open name (put_mq i (opened name q) s) = Done (i, put_mq i (opened name q) s).
Proof.
  intros Hl Hno Hi Hq.
  assert (Hf : first_chan (named name) (k_mq (put_mq i (opened name q) s)) i).
  { exists (opened name q). split_and!; [done|by eapply put_mq_lookup|apply Z.eqb_refl|].
    intros j q' Hj Hq'. cbn in Hq'. rewrite list_lookup_insert_ne in Hq' by lia.
    apply (Forall_lookup_1 _ _ _ _ Hno Hq'). }
  destruct (mq_open_cases (put_mq i (opened name q) s) name) as
    [(j & Hf' & Hr)|[(Hno' & _)|(Hno' & _)]]; [cbn; by rewrite length_insert|..].
  - rewrite Hr. by rewrite (first_chan_unique _ _ _ _ Hf' Hf).
  - destruct Hf as (q1 & _ & Hq1 & Hp & _).
    pose proof (Forall_lookup_1 _ _ _ _ Hno' Hq1) as E. cbn in E. congruence.
  - destruct Hf as (q1 & _ & Hq1 & Hp & _).
    pose proof (Forall_lookup_1 _ _ _ _ Hno' Hq1) as E. cbn in E. congruence.
Qed.
End Open.

(** ** Every call keeps the channels well-formed *)

(** The calls the kernel can serve without leaving its arrays: a channel of the table
    (or one [mq_unlink] rejects) and a length that fits the 64-byte buffer. *)
Definition call_ok (c : mq_call) : Prop :=
  match c with
  | CallOpen _ => True
  | CallUnlink m => m <> MSGCHAN_LIMIT
  | CallSend m _ len | CallReceive m _ len => 0 <= m < MSGCHAN_LIMIT /\ 0 <= len <= 64
  end.

Lemma wake_lookup r (l : list pcb_t) j y :
  l !! j = Some y ->
  wake r l !! j = Some (if decide (j = Z.to_nat r) then kill_sig SIGCONT y else y).
Proof.
  intros Hj. unfold wake. case_decide as E.
  - subst. by rewrite list_lookup_alter_eq, Hj.
  - by rewrite list_lookup_alter_ne by done.
Qed.

Lemma wake_running y :
  pst y = EXECUTING \/ pst y = WAITING -> pst (kill_sig SIGCONT y) = EXECUTING.
Proof. intros [H|H]; cbn; rewrite H; done. Qed.

(** A process asleep that no channel remembers: no call of another process wakes it. *)
Record orphan {D} (o : Z) (s : kernel D) : Prop := {
  or_some : 0 < o < 8;
  or_pst : exists x, k_pcb s !! Z.to_nat o = Some x /\ pst x = WAITING;
  or_chan : Forall (fun q => msg_lspid q <> o /\ msg_lrpid q <> o) (k_mq s);
}.

(** What a completed call of process [p] preserves. *)
Record call_frame {D} (p : Z) (ps : list Z) (s t : kernel D) : Prop := {
  cf_wf : mq_wf t ps;
  cf_cur : k_current t = k_current s;
  cf_orphan o : o <> p -> orphan o s -> orphan o t;
}.

Section Inv.
Context {D : Type}.
Implicit Types (s t : kernel D) (ps : list Z).

Lemma chan_wf_opened name q : chan_wf q -> chan_wf (opened name q).
Proof. unfold chan_wf. cbn. intros (_ & _ & _ & _ & ?). split_and!; auto; lia. Qed.

Lemma call_frame_refl p ps s : mq_wf s ps -> call_frame p ps s s.
Proof. by split. Qed.

Lemma call_frame_put p ps s t m q :
  call_frame p ps s t -> chan_wf q ->
  (forall o, o <> p -> orphan o t -> msg_lspid q <> o /\ msg_lrpid q <> o) ->
  call_frame p ps s (put_mq m q t).
Proof.
  intros [[Hs Hl Hc] Hcur Ho] Hq Hn. split; [split; cbn| |].
  - by apply sched_wf_put_mq.
  - by rewrite length_insert.
  - by apply Forall_insert.
  - done.
  - intros o Hne Hos. specialize (Ho o Hne Hos). destruct Ho as [? ? Hf] eqn:E.
    split; [done|done|]. cbn. apply Forall_insert; [done|]. by apply Hn.
Qed.

Lemma call_frame_mem p ps s t a bs :
  call_frame p ps s t -> call_frame p ps s (mem_put a bs t).
Proof.
  intros [[Hs Hl Hc] Hcur Ho]. split; [split; [|done..]|done|].
  - revert Hs. by apply sched_wf_ext.
  - intros o Hne Hos. by destruct (Ho o Hne Hos).
Qed.

Lemma call_frame_wake p ps s t r :
  call_frame p ps s t -> (forall o, o <> p -> orphan o s -> r <> o) -> 0 <= r ->
  call_frame p ps s (set_k_pcb (wake r (k_pcb t)) t).
Proof.
  intros [[Hs Hl Hc] Hcur Ho] Hr Hr0. split; [split; [|done..]|done|].
  - apply (sched_wf_alter t ps); [apply kill_sig_pid|done].
  - intros o Hne Hos. specialize (Hr o Hne Hos).
    destruct (Ho o Hne Hos) as [? (x & Hx & ?) ?].
    split; [done| |done]. exists x. cbn. rewrite (wake_lookup _ _ _ _ Hx).
    by rewrite decide_False by lia.
Qed.

Lemma call_frame_sleep p ps s t x :
  call_frame p ps s t -> 0 <= p -> k_pcb t !! Z.to_nat p = Some x ->
  call_frame p ps s (set_k_pcb (sleep p x (k_pcb t)) t).
Proof.
  intros [[Hs Hl Hc] Hcur Ho] Hp Hx. split; [split; [|done..]|done|].
  - by apply (sched_wf_put_sig t ps p x SIGWAIT).
  - intros o Hne Hos. destruct (Ho o Hne Hos) as [? (y & Hy & ?) ?].
    split; [done| |done]. exists y. cbn. unfold sleep.
    by rewrite list_lookup_insert_ne by lia.
Qed.

Lemma mq_wf_as_proc s ps p : mq_wf s ps -> p ∈ ps -> mq_wf (set_k_current (Some p) s) ps.
Proof.
  intros [Hs Hl Hc] Hp. split; [|done..].
  destruct (sw_pids _ _ Hs p Hp) as (x & ? & ? & ?). by apply (sched_wf_current s ps p x).
Qed.

Lemma caller_ex s ps m :
  mq_wf s ps -> 0 <= m < 32 -> exists p x q, k_current s = Some p /\ caller s ps p x m q.
Proof.
  intros [Hs Hl Hc] Hm. destruct (sw_cur _ _ Hs) as (p & x & Hcur & Hp & Hx & Hid).
  destruct (chan_ex s m) as [q Hq]; [done..|].
  exists p, x, q. split; [done|]. split; try done. by eapply (Forall_lookup_1 _ _ _ _ Hc).
Qed.

Lemma caller_intro s ps p m q :
  mq_wf s ps -> p ∈ ps -> 0 <= m < 32 -> k_mq s !! Z.to_nat m = Some q ->
  exists x, caller (set_k_current (Some p) s) ps p x m q.
Proof.
  intros Hw Hp Hm Hq. destruct (mq_wf_as_proc s ps p Hw Hp) as [Hs Hl Hc].
  destruct (sw_pids _ _ Hs p Hp) as (x & ? & ? & ?). exists x. split; try done.
  by eapply (Forall_lookup_1 _ _ _ _ Hc).
Qed.

Lemma orphan_chan o s m q :
  orphan o s -> k_mq s !! Z.to_nat m = Some q -> msg_lspid q <> o /\ msg_lrpid q <> o.
Proof. intros [_ _ Ho] Hq. by apply (Forall_lookup_1 _ _ _ _ Ho Hq). Qed.

(** A completed call that only changed channel [m] and put its caller to sleep. *)
Lemma frame_put_sleep s ps p x m q q' :
  caller s ps p x m q -> mq_wf s ps -> chan_wf q' ->
  msg_lspid q' = p \/ msg_lspid q' = msg_lspid q ->
  msg_lrpid q' = p \/ msg_lrpid q' = msg_lrpid q ->
  call_frame p ps s (chan_state (sleep p x (k_pcb s)) m q' s).
Proof.
  intros Hca Hw Hq' Hls Hlr. destruct (caller_pid _ _ _ _ _ _ Hca) as [Hp _].
  pose proof (ca_pcb _ _ _ _ _ _ Hca) as Hx. destruct (ca_chan _ _ _ _ _ _ Hca) as [_ Hq].
  apply (call_frame_sleep p ps s (put_mq m q' s)); [|lia|done].
  apply call_frame_put; [by apply call_frame_refl|done|].
  intros o Hne Ho. destruct (orphan_chan o s m q Ho Hq). split; intros E; destruct Hls, Hlr; congruence.
Qed.

Lemma mq_send_total s p x m q ps ptr len :
  caller s ps p x m q -> len <= 64 -> mq_wf s ps ->
  exists r t, mq_send m ptr len s = Done (r, t) /\ call_frame p ps s t.
Proof.
  intros Hca Hlen Hw. destruct (ca_chan _ _ _ _ _ _ Hca) as [_ Hq].
  destruct (caller_pid _ _ _ _ _ _ Hca) as [Hp _].
  destruct (ca_wf _ _ _ _ _ _ Hca) as ([Hn|Hn] & Hrec & Hls & Hlr & Hb).
  - eexists _, _. split; [by apply (send_run_empty s ps p x m q)|].
    assert (Hf : call_frame p ps s (chan_state (sleep p x (k_pcb s)) m (sent s p ptr len q) s)).
    { apply (frame_put_sleep s ps p x m q); cbn; auto. unfold chan_wf, sent; cbn.
      split_and!; auto; try lia. rewrite length_overlay; rewrite ?length_message; lia. }
    destruct (msg_qrec q =? 1); [|exact Hf].
    apply (call_frame_wake _ _ _ _ (msg_lrpid q)) in Hf; [exact Hf| |lia].
    intros o _ Ho. by destruct (orphan_chan o s m q Ho Hq).
  - eexists _, _. split; [by apply (send_run_full s ps p x m q)|].
    apply (frame_put_sleep s ps p x m q); cbn; auto.
    unfold chan_wf. cbn. split_and!; auto; lia.
Qed.

Lemma mq_receive_total s p x m q ps ptr len :
  caller s ps p x m q -> 0 <= len <= 64 -> mq_wf s ps ->
  exists r t, mq_receive m ptr len s = Done (r, t) /\ call_frame p ps s t.
Proof.
  intros Hca Hlen Hw. destruct (caller_pid _ _ _ _ _ _ Hca) as [Hp _].
  destruct (ca_chan _ _ _ _ _ _ Hca) as [_ Hq].
  destruct (ca_wf _ _ _ _ _ _ Hca) as (Hn & Hrec & Hls & Hlr & Hb).
  assert ((msg_qnum q = 0 \/ msg_lspid q = p) \/ (msg_qnum q = 1 /\ msg_lspid q <> p))
    as [Hc|[Hq1 Hne]] by lia.
  - eexists _, _. split; [by apply (receive_run_wait s ps p x m q)|].
    apply (frame_put_sleep s ps p x m q); cbn; auto.
    unfold chan_wf. cbn. split_and!; auto; lia.
  - eexists _, _. split; [by apply (receive_run_ready s ps p x m q)|].
    apply call_frame_mem.
    assert (Hf : call_frame p ps s (put_mq m (set_qnum 0 (set_lrpid p q)) s)).
    { apply call_frame_put; [by apply call_frame_refl|unfold chan_wf; cbn; split_and!; auto; lia|].
      intros o Hop Ho. cbn. destruct (orphan_chan o s m q Ho Hq). auto. }
    apply (call_frame_wake _ _ _ _ (msg_lspid q)) in Hf; [exact Hf| |lia].
    intros o _ Ho. by destruct (orphan_chan o s m q Ho Hq).
Qed.

Lemma run_call_total c s ps p :
  mq_wf s ps -> k_current s = Some p -> call_ok c ->
  exists r t, run_call c s = Done (r, t) /\ call_frame p ps s t.
Proof.
  intros Hw Hcur Hok.
  destruct c as [name|m|m ptr len|m ptr len]; cbn [run_call call_ok] in *.
  - destruct (mq_open_cases s name (mw_len _ _ Hw)) as
      [(i & _ & Hr)|[(_ & i & q & _ & Hq & Hr)|(_ & _ & Hr)]];
      eexists _, _; split; eauto using call_frame_refl.
    apply call_frame_put; [by apply call_frame_refl| |].
    + apply chan_wf_opened. by eapply (Forall_lookup_1 _ _ _ _ (mw_chan _ _ Hw)).
    + intros o _ [? _ _]. cbn. lia.
  - unfold mq_unlink. destruct ((0 <=? m) && (m <=? MSGCHAN_LIMIT)) eqn:E.
    2: { eexists _, _. split; [done|by apply call_frame_refl]. }
    destruct (chan_ex s m (mw_len _ _ Hw)) as [q Hq]; [unfold MSGCHAN_LIMIT in *; lia|].
    eexists _, (put_mq m (set_qname 0 q) s). split.
    + apply wp_run. wp_steps. eapply wp_upd_mq; [lia|done|]. by wp_steps.
    + apply call_frame_put; [by apply call_frame_refl| |].
      * by apply (Forall_lookup_1 _ _ _ _ (mw_chan _ _ Hw) Hq).
      * intros o _ Ho. by apply (orphan_chan o s m q).
  - destruct (caller_ex s ps m Hw) as (p' & x & q & Hc & Hca); [apply Hok|].
    assert (p' = p) as -> by congruence. eapply mq_send_total; [done|lia|done].
  - destruct (caller_ex s ps m Hw) as (p' & x & q & Hc & Hca); [apply Hok|].
    assert (p' = p) as -> by congruence. eapply mq_receive_total; [done|lia|done].
Qed.

(** A call made by process [p], whoever ran before. *)
Lemma as_proc_call_total c s ps p :
  mq_wf s ps -> p ∈ ps -> call_ok c ->
  exists r t, as_proc p (run_call c) s = Done (r, t) /\
    call_frame p ps (set_k_current (Some p) s) t.
Proof.
  intros Hw Hp Hok.
  by apply run_call_total; [apply mq_wf_as_proc| |].
Qed.

Lemma orphan_as_proc o p s : orphan o s -> orphan o (set_k_current (Some p) s).
Proof. by intros [? ? ?]. Qed.
End Inv.

(** ** Handing a message over *)

Section Handover.
Context {D : Type}.
Implicit Types (s t : kernel D).

(** What was stored at [a] is read back there, and nothing else changes. *)
Lemma message_put s a bs :
  0 <= a -> a + Z.of_nat (length bs) <= 2 ^ 32 ->
  message (mem_put a bs s) a (Z.of_nat (length bs)) = bs.
Proof.
  intros Ha Hl. unfold message. rewrite Nat2Z.id. apply mem_stored. lia.
Qed.

(** The table after [p] sent on an empty channel. *)
Definition after_send (p : Z) (x : pcb_t) (q : mqueue) (l : list pcb_t) : list pcb_t :=
  (if msg_qrec q =? 1 then wake (msg_lrpid q) else id) (sleep p x l).


Lemma message_put_len s t a src len :
  0 <= len -> 0 <= a -> a + len <= 2 ^ 32 ->
  message (mem_put a (message s src len) t) a len = message s src len.
Proof.
  intros Hn Ha Hl. transitivity (message (mem_put a (message s src len) t) a
                  (Z.of_nat (length (message s src len)))).
  - by rewrite length_message, Z2Nat.id by lia.
  - apply message_put; [lia|rewrite length_message; lia].
Qed.

(** One send and one receive on the same channel. *)
Definition handover (p r m src dst len : Z) : M (kernel D) (Z * Z) :=
  v ← as_proc p (mq_send m src len);
  n ← as_proc r (mq_receive m dst len);
  mret (v, n).

Definition pst_is s (p : Z) (st : pst_t) : Prop :=
  exists x, k_pcb s !! Z.to_nat p = Some x /\ pst x = st.

Lemma after_send_other p x q l r y :
  0 <= p -> 0 <= r -> p <> r -> l !! Z.to_nat r = Some y ->
  pst y = EXECUTING \/ (pst y = WAITING /\ msg_qrec q = 1 /\ msg_lrpid q = r) ->
  exists y', after_send p x q l !! Z.to_nat r = Some y' /\ pst y' = EXECUTING /\ pid y' = pid y.
Proof.
  intros Hp Hr Hne Hy Hst. unfold after_send.
  assert (Hs : sleep p x l !! Z.to_nat r = Some y)
    by (unfold sleep; rewrite list_lookup_insert_ne; [done|lia]).
  destruct Hst as [Hst|(Hst & -> & ->)].
  - destruct (msg_qrec q =? 1); cbn [id]; [|by eauto].
    rewrite (wake_lookup _ _ _ _ Hs). eexists. split; [done|].
    case_decide; [|done]. split; [apply wake_running; auto|apply kill_sig_pid].
  - cbn [Z.eqb Pos.eqb]. rewrite (wake_lookup _ _ _ _ Hs), decide_True by done.
    eexists. split; [done|]. split; [apply wake_running; auto|apply kill_sig_pid].
Qed.

Lemma after_send_self p x q l :
  l !! Z.to_nat p = Some x ->
  exists x', after_send p x q l !! Z.to_nat p = Some x' /\
    (pst x' = EXECUTING \/ pst x' = WAITING) /\ pid x' = pid x.
Proof.
  intros Hx. unfold after_send.
  assert (Hs : sleep p x l !! Z.to_nat p = Some (set_pst WAITING x)).
  { unfold sleep. apply list_lookup_insert_eq. by eapply lookup_lt_Some. }
  destruct (msg_qrec q =? 1); cbn [id]; [|by eauto 10].
  rewrite (wake_lookup _ _ _ _ Hs). eexists. split; [done|].
  case_decide; [cbn|]; auto.
Qed.

Lemma as_proc_bind {A B} p (f : M (kernel D) A) (k : A -> M (kernel D) B) s a t :
  f (set_k_current (Some p) s) = Done (a, t) -> (as_proc p f ≫= k) s = k a t.
Proof. intros Hf. unfold as_proc. rewrite run_bind_assoc, run_modify. by apply run_bind. Qed.
End Handover.

(** ** Conversations: calls of several processes, in the order they are made *)

Fixpoint conversation {D} (cs : list (Z * mq_call)) : M (kernel D) (list Z) :=
  match cs with
  | [] => mret []
  | (p, c) :: cs' =>
      v ← as_proc p (run_call c);
      vs ← conversation cs';
      mret (v :: vs)
  end.

Section Conversation.
Context {D : Type}.
Implicit Types (s t : kernel D) (ps : list Z) (cs : list (Z * mq_call)).

Lemma conversation_cons p c cs s v t vs u :
  as_proc p (run_call c) s = Done (v, t) -> conversation cs t = Done (vs, u) ->
  conversation ((p, c) :: cs) s = Done (v :: vs, u).
Proof. intros H1 H2. cbn. rewrite (run_bind _ _ _ _ _ H1). by rewrite (run_bind _ _ _ _ _ H2). Qed.

Definition valid_call ps (pc : Z * mq_call) : Prop := pc.1 ∈ ps /\ call_ok pc.2.

Lemma conversation_total s ps cs :
  mq_wf s ps -> Forall (valid_call ps) cs ->
  exists vs t, conversation cs s = Done (vs, t) /\ length vs = length cs /\ mq_wf t ps /\
    forall o, Forall (fun pc => pc.1 <> o) cs -> orphan o s -> orphan o t.
Proof.
  revert s. induction cs as [|[p c] cs IH]; intros s Hw Hcs; [by exists [], s|].
  apply list.Forall_cons in Hcs as [[Hp Hc] Hcs].
  destruct (as_proc_call_total c s ps p Hw Hp Hc) as (v & t & Hv & [Hwt _ Ho]).
  destruct (IH t Hwt Hcs) as (vs & u & Hvs & Hlen & Hwu & Hou).
  exists (v :: vs), u. split_and!; [by eapply conversation_cons|cbn; lia|done|].
  intros o [Hne Hall]%list.Forall_cons Hs. cbn in Hne.
  apply Hou; [done|]. apply Ho; [done|]. by apply orphan_as_proc.
Qed.


End Conversation.

(** * The properties of the channels *)

Section Claims.
Context {D : Type}.
Implicit Types (s t : kernel D).

(** C9: rendezvous.  Process [p] sends [len <= 64] bytes on an empty channel and then
    [r] receives [len] bytes from it: the send returns 0, the receive [len], exactly
    the bytes of [p]'s buffer arrive in [r]'s, both processes can run (the sender
    that blocked in the send is awake; so is a receiver that came first and was
    blocked on this channel), and the channel is empty with no pending receiver. *)
Theorem mq_rendezvous s ps p r m q src dst len :
  mq_wf s ps -> p ∈ ps -> r ∈ ps -> p <> r ->
  0 <= m < 32 -> k_mq s !! Z.to_nat m = Some q -> msg_qnum q = 0 ->
  0 <= len <= 64 -> 0 <= dst -> dst + len <= 2 ^ 32 -> pst_is s p EXECUTING ->
  pst_is s r EXECUTING \/ (pst_is s r WAITING /\ msg_qrec q = 1 /\ msg_lrpid q = r) ->
  exists t, handover p r m src dst len s = Done ((0, len), t) /\
    message t dst len = message s src len /\
    pst_is t p EXECUTING /\ pst_is t r EXECUTING /\ mq_wf t ps /\
    exists q', k_mq t !! Z.to_nat m = Some q' /\ msg_qnum q' = 0 /\ msg_qrec q' = 0.
Proof.
  intros Hw Hp Hr Hne Hm Hq Hn Hlen Hd Hd2 Hpe Hre.
  destruct (caller_intro s ps p m q Hw Hp Hm Hq) as (x & Hca).
  destruct (mq_send_total _ p x m q ps src len Hca) as (v & t1 & Hs1 & [Hw1 _ _]);
    [lia|by apply mq_wf_as_proc|].
  pose proof (send_run_empty _ ps p x m q src len Hca Hn ltac:(lia)) as Hsend.
  rewrite Hsend in Hs1. injection Hs1 as <- <-.
  fold (after_send p x q (k_pcb (set_k_current (Some p) s))) in Hsend, Hw1.
  cbn [k_pcb set_k_current] in Hsend, Hw1.
  set (t1 := chan_state _ _ _ _) in Hsend, Hw1.
  pose proof (ca_pcb _ _ _ _ _ _ Hca) as Hx. cbn in Hx.
  destruct (sw_pids _ _ (mw_sched _ _ Hw) p Hp) as (x0 & Hp8 & _ & _).
  destruct (sw_pids _ _ (mw_sched _ _ Hw) r Hr) as (y & Hr8 & Hy & _).
  destruct (after_send_other p x q (k_pcb s) r y) as (y' & Hy' & Hye & _); [lia|lia|done|done| |].
  { destruct Hre as [(z & Hz & E)|[(z & Hz & E) Hq2]]; rewrite Hy in Hz; injection Hz as ->; auto. }
  destruct (after_send_self p x q (k_pcb s) Hx) as (x' & Hx' & Hxe & _).
  assert (Hq1 : k_mq t1 !! Z.to_nat m = Some (sent s p src len q))
    by (apply list_lookup_insert_eq; by eapply lookup_lt_Some).
  destruct (caller_intro t1 ps r m _ Hw1 Hr Hm Hq1) as (y2 & Hca2).
  destruct (mq_receive_total _ r y2 m _ ps dst len Hca2 Hlen) as (v & t2 & Hr2 & [Hw2 _ _]);
    [by apply mq_wf_as_proc|].
  pose proof (receive_run_ready _ ps r y2 m _ dst len Hca2 eq_refl Hne Hlen) as Hrecv.
  rewrite Hrecv in Hr2. injection Hr2 as <- <-.
  eexists. split_and!.
  - unfold handover. erewrite as_proc_bind by exact Hsend.
    erewrite as_proc_bind by exact Hrecv. done.
  - cbn [sent msg_qbuf]. unfold overlay. rewrite take_app_length' by by rewrite length_message.
    match goal with |- message (mem_put _ _ ?st) _ _ = _ => set (st' := st) end.
    change (message _ src len) with (message s src len).
    apply message_put_len; lia.
  - cbn [sent msg_lspid]. eexists. split; [by apply wake_lookup|].
    rewrite decide_True by done. by apply wake_running.
  - cbn [sent msg_lspid]. eexists. split; [by apply wake_lookup|].
    rewrite decide_False by lia. done.
  - done.
  - eexists. split; [by eapply put_mq_lookup|done].
Qed.

(** C8: any conversation is served.  Whatever calls the processes of the ready queue
    make, in whatever order, as long as each names a channel of the table and a
    length of at most 64, every call returns, and the table and the channels stay
    well-formed: no channel ever holds two messages, its buffer keeps its 64 bytes,
    the pids it remembers are pids. *)
Theorem mq_conversation_safe s ps (cs : list (Z * mq_call)) :
  mq_wf s ps -> Forall (valid_call ps) cs ->
  exists vs t, conversation cs s = Done (vs, t) /\ length vs = length cs /\ mq_wf t ps.
Proof.
  intros Hw Hcs. destruct (conversation_total s ps cs Hw Hcs) as (vs & t & ? & ? & ? & _). eauto.
Qed.


(** What the kernel does not check.  [mq_unlink] accepts the number
    MSGCHAN_LIMIT, one past the table, and a message longer than the 64 bytes of the
    buffer is copied over its end by a send to an empty channel and read from behind
    it by a receive: undefined behaviour in all three. *)
Theorem mq_unchecked_bounds s ps p x m q ptr len :
  mq_wf s ps -> caller s ps p x m q -> 64 < len ->
  mq_unlink MSGCHAN_LIMIT s = Undef /\
  (msg_qnum q = 0 -> mq_send m ptr len s = Undef) /\
  (msg_qnum q = 1 -> msg_lspid q <> p -> mq_receive m ptr len s = Undef).
Proof.
  intros Hw Hca Hlen. destruct (ca_chan _ _ _ _ _ _ Hca) as [Hm Hq].
  split_and!.
  - unfold mq_unlink. cbn. apply run_bind_undef, upd_undef. cbn.
    rewrite (mw_len _ _ Hw). unfold MSGCHAN_LIMIT. lia.
  - intros Hn. by apply (send_run_overflow s ps p x m q).
  - intros Hn Hls. by apply (receive_run_overflow s ps p x m q).
Qed.

(** A channel is found by its name.  [mq_open name] returns the first channel
    that carries the name, unchanged; if there is none it claims the first unnamed
    one, names it and resets it; if none is left it returns -1 and changes nothing.
    A process that opens the same name afterwards gets the same channel. *)
Theorem mq_open_correct s ps name :
  mq_wf s ps ->
  exists i t, mq_open name s = Done (i, t) /\ mq_wf t ps /\
    ((first_chan (named name) (k_mq s) i /\ t = s) \/
     (no_chan (named name) (k_mq s) /\ first_chan (named 0) (k_mq s) i /\
        exists q, k_mq s !! Z.to_nat i = Some q /\ t = put_mq i (opened name q) s) \/
     (no_chan (named name) (k_mq s) /\ no_chan (named 0) (k_mq s) /\ i = -1 /\ t = s)) /\
    mq_open name t = Done (i, t).
Proof.
  intros Hw.
  destruct (mq_open_cases s name (mw_len _ _ Hw)) as
    [(i & Hf & Hr)|[(Hno & i & q & Hf & Hq & Hr)|(Hno & Hno0 & Hr)]];
    [exists i, s; by auto 10 | | exists (-1), s; by auto 10].
  assert (Hwt : mq_wf (put_mq i (opened name q) s) ps).
  { destruct Hw as [Hs Hl Hc]. split; [by apply sched_wf_put_mq|cbn; by rewrite length_insert|].
    apply Forall_insert; [done|]. apply chan_wf_opened. by eapply (Forall_lookup_1 _ _ _ _ Hc). }
  exists i, (put_mq i (opened name q) s).
  split_and!; [done|done|by eauto 10|]. apply reopen_run; [apply (mw_len _ _ Hw)|done| |done].
  by destruct Hf as (? & ? & _).
Qed.
End Claims.

(** ** Witnesses: the demo table with two bytes in memory *)

Definition talk : kernel unit := mem_put 100 [104; 105] demo.

Lemma talk_wf : mq_wf talk [0; 1; 2].
Proof.
  split; [|done|].
  - apply (sched_wf_ext demo); [done..|apply demo_wf].
  - apply Forall_replicate. split_and!; [by left|by left|done..].
Qed.

Lemma talk_chan : k_mq talk !! Z.to_nat 3 = Some zero_mq.
Proof. done. Qed.

Lemma talk_elem p : bool_decide (p ∈ [0; 1; 2]) = true -> p ∈ [0; 1; 2].
Proof. apply bool_decide_eq_true. Qed.

Lemma mq_rendezvous_witness :
  exists t, handover 0 2 3 100 200 2 talk = Done ((0, 2), t) /\ message t 200 2 = [104; 105].
Proof.
  destruct (mq_rendezvous talk [0; 1; 2] 0 2 3 zero_mq 100 200 2 talk_wf) as (t & Ht & Hm & _);
    [by apply talk_elem|by apply talk_elem|lia|lia|done|done|lia|lia|lia| | |].
  - by eexists.
  - left. by eexists.
  - exists t. split; [done|]. rewrite Hm. reflexivity.
Defined.

Lemma mq_conversation_safe_witness :
  exists vs t, conversation [(0, CallOpen 7); (2, CallReceive 0 200 2); (0, CallSend 0 100 2);
                             (2, CallReceive 0 200 2); (1, CallUnlink 0)] talk = Done (vs, t) /\
    vs = [0; -1; 0; 2; 0].
Proof.
  destruct (mq_conversation_safe talk [0; 1; 2]
    [(0, CallOpen 7); (2, CallReceive 0 200 2); (0, CallSend 0 100 2);
     (2, CallReceive 0 200 2); (1, CallUnlink 0)] talk_wf) as (vs & t & Hr & _).
  - repeat constructor; cbn; try (by apply talk_elem); try done.
  - exists vs, t. split; [done|]. vm_compute in Hr. by injection Hr as <- _.
Defined.


Lemma mq_unchecked_bounds_witness :
  mq_unlink 32 talk = Undef /\ mq_send 3 100 65 talk = Undef.
Proof.
  destruct (mq_unchecked_bounds talk [0; 1; 2] 0 (demo_pcb 0 EXECUTING) 3 zero_mq 100 65 talk_wf)
    as (H1 & H2 & _); [|lia|].
  - split; [apply (mw_sched _ _ talk_wf)|done|done|split; [lia|done]|].
    split_and!; [by left|by left|done..].
  - split; [exact H1|by apply H2].
Defined.

Lemma mq_open_correct_witness :
  exists t, mq_open 7 talk = Done (0, t) /\ mq_open 7 t = Done (0, t).
Proof.
  destruct (mq_open_correct talk [0; 1; 2] 7 talk_wf) as (i & t & Hr & _ & _ & Hr2).
  assert (i = 0) as -> by (vm_compute in Hr; by injection Hr as <- _).
  by exists t.
Defined.
