(* ===== verification/FsOps.v ===== *)
(** * The file system's lower half

    Free blocks, inodes and the data blocks of a file: kernel.c lines 327-713, without
    [wipe] (Posix.v).  An [inode_t*] argument is the structure it points at, and a
    function that writes through it returns the new structure; the caller stores it
    back where the pointer points.  A local buffer is [None] until a read fills it. *)

From S2P Require Import Prelude CMonad Layout BlockDev Kernel.

Definition set_fdbhead (v : Z) (f : fs_t) : fs_t :=
  mk_fs (fs_sblkno f) (fs_size f) (fs_iblkno f) (fs_isize f) (fs_dblkno f) (fs_dsize f)
    v (fs_fdb f) (fs_fil f) (fs_pad f).
Definition set_fdb (v : list Z) (f : fs_t) : fs_t :=
  mk_fs (fs_sblkno f) (fs_size f) (fs_iblkno f) (fs_isize f) (fs_dblkno f) (fs_dsize f)
    (fs_fdbhead f) v (fs_fil f) (fs_pad f).

(** [((uint32_t* )block)\[i\]] of a block buffer, read and written. *)
Definition word_at (b : list Z) (i : Z) : outcome Z := aget (dec_words 128 b) i.
Definition word_set (b : list Z) (i v : Z) : outcome (list Z) :=
  ws ← aset (dec_words 128 b) i (u32 v); Done (enc_words ws).

(** The number of entries of an indirect block: [ls]. *)
Definition LS : Z := BLOCK_SIZE / 4.

Section Ops.
Context {D : Type} `{BlockDevice D}.
Local Abbreviation K := (M (kernel D)).

(** ** Free blocks *)

Definition set_fs (f : fs_t -> fs_t) : K unit := modify (fun s => set_k_fs (f (k_fs s)) s).

Definition fdb_set (i v : Z) : K unit :=
  f ← gets k_fs; l ← lift (aset (fs_fdb f) i (u32 v)); set_fs (set_fdb l).

(** [disk_wr( fs.fs_sblkno, (uint8_t* )(&fs), sizeof( fs_t ) )]. *)
Definition write_sb : K unit :=
  f ← gets k_fs; disk_wr (fs_sblkno f) (enc f).

Definition balloc : K Z :=
  f ← gets k_fs;
  if fs_fdbhead f >? 0 then
    set_fs (set_fdbhead (fs_fdbhead f - 1)) ;;
    write_sb ;;
    f ← gets k_fs;
    lift (aget (fs_fdb f) (u32 (fs_fdbhead f + 1)))
  else
    a ← lift (aget (fs_fdb f) (fs_fdbhead f));
    if negb (a =? 1) then
      block ← disk_rd_new a;
      set_fs (set_fdb (take 64 (dec_words 128 block))) ;;
      set_fs (set_fdbhead 63) ;;
      write_sb ;;
      mret a
    else mret NOADDR.

Definition bfree (a : Z) : K Z :=
  f ← gets k_fs;
  if fs_fdbhead f <? 63 then
    set_fs (set_fdbhead (fs_fdbhead f + 1)) ;;
    fdb_set (fs_fdbhead f + 1) a ;;
    write_sb ;;
    mret 0
  else
    disk_wr a (enc_words (fs_fdb f)) ;;
    fdb_set 0 a ;;
    set_fs (set_fdbhead 0) ;;
    write_sb ;;
    mret 1.

(** ** Inodes *)

Definition readInode (i : inode_t) (ino : Z) : K inode_t :=
  let q := Z.quot ino 8 in
  let r := Z.rem ino 8 in
  f ← gets k_fs;
  b ← disk_rd_new (fs_iblkno f + q);
  ic ← lift (aget (dec_arr 8 b) r);
  mret (mk_inode (u32 ino) (i_links i) ic).

Definition writeInode (i : inode_t) : K unit :=
  let q := i_number i / 8 in
  let r := i_number i mod 8 in
  f ← gets k_fs;
  b ← disk_rd_new (fs_iblkno f + q);
  ics ← lift (aset (dec_arr 8 b) r (i_ic i));
  f ← gets k_fs;
  disk_wr (fs_iblkno f + q) (enc_arr ics).

(** The first of the inodes [ics], numbered from [j], with [ic_mode == IFZERO]. *)
Fixpoint free_slot (j : Z) (ics : list icommon_t) : option Z :=
  match ics with
  | [] => None
  | ic :: ics' => if ic_mode ic =? mode_val IFZERO then Some j else free_slot (j + 1) ics'
  end.

Definition getFreeInode (i : inode_t) : K (option inode_t) :=
  f ← gets k_fs;
  r ← for_loop (Z.to_nat (fs_isize f / 8)) 0 (fun k buf =>
    f ← gets k_fs;
    buf ← disk_rd (fs_iblkno f + k) buf;
    b ← deref buf;
    mret match free_slot 0 (dec_arr 8 b) with
         | Some j => inr (set_size 0 (set_mode (mode_val IFREG) (set_number (u32 (8 * k + j)) i)))
         | None => inl buf
         end) None;
  mret match r with inr i' => Some i' | inl _ => None end.

(** ** The data blocks of a file *)

(** Reading entry [i] of the table block [a]; the buffer keeps its old contents when
    the read is refused. *)
Definition table_rd (a : Z) (i : Z) (buf : option (list Z)) : K (Z * option (list Z)) :=
  buf ← disk_rd a buf;
  b ← deref buf;
  w ← lift (word_at b i);
  mret (w, buf).

Definition getDataBlockAddr (i : inode_t) (byte : Z) : K Z :=
  let blk := byte / BLOCK_SIZE in
  let nd := Z.of_nat NDADDR in
  if blk <? nd then
    a ← lift (aget (ic_db (i_ic i)) blk); mret (s32 a)
  else if blk <? LS + nd then
    let blk := blk - nd in
    a ← lift (aget (ic_ib (i_ic i)) 0);
    '(w, _) ← table_rd a blk None;
    mret (s32 w)
  else if blk <? LS * LS + LS + nd then
    let blk := blk - (LS + nd) in
    a ← lift (aget (ic_ib (i_ic i)) 1);
    '(w, buf) ← table_rd a (blk / LS) None;
    '(w, _) ← table_rd w (blk mod LS) buf;
    mret (s32 w)
  else if blk <? LS * LS * LS + LS * LS + LS + nd then
    let blk := blk - (LS * LS + LS + nd) in
    a ← lift (aget (ic_ib (i_ic i)) 2);
    '(w, buf) ← table_rd a (blk / (LS * LS)) None;
    '(w, buf) ← table_rd w (blk mod (LS * LS) / LS) buf;
    '(w, _) ← table_rd w (blk mod LS) buf;
    mret (s32 w)
  else mret (-1).

(** Entry [idx] of a buffered table block is written and the buffer stored at [at_]. *)
Definition table_wr (a idx v : Z) (buf : option (list Z)) : K (option (list Z)) :=
  b ← deref buf;
  b' ← lift (word_set b idx v);
  disk_wr a b' ;;
  mret (Some b').

(** [taddr = balloc(); if (taddr == -1) return -1; inode->i_ic.ic_ib\[k\] = taddr;
    writeInode( inode )] when [fresh], else [taddr = inode->i_ic.ic_ib\[k\]]. *)
Definition root_table (i : inode_t) (k : nat) (fresh : bool) : K (option Z * inode_t) :=
  if fresh then
    taddr ← balloc;
    if s32 taddr =? -1 then mret (None, i)
    else
      let i' := set_ib (<[k := u32 (s32 taddr)]> (ic_ib (i_ic i))) i in
      writeInode i' ;;
      mret (Some (s32 taddr), i')
  else
    a ← lift (aget (ic_ib (i_ic i)) (Z.of_nat k));
    mret (Some (s32 a), i).

(** The next level: when [fresh], a new table is allocated, its address is put at
    [idx] of the buffered table and the buffer is stored in the new table's block
    (lines 518-522, 546-550 and 559-563); else its address is entry [idx]. *)
Definition next_table (idx : Z) (fresh : bool) (buf : option (list Z)) :
    K (option Z * option (list Z)) :=
  if fresh then
    taddr ← balloc;
    if s32 taddr =? -1 then mret (None, buf)
    else
      buf ← table_wr (s32 taddr) idx (s32 taddr) buf;
      mret (Some (s32 taddr), buf)
  else
    b ← deref buf;
    w ← lift (word_at b idx);
    mret (Some (s32 w), buf).

Definition allocateDataBlockAddr (i : inode_t) (byte : Z) : K (Z * inode_t) :=
  let blk := byte / BLOCK_SIZE in
  let nd := Z.of_nat NDADDR in
  addr ← balloc;
  let addr := s32 addr in
  if addr =? -1 then mret (-1, i)
  else if blk <? nd then
    db ← lift (aset (ic_db (i_ic i)) blk (u32 addr));
    let i' := set_db db i in
    writeInode i' ;;
    mret (addr, i')
  else if blk <? LS + nd then
    let blk := blk - nd in
    '(t, i) ← root_table i 0 (blk =? 0);
    match t with
    | None => mret (-1, i)
    | Some taddr =>
        buf ← disk_rd taddr None;
        _ ← table_wr taddr blk addr buf;
        mret (addr, i)
    end
  else if blk <? LS * LS + LS + nd then
    let blk := blk - (LS + nd) in
    '(t, i) ← root_table i 1 (blk =? 0);
    match t with
    | None => mret (-1, i)
    | Some taddr =>
        buf ← disk_rd taddr None;
        '(t, buf) ← next_table (blk / LS) (blk mod LS =? 0) buf;
        match t with
        | None => mret (-1, i)
        | Some taddr =>
            buf ← disk_rd taddr buf;
            _ ← table_wr taddr (blk mod LS) addr buf;
            mret (addr, i)
        end
    end
  else if blk <? LS * LS * LS + LS * LS + LS + nd then
    let blk := blk - (LS * LS + LS + nd) in
    '(t, i) ← root_table i 2 (blk =? 0);
    match t with
    | None => mret (-1, i)
    | Some taddr =>
        buf ← disk_rd taddr None;
        '(t, buf) ← next_table (blk / (LS * LS)) (blk mod (LS * LS) =? 0) buf;
        match t with
        | None => mret (-1, i)
        | Some taddr =>
            buf ← disk_rd taddr buf;
            let blk := blk mod (LS * LS) in
            '(t, buf) ← next_table (blk / LS) (blk mod LS =? 0) buf;
            match t with
            | None => mret (-1, i)
            | Some taddr =>
                buf ← disk_rd taddr buf;
                _ ← table_wr taddr (blk mod LS) addr buf;
                mret (addr, i)
            end
        end
    end
  else mret (addr, i).

(** [i * BLOCK_SIZE] is computed in [int]. *)
Definition allocateDataBlocks (i : inode_t) (bytes : Z) : K (Z * inode_t) :=
  let b := ic_size (i_ic i) / BLOCK_SIZE in
  let n := u32 (ic_size (i_ic i) + bytes) / BLOCK_SIZE in
  r ← for_loop (Z.to_nat (n - b)) (b + 1) (fun k i =>
    if in_int (k * BLOCK_SIZE) then
      '(a, i) ← allocateDataBlockAddr i (k * BLOCK_SIZE);
      mret (if a =? -1 then inr i else inl i)
    else lift Undef) i;
  mret match r with
       | inr i => (-1, i)
       | inl i => let size := u32 (ic_size (i_ic i) + bytes) in (s32 size, set_size size i)
       end.

Definition getDataBlock (buf : option (list Z)) (i : inode_t) (byte : Z) :
    K (Z * option (list Z)) :=
  addr ← getDataBlockAddr i byte;
  buf ← disk_rd addr buf;
  mret (addr, buf).

(** One round of the loop of [freeDataBlocks], for [i == BLOCK_SIZE * blk]. *)
Definition freeDataBlock (i : inode_t) (blk : Z) : K unit :=
  let nd := Z.of_nat NDADDR in
  a ← getDataBlockAddr i (u32 (BLOCK_SIZE * blk));
  _ ← bfree (u32 a);
  if blk <? nd then mret tt
  else if blk <? LS + nd then
    let blk := blk - nd in
    when (blk =? 0)
      (a ← lift (aget (ic_ib (i_ic i)) 0); _ ← bfree a; mret tt)
  else if blk <? LS * LS + LS + nd then
    let blk := blk - (LS + nd) in
    t ← lift (aget (ic_ib (i_ic i)) 1);
    buf ← disk_rd t None;
    when (blk mod LS =? 0)
      (block ← deref buf; w ← lift (word_at block (blk / LS)); _ ← bfree w; mret tt) ;;
    when (blk =? 0) (_ ← bfree t; mret tt)
  else if blk <? LS * LS * LS + LS * LS + LS + nd then
    let blk := blk - (LS * LS + LS + nd) in
    t ← lift (aget (ic_ib (i_ic i)) 2);
    block ← disk_rd_new t;
    w ← lift (word_at block (blk / (LS * LS)));
    buf ← disk_rd w (Some block);
    block ← deref buf;
    when (blk mod (LS * LS) mod LS =? 0)
      (w ← lift (word_at block (blk mod (LS * LS) / LS)); _ ← bfree w; mret tt) ;;
    buf ← disk_rd t (Some block);
    block ← deref buf;
    when (blk mod (LS * LS) =? 0)
      (w ← lift (word_at block (blk / (LS * LS))); _ ← bfree w; mret tt) ;;
    when (blk =? 0) (_ ← bfree t; mret tt)
  else mret tt.

(** The loop variable is an [int]: stepping past the largest one is undefined. *)
Definition freeDataBlocks (i : inode_t) : K Z :=
  let n := (ic_size (i_ic i) + (BLOCK_SIZE - 1)) / BLOCK_SIZE in
  for_do (Z.to_nat n) 0 (fun blk =>
    freeDataBlock i blk ;;
    lift (if in_int (BLOCK_SIZE * (blk + 1)) then Done tt else Undef)) ;;
  mret 0.

Definition copyInode (copy i : inode_t) : K (option inode_t * inode_t) :=
  r ← getFreeInode copy;
  match r with
  | None => mret (None, copy)
  | Some copy =>
      let size := ic_size (i_ic i) in
      '(_, copy) ← allocateDataBlocks copy (size / BLOCK_SIZE + 1);
      _ ← for_fold (Z.to_nat ((size + (BLOCK_SIZE - 1)) / BLOCK_SIZE)) 0 (fun k buf =>
        let byte := BLOCK_SIZE * k in
        '(_, buf) ← getDataBlock buf i (u32 byte);
        let n := if size - byte >? BLOCK_SIZE then BLOCK_SIZE else size - byte in
        a ← getDataBlockAddr copy (u32 byte);
        b ← deref buf;
        disk_wr a (take (Z.to_nat n) b) ;;
        lift (if in_int (byte + BLOCK_SIZE) then Done buf else Undef)) None;
      mret (Some copy, copy)
  end.
End Ops.
