(* ===== verification/FreeList.v ===== *)
(** * The free list

    What [balloc] and [bfree] promise: a stack of free data blocks, kept in the
    superblock and in a chain of link blocks on the disk. *)

From S2P Require Import Prelude CMonad Layout BlockDev Kernel FsOps.

(** ** Writing whole blocks *)

(** [d'] is [d] with block [a] holding [x]. *)
Definition disk_put {D} `{BlockDevice D} (a : Z) (x : list Z) (d d' : D) : Prop :=
  dev_ok d' /\
  forall b, valid_addr D b -> dev_blk d' b = if decide (b = a) then x else dev_blk d b.

Section Blocks.
Context {D : Type} `{BlockDeviceLaws D}.
Implicit Types (s t : kernel D) (d : D).

Lemma wp_put_block a x Q s :
  dev_ok (k_disk s) -> valid_addr D a -> is_block x ->
  (forall d', disk_put a x (k_disk s) d' -> Q tt (set_k_disk d' s)) ->
  wp (disk_wr a x) Q s.
Proof.
  intros Hok Ha [Hl Hb] HQ. apply wp_disk_wr; [done|done|lia|done|].
  intros d' Hok' Hblk. apply HQ. split; [done|]. intros b Hb'. rewrite Hblk by done.
  rewrite overlay_full; [done|]. rewrite Hl. symmetry. by apply dev_blk_block.
Qed.

Lemma enc_fs_block (f : fs_t) : lwf f -> is_block (enc f).
Proof. intros Hf. split; [by rewrite length_enc|by apply enc_bytes]. Qed.
End Blocks.

(** ** The list a disk holds *)

(** The chain of link blocks from [a]: block [a] is free, and its first 64 words are
    the next link and 63 more free blocks, the last of them to be given out first;
    the address of the superblock ends the chain. *)
Inductive chain {D} `{BlockDevice D} (d : D) : Z -> list Z -> Prop :=
  | chain_end : chain d 1 []
  | chain_link a w ws l :
      a <> 1 -> take 64 (dec_words 128 (dev_blk d a)) = w :: ws -> chain d w l ->
      chain d a (a :: rev ws ++ l).

(** The free list of a superblock over a disk. *)
Definition free_of {D} `{BlockDevice D} (f : fs_t) (d : D) (L : list Z) : Prop :=
  exists w ws l, fs_fdb f = w :: ws /\ chain d w l /\
    L = rev (take (Z.to_nat (fs_fdbhead f)) ws) ++ l.

(** Where things are: the superblock in block 1, the inodes behind it, then data. *)
Record geometry {D} `{BlockDevice D} (f : fs_t) : Prop := {
  ge_sb : fs_sblkno f = 1;
  ge_iblk : 1 < fs_iblkno f;
  ge_isize : 0 <= fs_isize f;
  ge_dblk : fs_iblkno f + fs_isize f / 8 <= fs_dblkno f;
  ge_num : fs_dblkno f <= dev_num D;
}.
Arguments geometry D {_}.

Definition data_addr {D} `{BlockDevice D} (f : fs_t) (a : Z) : Prop :=
  fs_dblkno f <= a < dev_num D.
Arguments data_addr D {_}.

(** The file system stands for the free list [L], on the disk as in memory. *)
Record fs_rep {D} `{BlockDevice D} (s : kernel D) (L : list Z) : Prop := {
  fr_ok : dev_ok (k_disk s);
  fr_wf : lwf (k_fs s);
  fr_geo : geometry D (k_fs s);
  fr_sync : dev_blk (k_disk s) 1 = enc (k_fs s);
  fr_head : fs_fdbhead (k_fs s) < 64;
  fr_list : free_of (k_fs s) (k_disk s) L;
  fr_nodup : NoDup L;
  fr_data : Forall (data_addr D (k_fs s)) L;
}.

(** [t] is [s] but for the superblock and the blocks [ex] of the disk. *)
Record fs_frame {D} `{BlockDevice D} (ex : Z -> Prop) (s t : kernel D) : Prop := {
  ff_rest : exists f d, t = set_k_disk d (set_k_fs f s);
  ff_geo : fs_iblkno (k_fs t) = fs_iblkno (k_fs s) /\ fs_isize (k_fs t) = fs_isize (k_fs s) /\
           fs_dblkno (k_fs t) = fs_dblkno (k_fs s);
  ff_blk b : valid_addr D b -> ~ ex b -> dev_blk (k_disk t) b = dev_blk (k_disk s) b;
}.

(** Of the data blocks of [s], at most those of [ex] are others in [t]. *)
Record disk_frame {D} `{BlockDevice D} (ex : Z -> Prop) (s t : kernel D) : Prop := {
  df_geo : fs_iblkno (k_fs t) = fs_iblkno (k_fs s) /\ fs_isize (k_fs t) = fs_isize (k_fs s) /\
           fs_dblkno (k_fs t) = fs_dblkno (k_fs s);
  df_blk b : data_addr D (k_fs s) b -> ~ ex b -> dev_blk (k_disk t) b = dev_blk (k_disk s) b;
}.

Section Frames.
Context {D : Type} `{BlockDeviceLaws D}.
Implicit Types (s t : kernel D) (d : D) (L : list Z).

Lemma disk_frame_refl ex s : disk_frame ex s s.
Proof. by split. Qed.

Lemma disk_frame_trans ex s t u : disk_frame ex s t -> disk_frame ex t u -> disk_frame ex s u.
Proof.
  intros [(G1 & G2 & G3) B1] [(G1' & G2' & G3') B2]. split; [by rewrite G1', G2', G3'|].
  intros b Hb He. rewrite B2, B1; try done. unfold data_addr in *. by rewrite G3.
Qed.

Lemma disk_frame_mono (ex ex' : Z -> Prop) s t :
  (forall b, data_addr D (k_fs s) b -> ex b -> ex' b) -> disk_frame ex s t -> disk_frame ex' s t.
Proof. intros Hi [G B]. split; [done|]. intros b Hb He. apply B; auto. Qed.

Lemma disk_frame_ext ex s t t' :
  k_fs t' = k_fs t -> k_disk t' = k_disk t -> disk_frame ex s t -> disk_frame ex s t'.
Proof. intros Ef Ed []. split; rewrite ?Ef, ?Ed; done. Qed.

Lemma set_fs_disk_id s : set_k_disk (k_disk s) (set_k_fs (k_fs s) s) = s.
Proof. by destruct s. Qed.

Lemma fs_frame_refl ex s : fs_frame ex s s.
Proof. split; [|done|done]. exists (k_fs s), (k_disk s). by rewrite set_fs_disk_id. Qed.

Lemma fs_frame_trans ex s t u : fs_frame ex s t -> fs_frame ex t u -> fs_frame ex s u.
Proof.
  intros [(f & d & ->) (G1 & G2 & G3) B1] [(f' & d' & ->) (G1' & G2' & G3') B2].
  split; [by exists f', d'| |].
  - cbn in *. by rewrite G1', G2', G3'.
  - intros b Hb He. by rewrite B2, B1.
Qed.

Lemma fs_frame_mono (ex ex' : Z -> Prop) s t :
  (forall b, ex b -> ex' b) -> fs_frame ex s t -> fs_frame ex' s t.
Proof. intros Hi [R G B]. split; [done|done|]. intros b Hb He. apply B; auto. Qed.

Lemma chain_ext d d' a l :
  (forall b, b ∈ l -> dev_blk d' b = dev_blk d b) -> chain d a l -> chain d' a l.
Proof.
  intros Hb Hc. induction Hc as [|a w ws l Ha Hw Hc IH]; [constructor|].
  econstructor; [done| |].
  - rewrite Hb; [done|]. apply elem_of_cons. by left.
  - apply IH. intros b Hin. apply Hb. apply elem_of_cons. right. apply elem_of_app. by right.
Qed.

(** A chain is determined by the disk. *)
Lemma chain_unique d a l l' : chain d a l -> chain d a l' -> l = l'.
Proof.
  intros Hc. revert l'. induction Hc as [|a w ws l Ha Hw Hc IH]; intros l' Hc'.
  - by inversion Hc'.
  - inversion Hc' as [|a' w' ws' l'' Ha' Hw' Hc'']; subst; [done|].
    rewrite Hw in Hw'. injection Hw' as <- <-. by rewrite (IH l'').
Qed.

Lemma free_of_unique f d L L' : free_of f d L -> free_of f d L' -> L = L'.
Proof.
  intros (w & ws & l & Hf & Hc & ->) (w' & ws' & l' & Hf' & Hc' & ->).
  rewrite Hf in Hf'. injection Hf' as <- <-. by rewrite (chain_unique _ _ _ _ Hc Hc').
Qed.

Lemma data_addr_valid f a : geometry D f -> data_addr D f a -> valid_addr D a.
Proof.
  intros [G1 G2 G3 G4 G5] Ha. unfold data_addr, valid_addr in *.
  pose proof (Z.div_pos (fs_isize f) 8). lia.
Qed.

Lemma geometry_data f a : geometry D f -> data_addr D f a -> 1 < a.
Proof.
  intros [G1 G2 G3 G4 G5] Ha. unfold data_addr in *.
  pose proof (Z.div_pos (fs_isize f) 8). lia.
Qed.

(** The superblock is no data block. *)
Lemma disk_frame_of (ex ex' : Z -> Prop) s t :
  geometry D (k_fs s) -> fs_frame ex s t ->
  (forall b, data_addr D (k_fs s) b -> ex b -> ex' b) -> disk_frame ex' s t.
Proof.
  intros Hg [_ G B] Hi. split; [done|]. intros b Hb He. apply B; [by apply (data_addr_valid (k_fs s))|auto].
Qed.

Lemma geometry_sb_valid f : geometry D f -> valid_addr D 1.
Proof.
  intros [G1 G2 G3 G4 G5]. unfold valid_addr. pose proof (Z.div_pos (fs_isize f) 8). lia.
Qed.
End Frames.

(** ** Superblock updates *)

Section Superblock.
Context {D : Type} `{BlockDeviceLaws D}.
Implicit Types (s t : kernel D) (f : fs_t).

Lemma wp_write_sb Q s :
  dev_ok (k_disk s) -> geometry D (k_fs s) -> lwf (k_fs s) ->
  (forall d', disk_put 1 (enc (k_fs s)) (k_disk s) d' -> Q tt (set_k_disk d' s)) ->
  wp write_sb Q s.
Proof.
  intros Hok Hg Hf HQ. unfold write_sb. wp_steps. rewrite (ge_sb _ Hg).
  apply wp_put_block; [done|by apply (geometry_sb_valid (k_fs s))|by apply enc_fs_block|done].
Qed.

Lemma wp_set_fs g Q s : Q tt (set_k_fs (g (k_fs s)) s) -> wp (set_fs g) Q s.
Proof. done. Qed.

Lemma wp_fdb_set i v Q s :
  0 <= i < Z.of_nat (length (fs_fdb (k_fs s))) ->
  Q tt (set_k_fs (set_fdb (<[Z.to_nat i := u32 v]> (fs_fdb (k_fs s))) (k_fs s)) s) ->
  wp (fdb_set i v) Q s.
Proof.
  intros Hi HQ. unfold fdb_set. wp_steps.
  eapply wp_lift; [by apply aset_done|]. by apply wp_set_fs.
Qed.

Lemma lwf_set_fdbhead v f : lwf f -> is_u32 v -> lwf (set_fdbhead v f).
Proof. intros Hf Hv. cbn in *. tauto. Qed.

Lemma lwf_set_fdb l f : lwf f -> length l = 64%nat -> Forall is_u32 l -> lwf (set_fdb l f).
Proof. intros Hf Hl Hu. cbn in *. tauto. Qed.

Lemma lwf_fdb f : lwf f -> length (fs_fdb f) = 64%nat /\ Forall is_u32 (fs_fdb f).
Proof. intros (?&?&?&?). done. Qed.

Lemma lwf_fdbhead f : lwf f -> 0 <= fs_fdbhead f.
Proof. intros ((?&?&?&?&?&?&?)&?). unfold is_u32 in *. lia. Qed.

(** The disk and the superblock after the latter was written. *)
Lemma fs_rep_written s d f L :
  lwf f -> geometry D f -> fs_fdbhead f < 64 -> free_of f d L -> NoDup L ->
  Forall (data_addr D f) L -> dev_ok d ->
  forall d', disk_put 1 (enc f) d d' -> fs_rep (set_k_disk d' (set_k_fs f s)) L.
Proof.
  intros Hf Hg Hh (w & ws & l & Hw & Hc & ->) Hnd Hd Hok d' [Hok' Hblk].
  split; cbn; try done.
  - rewrite Hblk by by apply (geometry_sb_valid f). by rewrite decide_True.
  - exists w, ws, l. split_and!; [done| |done]. revert Hc. apply chain_ext.
    intros b Hb. assert (data_addr D f b) as Hda.
    { apply (proj1 (list.Forall_forall _ _) Hd b), elem_of_app. by right. }
    rewrite Hblk by by apply (data_addr_valid f).
    rewrite decide_False; [done|]. pose proof (geometry_data f b Hg Hda). lia.
Qed.

Lemma take_dec_words n m bs : (n <= m)%nat -> take n (dec_words m bs) = dec_words n bs.
Proof.
  intros Hn. apply list_eq. intros i. destruct (decide (i < n)%nat).
  - rewrite lookup_take_lt by done. by rewrite !dec_words_lookup by lia.
  - rewrite !lookup_ge_None_2; [done| |]; rewrite ?length_take, !length_dec_words; lia.
Qed.

Lemma dec_words_overlay n ws b :
  length ws = 64%nat -> (64 <= n)%nat -> Forall is_u32 ws ->
  take 64 (dec_words n (overlay (enc_words ws) b)) = ws.
Proof.
  intros Hl Hn Hu. rewrite take_dec_words by done. rewrite <-Hl. unfold overlay.
  by apply dec_words_app.
Qed.

Lemma block_words b : is_block b -> Forall is_u32 (take 64 (dec_words 128 b)).
Proof. intros [Hl Hb]. apply Forall_take, dec_words_u32; [by rewrite Hl|done]. Qed.
End Superblock.

(** ** The stack operations *)

Section Stack.
Context {D : Type} `{BlockDeviceLaws D}.
Implicit Types (s t : kernel D) (f : fs_t) (L : list Z).

(** The blocks an allocation or a release may touch. *)
Definition sb_only (b : Z) : Prop := b = 1.

Lemma rev_take_S (ws : list Z) h a :
  ws !! h = Some a -> rev (take (S h) ws) = a :: rev (take h ws).
Proof. intros Ha. rewrite (take_S_r _ _ _ Ha), rev_app_distr. done. Qed.

Lemma wp_balloc s L (Q : Z -> kernel D -> Prop) :
  fs_rep s L ->
  match L with
  | [] => Q NOADDR s
  | a :: L' => forall t, fs_rep t L' -> fs_frame sb_only s t -> Q a t
  end ->
  wp balloc Q s.
Proof.
  intros [Hok Hf Hg Hsync Hh (w & ws & l & Hw & Hc & HL) Hnd Hd] HQ.
  pose proof (lwf_fdbhead _ Hf) as Hh0. destruct (lwf_fdb _ Hf) as [Hlen Hu].
  unfold balloc. wp_steps. rewrite Z.gtb_ltb. destruct (Z.ltb_spec 0 (fs_fdbhead (k_fs s))).
  - set (h := fs_fdbhead (k_fs s)) in *.
    destruct (lookup_lt_ex ws (Z.to_nat (h - 1))) as [a Ha]; [rewrite Hw in Hlen; cbn in Hlen; lia|].
    replace (Z.to_nat h) with (S (Z.to_nat (h - 1))) in HL by lia.
    rewrite (rev_take_S _ _ _ Ha) in HL. subst L. cbn [app] in *.
    wp_steps. apply wp_set_fs. wp_steps.
    assert (Hf1 : lwf (set_fdbhead (h - 1) (k_fs s))).
    { apply lwf_set_fdbhead; [done|]. unfold is_u32. lia. }
    apply wp_write_sb; [done|by destruct Hg|done|]. intros d' Hd'. wp_steps.
    cbn [k_fs set_k_disk set_k_fs set_fdbhead fs_fdbhead fs_fdb].
    apply (wp_lift _ a).
    { apply aget_done; [apply u32_range|]. rewrite u32_small by (unfold is_u32; lia).
      rewrite Hw. replace (Z.to_nat (h - 1 + 1)) with (S (Z.to_nat (h - 1))) by lia. done. }
    apply list.NoDup_cons in Hnd as [_ Hnd]. apply list.Forall_cons in Hd as [_ Hd].
    apply HQ.
    + refine (fs_rep_written s (k_disk s) _ _ Hf1 _ _ _ Hnd Hd Hok d' Hd');
        [by destruct Hg|cbn; lia|]. exists w, ws, l. done.
    + split; [by eexists _, _|done|]. intros b Hb Hne. cbn. destruct Hd' as [_ Hblk].
      rewrite Hblk by done. by rewrite decide_False.
  - assert (fs_fdbhead (k_fs s) = 0) as E by lia. rewrite E in *.
    assert (L = l) as -> by exact HL. apply wp_bind, (wp_lift _ w); [by apply aget_done; [|rewrite Hw]|].
    inversion Hc as [Hw1 HL1|a w' ws' l0 Hw1 Hws Hc1 Ea HL1]; subst; [by wp_steps|].
    destruct (Z.eqb_spec w 1) as [|_]; [done|]. cbn [negb].
    apply list.Forall_cons in Hd as [Hdw Hd].
    pose proof (data_addr_valid _ _ Hg Hdw) as Hv.
    wp_steps. apply wp_disk_rd_new; [done|done|]. cbv beta.
    wp_steps. apply wp_set_fs. wp_steps. apply wp_set_fs. wp_steps.
    set (f1 := set_fdbhead 63 _).
    assert (Hf1 : lwf f1).
    { apply lwf_set_fdbhead; [|by unfold is_u32]. apply lwf_set_fdb; [done| |].
      - rewrite length_take, length_dec_words. done.
      - apply block_words, dev_blk_block; done. }
    apply wp_write_sb; [done|by destruct Hg|done|]. intros d' Hd'. wp_steps.
    apply list.NoDup_cons in Hnd as [_ Hnd]. apply HQ.
    + refine (fs_rep_written s (k_disk s) f1 _ Hf1 _ _ _ Hnd Hd Hok d' Hd');
        [by destruct Hg|done|]. exists w', ws', l0. split_and!; [exact Hws|done|].
      f_equal. f_equal. symmetry. apply take_ge. change (Z.to_nat (fs_fdbhead f1)) with 63%nat.
      apply (f_equal length) in Hws. rewrite length_take, length_dec_words in Hws. cbn in Hws. lia.
    + split; [by eexists _, _|done|]. intros b Hb Hne. cbn. destruct Hd' as [_ Hblk].
      rewrite Hblk by done. by rewrite decide_False.
Qed.

Lemma overlay_fdb_block (f : fs_t) b :
  lwf f -> is_block b -> is_block (overlay (enc_words (fs_fdb f)) b).
Proof.
  intros Hf Hb. destruct (lwf_fdb _ Hf) as [Hl _]. apply overlay_block; [done| |].
  - rewrite length_enc_words, Hl. lia.
  - apply enc_words_bytes.
Qed.

Lemma wp_bfree s L a (Q : Z -> kernel D -> Prop) :
  fs_rep s L -> data_addr D (k_fs s) a -> a ∉ L ->
  (forall r t, r = 0 \/ r = 1 -> fs_rep t (a :: L) ->
     fs_frame (fun b => b = 1 \/ b = a) s t -> Q r t) ->
  wp (bfree a) Q s.
Proof.
  intros [Hok Hf Hg Hsync Hh (w & ws & l & Hw & Hc & HL) Hnd Hd] Ha Hin HQ.
  pose proof (lwf_fdbhead _ Hf) as Hh0. destruct (lwf_fdb _ Hf) as [Hlen Hu].
  pose proof (data_addr_valid _ _ Hg Ha) as Hv. pose proof (geometry_data _ _ Hg Ha) as Ha1.
  pose proof dev_num_range as Hnum.
  assert (is_u32 a) as Hau by (unfold is_u32, valid_addr in *; lia).
  assert (NoDup (a :: L)) as Hnd' by by apply list.NoDup_cons.
  assert (Hd' : Forall (data_addr D (k_fs s)) (a :: L)) by by constructor.
  unfold bfree. wp_steps. destruct (Z.ltb_spec (fs_fdbhead (k_fs s)) 63).
  - set (h := fs_fdbhead (k_fs s)) in *. wp_steps. apply wp_set_fs. wp_steps.
    apply wp_fdb_set; [cbn; lia|]. wp_steps. cbn [k_fs set_k_fs].
    match goal with |- context [set_k_fs (set_fdb ?l0 (set_fdbhead _ _)) _] =>
      set (f1 := set_fdb l0 (set_fdbhead (h + 1) (k_fs s))) end.
    assert (Hf1 : lwf f1).
    { apply lwf_set_fdb; [apply lwf_set_fdbhead; [done|unfold is_u32; lia]| |].
      - cbn. by rewrite length_insert.
      - cbn. apply Forall_insert; [done|apply u32_range]. }
    apply wp_write_sb; [done|by destruct Hg|done|]. intros d' Hd1. wp_steps.
    apply HQ; [by left| |].
    + refine (fs_rep_written s (k_disk s) f1 _ Hf1 _ _ _ Hnd' Hd' Hok d' Hd1);
        [by destruct Hg|cbn; lia|].
      exists w, (<[Z.to_nat h := a]> ws), l. split_and!; [|done|].
      * cbn. rewrite Hw, u32_small by done.
        by replace (Z.to_nat (h + 1)) with (S (Z.to_nat h)) by lia.
      * cbn [f1 set_fdb set_fdbhead fs_fdbhead].
        replace (Z.to_nat (h + 1)) with (S (Z.to_nat h)) by lia.
        rewrite (rev_take_S _ _ a).
        -- cbn [app]. rewrite take_insert_ge by lia. by rewrite HL.
        -- apply list_lookup_insert_eq. rewrite Hw in Hlen. cbn in Hlen. lia.
    + split; [by eexists _, _|done|]. intros b Hb Hne. cbn. destruct Hd1 as [_ Hblk].
      rewrite Hblk by done. rewrite decide_False; [done|tauto].
  - assert (fs_fdbhead (k_fs s) = 63) as E by lia. wp_steps.
    apply wp_disk_wr; [done|done|rewrite length_enc_words, Hlen; lia|apply enc_words_bytes|].
    intros d1 Hok1 Hblk1. wp_steps. apply wp_fdb_set; [cbn; lia|]. wp_steps. apply wp_set_fs.
    cbn [k_fs set_k_fs set_k_disk]. wp_steps.
    set (f1 := set_fdbhead 0 _).
    assert (Hf1 : lwf f1).
    { apply lwf_set_fdbhead; [|by unfold is_u32]. apply lwf_set_fdb; [done| |].
      - by rewrite length_insert.
      - apply Forall_insert; [done|apply u32_range]. }
    apply wp_write_sb; [done|by destruct Hg|done|]. intros d' Hd1. wp_steps.
    apply HQ; [by right| |].
    + refine (fs_rep_written (set_k_disk d1 s) d1 f1 _ Hf1 _ _ _ Hnd' Hd' Hok1 d' Hd1);
        [by destruct Hg|done|].
      exists a, ws, (a :: L). split_and!; [cbn; by rewrite Hw, u32_small| |done].
      rewrite E in HL. subst L. rewrite take_ge by (rewrite Hw in Hlen; cbn in Hlen; lia).
      apply (chain_link _ _ w); [lia| |].
      * rewrite Hblk1, decide_True by done. rewrite <-Hw.
        by apply dec_words_overlay; [|lia|].
      * revert Hc. apply chain_ext. intros b Hb.
        assert (b ∈ rev (take (Z.to_nat 63) ws) ++ l) as Hbl by (apply elem_of_app; by right).
        rewrite Hblk1, decide_False; [done|by intros ->|].
        apply (data_addr_valid (k_fs s)); [done|]. by apply (proj1 (list.Forall_forall _ _) Hd).
    + split; [by eexists _, _|done|]. intros b Hb Hne. cbn. destruct Hd1 as [_ Hblk].
      rewrite Hblk, decide_False by tauto. cbn. rewrite Hblk1, decide_False by tauto. done.
Qed.
End Stack.

(** ** The abstract machine: a stack of blocks *)

Inductive fl_op := Alloc | Free (a : Z).

(** What the operation answers and leaves, of a free list [L]. *)
Definition fl_spec (op : fl_op) (L : list Z) : option Z * list Z :=
  match op, L with
  | Alloc, [] => (None, [])
  | Alloc, a :: L' => (Some a, L')
  | Free a, _ => (None, a :: L)
  end.

(** Only data blocks that are not free already are given back. *)
Definition fl_ok {D} `{BlockDevice D} (f : fs_t) (op : fl_op) (L : list Z) : Prop :=
  match op with Alloc => True | Free a => data_addr D f a /\ a ∉ L end.
Arguments fl_ok D {_}.

Fixpoint fl_specs (ops : list fl_op) (L : list Z) : list (option Z) * list Z :=
  match ops with
  | [] => ([], L)
  | op :: ops' =>
      let (r, L1) := fl_spec op L in
      let (rs, L2) := fl_specs ops' L1 in
      (r :: rs, L2)
  end.

Fixpoint fl_oks {D} `{BlockDevice D} (f : fs_t) (ops : list fl_op) (L : list Z) : Prop :=
  match ops with
  | [] => True
  | op :: ops' => fl_ok D f op L /\ fl_oks f ops' (fl_spec op L).2
  end.
Arguments fl_oks D {_}.

(** The code's operations, their answers read the way its callers read them: the error
    value of [balloc] as no block, the result of [bfree] ignored. *)
Definition fl_run {D} `{BlockDevice D} (op : fl_op) : M (kernel D) (option Z) :=
  match op with
  | Alloc => a ← balloc; mret (if a =? NOADDR then None else Some a)
  | Free a => _ ← bfree a; mret None
  end.

Fixpoint fl_runs {D} `{BlockDevice D} (ops : list fl_op) : M (kernel D) (list (option Z)) :=
  match ops with
  | [] => mret []
  | op :: ops' => r ← fl_run op; rs ← fl_runs ops'; mret (r :: rs)
  end.

(** The blocks the operations may write: the superblock and those given back. *)
Definition fl_touched (ops : list fl_op) (b : Z) : Prop := b = 1 \/ Free b ∈ ops.

Section Properties.
Context {D : Type} `{BlockDeviceLaws D}.
Implicit Types (s t : kernel D) (f : fs_t) (L : list Z).

Lemma data_addr_frame f f' a :
  fs_dblkno f' = fs_dblkno f -> data_addr D f a -> data_addr D f' a.
Proof. unfold data_addr. by intros ->. Qed.

Lemma fl_ok_frame ex s t op L :
  fs_frame ex s t -> fl_ok D (k_fs s) op L -> fl_ok D (k_fs t) op L.
Proof.
  intros [_ (_ & _ & Hg) _] Hop. destruct op; [done|]. destruct Hop as [Ha Hin].
  split; [by apply (data_addr_frame (k_fs s))|done].
Qed.

Lemma fl_oks_frame ex s t ops L :
  fs_frame ex s t -> fl_oks D (k_fs s) ops L -> fl_oks D (k_fs t) ops L.
Proof.
  intros Hf. revert L. induction ops as [|op ops IH]; intros L; [done|].
  intros [Hop Hops]. split; [by apply (fl_ok_frame ex s)|by apply IH].
Qed.

Lemma fl_run_refines s L op :
  fs_rep s L -> fl_ok D (k_fs s) op L ->
  exists t, fl_run op s = Done ((fl_spec op L).1, t) /\ fs_rep t (fl_spec op L).2 /\
    fs_frame (fl_touched [op]) s t.
Proof.
  intros Hs Hop. apply wp_value. destruct op as [|a]; cbn [fl_run fl_spec]; wp_steps.
  - apply (wp_balloc s L); [done|]. destruct L as [|a L].
    + wp_steps. split_and!; [done|done|apply fs_frame_refl].
    + intros t Ht Hf. wp_steps.
      pose proof (Forall_inv (fr_data _ _ Hs)) as Ha.
      pose proof (data_addr_valid _ _ (fr_geo _ _ Hs) Ha) as Hv.
      pose proof dev_num_range. unfold valid_addr in Hv.
      destruct (Z.eqb_spec a NOADDR) as [E|_]; [unfold NOADDR in E; lia|].
      split_and!; [done|done|]. revert Hf. apply fs_frame_mono. intros b ->. by left.
  - destruct Hop as [Ha Hin]. apply (wp_bfree s L); [done..|].
    intros r t _ Ht Hf. wp_steps. split_and!; [done|done|].
    revert Hf. apply fs_frame_mono. intros b [->| ->]; [by left|right; by left].
Qed.

Lemma balloc_pop s a L :
  fs_rep s (a :: L) ->
  exists t, balloc s = Done (a, t) /\ fs_rep t L /\ fs_frame sb_only s t.
Proof. intros Hs. apply wp_value. by apply (wp_balloc s (a :: L)). Qed.

(** [balloc] takes a block off the top of the free list.  When the list is empty it
    returns -1 and changes nothing; otherwise it returns the top block, whether that
    comes from the superblock or is itself the link to the next 64 blocks, the rest
    of the list stays, memory and disk agree on it again, and no block of the disk
    but the superblock is written. *)
Theorem balloc_correct s L :
  fs_rep s L ->
  match L with
  | [] => balloc s = Done (NOADDR, s)
  | a :: L' => exists t, balloc s = Done (a, t) /\ fs_rep t L' /\ fs_frame sb_only s t
  end.
Proof.
  intros Hs. destruct L as [|a L'].
  - apply wp_run. by apply (wp_balloc s []).
  - by apply balloc_pop.
Qed.

(** [bfree] pushes a data block on the free list, where the next [balloc] finds it,
    whether there is room in the superblock or a new link block has to be written;
    memory and disk agree on the list, and only the superblock and the block given
    back are written. *)
Theorem bfree_correct s L a :
  fs_rep s L -> data_addr D (k_fs s) a -> a ∉ L ->
  exists r t, bfree a s = Done (r, t) /\ fs_rep t (a :: L) /\
    fs_frame (fun b => b = 1 \/ b = a) s t /\
    exists u, balloc t = Done (a, u) /\ fs_rep u L.
Proof.
  intros Hs Ha Hin.
  assert (Hw : wp (bfree a) (fun _ t => fs_rep t (a :: L) /\
            fs_frame (fun b => b = 1 \/ b = a) s t) s) by by apply (wp_bfree s L).
  apply wp_done in Hw as (r & t & Hr & Ht & Hf). exists r, t. split_and!; [done..|].
  destruct (balloc_pop t a L Ht) as (u & Hu & ? & _). eauto.
Qed.

(** C4: refinement.  Any sequence of allocations and releases answers as the stack
    does and leaves the stack's list, on the disk as in memory: in particular no block
    is handed out twice without being given back, and a list that was exhausted says
    so.  Apart from the superblock only blocks that were given back are written. *)
Theorem freelist_refines s L ops :
  fs_rep s L -> fl_oks D (k_fs s) ops L ->
  exists t, fl_runs ops s = Done ((fl_specs ops L).1, t) /\ fs_rep t (fl_specs ops L).2 /\
    fs_frame (fl_touched ops) s t.
Proof.
  revert s L. induction ops as [|op ops IH]; intros s L Hs Hops.
  - exists s. split_and!; [done|done|apply fs_frame_refl].
  - destruct Hops as [Hop Hops].
    destruct (fl_run_refines s L op Hs Hop) as (t & Hr & Ht & Hf).
    destruct (IH t (fl_spec op L).2 Ht) as (u & Hu & Hu' & Hfu);
      [by apply (fl_oks_frame (fl_touched [op]) s)|].
    exists u. cbn [fl_runs fl_specs]. destruct (fl_spec op L) as [r L1]. cbn [fst snd] in *.
    destruct (fl_specs ops L1) as [rs L2]. cbn [fst snd] in *. split_and!.
    + rewrite (run_bind _ _ _ _ _ Hr). by rewrite (run_bind _ _ _ _ _ Hu).
    + done.
    + apply (fs_frame_trans _ _ t); [revert Hf|revert Hfu]; apply fs_frame_mono;
        intros b [->|Hb]; try (by left); right; apply elem_of_cons;
        [left; by apply list_elem_of_singleton in Hb|by right].
Qed.
End Properties.

(** ** Witnesses: a small disk

    Superblock in block 1, 16 inodes in blocks 2 and 3, data from block 8 on; the root
    directory (block 9: itself, a file and a directory), a file of 510 bytes (block
    10) and a directory (block 11); two free blocks. *)

Definition demo_fs : fs_t :=
  mk_fs 1 2048 2 16 8 2040 2 ([1; 20; 21] ++ replicate 61 0) (replicate 32 0) (replicate 100 0).

Definition demo_ic (mode size b : Z) : icommon_t :=
  mk_icommon mode size (b :: replicate 10 0) [0; 0; 0].

Definition demo_entry (ino : Z) (name : list Z) : dir_t :=
  mk_dir ino (Z.of_nat (length name)) (name ++ replicate (26 - length name) 0).

(** The names: [.] [..] [f] [d]. *)
Definition demo_inodes : list icommon_t :=
  [demo_ic 2 96 9; demo_ic 3 510 10; demo_ic 2 64 11] ++ replicate 5 (demo_ic 0 0 0).
Definition demo_root : list dir_t :=
  [demo_entry 0 [46]; demo_entry 1 [102]; demo_entry 2 [100]] ++ replicate 13 (demo_entry 0 []).
Definition demo_sub : list dir_t :=
  [demo_entry 2 [46]; demo_entry 0 [46; 46]] ++ replicate 14 (demo_entry 0 []).

Definition demo_disk : MemDisk :=
  mk_mem (<[1 := enc demo_fs]> (<[2 := enc_arr demo_inodes]> (<[9 := enc_arr demo_root]>
    (<[10 := replicate 512 7]> (<[11 := enc_arr demo_sub]> ∅))))).

Definition demo_state : kernel MemDisk := set_k_fs demo_fs (bss demo_disk []).

Definition block_ok (b : list Z) : bool :=
  (length b =? 512)%nat && forallb (fun z => (0 <=? z) && (z <? 256)) b.

Lemma block_ok_spec b : block_ok b = true -> is_block b.
Proof.
  unfold block_ok. intros [Hl Hb]%andb_true_iff. split; [by apply Nat.eqb_eq|].
  rewrite forallb_forall in Hb. apply Forall_forall. intros z Hz.
  specialize (Hb z Hz). unfold is_byte. lia.
Qed.

Lemma demo_disk_ok : dev_ok demo_disk.
Proof.
  repeat (apply map_Forall_insert_2; [apply block_ok_spec; vm_compute; reflexivity|]).
  apply map_Forall_empty.
Qed.

Lemma demo_fs_wf : lwf demo_fs.
Proof. by apply (bool_decide_unpack _). Qed.

Lemma demo_geometry : geometry MemDisk demo_fs.
Proof. split; by vm_compute. Qed.

Lemma demo_rep : fs_rep demo_state [21; 20].
Proof.
  split; cbn [k_disk k_fs demo_state set_k_fs bss].
  - apply demo_disk_ok.
  - apply demo_fs_wf.
  - apply demo_geometry.
  - vm_compute. reflexivity.
  - cbn. lia.
  - eexists 1, _, []. split_and!; [reflexivity|constructor|reflexivity].
  - by apply (bool_decide_unpack _).
  - repeat (apply Forall_cons_2 || apply Forall_nil_2); unfold data_addr; cbn; lia.
Qed.

Lemma balloc_correct_witness :
  exists t, balloc demo_state = Done (21, t) /\ fs_rep t [20].
Proof.
  destruct (balloc_correct demo_state [21; 20] demo_rep) as (t & Hr & Ht & _). by exists t.
Defined.

Lemma bfree_correct_witness :
  exists t, bfree 30 demo_state = Done (0, t) /\ fs_rep t [30; 21; 20].
Proof.
  destruct (bfree_correct demo_state [21; 20] 30 demo_rep) as (r & t & Hr & Ht & _).
  - unfold data_addr. cbn. lia.
  - by apply (bool_decide_unpack _).
  - exists t. assert (r = 0) as -> by (vm_compute in Hr; by injection Hr as <- _). done.
Defined.

(** Two blocks are given out, a third request fails, one is given back and given out. *)
Lemma freelist_refines_witness :
  exists t, fl_runs [Alloc; Alloc; Alloc; Free 21; Alloc] demo_state
    = Done ([Some 21; Some 20; None; None; Some 21], t) /\ fs_rep t [].
Proof.
  destruct (freelist_refines demo_state [21; 20] [Alloc; Alloc; Alloc; Free 21; Alloc] demo_rep)
    as (t & Hr & Ht & _).
  - cbn. split_and!; try done; apply not_elem_of_nil.
  - by exists t.
Defined.
