(* ===== verification/InodeProof.v ===== *)
(** * Inodes on disk

    Reading, writing and allocating inodes against the abstract view of the inode
    table: number [n] is the [n mod 8]th structure of block [fs_iblkno + n / 8]. *)

From S2P Require Import Prelude CMonad Layout BlockDev Kernel FsOps FreeList.

(** ** The inode table *)

Definition inode_blk (f : fs_t) (n : Z) : Z := fs_iblkno f + n / 8.

Definition zero_ic : icommon_t := i_ic zero_inode.

Definition inode_at {D} `{BlockDevice D} (f : fs_t) (d : D) (n : Z) : icommon_t :=
  default zero_ic (dec_arr 8 (dev_blk d (inode_blk f n)) !! Z.to_nat (n mod 8)).

(** The inode numbers of the table. *)
Definition is_ino (f : fs_t) (n : Z) : Prop := 0 <= n /\ n / 8 < fs_isize f / 8.

(** [d'] is [d] but for inode [n]. *)
Definition inode_put {D} `{BlockDevice D} (f : fs_t) (n : Z) (ic : icommon_t) (d d' : D) :
    Prop :=
  dev_ok d' /\
  (forall m, is_ino f m -> inode_at f d' m = if decide (m = n) then ic else inode_at f d m) /\
  (forall b, valid_addr D b -> b <> inode_blk f n -> dev_blk d' b = dev_blk d b).

Section Inodes.
Context {D : Type} `{BlockDeviceLaws D}.
Implicit Types (s t : kernel D) (d : D) (f : fs_t) (L : list Z).

Lemma inode_blk_range f n :
  geometry D f -> is_ino f n -> 1 < inode_blk f n < fs_dblkno f.
Proof.
  intros [G1 G2 G3 G4 G5] [Hn Hq]. unfold inode_blk. pose proof (Z.div_pos n 8). lia.
Qed.

Lemma inode_blk_valid f n : geometry D f -> is_ino f n -> valid_addr D (inode_blk f n).
Proof.
  intros Hg Hn. pose proof (inode_blk_range f n Hg Hn). pose proof (ge_num _ Hg).
  unfold valid_addr. lia.
Qed.

Lemma is_ino_u32 f n : lwf f -> is_ino f n -> is_u32 n.
Proof.
  intros Hf [Hn Hq]. cbn in Hf. unfold is_u32 in *.
  pose proof (Z.div_mod n 8). pose proof (Z.mod_pos_bound n 8).
  pose proof (Z.mul_div_le (fs_isize f) 8). lia.
Qed.

Lemma block_inodes b : is_block b -> Forall lwf (dec_arr 8 b : list icommon_t).
Proof. intros [Hl Hb]. apply dec_arr_wf; [by rewrite Hl|done]. Qed.

Lemma dec_arr_ex b n : is_block b -> exists ic,
  (dec_arr 8 b : list icommon_t) !! Z.to_nat (n mod 8) = Some ic /\ lwf ic.
Proof.
  intros Hb. pose proof (Z.mod_pos_bound n 8).
  destruct (lookup_lt_ex (dec_arr 8 b : list icommon_t) (Z.to_nat (n mod 8))) as [ic Hic].
  { rewrite length_dec_arr. lia. }
  exists ic. split; [done|].
  apply (Forall_lookup_1 _ _ _ _ (block_inodes b Hb) Hic).
Qed.

Lemma inode_at_wf f d n :
  geometry D f -> dev_ok d -> is_ino f n -> lwf (inode_at f d n).
Proof.
  intros Hg Hok Hn. unfold inode_at.
  destruct (dec_arr_ex (dev_blk d (inode_blk f n)) n) as (ic & Hic & Hwf).
  { apply dev_blk_block; [done|]. by apply (inode_blk_valid f). }
  by rewrite Hic.
Qed.

Lemma wp_readInode s i n Q :
  dev_ok (k_disk s) -> geometry D (k_fs s) -> lwf (k_fs s) -> is_ino (k_fs s) n ->
  Q (mk_inode n (i_links i) (inode_at (k_fs s) (k_disk s) n)) s -> wp (readInode i n) Q s.
Proof.
  intros Hok Hg Hf Hn HQ. unfold readInode. wp_steps.
  rewrite Z.quot_div_nonneg, Z.rem_mod_nonneg by (destruct Hn; lia).
  pose proof (inode_blk_valid _ _ Hg Hn) as Hv.
  apply wp_disk_rd_new; [done|done|]. wp_steps.
  destruct (dec_arr_ex (dev_blk (k_disk s) (inode_blk (k_fs s) n)) n) as (ic & Hic & Hwf).
  { by apply dev_blk_block. }
  apply (wp_lift _ ic). { apply aget_done; [apply Z.mod_pos_bound; lia|done]. }
  wp_steps. unfold inode_at in HQ. rewrite Hic in HQ.
  rewrite u32_small by by apply (is_ino_u32 (k_fs s)). exact HQ.
Qed.

(** The block of an inode table with one structure replaced. *)
Lemma enc_insert_block (b : list Z) (r : nat) (ic : icommon_t) :
  is_block b -> lwf ic -> is_block (enc_arr (<[r := ic]> (dec_arr 8 b))).
Proof.
  intros Hb Hic.
  assert (Forall lwf (<[r := ic]> (dec_arr 8 b : list icommon_t))) as Hw
    by (apply Forall_insert; [by apply block_inodes|done]).
  split; [|by apply enc_arr_bytes].
  rewrite length_enc_arr by done. by rewrite length_insert, length_dec_arr.
Qed.

Lemma dec_insert_block (b : list Z) (r : nat) (ic : icommon_t) :
  is_block b -> lwf ic ->
  dec_arr 8 (enc_arr (<[r := ic]> (dec_arr 8 b))) = <[r := ic]> (dec_arr 8 b).
Proof.
  intros Hb Hic.
  replace 8%nat with (length (<[r := ic]> (dec_arr 8 b : list icommon_t))) at 1
    by by rewrite length_insert, length_dec_arr.
  by apply dec_enc_arr, Forall_insert; [apply block_inodes|].
Qed.

Lemma inode_at_put f d d' n ic :
  geometry D f -> is_ino f n -> lwf ic -> dev_ok d ->
  disk_put (inode_blk f n)
    (enc_arr (<[Z.to_nat (n mod 8) := ic]> (dec_arr 8 (dev_blk d (inode_blk f n))))) d d' ->
  inode_put f n ic d d'.
Proof.
  intros Hg Hn Hic Hok [Hok' Hblk]. split; [done|]. split.
  - intros m Hm. unfold inode_at. pose proof (inode_blk_valid f m Hg Hm) as Hvm.
    pose proof (inode_blk_valid f n Hg Hn) as Hvn.
    pose proof (Z.mod_pos_bound m 8). pose proof (Z.mod_pos_bound n 8).
    pose proof (Z.div_mod m 8). pose proof (Z.div_mod n 8).
    rewrite Hblk by done. case_decide as E.
    + rewrite dec_insert_block by (done || by apply dev_blk_block). case_decide as E'.
      * subst m. rewrite list_lookup_insert_eq; [done|]. rewrite length_dec_arr. lia.
      * rewrite list_lookup_insert_ne; [by rewrite E|]. unfold inode_blk in E. lia.
    + case_decide as E'; [by subst m|done].
  - intros b Hb Hne. rewrite Hblk by done. by rewrite decide_False.
Qed.

Lemma wp_writeInode s i Q :
  dev_ok (k_disk s) -> geometry D (k_fs s) -> is_ino (k_fs s) (i_number i) ->
  lwf (i_ic i) ->
  (forall d', inode_put (k_fs s) (i_number i) (i_ic i) (k_disk s) d' ->
     Q tt (set_k_disk d' s)) ->
  wp (writeInode i) Q s.
Proof.
  intros Hok Hg Hn Hic HQ. unfold writeInode. wp_steps.
  pose proof (inode_blk_valid _ _ Hg Hn) as Hv.
  apply wp_disk_rd_new; [done|done|]. wp_steps.
  pose proof (Z.mod_pos_bound (i_number i) 8).
  eapply wp_lift.
  { apply aset_done. rewrite length_dec_arr. lia. }
  wp_steps. change (fs_iblkno (k_fs s) + i_number i / 8) with (inode_blk (k_fs s) (i_number i)).
  apply wp_put_block; [done|done| |].
  - apply enc_insert_block; [by apply dev_blk_block|done].
  - intros d' Hd'. apply HQ. by apply inode_at_put.
Qed.

(** ** A write elsewhere keeps the free list *)

Lemma free_of_ext f d d' L :
  (forall b, b ∈ L -> dev_blk d' b = dev_blk d b) -> free_of f d L -> free_of f d' L.
Proof.
  intros Hb (w & ws & l & Hw & Hc & ->). exists w, ws, l. split_and!; [done| |done].
  revert Hc. apply chain_ext. intros b Hin. apply Hb, elem_of_app. by right.
Qed.

(** A disk that agrees on the superblock and on the free blocks. *)
Lemma fs_rep_disk s d' L :
  fs_rep s L -> dev_ok d' -> dev_blk d' 1 = dev_blk (k_disk s) 1 ->
  (forall b, b ∈ L -> dev_blk d' b = dev_blk (k_disk s) b) -> fs_rep (set_k_disk d' s) L.
Proof.
  intros [Hok Hf Hg Hsync Hh Hfree Hnd Hd] Hok' H1 Hb.
  split; cbn; try done; [by rewrite H1|by apply (free_of_ext _ (k_disk s))].
Qed.

Lemma fs_rep_inode s n ic d' L :
  fs_rep s L -> is_ino (k_fs s) n -> inode_put (k_fs s) n ic (k_disk s) d' ->
  fs_rep (set_k_disk d' s) L.
Proof.
  intros Hs Hn (Hok' & _ & Hblk). pose proof (fr_geo _ _ Hs) as Hg.
  pose proof (inode_blk_range _ _ Hg Hn) as Hr.
  apply fs_rep_disk; [done|done| |].
  - apply Hblk; [by apply (geometry_sb_valid (k_fs s))|lia].
  - intros b Hb. pose proof (proj1 (list.Forall_forall _ _) (fr_data _ _ Hs) b Hb) as Hd.
    apply Hblk; [by apply (data_addr_valid (k_fs s))|]. unfold data_addr in Hd. lia.
Qed.

(** A write to a data block that is not free keeps the free list. *)
Lemma fs_rep_data s a x d' L :
  fs_rep s L -> data_addr D (k_fs s) a -> a ∉ L -> disk_put a x (k_disk s) d' ->
  fs_rep (set_k_disk d' s) L.
Proof.
  intros Hs Ha Hin [Hok' Hblk]. pose proof (fr_geo _ _ Hs) as Hg.
  pose proof (geometry_data _ _ Hg Ha). apply fs_rep_disk; [done|done| |].
  - rewrite Hblk, decide_False; [done|lia|by apply (geometry_sb_valid (k_fs s))].
  - intros b Hb. pose proof (proj1 (list.Forall_forall _ _) (fr_data _ _ Hs) b Hb) as Hd.
    rewrite Hblk by by apply (data_addr_valid (k_fs s)). by rewrite decide_False by by intros ->.
Qed.

(** The inode table does not see writes to the superblock or to data blocks. *)
Lemma inode_at_ext f f' d d' n :
  fs_iblkno f' = fs_iblkno f ->
  dev_blk d' (inode_blk f n) = dev_blk d (inode_blk f n) -> inode_at f' d' n = inode_at f d n.
Proof. intros Hf Hb. unfold inode_at, inode_blk in *. rewrite Hf. by rewrite Hb. Qed.
End Inodes.

(** ** Allocation of inodes *)

Definition is_free {D} `{BlockDevice D} (f : fs_t) (d : D) (n : Z) : Prop :=
  ic_mode (inode_at f d n) = mode_val IFZERO.

#[export] Instance is_free_dec {D} `{BlockDevice D} (f : fs_t) (d : D) n : Decision (is_free f d n).
Proof. unfold is_free. apply _. Defined.

(** What [getFreeInode] makes of the structure it is given. *)
Definition fresh_inode (n : Z) (i : inode_t) : inode_t :=
  set_size 0 (set_mode (mode_val IFREG) (set_number n i)).

Lemma free_slot_spec ics j :
  match free_slot j ics with
  | Some k => exists m, k = j + Z.of_nat m /\
      (exists ic, ics !! m = Some ic /\ ic_mode ic = mode_val IFZERO) /\
      forall m' ic, (m' < m)%nat -> ics !! m' = Some ic -> ic_mode ic <> mode_val IFZERO
  | None => forall m ic, ics !! m = Some ic -> ic_mode ic <> mode_val IFZERO
  end.
Proof.
  revert j. induction ics as [|ic ics IH]; intros j; cbn [free_slot]; [done|].
  destruct (Z.eqb_spec (ic_mode ic) (mode_val IFZERO)) as [E|E].
  - exists 0%nat. split_and!; [lia|by exists ic|lia].
  - specialize (IH (j + 1)). destruct (free_slot (j + 1) ics) as [k|].
    + destruct IH as (m & -> & (ic' & Hic & Hz) & Hmin). exists (S m).
      split_and!; [lia|by exists ic'|]. intros m' ic'' Hm' Hic''.
      destruct m' as [|m']; cbn in Hic''; [by simplify_eq|]. apply (Hmin m'); [lia|done].
    + intros [|m] ic'' Hic''; cbn in Hic''; [by simplify_eq|by apply (IH m)].
Qed.

Section Allocation.
Context {D : Type} `{BlockDeviceLaws D}.
Implicit Types (s t : kernel D) (d : D) (f : fs_t).

(** The [m]th structure of the [k]th block of the table. *)
Lemma inode_at_lookup f d k m ic :
  0 <= k -> (m < 8)%nat -> dec_arr 8 (dev_blk d (fs_iblkno f + k)) !! m = Some ic ->
  inode_at f d (8 * k + Z.of_nat m) = ic.
Proof.
  intros Hk Hm Hic. unfold inode_at, inode_blk.
  replace ((8 * k + Z.of_nat m) / 8) with k by (rewrite Z.mul_comm, Z.div_add_l, (Z.div_small (Z.of_nat m)); lia).
  replace ((8 * k + Z.of_nat m) mod 8) with (Z.of_nat m)
    by (rewrite Z.add_comm, Z.mul_comm, Z.mod_add, Z.mod_small; lia).
  by rewrite Nat2Z.id, Hic.
Qed.

Lemma wp_getFreeInode s i (Q : option inode_t -> kernel D -> Prop) :
  dev_ok (k_disk s) -> geometry D (k_fs s) -> lwf (k_fs s) ->
  (forall n, is_ino (k_fs s) n -> is_free (k_fs s) (k_disk s) n ->
     (forall m, 0 <= m < n -> ~ is_free (k_fs s) (k_disk s) m) -> Q (Some (fresh_inode n i)) s) ->
  ((forall m, is_ino (k_fs s) m -> ~ is_free (k_fs s) (k_disk s) m) -> Q None s) ->
  wp (getFreeInode i) Q s.
Proof.
  intros Hok Hg Hf Hhit Hmiss. unfold getFreeInode. wp_steps.
  assert (Hi0 : 0 <= fs_isize (k_fs s) / 8) by (apply Z.div_pos; [apply Hg|lia]).
  eapply (wp_for_loop (fun k _ t => t = s /\
    forall m, 0 <= m < 8 * k -> ~ is_free (k_fs s) (k_disk s) m)).
  - split; [done|]. intros m Hm. lia.
  - intros k buf t Hk [-> Hpre]. wp_steps.
    assert (Hino : is_ino (k_fs s) (8 * k)).
    { split; [lia|]. rewrite Z.mul_comm, Z.div_mul by lia. lia. }
    pose proof (inode_blk_valid _ _ Hg Hino) as Hv. unfold inode_blk in Hv.
    rewrite Z.mul_comm, Z.div_mul in Hv by lia.
    apply wp_disk_rd; [done|done|]. wp_steps.
    pose proof (free_slot_spec (dec_arr 8 (dev_blk (k_disk s) (fs_iblkno (k_fs s) + k))) 0) as Hfs.
    destruct (free_slot 0 _) as [j|].
    + destruct Hfs as (m & -> & (ic & Hic & Hz) & Hmin).
      assert (Hm8 : (m < 8)%nat).
      { apply lookup_lt_Some in Hic. by rewrite length_dec_arr in Hic. }
      rewrite Z.add_0_l.
      assert (Hn : is_ino (k_fs s) (8 * k + Z.of_nat m)).
      { split; [lia|]. rewrite Z.mul_comm, Z.div_add_l, (Z.div_small (Z.of_nat m)) by lia. lia. }
      rewrite u32_small by by apply (is_ino_u32 (k_fs s)). wp_steps.
      apply (Hhit (8 * k + Z.of_nat m)); [done| |].
      * unfold is_free. by rewrite (inode_at_lookup _ _ k _ _ ltac:(lia) Hm8 Hic).
      * intros m' Hm'. destruct (Z.lt_ge_cases m' (8 * k)) as [Hlt|Hge]; [apply Hpre; lia|].
        replace m' with (8 * k + Z.of_nat (Z.to_nat (m' - 8 * k))) by lia.
        destruct (lookup_lt_ex (dec_arr 8 (dev_blk (k_disk s) (fs_iblkno (k_fs s) + k)) : list icommon_t)
          (Z.to_nat (m' - 8 * k))) as [ic' Hic']; [rewrite length_dec_arr; lia|].
        unfold is_free. rewrite (inode_at_lookup _ _ k (Z.to_nat (m' - 8 * k)) ic' ltac:(lia)); [|lia|done].
        apply (Hmin (Z.to_nat (m' - 8 * k)) ic'); [lia|done].
    + split; [done|]. intros m Hm. destruct (Z.lt_ge_cases m (8 * k)) as [Hlt|Hge]; [apply Hpre; lia|].
      replace m with (8 * k + Z.of_nat (Z.to_nat (m - 8 * k))) by lia.
      destruct (lookup_lt_ex (dec_arr 8 (dev_blk (k_disk s) (fs_iblkno (k_fs s) + k)) : list icommon_t)
        (Z.to_nat (m - 8 * k))) as [ic' Hic']; [rewrite length_dec_arr; lia|].
      unfold is_free. rewrite (inode_at_lookup _ _ k (Z.to_nat (m - 8 * k)) ic' ltac:(lia)); [|lia|done].
      by apply (Hfs (Z.to_nat (m - 8 * k))).
  - intros buf t [-> Hpre]. wp_steps. apply Hmiss. intros m [Hm Hq]. apply Hpre.
    pose proof (Z.div_mod m 8). pose proof (Z.mod_pos_bound m 8). lia.
Qed.

(** With the lowest free inode known. *)
Lemma wp_getFreeInode_at s i n (Q : option inode_t -> kernel D -> Prop) :
  dev_ok (k_disk s) -> geometry D (k_fs s) -> lwf (k_fs s) ->
  is_ino (k_fs s) n -> is_free (k_fs s) (k_disk s) n -> (forall m, 0 <= m < n -> ~ is_free (k_fs s) (k_disk s) m) ->
  Q (Some (fresh_inode n i)) s -> wp (getFreeInode i) Q s.
Proof.
  intros Hok Hg Hf Hn Hfree Hmin HQ. apply wp_getFreeInode; [done..| |].
  - intros n' Hn' Hf' Hmin'. destruct (Z.lt_trichotomy n' n) as [Hlt|[->|Hgt]]; [|done|].
    + destruct (Hmin n'); [by destruct Hn'|done].
    + destruct (Hmin' n); [by destruct Hn|done].
  - intros Hnone. by destruct (Hnone n Hn).
Qed.
End Allocation.

(** * The properties of the inode table *)

Section Claims.
Context {D : Type} `{BlockDeviceLaws D}.
Implicit Types (s t : kernel D) (L : list Z).

(** An inode that was written is read back, and nothing else changed: no other
    inode, although eight of them share a block, no other block, and not the free
    list. *)
Theorem writeInode_readInode s L i j :
  fs_rep s L -> is_ino (k_fs s) (i_number i) -> lwf (i_ic i) ->
  exists t, writeInode i s = Done (tt, t) /\ fs_rep t L /\
    readInode j (i_number i) t = Done (mk_inode (i_number i) (i_links j) (i_ic i), t) /\
    (forall m, is_ino (k_fs s) m -> m <> i_number i ->
       readInode j m t = Done (mk_inode m (i_links j) (inode_at (k_fs s) (k_disk s) m), t)) /\
    fs_frame (fun b => b = inode_blk (k_fs s) (i_number i)) s t.
Proof.
  intros Hs Hn Hic. pose proof (fr_geo _ _ Hs) as Hg. apply wp_value.
  apply wp_writeInode; [apply Hs|done..|].
  intros d' Hd'. pose proof (fs_rep_inode s _ _ d' L Hs Hn Hd') as Hs'.
  split_and!; [done|done| | |].
  - apply wp_run, wp_readInode; [apply Hs'|apply Hs'|apply Hs'|done|].
    destruct Hd' as (_ & Hd' & _). cbn [k_fs k_disk set_k_disk].
    by rewrite Hd', decide_True by done.
  - intros m Hm Hne. apply wp_run, wp_readInode; [apply Hs'|apply Hs'|apply Hs'|done|].
    destruct Hd' as (_ & Hd' & _). cbn [k_fs k_disk set_k_disk].
    by rewrite Hd', decide_False by done.
  - split; [by exists (k_fs s), d'; destruct s|done|]. intros b Hb Hne. by apply Hd'.
Qed.

(** [getFreeInode] finds the unused inode with the lowest number, makes the
    structure an empty regular file with that number and otherwise leaves it (the
    block addresses in it are whatever they were); when every inode is in use it
    says so.  It does not write to the disk: the inode stays free there until
    somebody writes it. *)
Theorem getFreeInode_correct s L i :
  fs_rep s L ->
  (exists n, is_ino (k_fs s) n /\ is_free (k_fs s) (k_disk s) n /\
     (forall m, 0 <= m < n -> ~ is_free (k_fs s) (k_disk s) m) /\
     getFreeInode i s = Done (Some (fresh_inode n i), s)) \/
  ((forall m, is_ino (k_fs s) m -> ~ is_free (k_fs s) (k_disk s) m) /\
   getFreeInode i s = Done (None, s)).
Proof.
  intros Hs.
  assert (Hw : wp (getFreeInode i) (fun r t => t = s /\
    match r with
    | Some i' => exists n, i' = fresh_inode n i /\ is_ino (k_fs s) n /\
        is_free (k_fs s) (k_disk s) n /\ (forall m, 0 <= m < n -> ~ is_free (k_fs s) (k_disk s) m)
    | None => forall m, is_ino (k_fs s) m -> ~ is_free (k_fs s) (k_disk s) m
    end) s).
  { apply wp_getFreeInode; [apply Hs|apply Hs|apply Hs| |done]. eauto 10. }
  apply wp_done in Hw as (r & t & Hr & -> & Hcase). destruct r as [i'|]; [|by right].
  left. destruct Hcase as (n & -> & ? & ? & ?). eauto.
Qed.
End Claims.

(** ** Witnesses *)

Definition demo_inode : inode_t := mk_inode 1 1 (demo_ic 3 510 10).

Lemma writeInode_readInode_witness :
  exists t, writeInode demo_inode demo_state = Done (tt, t) /\
    readInode zero_inode 1 t = Done (mk_inode 1 0 (demo_ic 3 510 10), t).
Proof.
  destruct (writeInode_readInode demo_state [21; 20] demo_inode zero_inode demo_rep)
    as (t & Hr & _ & Hrd & _).
  - by split.
  - by apply (bool_decide_unpack _).
  - by exists t.
Defined.

Lemma getFreeInode_correct_witness :
  getFreeInode zero_inode demo_state = Done (Some (fresh_inode 3 zero_inode), demo_state).
Proof.
  destruct (getFreeInode_correct demo_state [21; 20] zero_inode demo_rep)
    as [(n & Hn & Hf & Hmin & Hr)|[Hall _]].
  - assert (n = 3) as ->; [|done].
    destruct (Z.lt_trichotomy n 3) as [Hlt|[?|Hgt]]; [|done|].
    + exfalso. assert (n = 0 \/ n = 1 \/ n = 2) as [->|[->| ->]] by (destruct Hn; lia);
        vm_compute in Hf; discriminate.
    + exfalso. apply (Hmin 3); [lia|by vm_compute].
  - exfalso. apply (Hall 3); [by split|by vm_compute].
Defined.
