(* ===== verification/BlockMap.v ===== *)
(** * The block map of a file

    Where block number [blk] of a file is: the tree of direct, indirect, doubly and
    triply indirect blocks, and that [getDataBlockAddr] walks it. *)

From S2P Require Import Prelude CMonad Layout BlockDev Kernel FsOps FreeList InodeProof.

(** Entry [i] of the table in block [a]. *)
Definition word {D} `{BlockDevice D} (d : D) (a i : Z) : Z :=
  nth (Z.to_nat i) (dec_words 128 (dev_blk d a)) 0.

(** Following the entries [path] from the table [a]. *)
Fixpoint descend {D} `{BlockDevice D} (d : D) (a : Z) (path : list Z) : Z :=
  match path with
  | [] => a
  | i :: path' => descend d (word d a i) path'
  end.

(** Every table on the way is a block of the disk. *)
Fixpoint path_ok {D} `{BlockDevice D} (d : D) (a : Z) (path : list Z) : Prop :=
  match path with
  | [] => True
  | i :: path' => valid_addr D a /\ 0 <= i < 128 /\ path_ok d (word d a i) path'
  end.

Definition db_at (ic : icommon_t) (k : Z) : Z := nth (Z.to_nat k) (ic_db ic) 0.
Definition ib_at (ic : icommon_t) (k : Z) : Z := nth (Z.to_nat k) (ic_ib ic) 0.

(** The root of block [blk]'s path and the base-128 digits that lead to it. *)
Definition blk_path (ic : icommon_t) (blk : Z) : option (Z * list Z) :=
  if blk <? 11 then Some (db_at ic blk, [])
  else if blk <? 139 then Some (ib_at ic 0, [blk - 11])
  else if blk <? 16523 then
    let b := blk - 139 in Some (ib_at ic 1, [b / 128; b mod 128])
  else if blk <? 2113675 then
    let b := blk - 16523 in Some (ib_at ic 2, [b / 128 / 128; b / 128 mod 128; b mod 128])
  else None.

(** The address of block [blk], and when the way to it stays on the disk. *)
Definition blk_addr {D} `{BlockDevice D} (d : D) (ic : icommon_t) (blk : Z) : Z :=
  match blk_path ic blk with Some (a, path) => descend d a path | None => NOADDR end.

Definition blk_ok {D} `{BlockDevice D} (d : D) (ic : icommon_t) (blk : Z) : Prop :=
  match blk_path ic blk with Some (a, path) => path_ok d a path | None => True end.

Section Walk.
Context {D : Type} `{BlockDeviceLaws D}.
Implicit Types (s t : kernel D) (d : D) (ic : icommon_t).

Lemma word_lookup d a i :
  0 <= i < 128 -> dec_words 128 (dev_blk d a) !! Z.to_nat i = Some (word d a i).
Proof.
  intros Hi. unfold word. destruct (lookup_lt_ex (dec_words 128 (dev_blk d a)) (Z.to_nat i)) as [w Hw].
  { rewrite length_dec_words. lia. }
  by rewrite (nth_lookup_Some _ _ _ _ Hw).
Qed.

Lemma word_u32 d a i : dev_ok d -> valid_addr D a -> 0 <= i < 128 -> is_u32 (word d a i).
Proof.
  intros Hok Ha Hi. destruct (dev_blk_block d a Hok Ha) as [Hl Hb].
  apply (Forall_lookup_1 _ _ _ _ (dec_words_u32 128 _ ltac:(by rewrite Hl) Hb) (word_lookup d a i Hi)).
Qed.

Lemma wp_table_rd s a i buf (Q : Z * option (list Z) -> kernel D -> Prop) :
  dev_ok (k_disk s) -> valid_addr D a -> 0 <= i < 128 ->
  Q (word (k_disk s) a i, Some (dev_blk (k_disk s) a)) s -> wp (table_rd a i buf) Q s.
Proof.
  intros Hok Ha Hi HQ. unfold table_rd. wp_steps. apply wp_disk_rd; [done|done|]. wp_steps.
  apply (wp_lift _ (word (k_disk s) a i)); [|by wp_steps].
  apply aget_done; [lia|by apply word_lookup].
Qed.

Lemma ic_lists ic : lwf ic -> length (ic_db ic) = 11%nat /\ length (ic_ib ic) = 3%nat.
Proof. by intros (_ & _ & Hd & Hi & _). Qed.

Lemma db_lookup ic k : lwf ic -> 0 <= k < 11 -> ic_db ic !! Z.to_nat k = Some (db_at ic k).
Proof.
  intros Hic Hk. destruct (ic_lists ic Hic) as [Hd _]. unfold db_at.
  destruct (lookup_lt_ex (ic_db ic) (Z.to_nat k)) as [x Hx]; [lia|].
  by rewrite (nth_lookup_Some _ _ _ _ Hx).
Qed.

Lemma ib_lookup ic k : lwf ic -> 0 <= k < 3 -> ic_ib ic !! Z.to_nat k = Some (ib_at ic k).
Proof.
  intros Hic Hk. destruct (ic_lists ic Hic) as [_ Hi]. unfold ib_at.
  destruct (lookup_lt_ex (ic_ib ic) (Z.to_nat k)) as [x Hx]; [lia|].
  by rewrite (nth_lookup_Some _ _ _ _ Hx).
Qed.

(** [(blk % (ls * ls)) / ls] is the middle digit. *)
Lemma middle_digit b : 0 <= b -> b mod (128 * 128) / 128 = b / 128 mod 128.
Proof.
  intros Hb. rewrite Z.rem_mul_r by lia.
  rewrite Z.mul_comm, Z.div_add, Z.div_small by (lia || apply Z.mod_pos_bound; lia). lia.
Qed.

Lemma wp_getDataBlockAddr s i byte (Q : Z -> kernel D -> Prop) :
  dev_ok (k_disk s) -> lwf (i_ic i) -> is_u32 byte ->
  blk_ok (k_disk s) (i_ic i) (byte / 512) ->
  Q (s32 (blk_addr (k_disk s) (i_ic i) (byte / 512))) s -> wp (getDataBlockAddr i byte) Q s.
Proof.
  intros Hok Hic Hbyte Hpath HQ. unfold getDataBlockAddr.
  change BLOCK_SIZE with 512. change (Z.of_nat NDADDR) with 11.
  change LS with 128. change (128 + 11) with 139. change (128 * 128 + 128 + 11) with 16523.
  change (128 * 128 * 128 + 128 * 128 + 128 + 11) with 2113675.
  assert (Hb0 : 0 <= byte / 512) by (apply Z.div_pos; unfold is_u32 in Hbyte; lia).
  revert Hpath HQ. generalize (byte / 512) Hb0. intros blk Hblk.
  unfold blk_ok, blk_addr, blk_path.
  destruct (Z.ltb_spec blk 11); [|destruct (Z.ltb_spec blk 139); [|destruct (Z.ltb_spec blk 16523);
    [|destruct (Z.ltb_spec blk 2113675)]]]; cbn [path_ok descend].
  - intros _ HQ. wp_steps.
    eapply wp_lift; [apply aget_done; [lia|by apply db_lookup]|]. by wp_steps.
  - intros (Ha & Hi & _) HQ. wp_steps.
    eapply wp_lift; [apply aget_done; [lia|by apply ib_lookup]|]. wp_steps.
    apply wp_table_rd; [done..|]. by wp_steps.
  - intros (Ha & Hi & Hb & Hj & _) HQ. change (128 + 11) with 139. wp_steps.
    eapply wp_lift; [apply aget_done; [lia|by apply ib_lookup]|]. wp_steps.
    apply wp_table_rd; [done..|]. wp_steps. apply wp_table_rd; [done..|]. by wp_steps.
  - intros (Ha & Hi & Hb & Hj & Hc & Hk & _) HQ. wp_steps.
    eapply wp_lift; [apply aget_done; [lia|by apply ib_lookup]|]. wp_steps.
    change (128 * 128 + 128 + 11) with 16523.
    rewrite <-Z.div_div in * by lia. rewrite middle_digit by lia.
    apply wp_table_rd; [done..|]. wp_steps. apply wp_table_rd; [done..|]. wp_steps.
    apply wp_table_rd; [done..|]. by wp_steps.
  - intros _ HQ. wp_steps. by rewrite s32_noaddr in HQ.
Qed.
End Walk.

(** * The property of the walk *)

(** C31: [getDataBlockAddr] computes the block map.  For every byte position, the
    address it returns (as an [int]) is the one the inode's tree gives block
    [byte / 512]: the direct entries, then the base-128 digits of the rest through one,
    two or three levels of tables; beyond the third level it is -1.  It changes
    nothing.  The tables on the way must be blocks of the disk. *)
Theorem getDataBlockAddr_correct {D} `{BlockDeviceLaws D} (s : kernel D) i byte :
  dev_ok (k_disk s) -> lwf (i_ic i) -> is_u32 byte ->
  blk_ok (k_disk s) (i_ic i) (byte / 512) ->
  getDataBlockAddr i byte s = Done (s32 (blk_addr (k_disk s) (i_ic i) (byte / 512)), s).
Proof. intros Hok Hic Hb Hp. apply wp_run. by apply wp_getDataBlockAddr. Qed.

(** A disk whose block 12 is a table of tables, all of them block 13. *)
Definition tables_state : kernel MemDisk :=
  bss (mk_mem (<[12 := enc_words (replicate 128 13)]> (<[13 := enc_words (seqZ 500 128)]> ∅))) [].

Definition demo_tree : inode_t :=
  mk_inode 4 0 (mk_icommon 3 0 (replicate 11 30) [13; 12; 0]).

Lemma getDataBlockAddr_correct_witness :
  getDataBlockAddr demo_tree (512 * (139 + 128 + 7)) tables_state = Done (507, tables_state).
Proof.
  rewrite (getDataBlockAddr_correct tables_state demo_tree).
  - vm_compute. reflexivity.
  - repeat (apply map_Forall_insert_2; [apply block_ok_spec; vm_compute; reflexivity|]).
    apply map_Forall_empty.
  - by apply (bool_decide_unpack _).
  - by apply (bool_decide_unpack _).
  - vm_compute. split_and!; done.
Defined.
