(* ===== verification/FileRep.v ===== *)
(** * Files on the disk

    A file of at most 139 blocks (the direct ones and those of the first indirect
    block): the blocks it owns, and how [allocateDataBlockAddr] and
    [allocateDataBlocks] make it grow. *)

From S2P Require Import Prelude CMonad Layout BlockDev Kernel FsOps FreeList InodeProof BlockMap.

(** The number of blocks the direct entries and one indirect block reach. *)
Definition MAXBLKS : Z := 139.

(** The first [n] blocks of a file, and with its indirect block, if it has come to it,
    all the blocks it owns. *)
Definition file_blocks {D} `{BlockDevice D} (d : D) (ic : icommon_t) (n : Z) : list Z :=
  blk_addr d ic <$> seqZ 0 n.

Definition table_of (ic : icommon_t) (n : Z) : list Z := if 11 <? n then [ib_at ic 0] else [].

Definition owned {D} `{BlockDevice D} (d : D) (ic : icommon_t) (n : Z) : list Z :=
  file_blocks d ic n ++ table_of ic n.

(** The file [ic] has [n] blocks: data blocks, all different, none of them free. *)
Record file_rep {D} `{BlockDevice D} (s : kernel D) (ic : icommon_t) (n : Z) (L : list Z) :
    Prop := {
  fi_wf : lwf ic;
  fi_num : 0 < n <= MAXBLKS;
  fi_nodup : NoDup (owned (k_disk s) ic n ++ L);
  fi_data : Forall (data_addr D (k_fs s)) (owned (k_disk s) ic n);
}.

Section Tables.
Context {D : Type} `{BlockDeviceLaws D}.
Implicit Types (s t : kernel D) (d : D) (ic : icommon_t) (L : list Z).

(** The bytes of a table block with entry [i] set. *)
Definition table_put (b : list Z) (i v : Z) : list Z :=
  enc_words (<[Z.to_nat i := v]> (dec_words 128 b)).

Lemma table_put_words b i v :
  is_block b -> is_u32 v ->
  dec_words 128 (table_put b i v) = <[Z.to_nat i := v]> (dec_words 128 b).
Proof.
  intros [Hl Hb] Hv. unfold table_put.
  replace 128%nat with (length (<[Z.to_nat i := v]> (dec_words 128 b))) at 1
    by by rewrite length_insert, length_dec_words.
  apply dec_enc_words, Forall_insert; [|done]. apply dec_words_u32; [by rewrite Hl|done].
Qed.

Lemma table_put_block b i v : is_block (table_put b i v).
Proof.
  split; [|apply enc_words_bytes]. unfold table_put.
  by rewrite length_enc_words, length_insert, length_dec_words.
Qed.

Lemma word_table_put d d' a i v b j :
  disk_put a (table_put (dev_blk d a) i v) d d' -> dev_ok d -> valid_addr D a ->
  valid_addr D b -> is_u32 v -> 0 <= i < 128 -> 0 <= j < 128 ->
  word d' b j = if decide (b = a /\ j = i) then v else word d b j.
Proof.
  intros [Hok' Hblk] Hok Ha Hb Hv Hi Hj. unfold word. rewrite Hblk by done.
  destruct (decide (b = a)) as [->|Hne]; [|by rewrite decide_False by tauto].
  rewrite table_put_words by (done || by apply dev_blk_block).
  destruct (decide (j = i)) as [->|Hji].
  - rewrite decide_True by done. apply nth_lookup_Some, list_lookup_insert_eq.
    rewrite length_dec_words. lia.
  - rewrite decide_False by tauto. apply nth_lookup_Some.
    rewrite list_lookup_insert_ne by lia. by apply word_lookup.
Qed.

Lemma wp_table_wr s a i v (Q : option (list Z) -> kernel D -> Prop) :
  dev_ok (k_disk s) -> valid_addr D a -> 0 <= i < 128 -> is_u32 v ->
  (forall d', disk_put a (table_put (dev_blk (k_disk s) a) i v) (k_disk s) d' ->
     Q (Some (table_put (dev_blk (k_disk s) a) i v)) (set_k_disk d' s)) ->
  wp (table_wr a i v (Some (dev_blk (k_disk s) a))) Q s.
Proof.
  intros Hok Ha Hi Hv HQ. unfold table_wr. wp_steps.
  apply (wp_lift _ (table_put (dev_blk (k_disk s) a) i v)).
  { unfold word_set. rewrite aset_done by (rewrite length_dec_words; lia).
    by rewrite (u32_small v). }
  wp_steps. apply wp_put_block; [done|done|apply table_put_block|].
  intros d' Hd'. wp_steps. by apply HQ.
Qed.
End Tables.

(** ** The first 139 blocks *)

Section Small.
Context {D : Type} `{BlockDeviceLaws D}.
Implicit Types (s t : kernel D) (d : D) (ic : icommon_t) (L : list Z).

Lemma blk_addr_direct d ic k : 0 <= k < 11 -> blk_addr d ic k = db_at ic k.
Proof. intros Hk. unfold blk_addr, blk_path. by destruct (Z.ltb_spec k 11); [|lia]. Qed.

Lemma blk_addr_indirect d ic k :
  11 <= k < 139 -> blk_addr d ic k = word d (ib_at ic 0) (k - 11).
Proof.
  intros Hk. unfold blk_addr, blk_path. destruct (Z.ltb_spec k 11); [lia|].
  by destruct (Z.ltb_spec k 139); [|lia].
Qed.

Lemma blk_ok_small d ic k :
  0 <= k < 139 -> (11 <= k -> valid_addr D (ib_at ic 0)) -> blk_ok d ic k.
Proof.
  intros Hk Hv. unfold blk_ok, blk_path. destruct (Z.ltb_spec k 11); [done|].
  destruct (Z.ltb_spec k 139); [|lia]. cbn. split_and!; [by apply Hv|lia|lia|done].
Qed.

(** The map below [n] only depends on the direct entries and, behind them, on the
    indirect block. *)
Lemma blk_addr_ext d d' ic ic' n k :
  0 <= k < n -> n <= 139 ->
  (forall j, 0 <= j < 11 -> j < n -> db_at ic' j = db_at ic j) ->
  (11 < n -> ib_at ic' 0 = ib_at ic 0 /\
     forall j, 0 <= j < n - 11 -> word d' (ib_at ic 0) j = word d (ib_at ic 0) j) ->
  blk_addr d' ic' k = blk_addr d ic k.
Proof.
  intros Hk Hn Hdb Hib. destruct (Z.lt_ge_cases k 11).
  - rewrite !blk_addr_direct by lia. apply Hdb; lia.
  - rewrite !blk_addr_indirect by lia. destruct Hib as [-> Hw]; [lia|]. apply Hw. lia.
Qed.

Lemma file_blocks_lookup d ic n k :
  0 <= k < n -> file_blocks d ic n !! Z.to_nat k = Some (blk_addr d ic k).
Proof.
  intros Hk. unfold file_blocks. rewrite list_lookup_fmap, lookup_seqZ_lt by lia. cbn.
  f_equal. f_equal. lia.
Qed.

Lemma elem_of_file_blocks d ic n a :
  a ∈ file_blocks d ic n <-> exists k, 0 <= k < n /\ a = blk_addr d ic k.
Proof.
  unfold file_blocks. rewrite list_elem_of_fmap. split.
  - intros (k & -> & Hk). apply elem_of_seqZ in Hk. exists k. split; [lia|done].
  - intros (k & Hk & ->). exists k. split; [done|]. apply elem_of_seqZ. lia.
Qed.

Lemma file_blocks_ext d d' ic ic' n :
  (forall k, 0 <= k < n -> blk_addr d' ic' k = blk_addr d ic k) ->
  file_blocks d' ic' n = file_blocks d ic n.
Proof.
  intros Hk. unfold file_blocks. apply list_fmap_ext. intros i k Hik.
  apply lookup_seqZ in Hik. apply Hk. lia.
Qed.

Lemma file_blocks_snoc d ic n :
  0 <= n -> file_blocks d ic (n + 1) = file_blocks d ic n ++ [blk_addr d ic n].
Proof.
  intros Hn. unfold file_blocks. rewrite seqZ_app by lia. rewrite fmap_app. done.
Qed.

(** What a file owns is not free, is data, and its blocks are all different. *)
Lemma file_rep_blk s ic n L k :
  file_rep s ic n L -> 0 <= k < n ->
  data_addr D (k_fs s) (blk_addr (k_disk s) ic k) /\ (blk_addr (k_disk s) ic k ∉ L) /\
  (11 < n -> blk_addr (k_disk s) ic k <> ib_at ic 0).
Proof.
  intros [Hwf Hn Hnd Hd] Hk.
  assert (Hin : blk_addr (k_disk s) ic k ∈ file_blocks (k_disk s) ic n)
    by (apply elem_of_file_blocks; eauto).
  unfold owned in *. rewrite <-app_assoc in Hnd. apply list.NoDup_app in Hnd as (_ & Hdis & _).
  specialize (Hdis _ Hin). rewrite not_elem_of_app in Hdis. destruct Hdis as [Ht HL].
  split_and!; [|done|].
  - apply (proj1 (list.Forall_forall _ _) Hd), elem_of_app. by left.
  - intros Hlt E. apply Ht. unfold table_of. destruct (Z.ltb_spec 11 n); [|lia].
    rewrite E. by left.
Qed.

Lemma file_rep_table s ic n L :
  file_rep s ic n L -> 11 < n ->
  data_addr D (k_fs s) (ib_at ic 0) /\ ib_at ic 0 ∉ L.
Proof.
  intros [Hwf Hn Hnd Hd] Hlt. unfold owned, table_of in *.
  destruct (Z.ltb_spec 11 n); [|lia]. apply Forall_app in Hd as [_ Hd].
  split; [by apply Forall_inv in Hd|].
  rewrite <-app_assoc in Hnd. apply list.NoDup_app in Hnd as (_ & _ & Hnd).
  by apply list.NoDup_cons in Hnd as [Hnd _].
Qed.

Lemma file_blocks_inj s ic n L j k :
  file_rep s ic n L -> 0 <= j < n -> 0 <= k < n ->
  blk_addr (k_disk s) ic j = blk_addr (k_disk s) ic k -> j = k.
Proof.
  intros [Hwf Hn Hnd Hd] Hj Hk E. unfold owned in Hnd. rewrite <-app_assoc in Hnd.
  apply list.NoDup_app in Hnd as (Hnd & _).
  pose proof (NoDup_lookup _ (Z.to_nat j) (Z.to_nat k) _ Hnd
    (file_blocks_lookup _ _ _ _ Hj)) as Hinj. rewrite E in Hinj.
  specialize (Hinj (file_blocks_lookup _ _ _ _ Hk)). lia.
Qed.

Lemma file_rep_blk_ok s ic n L k :
  file_rep s ic n L -> geometry D (k_fs s) -> 0 <= k < n -> blk_ok (k_disk s) ic k.
Proof.
  intros Hf Hg Hk. pose proof (fi_num _ _ _ _ Hf) as Hn. unfold MAXBLKS in Hn.
  apply blk_ok_small; [lia|]. intros H11.
  apply (data_addr_valid (k_fs s)); [done|]. apply (file_rep_table s ic n L); [done|lia].
Qed.
End Small.

(** ** Frames *)

Section FileFrames.
Context {D : Type} `{BlockDeviceLaws D}.
Implicit Types (s t : kernel D) (d : D) (ic : icommon_t) (L : list Z).

Lemma fs_frame_disk (ex : Z -> Prop) s d' :
  (forall b, valid_addr D b -> ~ ex b -> dev_blk d' b = dev_blk (k_disk s) b) ->
  fs_frame ex s (set_k_disk d' s).
Proof.
  intros Hb. split; [|done|done]. exists (k_fs s), d'. by destruct s.
Qed.

Lemma fs_frame_inode (ex : Z -> Prop) s t m :
  fs_frame ex s t -> geometry D (k_fs s) -> is_ino (k_fs s) m -> ~ ex (inode_blk (k_fs s) m) ->
  inode_at (k_fs t) (k_disk t) m = inode_at (k_fs s) (k_disk s) m.
Proof.
  intros [_ (Hi & _ & _) Hb] Hg Hm Hex. apply inode_at_ext; [done|].
  apply Hb; [|done]. by apply inode_blk_valid.
Qed.

Lemma is_ino_frame (ex : Z -> Prop) s t m :
  fs_frame ex s t -> is_ino (k_fs s) m -> is_ino (k_fs t) m.
Proof. intros [_ (_ & Hi & _) _] [Hm Hq]. split; [done|]. by rewrite Hi. Qed.

Lemma inode_blk_frame (ex : Z -> Prop) s t m :
  fs_frame ex s t -> inode_blk (k_fs t) m = inode_blk (k_fs s) m.
Proof. intros [_ (Hi & _ & _) _]. unfold inode_blk. by rewrite Hi. Qed.

Lemma data_frame (ex : Z -> Prop) s t a :
  fs_frame ex s t -> data_addr D (k_fs s) a -> data_addr D (k_fs t) a.
Proof. intros [_ (_ & _ & Hg) _]. by apply data_addr_frame. Qed.

(** A file whose indirect block was not written keeps its blocks. *)
Lemma blk_addr_frame (ex : Z -> Prop) s t ic n k :
  fs_frame ex s t -> 0 <= k < n -> n <= 139 ->
  (11 < n -> valid_addr D (ib_at ic 0) /\ ~ ex (ib_at ic 0)) ->
  blk_addr (k_disk t) ic k = blk_addr (k_disk s) ic k.
Proof.
  intros Hf Hk Hn Ht. apply (blk_addr_ext _ _ _ _ n); [done|done|done|].
  intros H11. destruct (Ht H11) as [Hv He]. split; [done|]. intros j Hj. unfold word.
  by rewrite (ff_blk _ _ _ Hf).
Qed.

Lemma file_rep_frame (ex : Z -> Prop) s t ic n L L' :
  file_rep s ic n L -> fs_frame ex s t -> geometry D (k_fs s) ->
  (11 < n -> ~ ex (ib_at ic 0)) -> NoDup (owned (k_disk s) ic n ++ L') ->
  file_rep t ic n L'.
Proof.
  intros Hfile Hf Hg Hex Hnd'.
  assert (Ho : owned (k_disk t) ic n = owned (k_disk s) ic n).
  { unfold owned. f_equal. apply file_blocks_ext. intros k Hk.
    apply (blk_addr_frame ex _ _ _ n); [done|done|apply (fi_num _ _ _ _ Hfile)|].
    intros H11. split; [|by apply Hex]. apply (data_addr_valid (k_fs s)); [done|].
    by apply (file_rep_table s ic n L). }
  destruct Hfile as [Hwf Hn Hnd Hd]. split; [done|done|by rewrite Ho|].
  rewrite Ho. revert Hd. apply Forall_impl. intros a. by apply (data_frame ex).
Qed.
End FileFrames.

(** ** Growing by one block *)

(** Growing writes the inode of the file, but with the mode it is given. *)
Definition mode_kept {D} `{BlockDevice D} (i : inode_t) (s t : kernel D) : Prop :=
  let m u := ic_mode (inode_at (k_fs u) (k_disk u) (i_number i)) in
  m t = m s \/ m t = ic_mode (i_ic i).

(** What a successful [allocateDataBlockAddr] for block [n] leaves. *)
Record grown {D} `{BlockDevice D} (s : kernel D) (i : inode_t) (n : Z)
    (L : list Z) (a : Z) (t : kernel D) (i' : inode_t) (L' : list Z) : Prop := {
  gr_fs : fs_rep t L';
  gr_file : file_rep t (i_ic i') (n + 1) L';
  gr_table : 11 < n -> ib_at (i_ic i') 0 = ib_at (i_ic i) 0;
  gr_fresh : n = 11 -> ib_at (i_ic i') 0 ∈ L;
  gr_new : blk_addr (k_disk t) (i_ic i') n = a;
  gr_pop : a ∈ L;
  gr_old k : 0 <= k < n -> blk_addr (k_disk t) (i_ic i') k = blk_addr (k_disk s) (i_ic i) k;
  gr_frame : fs_frame (fun b => b = 1 \/ b = inode_blk (k_fs s) (i_number i) \/
                                (11 <= n /\ b = ib_at (i_ic i') 0)) s t;
  gr_inode m : is_ino (k_fs s) m -> m <> i_number i ->
    inode_at (k_fs t) (k_disk t) m = inode_at (k_fs s) (k_disk s) m;
  gr_same : i_number i' = i_number i /\ i_links i' = i_links i /\
            ic_size (i_ic i') = ic_size (i_ic i) /\ ic_mode (i_ic i') = ic_mode (i_ic i);
  gr_mode : mode_kept i s t;
}.

Section Grow.
Context {D : Type} `{BlockDeviceLaws D}.
Implicit Types (s t : kernel D) (d : D) (ic : icommon_t) (L : list Z).

Lemma data_addr_s32 f a : geometry D f -> data_addr D f a -> s32 a = a /\ u32 a = a /\ a <> -1.
Proof.
  intros Hg Ha. pose proof (data_addr_valid f a Hg Ha) as Hv. pose proof dev_num_range.
  unfold valid_addr in Hv. split_and!; [apply s32_small|apply u32_small|]; unfold is_u32; lia.
Qed.

Lemma db_at_insert ic k a j :
  lwf ic -> 0 <= k < 11 -> 0 <= j ->
  db_at (mk_icommon (ic_mode ic) (ic_size ic) (<[Z.to_nat k := a]> (ic_db ic)) (ic_ib ic)) j =
  if decide (j = k) then a else db_at ic j.
Proof.
  intros Hic Hk Hj. unfold db_at. cbn [ic_db]. destruct (ic_lists ic Hic) as [Hl _].
  rewrite !nth_lookup. case_decide as E.
  - subst. rewrite list_lookup_insert_eq by lia. done.
  - by rewrite list_lookup_insert_ne by lia.
Qed.

Lemma lwf_set_db (i : inode_t) l :
  lwf (i_ic i) -> length l = 11%nat -> Forall is_u32 l -> lwf (i_ic (set_db l i)).
Proof. intros Hic Hl Hu. cbn in *. tauto. Qed.

Lemma lwf_set_ib (i : inode_t) l :
  lwf (i_ic i) -> length l = 3%nat -> Forall is_u32 l -> lwf (i_ic (set_ib l i)).
Proof. intros Hic Hl Hu. cbn in *. tauto. Qed.

(** The direct blocks: the inode gets the address and is written. *)
Lemma wp_grow_direct s t i n a L' (Q : Z * inode_t -> kernel D -> Prop) :
  fs_rep s (a :: L') -> file_rep s (i_ic i) n (a :: L') -> is_ino (k_fs s) (i_number i) ->
  n < 11 -> fs_rep t L' -> fs_frame sb_only s t ->
  (forall i' u, grown s i n (a :: L') a u i' L' -> Q (a, i') u) ->
  wp (db ← lift (aset (ic_db (i_ic i)) n (u32 a));
      let i' := set_db db i in writeInode i' ;; mret (a, i')) Q t.
Proof.
  intros Hs Hfile Hino Hn Ht Hf HQ. pose proof (fr_geo _ _ Hs) as Hg.
  pose proof (fi_num _ _ _ _ Hfile) as Hn0. pose proof (fi_wf _ _ _ _ Hfile) as Hwf.
  pose proof (Forall_inv (fr_data _ _ Hs)) as Ha.
  destruct (data_addr_s32 _ _ Hg Ha) as (_ & Hu & _). rewrite Hu.
  destruct (ic_lists _ Hwf) as [Hl _].
  eapply wp_bind, wp_lift; [apply aset_done; lia|]. wp_steps.
  set (i' := set_db _ i).
  assert (Hwf' : lwf (i_ic i')).
  { apply lwf_set_db; [done|by rewrite length_insert|]. destruct Hwf as (_ & _ & _ & _ & Hdb & _).
    apply Forall_insert; [done|]. rewrite <-Hu. apply u32_range. }
  wp_steps. apply wp_writeInode; [apply Ht|apply Ht|by apply (is_ino_frame sb_only s)|done|].
  intros d' Hd'. wp_steps. apply HQ.
  assert (Hold : forall k, 0 <= k < n -> blk_addr d' (i_ic i') k = blk_addr (k_disk s) (i_ic i) k).
  { intros k Hk. rewrite !blk_addr_direct by lia. unfold i', set_db. cbn [i_ic].
    rewrite db_at_insert by (done || lia). by rewrite decide_False by lia. }
  assert (Hnew : blk_addr d' (i_ic i') n = a).
  { rewrite blk_addr_direct by lia. unfold i', set_db. cbn [i_ic].
    rewrite db_at_insert by (done || lia). by rewrite decide_True. }
  assert (Hfr : fs_frame (fun b => b = 1 \/ b = inode_blk (k_fs s) (i_number i) \/
                     (11 <= n /\ b = ib_at (i_ic i') 0)) s (set_k_disk d' t)).
  { apply (fs_frame_trans _ _ t); [revert Hf; apply fs_frame_mono; by left|].
    apply fs_frame_disk. intros b Hb Hne. apply Hd'; [done|].
    rewrite (inode_blk_frame _ _ _ _ Hf). tauto. }
  split; try done; try lia.
  - by apply (fs_rep_inode t (i_number i) (i_ic i')); [|apply (is_ino_frame sb_only s)|].
  - assert (Ho : owned d' (i_ic i') (n + 1) = owned (k_disk s) (i_ic i) n ++ [a]).
    { unfold owned, table_of. destruct (Z.ltb_spec 11 (n + 1)), (Z.ltb_spec 11 n); try lia.
      rewrite file_blocks_snoc, Hnew, !app_nil_r by lia. f_equal. by apply file_blocks_ext. }
    split; [done|unfold MAXBLKS; lia| |]; cbn [k_disk set_k_disk]; rewrite Ho.
    + rewrite <-app_assoc. apply (fi_nodup _ _ _ _ Hfile).
    + apply Forall_app. split.
      * generalize (fi_data _ _ _ _ Hfile). apply Forall_impl. intros b. by apply (data_frame sb_only s t).
      * constructor; [|done]. by apply (data_frame sb_only s t).
  - by left.
  - intros m Hm Hne. cbn [k_fs k_disk set_k_disk]. destruct Hd' as (_ & Hd' & _).
    rewrite Hd' by by apply (is_ino_frame sb_only s). rewrite decide_False by done.
    apply (fs_frame_inode sb_only s t); [done|done|done|]. unfold sb_only.
    pose proof (inode_blk_range _ _ Hg Hm). lia.
  - right. cbn [k_fs k_disk set_k_disk]. destruct Hd' as (_ & Hd' & _).
    rewrite Hd' by by apply (is_ino_frame sb_only s). by rewrite decide_True.
Qed.

(** The blocks behind the first indirect block: entry [n - 11] of the table is set. *)
Lemma wp_grow_table s t i i' n a L L' (Q : Z * inode_t -> kernel D -> Prop) :
  let tb := ib_at (i_ic i') 0 in
  geometry D (k_fs s) -> file_rep s (i_ic i) n L -> 11 <= n < 139 ->
  fs_rep t L' -> lwf (i_ic i') ->
  fs_frame (fun b => b = 1 \/ b = inode_blk (k_fs s) (i_number i) \/ b = tb) s t ->
  (forall m, is_ino (k_fs s) m -> m <> i_number i ->
     inode_at (k_fs t) (k_disk t) m = inode_at (k_fs s) (k_disk s) m) ->
  is_ino (k_fs s) (i_number i) -> mode_kept i s t ->
  Forall (data_addr D (k_fs s)) [a; tb] ->
  NoDup (file_blocks (k_disk s) (i_ic i) n ++ a :: tb :: L') ->
  (forall j, 0 <= j < 11 -> db_at (i_ic i') j = db_at (i_ic i) j) ->
  (11 < n -> ib_at (i_ic i) 0 = tb /\ dev_blk (k_disk t) tb = dev_blk (k_disk s) tb) ->
  (n = 11 -> tb ∈ L) -> a ∈ L ->
  i_number i' = i_number i /\ i_links i' = i_links i /\
    ic_size (i_ic i') = ic_size (i_ic i) /\ ic_mode (i_ic i') = ic_mode (i_ic i) ->
  (forall u, grown s i n L a u i' L' -> Q (a, i') u) ->
  wp (buf ← disk_rd tb None; _ ← table_wr tb (n - 11) a buf; mret (a, i')) Q t.
Proof.
  intros tb Hg Hfile Hn Ht Hwf' Hf Hino Hnum Hmode Hdata Hnd Hdb Hib Hfresh Hpop Hsame HQ.
  apply list.Forall_cons in Hdata as [Hda Hdtb]. apply Forall_inv in Hdtb.
  pose proof (data_addr_valid _ _ Hg Hdtb) as Hvtb.
  destruct (data_addr_s32 _ _ Hg Hda) as (_ & Hu & _).
  assert (Hau : is_u32 a) by (rewrite <-Hu; apply u32_range).
  pose proof (fr_ok _ _ Ht) as Hokt.
  apply wp_bind, wp_disk_rd; [done|done|]. apply wp_bind.
  apply wp_table_wr; [done|done|lia|done|]. intros d' Hd'. wp_steps. apply HQ.
  pose proof (fun b j Hb Hj => word_table_put _ _ _ (n - 11) _ b j Hd' Hokt Hvtb Hb Hau ltac:(lia) Hj)
    as Hword.
  assert (Hnew : blk_addr d' (i_ic i') n = a).
  { rewrite blk_addr_indirect by lia. rewrite Hword by (done || lia). by rewrite decide_True. }
  assert (Hold : forall k, 0 <= k < n -> blk_addr d' (i_ic i') k = blk_addr (k_disk s) (i_ic i) k).
  { intros k Hk. apply (blk_addr_ext _ _ _ _ n); [done|lia|intros j Hj _; by apply Hdb|].
    intros H11. destruct (Hib H11) as [E Hblk]. rewrite E. split; [done|].
    intros j Hj. rewrite Hword, decide_False by (done || lia). unfold word. by rewrite Hblk. }
  assert (Hfr : fs_frame (fun b => b = 1 \/ b = inode_blk (k_fs s) (i_number i) \/
                     (11 <= n /\ b = ib_at (i_ic i') 0)) s (set_k_disk d' t)).
  { apply (fs_frame_trans _ _ t); [revert Hf; apply fs_frame_mono; intros b; subst tb; tauto||lia|].
    apply fs_frame_disk. intros b Hb Hne. destruct Hd' as [_ Hd']. rewrite Hd' by done.
    rewrite decide_False; [done|]. subst tb. intros ->. apply Hne. auto with lia. }
  assert (HtbL : tb ∉ L').
  { apply list.NoDup_app in Hnd as (_ & _ & Hnd). apply list.NoDup_cons in Hnd as [_ Hnd].
    by apply list.NoDup_cons in Hnd as [Hnd _]. }
  assert (Hsame_ino : forall m, is_ino (k_fs s) m ->
    inode_at (k_fs t) d' m = inode_at (k_fs t) (k_disk t) m).
  { intros m Hm. assert (Hmt : is_ino (k_fs t) m) by by apply (is_ino_frame _ s t m Hf).
    pose proof (inode_blk_range _ _ (fr_geo _ _ Ht) Hmt) as Hr.
    apply inode_at_ext; [done|]. destruct Hd' as [_ Hd'].
    pose proof (data_frame _ s t _ Hf Hdtb) as Hdt. unfold data_addr in Hdt.
    rewrite Hd', decide_False; [done|lia|]. by apply inode_blk_valid; [apply Ht|]. }
  split; try done.
  - refine (fs_rep_data t tb _ d' L' Ht _ HtbL Hd'). by apply (data_frame _ s t _ Hf).
  - assert (Ho : owned d' (i_ic i') (n + 1) = file_blocks (k_disk s) (i_ic i) n ++ [a; tb]).
    { unfold owned, table_of. destruct (Z.ltb_spec 11 (n + 1)); [|lia].
      rewrite file_blocks_snoc, Hnew, <-app_assoc by lia. f_equal. by apply file_blocks_ext. }
    split; [done|unfold MAXBLKS; lia| |]; cbn [k_disk set_k_disk]; rewrite Ho.
    + by rewrite <-app_assoc.
    + apply Forall_app. split; [|by repeat constructor; apply (data_frame _ s t _ Hf)].
      generalize (fi_data _ _ _ _ Hfile). unfold owned. intros [Hfb _]%Forall_app.
      revert Hfb. apply Forall_impl. intros b. by apply (data_frame _ s t _ Hf).
  - intros H11. by destruct (Hib H11) as [-> _].
  - intros m Hm Hne. rewrite <-Hino by done. by apply Hsame_ino.
  - unfold mode_kept. cbn [k_fs k_disk set_k_disk]. by rewrite Hsame_ino.
Qed.

(** How many free blocks growing to block [n] takes: two when it starts the indirect
    block. *)
Definition alloc_rest n L : option (list Z) :=
  match L with
  | [] => None
  | _ :: L1 => if n =? 11 then match L1 with [] => None | _ :: L2 => Some L2 end else Some L1
  end.

(** The new indirect block: allocated, recorded in the inode, the inode written. *)
Lemma wp_fresh_table t L' i tb (Q : option Z * inode_t -> kernel D -> Prop) :
  fs_rep t (tb :: L') -> is_ino (k_fs t) (i_number i) -> lwf (i_ic i) ->
  (forall i' u d', i' = set_ib (<[0%nat := tb]> (ic_ib (i_ic i))) i -> lwf (i_ic i') ->
     fs_rep u L' -> fs_frame sb_only t u -> inode_put (k_fs u) (i_number i) (i_ic i') (k_disk u) d' ->
     Q (Some tb, i') (set_k_disk d' u)) ->
  wp (root_table i 0 true) Q t.
Proof.
  intros Ht Hino Hwf HQ. unfold root_table. wp_steps.
  apply (wp_balloc t (tb :: L')); [done|]. intros u Hu Hf.
  pose proof (Forall_inv (fr_data _ _ Ht)) as Hd.
  destruct (data_addr_s32 _ _ (fr_geo _ _ Ht) Hd) as (Hs & Hu32 & Hne).
  wp_steps. rewrite Hs. destruct (Z.eqb_spec tb (-1)); [done|]. wp_steps. rewrite Hu32.
  destruct (ic_lists _ Hwf) as [_ Hl].
  assert (Hwf' : lwf (i_ic (set_ib (<[0%nat := tb]> (ic_ib (i_ic i))) i))).
  { apply lwf_set_ib; [done|by rewrite length_insert|]. destruct Hwf as (_ & _ & _ & _ & _ & Hib).
    apply Forall_insert; [done|]. rewrite <-Hu32. apply u32_range. }
  apply wp_writeInode; [apply Hu|apply Hu|by apply (is_ino_frame sb_only t)|done|].
  intros d' Hd'. wp_steps. by eapply HQ.
Qed.

Lemma wp_alloc_next s i n L (Q : Z * inode_t -> kernel D -> Prop) :
  fs_rep s L -> file_rep s (i_ic i) n L -> is_ino (k_fs s) (i_number i) -> n < 139 ->
  match alloc_rest n L with
  | None => forall t, fs_rep t [] -> fs_frame sb_only s t -> Q (-1, i) t
  | Some L' => forall a i' t, grown s i n L a t i' L' -> Q (a, i') t
  end ->
  wp (allocateDataBlockAddr i (n * 512)) Q s.
Proof.
  intros Hs Hfile Hino Hn HQ. pose proof (fr_geo _ _ Hs) as Hg.
  pose proof (fi_num _ _ _ _ Hfile) as Hn0. pose proof (fi_wf _ _ _ _ Hfile) as Hwf.
  unfold allocateDataBlockAddr. change BLOCK_SIZE with 512. rewrite Z.div_mul by lia.
  change (Z.of_nat NDADDR) with 11. change (LS + 11) with 139.
  wp_steps. destruct L as [|a L1].
  { apply (wp_balloc s []); [done|]. wp_steps. rewrite s32_noaddr. wp_steps.
    apply HQ; [done|apply fs_frame_refl]. }
  apply (wp_balloc s (a :: L1)); [done|]. intros t Ht Hf. wp_steps.
  pose proof (Forall_inv (fr_data _ _ Hs)) as Hda.
  destruct (data_addr_s32 _ _ Hg Hda) as (Has & Hau & Hane).
  rewrite Has. destruct (Z.eqb_spec a (-1)); [done|]. unfold alloc_rest in HQ.
  destruct (Z.ltb_spec n 11).
  { destruct (Z.eqb_spec n 11); [lia|]. eapply wp_grow_direct; eauto. }
  destruct (Z.ltb_spec n 139); [|lia]. wp_steps.
  assert (Hino' : forall m, is_ino (k_fs s) m ->
            inode_at (k_fs t) (k_disk t) m = inode_at (k_fs s) (k_disk s) m).
  { intros m Hm. apply (fs_frame_inode sb_only s t); [done..|].
    pose proof (inode_blk_range _ _ Hg Hm). unfold sb_only. lia. }
  destruct (Z.eqb_spec n 11) as [->|Hne11].
  - change (11 - 11 =? 0) with true. destruct L1 as [|tb L2].
    + unfold root_table. wp_steps. apply (wp_balloc t []); [done|]. wp_steps.
      rewrite s32_noaddr. wp_steps. by apply HQ.
    + apply (wp_fresh_table t L2 i tb); [done|by apply (is_ino_frame sb_only s)|done|].
      intros i' u d' Hi' Hwf' Hu Hfu Hd'. wp_steps.
      assert (Htb : ib_at (i_ic i') 0 = tb).
      { subst i'. unfold ib_at. destruct (ic_lists _ Hwf) as [_ Hl]. cbn [i_ic set_ib ic_ib].
        apply nth_lookup_Some, list_lookup_insert_eq. lia. }
      assert (Hiu : is_ino (k_fs u) (i_number i))
        by by apply (is_ino_frame sb_only t), (is_ino_frame sb_only s).
      pose proof (fs_frame_trans _ _ _ _ Hf Hfu) as Hfsu.
      rewrite <-Htb. apply wp_unbind, (wp_grow_table s (set_k_disk d' u) i i' 11 a (a :: tb :: L2) L2); try done.
      * by apply (fs_rep_inode u (i_number i) (i_ic i')).
      * apply (fs_frame_trans _ _ u); [revert Hfsu; apply fs_frame_mono; by left|].
        apply fs_frame_disk. intros b Hb Hex. apply Hd'; [done|].
        rewrite (inode_blk_frame _ _ _ _ Hfsu). tauto.
      * intros m Hm Hmne. cbn [k_fs k_disk set_k_disk]. destruct Hd' as (_ & Hd' & _).
        rewrite Hd', decide_False by (done || by apply (is_ino_frame sb_only s)).
        apply (fs_frame_inode sb_only s u); [done..|].
        pose proof (inode_blk_range _ _ Hg Hm). unfold sb_only. lia.
      * right. cbn [k_fs k_disk set_k_disk]. destruct Hd' as (_ & Hd' & _).
        rewrite Hd', decide_True by done. by subst i'.
      * rewrite Htb. generalize (fr_data _ _ Hs). intros [? [? _]%list.Forall_cons]%list.Forall_cons.
        by repeat (apply Forall_cons_2 || apply Forall_nil_2).
      * rewrite Htb. generalize (fi_nodup _ _ _ _ Hfile). unfold owned, table_of. cbn.
        by rewrite app_nil_r.
      * by subst i'.
      * intros _. rewrite Htb. apply elem_of_cons. right. apply elem_of_cons. by left.
      * by left.
      * by subst i'.
      * intros w Hw. wp_steps. by apply HQ.
  - destruct (Z.eqb_spec (n - 11) 0); [lia|]. unfold root_table.
    destruct (file_rep_table s (i_ic i) n _ Hfile) as [Htd HtL]; [lia|].
    destruct (data_addr_s32 _ _ Hg Htd) as (Hts & _ & _).
    wp_steps. apply (wp_lift _ (ib_at (i_ic i) 0)).
    { apply aget_done; [lia|]. by apply (ib_lookup _ 0). }
    wp_steps. rewrite Hts.
    apply wp_unbind, (wp_grow_table s t i i n a (a :: L1) L1); try done.
    + revert Hf. apply fs_frame_mono. by left.
    + intros m Hm _. by apply Hino'.
    + left. by rewrite Hino'.
    + by repeat (apply Forall_cons_2 || apply Forall_nil_2).
    + generalize (fi_nodup _ _ _ _ Hfile). unfold owned, table_of.
      destruct (Z.ltb_spec 11 n); [|lia]. rewrite <-app_assoc. cbn [app].
      intros Hnd. eapply NoDup_Permutation_proper; [|exact Hnd].
      apply Permutation_app_head. constructor.
    + intros _. split; [done|]. apply Hf; [by apply (data_addr_valid (k_fs s))|].
      unfold sb_only. pose proof (geometry_data _ _ Hg Htd). lia.
    + by left.
    + intros u Hu. wp_steps. by apply HQ.
Qed.
End Grow.
