(* ===== verification/FileGrow.v ===== *)
(** * Growing a file

    What [allocateDataBlocks] does to a file that stays within 139 blocks, and that
    the contents it has are kept. *)

From S2P Require Import Prelude CMonad Layout BlockDev Kernel FsOps FreeList InodeProof BlockMap FileRep.

(** The file [i] with [n] blocks in [s] is [i'] with [n'] blocks in [t]: the blocks it
    had are where they were, with their contents; [L] was the free list of [s]. *)
Record extended {D} `{BlockDevice D} (s : kernel D) (i : inode_t) (n : Z) (L : list Z)
    (t : kernel D) (i' : inode_t) (n' : Z) (L' : list Z) : Prop := {
  ex_fs : fs_rep t L';
  ex_file : file_rep t (i_ic i') n' L';
  ex_le : n <= n';
  ex_sub : L' ⊆ L;
  ex_old k : 0 <= k < n -> blk_addr (k_disk t) (i_ic i') k = blk_addr (k_disk s) (i_ic i) k;
  ex_table : 11 < n -> ib_at (i_ic i') 0 = ib_at (i_ic i) 0;
  ex_new : n <= 11 < n' -> ib_at (i_ic i') 0 ∈ L;
  ex_fresh k : n <= k < n' -> blk_addr (k_disk t) (i_ic i') k ∈ L;
  ex_frame : fs_frame (fun b => b = 1 \/ b = inode_blk (k_fs s) (i_number i) \/ b ∈ L \/
                                (11 < n /\ b = ib_at (i_ic i) 0)) s t;
  ex_inode m : is_ino (k_fs s) m -> m <> i_number i ->
    inode_at (k_fs t) (k_disk t) m = inode_at (k_fs s) (k_disk s) m;
  ex_same : i_number i' = i_number i /\ i_links i' = i_links i /\
            ic_size (i_ic i') = ic_size (i_ic i) /\ ic_mode (i_ic i') = ic_mode (i_ic i);
  ex_mode : mode_kept i s t;
}.

Section Extend.
Context {D : Type} `{BlockDeviceLaws D}.
Implicit Types (s t : kernel D) (d : D) (ic : icommon_t) (L : list Z).

Lemma extended_refl s i n L :
  fs_rep s L -> file_rep s (i_ic i) n L -> extended s i n L s i n L.
Proof. intros Hs Hf. split; try done; [lia|lia|apply fs_frame_refl|by left]. Qed.

(** The blocks of the file that has grown, and the data blocks that were written. *)
Lemma extended_owned s i n L t i' n' L' b :
  extended s i n L t i' n' L' -> b ∈ owned (k_disk t) (i_ic i') n' ->
  b ∈ owned (k_disk s) (i_ic i) n \/ b ∈ L.
Proof.
  intros He [(k & Hk & ->)%elem_of_file_blocks|Hb]%elem_of_app.
  - destruct (Z.lt_ge_cases k n) as [Hlt|Hge]; [left|right; apply (ex_fresh _ _ _ _ _ _ _ _ He); lia].
    rewrite (ex_old _ _ _ _ _ _ _ _ He) by lia. apply elem_of_app. left.
    apply elem_of_file_blocks. exists k. split; [lia|done].
  - unfold table_of in Hb. destruct (Z.ltb_spec 11 n'); [|by apply not_elem_of_nil in Hb].
    apply list_elem_of_singleton in Hb as ->. destruct (Z.lt_ge_cases 11 n).
    + left. rewrite (ex_table _ _ _ _ _ _ _ _ He) by done. apply elem_of_app. right.
      unfold table_of. destruct (Z.ltb_spec 11 n); [by left|lia].
    + right. apply (ex_new _ _ _ _ _ _ _ _ He). lia.
Qed.

Lemma extended_disk s i n L t i' n' L' :
  extended s i n L t i' n' L' -> geometry D (k_fs s) -> is_ino (k_fs s) (i_number i) ->
  disk_frame (fun b => b ∈ owned (k_disk s) (i_ic i) n \/ b ∈ L) s t.
Proof.
  intros He Hg Hino. apply (disk_frame_of _ _ s t Hg (ex_frame _ _ _ _ _ _ _ _ He)).
  intros b Hb. pose proof (geometry_data _ _ Hg Hb). pose proof (inode_blk_range _ _ Hg Hino).
  unfold data_addr in Hb. intros [E|[E|[E|[E E']]]]; [lia|lia|by right|].
  left. apply elem_of_app. right. unfold table_of. destruct (Z.ltb_spec 11 n); [|lia]. rewrite E'. by left.
Qed.

Lemma alloc_rest_sub n L L' : alloc_rest n L = Some L' -> L' ⊆ L.
Proof.
  unfold alloc_rest. intros Hr b Hb. destruct L as [|a L1]; [done|].
  destruct (n =? 11); [destruct L1 as [|c L2]; [done|]|]; injection Hr as <-.
  - apply elem_of_cons. right. apply elem_of_cons. by right.
  - apply elem_of_cons. by right.
Qed.

(** One more block. *)
Lemma extended_step s i n L t i' n' L1 a u i'' L2 :
  extended s i n L t i' n' L1 -> alloc_rest n' L1 = Some L2 ->
  grown t i' n' L1 a u i'' L2 -> geometry D (k_fs s) -> is_ino (k_fs s) (i_number i) ->
  0 < n -> extended s i n L u i'' (n' + 1) L2.
Proof.
  intros [E1 E2 E3 E4 E5 E6 E7 E10 E8 E9 (Es1 & Es2 & Es3 & Es4) Em] Hrest
    [G1 G2 G3 G4 G5 G9 G6 G7 G8 (Gs1 & Gs2 & Gs3 & Gs4) Gm] Hg Hino Hn0.
  split; try done.
  - lia.
  - intros b Hb. by apply E4, (alloc_rest_sub n' L1 L2 Hrest b).
  - intros k Hk. rewrite G6 by lia. by apply E5.
  - intros H11. rewrite G3 by lia. by apply E6.
  - intros H11. destruct (Z.eq_dec n' 11) as [E|Hne]; [by apply E4, G4|].
    rewrite G3 by lia. apply E7. lia.
  - intros k Hk. destruct (Z.eq_dec k n') as [->|Hne]; [rewrite G5; by apply E4|].
    rewrite G6 by lia. apply E10. lia.
  - apply (fs_frame_trans _ _ t); [done|]. revert G7. apply fs_frame_mono.
    rewrite (inode_blk_frame _ _ _ _ E8), Es1.
    intros b [->|[->|[Hle ->]]]; [by left|by right; left|right; right].
    destruct (Z.eq_dec n' 11) as [E|Hne]; [left; by apply E4, G4|]. rewrite G3 by lia.
    destruct (Z.le_gt_cases n 11); [left; apply E7; lia|]. right. by rewrite E6.
  - intros m Hm Hne. rewrite G8; [by apply E9|by apply (is_ino_frame _ s t m E8)|by rewrite Es1].
  - by rewrite Gs1, Gs2, Gs3, Gs4.
  - unfold mode_kept in *. rewrite Es1, Es4 in Gm. destruct Gm as [-> | ->]; [done|by right].
Qed.

(** Whether going from [n] to [n'] blocks starts the indirect block. *)
Definition table_cost (n n' : Z) : nat := if (n <=? 11) && (11 <? n') then 1 else 0.

(** The free blocks it takes. *)
Definition grow_cost (n n' : Z) : nat := (Z.to_nat (n' - n) + table_cost n n')%nat.

(** The free blocks left after the file has grown from [n] to [k] blocks suffice for
    the next one. *)
Lemma alloc_rest_drop n k L :
  n <= k -> (grow_cost n (k + 1) <= length L)%nat ->
  alloc_rest k (drop (grow_cost n k) L) = Some (drop (grow_cost n (k + 1)) L).
Proof.
  unfold grow_cost, table_cost. intros Hk Hc.
  assert (exists c, c = (Z.to_nat (k - n) + (if (n <=? 11)%Z && (11 <? k)%Z then 1 else 0))%nat)
    as [c Hceq] by eauto.
  rewrite <-Hceq. destruct (lookup_lt_ex L c) as [a Ha].
  { destruct ((n <=? 11) && (11 <? k)) eqn:E1, ((n <=? 11) && (11 <? k + 1)) eqn:E2; lia. }
  rewrite (drop_S _ _ _ Ha). unfold alloc_rest. destruct (Z.eqb_spec k 11) as [->|Hne].
  - replace ((n <=? 11) && (11 <? 11)) with false in * by lia.
    replace ((n <=? 11) && (11 <? 11 + 1)) with true in * by lia.
    destruct (lookup_lt_ex L (S c)) as [b Hb]; [lia|]. rewrite (drop_S _ _ _ Hb).
    f_equal. f_equal. lia.
  - replace ((n <=? 11) && (11 <? k + 1)) with ((n <=? 11) && (11 <? k)) by lia.
    f_equal. f_equal. lia.
Qed.

Lemma wp_grow_loop s i n n' L (Q : inode_t + inode_t -> kernel D -> Prop) :
  fs_rep s L -> file_rep s (i_ic i) n L -> is_ino (k_fs s) (i_number i) ->
  n <= n' <= MAXBLKS -> (grow_cost n n' <= length L)%nat ->
  (forall t i', extended s i n L t i' n' (drop (grow_cost n n') L) -> Q (inl i') t) ->
  wp (for_loop (Z.to_nat (n' - n)) n (fun k i =>
      if in_int (k * BLOCK_SIZE) then
        '(a, i) ← allocateDataBlockAddr i (k * BLOCK_SIZE);
        mret (if a =? -1 then inr i else inl i)
      else lift Undef) i) Q s.
Proof.
  intros Hs Hfile Hino Hn Hcost HQ. pose proof (fi_num _ _ _ _ Hfile) as Hn0.
  apply (wp_for_loop (fun k i' t => extended s i n L t i' k (drop (grow_cost n k) L))).
  - replace (grow_cost n n) with 0%nat; [by apply extended_refl|].
    unfold grow_cost, table_cost. destruct ((n <=? 11) && (11 <? n)) eqn:E; lia.
  - intros k i' t Hk He. unfold MAXBLKS in *. replace (in_int (k * BLOCK_SIZE)) with true
      by (unfold in_int, BLOCK_SIZE; lia).
    assert (Hsame : i_number i' = i_number i) by apply (ex_same _ _ _ _ _ _ _ _ He).
    wp_step. apply (wp_alloc_next t i' k (drop (grow_cost n k) L));
      [apply (ex_fs _ _ _ _ _ _ _ _ He)|apply (ex_file _ _ _ _ _ _ _ _ He)| |lia|].
    { rewrite Hsame. by apply (is_ino_frame _ s t _ (ex_frame _ _ _ _ _ _ _ _ He)). }
    assert (Hc : (grow_cost n (k + 1) <= length L)%nat).
    { unfold grow_cost, table_cost in *. revert Hcost.
      destruct ((n <=? 11) && (11 <? k + 1)) eqn:E1, ((n <=? 11) && (11 <? n')) eqn:E2; lia. }
    pose proof (alloc_rest_drop n k L ltac:(lia) Hc) as Hrest. rewrite Hrest.
    intros a i'' u Hgr. wp_steps.
    assert (Ha : a <> -1).
    { pose proof (fr_geo _ _ (gr_fs _ _ _ _ _ _ _ _ Hgr)) as Hgu.
      destruct (file_rep_blk u (i_ic i'') (k + 1) _ k (gr_file _ _ _ _ _ _ _ _ Hgr)) as (Hd & _);
        [lia|]. rewrite (gr_new _ _ _ _ _ _ _ _ Hgr) in Hd.
      by destruct (data_addr_s32 _ _ Hgu Hd) as (_ & _ & ?). }
    destruct (Z.eqb_spec a (-1)); [done|].
    eapply extended_step; [exact He|exact Hrest|exact Hgr|apply Hs|done|lia].
  - intros i' t He. apply HQ. by replace n' with (n + Z.of_nat (Z.to_nat (n' - n))) by lia.
Qed.

(** The number of blocks of a file of [size] bytes: the block its end is in is there,
    even when it is empty. *)
Definition nblocks (size : Z) : Z := size / 512 + 1.

Lemma wp_allocateDataBlocks s i bytes L (Q : Z * inode_t -> kernel D -> Prop) :
  let size := ic_size (i_ic i) in
  let n := nblocks size in
  let n' := nblocks (size + bytes) in
  fs_rep s L -> file_rep s (i_ic i) n L -> is_ino (k_fs s) (i_number i) ->
  0 <= size -> 0 <= bytes -> n' <= MAXBLKS -> (grow_cost n n' <= length L)%nat ->
  (forall t i', extended s i n L t i' n' (drop (grow_cost n n') L) ->
     Q (size + bytes, set_size (size + bytes) i') t) ->
  wp (allocateDataBlocks i bytes) Q s.
Proof.
  intros size n n' Hs Hfile Hino Hsize Hbytes Hn' Hcost HQ.
  assert (Hle : n <= n') by (unfold n, n', nblocks; pose proof (Z.div_le_mono size (size + bytes) 512); lia).
  assert (Hsz : size + bytes < 2 ^ 17).
  { unfold n', nblocks, MAXBLKS in Hn'. pose proof (Z.div_mod (size + bytes) 512).
    pose proof (Z.mod_pos_bound (size + bytes) 512). lia. }
  unfold allocateDataBlocks. fold size. change BLOCK_SIZE with 512.
  rewrite (u32_small (size + bytes)) by (unfold is_u32; lia).
  replace ((size + bytes) / 512 - size / 512) with (n' - n) by (unfold n, n', nblocks; lia).
  wp_step. apply (wp_grow_loop s i n n' L); [done..|].
  intros t i' He. wp_steps.
  assert (Hsz' : ic_size (i_ic i') = size) by apply (ex_same _ _ _ _ _ _ _ _ He).
  rewrite Hsz', u32_small, s32_small by (unfold is_u32; lia). by apply HQ.
Qed.

(** An exhausted free list: nothing happens. *)
Lemma wp_alloc_empty s i n (Q : Z * inode_t -> kernel D -> Prop) :
  fs_rep s [] -> Q (-1, i) s -> wp (allocateDataBlockAddr i (n * 512)) Q s.
Proof.
  intros Hs HQ. unfold allocateDataBlockAddr. wp_steps. apply (wp_balloc s []); [done|].
  rewrite s32_noaddr. by wp_steps.
Qed.
End Extend.

(** * The properties of growing *)

Section Claims.
Context {D : Type} `{BlockDeviceLaws D}.
Implicit Types (s t : kernel D) (L : list Z).

(** Appending block [n < 139] to a file with [n] blocks.  The block (and, for the
    first indirect one, the table it needs) comes off the free list; afterwards
    [getDataBlockAddr] finds the new block at its position and the old ones where they
    were, no other inode has changed, and the file is well-formed with one block more.
    When the free list is too short the result is -1 and the file is as it was; if the
    list had one block and two were needed, that block is lost to both. *)
Theorem allocateDataBlockAddr_correct s i n L :
  fs_rep s L -> file_rep s (i_ic i) n L -> is_ino (k_fs s) (i_number i) -> n < 139 ->
  match alloc_rest n L with
  | Some L' => exists a i' t,
      allocateDataBlockAddr i (n * 512) s = Done ((a, i'), t) /\ grown s i n L a t i' L' /\
      getDataBlockAddr i' (n * 512) t = Done (a, t)
  | None => exists t,
      allocateDataBlockAddr i (n * 512) s = Done ((-1, i), t) /\ fs_rep t [] /\
      fs_frame sb_only s t
  end.
Proof.
  intros Hs Hfile Hino Hn. pose proof (fi_num _ _ _ _ Hfile) as Hn0.
  pose proof (wp_alloc_next s i n L) as Hw.
  destruct (alloc_rest n L) as [L'|].
  - specialize (Hw (fun r t => exists a i', r = (a, i') /\ grown s i n L a t i' L')
      Hs Hfile Hino Hn). apply wp_done in Hw; [|by eauto].
    destruct Hw as (r & t & Hr & a & i' & -> & Hg). exists a, i', t. split_and!; [done|done|].
    pose proof (gr_fs _ _ _ _ _ _ _ _ Hg) as Ht. pose proof (gr_file _ _ _ _ _ _ _ _ Hg) as Hft.
    rewrite <-(gr_new _ _ _ _ _ _ _ _ Hg). apply wp_run.
    apply wp_getDataBlockAddr; [apply Ht|apply Hft|unfold is_u32; lia| |];
      rewrite Z.div_mul by lia.
    + eapply file_rep_blk_ok; [done|apply Ht|lia].
    + split; [|done]. destruct (file_rep_blk t _ _ _ n Hft) as (Hd & _); [lia|].
      by destruct (data_addr_s32 _ _ (fr_geo _ _ Ht) Hd).
  - apply (wp_value _ s (-1, i) (fun t => fs_rep t [] /\ fs_frame sb_only s t)). by apply Hw.
Qed.

(** C30: [allocateDataBlocks] grows a file by [bytes] bytes.  With enough free blocks it
    returns the new size; the file has the blocks that size asks for, the first of
    them its old ones with their contents, the others taken off the free list, which
    keeps the rest; no other inode has changed.  With no free block, a file that needs
    one keeps its size and its blocks, and the result is -1. *)
Theorem allocateDataBlocks_correct s i bytes L :
  let size := ic_size (i_ic i) in
  let n := nblocks size in
  let n' := nblocks (size + bytes) in
  fs_rep s L -> file_rep s (i_ic i) n L -> is_ino (k_fs s) (i_number i) ->
  0 <= size -> 0 <= bytes -> n' <= MAXBLKS ->
  ((grow_cost n n' <= length L)%nat ->
     exists t i', allocateDataBlocks i bytes s = Done ((size + bytes, set_size (size + bytes) i'), t) /\
       extended s i n L t i' n' (drop (grow_cost n n') L)) /\
  (n < n' -> L = [] -> allocateDataBlocks i bytes s = Done ((-1, i), s)).
Proof.
  intros size n n' Hs Hfile Hino Hsize Hbytes Hn'. split.
  - intros Hc. assert (Hw : wp (allocateDataBlocks i bytes) (fun r t => exists i',
      r = (size + bytes, set_size (size + bytes) i') /\
      extended s i n L t i' n' (drop (grow_cost n n') L)) s).
    { apply (wp_allocateDataBlocks s i bytes L); [done..|]. eauto. }
    apply wp_done in Hw as (r & t & Hr & i' & -> & He). eauto.
  - intros Hlt ->. apply wp_run. unfold allocateDataBlocks. fold size. change BLOCK_SIZE with 512.
    pose proof (Z.div_mod (size + bytes) 512). pose proof (Z.mod_pos_bound (size + bytes) 512).
    unfold n, n', nblocks, MAXBLKS in *.
    rewrite (u32_small (size + bytes)) by (unfold is_u32; lia).
    destruct (Z.to_nat ((size + bytes) / 512 - size / 512)) as [|k] eqn:E; [lia|].
    cbn [for_loop]. wp_steps. pose proof (Z.div_pos size 512).
    replace (in_int ((size / 512 + 1) * 512)) with true by (unfold in_int; lia).
    wp_steps. apply (wp_alloc_empty s i (size / 512 + 1)); [done..|]. by wp_steps.
Qed.
End Claims.

(** The doubly indirect blocks are lost.  When a file reaches block 139, the table
    entries are written to the new tables instead of their parents: on a disk with
    four free blocks the allocation succeeds and returns block 23, but
    [getDataBlockAddr] then finds block 0 of the disk at that position. *)
Definition wide_state : kernel MemDisk :=
  set_k_fs (set_fdb ([1; 20; 21; 22; 23] ++ replicate 59 0) (set_fdbhead 4 demo_fs)) demo_state.

Theorem double_indirect_lost :
  value ('(a, i) ← allocateDataBlockAddr demo_inode (139 * 512);
         b ← getDataBlockAddr i (139 * 512);
         mret (a, b)) wide_state = Some (23, 0).
Proof. vm_compute. reflexivity. Qed.

(** ** Witnesses *)

Lemma demo_file n : 0 < n <= 1 -> file_rep demo_state (i_ic demo_inode) n [21; 20].
Proof.
  intros Hn. assert (n = 1) as -> by lia. split.
  - by apply (bool_decide_unpack _).
  - unfold MAXBLKS. lia.
  - by apply (bool_decide_unpack _).
  - repeat (apply Forall_cons_2 || apply Forall_nil_2); by vm_compute.
Qed.

Lemma demo_ino : is_ino (k_fs demo_state) (i_number demo_inode).
Proof. by split. Qed.

Lemma allocateDataBlockAddr_correct_witness :
  exists i' t, allocateDataBlockAddr demo_inode (1 * 512) demo_state = Done ((21, i'), t) /\
    getDataBlockAddr i' (1 * 512) t = Done (21, t).
Proof.
  destruct (allocateDataBlockAddr_correct demo_state demo_inode 1 [21; 20] demo_rep
    (demo_file 1 ltac:(lia)) demo_ino ltac:(lia)) as (a & i' & t & Hr & _ & Hg).
  assert (a = 21) as -> by (vm_compute in Hr; by injection Hr as <- _ _).
  by exists i', t.
Defined.

Lemma allocateDataBlocks_correct_witness :
  exists t i', allocateDataBlocks demo_inode 10 demo_state = Done ((520, set_size 520 i'), t) /\
    fs_rep t [20].
Proof.
  destruct (allocateDataBlocks_correct demo_state demo_inode 10 [21; 20] demo_rep
    (demo_file 1 ltac:(lia)) demo_ino) as [H1 _]; [cbn; lia|lia|by vm_compute|].
  destruct H1 as (t & i' & Hr & He); [by vm_compute; lia|].
  exists t, i'. split; [exact Hr|apply (ex_fs _ _ _ _ _ _ _ _ He)].
Defined.
