(* ===== verification/Dir.v ===== *)
(** * Directories and paths

    Lookup, insertion and removal of directory entries and the walk along a path:
    kernel.c lines 715-907 and the [cd] call (lines 1336-1359), with the functions of
    string.h they use.  A C string is the list of its bytes up to and including the
    terminator; a function that reads past the end of the list is undefined. *)

From S2P Require Import Prelude CMonad Layout BlockDev Kernel FsOps.

(** ** Strings *)

Fixpoint strlen (s : list Z) : outcome Z :=
  match s with
  | [] => Undef
  | c :: s' => if c =? 0 then Done 0 else n ← strlen s'; Done (n + 1)
  end.

(** [strncmp(a, b, n) == 0]. *)
Fixpoint strncmp_eq (a b : list Z) (n : nat) : outcome bool :=
  match n with
  | O => Done true
  | S n' =>
      match a, b with
      | x :: a', y :: b' =>
          if x =? y then if x =? 0 then Done true else strncmp_eq a' b' n' else Done false
      | _, _ => Undef
      end
  end.

(** [strncpy(dst, src, n)]: pads with zeroes behind the terminator of [src]. *)
Fixpoint strncpy_bytes (src : list Z) (n : nat) : outcome (list Z) :=
  match n with
  | O => Done []
  | S n' =>
      match src with
      | [] => Undef
      | c :: src' =>
          if c =? 0 then Done (replicate n 0) else r ← strncpy_bytes src' n'; Done (c :: r)
      end
  end.

Definition strncpy (dst src : list Z) (n : nat) : outcome (list Z) :=
  bs ← strncpy_bytes src n;
  if bool_decide (n <= length dst)%nat then Done (overlay bs dst) else Undef.

Definition SLASH : Z := 47.

Fixpoint count_while (p : Z -> bool) (s : list Z) : nat :=
  match s with
  | c :: s' => if p c then S (count_while p s') else O
  | [] => O
  end.

(** [strtok(_, "/")] on the buffer [buf] from position [pos]: the token, if any, with
    its terminator, the position to resume at, and the buffer, in which the delimiter
    behind the token has become a terminator. *)
Definition strtok (buf : list Z) (pos : nat) : outcome (option (list Z) * nat * list Z) :=
  let start := (pos + count_while (Z.eqb SLASH) (drop pos buf))%nat in
  match buf !! start with
  | None => Undef
  | Some c =>
      if c =? 0 then Done (None, start, buf)
      else
        let n := count_while (fun c => negb (c =? SLASH) && negb (c =? 0)) (drop start buf) in
        let tok := take n (drop start buf) ++ [0] in
        match buf !! (start + n)%nat with
        | None => Undef
        | Some c =>
            if c =? 0 then Done (Some tok, (start + n)%nat, buf)
            else Done (Some tok, S (start + n), <[(start + n)%nat := 0]> buf)
        end
  end.

Section Ops.
Context {D : Type} `{BlockDevice D}.
Local Abbreviation K := (M (kernel D)).

(** ** Entries *)

Definition getLastDir (i : inode_t) : K dir_t :=
  let r := u32 (ic_size (i_ic i) / 32 - 1) mod 16 in
  '(_, buf) ← getDataBlock None i (u32 (ic_size (i_ic i) - 32));
  b ← deref buf;
  lift (aget (dec_arr 16 b) r).

Definition removable (parent : inode_t) (child : dir_t) : K Z :=
  c ← gets k_cwd;
  if d_ino child =? c then mret (-1)
  else
    r ← for_find (Z.to_nat AIT_LIMIT) 0 (fun k =>
      i ← at_ Ai k;
      mret (if (i_number i =? d_ino child) && negb (ic_mode (i_ic i) =? mode_val IFZERO)
            then Some tt else None));
    match r with
    | Some _ => mret (-1)
    | None =>
        i ← readInode zero_inode (s32 (d_ino child));
        if (ic_mode (i_ic i) =? mode_val IFDIR) && (ic_size (i_ic i) >? 64) then mret (-1)
        else mret (s32 (d_ino child))
    end.

(** The condition of lines 763, 781, 813 and 820: the entry carries the name. *)
Definition entry_is (name : list Z) (d : dir_t) : outcome bool :=
  l ← strlen name;
  strncmp_eq name (d_name d) (Z.to_nat (if d_namlen d >=? l then d_namlen d else l)).

(** [remove] returns with the entry in [child]; [None] stands for its -1 at the end.
    The result is [(int) child->d_ino]. *)
Definition remove_in (parent : inode_t) (name : list Z) (addr : Z) (buf : option (list Z))
    (n : nat) : K (option (dir_t * inode_t)) :=
  for_find n 0 (fun j =>
    b ← deref buf;
    d ← lift (aget (dec_arr 16 b : list dir_t) j);
    eq ← lift (entry_is name d);
    if eq : bool then
      r ← removable parent d;
      if negb (r =? -1) then
        l ← getLastDir parent;
        ds ← lift (aset (dec_arr 16 b) j l);
        disk_wr addr (enc_arr ds) ;;
        let parent' := set_size (u32 (ic_size (i_ic parent) - 32)) parent in
        writeInode parent' ;;
        mret (Some (d, parent'))
      else mret None
    else mret None).

Definition remove (child : dir_t) (parent : inode_t) (name : list Z) :
    K (Z * dir_t * inode_t) :=
  let dirs := Z.quot (s32 (ic_size (i_ic parent))) 32 in
  if dirs >? 0 then
    let blks := (dirs - 1) / 16 + 1 in
    let r := dirs mod 16 in
    res ← for_loop (Z.to_nat (blks - 1)) 0 (fun k buf =>
      '(addr, buf) ← getDataBlock buf parent (BLOCK_SIZE * k);
      res ← remove_in parent name addr buf 16;
      mret (match res with Some x => inr x | None => inl buf end)) None;
    match res with
    | inr (d, parent) => mret (s32 (d_ino d), d, parent)
    | inl buf =>
        '(addr, buf) ← getDataBlock buf parent (BLOCK_SIZE * (blks - 1));
        res ← remove_in parent name addr buf (Z.to_nat r);
        match res with
        | Some (d, parent) => mret (s32 (d_ino d), d, parent)
        | None => mret (-1, child, parent)
        end
    end
  else mret (-1, child, parent).

(** The inner loop of [name_to_ino] over the first [n] entries of the buffer. *)
Definition find_in (name : list Z) (buf : option (list Z)) (n : nat) : K (option Z) :=
  for_find n 0 (fun j =>
    b ← deref buf;
    d ← lift (aget (dec_arr 16 b) j);
    eq ← lift (entry_is name d);
    mret (if eq : bool then Some (s32 (d_ino d)) else None)).

Definition name_to_ino (name : list Z) (i : inode_t) : K Z :=
  let dirs := Z.quot (s32 (ic_size (i_ic i))) 32 in
  if dirs >? 0 then
    let blks := (dirs - 1) / 16 + 1 in
    let r := dirs mod 16 in
    res ← for_loop (Z.to_nat (blks - 1)) 0 (fun k buf =>
      '(_, buf) ← getDataBlock buf i (BLOCK_SIZE * k);
      res ← find_in name buf 16;
      mret (match res with Some x => inr x | None => inl buf end)) None;
    match res with
    | inr ino => mret ino
    | inl buf =>
        '(_, buf) ← getDataBlock buf i (BLOCK_SIZE * (blks - 1));
        res ← find_in name buf (Z.to_nat r);
        mret (default (-1) res)
    end
  else mret (-1).

Definition addInodeToDirectory (par : inode_t) (ino : Z) (name : list Z) : K inode_t :=
  let r := ic_size (i_ic par) / 32 mod 16 in
  '(_, par) ← (if (r =? 0) && (ic_size (i_ic par) >? 0)
               then allocateDataBlockAddr par (ic_size (i_ic par)) else mret (0, par));
  '(addr, buf) ← getDataBlock None par (ic_size (i_ic par));
  b ← deref buf;
  d ← lift (aget (dec_arr 16 b) r);
  l ← lift (strlen name);
  nm ← lift (strncpy (d_name d) name (Z.to_nat l));
  ds ← lift (aset (dec_arr 16 b) r (mk_dir (u32 ino) (u16 l) nm));
  disk_wr addr (enc_arr ds) ;;
  let par := set_size (u32 (ic_size (i_ic par) + 32)) par in
  writeInode par ;;
  mret par.

(** ** Paths *)

(** Where the loop over the components of a path stands: the inode last read, the
    directory the last component was looked up in, the result so far, and the last
    and the next component. *)
Record walk_t := mk_walk {
  w_inode : inode_t;
  w_ino0 : Z;
  w_ino : Z;
  w_tok0 : list Z;
  w_tok : option (list Z);
}.

(** The loops of [path_to_ino], [path_to_ino2] and [cd]; the next component is taken
    from the buffer before the result of the last one is tested.  A path has at
    most as many components as bytes. *)
Fixpoint walk (fuel : nat) (w : walk_t) (buf : list Z) (pos : nat) : K (walk_t * list Z) :=
  match w_tok w with
  | Some tok =>
      if w_ino w =? -1 then mret (w, buf)
      else
        match fuel with
        | O => lift Hang
        | S fuel' =>
            i ← readInode (w_inode w) (w_ino w);
            ino ← name_to_ino tok i;
            '(tok', pos, buf) ← lift (strtok buf pos);
            walk fuel' (mk_walk i (w_ino w) ino tok tok') buf pos
        end
  | None => mret (w, buf)
  end.

Definition walk_path (path : list Z) (dir : Z) : K (walk_t * list Z) :=
  '(tok, pos, path) ← lift (strtok path 0);
  walk (length path) (mk_walk zero_inode 0 dir (default [] tok) tok) path pos.

Definition path_to_ino (path : list Z) (dir : Z) : K (Z * list Z) :=
  '(w, path) ← walk_path path dir;
  mret (w_ino w, path).

Definition path_to_ino2 (path : list Z) (dir : Z) : K (Z * list Z) :=
  '(w, path) ← walk_path path dir;
  if negb (w_ino w =? -1) then mret (w_ino w, path)
  else match w_tok w with
  | Some _ => mret (-1, path)
  | None =>
      i ← getFreeInode (w_inode w);
      match i with
      | None => mret (-2, path)
      | Some i =>
          a ← balloc;
          let i := set_db (<[0%nat := a]> (ic_db (i_ic i))) i in
          writeInode i ;;
          parent ← readInode zero_inode (w_ino0 w);
          _ ← addInodeToDirectory parent (i_number i) (w_tok0 w);
          mret (s32 (i_number i), path)
      end
  end.

(** [cd]: the working directory changes when every component was found. *)
Definition cd (path : list Z) : K (Z * list Z) :=
  c ← gets k_cwd;
  '(w, path) ← walk_path path (s32 c);
  if w_ino w =? -1 then mret (-1, path)
  else
    modify (set_k_cwd (u32 (w_ino w))) ;;
    mret (0, path).
End Ops.
