(* ===== verification/Posix.v ===== *)
(** * Files as processes see them

    The three tables behind a descriptor, the POSIX calls, [exec], and [wipe]: kernel.c
    lines 37-73, 281-323, 369-427 and 911-1103. *)

From S2P Require Import Prelude CMonad Layout BlockDev Kernel Sched FsOps Dir.

(** The addresses the linker gives the kernel (image.ld and user/*.h). *)
Record image := mk_image {
  tos_init : Z;
  entry_init : Z;
  entry_P0 : Z; entry_P1 : Z; entry_P2 : Z;
  entry_het : Z; entry_ping : Z; entry_pong : Z;
  entry_blanks : Z; entry_hashs : Z;
}.

Section Ops.
Context {D : Type} `{BlockDevice D}.
Local Abbreviation K := (M (kernel D)).

(** ** Tables *)

Definition getFD : K Z :=
  r ← for_find (Z.to_nat FDT_LIMIT) 0 (fun k =>
    me ← cur;
    e ← lift (aget (fd me) k);
    mret (match e with None => Some k | Some _ => None end));
  mret (default (-1) r).

Definition getOFT : K (option Z) :=
  for_find (Z.to_nat OFT_LIMIT) 0 (fun i =>
    o ← at_ Oft i;
    mret (match o_inptr o with None => Some i | Some _ => None end)).

Definition getAIT (ino : Z) : K (option Z) :=
  r ← for_find (Z.to_nat AIT_LIMIT) 0 (fun k =>
    i ← at_ Ai k;
    mret (if (i_number i =? u32 ino) && negb (ic_mode (i_ic i) =? mode_val IFZERO)
          then Some k else None));
  match r with
  | Some k => mret (Some k)
  | None =>
      for_find (Z.to_nat AIT_LIMIT) 0 (fun k =>
        i ← at_ Ai k;
        if ic_mode (i_ic i) =? mode_val IFZERO then
          i' ← readInode i ino;
          upd Ai k (fun _ => i') ;;
          mret (Some k)
        else mret None)
  end.

(** ** Calls *)

(** The entry of the descriptor table of the current process, written. *)
Definition set_fd_entry (n : Z) (v : option Z) : K unit :=
  me ← cur;
  l ← lift (aset (fd me) n v);
  upd_cur (set_fd l).

Definition set_head (v : Z) (o : ofile_t) : ofile_t := mk_ofile (o_inptr o) v.
Definition set_inptr (v : option Z) (o : ofile_t) : ofile_t := mk_ofile v (o_head o).

Definition open (path : list Z) (oflag : Z) : K (Z * list Z) :=
  n ← getFD;
  if n =? -1 then mret (-1, path)
  else
    '(ino, path) ← (if oflag =? oflag_val O_CREAT then path_to_ino2 path ROOT_DIR
                    else path_to_ino path ROOT_DIR);
    if ino <? 0 then mret (-1, path)
    else
      inode ← getAIT ino;
      match inode with
      | None => mret (-1, path)
      | Some inode =>
          ofile ← getOFT;
          match ofile with
          | None => mret (-1, path)
          | Some ofile =>
              upd Ai inode (fun i => set_links (u32 (i_links i + 1)) i) ;;
              set_fd_entry n (Some ofile) ;;
              upd Oft ofile (set_inptr (Some inode)) ;;
              mret (n, path)
          end
      end.

(** The checks every call on a descriptor starts with: the open file it stands for. *)
Definition fd_file (n : Z) : K (option Z) :=
  if (n <? 0) || (n >=? FDT_LIMIT) then mret None
  else me ← cur; lift (aget (fd me) n).

Definition close (n : Z) : K Z :=
  f ← fd_file n;
  match f with
  | None => mret (-1)
  | Some f =>
      o ← at_ Oft f;
      p ← deref (o_inptr o);
      upd Ai p (fun i => set_links (u32 (i_links i - 1)) i) ;;
      i ← at_ Ai p;
      when (i_links i =? 0)
        (writeInode i ;; upd Ai p (set_mode (mode_val IFZERO))) ;;
      upd Oft f (set_inptr None) ;;
      upd Oft f (set_head 0) ;;
      set_fd_entry n None ;;
      mret 0
  end.

(** The copying loop of [fwrite], [k] bytes from the [i]th of [data] on, with the
    address and the contents of the block under the position. *)
Definition fwrite_loop (i : inode_t) (head n : Z) (data : list Z) (addr : Z)
    (buf : option (list Z)) : K (Z * option (list Z)) :=
  for_fold (Z.to_nat n) 0 (fun k '(addr, buf) =>
    x ← lift (aget data k);
    b ← deref buf;
    b ← lift (aset b (u32 (head + k) mod BLOCK_SIZE) x);
    if negb (k =? n - 1) && (u32 (head + k + 1) mod BLOCK_SIZE =? 0) then
      disk_wr addr b ;;
      '(a, buf) ← getDataBlock (Some b) i (u32 (head + k + 1));
      mret (u32 a, buf)
    else mret (addr, Some b)) (addr, buf).

(** [data]: the [n] bytes the caller's pointer points at. *)
Definition fwrite (n : Z) (data : list Z) (len : Z) : K Z :=
  f ← fd_file n;
  match f with
  | None => mret (-1)
  | Some f =>
      o ← at_ Oft f;
      p ← deref (o_inptr o);
      i ← at_ Ai p;
      when (u32 (o_head o + len) >? ic_size (i_ic i))
        ('(_, i') ← allocateDataBlocks i (u32 (o_head o + len - ic_size (i_ic i)));
         upd Ai p (fun _ => i')) ;;
      i ← at_ Ai p;
      '(addr, buf) ← getDataBlock None i (o_head o);
      '(addr, buf) ← fwrite_loop i (o_head o) len data (u32 addr) buf;
      b ← deref buf;
      disk_wr addr b ;;
      upd Oft f (fun o => set_head (u32 (o_head o + len)) o) ;;
      mret 0
  end.

Definition fread_loop (i : inode_t) (head n : Z) (buf : option (list Z)) :
    K (list Z * option (list Z)) :=
  for_fold (Z.to_nat n) 0 (fun k '(data, buf) =>
    b ← deref buf;
    x ← lift (aget b (u32 (head + k) mod BLOCK_SIZE));
    if negb (k =? n - 1) && (u32 (head + k + 1) mod BLOCK_SIZE =? 0) then
      '(_, buf) ← getDataBlock buf i (u32 (head + k + 1));
      mret (data ++ [x], buf)
    else mret (data ++ [x], buf)) ([], buf).

(** The result, and the bytes stored at the caller's pointer. *)
Definition fread (n : Z) (len : Z) : K (Z * list Z) :=
  f ← fd_file n;
  match f with
  | None => mret (-1, [])
  | Some f =>
      o ← at_ Oft f;
      p ← deref (o_inptr o);
      i ← at_ Ai p;
      if u32 (o_head o + len) >? ic_size (i_ic i) then mret (-1, [])
      else
        '(_, buf) ← getDataBlock None i (o_head o);
        '(data, _) ← fread_loop i (o_head o) len buf;
        upd Oft f (fun o => set_head (u32 (o_head o + len)) o) ;;
        mret (0, data)
  end.

Definition lseek (n offset whence : Z) : K Z :=
  f ← fd_file n;
  match f with
  | None => mret (-1)
  | Some f =>
      match whence_of whence with
      | None => mret (-1)
      | Some w =>
          (match w with
           | SEEK_SET => upd Oft f (set_head (u32 offset))
           | SEEK_CUR => upd Oft f (fun o => set_head (u32 (o_head o + offset)) o)
           | SEEK_END =>
               o ← at_ Oft f;
               p ← deref (o_inptr o);
               i ← at_ Ai p;
               upd Oft f (set_head (u32 (ic_size (i_ic i) + offset)))
           end) ;;
          o ← at_ Oft f;
          mret (s32 (o_head o))
      end
  end.

Definition tell (n : Z) : K Z :=
  f ← fd_file n;
  match f with
  | None => mret (-1)
  | Some f => o ← at_ Oft f; mret (s32 (o_head o))
  end.

Definition zero_dir : dir_t := mk_dir 0 0 (replicate 26 0).

Definition unlink (name : list Z) : K Z :=
  c ← lift (aget name 0);
  if c =? 46 then mret (-1)
  else
    w ← gets k_cwd;
    i ← readInode zero_inode (s32 w);
    '(r, d, _) ← remove zero_dir i name;
    if negb (r =? -1) then
      i ← readInode zero_inode (s32 (d_ino d));
      _ ← freeDataBlocks i;
      writeInode (set_size 0 (set_mode (mode_val IFZERO) i)) ;;
      mret 0
    else mret (-1).

(** ** Programs *)

(** [entry] and [priority] are the caller's variables: a read that fails leaves them
    as they are. *)
Definition getProgramEntry (path : list Z) (entry priority : Z) :
    K (Z * list Z * Z * Z) :=
  '(ino, path) ← path_to_ino path ROOT_DIR;
  if negb (ino =? -1) then
    '(file, path) ← open path (oflag_val O_EXIST);
    if negb (file =? -1) then
      '(r, e) ← fread file 4;
      '(r', p) ← fread file 4;
      _ ← close file;
      mret (0, path, (if r =? 0 then le_val e else entry),
            (if r' =? 0 then le_val p else priority))
    else mret (-1, path, entry, priority)
  else mret (-1, path, entry, priority).

(** [entry0], [priority0]: what is in the two uninitialised locals. *)
Definition exec (im : image) (entry0 priority0 : Z) (c : ctx_t) (path : list Z) :
    K (Z * ctx_t * list Z) :=
  '(r, path, entry, priority) ← getProgramEntry path entry0 priority0;
  if r =? -1 then mret (-1, c, path)
  else
    me ← cur;
    let c' := mk_ctx 0x50 entry (replicate 13 0)
                (u32 (tos_init im - pid me * 0x00010000)) 0 in
    upd_cur (fun me => mk_pcb (pid me) 0 c' EXECUTING priority priority
                         (replicate 16 None)) ;;
    mret (0, c', path).

(** ** Formatting *)

(** The bytes of a name of kernel.c, with the terminator. *)
Definition c_string (s : list Z) : list Z := s ++ [0].

Definition create_obj (name : list Z) (entry : Z) : K unit :=
  '(file, _) ← open (c_string name) (oflag_val O_CREAT);
  _ ← fwrite file (le_bytes 4 entry) 4;
  _ ← fwrite file (le_bytes 4 1) 4;
  _ ← close file;
  mret tt.

(** The names, in ASCII: P0 P1 P2 het ping pong blanks hashs.  What is written is the
    word at the linker symbol. *)
Definition createObjFiles (im : image) : K unit :=
  create_obj [80; 48] (entry_P0 im) ;;
  create_obj [80; 49] (entry_P1 im) ;;
  create_obj [80; 50] (entry_P2 im) ;;
  create_obj [104; 101; 116] (entry_het im) ;;
  create_obj [112; 105; 110; 103] (entry_ping im) ;;
  create_obj [112; 111; 110; 103] (entry_pong im) ;;
  create_obj [98; 108; 97; 110; 107; 115] (entry_blanks im) ;;
  create_obj [104; 97; 115; 104; 115] (entry_hashs im).

(** The superblock [wipe] writes; the entries of [fs_fdb] it does not set, the unused
    fields and the padding keep their values. *)
Definition wipe_fs (f : fs_t) : fs_t :=
  mk_fs 1 2048 2 512 66 1982 61
    (66 :: ((fun i => i + 1986) <$> seqZ 1 61) ++ drop 62 (fs_fdb f)) (fs_fil f) (fs_pad f).

(** Block [i + 66] of the chain of free blocks, for [i < 30]. *)
Definition wipe_link (i : Z) : list Z :=
  (if i =? 29 then 1 else i + 1 + 66) :: ((fun j => 63 * i + j + 96) <$> seqZ 0 63).

Definition set_ic_db (l : list Z) (ic : icommon_t) : icommon_t :=
  mk_icommon (ic_mode ic) (ic_size ic) l (ic_ib ic).

Definition set_ic (mode size : Z) (ic : icommon_t) : icommon_t :=
  mk_icommon mode size (ic_db ic) (ic_ib ic).

(** [junk]: what is in the uninitialised array of directory entries. *)
Definition root_dir (junk : list dir_t) : list dir_t :=
  alter (fun d => mk_dir ROOT_DIR 1 (<[0%nat := 46]> (d_name d))) 0%nat junk.

Definition wipe_inode (junk : list dir_t) (i j : Z) (ic : icommon_t) : K icommon_t :=
  if (i =? 0) && (j =? ROOT_DIR) then
    a ← balloc;
    let ic' := set_ic_db (<[0%nat := a]> (ic_db ic)) (set_ic (mode_val IFDIR) 32 ic) in
    disk_wr a (enc_arr (root_dir junk)) ;;
    mret ic'
  else mret (set_ic (mode_val IFZERO) 0 ic).

Fixpoint wipe_inodes (junk : list dir_t) (i j : Z) (ics : list icommon_t) :
    K (list icommon_t) :=
  match ics with
  | [] => mret []
  | ic :: ics' =>
      ic' ← wipe_inode junk i j ic;
      rest ← wipe_inodes junk i (j + 1) ics';
      mret (ic' :: rest)
  end.

Definition wipe (im : image) (junk : list dir_t) : K unit :=
  set_fs wipe_fs ;;
  for_do 30 0 (fun i => disk_wr (i + 66) (enc_words (wipe_link i))) ;;
  write_sb ;;
  _ ← for_fold 64 0 (fun i buf =>
    f ← gets k_fs;
    buf ← disk_rd (i + fs_iblkno f) buf;
    b ← deref buf;
    ics ← wipe_inodes junk i 0 (dec_arr 8 b);
    disk_wr (i + fs_iblkno f) (enc_arr ics) ;;
    mret (Some (enc_arr ics))) None;
  createObjFiles im.
End Ops.
