(* ===== verification/FileIO.v ===== *)
(** * Reading and writing files

    [fread], [fwrite], [lseek] and [tell] on an open file of at most 139 blocks,
    against the sequence of bytes the file holds. *)

From S2P Require Import Prelude CMonad Layout BlockDev Kernel Sched FsOps FreeList InodeProof BlockMap FileRep FileGrow Dir Posix.

(** ** The bytes of a file *)

Definition byte_of (b : list Z) (p : Z) : Z := nth (Z.to_nat (p mod 512)) b 0.

(** The byte at position [p]. *)
Definition fbyte {D} `{BlockDevice D} (d : D) (ic : icommon_t) (p : Z) : Z :=
  byte_of (dev_blk d (blk_addr d ic (p / 512))) p.

(** The [n] bytes from position [a]. *)
Definition fbytes {D} `{BlockDevice D} (d : D) (ic : icommon_t) (a n : Z) : list Z :=
  fbyte d ic <$> seqZ a n.

Section Bytes.
Context {D : Type} `{BlockDeviceLaws D}.
Implicit Types (s t : kernel D) (d : D) (ic : icommon_t) (L : list Z) (b : list Z).

Lemma fbytes_app d ic a n k : 0 <= n -> 0 <= k -> fbytes d ic a (n + k) = fbytes d ic a n ++ fbytes d ic (a + n) k.
Proof. intros Hn Hk. unfold fbytes. by rewrite seqZ_app, fmap_app. Qed.

Lemma byte_lookup b p : is_block b -> b !! Z.to_nat (p mod 512) = Some (byte_of b p).
Proof.
  intros [Hl _]. pose proof (Z.mod_pos_bound p 512). unfold byte_of.
  destruct (lookup_lt_ex b (Z.to_nat (p mod 512))) as [x Hx]; [lia|].
  by rewrite (nth_lookup_Some _ _ _ _ Hx).
Qed.

Lemma byte_of_insert b p x q :
  is_block b -> p / 512 = q / 512 ->
  byte_of (<[Z.to_nat (p mod 512) := x]> b) q = if decide (q = p) then x else byte_of b q.
Proof.
  intros [Hl _] Hpq. unfold byte_of. rewrite !nth_lookup.
  pose proof (Z.mod_pos_bound p 512). pose proof (Z.mod_pos_bound q 512).
  pose proof (Z.div_mod p 512). pose proof (Z.div_mod q 512). case_decide as E.
  - subst. rewrite list_lookup_insert_eq by lia. done.
  - by rewrite list_lookup_insert_ne by lia.
Qed.

Lemma insert_block b i x : is_block b -> is_byte x -> is_block (<[i := x]> b).
Proof. intros [Hl Hb] Hx. split; [by rewrite length_insert|by apply Forall_insert]. Qed.

Lemma wp_getDataBlock s i byte buf (Q : Z * option (list Z) -> kernel D -> Prop) :
  dev_ok (k_disk s) -> lwf (i_ic i) -> is_u32 byte ->
  blk_ok (k_disk s) (i_ic i) (byte / 512) ->
  valid_addr D (blk_addr (k_disk s) (i_ic i) (byte / 512)) ->
  Q (blk_addr (k_disk s) (i_ic i) (byte / 512),
     Some (dev_blk (k_disk s) (blk_addr (k_disk s) (i_ic i) (byte / 512)))) s ->
  wp (getDataBlock buf i byte) Q s.
Proof.
  intros Hok Hwf Hb Hp Hv HQ. unfold getDataBlock. wp_steps.
  apply wp_getDataBlockAddr; [done..|]. pose proof dev_num_range. unfold valid_addr in Hv.
  rewrite s32_small by lia. wp_steps. apply wp_disk_rd; [done|done|]. by wp_steps.
Qed.

(** The block of a position inside a file. *)
Lemma wp_file_block s i n L p buf (Q : Z * option (list Z) -> kernel D -> Prop) :
  fs_rep s L -> file_rep s (i_ic i) n L -> 0 <= p -> p / 512 < n ->
  Q (blk_addr (k_disk s) (i_ic i) (p / 512),
     Some (dev_blk (k_disk s) (blk_addr (k_disk s) (i_ic i) (p / 512)))) s ->
  wp (getDataBlock buf i p) Q s.
Proof.
  intros Hs Hf Hp Hn HQ. pose proof (fr_geo _ _ Hs) as Hg.
  pose proof (fi_num _ _ _ _ Hf) as Hmax. unfold MAXBLKS in Hmax.
  assert (Hq : 0 <= p / 512) by (apply Z.div_pos; lia).
  apply wp_getDataBlock; [apply Hs|apply Hf| |by apply (file_rep_blk_ok s _ n L)| |done].
  - pose proof (Z.div_mod p 512). pose proof (Z.mod_pos_bound p 512). unfold is_u32. lia.
  - apply (data_addr_valid (k_fs s)); [done|]. by apply (file_rep_blk s (i_ic i) n L).
Qed.
End Bytes.

(** ** The reading loop *)

Section Read.
Context {D : Type} `{BlockDeviceLaws D}.
Implicit Types (s t : kernel D) (d : D) (ic : icommon_t) (L : list Z).

(** The position whose block is in the buffer before round [k] of [len]. *)
Definition pos_at (head len k : Z) : Z := head + Z.max 0 (Z.min k (len - 1)).

Lemma pos_step head len k :
  0 <= head -> 0 <= k < len ->
  pos_at head len k = head + k /\
  (k <> len - 1 -> pos_at head len (k + 1) = head + k + 1) /\
  (k = len - 1 -> pos_at head len (k + 1) = head + k).
Proof. unfold pos_at. intros. lia. Qed.

(** Stepping to the next position changes the block exactly at a boundary. *)
Lemma next_block q : 0 <= q -> (q + 1) mod 512 <> 0 -> (q + 1) / 512 = q / 512.
Proof.
  intros Hq Hm. pose proof (Z.div_mod q 512). pose proof (Z.div_mod (q + 1) 512).
  pose proof (Z.mod_pos_bound q 512). pose proof (Z.mod_pos_bound (q + 1) 512). lia.
Qed.

Lemma wp_fread_loop s i n L head len (Q : list Z * option (list Z) -> kernel D -> Prop) :
  fs_rep s L -> file_rep s (i_ic i) n L -> 0 <= head -> 0 <= len -> head + len <= 512 * n ->
  (forall buf, Q (fbytes (k_disk s) (i_ic i) head len, buf) s) ->
  wp (fread_loop i head len
        (Some (dev_blk (k_disk s) (blk_addr (k_disk s) (i_ic i) (head / 512))))) Q s.
Proof.
  intros Hs Hf Hh Hlen Hmax HQ. unfold fread_loop.
  pose proof (fi_num _ _ _ _ Hf) as Hn. unfold MAXBLKS in Hn.
  set (blk p := dev_blk (k_disk s) (blk_addr (k_disk s) (i_ic i) (p / 512))).
  apply (wp_for_fold (fun k '(data, buf) t => t = s /\
    data = fbytes (k_disk s) (i_ic i) head k /\ buf = Some (blk (pos_at head len k)))).
  - split_and!; [done|done|]. unfold pos_at. by replace (head + _) with head by lia.
  - intros k [data buf] t Hk (-> & -> & ->).
    destruct (pos_step head len k Hh) as (Hp & Hp1 & Hp2); [lia|]. rewrite Hp.
    assert (Hblk : is_block (blk (head + k))).
    { apply dev_blk_block; [apply Hs|]. apply (data_addr_valid (k_fs s)); [apply Hs|].
      apply (file_rep_blk s (i_ic i) n L); [done|].
      split; [apply Z.div_pos; lia|apply Z.div_lt_upper_bound; lia]. }
    wp_steps. change BLOCK_SIZE with 512.
    rewrite !u32_small by (unfold is_u32; lia).
    eapply wp_lift; [apply aget_done; [apply Z.mod_pos_bound; lia|by apply byte_lookup]|].
    assert (Hsnoc : fbytes (k_disk s) (i_ic i) head k ++ [byte_of (blk (head + k)) (head + k)]
              = fbytes (k_disk s) (i_ic i) head (k + 1)).
    { unfold fbytes. rewrite seqZ_app by lia. by rewrite fmap_app. }
    rewrite Hsnoc. destruct (Z.eqb_spec k (len - 1)) as [He|He]; cbn [negb andb].
    + wp_steps. split_and!; [done|done|]. by rewrite Hp2.
    + rewrite (Hp1 He). destruct (Z.eqb_spec ((head + k + 1) mod 512) 0) as [Hm|Hm].
      * wp_steps. apply (wp_file_block s i n L); [done|done|lia|apply Z.div_lt_upper_bound; lia|].
        by wp_steps.
      * wp_steps. split_and!; [done|done|]. unfold blk. by rewrite next_block by lia.
  - intros [data buf] t (-> & -> & ->). replace (0 + Z.of_nat (Z.to_nat len)) with len by lia.
    apply HQ.
Qed.
End Read.

(** ** The writing loop *)

(** Byte [q] of the file once the first [k] bytes of [data] are written from [head]. *)
Definition wbyte {D} `{BlockDevice D} (d : D) (ic : icommon_t) (head : Z) (data : list Z)
    (k q : Z) : Z :=
  if decide (head <= q < head + k) then nth (Z.to_nat (q - head)) data 0 else fbyte d ic q.

(** [d'] is [d] but for blocks of the file. *)
Definition file_only {D} `{BlockDevice D} (ic : icommon_t) (n : Z) (d d' : D) : Prop :=
  dev_ok d' /\
  forall b, valid_addr D b -> b ∉ file_blocks d ic n -> dev_blk d' b = dev_blk d b.

Section Write.
Context {D : Type} `{BlockDeviceLaws D}.
Implicit Types (s t : kernel D) (d : D) (ic : icommon_t) (L : list Z).

Lemma file_only_rep s ic n L d' :
  fs_rep s L -> file_rep s ic n L -> file_only ic n (k_disk s) d' ->
  fs_rep (set_k_disk d' s) L /\ file_rep (set_k_disk d' s) ic n L /\
  forall k, 0 <= k < n -> blk_addr d' ic k = blk_addr (k_disk s) ic k.
Proof.
  intros Hs Hf [Hok' Hblk]. pose proof (fr_geo _ _ Hs) as Hg.
  assert (Hnot : forall b, b = 1 \/ b ∈ L \/ (11 < n /\ b = ib_at ic 0) ->
            b ∉ file_blocks (k_disk s) ic n).
  { intros b Hb (k & Hk & ->)%elem_of_file_blocks.
    destruct (file_rep_blk s ic n L k Hf Hk) as (Hd & HL & Ht).
    pose proof (geometry_data _ _ Hg Hd). destruct Hb as [Hb|[Hb|[Hb1 Hb2]]]; [lia|done|by apply Ht]. }
  assert (Hfr : fs_frame (fun b => b ∈ file_blocks (k_disk s) ic n) s (set_k_disk d' s)).
  { apply fs_frame_disk. intros b Hb Hne. by apply Hblk. }
  assert (Htab : 11 < n -> valid_addr D (ib_at ic 0)).
  { intros H11. apply (data_addr_valid (k_fs s)); [done|]. by apply (file_rep_table s ic n L). }
  split_and!.
  - apply fs_rep_disk; [done|done| |].
    + apply Hblk; [by apply (geometry_sb_valid (k_fs s))|]. apply Hnot. by left.
    + intros b Hb. apply Hblk; [|by apply Hnot; right; left].
      apply (data_addr_valid (k_fs s)); [done|].
      by apply (proj1 (list.Forall_forall _ _) (fr_data _ _ Hs)).
  - apply (file_rep_frame _ s _ ic n L L Hf Hfr Hg); [|apply Hf].
    intros H11. apply Hnot. right; right. done.
  - intros k Hk. apply (blk_addr_frame _ s (set_k_disk d' s) ic n k Hfr Hk);
      [apply (fi_num _ _ _ _ Hf)|]. intros H11. split; [by apply Htab|].
    apply Hnot. right; right. done.
Qed.

(** The invariant of the loop: the buffer holds the block [cur] with the bytes written
    so far, the disk the others. *)
Record writing s ic n head data k cur (d' : D) (b : list Z) : Prop := {
  wr_file : file_only ic n (k_disk s) d';
  wr_block : is_block b;
  wr_disk q : 0 <= q -> q / 512 < n -> q / 512 <> cur ->
    byte_of (dev_blk d' (blk_addr (k_disk s) ic (q / 512))) q = wbyte (k_disk s) ic head data k q;
  wr_buf q : 0 <= q -> q / 512 = cur -> byte_of b q = wbyte (k_disk s) ic head data k q;
}.

(** One byte more goes into the buffer. *)
Lemma writing_byte s ic n head data k d' b x :
  writing s ic n head data k ((head + k) / 512) d' b -> 0 <= head -> 0 <= k ->
  data !! Z.to_nat k = Some x -> is_byte x ->
  writing s ic n head data (k + 1) ((head + k) / 512) d'
    (<[Z.to_nat ((head + k) mod 512) := x]> b).
Proof.
  intros [Hf Hb Hd Hbuf] Hh Hk Hx Hbx.
  assert (Hw : forall q, q <> head + k ->
            wbyte (k_disk s) ic head data (k + 1) q = wbyte (k_disk s) ic head data k q).
  { intros q Hq. unfold wbyte. repeat case_decide; try lia; done. }
  split; [done|by apply insert_block| |].
  - intros q Hq Hn Hne. rewrite Hw; [by apply Hd|]. by intros ->.
  - intros q Hq Hcur. rewrite byte_of_insert by (done || lia). case_decide as E.
    + subst q. unfold wbyte. rewrite decide_True by lia.
      replace (head + k - head) with k by lia. by rewrite (nth_lookup_Some _ _ _ _ Hx).
    + rewrite Hw by done. by apply Hbuf.
Qed.

(** The buffer is stored in its block: every byte of the file is as it should be. *)
Lemma writing_store s ic n L head data k cur d' b d2 :
  writing s ic n head data k cur d' b -> fs_rep s L -> file_rep s ic n L -> 0 <= cur < n ->
  disk_put (blk_addr (k_disk s) ic cur) b d' d2 ->
  file_only ic n (k_disk s) d2 /\
  forall q, 0 <= q -> q / 512 < n ->
    byte_of (dev_blk d2 (blk_addr (k_disk s) ic (q / 512))) q = wbyte (k_disk s) ic head data k q.
Proof.
  intros [[Hok Hf] Hb Hd Hbuf] Hs Hfile Hcur [Hok2 Hblk].
  assert (Hin : forall j, 0 <= j < n -> blk_addr (k_disk s) ic j ∈ file_blocks (k_disk s) ic n)
    by (intros j Hj; apply elem_of_file_blocks; eauto).
  split.
  - split; [done|]. intros b' Hv Hne. rewrite Hblk by done. rewrite decide_False; [by apply Hf|].
    intros ->. by apply Hne, Hin.
  - intros q Hq Hn. assert (Hqn : 0 <= q / 512 < n) by (split; [apply Z.div_pos; lia|done]).
    destruct (file_rep_blk s ic n L _ Hfile Hqn) as (Hda & _).
    rewrite Hblk by by apply (data_addr_valid (k_fs s)); [apply Hs|].
    destruct (Z.eq_dec (q / 512) cur) as [E|E].
    + rewrite decide_True by by rewrite E. by apply Hbuf.
    + rewrite decide_False; [by apply Hd|]. intros Ea. apply E.
      by apply (file_blocks_inj s ic n L).
Qed.

(** Moving on: the block is stored and the next one read. *)
Lemma wp_next_block s i n L head data k d' b q buf (Q : Z * option (list Z) -> kernel D -> Prop) :
  writing s (i_ic i) n head data k (q / 512) d' b -> fs_rep s L -> file_rep s (i_ic i) n L ->
  0 <= q -> (q + 1) / 512 < n -> (q + 1) mod 512 = 0 ->
  (forall d2 b2, writing s (i_ic i) n head data k ((q + 1) / 512) d2 b2 ->
     Q (blk_addr (k_disk s) (i_ic i) ((q + 1) / 512), Some b2) (set_k_disk d2 s)) ->
  wp (disk_wr (blk_addr (k_disk s) (i_ic i) (q / 512)) b ;; getDataBlock buf i (q + 1)) Q
    (set_k_disk d' s).
Proof.
  intros Hw Hs Hfile Hq Hn Hm HQ. pose proof (fr_geo _ _ Hs) as Hg.
  pose proof (Z.div_mod q 512). pose proof (Z.div_mod (q + 1) 512).
  pose proof (Z.mod_pos_bound q 512).
  assert (Hcur : 0 <= q / 512 < n) by (split; [apply Z.div_pos|]; lia).
  destruct (file_rep_blk s (i_ic i) n L _ Hfile Hcur) as (Hda & _).
  pose proof (wr_file _ _ _ _ _ _ _ _ _ Hw) as [Hok' Hf'].
  wp_steps. apply wp_put_block; [done|by apply (data_addr_valid (k_fs s))|
    apply (wr_block _ _ _ _ _ _ _ _ _ Hw)|].
  intros d2 Hd2. destruct (writing_store _ _ _ L _ _ _ _ _ _ d2 Hw Hs Hfile Hcur Hd2) as [Hf2 Hbytes].
  destruct (file_only_rep s (i_ic i) n L d2 Hs Hfile Hf2) as (Hs2 & Hfile2 & Haddr).
  change (set_k_disk d2 (set_k_disk d' s)) with (set_k_disk d2 s).
  apply (wp_file_block _ i n L); [done|done|lia|done|]. cbn [k_disk set_k_disk].
  assert (Hqn : 0 <= (q + 1) / 512 < n) by (split; [apply Z.div_pos|]; lia).
  rewrite Haddr by done. apply HQ. split; [done| | |].
  - apply dev_blk_block; [by destruct Hf2|]. apply (data_addr_valid (k_fs s)); [done|].
    by apply (file_rep_blk s (i_ic i) n L).
  - intros p Hp Hpn _. by apply Hbytes.
  - intros p Hp Hcp. rewrite <-Hcp. apply Hbytes; [done|lia].
Qed.

Lemma wp_fwrite_loop s i n L head data (Q : Z * option (list Z) -> kernel D -> Prop) :
  let len := Z.of_nat (length data) in
  fs_rep s L -> file_rep s (i_ic i) n L -> 0 <= head -> head + len <= 512 * n ->
  head / 512 < n -> Forall is_byte data ->
  (forall d' b cur, writing s (i_ic i) n head data len cur d' b -> 0 <= cur < n ->
     Q (blk_addr (k_disk s) (i_ic i) cur, Some b) (set_k_disk d' s)) ->
  wp (fwrite_loop i head len data (blk_addr (k_disk s) (i_ic i) (head / 512))
        (Some (dev_blk (k_disk s) (blk_addr (k_disk s) (i_ic i) (head / 512))))) Q s.
Proof.
  intros len Hs Hf Hh Hmax Hhn Hdata HQ. unfold fwrite_loop.
  pose proof (fi_num _ _ _ _ Hf) as Hn. unfold MAXBLKS in Hn.
  apply (wp_for_fold (fun k '(addr, buf) t => exists d' b,
    t = set_k_disk d' s /\ addr = blk_addr (k_disk s) (i_ic i) (pos_at head len k / 512) /\
    buf = Some b /\ writing s (i_ic i) n head data k (pos_at head len k / 512) d' b)).
  - assert (Hp : pos_at head len 0 = head) by (unfold pos_at; lia). rewrite Hp.
    exists (k_disk s), (dev_blk (k_disk s) (blk_addr (k_disk s) (i_ic i) (head / 512))).
    split_and!; [by rewrite set_k_disk_id|done|done|].
    assert (Hw0 : forall q, wbyte (k_disk s) (i_ic i) head data 0 q = fbyte (k_disk s) (i_ic i) q)
      by (intros q; unfold wbyte; by rewrite decide_False by lia).
    split.
    + split; [apply Hs|done].
    + apply dev_blk_block; [apply Hs|]. apply (data_addr_valid (k_fs s)); [apply Hs|].
      apply (file_rep_blk s (i_ic i) n L); [done|]. split; [apply Z.div_pos; lia|done].
    + intros q Hq _ _. by rewrite Hw0.
    + intros q Hq Hc. rewrite Hw0. unfold fbyte. by rewrite Hc.
  - intros k [addr buf] t Hk (d' & b & -> & -> & -> & Hw).
    destruct (pos_step head len k Hh) as (Hp & Hp1 & Hp2); [lia|]. rewrite Hp in *.
    destruct (lookup_lt_ex data (Z.to_nat k)) as [x Hx]; [lia|].
    assert (Hbx : is_byte x) by apply (Forall_lookup_1 _ _ _ _ Hdata Hx).
    pose proof (writing_byte _ _ _ _ _ _ _ _ x Hw Hh ltac:(lia) Hx Hbx) as Hw1.
    wp_steps. change BLOCK_SIZE with 512. rewrite !u32_small by (unfold is_u32; lia).
    eapply wp_lift; [by apply aget_done; [lia|]|]. wp_steps.
    pose proof (Z.mod_pos_bound (head + k) 512). destruct (wr_block _ _ _ _ _ _ _ _ _ Hw) as [Hl _].
    eapply wp_lift; [apply aset_done; lia|].
    destruct (Z.eqb_spec k (len - 1)) as [He|He]; cbn [negb andb].
    + wp_steps. rewrite (Hp2 He). by eexists _, _.
    + rewrite (Hp1 He). destruct (Z.eqb_spec ((head + k + 1) mod 512) 0) as [Hm|Hm].
      * apply wp_unbind_seq. eapply wp_next_block; [exact Hw1|done|done|lia| |done|].
        -- apply Z.div_lt_upper_bound; lia.
        -- intros d2 b2 Hw2. wp_steps.
           rewrite u32_small.
           ++ by eexists _, _.
           ++ destruct (file_rep_blk s (i_ic i) n L ((head + k + 1) / 512) Hf) as (Hda & _).
              { split; [apply Z.div_pos; lia|apply Z.div_lt_upper_bound; lia]. }
              pose proof (data_addr_valid _ _ (fr_geo _ _ Hs) Hda) as Hv.
              unfold valid_addr, is_u32 in *. pose proof dev_num_range. lia.
      * wp_steps. rewrite next_block by lia. by eexists _, _.
  - intros [addr buf] t (d' & b & -> & -> & -> & Hw).
    replace (0 + Z.of_nat (Z.to_nat len)) with len in * by lia. apply HQ; [done|].
    unfold pos_at in *. split; [apply Z.div_pos; lia|].
    destruct (Z.eq_dec len 0); [|apply Z.div_lt_upper_bound; lia].
    by replace (head + Z.max 0 (Z.min len (len - 1))) with head by lia.
Qed.
End Write.

(** ** Open files *)

(** Descriptor [n] of the current process is entry [f] of the open file table, which
    holds [o] and leads to entry [p] of the inode table, which holds [i]. *)
Record opened {D} (s : kernel D) (n f : Z) (o : ofile_t) (p : Z) (i : inode_t) : Prop := {
  op_fd : exists c x, k_current s = Some c /\ 0 <= c /\ k_pcb s !! Z.to_nat c = Some x /\
            0 <= n < FDT_LIMIT /\ fd x !! Z.to_nat n = Some (Some f);
  op_oft : 0 <= f /\ k_oft s !! Z.to_nat f = Some o;
  op_inptr : o_inptr o = Some p;
  op_ai : 0 <= p /\ k_ai s !! Z.to_nat p = Some i;
}.

(** The file behind it: a good file system, a file with as many blocks as its size
    asks for, an inode of the table. *)
Record file_wf {D} `{BlockDevice D} (s : kernel D) (i : inode_t) (L : list Z) : Prop := {
  fw_fs : fs_rep s L;
  fw_file : file_rep s (i_ic i) (nblocks (ic_size (i_ic i))) L;
  fw_ino : is_ino (k_fs s) (i_number i);
}.

Definition put_oft {D} (f : Z) (o : ofile_t) (s : kernel D) : kernel D :=
  set_k_oft (<[Z.to_nat f := o]> (k_oft s)) s.
Definition put_ai {D} (p : Z) (i : inode_t) (s : kernel D) : kernel D :=
  set_k_ai (<[Z.to_nat p := i]> (k_ai s)) s.

Section Calls.
Context {D : Type} `{BlockDeviceLaws D}.
Implicit Types (s t : kernel D) (d : D) (ic : icommon_t) (L : list Z).

(** The file system's predicates only look at the superblock and the disk. *)
Lemma fs_rep_ext s t L : k_fs t = k_fs s -> k_disk t = k_disk s -> fs_rep s L -> fs_rep t L.
Proof. intros Hf Hd []. split; rewrite ?Hf, ?Hd; done. Qed.

Lemma file_rep_ext s t ic n L :
  k_fs t = k_fs s -> k_disk t = k_disk s -> file_rep s ic n L -> file_rep t ic n L.
Proof. intros Hf Hd []. split; rewrite ?Hf, ?Hd; done. Qed.

Lemma opened_ext s t n f o p i :
  k_current t = k_current s -> k_pcb t = k_pcb s -> k_oft t = k_oft s -> k_ai t = k_ai s ->
  opened s n f o p i -> opened t n f o p i.
Proof. intros Hc Hp Ho Ha []. split; rewrite ?Hc, ?Hp, ?Ho, ?Ha; done. Qed.

Lemma opened_put_oft s n f o o' p i :
  opened s n f o p i -> o_inptr o' = Some p -> opened (put_oft f o' s) n f o' p i.
Proof.
  intros [Hfd [Hf Ho] Hin Hai] Ho'. split; [done| |done|done].
  split; [done|]. cbn. apply list_lookup_insert_eq. by eapply lookup_lt_Some.
Qed.

Lemma opened_put_ai s n f o p i i' :
  opened s n f o p i -> opened (put_ai p i' s) n f o p i'.
Proof.
  intros [Hfd [Hf Ho] Hin [Hp Hai]]. split; [done|done|done|].
  split; [done|]. cbn. apply list_lookup_insert_eq. by eapply lookup_lt_Some.
Qed.

Lemma wp_fd_file s n f o p i (Q : option Z -> kernel D -> Prop) :
  opened s n f o p i -> Q (Some f) s -> wp (fd_file n) Q s.
Proof.
  intros [(c & x & Hc & Hc0 & Hx & Hn & Hfd) _ _ _] HQ. unfold fd_file, FDT_LIMIT in *.
  replace ((n <? 0) || (n >=? 16)) with false by lia.
  wp_steps. apply (wp_cur s c x); [done|done|done|].
  eapply wp_lift; [apply aget_done; [lia|done]|done].
Qed.

Lemma wp_open_file s n f o p i {A} (k : Z -> ofile_t -> Z -> inode_t -> M (kernel D) A) e
    (Q : A -> kernel D -> Prop) :
  opened s n f o p i -> wp (k f o p i) Q s ->
  wp (x ← fd_file n;
      match x with
      | None => e
      | Some f => o ← at_ Oft f; p ← deref (o_inptr o); i ← at_ Ai p; k f o p i
      end) Q s.
Proof.
  intros Hop Hk. wp_step. eapply wp_fd_file; [done|].
  destruct Hop as [_ [Hf Ho] Hin [Hp Hai]].
  wp_steps. apply (wp_at Oft f o); [done|done|]. rewrite Hin. wp_steps.
  by apply (wp_at Ai p i).
Qed.

Lemma file_size_range s i L :
  file_wf s i L -> 0 <= ic_size (i_ic i) < 2 ^ 17.
Proof.
  intros [_ [Hwf Hn _ _] _]. unfold nblocks, MAXBLKS in Hn.
  destruct Hwf as (_ & Hsz & _). unfold is_u32 in Hsz.
  pose proof (Z.div_mod (ic_size (i_ic i)) 512). pose proof (Z.mod_pos_bound (ic_size (i_ic i)) 512).
  lia.
Qed.

Lemma wp_fread s n f o p i L len (Q : Z * list Z -> kernel D -> Prop) :
  opened s n f o p i -> file_wf s i L -> 0 <= o_head o -> 0 <= len ->
  o_head o + len <= ic_size (i_ic i) ->
  Q (0, fbytes (k_disk s) (i_ic i) (o_head o) len) (put_oft f (set_head (o_head o + len) o) s) ->
  wp (fread n len) Q s.
Proof.
  intros Hop Hw Hh Hlen Hmax HQ. pose proof (file_size_range s i L Hw) as Hsz.
  destruct Hw as [Hs Hfile Hino]. unfold fread. apply (wp_open_file s n f o p i); [done|].
  rewrite u32_small by (unfold is_u32; lia).
  rewrite Z.gtb_ltb. destruct (Z.ltb_spec (ic_size (i_ic i)) (o_head o + len)); [lia|].
  unfold nblocks in Hfile.
  pose proof (Z.div_mod (ic_size (i_ic i)) 512). pose proof (Z.mod_pos_bound (ic_size (i_ic i)) 512).
  wp_step. eapply (wp_file_block s i _ L); [done|exact Hfile|done| |].
  { pose proof (Z.div_le_mono (o_head o) (ic_size (i_ic i)) 512). lia. }
  wp_steps. eapply (wp_fread_loop s i _ L); [done|exact Hfile|done|done|lia|].
  intros buf. wp_steps. eapply (wp_upd Oft f o); [apply Hop|apply Hop|].
  wp_steps. rewrite u32_small by (unfold is_u32; lia). exact HQ.
Qed.

Lemma fread_short s n f o p i L len :
  opened s n f o p i -> file_wf s i L -> 0 <= o_head o -> 0 <= len < 2 ^ 31 ->
  is_u32 (o_head o + len) ->
  ic_size (i_ic i) < o_head o + len -> fread n len s = Done ((-1, []), s).
Proof.
  intros Hop Hw Hh Hlen Hu Hmax. apply wp_run. unfold fread.
  apply (wp_open_file s n f o p i); [done|]. rewrite u32_small by done.
  rewrite Z.gtb_ltb. destruct (Z.ltb_spec (ic_size (i_ic i)) (o_head o + len)); [|lia].
  by wp_steps.
Qed.

(** The part of [fwrite] behind the allocation, on a file with [n] blocks. *)
Lemma wp_fwrite_tail s f o p i n L data (Q : Z -> kernel D -> Prop) :
  let len := Z.of_nat (length data) in
  fs_rep s L -> file_rep s (i_ic i) n L -> k_ai s !! Z.to_nat p = Some i -> 0 <= p ->
  0 <= f -> k_oft s !! Z.to_nat f = Some o ->
  0 <= o_head o -> o_head o + len <= 512 * n -> o_head o / 512 < n -> Forall is_byte data ->
  (forall d2, file_only (i_ic i) n (k_disk s) d2 ->
     (forall q, 0 <= q -> q / 512 < n ->
        fbyte d2 (i_ic i) q = wbyte (k_disk s) (i_ic i) (o_head o) data len q) ->
     Q 0 (put_oft f (set_head (o_head o + len) o) (set_k_disk d2 s))) ->
  wp (i ← at_ Ai p;
      '(addr, buf) ← getDataBlock None i (o_head o);
      '(addr, buf) ← fwrite_loop i (o_head o) len data (u32 addr) buf;
      b ← deref buf;
      disk_wr addr b ;;
      upd Oft f (fun o => set_head (u32 (o_head o + len)) o) ;;
      mret 0) Q s.
Proof.
  intros len Hs Hfile Hai Hp Hf Ho Hh Hmax Hhn Hdata HQ.
  pose proof (fi_num _ _ _ _ Hfile) as Hn. unfold MAXBLKS in Hn.
  assert (Hvalid : forall k, 0 <= k < n -> valid_addr D (blk_addr (k_disk s) (i_ic i) k)).
  { intros k Hk. apply (data_addr_valid (k_fs s)); [apply Hs|]. by apply (file_rep_blk s (i_ic i) n L). }
  assert (Hh0 : 0 <= o_head o / 512 < n) by (split; [apply Z.div_pos; lia|done]).
  wp_steps. apply (wp_at Ai p i); [done|done|]. wp_steps.
  apply (wp_file_block s i n L); [done|done|done|done|]. wp_steps.
  rewrite u32_small.
  2: { specialize (Hvalid _ Hh0). unfold valid_addr, is_u32 in *. pose proof dev_num_range. lia. }
  apply (wp_fwrite_loop s i n L); [done..|].
  intros d' b cur Hw Hcur. wp_steps.
  pose proof (wr_file _ _ _ _ _ _ _ _ _ Hw) as [Hok' Hf'].
  apply wp_put_block; [done|by apply Hvalid|apply (wr_block _ _ _ _ _ _ _ _ _ Hw)|].
  intros d2 Hd2. destruct (writing_store _ _ _ L _ _ _ _ _ _ d2 Hw Hs Hfile Hcur Hd2) as [Hf2 Hbytes].
  destruct (file_only_rep s (i_ic i) n L d2 Hs Hfile Hf2) as (_ & _ & Haddr).
  wp_steps. eapply (wp_upd Oft f o); [done|done|]. wp_steps.
  rewrite u32_small by (unfold is_u32; lia). apply HQ; [done|].
  intros q Hq Hqn. unfold fbyte. rewrite Haddr by (split; [apply Z.div_pos; lia|done]).
  by apply Hbytes.
Qed.

(** Growing keeps the bytes. *)
Lemma extended_data s i n L t i' n' L' k :
  extended s i n L t i' n' L' -> fs_rep s L -> file_rep s (i_ic i) n L ->
  is_ino (k_fs s) (i_number i) -> 0 <= k < n ->
  dev_blk (k_disk t) (blk_addr (k_disk t) (i_ic i') k) =
  dev_blk (k_disk s) (blk_addr (k_disk s) (i_ic i) k).
Proof.
  intros He Hs Hfile Hino Hk. pose proof (fr_geo _ _ Hs) as Hg.
  rewrite (ex_old _ _ _ _ _ _ _ _ He) by done.
  destruct (file_rep_blk s (i_ic i) n L k Hfile Hk) as (Hd & HL & Ht).
  pose proof (geometry_data _ _ Hg Hd). pose proof (inode_blk_range _ _ Hg Hino).
  apply (ex_frame _ _ _ _ _ _ _ _ He); [by apply (data_addr_valid (k_fs s))|].
  intros [E|[E|[E|[E1 E2]]]]; [lia| |done|by apply Ht].
  unfold data_addr in Hd. lia.
Qed.
End Calls.

(** ** What [fwrite] leaves *)

(** The state after [data] was written at the position of an open file: the bytes of
    the file, its size and position, and what else did not change. *)
Record wrote {D} `{BlockDevice D} (s : kernel D) (n f : Z) (o : ofile_t) (p : Z)
    (i : inode_t) (L : list Z) (data : list Z) (t : kernel D) (i' : inode_t)
    (L' : list Z) : Prop := {
  wt_open : opened t n f (set_head (o_head o + Z.of_nat (length data)) o) p i';
  wt_file : file_wf t i' L';
  wt_size : ic_size (i_ic i') =
            Z.max (ic_size (i_ic i)) (o_head o + Z.of_nat (length data));
  wt_same : i_number i' = i_number i /\ i_links i' = i_links i /\
            ic_mode (i_ic i') = ic_mode (i_ic i);
  wt_data : fbytes (k_disk t) (i_ic i') (o_head o) (Z.of_nat (length data)) = data;
  wt_rest q : 0 <= q < ic_size (i_ic i) ->
    ~ (o_head o <= q < o_head o + Z.of_nat (length data)) ->
    fbyte (k_disk t) (i_ic i') q = fbyte (k_disk s) (i_ic i) q;
  wt_inodes m : is_ino (k_fs s) m -> m <> i_number i ->
    inode_at (k_fs t) (k_disk t) m = inode_at (k_fs s) (k_disk s) m;
  wt_frame : disk_frame (fun b =>
    b ∈ owned (k_disk s) (i_ic i) (nblocks (ic_size (i_ic i))) \/ b ∈ L) s t;
  wt_owned b : b ∈ owned (k_disk t) (i_ic i') (nblocks (ic_size (i_ic i'))) ->
    b ∈ owned (k_disk s) (i_ic i) (nblocks (ic_size (i_ic i))) \/ b ∈ L;
  wt_mode : mode_kept i s t;
  wt_kernel : exists fs d, t = put_oft f (set_head (o_head o + Z.of_nat (length data)) o)
                (set_k_disk d (set_k_fs fs (put_ai p i' s)));
}.

(** The file made large enough for the bytes to come. *)
Record prepared {D} `{BlockDevice D} (s : kernel D) (p : Z) (i : inode_t) (L : list Z)
    (size : Z) (t : kernel D) (i' : inode_t) (L' : list Z) : Prop := {
  pr_file : file_wf t i' L';
  pr_size : ic_size (i_ic i') = size;
  pr_same : i_number i' = i_number i /\ i_links i' = i_links i /\
            ic_mode (i_ic i') = ic_mode (i_ic i);
  pr_data q : 0 <= q < ic_size (i_ic i) ->
    fbyte (k_disk t) (i_ic i') q = fbyte (k_disk s) (i_ic i) q;
  pr_inodes m : is_ino (k_fs s) m -> m <> i_number i ->
    inode_at (k_fs t) (k_disk t) m = inode_at (k_fs s) (k_disk s) m;
  pr_frame : disk_frame (fun b =>
    b ∈ owned (k_disk s) (i_ic i) (nblocks (ic_size (i_ic i))) \/ b ∈ L) s t;
  pr_owned b : b ∈ owned (k_disk t) (i_ic i') (nblocks size) ->
    b ∈ owned (k_disk s) (i_ic i) (nblocks (ic_size (i_ic i))) \/ b ∈ L;
  pr_mode : mode_kept i s t;
  pr_kernel : exists fs d, t = set_k_disk d (set_k_fs fs (put_ai p i' s));
}.

Section Write2.
Context {D : Type} `{BlockDeviceLaws D}.
Implicit Types (s t : kernel D) (d : D) (ic : icommon_t) (L : list Z).

Lemma put_ai_same p i s : k_ai s !! Z.to_nat p = Some i -> put_ai p i s = s.
Proof. intros Hi. unfold put_ai. rewrite list_insert_id by done. by destruct s. Qed.

Lemma prepared_refl s p i L :
  file_wf s i L -> k_ai s !! Z.to_nat p = Some i ->
  prepared s p i L (ic_size (i_ic i)) s i L.
Proof.
  intros Hw Hi. split; try done.
  - by left.
  - by left.
  - exists (k_fs s), (k_disk s). by rewrite put_ai_same, set_fs_disk_id.
Qed.

Lemma prepared_grow s p i L size t i' :
  let n := nblocks (ic_size (i_ic i)) in
  let n' := nblocks size in
  let L' := drop (grow_cost n n') L in
  file_wf s i L -> ic_size (i_ic i) <= size ->
  extended s i n L t i' n' L' ->
  prepared s p i L size (put_ai p (set_size size i') t) (set_size size i') L'.
Proof.
  intros n n' L' [Hs Hfile Hino] Hle He.
  pose proof (ex_frame _ _ _ _ _ _ _ _ He) as Hfr.
  pose proof (ex_same _ _ _ _ _ _ _ _ He) as (E1 & E2 & E3 & E4).
  pose proof (ex_file _ _ _ _ _ _ _ _ He) as Hfile'.
  assert (Hsz : is_u32 size).
  { pose proof (fi_num _ _ _ _ Hfile') as Hn'. unfold n', nblocks, MAXBLKS in Hn'.
    destruct (fi_wf _ _ _ _ Hfile) as (_ & Hz & _). unfold is_u32 in *.
    pose proof (Z.div_mod size 512). pose proof (Z.mod_pos_bound size 512). lia. }
  destruct Hfr as [(fs & d & Ht) Hgeo Hblk].
  split; try done.
  - split; [by apply (fs_rep_ext t); [..|apply (ex_fs _ _ _ _ _ _ _ _ He)]| |].
    + apply (file_rep_ext t); [done|done|]. destruct Hfile' as [Hwf Hn' Hnd Hd].
      split; [|done|exact Hnd|exact Hd]. cbn in *. tauto.
    + cbn [set_size i_number]. rewrite E1. destruct Hino as [H1 H2]. split; [done|].
      cbn [put_ai k_fs set_k_ai]. by rewrite (proj1 (proj2 Hgeo)).
  - intros q Hq. unfold fbyte. f_equal.
    apply (extended_data s i n L t i' n' L'); [done..|].
    unfold n, nblocks. pose proof (Z.div_le_mono q (ic_size (i_ic i)) 512).
    split; [apply Z.div_pos; lia|lia].
  - apply (ex_inode _ _ _ _ _ _ _ _ He).
  - apply (disk_frame_ext _ s t); [done|done|].
    by apply (extended_disk s i n L t i' n' L' He (fr_geo _ _ Hs)).
  - intros b Hb. by apply (extended_owned s i n L t i' n' L' b He).
  - apply (ex_mode _ _ _ _ _ _ _ _ He).
  - exists fs, d. by rewrite Ht.
Qed.

(** The end of [fwrite], from the prepared file. *)
Lemma wrote_end s n f o p i L data u i1 L1 d2 :
  let len := Z.of_nat (length data) in
  opened s n f o p i -> file_wf s i L -> 0 <= o_head o ->
  prepared s p i L (Z.max (ic_size (i_ic i)) (o_head o + len)) u i1 L1 ->
  file_only (i_ic i1) (nblocks (ic_size (i_ic i1))) (k_disk u) d2 ->
  (forall q, 0 <= q -> q / 512 < nblocks (ic_size (i_ic i1)) ->
     fbyte d2 (i_ic i1) q = wbyte (k_disk u) (i_ic i1) (o_head o) data len q) ->
  wrote s n f o p i L data (put_oft f (set_head (o_head o + len) o) (set_k_disk d2 u)) i1 L1.
Proof.
  intros len Hop Hw Hh Hpr Hf2 Hbytes.
  destruct Hpr as [[Hsu Hfu Hiu] Psz Psame Pdata Pino Pframe Pown Pmode (fs & d & Hu)].
  pose proof (df_geo _ _ _ Pframe) as Pgeo.
  pose proof (fr_geo _ _ (fw_fs _ _ _ Hw)) as Hg. pose proof (fr_geo _ _ Hsu) as Hgu.
  destruct (file_only_rep u _ _ L1 d2 Hsu Hfu Hf2) as (Hs2 & Hfile2 & Haddr).
  destruct Hf2 as [Hok2 Hblk2].
  assert (Hnb : forall q, 0 <= q < ic_size (i_ic i1) -> q / 512 < nblocks (ic_size (i_ic i1))).
  { intros q Hq. unfold nblocks. pose proof (Z.div_le_mono q (ic_size (i_ic i1)) 512). lia. }
  assert (Hsame : forall m, is_ino (k_fs s) m -> inode_at (k_fs u) d2 m = inode_at (k_fs u) (k_disk u) m).
  { intros m Hm.
    assert (Hmu : is_ino (k_fs u) m) by (destruct Hm; split; [done|by rewrite (proj1 (proj2 Pgeo))]).
    apply inode_at_ext; [done|]. apply Hblk2; [by apply inode_blk_valid|].
    intros (k & Hk & E)%elem_of_file_blocks. pose proof (inode_blk_range _ _ Hgu Hmu).
    destruct (file_rep_blk u (i_ic i1) _ L1 k Hfu Hk) as (Hd & _). unfold data_addr in Hd. lia. }
  split; try done.
  - apply opened_put_oft with o; [|apply Hop].
    apply (opened_ext (put_ai p i1 s)); [by rewrite Hu..|]. by eapply opened_put_ai.
  - by split; [apply (fs_rep_ext (set_k_disk d2 u))|apply (file_rep_ext (set_k_disk d2 u))|].
  - cbn [k_disk put_oft set_k_oft set_k_disk]. apply list_eq. intros j. unfold fbytes.
    rewrite list_lookup_fmap. destruct (decide (j < length data)%nat) as [Hj|Hj].
    + rewrite lookup_seqZ_lt by (unfold len; lia). cbn.
      destruct (lookup_lt_ex data j Hj) as [x Hx]. rewrite Hx. f_equal.
      rewrite Hbytes by (try lia; apply Hnb; lia). unfold wbyte. rewrite decide_True by lia.
      replace (Z.to_nat (o_head o + Z.of_nat j - o_head o)) with j by lia.
      by apply nth_lookup_Some.
    + rewrite lookup_seqZ_ge by (unfold len; lia). by rewrite lookup_ge_None_2 by lia.
  - intros q Hq Hne. cbn [k_disk put_oft set_k_oft set_k_disk].
    rewrite Hbytes by (try lia; apply Hnb; lia). unfold wbyte. rewrite decide_False by (unfold len; lia).
    by apply Pdata.
  - intros m Hm Hne. rewrite <-Pino by done. by apply Hsame.
  - split; [done|]. intros b Hb Hown. cbn [k_disk put_oft set_k_oft set_k_disk]. rewrite Hblk2.
    + by apply Pframe.
    + by apply (data_addr_valid (k_fs s)).
    + intros Hin. apply Hown, Pown, elem_of_app. left. by rewrite <-Psz.
  - intros b Hb. apply Pown. revert Hb. cbn [k_disk put_oft set_k_oft set_k_disk].
    unfold owned. rewrite Psz, (file_blocks_ext (k_disk u) d2 (i_ic i1) (i_ic i1)); [done|].
    rewrite <-Psz. exact Haddr.
  - unfold mode_kept in *. cbn [k_disk k_fs put_oft set_k_oft set_k_disk]. rewrite Hsame; [done|apply Hw].
  - exists fs, d2. by rewrite Hu.
Qed.

(** The free blocks a write to position [head + len] takes. *)
Definition write_cost (size last : Z) : nat :=
  grow_cost (nblocks size) (nblocks (Z.max size last)).

Lemma grow_cost_same n : grow_cost n n = 0%nat.
Proof. unfold grow_cost, table_cost. destruct ((n <=? 11) && (11 <? n)) eqn:E; lia. Qed.

Lemma wp_fwrite s n f o p i L data (Q : Z -> kernel D -> Prop) :
  let len := Z.of_nat (length data) in
  let last := o_head o + len in
  opened s n f o p i -> file_wf s i L -> 0 <= o_head o -> Forall is_byte data ->
  nblocks (Z.max (ic_size (i_ic i)) last) <= MAXBLKS ->
  (write_cost (ic_size (i_ic i)) last <= length L)%nat ->
  (forall t i', wrote s n f o p i L data t i' (drop (write_cost (ic_size (i_ic i)) last) L) ->
     Q 0 t) ->
  wp (fwrite n data len) Q s.
Proof.
  intros len last Hop Hw Hh Hdata Hmax Hcost HQ.
  pose proof (file_size_range s i L Hw) as Hsz.
  assert (Hlast : last < 2 ^ 17).
  { unfold nblocks, MAXBLKS in Hmax. pose proof (Z.div_mod (Z.max (ic_size (i_ic i)) last) 512).
    pose proof (Z.mod_pos_bound (Z.max (ic_size (i_ic i)) last) 512). lia. }
  unfold fwrite. apply (wp_open_file s n f o p i); [done|]. fold last.
  rewrite (u32_small last) by (unfold is_u32; lia). rewrite Z.gtb_ltb.
  set (L1 := drop (write_cost (ic_size (i_ic i)) last) L) in *.
  enough (Hprep : wp (when (ic_size (i_ic i) <? last)
            ('(_, i') ← allocateDataBlocks i (u32 (last - ic_size (i_ic i)));
             upd Ai p (fun _ => i')))
       (fun _ u => exists i1, prepared s p i L (Z.max (ic_size (i_ic i)) last) u i1 L1) s).
  { wp_step. eapply wp_mono; [exact Hprep|]. cbv beta. intros [] u (i1 & Hpr).
    pose proof (pr_file _ _ _ _ _ _ _ _ Hpr) as [Hsu Hfu Hiu].
    pose proof (pr_size _ _ _ _ _ _ _ _ Hpr) as Hsz1.
    destruct (pr_kernel _ _ _ _ _ _ _ _ Hpr) as (fs & d & Hu).
    pose proof (Z.div_mod (ic_size (i_ic i1)) 512).
    pose proof (Z.mod_pos_bound (ic_size (i_ic i1)) 512).
    apply (wp_fwrite_tail u f o p i1 (nblocks (ic_size (i_ic i1))) L1); try done.
    - rewrite Hu. apply list_lookup_insert_eq. destruct Hop as [_ _ _ [_ Hai]].
      by eapply lookup_lt_Some.
    - apply Hop.
    - apply Hop.
    - rewrite Hu. apply Hop.
    - fold len last. unfold nblocks. lia.
    - unfold nblocks. pose proof (Z.div_le_mono (o_head o) (ic_size (i_ic i1)) 512). lia.
    - intros d2 Hf2 Hbytes. eapply HQ. by apply (wrote_end s n f o p i L data u i1 L1 d2). }
  apply wp_when; intros Hlt.
  - assert (Hlt' : ic_size (i_ic i) < last) by lia. unfold L1, write_cost.
    rewrite u32_small by (unfold is_u32; lia). rewrite Z.max_r in * by lia. wp_step.
    apply (wp_allocateDataBlocks s i (last - ic_size (i_ic i)) L);
      replace (ic_size (i_ic i) + (last - ic_size (i_ic i))) with last by lia;
      try apply Hw; try lia.
    { unfold write_cost in Hcost. by rewrite Z.max_r in Hcost by lia. }
    intros t i' He. wp_steps. destruct (ex_frame _ _ _ _ _ _ _ _ He) as [(fs & d & Ht) _ _].
    eapply (wp_upd Ai p i); [apply Hop|by rewrite Ht; apply Hop|].
    exists (set_size last i'). apply (prepared_grow s p i L last t i'); [done|lia|done].
  - exists i. unfold L1, write_cost. rewrite Z.max_l by lia. rewrite grow_cost_same.
    apply prepared_refl; [done|apply Hop].
Qed.
End Write2.

(** ** Seeking *)

Definition seek_to (head size offset : Z) (w : whence_t) : Z :=
  match w with
  | SEEK_SET => u32 offset
  | SEEK_CUR => u32 (head + offset)
  | SEEK_END => u32 (size + offset)
  end.

Lemma wp_lseek {D} (s : kernel D) n f o p i offset whence w (Q : Z -> kernel D -> Prop) :
  opened s n f o p i -> whence_of whence = Some w ->
  Q (s32 (seek_to (o_head o) (ic_size (i_ic i)) offset w))
    (put_oft f (set_head (seek_to (o_head o) (ic_size (i_ic i)) offset w) o) s) ->
  wp (lseek n offset whence) Q s.
Proof.
  intros Hop Hw HQ. unfold lseek. wp_step. eapply wp_fd_file; [done|]. rewrite Hw. wp_step.
  pose proof (op_oft _ _ _ _ _ _ Hop) as [Hf Ho].
  assert (Hf' : forall h, k_oft (put_oft f (set_head h o) s) !! Z.to_nat f = Some (set_head h o)).
  { intros h. apply list_lookup_insert_eq. by eapply lookup_lt_Some. }
  destruct w.
  - eapply (wp_upd Oft f o); [done|done|]. wp_steps. by eapply (wp_at Oft f); [done|apply Hf'|].
  - eapply (wp_upd Oft f o); [done|done|]. wp_steps. by eapply (wp_at Oft f); [done|apply Hf'|].
  - wp_steps. apply (wp_at Oft f o); [done|done|]. rewrite (op_inptr _ _ _ _ _ _ Hop). wp_steps.
    apply (wp_at Ai p i); [apply Hop|apply Hop|]. wp_steps.
    eapply (wp_upd Oft f o); [done|done|]. wp_steps. by eapply (wp_at Oft f); [done|apply Hf'|].
Qed.

(** * The properties of file access *)

Section Claims.
Context {D : Type} `{BlockDeviceLaws D}.
Implicit Types (s t : kernel D) (L : list Z).

(** C3: [fwrite] on a file of at most 139 blocks, with enough free blocks.  It returns
    0; the bytes at the old position are the data; every other byte the file had is
    unchanged; the file's size is the larger of the old size and the end of the
    write, which may lie in blocks just allocated; the position has advanced; the file
    and the free list are well-formed again, with exactly the blocks taken off the
    list that the growth needs; no other inode, no block of another file, and nothing
    else of the kernel has changed. *)
Theorem fwrite_correct s n f o p i L data :
  opened s n f o p i -> file_wf s i L -> 0 <= o_head o -> Forall is_byte data ->
  nblocks (Z.max (ic_size (i_ic i)) (o_head o + Z.of_nat (length data))) <= MAXBLKS ->
  (write_cost (ic_size (i_ic i)) (o_head o + Z.of_nat (length data)) <= length L)%nat ->
  exists t i', fwrite n data (Z.of_nat (length data)) s = Done (0, t) /\
    wrote s n f o p i L data t i'
      (drop (write_cost (ic_size (i_ic i)) (o_head o + Z.of_nat (length data))) L).
Proof.
  intros Hop Hw Hh Hdata Hmax Hcost.
  assert (Hwp : wp (fwrite n data (Z.of_nat (length data))) (fun r t => r = 0 /\ exists i',
    wrote s n f o p i L data t i'
      (drop (write_cost (ic_size (i_ic i)) (o_head o + Z.of_nat (length data))) L)) s).
  { apply (wp_fwrite s n f o p i L); [done..|]. intros t i' Hwr. eauto. }
  apply wp_value in Hwp as (t & Hr & i' & Hwr). eauto.
Qed.

(** C32: [fread].  When the file has [len] bytes at the position they are returned, the
    position advances and the disk is unchanged; when it has not, the result is -1
    and nothing changes. *)
Theorem fread_correct s n f o p i L len :
  opened s n f o p i -> file_wf s i L -> 0 <= o_head o -> 0 <= len < 2 ^ 31 ->
  o_head o + len < 2 ^ 32 ->
  fread n len s =
    if o_head o + len <=? ic_size (i_ic i)
    then Done ((0, fbytes (k_disk s) (i_ic i) (o_head o) len),
               put_oft f (set_head (o_head o + len) o) s)
    else Done ((-1, []), s).
Proof.
  intros Hop Hw Hh Hlen Hu. destruct (Z.leb_spec (o_head o + len) (ic_size (i_ic i))).
  - apply wp_run. by apply (wp_fread s n f o p i L); [..|lia| |].
  - by apply (fread_short s n f o p i L); [..|unfold is_u32; lia|].
Qed.

(** C2: what is written is read back.  Writing [data] at the position of an open file,
    seeking back and reading as many bytes returns [data], for a file that stays within 139
    blocks and when the free list has the blocks the write takes. *)
Theorem write_read_roundtrip s n f o p i L data :
  opened s n f o p i -> file_wf s i L -> 0 <= o_head o -> Forall is_byte data ->
  nblocks (Z.max (ic_size (i_ic i)) (o_head o + Z.of_nat (length data))) <= MAXBLKS ->
  (write_cost (ic_size (i_ic i)) (o_head o + Z.of_nat (length data)) <= length L)%nat ->
  value (_ ← fwrite n data (Z.of_nat (length data));
         _ ← lseek n (o_head o) 0;
         fread n (Z.of_nat (length data))) s = Some (0, data).
Proof.
  intros Hop Hw Hh Hdata Hmax Hcost.
  pose proof (file_size_range s i L Hw) as Hsz.
  apply wp_value_of. wp_step. apply (wp_fwrite s n f o p i L); [done..|].
  intros t i' Hwr. wp_step.
  pose proof (file_size_range t i' _ (wt_file _ _ _ _ _ _ _ _ _ _ _ Hwr)) as Hsz'.
  pose proof (wt_size _ _ _ _ _ _ _ _ _ _ _ Hwr) as Hmx.
  eapply wp_lseek; [exact (wt_open _ _ _ _ _ _ _ _ _ _ _ Hwr)|done|].
  cbn [seek_to]. rewrite u32_small by (unfold is_u32; lia).
  eapply (wp_fread _ n f (set_head (o_head o) o) p i').
  - eapply opened_put_oft; [exact (wt_open _ _ _ _ _ _ _ _ _ _ _ Hwr)|apply Hop].
  - destruct (wt_file _ _ _ _ _ _ _ _ _ _ _ Hwr) as [F1 F2 F3].
    split; [by apply (fs_rep_ext t)|by apply (file_rep_ext t)|done].
  - done.
  - lia.
  - cbn [o_head set_head]. lia.
  - cbn [o_head set_head k_disk put_oft set_k_oft].
    by rewrite (wt_data _ _ _ _ _ _ _ _ _ _ _ Hwr).
Qed.

(** [lseek] and [tell] on an open file.  Each of the three ways of seeking moves
    the position, modulo 2^32, relative to the start, the position or the end, and
    returns it; any other [whence] fails and moves nothing; [tell] returns the
    position and changes nothing. *)
Theorem lseek_correct s n f o p i offset whence :
  opened s n f o p i ->
  lseek n offset whence s =
    match whence_of whence with
    | Some w => Done (s32 (seek_to (o_head o) (ic_size (i_ic i)) offset w),
                      put_oft f (set_head (seek_to (o_head o) (ic_size (i_ic i)) offset w) o) s)
    | None => Done (-1, s)
    end /\
  tell n s = Done (s32 (o_head o), s).
Proof.
  intros Hop. split.
  - destruct (whence_of whence) as [w|] eqn:Hwh; apply wp_run.
    + by apply (wp_lseek s n f o p i offset whence w).
    + unfold lseek. wp_step. eapply wp_fd_file; [done|]. rewrite Hwh. by wp_steps.
  - apply wp_run. unfold tell. wp_step. eapply wp_fd_file; [done|].
    wp_steps. eapply (wp_at Oft f o); [apply Hop|apply Hop|]. by wp_steps.
Qed.
End Claims.

(** ** Witnesses: the file of the demo disk, open at position 508 of 510 *)

Definition demo_proc (l : list (option Z)) : pcb_t := mk_pcb 0 0 zero_ctx EXECUTING 1 1 l.

Definition demo_open : kernel MemDisk :=
  put_ai 0 demo_inode (put_oft 0 (mk_ofile (Some 0) 508)
    (set_k_current (Some 0)
      (set_k_pcb (demo_proc (Some 0 :: replicate 15 None) :: replicate 7 zero_pcb) demo_state))).

Lemma demo_opened : opened demo_open 0 0 (mk_ofile (Some 0) 508) 0 demo_inode.
Proof.
  split; [|by split|done|by split].
  exists 0. eexists. split_and!; try done.
Qed.

Lemma demo_file_wf : file_wf demo_open demo_inode [21; 20].
Proof.
  split.
  - by apply (fs_rep_ext demo_state); [..|apply demo_rep].
  - by apply (file_rep_ext demo_state); [..|apply demo_file; vm_compute].
  - apply demo_ino.
Qed.

Lemma fwrite_correct_witness :
  exists t i', fwrite 0 [1; 2; 3; 4; 5; 6] 6 demo_open = Done (0, t) /\
    ic_size (i_ic i') = 514 /\ fs_rep t [20].
Proof.
  destruct (fwrite_correct demo_open 0 0 (mk_ofile (Some 0) 508) 0 demo_inode [21; 20]
    [1; 2; 3; 4; 5; 6] demo_opened demo_file_wf) as (t & i' & Hr & Hw).
  - done.
  - by apply (bool_decide_unpack _).
  - by vm_compute.
  - by vm_compute; lia.
  - exists t, i'. split_and!; [exact Hr|by rewrite (wt_size _ _ _ _ _ _ _ _ _ _ _ Hw)|].
    apply (wt_file _ _ _ _ _ _ _ _ _ _ _ Hw).
Defined.

Lemma fread_correct_witness :
  fread 0 2 demo_open = Done ((0, [7; 7]), put_oft 0 (mk_ofile (Some 0) 510) demo_open) /\
  fread 0 3 demo_open = Done ((-1, []), demo_open).
Proof.
  split.
  - rewrite (fread_correct demo_open 0 0 (mk_ofile (Some 0) 508) 0 demo_inode [21; 20] 2
      demo_opened demo_file_wf) by (cbn; lia). vm_compute. reflexivity.
  - by rewrite (fread_correct demo_open 0 0 (mk_ofile (Some 0) 508) 0 demo_inode [21; 20] 3
      demo_opened demo_file_wf) by (cbn; lia).
Defined.

Lemma write_read_roundtrip_witness :
  value (_ ← fwrite 0 [1; 2; 3; 4; 5; 6] 6; _ ← lseek 0 508 0; fread 0 6) demo_open
    = Some (0, [1; 2; 3; 4; 5; 6]).
Proof.
  apply (write_read_roundtrip demo_open 0 0 (mk_ofile (Some 0) 508) 0 demo_inode [21; 20]
    [1; 2; 3; 4; 5; 6] demo_opened demo_file_wf).
  - done.
  - by apply (bool_decide_unpack _).
  - by vm_compute.
  - by vm_compute; lia.
Defined.

Lemma lseek_correct_witness :
  lseek 0 4 2 demo_open = Done (514, put_oft 0 (mk_ofile (Some 0) 514) demo_open) /\
  tell 0 demo_open = Done (508, demo_open).
Proof.
  apply (lseek_correct demo_open 0 0 (mk_ofile (Some 0) 508) 0 demo_inode 4 2 demo_opened).
Defined.
