(* ===== verification/DirProof.v ===== *)
(** * Directories: lookup and insertion

    A directory is the list of its entries; what [name_to_ino] finds in it and what
    [addInodeToDirectory] makes of it. *)

From S2P Require Import Prelude CMonad Layout BlockDev Kernel FsOps FreeList InodeProof BlockMap FileRep FileGrow Dir FileIO.

(** ** Names *)

(** A name: at most 25 bytes, none of them the terminator.  In memory it is followed by
    the terminator. *)
Definition is_name (w : list Z) : Prop :=
  Forall is_byte w /\ Forall (fun c => c <> 0) w /\ (length w <= MAXNAMLEN)%nat.

Definition c_str (w : list Z) : list Z := w ++ [0].

(** The name at the start of a buffer. *)
Definition c_buf (w tl : list Z) : list Z := w ++ 0 :: tl.

(** When the comparison of [name_to_ino] and [remove] takes an entry for [w]: the
    stored bytes start with [w], and end there if the stored length says there is
    more to compare. *)
Definition matches (w : list Z) (d : dir_t) : bool :=
  bool_decide (take (length w) (d_name d) = w) &&
  ((d_namlen d <=? Z.of_nat (length w)) || (nth (length w) (d_name d) 1 =? 0)).

(** An entry for [w] with nothing left behind it. *)
Definition clean (w : list Z) (d : dir_t) : Prop :=
  d_namlen d = Z.of_nat (length w) /\ d_name d = w ++ replicate (26 - length w) 0.

Section Names.
Implicit Types (w : list Z) (d : dir_t).

Lemma strlen_c_buf w tl : Forall (fun c => c <> 0) w -> strlen (c_buf w tl) = Done (Z.of_nat (length w)).
Proof.
  induction 1 as [|c w Hc _ IH]; [done|]. unfold c_buf in *. cbn [app strlen].
  destruct (Z.eqb_spec c 0); [done|]. rewrite IH. unfold mbind, outcome_bind. cbn [length].
  f_equal. lia.
Qed.

Lemma strlen_c_str w : Forall (fun c => c <> 0) w -> strlen (c_str w) = Done (Z.of_nat (length w)).
Proof. apply (strlen_c_buf w []). Qed.

Lemma strncmp_spec w nm n :
  Forall (fun c => c <> 0) w -> (length w <= n)%nat -> (length w < length nm)%nat ->
  strncmp_eq (c_str w) nm n =
    Done (bool_decide (take (length w) nm = w) &&
          ((n =? length w)%nat || (nth (length w) nm 1 =? 0))).
Proof.
  intros Hw. revert nm n. induction Hw as [|c w Hc Hw IH]; intros nm n Hn Hl; cbn [length] in *.
  - rewrite bool_decide_eq_true_2 by done. cbn [andb]. destruct n as [|n]; [done|].
    destruct nm as [|x nm]; [cbn in Hl; lia|]. cbn [strncmp_eq c_str app nth length Nat.eqb orb].
    rewrite (Z.eqb_sym x 0). destruct (Z.eqb_spec 0 x); done.
  - destruct n as [|n]; [lia|]. destruct nm as [|x nm]; [cbn in Hl; lia|].
    change (c_str (c :: w)) with (c :: c_str w). cbn [strncmp_eq]. cbn [length] in Hl.
    destruct (Z.eqb_spec c x) as [->|Hne].
    + destruct (Z.eqb_spec x 0); [done|]. rewrite IH by lia. cbn [take nth Nat.eqb].
      f_equal. f_equal. apply bool_decide_ext. split; [intros E; by rewrite E|by intros [= E]].
    + rewrite bool_decide_eq_false_2; [done|]. by intros [= ->].
Qed.

Lemma entry_is_spec w d : is_name w -> lwf d -> entry_is (c_str w) d = Done (matches w d).
Proof.
  intros (_ & Hw & Hl) (_ & Hn & Hnm & _). unfold entry_is. rewrite strlen_c_str by done.
  unfold mbind, outcome_bind. unfold MAXNAMLEN in *. unfold is_u16 in Hn.
  rewrite strncmp_spec; [|done| |lia].
  - unfold matches. f_equal. f_equal. f_equal. rewrite Z.geb_leb.
    destruct (Z.leb_spec (Z.of_nat (length w)) (d_namlen d)), (Z.leb_spec (d_namlen d) (Z.of_nat (length w)));
      destruct (Nat.eqb_spec (Z.to_nat (d_namlen d)) (length w));
      destruct (Nat.eqb_spec (Z.to_nat (Z.of_nat (length w))) (length w)); lia || done.
  - rewrite Z.geb_leb. destruct (Z.leb_spec (Z.of_nat (length w)) (d_namlen d)); lia.
Qed.

(** A clean entry is taken for its own name and for no other. *)
Lemma matches_clean w w' d : is_name w -> is_name w' -> clean w' d -> matches w d = bool_decide (w = w').
Proof.
  intros (_ & Hw & Hl) (_ & Hw' & Hl') [Hn Hd]. unfold matches, MAXNAMLEN in *. rewrite Hn, Hd.
  destruct (decide (w = w')) as [->|Hne].
  - rewrite (bool_decide_eq_true_2 (w' = w')) by done.
    rewrite take_app_length, bool_decide_eq_true_2, Z.leb_refl by done. done.
  - rewrite (bool_decide_eq_false_2 (w = w')) by done. apply andb_false_iff.
    destruct (decide (length w <= length w')%nat) as [Hle|Hgt].
    + rewrite take_app_le by done.
      destruct (decide (take (length w) w' = w)) as [E|E].
      * right. apply orb_false_iff.
        assert (length w < length w')%nat as Hlt.
        { destruct (decide (length w = length w')) as [E'|]; [|lia].
          rewrite E', take_ge in E by lia. by subst. }
        split; [lia|]. rewrite nth_lookup, lookup_app_l by done.
        destruct (lookup_lt_ex w' (length w) Hlt) as [c Hc]. rewrite Hc. cbn.
        pose proof (Forall_lookup_1 _ _ _ _ Hw' Hc). by apply Z.eqb_neq.
      * left. by apply bool_decide_eq_false.
    + left. apply bool_decide_eq_false. intros E.
      assert (Hz : w !! length w' = Some 0).
      { rewrite <-E, lookup_take_lt by lia. rewrite lookup_app_r by lia.
        rewrite Nat.sub_diag. destruct (26 - length w')%nat eqn:E'; [lia|done]. }
      by apply (Forall_lookup_1 _ _ _ _ Hw Hz).
Qed.
End Names.

(** ** Entries *)

(** The first entry taken for [w]: its inode number, as an [int]. *)
Fixpoint lookup_name (w : list Z) (ds : list dir_t) : option Z :=
  match ds with
  | [] => None
  | d :: ds' => if matches w d then Some (s32 (d_ino d)) else lookup_name w ds'
  end.

(** The sixteen entries of a block. *)
Definition blk_entries (b : list Z) : list dir_t := dec_arr 16 b.

(** Entry [k] of the directory [ic]: slot [k mod 16] of block [k / 16]. *)
Definition dir_at {D} `{BlockDevice D} (d : D) (ic : icommon_t) (k : Z) : dir_t :=
  default (mk_dir 0 0 [])
    (blk_entries (dev_blk d (blk_addr d ic (k / 16))) !! Z.to_nat (k mod 16)).

(** The first [m] entries. *)
Definition dir_entries {D} `{BlockDevice D} (d : D) (ic : icommon_t) (m : Z) : list dir_t :=
  dir_at d ic <$> seqZ 0 m.

(** How many of [m] entries the loops of [name_to_ino] and [remove] look at. *)
Definition searched (m : Z) : Z := if m mod 16 =? 0 then m - 16 else m.

Lemma lookup_name_app w ds ds' :
  lookup_name w (ds ++ ds') =
  match lookup_name w ds with Some x => Some x | None => lookup_name w ds' end.
Proof. induction ds as [|d ds IH]; [done|]. cbn. by destruct (matches w d). Qed.

Lemma lookup_name_none w ds : lookup_name w ds = None <-> Forall (fun d => matches w d = false) ds.
Proof.
  induction ds as [|d ds IH]; cbn; [done|]. rewrite list.Forall_cons, <-IH.
  destruct (matches w d); [by split; [|intros [[=] _]]|]. tauto.
Qed.

Section Entries.
Context {D : Type} `{BlockDeviceLaws D}.
Implicit Types (s t : kernel D) (d : D) (ic : icommon_t) (L : list Z) (w : list Z).

Lemma blk_entries_wf b : is_block b -> Forall lwf (blk_entries b).
Proof. intros [Hl Hb]. apply dec_arr_wf; [by rewrite Hl|done]. Qed.

Lemma blk_entries_ex b k :
  is_block b -> exists d : dir_t, blk_entries b !! Z.to_nat (k mod 16) = Some d /\ lwf d.
Proof.
  intros Hb. pose proof (Z.mod_pos_bound k 16).
  destruct (lookup_lt_ex (blk_entries b) (Z.to_nat (k mod 16))) as [d Hd].
  { unfold blk_entries. rewrite length_dec_arr. lia. }
  exists d. split; [done|]. apply (Forall_lookup_1 _ _ _ _ (blk_entries_wf b Hb) Hd).
Qed.

(** The entries of block [k] of the directory. *)
Lemma dir_entries_block d ic k n :
  0 <= k -> 0 <= n <= 16 ->
  dir_at d ic <$> seqZ (16 * k) n =
  take (Z.to_nat n) (blk_entries (dev_blk d (blk_addr d ic k))).
Proof.
  intros Hk Hn. apply list_eq. intros j. destruct (decide (j < Z.to_nat n)%nat) as [Hj|Hj].
  - rewrite list_lookup_fmap, lookup_seqZ_lt, lookup_take_lt by lia. cbn.
    destruct (lookup_lt_ex (blk_entries (dev_blk d (blk_addr d ic k))) j) as [e He].
    { unfold blk_entries. rewrite length_dec_arr. lia. }
    unfold dir_at. replace ((16 * k + Z.of_nat j) / 16) with k
      by (rewrite Z.mul_comm, Z.div_add_l, (Z.div_small (Z.of_nat j)); lia).
    replace ((16 * k + Z.of_nat j) mod 16) with (Z.of_nat j)
      by (rewrite Z.add_comm, Z.mul_comm, Z.mod_add, Z.mod_small; lia).
    by rewrite Nat2Z.id, He.
  - rewrite !lookup_ge_None_2; [done|rewrite length_take; lia|].
    rewrite length_fmap, length_seqZ. lia.
Qed.

Lemma dir_entries_add d ic m n :
  0 <= m -> 0 <= n -> dir_entries d ic (m + n) = dir_entries d ic m ++ (dir_at d ic <$> seqZ m n).
Proof. intros Hm Hn. unfold dir_entries. by rewrite seqZ_app, fmap_app by lia. Qed.

Lemma wp_find_in s w b n (Q : option Z -> kernel D -> Prop) :
  is_name w -> is_block b -> (n <= 16)%nat ->
  Q (lookup_name w (take n (blk_entries b))) s -> wp (find_in (c_str w) (Some b) n) Q s.
Proof.
  intros Hw Hb Hn HQ. unfold find_in.
  apply (wp_for_find (fun j t => t = s /\ lookup_name w (take (Z.to_nat j) (blk_entries b)) = None)).
  - done.
  - intros j t Hj [-> Hnone]. wp_steps.
    destruct (lookup_lt_ex (blk_entries b) (Z.to_nat j)) as [d Hd].
    { unfold blk_entries. rewrite length_dec_arr. lia. }
    assert (lwf d) as Hwf by apply (Forall_lookup_1 _ _ _ _ (blk_entries_wf b Hb) Hd).
    apply (wp_lift _ d); [apply aget_done; [lia|done]|]. wp_steps.
    apply (wp_lift _ (matches w d)); [by apply entry_is_spec|]. wp_steps.
    assert (Htk : take (Z.to_nat (j + 1)) (blk_entries b) = take (Z.to_nat j) (blk_entries b) ++ [d]).
    { replace (Z.to_nat (j + 1)) with (S (Z.to_nat j)) by lia. by apply take_S_snoc. }
    destruct (matches w d) eqn:Hm.
    + assert (Hf : lookup_name w (take n (blk_entries b)) = Some (s32 (d_ino d))).
      { rewrite <-(take_drop (Z.to_nat (j + 1)) (take n (blk_entries b))), take_take,
          Nat.min_l, Htk, !lookup_name_app, Hnone by lia. cbn. by rewrite Hm. }
      by rewrite Hf in HQ.
    + split; [done|]. rewrite Htk, lookup_name_app, Hnone. cbn. by rewrite Hm.
  - intros t [-> Hnone]. replace (Z.to_nat (0 + Z.of_nat n)) with n in Hnone by lia.
    by rewrite Hnone in HQ.
Qed.

Lemma wp_name_to_ino s i n m L w (Q : Z -> kernel D -> Prop) :
  fs_rep s L -> file_rep s (i_ic i) n L -> ic_size (i_ic i) = 32 * m -> 0 <= m ->
  (m + 15) / 16 <= n -> is_name w ->
  Q (default (-1) (lookup_name w (dir_entries (k_disk s) (i_ic i) (searched m)))) s ->
  wp (name_to_ino (c_str w) i) Q s.
Proof.
  intros Hs Hf Hsize Hm Hn Hw HQ. unfold name_to_ino. rewrite Hsize.
  pose proof (fi_num _ _ _ _ Hf) as Hmax. unfold MAXBLKS in Hmax.
  assert (Hbig : m <= 16 * n).
  { pose proof (Z.div_mod (m + 15) 16). pose proof (Z.mod_pos_bound (m + 15) 16). lia. }
  rewrite s32_small, Z.quot_div_nonneg, (Z.mul_comm 32), Z.div_mul by lia.
  destruct (Z.gtb_spec m 0) as [Hpos|Hz].
  2:{ assert (m = 0) as -> by lia. wp_steps. exact HQ. }
  replace ((m - 1) / 16 + 1 - 1) with ((m - 1) / 16) by lia.
  pose proof (Z.div_mod (m - 1) 16). pose proof (Z.mod_pos_bound (m - 1) 16).
  pose proof (Z.div_mod m 16). pose proof (Z.mod_pos_bound m 16).
  assert (Hq : 0 <= (m - 1) / 16 < n) by (split; [apply Z.div_pos|]; lia).
  set (q := (m - 1) / 16) in *. change BLOCK_SIZE with 512.
  set (blk k := dev_blk (k_disk s) (blk_addr (k_disk s) (i_ic i) k)).
  assert (Hblk : forall k, 0 <= k < n -> is_block (blk k)).
  { intros k Hk. apply dev_blk_block; [apply Hs|]. apply (data_addr_valid (k_fs s)); [apply Hs|].
    by apply (file_rep_blk s (i_ic i) n L). }
  assert (Hrd : forall k buf (R : Z * option (list Z) -> kernel D -> Prop), 0 <= k < n ->
     R (blk_addr (k_disk s) (i_ic i) k, Some (blk k)) s -> wp (getDataBlock buf i (512 * k)) R s).
  { intros k buf R Hk HR. apply (wp_file_block s i n L); [done|done|lia| |];
      rewrite (Z.mul_comm 512), Z.div_mul by lia; [lia|done]. }
  wp_steps.
  assert (Hstep : forall k, 0 <= k -> lookup_name w (dir_entries (k_disk s) (i_ic i) (16 * (k + 1))) =
     match lookup_name w (dir_entries (k_disk s) (i_ic i) (16 * k)) with
     | Some x => Some x | None => lookup_name w (take 16 (blk_entries (blk k))) end).
  { intros k Hk. replace (16 * (k + 1)) with (16 * k + 16) by lia.
    by rewrite dir_entries_add, dir_entries_block, lookup_name_app by lia. }
  assert (Hfound : forall k x, 0 <= k <= q ->
     lookup_name w (dir_entries (k_disk s) (i_ic i) (16 * k)) = Some x -> Q x s).
  { intros k x Hk Hx. assert (16 * k <= searched m) by (unfold searched; destruct (Z.eqb_spec (m mod 16) 0); lia).
    replace (searched m) with (16 * k + (searched m - 16 * k)) in HQ by lia.
    rewrite dir_entries_add, lookup_name_app, Hx in HQ by lia. exact HQ. }
  apply (wp_for_loop (fun k _ t => t = s /\
    lookup_name w (dir_entries (k_disk s) (i_ic i) (16 * k)) = None)); [done| |].
  - intros k buf t Hk [-> Hnone]. wp_steps. apply Hrd; [lia|]. wp_steps.
    apply wp_find_in; [done|apply Hblk; lia|lia|]. wp_steps.
    pose proof (Hstep k ltac:(lia)) as Hs1. rewrite Hnone in Hs1.
    destruct (lookup_name w (take 16 _)) as [x|] eqn:E.
    + wp_steps. apply (Hfound (k + 1)); [lia|done].
    + by rewrite Hs1.
  - intros buf t [-> Hnone]. replace (0 + Z.of_nat (Z.to_nat q)) with q in Hnone by lia.
    wp_steps. replace (q + 1 - 1) with q by lia. apply Hrd; [done|]. wp_steps.
    apply wp_find_in; [done|by apply Hblk|lia|]. wp_steps.
    assert (Hr : searched m = 16 * q + m mod 16).
    { unfold searched. destruct (Z.eqb_spec (m mod 16) 0); lia. }
    rewrite Hr, dir_entries_add, dir_entries_block, lookup_name_app, Hnone in HQ by lia.
    exact HQ.
Qed.
End Entries.

(** ** Insertion *)

(** The entry [addInodeToDirectory] makes in a slot: the bytes of the slot's name
    behind the new name stay. *)
Definition new_entry (ino : Z) (w : list Z) (old : dir_t) : dir_t :=
  mk_dir (u32 ino) (Z.of_nat (length w)) (overlay w (d_name old)).

(** A directory with [m] entries.  It has a block before it has an entry. *)
Record dir_rep {D} `{BlockDevice D} (s : kernel D) (i : inode_t) (m : Z) (L : list Z) : Prop := {
  dr_fs : fs_rep s L;
  dr_file : file_rep s (i_ic i) (Z.max 1 ((m + 15) / 16)) L;
  dr_ino : is_ino (k_fs s) (i_number i);
  dr_size : ic_size (i_ic i) = 32 * m;
  dr_num : 0 <= m;
}.

(** The directory [i] of [s] got the entry for [w]. *)
Record dir_added {D} `{BlockDevice D} (s : kernel D) (i : inode_t) (m : Z) (L : list Z)
    (ino : Z) (w : list Z) (t : kernel D) (i' : inode_t) (L' : list Z) : Prop := {
  da_dir : dir_rep t i' (m + 1) L';
  da_same : i_number i' = i_number i /\ i_links i' = i_links i /\
            ic_mode (i_ic i') = ic_mode (i_ic i);
  da_entries : exists old, lwf old /\
    dir_entries (k_disk t) (i_ic i') (m + 1) =
    dir_entries (k_disk s) (i_ic i) m ++ [new_entry ino w old];
  da_inode : inode_at (k_fs t) (k_disk t) (i_number i) = i_ic i';
  da_inodes k : is_ino (k_fs s) k -> k <> i_number i ->
    inode_at (k_fs t) (k_disk t) k = inode_at (k_fs s) (k_disk s) k;
  da_rest : exists f d, t = set_k_disk d (set_k_fs f s);
  da_frame : let n := Z.max 1 ((m + 15) / 16) in
    disk_frame (fun b => b ∈ owned (k_disk s) (i_ic i) n \/ b ∈ L) s t;
  da_owned b : b ∈ owned (k_disk t) (i_ic i') (Z.max 1 ((m + 1 + 15) / 16)) ->
    b ∈ owned (k_disk s) (i_ic i) (Z.max 1 ((m + 15) / 16)) \/ b ∈ L;
}.

Lemma matches_new ino w old : is_name w -> matches w (new_entry ino w old) = true.
Proof.
  intros Hw. unfold matches, new_entry, overlay. cbn [d_name d_namlen].
  rewrite take_app_length, bool_decide_eq_true_2, Z.leb_refl by done. done.
Qed.

Lemma strncpy_name w tl dst :
  Forall (fun c => c <> 0) w -> (length w <= length dst)%nat ->
  strncpy dst (c_buf w tl) (length w) = Done (overlay w dst).
Proof.
  intros Hw Hl. unfold strncpy.
  assert (E : strncpy_bytes (c_buf w tl) (length w) = Done w).
  { clear Hl. induction Hw as [|c w Hc _ IH]; [done|]. unfold c_buf in *. cbn [app length strncpy_bytes].
    destruct (Z.eqb_spec c 0); [done|]. by rewrite IH. }
  rewrite E. unfold mbind, outcome_bind. by rewrite bool_decide_eq_true_2.
Qed.

Lemma new_entry_wf ino w old : is_name w -> lwf old -> lwf (new_entry ino w old).
Proof.
  intros (Hb & _ & Hl) (_ & _ & Hn & Hob). unfold MAXNAMLEN in *. split_and!.
  - apply u32_range.
  - unfold is_u16. cbn. lia.
  - cbn [new_entry d_name]. rewrite length_overlay; unfold MAXNAMLEN in *; lia.
  - by apply Forall_overlay.
Qed.

Section Insert.
Context {D : Type} `{BlockDeviceLaws D}.
Implicit Types (s t : kernel D) (d : D) (ic : icommon_t) (L : list Z) (w : list Z).

(** The bytes of block [b] with entry [r] replaced. *)
Definition entry_put (b : list Z) (r : Z) (e : dir_t) : list Z :=
  enc_arr (<[Z.to_nat r := e]> (blk_entries b)).

Lemma entry_put_block b r e : is_block b -> lwf e -> is_block (entry_put b r e).
Proof.
  intros Hb He. assert (Hw : Forall lwf (<[Z.to_nat r := e]> (blk_entries b)))
    by (apply Forall_insert; [by apply blk_entries_wf|done]).
  split; [|by apply enc_arr_bytes]. unfold entry_put.
  rewrite length_enc_arr by done. unfold blk_entries. by rewrite length_insert, length_dec_arr.
Qed.

Lemma entry_put_entries b r e :
  is_block b -> lwf e -> blk_entries (entry_put b r e) = <[Z.to_nat r := e]> (blk_entries b).
Proof.
  intros Hb He. unfold entry_put, blk_entries at 1.
  replace 16%nat with (length (<[Z.to_nat r := e]> (blk_entries b))) at 1
    by by (unfold blk_entries; rewrite length_insert, length_dec_arr).
  by apply dec_enc_arr, Forall_insert; [apply blk_entries_wf|].
Qed.

(** Writing a data block and then the inode, with a new size: the file stays where it
    is. *)
Lemma file_store s i n L k x size d1 d2 :
  let i' := set_size size i in
  fs_rep s L -> file_rep s (i_ic i) n L -> is_ino (k_fs s) (i_number i) -> is_u32 size ->
  0 <= k < n -> is_block x ->
  disk_put (blk_addr (k_disk s) (i_ic i) k) x (k_disk s) d1 ->
  inode_put (k_fs s) (i_number i) (i_ic i') d1 d2 ->
  let t := set_k_disk d2 s in
  fs_rep t L /\ file_rep t (i_ic i') n L /\
  (forall j, 0 <= j < n -> dev_blk d2 (blk_addr d2 (i_ic i') j) =
     if decide (j = k) then x else dev_blk (k_disk s) (blk_addr (k_disk s) (i_ic i) j)) /\
  inode_at (k_fs t) d2 (i_number i) = i_ic i' /\
  (forall m, is_ino (k_fs s) m -> m <> i_number i ->
     inode_at (k_fs t) d2 m = inode_at (k_fs s) (k_disk s) m) /\
  disk_frame (fun b => b ∈ owned (k_disk s) (i_ic i) n) s t /\
  owned d2 (i_ic i') n = owned (k_disk s) (i_ic i) n.
Proof.
  intros i' Hs Hf Hino Hsize Hk Hx Hd1 Hd2 t. pose proof (fr_geo _ _ Hs) as Hg.
  pose proof (inode_blk_range _ _ Hg Hino) as Hir.
  assert (Hdata : forall j, 0 <= j < n -> data_addr D (k_fs s) (blk_addr (k_disk s) (i_ic i) j))
    by (intros j Hj; by apply (file_rep_blk s (i_ic i) n L)).
  assert (Hfo : file_only (i_ic i) n (k_disk s) d1).
  { destruct Hd1 as [Hok Hb]. split; [done|]. intros b Hv Hne. rewrite Hb by done.
    rewrite decide_False; [done|]. intros ->. apply Hne, elem_of_file_blocks. eauto. }
  destruct (file_only_rep s (i_ic i) n L d1 Hs Hf Hfo) as (Hs1 & Hf1 & Ha1).
  pose proof (fs_rep_inode (set_k_disk d1 s) (i_number i) (i_ic i') d2 L Hs1 Hino Hd2) as Hs2.
  assert (Hfr : fs_frame (fun b => b = inode_blk (k_fs s) (i_number i))
            (set_k_disk d1 s) (set_k_disk d2 s)).
  { split; [by exists (k_fs s), d2; destruct s|done|]. intros b Hb Hne. by apply Hd2. }
  assert (Hf2 : file_rep t (i_ic i) n L).
  { apply (file_rep_frame _ (set_k_disk d1 s) t _ n L L Hf1 Hfr Hg); [|apply Hf1].
    intros H11 E. destruct (file_rep_table s (i_ic i) n L Hf H11) as [Hd _].
    unfold data_addr in Hd. lia. }
  assert (Ha2 : forall j, 0 <= j < n -> blk_addr d2 (i_ic i) j = blk_addr (k_disk s) (i_ic i) j).
  { intros j Hj. rewrite <-Ha1 by done.
    apply (blk_addr_frame _ (set_k_disk d1 s) t (i_ic i) n j Hfr Hj); [apply Hf|].
    intros H11. destruct (file_rep_table s (i_ic i) n L Hf H11) as [Hd _].
    split; [by apply (data_addr_valid (k_fs s))|]. unfold data_addr in Hd. lia. }
  split_and!.
  - exact Hs2.
  - destruct Hf2 as [Hwf Hn Hnd Hda]. split; [|done|exact Hnd|exact Hda]. cbn in *. tauto.
  - intros j Hj. change (blk_addr d2 (i_ic i') j) with (blk_addr d2 (i_ic i) j).
    rewrite Ha2 by done. pose proof (Hdata j Hj) as Hdj.
    destruct Hd2 as (_ & _ & Hb2). rewrite Hb2;
      [|by apply (data_addr_valid (k_fs s))|unfold data_addr in Hdj; lia].
    destruct Hd1 as [_ Hb1]. rewrite Hb1 by by apply (data_addr_valid (k_fs s)).
    destruct (decide (j = k)) as [->|Hne]; [by rewrite decide_True|].
    rewrite decide_False; [done|]. intros E. by apply Hne, (file_blocks_inj s (i_ic i) n L).
  - destruct Hd2 as (_ & Hi & _). cbn [k_fs t set_k_disk]. by rewrite Hi, decide_True.
  - intros m Hm Hne. destruct Hd2 as (_ & Hi & _). cbn [k_fs t set_k_disk].
    rewrite Hi, decide_False by done. apply inode_at_ext; [done|]. destruct Hd1 as [_ Hb1].
    pose proof (inode_blk_range _ _ Hg Hm). pose proof (Hdata k Hk) as Hdk.
    unfold data_addr in Hdk.
    rewrite Hb1, decide_False; [done|lia|]. by apply inode_blk_valid.
  - split; [done|]. intros b Hb Hne. cbn [k_disk t set_k_disk]. destruct Hd2 as (_ & _ & Hb2).
    unfold data_addr in Hb.
    rewrite Hb2; [|by apply (data_addr_valid (k_fs s))|lia]. apply Hfo; [by apply (data_addr_valid (k_fs s))|].
    intros Hin. apply Hne, elem_of_app. by left.
  - unfold owned. f_equal. by apply file_blocks_ext.
Qed.
End Insert.

Section Add.
Context {D : Type} `{BlockDeviceLaws D}.
Implicit Types (s t : kernel D) (d : D) (ic : icommon_t) (L : list Z) (w : list Z).

(** The tail of [addInodeToDirectory], for a directory with room: the entry is stored,
    the size and the inode are updated. *)
Definition add_entry (par : inode_t) (ino : Z) (name : list Z) : M (kernel D) inode_t :=
  '(addr, buf) ← getDataBlock None par (ic_size (i_ic par));
  b ← deref buf;
  d ← lift (aget (dec_arr 16 b) (ic_size (i_ic par) / 32 mod 16));
  l ← lift (strlen name);
  nm ← lift (strncpy (d_name d) name (Z.to_nat l));
  ds ← lift (aset (dec_arr 16 b) (ic_size (i_ic par) / 32 mod 16) (mk_dir (u32 ino) (u16 l) nm));
  disk_wr addr (enc_arr ds) ;;
  writeInode (set_size (u32 (ic_size (i_ic par) + 32)) par) ;;
  mret (set_size (u32 (ic_size (i_ic par) + 32)) par).

Lemma add_split par ino w :
  addInodeToDirectory par ino w =
  ('(_, par') ← (if (ic_size (i_ic par) / 32 mod 16 =? 0) && (ic_size (i_ic par) >? 0)
       then allocateDataBlockAddr par (ic_size (i_ic par)) else mret (0, par));
   '(addr, buf) ← getDataBlock None par' (ic_size (i_ic par'));
   b ← deref buf;
   d ← lift (aget (dec_arr 16 b) (ic_size (i_ic par) / 32 mod 16));
   l ← lift (strlen w);
   nm ← lift (strncpy (d_name d) w (Z.to_nat l));
   ds ← lift (aset (dec_arr 16 b) (ic_size (i_ic par) / 32 mod 16) (mk_dir (u32 ino) (u16 l) nm));
   disk_wr addr (enc_arr ds) ;;
   writeInode (set_size (u32 (ic_size (i_ic par') + 32)) par') ;;
   mret (set_size (u32 (ic_size (i_ic par') + 32)) par')).
Proof. reflexivity. Qed.

(** The directory of [s] with entry [m] written. *)
Record entry_added s i n m L e t i' : Prop := {
  ea_fs : fs_rep t L;
  ea_file : file_rep t (i_ic i') n L;
  ea_same : i' = set_size (32 * (m + 1)) i;
  ea_fs_same : k_fs t = k_fs s;
  ea_rest : t = set_k_disk (k_disk t) s;
  ea_last : dir_at (k_disk t) (i_ic i') m = e;
  ea_old j : 0 <= j < m -> dir_at (k_disk t) (i_ic i') j = dir_at (k_disk s) (i_ic i) j;
  ea_inode : inode_at (k_fs t) (k_disk t) (i_number i) = i_ic i';
  ea_inodes j : is_ino (k_fs s) j -> j <> i_number i ->
    inode_at (k_fs t) (k_disk t) j = inode_at (k_fs s) (k_disk s) j;
  ea_frame : disk_frame (fun b => b ∈ owned (k_disk s) (i_ic i) n) s t;
  ea_owned : owned (k_disk t) (i_ic i') n = owned (k_disk s) (i_ic i) n;
}.

Lemma wp_add_entry s i n m L ino w tl (Q : inode_t -> kernel D -> Prop) :
  fs_rep s L -> file_rep s (i_ic i) n L -> is_ino (k_fs s) (i_number i) ->
  ic_size (i_ic i) = 32 * m -> 0 <= m -> m / 16 < n -> is_name w ->
  (forall t i' old, lwf old -> entry_added s i n m L (new_entry ino w old) t i' -> Q i' t) ->
  wp (add_entry i ino (c_buf w tl)) Q s.
Proof.
  intros Hs Hf Hino Hsize Hm Hmn Hw HQ. unfold add_entry.
  pose proof (fi_num _ _ _ _ Hf) as Hmax. unfold MAXBLKS in Hmax.
  pose proof (Z.div_mod m 16). pose proof (Z.mod_pos_bound m 16).
  assert (Hk : 0 <= m / 16 < n) by (split; [apply Z.div_pos|]; lia).
  rewrite Hsize, u32_small by (unfold is_u32; lia).
  replace (32 * m + 32) with (32 * (m + 1)) by lia.
  rewrite (Z.mul_comm 32 m), Z.div_mul by lia.
  assert (Hdiv : m * 32 / 512 = m / 16).
  { change 512 with (16 * 32). by rewrite Z.div_mul_cancel_r by lia. }
  wp_step. apply (wp_file_block s i n L); [done|done|lia|lia|]. rewrite Hdiv.
  set (b := dev_blk (k_disk s) (blk_addr (k_disk s) (i_ic i) (m / 16))).
  pose proof (file_rep_blk s (i_ic i) n L (m / 16) Hf Hk) as (Hda & _).
  pose proof (data_addr_valid _ _ (fr_geo _ _ Hs) Hda) as Hv.
  assert (Hb : is_block b) by (apply dev_blk_block; [apply Hs|done]).
  destruct (blk_entries_ex b m Hb) as (old & Hold & Hwf). wp_steps.
  apply (wp_lift _ old); [by apply aget_done; [lia|]|]. wp_steps.
  pose proof Hw as (_ & Hw0 & Hwl). unfold MAXNAMLEN in Hwl.
  eapply wp_lift; [by apply strlen_c_buf|]. wp_steps. rewrite Nat2Z.id.
  eapply wp_lift; [apply strncpy_name; [done|]|].
  { destruct Hwf as (_ & _ & -> & _). unfold MAXNAMLEN. lia. }
  wp_steps. rewrite u16_small by (unfold is_u16; lia). fold (new_entry ino w old).
  set (e := new_entry ino w old).
  assert (He : lwf e) by by apply new_entry_wf.
  eapply wp_lift; [apply aset_done; rewrite length_dec_arr; lia|]. wp_steps.
  change (enc_arr _) with (entry_put b (m mod 16) e).
  apply wp_put_block; [apply Hs|done|by apply entry_put_block|]. intros d1 Hd1. wp_steps.
  assert (Hwf' : lwf (i_ic (set_size (32 * (m + 1)) i))).
  { pose proof (fi_wf _ _ _ _ Hf) as Hic. cbn in *. unfold is_u32 in *. split_and!; try tauto; lia. }
  apply wp_writeInode; [by destruct Hd1|apply Hs|done|done|]. intros d2 Hd2. wp_steps.
  change (set_k_disk d2 (set_k_disk d1 s)) with (set_k_disk d2 s).
  destruct (file_store s i n L (m / 16) (entry_put b (m mod 16) e) (32 * (m + 1)) d1 d2)
    as (R1 & R2 & R3 & R4 & R5 & R6 & R7); [done..|unfold is_u32; lia|done|by apply entry_put_block|done|done|].
  apply (HQ _ _ old Hwf). split; try done.
  - unfold dir_at. cbn [k_disk set_k_disk]. rewrite R3, decide_True, entry_put_entries by done.
    rewrite list_lookup_insert_eq; [done|]. by eapply lookup_lt_Some.
  - intros j Hj. unfold dir_at. cbn [k_disk set_k_disk].
    pose proof (Z.div_mod j 16). pose proof (Z.mod_pos_bound j 16).
    assert (Hjk : 0 <= j / 16 <= m / 16) by (split; [apply Z.div_pos|apply Z.div_le_mono]; lia).
    rewrite R3 by lia. destruct (decide (j / 16 = m / 16)) as [E|E]; [|done].
    rewrite entry_put_entries by done. rewrite E. rewrite list_lookup_insert_ne by lia. done.
Qed.

(** What growing leaves of the entries. *)
Lemma extended_entries s i n L t i' n' L' m j :
  extended s i n L t i' n' L' -> fs_rep s L -> file_rep s (i_ic i) n L ->
  is_ino (k_fs s) (i_number i) -> 0 <= j < m -> (m + 15) / 16 <= n ->
  dir_at (k_disk t) (i_ic i') j = dir_at (k_disk s) (i_ic i) j.
Proof.
  intros He Hs Hf Hino Hj Hn. unfold dir_at.
  rewrite (extended_data s i n L t i' n' L'); [done..|].
  pose proof (Z.div_mod j 16). pose proof (Z.mod_pos_bound j 16).
  pose proof (Z.div_mod (m + 15) 16). pose proof (Z.mod_pos_bound (m + 15) 16).
  split; [apply Z.div_pos|]; lia.
Qed.

(** Entry added to the grown directory. *)
Lemma dir_added_of s i m L u i1 L1 t i' ino w old :
  let n := Z.max 1 ((m + 15) / 16) in
  let n' := Z.max 1 ((m + 1 + 15) / 16) in
  dir_rep s i m L -> extended s i n L u i1 n' L1 -> lwf old ->
  entry_added u i1 n' m L1 (new_entry ino w old) t i' ->
  dir_added s i m L ino w t i' L1.
Proof.
  intros n n' [Hs Hf Hino Hsize Hm] He Hold [A1 A2 A3 A4 A4' A5 A6 A7 A8 A9 A10].
  pose proof (ex_same _ _ _ _ _ _ _ _ He) as (S1 & S2 & S3 & S4).
  assert (Hnum : i_number i' = i_number i) by by rewrite A3.
  split.
  - split; [done|done| |by rewrite A3|lia].
    rewrite A4, Hnum. by apply (is_ino_frame _ s u _ (ex_frame _ _ _ _ _ _ _ _ He)).
  - rewrite A3. done.
  - exists old. split; [done|]. rewrite dir_entries_add by lia. f_equal.
    + unfold dir_entries. apply list_fmap_ext. intros k x Hx%lookup_seqZ.
      rewrite A6 by lia. apply (extended_entries s i n L u i1 n' L1 m); try done; lia.
    + change (seqZ m 1) with [m]. rewrite fmap_cons. by rewrite A5.
  - by rewrite <-S1.
  - intros k Hk Hne. rewrite A8; [by apply (ex_inode _ _ _ _ _ _ _ _ He)| |by rewrite S1].
    by apply (is_ino_frame _ s u _ (ex_frame _ _ _ _ _ _ _ _ He)).
  - destruct (ff_rest _ _ _ (ex_frame _ _ _ _ _ _ _ _ He)) as (f & d & ->). rewrite A4'. by exists f, (k_disk t).
  - cbv zeta. fold n. apply (disk_frame_trans _ s u); [by apply (extended_disk s i n L u i1 n' L1), Hino; [|apply Hs]|].
    revert A9. apply disk_frame_mono. intros b _. by apply (extended_owned s i n L u i1 n' L1 b).
  - intros b. fold n n'. rewrite A10. by apply (extended_owned s i n L u i1 n' L1 b).
Qed.

Lemma length_dir_entries d ic m : length (dir_entries d ic m) = Z.to_nat m.
Proof. unfold dir_entries. by rewrite length_fmap, length_seqZ. Qed.

Lemma added_prefix s i m L ino w t i' L' k :
  dir_added s i m L ino w t i' L' -> 0 <= k <= m ->
  dir_entries (k_disk t) (i_ic i') k = dir_entries (k_disk s) (i_ic i) k.
Proof.
  intros Ha Hk. destruct (da_entries _ _ _ _ _ _ _ _ _ Ha) as (old & _ & He).
  replace (m + 1) with (k + (m + 1 - k)) in He by lia.
  assert (Hm : dir_entries (k_disk s) (i_ic i) m = dir_entries (k_disk s) (i_ic i) k ++
            (dir_at (k_disk s) (i_ic i) <$> seqZ k (m - k)))
    by (rewrite <-dir_entries_add by lia; f_equal; lia).
  rewrite Hm, dir_entries_add, <-app_assoc in He by lia.
  apply app_inj_1 in He as [E _]; [done|]. by rewrite !length_dir_entries.
Qed.

(** The free blocks one more entry takes: none while there is room. *)
Definition entry_rest (m : Z) (L : list Z) : option (list Z) :=
  if (m mod 16 =? 0) && (0 <? m) then alloc_rest (m / 16) L else Some L.

Lemma wp_add_named s i m L L' ino w tl (Q : inode_t -> kernel D -> Prop) :
  dir_rep s i m L -> is_name w -> m < 16 * MAXBLKS -> entry_rest m L = Some L' ->
  (forall t i', dir_added s i m L ino w t i' L' -> Q i' t) ->
  wp (addInodeToDirectory i ino (c_buf w tl)) Q s.
Proof.
  intros Hd Hw Hmax Hrest HQ. pose proof Hd as [Hs Hf Hino Hsize Hm]. rewrite add_split.
  unfold entry_rest in Hrest. unfold MAXBLKS in Hmax.
  assert (Hdiv : ic_size (i_ic i) / 32 = m) by by rewrite Hsize, Z.mul_comm, Z.div_mul.
  pose proof (Z.div_mod m 16). pose proof (Z.mod_pos_bound m 16).
  pose proof (Z.div_mod (m + 15) 16). pose proof (Z.mod_pos_bound (m + 15) 16).
  pose proof (Z.div_mod (m + 1 + 15) 16). pose proof (Z.mod_pos_bound (m + 1 + 15) 16).
  rewrite Hdiv. replace (ic_size (i_ic i) >? 0) with (0 <? m) by lia.
  set (n := Z.max 1 ((m + 15) / 16)) in *. set (n' := Z.max 1 ((m + 1 + 15) / 16)).
  enough (Hprep : wp (if (m mod 16 =? 0) && (0 <? m)
       then allocateDataBlockAddr i (ic_size (i_ic i)) else mret (0, i))
     (fun '(_, i1) u => extended s i n L u i1 n' L') s).
  { wp_step. eapply wp_mono; [exact Hprep|]. cbv beta. intros [a i1] u He.
    pose proof (ex_same _ _ _ _ _ _ _ _ He) as (S1 & S2 & S3 & S4).
    assert (Hadd : wp (add_entry i1 ino (c_buf w tl)) Q u).
    { apply (wp_add_entry u i1 n' m L'); [apply He|apply He| |by rewrite S3|done|lia|done|].
      - rewrite S1. by apply (is_ino_frame _ s u _ (ex_frame _ _ _ _ _ _ _ _ He)).
      - intros t i' old Hold Ha. apply HQ. by apply (dir_added_of s i m L u i1 L' t i' ino w old). }
    unfold add_entry in Hadd. rewrite S3, Hdiv in Hadd. rewrite S3. exact Hadd. }
  destruct ((m mod 16 =? 0) && (0 <? m)) eqn:E.
  - assert (Hn : n = m / 16) by lia. assert (Hn' : n' = n + 1) by lia.
    rewrite Hsize. replace (32 * m) with (n * 512) by lia.
    apply (wp_alloc_next s i n L); [done|done|done|lia|]. rewrite Hn, Hrest, <-Hn.
    intros a i' t Hg. rewrite Hn'.
    apply (extended_step s i n L s i n L a t i' L'); [by apply extended_refl|by rewrite Hn|done|apply Hs|done|lia].
  - injection Hrest as <-. wp_steps. assert (n' = n) as -> by lia. by apply extended_refl.
Qed.

Lemma wp_addInodeToDirectory s i m L L' ino w (Q : inode_t -> kernel D -> Prop) :
  dir_rep s i m L -> is_name w -> m < 16 * MAXBLKS -> entry_rest m L = Some L' ->
  (forall t i', dir_added s i m L ino w t i' L' -> Q i' t) ->
  wp (addInodeToDirectory i ino (c_str w)) Q s.
Proof. apply (wp_add_named s i m L L' ino w []). Qed.
End Add.

(** * The properties of lookup and insertion *)

Section Claims.
Context {D : Type} `{BlockDeviceLaws D}.
Implicit Types (s t : kernel D) (L : list Z) (w : list Z).

(** C28: lookup.  [name_to_ino] answers the inode number of the first entry that is taken
    for the name, or -1 when there is none, and changes nothing.  It looks at every
    entry of the directory only when the number of entries is not a multiple of 16;
    otherwise the last sixteen are never compared. *)
Theorem name_to_ino_correct s i m L w :
  dir_rep s i m L -> is_name w ->
  name_to_ino (c_str w) i s =
    Done (default (-1) (lookup_name w (dir_entries (k_disk s) (i_ic i) (searched m))), s).
Proof.
  intros [Hs Hf Hino Hsize Hm] Hw. apply wp_run.
  by apply (wp_name_to_ino s i (Z.max 1 ((m + 15) / 16)) m L); [..|lia| |].
Qed.

(** Insertion.  [addInodeToDirectory] makes the directory one entry longer: the
    entries it had stay, the new one is the last, has the inode number and is taken
    for the name; the inode with the new size is on the disk, and no other inode
    changed.  Every sixteenth entry takes a block off the free list, and the free list
    must have it. *)
Theorem addInodeToDirectory_correct s i m L L' ino w :
  dir_rep s i m L -> is_name w -> m < 16 * MAXBLKS -> entry_rest m L = Some L' ->
  exists t i', addInodeToDirectory i ino (c_str w) s = Done (i', t) /\
    dir_added s i m L ino w t i' L' /\
    exists e, dir_entries (k_disk t) (i_ic i') (m + 1) = dir_entries (k_disk s) (i_ic i) m ++ [e] /\
      d_ino e = u32 ino /\ matches w e = true.
Proof.
  intros Hd Hw Hm Hrest.
  assert (Hwp : wp (addInodeToDirectory i ino (c_str w))
            (fun i' t => dir_added s i m L ino w t i' L') s).
  { apply (wp_addInodeToDirectory s i m L L'); [done..|]. by intros t i'. }
  apply wp_done in Hwp as (i' & t & Hr & Ha). exists t, i'. split_and!; [done..|].
  destruct (da_entries _ _ _ _ _ _ _ _ _ Ha) as (old & _ & He).
  exists (new_entry ino w old). split_and!; [done..|]. by apply matches_new.
Qed.

(** C25: round trip.  What was added is found: after [addInodeToDirectory], [name_to_ino]
    answers the number that was added, if no earlier entry is taken for the name; but
    when the directory then has a multiple of 16 entries, it answers what it would
    have answered without the last sixteen. *)
Theorem add_find_roundtrip s i m L L' ino w :
  dir_rep s i m L -> is_name w -> m < 16 * MAXBLKS -> entry_rest m L = Some L' ->
  lookup_name w (dir_entries (k_disk s) (i_ic i) m) = None ->
  exists t i', addInodeToDirectory i ino (c_str w) s = Done (i', t) /\
    name_to_ino (c_str w) i' t =
      Done (if (m + 1) mod 16 =? 0 then -1 else s32 (u32 ino), t).
Proof.
  intros Hd Hw Hm Hrest Hnone.
  assert (Hwp : wp (addInodeToDirectory i ino (c_str w))
            (fun i' t => dir_added s i m L ino w t i' L') s).
  { apply (wp_addInodeToDirectory s i m L L'); [done..|]. by intros t i'. }
  apply wp_done in Hwp as (i' & t & Hr & Ha). exists t, i'. split; [done|].
  destruct (da_dir _ _ _ _ _ _ _ _ _ Ha) as [Hs Hf Hino Hsize Hm0].
  destruct (da_entries _ _ _ _ _ _ _ _ _ Ha) as (old & _ & He).
  apply wp_run, (wp_name_to_ino t i' (Z.max 1 ((m + 1 + 15) / 16)) (m + 1) L'); try done; try lia.
  pose proof (dr_num _ _ _ _ Hd). pose proof (Z.div_mod (m + 1) 16).
  unfold searched. destruct (Z.eqb_spec ((m + 1) mod 16) 0) as [E|E].
  - assert (Hk : 0 <= m + 1 - 16 <= m) by (pose proof (Z.div_pos (m + 1) 16); lia).
    rewrite (added_prefix _ _ _ _ _ _ _ _ _ _ Ha Hk). replace m with (m + 1 - 16 + 15) in Hnone by lia.
    rewrite dir_entries_add, lookup_name_app in Hnone by lia.
    by destruct (lookup_name w (dir_entries (k_disk s) (i_ic i) (m + 1 - 16))).
  - rewrite He, lookup_name_app, Hnone. cbn [lookup_name]. by rewrite matches_new.
Qed.

(** A directory of sixteen entries looks empty: whatever it holds, every name is
    answered with -1. *)
Theorem full_directory_hidden s i L w :
  dir_rep s i 16 L -> is_name w -> name_to_ino (c_str w) i s = Done (-1, s).
Proof.
  intros [Hs Hf Hino Hsize Hm] Hw. apply wp_run.
  by apply (wp_name_to_ino s i (Z.max 1 ((16 + 15) / 16)) 16 L).
Qed.
End Claims.

(** ** Witnesses *)

Definition demo_dir : inode_t := mk_inode 0 0 (demo_ic 2 96 9).

(** A name that was removed is found again under another name's number.  The bytes of
    the removed entry behind the new, shorter name stay in the slot, and a comparison
    with the longer name runs over both. *)
Theorem stale_name_found :
  value (i ← addInodeToDirectory demo_dir 3 (c_str [108; 111; 110; 103]);
         '(a, _, i) ← remove (mk_dir 0 0 []) i (c_str [108; 111; 110; 103]);
         i ← addInodeToDirectory i 4 (c_str [108; 111]);
         b ← name_to_ino (c_str [108; 111; 110; 103]) i;
         mret (a, b)) demo_state = Some (3, 4).
Proof. vm_compute. reflexivity. Qed.

Lemma demo_dir_rep : dir_rep demo_state demo_dir 3 [21; 20].
Proof.
  split; [apply demo_rep| |by split|done|done]. split.
  - by apply (bool_decide_unpack _).
  - by split; vm_compute.
  - by apply (bool_decide_unpack _).
  - repeat (apply Forall_cons_2 || apply Forall_nil_2); by vm_compute.
Qed.

Lemma demo_name : is_name [110; 101; 119].
Proof. by apply (bool_decide_unpack _). Qed.

(** A directory of sixteen entries: block 12. *)
Definition full_state : kernel MemDisk :=
  set_k_disk (mk_mem (<[12 := enc_arr (replicate 16 (demo_entry 1 [102]))]>
    (mem_blocks demo_disk))) demo_state.

Definition full_dir : inode_t := mk_inode 5 0 (demo_ic 2 512 12).

Lemma full_dir_rep : dir_rep full_state full_dir 16 [21; 20].
Proof.
  split; [| |by split|done|done].
  - apply (fs_rep_disk demo_state); [apply demo_rep| |by vm_compute|].
    + apply map_Forall_insert_2; [by apply block_ok_spec; vm_compute|apply demo_disk_ok].
    + intros b Hb. repeat (apply elem_of_cons in Hb as [->|Hb]; [by vm_compute|]).
      by apply not_elem_of_nil in Hb.
  - split.
    + by apply (bool_decide_unpack _).
    + by split; vm_compute.
    + by apply (bool_decide_unpack _).
    + repeat (apply Forall_cons_2 || apply Forall_nil_2); by vm_compute.
Qed.

Lemma name_to_ino_correct_witness : name_to_ino (c_str [100]) demo_dir demo_state = Done (2, demo_state).
Proof.
  rewrite (name_to_ino_correct demo_state demo_dir 3 [21; 20]).
  - vm_compute. reflexivity.
  - apply demo_dir_rep.
  - by apply (bool_decide_unpack _).
Defined.

Lemma addInodeToDirectory_correct_witness :
  exists t i', addInodeToDirectory demo_dir 3 (c_str [110; 101; 119]) demo_state = Done (i', t) /\
    dir_rep t i' 4 [21; 20].
Proof.
  destruct (addInodeToDirectory_correct demo_state demo_dir 3 [21; 20] [21; 20] 3 [110; 101; 119]
    demo_dir_rep demo_name) as (t & i' & Hr & Ha & _); [done|done|].
  exists t, i'. split; [exact Hr|apply (da_dir _ _ _ _ _ _ _ _ _ Ha)].
Defined.

Lemma add_find_roundtrip_witness :
  exists t i', addInodeToDirectory demo_dir 3 (c_str [110; 101; 119]) demo_state = Done (i', t) /\
    name_to_ino (c_str [110; 101; 119]) i' t = Done (3, t).
Proof.
  apply (add_find_roundtrip demo_state demo_dir 3 [21; 20] [21; 20] 3 [110; 101; 119]
    demo_dir_rep demo_name); [done|done|]. vm_compute. reflexivity.
Defined.

Lemma full_directory_hidden_witness :
  name_to_ino (c_str [102]) full_dir full_state = Done (-1, full_state).
Proof.
  apply (full_directory_hidden full_state full_dir [21; 20]); [apply full_dir_rep|].
  by apply (bool_decide_unpack _).
Defined.
