(* ===== verification/DirRemove.v ===== *)
(** * Directories: removal

    Which entries [removable] lets go, and what [remove] leaves of a directory. *)

From S2P Require Import Prelude CMonad Layout BlockDev Kernel FsOps FreeList InodeProof BlockMap FileRep FileGrow Dir FileIO DirProof.

(** ** Entries that may go *)

(** The slot of the active inode table is in use for inode [n]. *)
Definition active (n : Z) (i : inode_t) : bool :=
  (i_number i =? n) && negb (ic_mode (i_ic i) =? mode_val IFZERO).

(** Not the working directory, not open, not a directory with more than two entries. *)
Definition may_remove {D} `{BlockDevice D} (s : kernel D) (e : dir_t) : bool :=
  let ic := inode_at (k_fs s) (k_disk s) (d_ino e) in
  negb (d_ino e =? k_cwd s) && negb (existsb (active (d_ino e)) (k_ai s)) &&
  negb ((ic_mode ic =? mode_val IFDIR) && (ic_size ic >? 64)).

(** The entry [remove] takes out for the name [w]. *)
Definition goes {D} `{BlockDevice D} (s : kernel D) (w : list Z) (e : dir_t) : Prop :=
  matches w e && may_remove s e = true.

#[export] Instance goes_dec {D} `{BlockDevice D} (s : kernel D) w e : Decision (goes s w e).
Proof. unfold goes. apply _. Defined.

(** Inode numbers of entries are those of the table, and [int]s. *)
Definition entry_ino {D} `{BlockDevice D} (s : kernel D) (e : dir_t) : Prop :=
  is_ino (k_fs s) (d_ino e) /\ d_ino e < 2 ^ 31.

(** The directory [i] of [s] lost entry [k]: the last entry took its place. *)
Record dir_removed {D} `{BlockDevice D} (s : kernel D) (i : inode_t) (m : Z) (L : list Z)
    (k : nat) (t : kernel D) (i' : inode_t) : Prop := {
  dv_dir : dir_rep t i' (m - 1) L;
  dv_size : i' = set_size (32 * (m - 1)) i;
  dv_entries : dir_entries (k_disk t) (i_ic i') (m - 1) =
    take (Z.to_nat (m - 1))
      (<[k := dir_at (k_disk s) (i_ic i) (m - 1)]> (dir_entries (k_disk s) (i_ic i) m));
  dv_inode : inode_at (k_fs t) (k_disk t) (i_number i) = i_ic i';
  dv_inodes j : is_ino (k_fs s) j -> j <> i_number i ->
    inode_at (k_fs t) (k_disk t) j = inode_at (k_fs s) (k_disk s) j;
  dv_rest : t = set_k_disk (k_disk t) s;
  dv_frame : disk_frame (fun b => b ∈ owned (k_disk s) (i_ic i) (Z.max 1 ((m + 15) / 16))) s t;
  dv_owned : owned (k_disk t) (i_ic i') (Z.max 1 ((m - 1 + 15) / 16)) ⊆
    owned (k_disk s) (i_ic i) (Z.max 1 ((m + 15) / 16));
}.

Section Removal.
Context {D : Type} `{BlockDeviceLaws D}.
Implicit Types (s t : kernel D) (d : D) (ic : icommon_t) (L : list Z) (w : list Z).

Lemma wp_active s n (Q : option unit -> kernel D -> Prop) :
  length (k_ai s) = Z.to_nat AIT_LIMIT ->
  Q (if existsb (active n) (k_ai s) then Some tt else None) s ->
  wp (for_find (Z.to_nat AIT_LIMIT) 0 (fun k =>
      i ← at_ Ai k;
      mret (if (i_number i =? n) && negb (ic_mode (i_ic i) =? mode_val IFZERO)
            then Some tt else None))) Q s.
Proof.
  intros Hl HQ. rewrite <-Hl. apply (wp_scan (k_ai s) (active n) (fun _ => tt)).
  - intros k i Hk Hi. by rewrite (run_bind _ _ _ _ _ (at_run Ai k i s Hk Hi)).
  - destruct (list_find _ _) as [[k i]|] eqn:E.
    + apply list_find_Some in E as (Hk & Ha & _).
      assert (Hex : existsb (active n) (k_ai s) = true).
      { apply existsb_exists. exists i. split; [|done]. apply list_elem_of_In.
        by eapply list_elem_of_lookup_2. }
      by rewrite Hex in HQ.
    + apply list_find_None in E.
      assert (Hex : existsb (active n) (k_ai s) = false).
      { apply not_true_iff_false. intros (i & Hi & Ha)%existsb_exists.
        apply list_elem_of_In in Hi. by apply (proj1 (list.Forall_forall _ _) E i Hi). }
      by rewrite Hex in HQ.
Qed.

Lemma wp_removable s par e L (Q : Z -> kernel D -> Prop) :
  fs_rep s L -> length (k_ai s) = Z.to_nat AIT_LIMIT -> entry_ino s e ->
  Q (if may_remove s e then d_ino e else -1) s -> wp (removable par e) Q s.
Proof.
  intros Hs Hl [Hino Hsm] HQ. unfold removable, may_remove in *. wp_steps.
  destruct (d_ino e =? k_cwd s); cbn [negb andb] in *; [by wp_steps|].
  wp_step. apply wp_active; [done|]. destruct (existsb _ _); cbn [negb andb] in *; [by wp_steps|].
  wp_steps. destruct Hino as [H0' Hq]. rewrite (s32_small (d_ino e)) by lia.
  apply wp_readInode; [apply Hs|apply Hs|apply Hs|done|]. wp_steps. cbn [i_ic].
  destruct ((_ =? mode_val IFDIR) && _); cbn [negb] in *; by wp_steps.
Qed.

Lemma owned_less d ic n n' : 0 < n' <= n -> owned d ic n' ⊆+ owned d ic n.
Proof.
  intros Hn'. unfold owned, file_blocks, table_of. replace n with (n' + (n - n')) by lia.
  rewrite seqZ_app, fmap_app, <-app_assoc by lia. apply submseteq_app; [done|].
  replace (n' + (n - n')) with n by lia. apply submseteq_inserts_l.
  destruct (Z.ltb_spec 11 n'), (Z.ltb_spec 11 n); [done|lia|apply submseteq_nil_l|done].
Qed.

(** A file may forget its last block. *)
Lemma file_rep_less s ic n n' L : file_rep s ic n L -> 0 < n' <= n -> file_rep s ic n' L.
Proof.
  intros [Hwf Hn Hnd Hd] Hn'. pose proof (owned_less (k_disk s) ic n n' Hn') as Hsub.
  split; [done|lia| |].
  - apply list.NoDup_app in Hnd as (H1 & H2 & H3). apply list.NoDup_app. split_and!; [|auto|done].
    + destruct (submseteq_Permutation _ _ Hsub) as [k Hk]. rewrite Hk in H1.
      by apply list.NoDup_app in H1 as [H1 _].
    + intros x Hx. apply H2. by eapply elem_of_submseteq.
  - apply list.Forall_forall. intros x Hx. apply (proj1 (list.Forall_forall _ _) Hd).
    by eapply elem_of_submseteq.
Qed.
End Removal.

Section Take.
Context {D : Type} `{BlockDeviceLaws D}.
Implicit Types (s t : kernel D) (d : D) (ic : icommon_t) (L : list Z) (w : list Z).

(** Where the entries of a directory are. *)
Lemma dir_blocks s i m L k :
  dir_rep s i m L -> 0 <= k < m ->
  0 <= k / 16 < Z.max 1 ((m + 15) / 16) /\ m <= 16 * MAXBLKS /\
  valid_addr D (blk_addr (k_disk s) (i_ic i) (k / 16)) /\
  is_block (dev_blk (k_disk s) (blk_addr (k_disk s) (i_ic i) (k / 16))).
Proof.
  intros [Hs Hf Hino Hsize Hm] Hk. pose proof (fi_num _ _ _ _ Hf) as Hmax.
  pose proof (Z.div_mod k 16). pose proof (Z.mod_pos_bound k 16).
  pose proof (Z.div_mod (m + 15) 16). pose proof (Z.mod_pos_bound (m + 15) 16).
  assert (Hq : 0 <= k / 16 < Z.max 1 ((m + 15) / 16)) by (split; [apply Z.div_pos|]; lia).
  destruct (file_rep_blk _ _ _ _ _ Hf Hq) as (Hd & _).
  pose proof (data_addr_valid _ _ (fr_geo _ _ Hs) Hd). split_and!; [lia|lia|lia|done|].
  by apply dev_blk_block; [apply Hs|].
Qed.

Lemma dir_at_lookup d ic k e :
  blk_entries (dev_blk d (blk_addr d ic (k / 16))) !! Z.to_nat (k mod 16) = Some e ->
  dir_at d ic k = e.
Proof. unfold dir_at. by intros ->. Qed.

Lemma wp_getLastDir s i m L (Q : dir_t -> kernel D -> Prop) :
  dir_rep s i m L -> 0 < m -> Q (dir_at (k_disk s) (i_ic i) (m - 1)) s ->
  wp (getLastDir i) Q s.
Proof.
  intros Hd Hm HQ. destruct (dir_blocks s i m L (m - 1) Hd) as (Hq & Hmax & _ & Hb); [lia|].
  destruct Hd as [Hs Hf Hino Hsize _]. unfold MAXBLKS in Hmax. unfold getLastDir. rewrite Hsize.
  rewrite (Z.mul_comm 32 m), Z.div_mul, !u32_small by (unfold is_u32; lia).
  replace (m * 32 - 32) with ((m - 1) * 32) by lia.
  assert (Hdiv : (m - 1) * 32 / 512 = (m - 1) / 16).
  { change 512 with (16 * 32). by rewrite Z.div_mul_cancel_r by lia. }
  wp_steps. apply (wp_file_block s i (Z.max 1 ((m + 15) / 16)) L); [done|exact Hf|lia|lia|]. rewrite Hdiv. wp_steps.
  destruct (blk_entries_ex _ (m - 1) Hb) as (e & He & _). rewrite (dir_at_lookup _ _ _ e He) in HQ.
  apply (wp_lift _ e); [|done]. apply aget_done; [apply Z.mod_pos_bound; lia|done].
Qed.

(** Slot [j] of block [q] overwritten with the last entry and the size reduced. *)
Lemma dir_removed_of s i m L q j d1 d2 :
  dir_rep s i m L -> 0 <= q -> 0 <= j < 16 -> 16 * q + j < m ->
  disk_put (blk_addr (k_disk s) (i_ic i) q)
    (entry_put (dev_blk (k_disk s) (blk_addr (k_disk s) (i_ic i) q)) j
       (dir_at (k_disk s) (i_ic i) (m - 1))) (k_disk s) d1 ->
  inode_put (k_fs s) (i_number i) (i_ic (set_size (32 * (m - 1)) i)) d1 d2 ->
  dir_removed s i m L (Z.to_nat (16 * q + j)) (set_k_disk d2 s) (set_size (32 * (m - 1)) i).
Proof.
  intros Hd Hq Hj Hm Hd1 Hd2. set (last := dir_at (k_disk s) (i_ic i) (m - 1)) in *.
  set (i' := set_size (32 * (m - 1)) i).
  assert (Ek : (16 * q + j) / 16 = q) by (rewrite Z.mul_comm, Z.div_add_l, (Z.div_small j); lia).
  assert (Er : (16 * q + j) mod 16 = j)
    by (rewrite Z.add_comm, Z.mul_comm, Z.mod_add, Z.mod_small; lia).
  destruct (dir_blocks s i m L (16 * q + j) Hd) as (Hk & Hmax & _ & Hb); [lia|].
  destruct (dir_blocks s i m L (m - 1) Hd) as (_ & _ & _ & Hbl); [lia|]. rewrite Ek in Hk, Hb.
  pose proof Hd as [Hs Hf Hino Hsize Hm0]. unfold MAXBLKS in Hmax.
  assert (Hlast : lwf last).
  { destruct (blk_entries_ex _ (m - 1) Hbl) as (e & He & Hwf).
    unfold last. by rewrite (dir_at_lookup _ _ _ e He). }
  destruct (file_store s i _ L q _ (32 * (m - 1)) d1 d2 Hs Hf Hino ltac:(unfold is_u32; lia) Hk
    (entry_put_block _ j last Hb Hlast) Hd1 Hd2) as (R1 & R2 & R3 & R4 & R5 & R6 & R7). fold i' in R2, R3, R4, R7.
  split; [|done| |exact R4|exact R5|done|exact R6|].
  - split; [exact R1| |exact Hino|done|lia].
    apply (file_rep_less _ _ (Z.max 1 ((m + 15) / 16))); [exact R2|].
    pose proof (Z.div_le_mono (m - 1 + 15) (m + 15) 16). lia.
  - apply list_eq. intros l. cbn [k_disk set_k_disk].
    destruct (decide (l < Z.to_nat (m - 1))%nat) as [Hl|Hl].
    2:{ rewrite !lookup_ge_None_2; [done|rewrite length_take; lia|].
        rewrite length_dir_entries. lia. }
    rewrite lookup_take_lt by done. unfold dir_entries at 1. rewrite list_lookup_fmap, lookup_seqZ_lt by lia.
    cbn [fmap option_fmap option_map]. rewrite Z.add_0_l.
    pose proof (Z.div_mod (Z.of_nat l) 16). pose proof (Z.mod_pos_bound (Z.of_nat l) 16).
    assert (Hlq : 0 <= Z.of_nat l / 16 < Z.max 1 ((m + 15) / 16)).
    { pose proof (Z.div_mod (m + 15) 16). pose proof (Z.mod_pos_bound (m + 15) 16).
      split; [apply Z.div_pos|]; lia. }
    assert (Hold : dir_entries (k_disk s) (i_ic i) m !! l = Some (dir_at (k_disk s) (i_ic i) (Z.of_nat l))).
    { unfold dir_entries. rewrite list_lookup_fmap, lookup_seqZ_lt by lia. done. }
    unfold dir_at at 1. rewrite R3 by done.
    destruct (decide (l = Z.to_nat (16 * q + j))) as [->|Hne].
    + rewrite list_lookup_insert_eq by (rewrite length_dir_entries; lia).
      rewrite Z2Nat.id, Ek, Er, decide_True, entry_put_entries by (done || lia).
      rewrite list_lookup_insert_eq; [done|]. unfold blk_entries. rewrite length_dec_arr. lia.
    + rewrite list_lookup_insert_ne, Hold by done. unfold dir_at. do 2 f_equal.
      destruct (decide (Z.of_nat l / 16 = q)) as [E|E]; [|done].
      rewrite entry_put_entries, E by done. by rewrite list_lookup_insert_ne by lia.
  - cbn [k_disk set_k_disk]. intros b Hin. rewrite <-R7.
    eapply elem_of_submseteq; [exact Hin|]. apply owned_less.
    pose proof (Z.div_le_mono (m - 1 + 15) (m + 15) 16). lia.
Qed.
End Take.

Section Remove.
Context {D : Type} `{BlockDeviceLaws D}.
Implicit Types (s t : kernel D) (d : D) (ic : icommon_t) (L : list Z) (w : list Z).

(** What [remove] works on. *)
Record removal_ok s i m L w : Prop := {
  ro_dir : dir_rep s i m L;
  ro_name : is_name w;
  ro_ai : length (k_ai s) = Z.to_nat AIT_LIMIT;
  ro_inos : Forall (entry_ino s) (dir_entries (k_disk s) (i_ic i) m);
}.

Lemma block_entry s i m L q j e :
  dir_rep s i m L -> 0 <= q -> 0 <= j < 16 -> 16 * q + j < m ->
  blk_entries (dev_blk (k_disk s) (blk_addr (k_disk s) (i_ic i) q)) !! Z.to_nat j = Some e ->
  dir_entries (k_disk s) (i_ic i) m !! Z.to_nat (16 * q + j) = Some e /\ lwf e.
Proof.
  intros Hd Hq Hj Hm He. pose proof (dr_num _ _ _ _ Hd) as Hm0.
  assert (Ek : (16 * q + j) / 16 = q) by (rewrite Z.mul_comm, Z.div_add_l, (Z.div_small j); lia).
  assert (Er : (16 * q + j) mod 16 = j)
    by (rewrite Z.add_comm, Z.mul_comm, Z.mod_add, Z.mod_small; lia).
  destruct (dir_blocks s i m L (16 * q + j) Hd) as (_ & _ & _ & Hb); [lia|]. rewrite Ek in Hb.
  split; [|apply (Forall_lookup_1 _ _ _ _ (blk_entries_wf _ Hb) He)].
  unfold dir_entries. rewrite list_lookup_fmap, lookup_seqZ_lt by lia. cbn. f_equal.
  apply dir_at_lookup. replace (0 + Z.of_nat (Z.to_nat (16 * q + j))) with (16 * q + j) by lia.
  by rewrite Ek, Er.
Qed.

Lemma wp_remove_in s i m L w q n (Q : option (dir_t * inode_t) -> kernel D -> Prop) :
  let b := dev_blk (k_disk s) (blk_addr (k_disk s) (i_ic i) q) in
  removal_ok s i m L w -> 0 <= q -> (n <= 16)%nat -> 16 * q + Z.of_nat n <= m ->
  match list_find (goes s w) (take n (blk_entries b)) with
  | Some (j, e) => forall t i',
      dir_removed s i m L (Z.to_nat (16 * q) + j) t i' -> Q (Some (e, i')) t
  | None => Q None s
  end ->
  wp (remove_in i (c_str w) (blk_addr (k_disk s) (i_ic i) q) (Some b) n) Q s.
Proof.
  intros b [Hd Hw Hai Hinos] Hq Hn Hm HQ. unfold remove_in.
  apply (wp_for_find (fun j t => t = s /\
    list_find (goes s w) (take (Z.to_nat j) (blk_entries b)) = None)); [done| |].
  2:{ intros t [-> Hnone]. replace (Z.to_nat (0 + Z.of_nat n)) with n in Hnone by lia.
      by rewrite Hnone in HQ. }
  intros j t Hj [-> Hnone]. wp_steps.
  destruct (lookup_lt_ex (blk_entries b) (Z.to_nat j)) as [e He].
  { unfold blk_entries. rewrite length_dec_arr. lia. }
  destruct (block_entry s i m L q j e Hd) as [Hent Hwf]; [lia..|done|].
  destruct (dir_blocks s i m L (16 * q + j) Hd) as (Hqn & Hmax & Hv & Hb); [lia|].
  replace ((16 * q + j) / 16) with q in Hqn, Hv, Hb
    by (rewrite Z.mul_comm, Z.div_add_l, (Z.div_small j); lia). fold b in Hb.
  apply (wp_lift _ e); [by apply aget_done; [lia|]|]. wp_steps.
  apply (wp_lift _ (matches w e)); [by apply entry_is_spec|]. wp_steps.
  assert (Hno : ~ goes s w e ->
    list_find (goes s w) (take (Z.to_nat (j + 1)) (blk_entries b)) = None).
  { intros Hg. replace (Z.to_nat (j + 1)) with (S (Z.to_nat j)) by lia.
    rewrite (take_S_snoc _ _ _ He). apply list_find_app_None. split; [done|].
    apply list_find_None. by apply Forall_singleton. }
  assert (Hyes : goes s w e ->
    list_find (goes s w) (take n (blk_entries b)) = Some (Z.to_nat j, e)).
  { intros Hg. apply list_find_Some. rewrite lookup_take_lt by lia. split_and!; [done|done|].
    intros l y Hl Hlj. rewrite lookup_take_lt in Hl by lia. apply list_find_None in Hnone.
    apply (proj1 (list.Forall_forall _ _) Hnone), (list_elem_of_lookup_2 _ l).
    by rewrite lookup_take_lt by lia. }
  assert (Hg : goes s w e <-> matches w e && may_remove s e = true) by done.
  destruct (matches w e); cbn [andb] in Hg; [|by wp_steps; split; [done|apply Hno; rewrite Hg]].
  pose proof (Forall_lookup_1 _ _ _ _ Hinos Hent) as Hei.
  wp_steps. apply (wp_removable s i e L); [apply Hd|done|done|].
  destruct (may_remove s e); [|by wp_steps; split; [done|apply Hno; rewrite Hg]].
  assert (Hne : d_ino e <> -1) by (destruct Hei as [[? _] _]; lia).
  rewrite Hyes in HQ by by apply Hg. wp_steps. destruct (Z.eqb_spec (d_ino e) (-1)); [done|].
  cbn [negb]. wp_steps.
  assert (Hm1 : 0 < m) by lia. apply (wp_getLastDir s i m L); [done|lia|]. wp_steps.
  eapply wp_lift; [apply aset_done; rewrite length_dec_arr; lia|]. wp_steps.
  set (last := dir_at (k_disk s) (i_ic i) (m - 1)).
  change (enc_arr _) with (entry_put b j last).
  destruct (dir_blocks s i m L (m - 1) Hd) as (_ & _ & _ & Hbl); [lia|].
  assert (Hlast : lwf last).
  { destruct (blk_entries_ex _ (m - 1) Hbl) as (x & Hx & Hxw).
    unfold last. by rewrite (dir_at_lookup _ _ _ x Hx). }
  apply wp_put_block; [apply Hd|done|by apply entry_put_block|]. intros d1 Hd1.
  rewrite (dr_size _ _ _ _ Hd), u32_small by (unfold is_u32, MAXBLKS in *; lia).
  replace (32 * m - 32) with (32 * (m - 1)) by lia. wp_steps.
  apply wp_writeInode; [by destruct Hd1|apply Hd|apply Hd| |].
  { pose proof (fi_wf _ _ _ _ (dr_file _ _ _ _ Hd)) as Hic. unfold MAXBLKS in Hmax.
    cbn in *. unfold is_u32 in *. split_and!; try tauto; lia. }
  intros d2 Hd2. wp_steps. change (set_k_disk d2 (set_k_disk d1 s)) with (set_k_disk d2 s).
  apply HQ. replace (Z.to_nat (16 * q) + Z.to_nat j)%nat with (Z.to_nat (16 * q + j)) by lia.
  by apply (dir_removed_of s i m L q j d1 d2); [done|lia|lia|lia|..].
Qed.

Definition victim s i m w : option (nat * dir_t) :=
  list_find (goes s w) (dir_entries (k_disk s) (i_ic i) (searched m)).

(** One more block of entries, seen by [list_find]. *)
Lemma victim_block s w d ic q n :
  0 <= q -> (n <= 16)%nat ->
  list_find (goes s w) (dir_entries d ic (16 * q)) = None ->
  list_find (goes s w) (dir_entries d ic (16 * q + Z.of_nat n)) =
  prod_map (fun k => (k + Z.to_nat (16 * q))%nat) id <$>
    list_find (goes s w) (take n (blk_entries (dev_blk d (blk_addr d ic q)))).
Proof.
  intros Hq Hn Hnone. rewrite dir_entries_add, dir_entries_block, Nat2Z.id by lia.
  rewrite list_find_app_r by done. by rewrite length_dir_entries.
Qed.

Lemma wp_remove s i m L w child (Q : Z * dir_t * inode_t -> kernel D -> Prop) :
  removal_ok s i m L w ->
  match victim s i m w with
  | Some (k, e) => forall t i', dir_removed s i m L k t i' -> Q (d_ino e, e, i') t
  | None => Q (-1, child, i) s
  end ->
  wp (remove child i (c_str w)) Q s.
Proof.
  intros Hro HQ. pose proof Hro as [Hd Hw Hai Hinos]. pose proof Hd as [Hs Hf Hino Hsize Hm].
  pose proof (fi_num _ _ _ _ Hf) as Hmax. unfold MAXBLKS in Hmax. unfold remove, victim in *.
  pose proof (Z.div_mod (m + 15) 16). pose proof (Z.mod_pos_bound (m + 15) 16).
  rewrite Hsize, s32_small, Z.quot_div_nonneg, (Z.mul_comm 32 m), Z.div_mul by lia.
  destruct (Z.gtb_spec m 0) as [Hpos|Hz].
  2:{ assert (m = 0) as -> by lia. wp_steps. exact HQ. }
  replace ((m - 1) / 16 + 1 - 1) with ((m - 1) / 16) by lia.
  pose proof (Z.div_mod (m - 1) 16). pose proof (Z.mod_pos_bound (m - 1) 16).
  pose proof (Z.div_mod m 16). pose proof (Z.mod_pos_bound m 16).
  set (n := Z.max 1 ((m + 15) / 16)) in *. set (q := (m - 1) / 16) in *.
  assert (Hq : 0 <= q < n) by (unfold q; split; [apply Z.div_pos|]; lia).
  change BLOCK_SIZE with 512. set (blk k := dev_blk (k_disk s) (blk_addr (k_disk s) (i_ic i) k)).
  assert (Hrd : forall k buf (R : Z * option (list Z) -> kernel D -> Prop), 0 <= k < n ->
     R (blk_addr (k_disk s) (i_ic i) k, Some (blk k)) s -> wp (getDataBlock buf i (512 * k)) R s).
  { intros k buf R Hk HR. apply (wp_file_block s i n L); [done|done|lia| |];
      rewrite (Z.mul_comm 512), Z.div_mul by lia; [lia|done]. }
  (* what a removal in block [k] means for the whole directory *)
  assert (Hhit : forall k l j e t i', 0 <= k -> (l <= 16)%nat -> 16 * k + Z.of_nat l <= searched m ->
     list_find (goes s w) (dir_entries (k_disk s) (i_ic i) (16 * k)) = None ->
     list_find (goes s w) (take l (blk_entries (blk k))) = Some (j, e) ->
     dir_removed s i m L (Z.to_nat (16 * k) + j) t i' -> Q (s32 (d_ino e), e, i') t).
  { intros k l j e t i' Hk Hl Hle Hnone Hj Hrem.
    assert (Hv : list_find (goes s w) (dir_entries (k_disk s) (i_ic i) (searched m)) =
              Some ((Z.to_nat (16 * k) + j)%nat, e)).
    { replace (searched m) with (16 * k + Z.of_nat l + (searched m - (16 * k + Z.of_nat l))) by lia.
      rewrite dir_entries_add by lia. apply list_find_app_l.
      rewrite victim_block by done. fold (blk k). rewrite Hj. cbn. do 2 f_equal. lia. }
    rewrite Hv in HQ. apply list_find_Some in Hv as (Hlk & _ & _).
    assert (He : entry_ino s e).
    { apply (Forall_lookup_1 _ _ (Z.to_nat (16 * k) + j)%nat e Hinos).
      assert (Hsm : searched m <= m) by (unfold searched; destruct (Z.eqb_spec (m mod 16) 0); lia).
      replace m with (searched m + (m - searched m)) by lia.
      rewrite dir_entries_add by lia. by apply lookup_app_l_Some. }
    destruct He as [[He0 _] He1]. rewrite s32_small by lia. by apply HQ. }
  assert (Hr : searched m = 16 * q + m mod 16).
  { unfold searched, q. destruct (Z.eqb_spec (m mod 16) 0); lia. }
  wp_steps. apply (wp_for_loop (fun k _ t => t = s /\
    list_find (goes s w) (dir_entries (k_disk s) (i_ic i) (16 * k)) = None)); [done| |].
  - intros k buf t Hk [-> Hnone]. wp_steps. apply Hrd; [lia|]. wp_steps.
    apply (wp_remove_in s i m L w k 16); [done|lia|lia|lia|]. fold (blk k).
    destruct (list_find _ (take 16 _)) as [[j e]|] eqn:Ej.
    + intros t i' Hrem. wp_steps. apply (Hhit k 16%nat j); [lia|lia|lia|done|done|done].
    + wp_steps. split; [done|]. replace (16 * (k + 1)) with (16 * k + Z.of_nat 16) by lia.
      rewrite victim_block by (done || lia). fold (blk k). by rewrite Ej.
  - intros buf t [-> Hnone]. replace (0 + Z.of_nat (Z.to_nat q)) with q in Hnone by lia.
    wp_steps. replace (q + 1 - 1) with q by lia. apply Hrd; [done|]. wp_steps.
    apply (wp_remove_in s i m L w q (Z.to_nat (m mod 16))); [done|lia|lia|lia|]. fold (blk q).
    destruct (list_find _ (take (Z.to_nat (m mod 16)) _)) as [[j e]|] eqn:Ej.
    + intros t i' Hrem. wp_steps. apply (Hhit q (Z.to_nat (m mod 16)) j); [lia|lia|lia|done|done|done].
    + wp_steps. replace (searched m) with (16 * q + Z.of_nat (Z.to_nat (m mod 16))) in HQ by lia.
      rewrite victim_block in HQ by (done || lia). fold (blk q) in HQ. by rewrite Ej in HQ.
Qed.
End Remove.

(** * The property of removal *)

Section Claims.
Context {D : Type} `{BlockDeviceLaws D}.
Implicit Types (s t : kernel D) (L : list Z) (w : list Z).

(** C26: removal.  [remove] takes out the first of the entries it looks at that is taken
    for the name and may go: not the working directory, not an active inode, not a
    directory with more than two entries.  It returns the entry and its inode number;
    the last entry moves into the slot, the directory is one entry shorter, in
    memory and on the disk, and no other inode changed.  When there is none the result
    is -1, and nothing changed. *)
Theorem remove_correct s i m L w child :
  removal_ok s i m L w ->
  match victim s i m w with
  | Some (k, e) => exists t i',
      remove child i (c_str w) s = Done ((d_ino e, e, i'), t) /\ dir_removed s i m L k t i'
  | None => remove child i (c_str w) s = Done ((-1, child, i), s)
  end.
Proof.
  intros Hro. pose proof (wp_remove s i m L w child) as Hwp.
  destruct (victim s i m w) as [[k e]|].
  - specialize (Hwp (fun r t => exists i', r = (d_ino e, e, i') /\ dir_removed s i m L k t i') Hro).
    apply wp_done in Hwp; [|by eauto]. destruct Hwp as (r & t & Hr & i' & -> & Hrem). eauto.
  - apply wp_run. by apply Hwp.
Qed.
End Claims.

(** ** Witness: the file [f] goes, and the directory [d] takes its slot *)

Lemma demo_removal : removal_ok demo_state demo_dir 3 [21; 20] [102].
Proof.
  split; [apply demo_dir_rep|by apply (bool_decide_unpack _)|reflexivity|].
  assert (E : dir_entries (k_disk demo_state) (i_ic demo_dir) 3 = take 3 demo_root)
    by (vm_compute; reflexivity).
  rewrite E. repeat (apply Forall_cons_2 || apply Forall_nil_2); (split; [split|]); by vm_compute.
Qed.

Lemma remove_correct_witness :
  exists t i', remove (mk_dir 0 0 []) demo_dir (c_str [102]) demo_state =
      Done ((1, demo_entry 1 [102], i'), t) /\
    dir_entries (k_disk t) (i_ic i') 2 = [demo_entry 0 [46]; demo_entry 2 [100]].
Proof.
  pose proof (remove_correct demo_state demo_dir 3 [21; 20] [102] (mk_dir 0 0 []) demo_removal) as Hr.
  assert (E : victim demo_state demo_dir 3 [102] = Some (1%nat, demo_entry 1 [102]))
    by (vm_compute; reflexivity).
  rewrite E in Hr. destruct Hr as (t & i' & Hr & Hrem). exists t, i'. split; [exact Hr|].
  pose proof (dv_entries _ _ _ _ _ _ _ Hrem) as He. change (3 - 1) with 2 in He.
  rewrite He. vm_compute. reflexivity.
Defined.
