(* ===== verification/PathProof.v ===== *)
(** * Paths

    [strtok] splits a path into its components, and the walks of [path_to_ino],
    [path_to_ino2] and [cd] follow them from directory to directory. *)

From S2P Require Import Prelude CMonad Layout BlockDev Kernel FsOps FreeList InodeProof BlockMap FileRep FileGrow Dir FileIO DirProof.

(** ** Components *)

(** A component: a name without a slash. *)
Definition is_comp (w : list Z) : Prop := w <> [] /\ is_name w /\ SLASH ∉ w.

(** The bytes are a path with the components [ws]: slashes before, between and behind
    them in any number, and a terminator. *)
Inductive path_of : list Z -> list (list Z) -> Prop :=
  | path_end k tl : path_of (replicate k SLASH ++ 0 :: tl) []
  | path_comp k w rest ws :
      is_comp w -> path_of rest ws -> head rest = Some SLASH \/ head rest = Some 0 ->
      path_of (replicate k SLASH ++ w ++ rest) (w :: ws).

Section Strtok.
Implicit Types (w buf rest : list Z) (pos : nat).

Lemma count_while_app (p : Z -> bool) a b :
  Forall (fun c => p c = true) a -> (forall c, head b = Some c -> p c = false) ->
  count_while p (a ++ b) = length a.
Proof.
  intros Ha Hb. induction Ha as [|c a Hc _ IH]; cbn [app count_while length].
  - destruct b as [|c b]; [done|]. cbn. by rewrite Hb.
  - by rewrite Hc, IH.
Qed.

Lemma count_slashes k rest c :
  head rest = Some c -> c <> SLASH -> count_while (Z.eqb SLASH) (replicate k SLASH ++ rest) = k.
Proof.
  intros Hr Hc. rewrite count_while_app; [apply length_replicate|by apply Forall_replicate|].
  intros c' Hc'. rewrite Hr in Hc'. injection Hc' as <-. apply Z.eqb_neq. congruence.
Qed.

Lemma comp_plain w : is_comp w -> Forall (fun c => negb (c =? SLASH) && negb (c =? 0) = true) w.
Proof.
  intros (_ & (_ & Hz & _) & Hs). apply list.Forall_forall. intros c Hc.
  pose proof (proj1 (list.Forall_forall _ _) Hz c Hc) as Hc0.
  destruct (Z.eqb_spec c SLASH); [by subst|]. by destruct (Z.eqb_spec c 0).
Qed.

(** A leading slash does not matter. *)
Lemma path_of_slash rest ws : path_of (SLASH :: rest) ws -> path_of rest ws.
Proof.
  intros Hp. inversion Hp as [k tl E|k w rest' ws' Hw Hp' Hh E]; subst.
  - destruct k as [|k]; [done|]. injection E as <-. constructor.
  - destruct k as [|k].
    + destruct Hw as (Hne & _ & Hs). destruct w as [|c w]; [done|]. injection E as -> _.
      destruct Hs. by left.
    + injection E as <-. by constructor.
Qed.

Lemma path_of_length rest ws : path_of rest ws -> (length ws < length rest)%nat.
Proof.
  induction 1 as [k tl|k w rest ws Hw _ IH _]; rewrite !length_app; cbn [length]; [lia|].
  destruct Hw as [Hne _]. destruct w; [done|]. cbn [length]. lia.
Qed.

Lemma path_of_comps rest ws : path_of rest ws -> Forall is_comp ws.
Proof. induction 1; by constructor. Qed.

Lemma drop_app_at {A} n (l a b : list A) : drop n l = a ++ b -> drop (n + length a) l = b.
Proof. intros E. by rewrite <-drop_drop, E, drop_app_length. Qed.

Lemma drop_lookup {A} n (l r : list A) c : drop n l = c :: r -> l !! n = Some c.
Proof. intros E. rewrite <-(Nat.add_0_r n), <-lookup_drop, E. done. Qed.

(** No component left. *)
Lemma strtok_none buf pos :
  path_of (drop pos buf) [] -> exists pos', strtok buf pos = Done (None, pos', buf).
Proof.
  intros Hp. inversion Hp as [k tl E|]; subst. unfold strtok. rewrite <-E.
  rewrite (count_slashes k _ 0) by done. symmetry in E. apply drop_app_at in E.
  rewrite length_replicate in E. rewrite (drop_lookup _ _ _ _ E). by eexists.
Qed.

(** The next component. *)
Lemma strtok_some buf pos w ws :
  path_of (drop pos buf) (w :: ws) -> exists pos' buf',
    strtok buf pos = Done (Some (c_str w), pos', buf') /\ path_of (drop pos' buf') ws.
Proof.
  intros Hp. inversion Hp as [|k w' rest ws' Hw Hp' Hh E]; subst. unfold strtok. rewrite <-E.
  pose proof Hw as (Hne & (_ & Hz & _) & Hs). pose proof (comp_plain w Hw) as Hpl.
  destruct w as [|c w]; [done|].
  assert (Hc : c <> SLASH /\ c <> 0).
  { split; [intros ->; apply Hs; by left|]. by apply Forall_inv in Hz. }
  rewrite (count_slashes k _ c) by (done || apply Hc).
  symmetry in E. apply drop_app_at in E. rewrite length_replicate in E.
  rewrite (drop_lookup _ _ _ _ E). destruct (Z.eqb_spec c 0) as [|_]; [by destruct Hc|].
  set (start := (pos + k)%nat) in *. cbv zeta. rewrite E.
  rewrite count_while_app; [|done|].
  2:{ intros c' Hc'. destruct Hh as [Hh|Hh]; rewrite Hh in Hc'; injection Hc' as <-; done. }
  rewrite take_app_length. apply drop_app_at in E.
  set (n := length (c :: w)) in *. destruct rest as [|d rest]; [by destruct Hh|].
  rewrite (drop_lookup _ _ _ _ E). destruct Hh as [Hh|Hh]; injection Hh as ->.
  - cbn [Z.eqb]. eexists _, _. split; [done|]. rewrite drop_insert_lt by lia.
    apply path_of_slash. replace (S (start + n)) with (start + n + 1)%nat by lia.
    rewrite <-drop_drop, E. exact Hp'.
  - eexists _, _. split; [done|]. by rewrite E.
Qed.
End Strtok.

(** ** Following a path *)

(** The inode [n] as [readInode] gives it. *)
Definition inode_of {D} `{BlockDevice D} (s : kernel D) (n links : Z) : inode_t :=
  mk_inode n links (inode_at (k_fs s) (k_disk s) n).

(** The number of entries of the directory [n], and what a name is in it. *)
Definition dir_count {D} `{BlockDevice D} (s : kernel D) (n : Z) : Z :=
  ic_size (inode_at (k_fs s) (k_disk s) n) / 32.

Definition dir_find {D} `{BlockDevice D} (s : kernel D) (n : Z) (w : list Z) : Z :=
  default (-1) (lookup_name w
    (dir_entries (k_disk s) (inode_at (k_fs s) (k_disk s) n) (searched (dir_count s n)))).

(** Inode [n] holds a directory. *)
Definition is_dir {D} `{BlockDevice D} (s : kernel D) (L : list Z) (n : Z) : Prop :=
  dir_rep s (inode_of s n 0) (dir_count s n) L.

(** Where the walk along the components [v :: ws] from directory [dir] ends: the inode
    number of the last component followed or -1, the directory it was looked for in, its
    name, and the components that were not reached.  Every directory it passes through
    must be one. *)
Fixpoint resolves {D} `{BlockDevice D} (s : kernel D) (L : list Z) (dir : Z) (v : list Z)
    (ws : list (list Z)) (r ino0 : Z) (tok0 : list Z) (left : list (list Z)) : Prop :=
  is_dir s L dir /\
  match ws with
  | [] => r = dir_find s dir v /\ ino0 = dir /\ tok0 = v /\ left = []
  | w :: ws' =>
      if dir_find s dir v =? -1 then r = -1 /\ ino0 = dir /\ tok0 = v /\ left = ws
      else resolves s L (dir_find s dir v) w ws' r ino0 tok0 left
  end.

Section Walk.
Context {D : Type} `{BlockDeviceLaws D}.
Implicit Types (s t : kernel D) (d : D) (L : list Z) (w : list Z).

Lemma wp_dir_find s L n links w (Q : Z -> kernel D -> Prop) :
  is_dir s L n -> is_name w -> Q (dir_find s n w) s ->
  wp (name_to_ino (c_str w) (inode_of s n links)) Q s.
Proof.
  intros [Hs Hf Hino Hsize Hm] Hw HQ.
  by apply (wp_name_to_ino s (inode_of s n links) (Z.max 1 ((dir_count s n + 15) / 16))
    (dir_count s n) L); [..|lia| |].
Qed.

(** What a walk says of its end. *)
Record walk_end s (r ino0 : Z) (tok0 : list Z) (left : list (list Z)) (e : walk_t) : Prop := {
  we_inode : exists links, w_inode e = inode_of s ino0 links;
  we_ino : w_ino e = r;
  we_ino0 : w_ino0 e = ino0;
  we_tok0 : w_tok0 e = c_str tok0;
  we_tok : w_tok e = c_str <$> head left;
}.

Lemma wp_walk s L v ws r ino0 tok0 left fuel e buf pos (Q : walk_t * list Z -> kernel D -> Prop) :
  resolves s L (w_ino e) v ws r ino0 tok0 left ->
  Forall is_comp (v :: ws) -> w_tok e = Some (c_str v) -> path_of (drop pos buf) ws ->
  (length ws < fuel)%nat ->
  (forall e' buf', walk_end s r ino0 tok0 left e' -> Q (e', buf') s) ->
  wp (walk fuel e buf pos) Q s.
Proof.
  revert v e buf pos fuel. induction ws as [|w ws IH]; intros v e buf pos fuel Hr Hc Htok Hp Hfuel HQ;
    (destruct fuel as [|fuel]; [lia|]); cbn [walk]; rewrite Htok;
    (destruct Hr as [Hd Hr]); pose proof (Forall_inv Hc) as (_ & Hv & _);
    (assert (Hne : w_ino e <> -1) by (pose proof (dr_ino _ _ _ _ Hd) as [Hge _]; cbn in Hge; lia));
    (destruct (Z.eqb_spec (w_ino e) (-1)) as [|_]; [done|]).
  - wp_step. apply wp_readInode; [apply Hd..|]. wp_step.
    apply (wp_dir_find s L (w_ino e) (i_links (w_inode e)) v); [done|done|]. wp_step.
    destruct (strtok_none buf pos Hp) as [pos' Es]. apply (wp_lift _ _ _ _ Es).
    destruct Hr as (-> & -> & -> & ->). destruct fuel; cbn [walk w_tok]; wp_steps;
      apply HQ; (split; [by eexists|done..]).
  - wp_step. apply wp_readInode; [apply Hd..|]. wp_step.
    apply (wp_dir_find s L (w_ino e) (i_links (w_inode e)) v); [done|done|]. wp_step.
    destruct (strtok_some buf pos w ws Hp) as (pos' & buf' & Es & Hp').
    apply (wp_lift _ _ _ _ Es). destruct (Z.eqb_spec (dir_find s (w_ino e) v) (-1)) as [E|E].
    + destruct Hr as (-> & -> & -> & ->). destruct fuel; cbn [walk w_tok w_ino];
        rewrite E; wp_steps; apply HQ; (split; [by eexists|done..]).
    + apply (IH w); [done| |done|done|cbn [length] in Hfuel; lia|done].
      by apply Forall_inv_tail in Hc.
Qed.

Lemma wp_walk_path s L path dir v ws r ino0 tok0 left (Q : walk_t * list Z -> kernel D -> Prop) :
  path_of path (v :: ws) -> resolves s L dir v ws r ino0 tok0 left ->
  (forall e path', walk_end s r ino0 tok0 left e -> Q (e, path') s) ->
  wp (walk_path path dir) Q s.
Proof.
  intros Hp Hr HQ. pose proof (path_of_comps _ _ Hp) as Hc. unfold walk_path. wp_step. pose proof (path_of_length _ _ Hp) as Hlen.
  destruct (strtok_some path 0 v ws) as (pos & buf & Es & Hp'); [by rewrite drop_0|].
  apply (wp_lift _ _ _ _ Es). cbn [length default] in *.
  assert (Hbl : length buf = length path).
  { unfold strtok in Es. destruct (path !! _) as [c|]; [|done]. destruct (c =? 0); [done|].
    destruct (path !! _) as [c'|]; [|done]. destruct (c' =? 0); injection Es as _ _ <-; [done|].
    apply length_insert. }
  by apply (wp_walk s L v ws r ino0 tok0 left); [..|lia|].
Qed.
End Walk.

(** * The properties of paths *)

Section Claims.
Context {D : Type} `{BlockDeviceLaws D}.
Implicit Types (s t : kernel D) (L : list Z) (w : list Z).

(** C29: path lookup.  Whatever slashes separate its components, [path_to_ino] follows
    a path from directory to directory: it answers the inode number of the last
    component, or -1 when one of them is not in the directory reached so far, and
    leaves the kernel as it was.  The bytes of the path are not what they were. *)
Theorem path_to_ino_correct s L path dir v ws r ino0 tok0 left :
  path_of path (v :: ws) -> resolves s L dir v ws r ino0 tok0 left ->
  exists path', path_to_ino path dir s = Done ((r, path'), s).
Proof.
  intros Hp Hr.
  assert (Hw : wp (path_to_ino path dir) (fun x t => t = s /\ x.1 = r) s).
  { unfold path_to_ino. wp_step. apply (wp_walk_path s L path dir v ws r ino0 tok0 left); [done..|].
    intros e path' He. wp_steps. split; [done|]. apply (we_ino _ _ _ _ _ _ He). }
  apply wp_done in Hw as ([r' path'] & t & Hrun & -> & <-). by exists path'.
Qed.

(** The working directory changes exactly when the whole path was found. *)
Theorem cd_correct s L path v ws r ino0 tok0 left :
  path_of path (v :: ws) -> resolves s L (s32 (k_cwd s)) v ws r ino0 tok0 left ->
  exists path', cd path s =
    if r =? -1 then Done ((-1, path'), s) else Done ((0, path'), set_k_cwd (u32 r) s).
Proof.
  intros Hp Hr.
  assert (Hw : wp (cd path) (fun x t =>
            if r =? -1 then t = s /\ x.1 = -1 else t = set_k_cwd (u32 r) s /\ x.1 = 0) s).
  { unfold cd. wp_steps. apply (wp_walk_path s L path _ v ws r ino0 tok0 left); [done..|].
    intros e path' He. wp_steps. rewrite (we_ino _ _ _ _ _ _ He). by destruct (r =? -1); wp_steps. }
  apply wp_done in Hw as ([r' path'] & t & Hrun & Hx). exists path'.
  destruct (r =? -1); destruct Hx as [-> Hx]; cbn in Hx; by subst.
Qed.
End Claims.

(** The path is destroyed on the way.  [strtok] ends each component with a terminator,
    so a second walk over the same bytes stops behind the first component: the path
    [d/..] is the root directory, and then it is [d].  [getProgramEntry] walks it
    twice. *)
Theorem path_clobbered :
  value ('(a, p) ← path_to_ino [100; 47; 46; 46; 0] ROOT_DIR;
         '(b, _) ← path_to_ino p ROOT_DIR;
         mret (a, b)) demo_state = Some (0, 2).
Proof. vm_compute. reflexivity. Qed.

(** ** Witnesses *)

Lemma demo_is_dir n : n = 0 \/ n = 2 -> is_dir demo_state [21; 20] n.
Proof.
  intros [-> | ->]; (split; [apply demo_rep| |by split|by vm_compute|by vm_compute]); split.
  1,5: by apply (bool_decide_unpack _).
  1,4: by split; vm_compute.
  1,3: by vm_compute; apply (bool_decide_unpack _).
  all: repeat (apply Forall_cons_2 || apply Forall_nil_2); by vm_compute.
Qed.

(** [/d//..]. *)
Definition demo_path : list Z := [47; 100; 47; 47; 46; 46; 0].

Lemma demo_path_of : path_of demo_path [[100]; [46; 46]].
Proof.
  assert (Hc : forall w, w <> [] -> bool_decide (is_name w) = true -> bool_decide (SLASH ∈ w) = false ->
            is_comp w).
  { intros w H1 H2%bool_decide_eq_true H3%bool_decide_eq_false. done. }
  change demo_path with (replicate 1 SLASH ++ [100] ++ replicate 2 SLASH ++ [46; 46] ++ [0]).
  apply path_comp; [by apply Hc| |by left]. apply path_comp; [by apply Hc| |by right].
  apply (path_end 0 []).
Qed.

Lemma demo_resolves : resolves demo_state [21; 20] 0 [100] [[46; 46]] 0 2 [46; 46] [].
Proof.
  cbn [resolves]. split; [by apply demo_is_dir; left|].
  assert (E : dir_find demo_state 0 [100] = 2) by (vm_compute; reflexivity). rewrite E.
  cbn [Z.eqb]. split; [by apply demo_is_dir; right|]. split_and!; [|done..].
  vm_compute. reflexivity.
Qed.

Lemma path_to_ino_correct_witness :
  exists path', path_to_ino demo_path 0 demo_state = Done ((0, path'), demo_state).
Proof.
  apply (path_to_ino_correct demo_state [21; 20] demo_path 0 [100] [[46; 46]] 0 2 [46; 46] []).
  - apply demo_path_of.
  - apply demo_resolves.
Defined.

Lemma cd_correct_witness :
  exists path', cd demo_path demo_state = Done ((0, path'), set_k_cwd 0 demo_state).
Proof.
  apply (cd_correct demo_state [21; 20] demo_path [100] [[46; 46]] 0 2 [46; 46] []).
  - apply demo_path_of.
  - apply demo_resolves.
Defined.
