(* ===== verification/Create.v ===== *)
(** * Creating files

    [path_to_ino2] on a path whose last component is missing: a new inode with its
    first block, and an entry in the directory. *)

From S2P Require Import Prelude CMonad Layout BlockDev Kernel FsOps FreeList InodeProof BlockMap FileRep FileGrow Dir FileIO DirProof PathProof.

Section Frame.
Context {D : Type} `{BlockDeviceLaws D}.
Implicit Types (s t : kernel D) (d : D) (L : list Z) (w : list Z).

(** A directory none of whose blocks was written is still there, entry by entry. *)
Lemma dir_rep_elsewhere (ex : Z -> Prop) s t i m L L' :
  dir_rep s i m L -> fs_rep t L' -> fs_frame ex s t ->
  (let own := owned (k_disk s) (i_ic i) (Z.max 1 ((m + 15) / 16)) in
   NoDup (own ++ L') /\ forall b, b ∈ own -> ~ ex b) ->
  dir_rep t i m L' /\
  forall k, dir_entries (k_disk t) (i_ic i) (Z.min k m) = dir_entries (k_disk s) (i_ic i) (Z.min k m).
Proof.
  intros [Hs Hf Hino Hsize Hm] Ht Hfr [Hnd Hex]. pose proof (fr_geo _ _ Hs) as Hg.
  set (n := Z.max 1 ((m + 15) / 16)) in *. pose proof (fi_num _ _ _ _ Hf) as Hmax.
  assert (Htab : 11 < n -> ~ ex (ib_at (i_ic i) 0)).
  { intros H11. apply Hex, elem_of_app. right. unfold table_of. destruct (Z.ltb_spec 11 n); [by left|lia]. }
  split.
  - split; [done|by apply (file_rep_frame ex s t _ n L L' Hf Hfr Hg)|by apply (is_ino_frame ex s)|done|done].
  - intros k. unfold dir_entries. apply list_fmap_ext. intros j x Hx%lookup_seqZ.
    pose proof (Z.div_mod x 16). pose proof (Z.mod_pos_bound x 16).
    pose proof (Z.div_mod (m + 15) 16). pose proof (Z.mod_pos_bound (m + 15) 16).
    assert (Hk : 0 <= x / 16 < n) by (split; [apply Z.div_pos|]; lia).
    unfold dir_at. rewrite (blk_addr_frame ex s t (i_ic i) n _ Hfr Hk); [|apply Hmax|].
    2:{ intros H11. destruct (file_rep_table s (i_ic i) n L Hf H11) as [Hd _].
        split; [by apply (data_addr_valid (k_fs s))|by apply Htab]. }
    destruct (file_rep_blk s (i_ic i) n L _ Hf Hk) as (Hd & _).
    rewrite (ff_blk _ _ _ Hfr); [done|by apply (data_addr_valid (k_fs s))|].
    apply Hex, elem_of_app. left. apply elem_of_file_blocks. eauto.
Qed.

(** Its blocks are the same. *)
Lemma dir_owned_frame (ex : Z -> Prop) s t i m L :
  dir_rep s i m L -> fs_frame ex s t ->
  let n := Z.max 1 ((m + 15) / 16) in
  (forall b, b ∈ owned (k_disk s) (i_ic i) n -> ~ ex b) ->
  owned (k_disk t) (i_ic i) n = owned (k_disk s) (i_ic i) n.
Proof.
  intros [Hs Hf _ _ _] Hfr n Hex. unfold owned. f_equal. apply file_blocks_ext. intros k Hk.
  apply (blk_addr_frame ex s t (i_ic i) n k Hfr Hk); [by apply (fi_num _ _ _ _ Hf)|]. intros H11.
  destruct (file_rep_table s (i_ic i) n L Hf H11) as [Hd _].
  split; [apply (data_addr_valid (k_fs s)); [apply Hs|done]|]. apply Hex, elem_of_app. right.
  unfold table_of. destruct (Z.ltb_spec 11 n); [by left|lia].
Qed.

(** In particular when no data block was. *)
Lemma dir_rep_frame (ex : Z -> Prop) s t i m L L' :
  dir_rep s i m L -> fs_rep t L' -> fs_frame ex s t -> L' ⊆ L ->
  (forall b, data_addr D (k_fs s) b -> ~ ex b) ->
  dir_rep t i m L' /\
  forall k, dir_entries (k_disk t) (i_ic i) (Z.min k m) = dir_entries (k_disk s) (i_ic i) (Z.min k m).
Proof.
  intros Hd Ht Hfr Hsub Hex. apply (dir_rep_elsewhere ex s t i m L L' Hd Ht Hfr).
  destruct (dr_file _ _ _ _ Hd) as [_ _ Hnd Hda]. split.
  - apply list.NoDup_app in Hnd as (H1 & H2 & _). apply list.NoDup_app.
    split_and!; [done| |apply Ht]. intros x Hx Hin. by apply (H2 x Hx), Hsub.
  - intros b Hb. by apply Hex, (proj1 (list.Forall_forall _ _) Hda).
Qed.

(** A frame on disk writes outside the data blocks keeps them. *)
Definition meta_only s n (b : Z) : Prop := b = 1 \/ b = inode_blk (k_fs s) n.

Lemma meta_not_data s n b L :
  fs_rep s L -> is_ino (k_fs s) n -> data_addr D (k_fs s) b -> ~ meta_only s n b.
Proof.
  intros Hs Hn Hb [->| ->]; pose proof (fr_geo _ _ Hs) as Hg.
  - by pose proof (geometry_data _ _ Hg Hb).
  - pose proof (inode_blk_range _ _ Hg Hn). unfold data_addr in Hb. lia.
Qed.
End Frame.

(** The inode a new file gets: an empty regular file that has its first block; the other
    addresses are those of the inode read last, the directory's. *)
Definition new_file {D} `{BlockDevice D} (s : kernel D) (dir n a : Z) : icommon_t :=
  let ic := inode_at (k_fs s) (k_disk s) dir in
  mk_icommon (mode_val IFREG) 0 (<[0%nat := a]> (ic_db ic)) (ic_ib ic).

(** What entering the new inode [n], with the contents [ic], under the name [w] in [dir]
    leaves: its first block is [a], and the directory has one entry more. *)
Record made {D} `{BlockDevice D} (s : kernel D) (L : list Z) (dir n a : Z) (ic : icommon_t) (w : list Z)
    (t : kernel D) (L' : list Z) : Prop := {
  cr_fs : fs_rep t L';
  cr_inode : inode_at (k_fs t) (k_disk t) n = ic;
  cr_file : file_rep t ic 1 L';
  cr_dir : is_dir t L' dir;
  cr_count : dir_count t dir = dir_count s dir + 1;
  cr_entries : exists old, lwf old /\
    dir_entries (k_disk t) (inode_at (k_fs t) (k_disk t) dir) (dir_count t dir) =
    dir_entries (k_disk s) (inode_at (k_fs s) (k_disk s) dir) (dir_count s dir) ++
      [new_entry n w old];
  cr_inodes k : is_ino (k_fs s) k -> k <> n -> k <> dir ->
    inode_at (k_fs t) (k_disk t) k = inode_at (k_fs s) (k_disk s) k;
  cr_frame : let held := owned (k_disk s) (inode_at (k_fs s) (k_disk s) dir)
                           (Z.max 1 ((dir_count s dir + 15) / 16)) in
    disk_frame (fun b => b ∈ held \/ b ∈ L) s t;
  cr_owned b : b ∈ owned (k_disk t) (inode_at (k_fs t) (k_disk t) dir)
                     (Z.max 1 ((dir_count s dir + 1 + 15) / 16)) ->
    b ∈ owned (k_disk s) (inode_at (k_fs s) (k_disk s) dir) (Z.max 1 ((dir_count s dir + 15) / 16)) \/
    b ∈ L /\ b <> a;
  cr_sub : L' ⊆ L;
  cr_mode : ic_mode (inode_at (k_fs t) (k_disk t) dir) = ic_mode (inode_at (k_fs s) (k_disk s) dir);
  cr_rest : exists f d, t = set_k_disk d (set_k_fs f s);
}.

(** A new file. *)
Definition created {D} `{BlockDevice D} (s : kernel D) (L : list Z) (dir n a : Z) (w : list Z)
    (t : kernel D) (L' : list Z) : Prop := made s L dir n a (new_file s dir n a) w t L'.

Section Create.
Context {D : Type} `{BlockDeviceLaws D}.
Implicit Types (s t : kernel D) (d : D) (L : list Z) (w : list Z).

Lemma new_file_wf s dir n a L :
  is_dir s L dir -> is_u32 a -> lwf (new_file s dir n a).
Proof.
  intros Hd Ha. pose proof (fi_wf _ _ _ _ (dr_file _ _ _ _ Hd)) as Hic.
  unfold new_file, inode_of in *. cbn in *. unfold is_u32 in *.
  rewrite length_insert. split_and!; try tauto; try lia. apply Forall_insert; [tauto|lia].
Qed.

(** The tail of [path_to_ino2]: block, inode and entry. *)
Definition create_tail (i : inode_t) (dir : Z) (tok0 : list Z) (path : list Z) :
    M (kernel D) (Z * list Z) :=
  a ← balloc;
  let i := set_db (<[0%nat := a]> (ic_db (i_ic i))) i in
  writeInode i ;;
  parent ← readInode zero_inode dir;
  _ ← addInodeToDirectory parent (i_number i) tok0;
  mret (s32 (i_number i), path).

(** The blocks that are written before the entry is. *)
Definition fresh_only s n a (b : Z) : Prop := meta_only s n b \/ b = a.

Lemma owned_first d ic a : length (ic_db ic) = NDADDR -> ic_db ic !! 0%nat = Some a -> owned d ic 1 = [a].
Proof.
  intros Hl Ha. unfold owned, file_blocks, table_of. cbn [Z.ltb Z.compare]. rewrite app_nil_r.
  change (seqZ 0 1) with [0]. cbn [fmap list_fmap]. rewrite blk_addr_direct by lia.
  f_equal. unfold db_at. by apply nth_lookup_Some.
Qed.

(** The last step of every creation: the inode and its first block are written, and the
    directory gets the entry. *)
Lemma wp_enter s v L L' a dir n ic w (Q : inode_t -> kernel D -> Prop) :
  is_dir s (a :: L) dir -> is_ino (k_fs s) n -> n <> dir -> is_name w ->
  dir_count s dir < 16 * MAXBLKS -> entry_rest (dir_count s dir) L = Some L' ->
  fs_rep v L -> fs_frame (fresh_only s n a) s v ->
  (forall k, is_ino (k_fs s) k ->
     inode_at (k_fs v) (k_disk v) k = if decide (k = n) then ic else inode_at (k_fs s) (k_disk s) k) ->
  lwf ic -> ic_db ic !! 0%nat = Some a ->
  (forall t i', made s (a :: L) dir n a ic w t L' -> dev_blk (k_disk t) a = dev_blk (k_disk v) a -> Q i' t) ->
  wp (addInodeToDirectory (inode_of s dir 0) n (c_str w)) Q v.
Proof.
  intros Hd Hn Hne Hw Hm Hrest Hv Hfv Hino_v Hic Ha0 HQ. set (m := dir_count s dir) in *.
  pose proof (dr_fs _ _ _ _ Hd) as Hs. pose proof (fr_geo _ _ Hs) as Hg.
  pose proof (Forall_inv (fr_data _ _ Hs)) as Ha. pose proof (dr_ino _ _ _ _ Hd) as Hdino. cbn [i_number inode_of] in Hdino.
  pose proof (fr_nodup _ _ Hs) as Hnd. apply list.NoDup_cons in Hnd as [HaL HndL].
  set (own := owned (k_disk s) (inode_at (k_fs s) (k_disk s) dir) (Z.max 1 ((m + 15) / 16))) in *.
  assert (Hown : NoDup (own ++ L) /\ forall b, b ∈ own -> ~ fresh_only s n a b).
  { destruct (dr_file _ _ _ _ Hd) as [_ _ Hnd Hda]. apply list.NoDup_app in Hnd as (H1 & H2 & _). split.
    - apply list.NoDup_app. split_and!; [done| |done]. intros b Hb HbL. apply (H2 b Hb). by right.
    - intros b Hb [Hmeta| ->]; [|by apply (H2 a Hb); left].
      apply (meta_not_data s n b (a :: L)); try done. by apply (proj1 (list.Forall_forall _ _) Hda). }
  assert (Hdv : inode_at (k_fs v) (k_disk v) dir = inode_at (k_fs s) (k_disk s) dir)
    by (rewrite Hino_v, decide_False by done; done).
  destruct (dir_rep_elsewhere (fresh_only s n a) s v (inode_of s dir 0) m (a :: L) L Hd Hv Hfv Hown) as [Hdr Hent].
  pose proof (dir_owned_frame _ s v _ m (a :: L) Hd Hfv (proj2 Hown)) as Eown. fold own in Eown.
  apply (wp_addInodeToDirectory v (inode_of s dir 0) m L L' n w); [done|done|done|done|].
  intros t i' Hadd.
  destruct (da_dir _ _ _ _ _ _ _ _ _ Hadd) as [Ht Hft Hit Hzt Hmt].
  destruct (da_same _ _ _ _ _ _ _ _ _ Hadd) as (E1 & E2 & E3).
  pose proof (da_inode _ _ _ _ _ _ _ _ _ Hadd) as Edir. cbn [i_number inode_of] in E1, Edir.
  pose proof (da_frame _ _ _ _ _ _ _ _ _ Hadd) as Hdf. cbv zeta in Hdf. cbn [i_ic inode_of] in Hdf, Eown. rewrite Eown in Hdf.
  assert (Hin : inode_at (k_fs t) (k_disk t) n = ic).
  { rewrite (da_inodes _ _ _ _ _ _ _ _ _ Hadd); [by rewrite Hino_v, decide_True| |done].
    by apply (is_ino_frame (fresh_only s n a) s). }
  assert (Hc : dir_count t dir = m + 1).
  { unfold dir_count. rewrite Edir, Hzt, Z.mul_comm, Z.div_mul by lia. done. }
  assert (Hsub : L' ⊆ L).
  { unfold entry_rest in Hrest. destruct (_ && _); [by apply (alloc_rest_sub (m / 16))|].
    by injection Hrest as ->. }
  assert (Hgeo : fs_dblkno (k_fs t) = fs_dblkno (k_fs s)).
  { rewrite (proj2 (proj2 (df_geo _ _ _ Hdf))). apply (ff_geo _ _ _ Hfv). }
  assert (Eo : owned (k_disk t) ic 1 = [a]) by (apply owned_first; [by apply ic_lists|done]).
  apply (HQ t i').
  2:{ apply (df_blk _ _ _ Hdf); [unfold data_addr in *; by rewrite (proj2 (proj2 (ff_geo _ _ _ Hfv)))|].
      intros [Hb|Hb]; [|done]. apply (proj2 Hown a Hb). by right. }
  split; try done.
  - split; [done|unfold MAXBLKS; lia| |]; rewrite Eo.
    + apply list.NoDup_cons. split; [|apply Ht]. intros Hin'. by apply HaL, Hsub.
    + apply Forall_cons_2; [|apply Forall_nil_2]. by apply (data_addr_frame (k_fs s)).
  - unfold is_dir, inode_of. rewrite Hc, Edir. rewrite E1 in Hit. split; [exact Ht|exact Hft|exact Hit|exact Hzt|exact Hmt].
  - destruct (da_entries _ _ _ _ _ _ _ _ _ Hadd) as (old & Hold & He). exists old.
    split; [done|]. rewrite Hc, Edir, He. f_equal.
    specialize (Hent m). rewrite Z.min_id in Hent. exact Hent.
  - intros k Hk Hkn Hkd. rewrite (da_inodes _ _ _ _ _ _ _ _ _ Hadd); [| |done].
    + by rewrite Hino_v, decide_False.
    + by apply (is_ino_frame (fresh_only s n a) s).
  - cbv zeta. fold m own. apply (disk_frame_trans _ s v).
    + apply (disk_frame_of _ _ s v Hg Hfv). intros b Hb [Hmeta| ->]; [|right; by left].
      by destruct (meta_not_data s n b (a :: L) Hs Hn Hb).
    + revert Hdf. apply disk_frame_mono. intros b _ [Hb|Hb]; [by left|right; by right].
  - intros b. fold m own. rewrite Edir. intros Hb.
    destruct (da_owned _ _ _ _ _ _ _ _ _ Hadd b Hb) as [Ho|HbL].
    + left. cbn [i_ic inode_of] in Ho. by rewrite Eown in Ho.
    + right. split; [by right|by intros ->].
  - intros x Hx. right. by apply Hsub.
  - rewrite Edir. exact E3.
  - destruct (da_rest _ _ _ _ _ _ _ _ _ Hadd) as (f & d & ->).
    destruct (ff_rest _ _ _ Hfv) as (f' & d'' & ->). by exists f, d.
Qed.

(** What writing the inode of the new file leaves, before the entry is made. *)
Lemma fresh_inode_put s u a L n ic d' :
  fs_rep s (a :: L) -> fs_rep u L -> is_ino (k_fs s) n -> lwf ic -> fs_frame (fresh_only s n a) s u ->
  (forall k, is_ino (k_fs s) k -> k <> n -> inode_at (k_fs u) (k_disk u) k = inode_at (k_fs s) (k_disk s) k) ->
  inode_put (k_fs u) n ic (k_disk u) d' ->
  let v := set_k_disk d' u in
  fs_rep v L /\ fs_frame (fresh_only s n a) s v /\
  forall k, is_ino (k_fs s) k ->
    inode_at (k_fs v) (k_disk v) k = if decide (k = n) then ic else inode_at (k_fs s) (k_disk s) k.
Proof.
  intros Hs Hu Hn Hic Hfu Hold Hd' v. pose proof (is_ino_frame _ s u n Hfu Hn) as Hnu. split_and!.
  - by apply (fs_rep_inode u n ic).
  - apply (fs_frame_trans _ _ u); [done|]. apply fs_frame_disk. intros b Hb Hex. apply Hd'; [done|].
    rewrite (inode_blk_frame _ _ _ _ Hfu). intros ->. apply Hex. left. by right.
  - intros k Hk. destruct Hd' as (_ & Hi & _). change (inode_at (k_fs v) (k_disk v) k) with (inode_at (k_fs u) d' k).
    rewrite Hi by by apply (is_ino_frame _ s u k Hfu). case_decide; [done|]. by apply Hold.
Qed.

Lemma wp_create_tail s L L' a dir n w links path (Q : Z * list Z -> kernel D -> Prop) :
  is_dir s (a :: L) dir -> is_ino (k_fs s) n -> n <> dir -> is_name w ->
  dir_count s dir < 16 * MAXBLKS -> entry_rest (dir_count s dir) L = Some L' ->
  (forall t, created s (a :: L) dir n a w t L' -> Q (s32 n, path) t) ->
  wp (create_tail (fresh_inode n (inode_of s dir links)) dir (c_str w) path) Q s.
Proof.
  intros Hd Hn Hne Hw Hm Hrest HQ. unfold create_tail.
  pose proof (dr_fs _ _ _ _ Hd) as Hs. pose proof (fr_geo _ _ Hs) as Hg.
  pose proof (Forall_inv (fr_data _ _ Hs)) as Ha. destruct (data_addr_s32 _ _ Hg Ha) as (_ & Hau & _).
  wp_step. apply (wp_balloc s (a :: L)); [done|]. intros u Hu Hfu. wp_steps.
  set (i := set_db _ _). change (i_ic i) with (new_file s dir n a).
  assert (Hau32 : is_u32 a) by (rewrite <-Hau; apply u32_range).
  pose proof (new_file_wf s dir n a _ Hd Hau32) as Hwf.
  apply wp_writeInode; [apply Hu|apply Hu|by apply (is_ino_frame sb_only s)|done|].
  intros d' Hd'. wp_steps. cbn [i i_number set_db set_number fresh_inode set_size set_mode] in *.
  destruct (fresh_inode_put s u a L n (new_file s dir n a) d') as (Hv & Hfv & Hino_v); try done.
  { revert Hfu. apply fs_frame_mono. intros b Hb. left. by left. }
  { intros k Hk _. apply (fs_frame_inode sb_only s u); [done..|].
    pose proof (inode_blk_range _ _ Hg Hk). unfold sb_only. lia. }
  pose proof (dr_ino _ _ _ _ Hd) as Hdino. cbn [i_number inode_of] in Hdino.
  apply wp_readInode; [apply Hv|apply Hv|apply Hv|by apply (is_ino_frame _ s _ _ Hfv)|].
  wp_steps. rewrite Hino_v, decide_False by done. change (mk_inode dir (i_links zero_inode) _) with (inode_of s dir 0).
  apply (wp_enter s _ L L' a dir n (new_file s dir n a) w); try done.
  - destruct (ic_lists _ (fi_wf _ _ _ _ (dr_file _ _ _ _ Hd))) as [Hl _]. unfold inode_of in Hl. cbn in Hl.
    apply list_lookup_insert_eq. lia.
  - intros t i' Hmade _. wp_steps. by apply HQ.
Qed.

(** The name is found in the directory the inode was entered in. *)
Lemma made_found s L dir n a ic w t L' :
  made s L dir n a ic w t L' -> is_dir s L dir -> is_ino (k_fs s) n -> n < 2 ^ 31 ->
  is_name w -> lookup_name w (dir_entries (k_disk s) (inode_at (k_fs s) (k_disk s) dir) (dir_count s dir)) = None ->
  (dir_count s dir + 1) mod 16 <> 0 -> dir_find t dir w = n.
Proof.
  intros Hc Hd [Hn0 Hnq] Hn Hw Hnone Hmod. pose proof (dr_fs _ _ _ _ Hd) as Hs.
  destruct (cr_entries _ _ _ _ _ _ _ _ _ Hc) as (old & _ & He). unfold dir_find.
  rewrite (cr_count _ _ _ _ _ _ _ _ _ Hc) in *. unfold searched.
  destruct (Z.eqb_spec ((dir_count s dir + 1) mod 16) 0); [done|].
  rewrite He, lookup_name_app, Hnone. cbn [lookup_name]. rewrite matches_new by done.
  cbn [default new_entry d_ino]. rewrite u32_small by (unfold is_u32; lia).
  apply s32_small. lia.
Qed.

Lemma path_to_ino2_eq (path : list Z) (dir : Z) :
  path_to_ino2 path dir =
  ('(w, path) ← walk_path path dir;
   if negb (w_ino w =? -1) then mret (w_ino w, path)
   else match w_tok w with
   | Some _ => mret (-1, path)
   | None =>
       i ← getFreeInode (w_inode w);
       match i with
       | None => mret (-2, path)
       | Some i => create_tail i (w_ino0 w) (w_tok0 w) path
       end
   end).
Proof. reflexivity. Qed.

Lemma wp_path_to_ino2_new s a L L' path dir v ws ino0 tok0 n (Q : Z * list Z -> kernel D -> Prop) :
  path_of path (v :: ws) -> resolves s (a :: L) dir v ws (-1) ino0 tok0 [] ->
  is_dir s (a :: L) ino0 -> is_name tok0 -> ~ is_free (k_fs s) (k_disk s) ino0 ->
  is_ino (k_fs s) n -> is_free (k_fs s) (k_disk s) n -> n < 2 ^ 31 ->
  (forall m, 0 <= m < n -> ~ is_free (k_fs s) (k_disk s) m) ->
  dir_count s ino0 < 16 * MAXBLKS -> entry_rest (dir_count s ino0) L = Some L' ->
  (forall t path', created s (a :: L) ino0 n a tok0 t L' -> Q (n, path') t) ->
  wp (path_to_ino2 path dir) Q s.
Proof.
  intros Hp Hr Hd Hw Hused Hn Hfree Hn31 Hmin Hm Hrest HQ. pose proof (dr_fs _ _ _ _ Hd) as Hs.
  rewrite path_to_ino2_eq. wp_step.
  apply (wp_walk_path s (a :: L) path dir v ws (-1) ino0 tok0 []); [done..|].
  intros e path' [(links & E0) E1 E2 E3 E4]. wp_steps. rewrite E1, E4, E0, E2, E3.
  cbn [Z.eqb Pos.eqb negb head fmap option_fmap option_map]. wp_step.
  apply wp_getFreeInode; [apply Hs|apply Hs|apply Hs| |].
  - intros n' Hn' Hf' Hmin'. assert (n' = n) as ->.
    { destruct (Z.lt_trichotomy n' n) as [Hlt|[E|Hgt]]; [|done|].
      - destruct Hn'. by destruct (Hmin n' ltac:(lia)).
      - destruct Hn. by destruct (Hmin' n ltac:(lia)). }
    apply (wp_create_tail s L L' a ino0 n tok0 links); [done|done| |done|done|done|].
    + by intros ->.
    + intros t Ht. rewrite s32_small by (destruct Hn; lia). by apply HQ.
  - intros Hnone. by destruct (Hnone n Hn).
Qed.
End Create.

(** * The properties of creation *)

Section Claims.
Context {D : Type} `{BlockDeviceLaws D}.
Implicit Types (s t : kernel D) (L : list Z) (w : list Z).

(** C21: creation.  When the last component of the path is missing from its directory,
    [path_to_ino2] makes it: it takes the free inode with the lowest number and the top
    block of the free list, writes an empty regular file to the inode, and appends the
    entry to the directory, which is then found under its name (but for the sixteenth
    entry of a block).  No third inode changes, and the new file is well-formed:
    its block is on no other list. *)
Theorem path_to_ino2_creates s a L L' path dir v ws ino0 tok0 n :
  path_of path (v :: ws) -> resolves s (a :: L) dir v ws (-1) ino0 tok0 [] ->
  is_dir s (a :: L) ino0 -> is_name tok0 -> ~ is_free (k_fs s) (k_disk s) ino0 ->
  is_ino (k_fs s) n -> is_free (k_fs s) (k_disk s) n -> n < 2 ^ 31 ->
  (forall m, 0 <= m < n -> ~ is_free (k_fs s) (k_disk s) m) ->
  dir_count s ino0 < 16 * MAXBLKS -> entry_rest (dir_count s ino0) L = Some L' ->
  exists t path', path_to_ino2 path dir s = Done ((n, path'), t) /\
    created s (a :: L) ino0 n a tok0 t L' /\
    (lookup_name tok0 (dir_entries (k_disk s) (inode_at (k_fs s) (k_disk s) ino0) (dir_count s ino0)) = None ->
     (dir_count s ino0 + 1) mod 16 <> 0 -> dir_find t ino0 tok0 = n).
Proof.
  intros Hp Hr Hd Hw Hused Hn Hfree Hn31 Hmin Hm Hrest. pose proof (dr_fs _ _ _ _ Hd) as Hs.
  assert (Hwp : wp (path_to_ino2 path dir) (fun x t => x.1 = n /\ created s (a :: L) ino0 n a tok0 t L') s)
    by by apply (wp_path_to_ino2_new s a L L' path dir v ws ino0 tok0 n).
  apply wp_done in Hwp as ([r path'] & t & Hrun & Hx & Hc). cbn in Hx. subst r.
  exists t, path'. split_and!; [done|done|]. intros Hnone Hmod.
  by apply (made_found s (a :: L) ino0 n a (new_file s ino0 n a) tok0 t L').
Qed.

(** When nothing is to be made.  An existing path is answered like [path_to_ino]
    answers it; a path with a missing directory is answered -1; with no inode free the
    answer is -2; and each time nothing has changed. *)
Theorem path_to_ino2_else s L path dir v ws r ino0 tok0 left :
  path_of path (v :: ws) -> resolves s L dir v ws r ino0 tok0 left -> fs_rep s L ->
  r <> -1 \/ left <> [] \/ (forall n, is_ino (k_fs s) n -> ~ is_free (k_fs s) (k_disk s) n) ->
  exists path', path_to_ino2 path dir s =
    Done ((if r =? -1 then (if bool_decide (left = []) then -2 else -1) else r, path'), s).
Proof.
  intros Hp Hr Hs Hcase.
  assert (Hwp : wp (path_to_ino2 path dir) (fun x t => t = s /\
      x.1 = if r =? -1 then (if bool_decide (left = []) then -2 else -1) else r) s).
  { rewrite path_to_ino2_eq. wp_step.
    apply (wp_walk_path s L path dir v ws r ino0 tok0 left); [done..|].
    intros e path' [_ E1 E2 E3 E4]. wp_steps. rewrite E1, E4.
    destruct (Z.eqb_spec r (-1)) as [Er|Er]; cbn [negb]; [|by wp_steps].
    destruct left as [|c left]; cbn [head fmap option_fmap option_map]; [|by wp_steps].
    destruct Hcase as [?|[?|Hfull]]; [done|done|]. wp_step.
    apply wp_getFreeInode; [apply Hs|apply Hs|apply Hs| |].
    - intros n Hn Hf _. by destruct (Hfull n Hn).
    - intros _. by wp_steps. }
  apply wp_done in Hwp as ([r' path'] & t & Hrun & -> & Hx). cbn in Hx. exists path'. by subst r'.
Qed.
End Claims.

(** ** Witnesses *)

(** [/new]. *)
Definition new_path : list Z := [47; 110; 101; 119; 0].

Lemma new_path_of : path_of new_path [[110; 101; 119]].
Proof.
  change new_path with (replicate 1 SLASH ++ [110; 101; 119] ++ replicate 0 SLASH ++ [0]).
  apply path_comp; [|apply (path_end 0 [])|by right]. split; [done|].
  split; [apply demo_name|]. by apply (bool_decide_unpack _).
Qed.

Lemma new_resolves : resolves demo_state [21; 20] 0 [110; 101; 119] [] (-1) 0 [110; 101; 119] [].
Proof.
  split; [by apply demo_is_dir; left|]. split_and!; [|done..]. vm_compute. reflexivity.
Qed.

Lemma path_to_ino2_creates_witness :
  exists t path', path_to_ino2 new_path 0 demo_state = Done ((3, path'), t) /\
    dir_find t 0 [110; 101; 119] = 3.
Proof.
  destruct (path_to_ino2_creates demo_state 21 [20] [20] new_path 0 [110; 101; 119] [] 0
    [110; 101; 119] 3) as (t & path' & Hr & _ & Hf).
  - apply new_path_of.
  - apply new_resolves.
  - apply demo_is_dir. by left.
  - apply demo_name.
  - vm_compute. done.
  - by split.
  - vm_compute. done.
  - lia.
  - intros m Hm. assert (m = 0 \/ m = 1 \/ m = 2) as [-> |[-> | ->]] by lia; vm_compute; done.
  - vm_compute. done.
  - vm_compute. reflexivity.
  - exists t, path'. split; [exact Hr|]. apply Hf; vm_compute; done.
Defined.

Lemma path_to_ino2_else_witness :
  exists path', path_to_ino2 demo_path 0 demo_state = Done ((0, path'), demo_state).
Proof.
  apply (path_to_ino2_else demo_state [21; 20] demo_path 0 [100] [[46; 46]] 0 2 [46; 46] []).
  - apply demo_path_of.
  - apply demo_resolves.
  - apply demo_rep.
  - by left.
Defined.
