(* ===== verification/Unlink.v ===== *)
(** * Deleting files

    [freeDataBlocks] on a file of direct blocks, and [unlink]: the entry goes, the
    blocks come back to the free list, the inode is free. *)

From S2P Require Import Prelude CMonad Layout BlockDev Kernel FsOps FreeList InodeProof BlockMap FileRep FileGrow Dir Posix FileIO DirProof DirRemove PathProof Create.

(** ** Giving blocks back *)

(** The number of blocks [freeDataBlocks] frees, one less than the file owns when its
    size is a multiple of the block size, and those blocks, the last one first. *)
Definition nfreed (size : Z) : Z := (size + 511) / 512.

Definition freed (ic : icommon_t) (k : Z) : list Z := rev (db_at ic <$> seqZ 0 k).

Section Free.
Context {D : Type} `{BlockDeviceLaws D}.
Implicit Types (s t : kernel D) (ic : icommon_t) (L : list Z).

Lemma freed_S ic k : 0 <= k -> freed ic (k + 1) = db_at ic k :: freed ic k.
Proof.
  intros Hk. unfold freed. replace (k + 1) with (k + Z.of_nat 1) by lia.
  rewrite seqZ_app, fmap_app, rev_app_distr by lia. done.
Qed.

Lemma elem_of_freed ic k a : a ∈ freed ic k <-> exists j, 0 <= j < k /\ a = db_at ic j.
Proof.
  unfold freed. rewrite list_elem_of_In, <-in_rev, <-list_elem_of_In, list_elem_of_fmap. split.
  - intros (j & -> & Hj%elem_of_seqZ). exists j. split; [lia|done].
  - intros (j & Hj & ->). exists j. split; [done|]. apply elem_of_seqZ. lia.
Qed.

(** What a loop over the blocks leaves after [k] of them. *)
Record given_back s ic (k : Z) L t : Prop := {
  gb_fs : fs_rep t (freed ic k ++ L);
  gb_frame : fs_frame (fun b => b = 1 \/ b ∈ freed ic k) s t;
}.

Lemma wp_freeDataBlock s t i n k L (Q : unit -> kernel D -> Prop) :
  fs_rep s L -> file_rep s (i_ic i) n L -> n <= 11 -> 0 <= k < n -> given_back s (i_ic i) k L t ->
  (forall u, given_back s (i_ic i) (k + 1) L u -> Q tt u) ->
  wp (freeDataBlock i k) Q t.
Proof.
  intros Hs Hf Hn Hk [Ht Hfr] HQ. pose proof (fr_geo _ _ Hs) as Hg.
  destruct (file_rep_blk s (i_ic i) n L k Hf Hk) as (Hda & HinL & _).
  rewrite blk_addr_direct in Hda, HinL by lia. set (a := db_at (i_ic i) k) in *.
  destruct (data_addr_s32 _ _ Hg Hda) as (Es & Eu & _).
  unfold freeDataBlock. change (Z.of_nat NDADDR) with 11. wp_step.
  assert (Eb : u32 (BLOCK_SIZE * k) / 512 = k).
  { unfold BLOCK_SIZE. rewrite u32_small, Z.mul_comm, Z.div_mul by (unfold is_u32; lia). done. }
  apply wp_getDataBlockAddr; [apply Ht|apply (fi_wf _ _ _ _ Hf)|apply u32_range| |]; rewrite Eb.
  { apply blk_ok_small; lia. }
  rewrite blk_addr_direct by lia. fold a. rewrite Es. wp_step. rewrite Eu.
  apply (wp_bfree t (freed (i_ic i) k ++ L) a); [done|by apply (data_frame _ s t a Hfr)| |].
  { rewrite not_elem_of_app. split; [|done]. intros (j & Hj & E)%elem_of_freed.
    assert (k = j); [|lia]. apply (file_blocks_inj s (i_ic i) n L k j Hf); [lia|lia|].
    by rewrite !blk_addr_direct by lia. }
  intros r u _ Hu Hfu. wp_steps. destruct (Z.ltb_spec k 11); [|lia]. wp_step. apply HQ.
  split; rewrite freed_S by lia; fold a; [exact Hu|].
  apply (fs_frame_trans _ s t); [revert Hfr|revert Hfu]; apply fs_frame_mono;
    intros b [->|Hb]; try (by left); right; apply elem_of_cons; [by right|by left].
Qed.

Lemma wp_freeDataBlocks s i n L (Q : Z -> kernel D -> Prop) :
  fs_rep s L -> file_rep s (i_ic i) n L -> n <= 11 -> nfreed (ic_size (i_ic i)) <= n ->
  (forall t, given_back s (i_ic i) (nfreed (ic_size (i_ic i))) L t -> Q 0 t) ->
  wp (freeDataBlocks i) Q s.
Proof.
  intros Hs Hf Hn Hfree HQ. destruct (fi_wf _ _ _ _ Hf) as (_ & Hsz & _). unfold is_u32 in Hsz.
  unfold freeDataBlocks. change ((ic_size (i_ic i) + (BLOCK_SIZE - 1)) / BLOCK_SIZE) with (nfreed (ic_size (i_ic i))).
  set (m := nfreed (ic_size (i_ic i))) in *.
  assert (Hm : 0 <= m) by (apply Z.div_pos; lia). wp_step.
  apply (wp_for_do (fun k t => given_back s (i_ic i) k L t)).
  - split; [by apply Hs|]. eapply fs_frame_mono; [|apply (fs_frame_refl (fun _ => False))]. done.
  - intros k t Hk Ht. wp_step. apply (wp_freeDataBlock s t i n k L); [done|done|done|lia|done|].
    intros u Hu. unfold in_int, BLOCK_SIZE.
    replace ((- 2 ^ 31 <=? 512 * (k + 1)) && (512 * (k + 1) <? 2 ^ 31)) with true by lia. by wp_steps.
  - intros t Ht. wp_steps. apply HQ. by replace (0 + Z.of_nat (Z.to_nat m)) with m in Ht by lia.
Qed.
End Free.

(** ** The state after an unlink *)

(** Entry [k], [e], is gone from directory [dir], which had [m] entries, and with it the
    inode it named and the blocks that [freeDataBlocks] frees. *)
Record deleted {D} `{BlockDevice D} (s : kernel D) (L : list Z) (dir m : Z) (k : nat) (e : dir_t)
    (t : kernel D) : Prop := {
  dl_fs : let ic := inode_at (k_fs s) (k_disk s) (d_ino e) in
    fs_rep t (freed ic (nfreed (ic_size ic)) ++ L) /\
    is_dir t (freed ic (nfreed (ic_size ic)) ++ L) dir;
  dl_count : dir_count t dir = m - 1;
  dl_entries : dir_entries (k_disk t) (inode_at (k_fs t) (k_disk t) dir) (m - 1) =
    let old := inode_at (k_fs s) (k_disk s) dir in
    take (Z.to_nat (m - 1)) (<[k := dir_at (k_disk s) old (m - 1)]> (dir_entries (k_disk s) old m));
  dl_inode : is_free (k_fs t) (k_disk t) (d_ino e);
  dl_mode : ic_mode (inode_at (k_fs t) (k_disk t) dir) = ic_mode (inode_at (k_fs s) (k_disk s) dir);
  dl_inodes j : is_ino (k_fs s) j -> j <> dir -> j <> d_ino e ->
    inode_at (k_fs t) (k_disk t) j = inode_at (k_fs s) (k_disk s) j;
  dl_rest : exists f d, t = set_k_disk d (set_k_fs f s);
  dl_frame : let ic := inode_at (k_fs s) (k_disk s) (d_ino e) in
    let old := inode_at (k_fs s) (k_disk s) dir in
    disk_frame (fun b => b ∈ owned (k_disk s) old (Z.max 1 ((m + 15) / 16)) \/
                         b ∈ freed ic (nfreed (ic_size ic))) s t;
  dl_owned : let old := inode_at (k_fs s) (k_disk s) dir in
    owned (k_disk t) (inode_at (k_fs t) (k_disk t) dir) (Z.max 1 ((m - 1 + 15) / 16)) ⊆
    owned (k_disk s) old (Z.max 1 ((m + 15) / 16));
}.

Section Unlink.
Context {D : Type} `{BlockDeviceLaws D}.
Implicit Types (s t u : kernel D) (d : D) (ic : icommon_t) (L : list Z) (w : list Z).

(** With direct blocks only, what a file owns does not depend on the disk. *)
Lemma owned_direct d ic n : n <= 11 -> owned d ic n = db_at ic <$> seqZ 0 n.
Proof.
  intros Hn. unfold owned, file_blocks, table_of. destruct (Z.ltb_spec 11 n); [lia|]. rewrite app_nil_r.
  apply list_fmap_ext. intros j k Hk%list_elem_of_lookup_2%elem_of_seqZ. apply blk_addr_direct. lia.
Qed.

Lemma file_rep_direct s t ic n L :
  n <= 11 -> fs_dblkno (k_fs t) = fs_dblkno (k_fs s) -> file_rep s ic n L -> file_rep t ic n L.
Proof.
  intros Hn Hg [H1 H2 H3 H4]. split; [done|done| |].
  - rewrite owned_direct in * by done. exact H3.
  - rewrite owned_direct in * by done. eapply list.Forall_impl; [exact H4|]. intros a.
    unfold data_addr. by rewrite Hg.
Qed.

(** The directory is where it was after the blocks of another file came back. *)
Lemma dir_rep_given_back s i m ic L k t :
  dir_rep s i m L -> m <= 176 -> given_back s ic k L t ->
  (forall a, a ∈ freed ic k -> data_addr D (k_fs s) a /\ (a ∉ owned (k_disk s) (i_ic i) (Z.max 1 ((m + 15) / 16)))) ->
  dir_rep t i m (freed ic k ++ L) /\
  (forall l, dir_entries (k_disk t) (i_ic i) (Z.min l m) = dir_entries (k_disk s) (i_ic i) (Z.min l m)) /\
  (forall j, is_ino (k_fs s) j -> inode_at (k_fs t) (k_disk t) j = inode_at (k_fs s) (k_disk s) j).
Proof.
  intros Hd Hm [Ht Hfr] Hdis. pose proof (dr_fs _ _ _ _ Hd) as Hs. pose proof (fr_geo _ _ Hs) as Hg.
  pose proof (fi_nodup _ _ _ _ (dr_file _ _ _ _ Hd)) as Hnd. apply list.NoDup_app in Hnd as (N1 & N2 & _).
  destruct (dir_rep_elsewhere _ s t i m L (freed ic k ++ L) Hd Ht Hfr) as [R1 R2].
  - split.
    + apply list.NoDup_app. split_and!; [done| |apply Ht]. intros a Ha. rewrite not_elem_of_app.
      split; [|by apply N2]. intros Hin. by destruct (Hdis a Hin).
    + intros b Hb [->|Hin]; [|by destruct (Hdis b Hin)].
      pose proof (fi_data _ _ _ _ (dr_file _ _ _ _ Hd)) as Hda.
      by pose proof (geometry_data _ _ Hg (proj1 (list.Forall_forall _ _) Hda 1 Hb)).
  - split_and!; [done|done|]. intros j Hj. apply (fs_frame_inode _ s t j Hfr Hg Hj).
    pose proof (inode_blk_range _ _ Hg Hj). intros [E|Hin]; [lia|].
    destruct (Hdis _ Hin) as [Hda _]. unfold data_addr in Hda. lia.
Qed.

(** An inode of another file is written. *)
Lemma dir_rep_inode_put s i m L n ic d' :
  dir_rep s i m L -> is_ino (k_fs s) n -> inode_put (k_fs s) n ic (k_disk s) d' ->
  dir_rep (set_k_disk d' s) i m L /\
  forall l, dir_entries d' (i_ic i) (Z.min l m) = dir_entries (k_disk s) (i_ic i) (Z.min l m).
Proof.
  intros Hd Hn Hput. pose proof (dr_fs _ _ _ _ Hd) as Hs.
  apply (dir_rep_frame (meta_only s n) s (set_k_disk d' s) i m L L Hd).
  - by apply (fs_rep_inode s n ic).
  - apply fs_frame_disk. intros b Hb Hne. destruct Hput as (_ & _ & Hblk). apply Hblk; [done|].
    intros ->. apply Hne. by right.
  - done.
  - intros b Hb. by apply (meta_not_data s n b L).
Qed.
End Unlink.

(** ** The file behind an entry *)

(** Its number of blocks, what it leaves behind, and the inode it becomes. *)
Definition dead_blocks {D} `{BlockDevice D} (s : kernel D) (n : Z) : list Z :=
  let ic := inode_at (k_fs s) (k_disk s) n in freed ic (nfreed (ic_size ic)).

Definition dead_inode (ic : icommon_t) : icommon_t :=
  mk_icommon (mode_val IFZERO) 0 (ic_db ic) (ic_ib ic).

(** The file [n] has direct blocks only, and none of them belongs to directory [dir]. *)
Record doomed {D} `{BlockDevice D} (s : kernel D) (dir m n : Z) (L : list Z) : Prop := {
  do_dir : n <> dir;
  do_ino : is_ino (k_fs s) n /\ n < 2 ^ 31;
  do_size : nfreed (ic_size (inode_at (k_fs s) (k_disk s) n)) <= 11;
  do_rep : file_rep s (inode_at (k_fs s) (k_disk s) n)
             (Z.max 1 (nfreed (ic_size (inode_at (k_fs s) (k_disk s) n)))) L;
  do_disjoint a : a ∈ dead_blocks s n ->
    a ∉ owned (k_disk s) (inode_at (k_fs s) (k_disk s) dir) (Z.max 1 ((m + 15) / 16));
}.

(** What is left of it. *)
Record dropped {D} `{BlockDevice D} (s : kernel D) (i' : inode_t) (m n : Z) (L : list Z)
    (t : kernel D) : Prop := {
  dp_dir : dir_rep t i' m (dead_blocks s n ++ L);
  dp_rest : exists f d, t = set_k_disk d (set_k_fs f s);
  dp_frame : disk_frame (fun b => b ∈ dead_blocks s n) s t;
  dp_owned : let k := Z.max 1 ((m + 15) / 16) in
    owned (k_disk t) (i_ic i') k = owned (k_disk s) (i_ic i') k;
  dp_entries : dir_entries (k_disk t) (i_ic i') m = dir_entries (k_disk s) (i_ic i') m;
  dp_inodes j : is_ino (k_fs s) j -> inode_at (k_fs t) (k_disk t) j =
    let ic := inode_at (k_fs s) (k_disk s) j in if decide (j = n) then dead_inode ic else ic;
}.

Section Claims.
Context {D : Type} `{BlockDeviceLaws D}.
Implicit Types (s t u : kernel D) (d : D) (L : list Z) (w : list Z).

Lemma wp_drop_file s n i' m L (Q : Z -> kernel D -> Prop) :
  dir_rep s i' m L -> m <= 176 -> doomed s (i_number i') m n L ->
  inode_at (k_fs s) (k_disk s) (i_number i') = i_ic i' ->
  (forall t, dropped s i' m n L t -> Q 0 t) ->
  wp (i ← readInode zero_inode n;
      _ ← freeDataBlocks i;
      writeInode (set_size 0 (set_mode (mode_val IFZERO) i)) ;;
      mret 0) Q s.
Proof.
  intros Hd Hm [Hne [Hn _] Hk Hf Hdis] Edir HQ. rewrite Edir in Hdis.
  pose proof (dr_fs _ _ _ _ Hd) as Hs. pose proof (fr_geo _ _ Hs) as Hg. wp_step.
  apply wp_readInode; [apply Hs|apply Hs|apply Hs|done|]. wp_step.
  set (ic := inode_at (k_fs s) (k_disk s) n) in *. set (k := nfreed (ic_size ic)) in *.
  apply (wp_freeDataBlocks s _ (Z.max 1 k) L); [done|done|lia|cbn [i_ic]; fold k; lia|].
  cbn [i_ic]. fold k. intros t Ht. pose proof Ht as [Hts Hfr].
  destruct (dir_rep_given_back s i' m ic L k t Hd Hm Ht) as (Hdt & Het & Hit).
  { intros a Ha. split; [|by apply Hdis]. apply elem_of_freed in Ha as (j & Hj & ->).
    destruct (file_rep_blk s ic _ L j Hf) as (Hda & _); [lia|]. by rewrite blk_addr_direct in Hda by lia. }
  pose proof (is_ino_frame _ s t n Hfr Hn) as Hnt. wp_step.
  apply wp_writeInode; [apply Hts|apply Hts|done| |].
  { pose proof (fi_wf _ _ _ _ Hf) as Hwf. cbn in *. unfold is_u32 in *. split_and!; try tauto; lia. }
  intros d' Hput. wp_steps. apply HQ. cbn [i_number i_ic set_size set_mode set_number] in Hput.
  destruct (dir_rep_inode_put t i' m _ n _ d' Hdt Hnt Hput) as [Hdu Heu]. split; [done| | | | |].
  - destruct (ff_rest _ _ _ Hfr) as (f & d & ->). by exists f, d'.
  - apply (disk_frame_trans _ s t).
    + apply (disk_frame_of _ _ s t Hg Hfr). intros b Hb [->|Hin]; [|done]. by pose proof (geometry_data _ _ Hg Hb).
    + split; [done|]. intros b Hb _. destruct Hput as (_ & _ & Hblk). cbn [k_disk set_k_disk].
      pose proof (fr_geo _ _ Hts) as Hgt. pose proof (inode_blk_range _ _ Hgt Hnt). unfold data_addr in Hb.
      apply Hblk; [by apply (data_addr_valid (k_fs t))|lia].
  - cbv zeta. assert ((m + 15) / 16 <= 11) by (apply Z.lt_succ_r, Z.div_lt_upper_bound; lia). by rewrite !owned_direct by lia.
  - specialize (Heu m). specialize (Het m). rewrite !Z.min_id in *.
    etransitivity; [exact Heu|exact Het].
  - intros j Hj. destruct Hput as (_ & Hi & _). cbn [k_fs k_disk set_k_disk].
    rewrite Hi by by apply (is_ino_frame _ s t j Hfr). cbn zeta. case_decide; [by subst j|]. by apply Hit.
Qed.

(** The removal of an entry leaves the doomed file as it is. *)
Lemma doomed_removed s dir m L k t i' n :
  0 < m <= 176 -> dir_removed s (inode_of s dir 0) m L k t i' -> doomed s dir m n L ->
  doomed t dir (m - 1) n L /\ inode_at (k_fs t) (k_disk t) n = inode_at (k_fs s) (k_disk s) n.
Proof.
  intros Hm Hr [Hne [Hn Hsm] Hk Hf Hdis].
  pose proof (dv_inodes _ _ _ _ _ _ _ Hr n Hn Hne) as En. rewrite (dv_rest _ _ _ _ _ _ _ Hr) in En |- *.
  pose proof (dv_inode _ _ _ _ _ _ _ Hr) as Ed. rewrite (dv_rest _ _ _ _ _ _ _ Hr) in Ed.
  split; [|exact En]. split; rewrite ?En; [done|done|done|by apply (file_rep_direct s); [lia|..]|].
  intros a. unfold dead_blocks. cbv zeta. rewrite En. intros Ha. specialize (Hdis a Ha). revert Hdis.
  cbn [i_number inode_of] in Ed. rewrite Ed, (dv_size _ _ _ _ _ _ _ Hr).
  pose proof (Z.div_mod (m + 15) 16). pose proof (Z.mod_pos_bound (m + 15) 16).
  pose proof (Z.div_le_mono (m - 1 + 15) (m + 15) 16).
  rewrite !owned_direct by lia. rewrite !list_elem_of_fmap. intros Hno (j & -> & Hj%elem_of_seqZ).
  apply Hno. exists j. split; [done|]. apply elem_of_seqZ. lia.
Qed.

Lemma victim_bound s i m L w k e :
  dir_rep s i m L -> victim s i m w = Some (k, e) -> 0 < m /\ (k < Z.to_nat m)%nat.
Proof.
  intros Hd Hv. apply list_find_Some in Hv as (Hk%lookup_lt_Some & _ & _).
  rewrite length_dir_entries in Hk. revert Hk. unfold searched. destruct (_ =? _); lia.
Qed.

(** Both steps together. *)
Lemma deleted_of s L dir m k e t i' u :
  m = dir_count s dir -> is_ino (k_fs s) dir -> doomed s dir m (d_ino e) L -> 0 < m ->
  dir_removed s (inode_of s dir 0) m L k t i' ->
  inode_at (k_fs t) (k_disk t) (d_ino e) = inode_at (k_fs s) (k_disk s) (d_ino e) ->
  dropped t i' (m - 1) (d_ino e) L u -> deleted s L dir m k e u.
Proof.
  intros Em Hdir [Hne [Hn _] _ _ _] Hm Hrem Et Hdrop.
  pose proof (dv_rest _ _ _ _ _ _ _ Hrem) as Er. pose proof (dv_inode _ _ _ _ _ _ _ Hrem) as Ed.
  pose proof (dv_size _ _ _ _ _ _ _ Hrem) as Ei. cbn [i_number inode_of] in Ed.
  assert (Ef : k_fs t = k_fs s) by by rewrite Er.
  assert (Eu : inode_at (k_fs u) (k_disk u) dir = i_ic i').
  { rewrite (dp_inodes _ _ _ _ _ _ Hdrop) by by rewrite Ef. cbv zeta. by rewrite decide_False. }
  assert (Ec : dir_count u dir = m - 1).
  { unfold dir_count. rewrite Eu, Ei. cbn. rewrite Z.mul_comm, Z.div_mul by lia. done. }
  pose proof (dp_dir _ _ _ _ _ _ Hdrop) as Hdu. unfold dead_blocks in Hdu. cbv zeta in Hdu.
  rewrite Et in Hdu. split.
  - cbv zeta. split; [apply Hdu|]. unfold is_dir, inode_of. rewrite Ec, Eu.
    rewrite Ei in Hdu |- *. destruct Hdu. by split.
  - done.
  - cbv zeta. rewrite Eu, (dp_entries _ _ _ _ _ _ Hdrop), (dv_entries _ _ _ _ _ _ _ Hrem). done.
  - unfold is_free. rewrite (dp_inodes _ _ _ _ _ _ Hdrop) by by rewrite Ef. cbv zeta. by rewrite decide_True.
  - by rewrite Eu, Ei.
  - intros j Hj Hjd Hje. rewrite (dp_inodes _ _ _ _ _ _ Hdrop) by by rewrite Ef. cbv zeta.
    rewrite decide_False by done. by apply (dv_inodes _ _ _ _ _ _ _ Hrem).
  - destruct (dp_rest _ _ _ _ _ _ Hdrop) as (f & d & ->). rewrite Er. by exists f, d.
  - cbv zeta. apply (disk_frame_trans _ s t).
    + pose proof (dv_frame _ _ _ _ _ _ _ Hrem) as Hv. revert Hv. apply disk_frame_mono. by left.
    + pose proof (dp_frame _ _ _ _ _ _ Hdrop) as Hv. unfold dead_blocks in Hv. cbv zeta in Hv.
      rewrite Et in Hv. revert Hv. apply disk_frame_mono. by right.
  - cbv zeta. rewrite Eu, (dp_owned _ _ _ _ _ _ Hdrop). apply (dv_owned _ _ _ _ _ _ _ Hrem).
Qed.

(** A name that starts with a dot is refused. *)
Lemma unlink_dot s w : head w = Some 46 -> unlink (c_str w) s = Done (-1, s).
Proof.
  intros Hhead. destruct w as [|a w]; [done|]. injection Hhead as ->. apply wp_run.
  unfold unlink. wp_step. apply (wp_lift _ 46); [done|]. by wp_steps.
Qed.

(** Any other name, up to the removal from the directory. *)
Lemma wp_unlink s L w (Q : Z -> kernel D -> Prop) :
  let dir := k_cwd s in
  let m := dir_count s dir in
  is_dir s L dir -> dir < 2 ^ 31 -> head w <> Some 46 ->
  wp ('(r, d, _) ← remove zero_dir (inode_of s dir 0) (c_str w);
      if negb (r =? -1) then
        i ← readInode zero_inode (s32 (d_ino d));
        _ ← freeDataBlocks i;
        writeInode (set_size 0 (set_mode (mode_val IFZERO) i)) ;;
        mret 0
      else mret (-1)) Q s ->
  wp (unlink (c_str w)) Q s.
Proof.
  intros dir m Hd Hdir Hhead HQ. pose proof (dr_fs _ _ _ _ Hd) as Hs.
  pose proof (dr_ino _ _ _ _ Hd) as Hino. cbn [i_number inode_of] in Hino.
  assert (Hlook : aget (c_str w) 0 = Done (default 0 (head w))) by by destruct w.
  unfold unlink. wp_step. apply (wp_lift _ _ _ _ Hlook).
  destruct (Z.eqb_spec (default 0 (head w)) 46) as [E|_].
  { destruct w as [|c w']; [done|]. cbn in E. by subst c. }
  wp_steps. fold dir. rewrite s32_small by (destruct Hino; lia).
  apply wp_readInode; [apply Hs|apply Hs|apply Hs|done|]. exact HQ.
Qed.

Lemma unlink_missing s L w :
  let dir := k_cwd s in
  let m := dir_count s dir in
  removal_ok s (inode_of s dir 0) m L w -> dir < 2 ^ 31 -> head w <> Some 46 ->
  victim s (inode_of s dir 0) m w = None -> unlink (c_str w) s = Done (-1, s).
Proof.
  intros dir m Hro Hdir Hhead Ev. apply wp_run, (wp_unlink s L); [apply Hro|done|done|].
  wp_step. apply (wp_remove s _ m L); [done|]. fold dir. rewrite Ev. by wp_steps.
Qed.

Lemma unlink_found s L w k e :
  let dir := k_cwd s in
  let m := dir_count s dir in
  removal_ok s (inode_of s dir 0) m L w -> dir < 2 ^ 31 -> m <= 176 -> head w <> Some 46 ->
  victim s (inode_of s dir 0) m w = Some (k, e) -> doomed s dir m (d_ino e) L ->
  exists t, unlink (c_str w) s = Done (0, t) /\ deleted s L dir m k e t.
Proof.
  intros dir m Hro Hdir Hm Hhead Ev Hdoom. pose proof (ro_dir _ _ _ _ _ Hro) as Hd.
  pose proof (dr_ino _ _ _ _ Hd) as Hino. cbn [i_number inode_of] in Hino.
  destruct (victim_bound s (inode_of s dir 0) m L w k e Hd Ev) as [Hm0 He].
  assert (Hwp : wp (unlink (c_str w)) (fun r t => r = 0 /\ deleted s L dir m k e t) s).
  2:{ apply wp_done in Hwp as (r & t & Hr & -> & Hx). by exists t. }
  apply (wp_unlink s L); [done|done|done|]. fold dir.
  wp_step. apply (wp_remove s _ m L); [done|]. rewrite Ev. intros t i' Hrem. wp_steps.
  pose proof (do_ino _ _ _ _ _ Hdoom) as [[Hn0 Hn1] Hn].
  destruct (Z.eqb_spec (d_ino e) (-1)); [lia|]. cbn [negb]. rewrite s32_small by lia.
  destruct (doomed_removed s dir m L k t i' (d_ino e) ltac:(lia) Hrem Hdoom) as [Hdt Et].
  assert (Ei : i_number i' = dir) by by rewrite (dv_size _ _ _ _ _ _ _ Hrem).
  apply (wp_drop_file t (d_ino e) i' (m - 1) L);
    [by apply (dv_dir _ _ _ _ _ _ _ Hrem)|lia|by rewrite Ei|rewrite Ei; by apply (dv_inode _ _ _ _ _ _ _ Hrem)|].
  intros u Hu. split; [done|]. by apply (deleted_of s L dir m k e t i').
Qed.

(** C27: deletion.  [unlink] looks the name up in the working directory, here one of at
    most 176 entries.  When there is an entry that may go, and its file has direct blocks
    only and shares none with the directory, the call returns 0: the entry is gone and the
    last one took its slot, the file's inode is free, the blocks that its size counts are
    back on top of the free list, the last one first, and no third inode and nothing but
    the file system changed.  When there is no such entry, and for a name that starts with
    a dot, the result is -1 and nothing changed. *)
Theorem unlink_correct s L w :
  let dir := k_cwd s in
  let m := dir_count s dir in
  removal_ok s (inode_of s dir 0) m L w -> dir < 2 ^ 31 -> m <= 176 ->
  (head w = Some 46 -> unlink (c_str w) s = Done (-1, s)) /\
  (head w <> Some 46 ->
   match victim s (inode_of s dir 0) m w with
   | None => unlink (c_str w) s = Done (-1, s)
   | Some (k, e) => doomed s dir m (d_ino e) L ->
       exists t, unlink (c_str w) s = Done (0, t) /\ deleted s L dir m k e t
   end).
Proof.
  intros dir m Hro Hdir Hm. split; [by apply unlink_dot|]. intros Hhead.
  destruct (victim s (inode_of s dir 0) m w) as [[k e]|] eqn:Ev.
  - by apply (unlink_found s L w k e).
  - by apply (unlink_missing s L).
Qed.
End Claims.

(** ** Witness: the file [f] is deleted, and its block 10 is free again *)

Lemma demo_doomed : doomed demo_state 0 3 1 [21; 20].
Proof.
  assert (E : inode_at (k_fs demo_state) (k_disk demo_state) 1 = i_ic demo_inode) by by vm_compute.
  split; rewrite ?E; [done|split; [split|]; by vm_compute|by vm_compute|by apply demo_file|].
  intros a. unfold dead_blocks. rewrite E. rewrite owned_direct by by vm_compute.
  change (freed _ _) with [10]. change (db_at _ <$> _) with [9].
  rewrite !list_elem_of_singleton. lia.
Qed.

Lemma unlink_correct_witness :
  unlink [46; 46; 0] demo_state = Done (-1, demo_state) /\
  exists t, unlink [102; 0] demo_state = Done (0, t) /\
    fs_rep t [10; 21; 20] /\ is_free (k_fs t) (k_disk t) 1 /\
    dir_entries (k_disk t) (inode_at (k_fs t) (k_disk t) 0) 2 =
      [demo_entry 0 [46]; demo_entry 2 [100]].
Proof.
  split.
  - apply (unlink_correct demo_state [21; 20] [46; 46]); [|done..].
    destruct demo_removal as [H1 H2 H3 H4]. split; [exact H1| |exact H3|exact H4].
    by apply (bool_decide_unpack _).
  - destruct (unlink_correct demo_state [21; 20] [102] demo_removal eq_refl ltac:(by vm_compute)) as [_ Hu].
    specialize (Hu ltac:(done)).
    assert (E : victim demo_state (inode_of demo_state 0 0) 3 [102] = Some (1%nat, demo_entry 1 [102]))
      by (vm_compute; reflexivity).
    change (k_cwd demo_state) with 0 in Hu. change (dir_count demo_state 0) with 3 in Hu.
    rewrite E in Hu. destruct (Hu demo_doomed) as (t & Ht & Hdel). exists t.
    destruct Hdel as [[Hfs _] _ He Hfree _ _]. split; [exact Ht|].
    change (3 - 1) with 2 in He. split; [exact Hfs|]. split; [exact Hfree|]. rewrite He. vm_compute. reflexivity.
Defined.
