(* ===== verification/OpenProof.v ===== *)
(** * Opening and closing files

    The invariant of the descriptor, open-file and active-inode tables, and [open] and
    [close] against it. *)

From S2P Require Import Prelude CMonad Layout BlockDev Kernel FsOps FreeList InodeProof BlockMap FileRep FileGrow Dir Posix FileIO DirProof PathProof.

(** ** The tables *)

(** The number of open-file entries that lead to entry [p] of the inode table. *)
Definition uses (ofs : list ofile_t) (p : Z) : nat :=
  length (filter (fun o => o_inptr o = Some p) ofs).

(** An entry of the inode table that holds an inode. *)
Definition in_use (i : inode_t) : Prop := ic_mode (i_ic i) <> mode_val IFZERO.

#[export] Instance in_use_dec i : Decision (in_use i).
Proof. unfold in_use. apply _. Defined.

Record tables_ok {D} `{BlockDevice D} (s : kernel D) : Prop := {
  to_oft : length (k_oft s) = 128%nat;
  to_ai : length (k_ai s) = 128%nat;
  to_ptr g o p : k_oft s !! g = Some o -> o_inptr o = Some p -> 0 <= p < AIT_LIMIT;
  to_head g o : k_oft s !! g = Some o -> o_inptr o = None -> o_head o = 0;
  to_links p i : k_ai s !! p = Some i -> i_links i = Z.of_nat (uses (k_oft s) (Z.of_nat p));
  to_mode p i : k_ai s !! p = Some i -> in_use i <-> i_links i <> 0;
  to_inj p q i j : k_ai s !! p = Some i -> k_ai s !! q = Some j -> in_use i -> in_use j ->
                   i_number i = i_number j -> p = q;
  to_wf p i : k_ai s !! p = Some i -> in_use i -> is_ino (k_fs s) (i_number i) /\ lwf (i_ic i);
}.

(** Descriptors of all processes: each leads to an open-file entry in use, and no two
    to the same. *)
Record fds_ok {D} (s : kernel D) : Prop := {
  fo_len c x : k_pcb s !! c = Some x -> length (fd x) = 16%nat;
  fo_some c x n v : k_pcb s !! c = Some x -> fd x !! n = Some (Some v) ->
    exists g o p, v = Z.of_nat g /\ k_oft s !! g = Some o /\ o_inptr o = Some p;
  fo_inj c c' x x' n n' v : k_pcb s !! c = Some x -> k_pcb s !! c' = Some x' ->
    fd x !! n = Some (Some v) -> fd x' !! n' = Some (Some v) -> c = c' /\ n = n';
}.

(** The entry of the inode table that holds inode [n], if any, and the inode as the
    kernel sees it: there, or on the disk. *)
Definition holder {D} (s : kernel D) (n : Z) : option (nat * inode_t) :=
  list_find (fun i => i_number i = n /\ in_use i) (k_ai s).

Definition current_ic {D} `{BlockDevice D} (s : kernel D) (n : Z) : icommon_t :=
  match holder s n with
  | Some (_, i) => i_ic i
  | None => inode_at (k_fs s) (k_disk s) n
  end.

(** ** Counting *)

Section Uses.
Implicit Types (ofs : list ofile_t) (o : ofile_t) (p : Z).

Lemma uses_le ofs p : (uses ofs p <= length ofs)%nat.
Proof. unfold uses. apply length_filter. Qed.

(** One entry overwritten. *)
Lemma uses_insert ofs g o o' p :
  ofs !! g = Some o ->
  (uses (<[g := o']> ofs) p + (if decide (o_inptr o = Some p) then 1 else 0) =
   uses ofs p + (if decide (o_inptr o' = Some p) then 1 else 0))%nat.
Proof.
  revert g. unfold uses. induction ofs as [|x ofs IH]; intros [|g] Hg; cbn in Hg; [done|done| |].
  - injection Hg as ->. cbn [insert list_insert]. rewrite !filter_cons.
    repeat case_decide; cbn [length]; lia.
  - specialize (IH g Hg). change (<[S g := o']> (x :: ofs)) with (x :: <[g := o']> ofs).
    rewrite !filter_cons. destruct (decide (o_inptr x = Some p)); cbn [length]; lia.
Qed.

Lemma uses_pos ofs g o p : ofs !! g = Some o -> o_inptr o = Some p -> (0 < uses ofs p)%nat.
Proof.
  intros Hg Ho. unfold uses. assert (Hin : o ∈ filter (fun o => o_inptr o = Some p) ofs).
  { apply list_elem_of_filter. split; [done|]. by eapply list_elem_of_lookup_2. }
  destruct (filter _ ofs); [by apply not_elem_of_nil in Hin|cbn; lia].
Qed.

Lemma uses_ex ofs p : (0 < uses ofs p)%nat -> Some p ∈ o_inptr <$> ofs.
Proof.
  unfold uses. intros Hu. destruct (filter _ ofs) as [|o l] eqn:E; [cbn in Hu; lia|].
  assert (Hin : o ∈ filter (fun o => o_inptr o = Some p) ofs) by (rewrite E; by left).
  apply list_elem_of_filter in Hin as [Ho Hin]. apply list_elem_of_fmap. by exists o.
Qed.

(** With an open-file entry free, not all of [n] inodes can be in use when there are no
    more than [n] entries. *)
Lemma uses_pigeon ofs n :
  None ∈ o_inptr <$> ofs -> (length ofs <= n)%nat ->
  exists p, 0 <= p < Z.of_nat n /\ uses ofs p = 0%nat.
Proof.
  intros Hnone Hlen. destruct (decide (Forall (fun p => (0 < uses ofs p)%nat) (seqZ 0 (Z.of_nat n))))
    as [Hall|Hno].
  - exfalso. assert (Hsub : None :: (Some <$> seqZ 0 (Z.of_nat n)) ⊆+ o_inptr <$> ofs).
    { apply NoDup_submseteq.
      - apply list.NoDup_cons. split.
        + intros (x & E & _)%list_elem_of_fmap. done.
        + apply NoDup_fmap_2; [apply _|apply NoDup_seqZ].
      - intros x [->|(p & -> & Hp)%list_elem_of_fmap]%elem_of_cons; [done|].
        apply uses_ex. by apply (proj1 (list.Forall_forall _ _) Hall). }
    apply submseteq_length in Hsub. cbn [length] in Hsub.
    rewrite !length_fmap, length_seqZ in Hsub. lia.
  - apply not_Forall_Exists in Hno; [|apply _]. apply list.Exists_exists in Hno as (p & Hp & Hu).
    apply elem_of_seqZ in Hp. exists p. split; [lia|]. cbn in Hu. lia.
Qed.
End Uses.

(** ** Searching the tables *)

Definition no_entry (e : option Z) : bool := match e with None => true | Some _ => false end.

(** The first free entry of a descriptor table, and of the open-file table. *)
Definition free_fd (x : pcb_t) : option nat := fst <$> list_find (fun e => no_entry e = true) (fd x).
Definition free_oft (ofs : list ofile_t) : option nat :=
  fst <$> list_find (fun o => no_entry (o_inptr o) = true) ofs.
Definition free_ai (ais : list inode_t) : option (nat * inode_t) :=
  list_find (fun i => ~ in_use i) ais.

Section Free.
Implicit Types (ofs : list ofile_t) (x : pcb_t).

Lemma free_oft_some ofs g :
  free_oft ofs = Some g -> exists o, ofs !! g = Some o /\ o_inptr o = None.
Proof.
  unfold free_oft. destruct (list_find _ ofs) as [[g' o]|] eqn:Eg; [|done]. intros [= ->].
  apply list_find_Some in Eg as (Ho & Hno & _). exists o. split; [done|]. by destruct (o_inptr o).
Qed.

Lemma free_fd_some x n :
  free_fd x = Some n -> fd x !! n = Some None.
Proof.
  unfold free_fd. destruct (list_find _ (fd x)) as [[n' e]|] eqn:En; [|done]. intros [= ->].
  apply list_find_Some in En as (He & Hno & _). by destruct e.
Qed.
End Free.

Section Search.
Context {D : Type} `{BlockDeviceLaws D}.
Implicit Types (s t : kernel D) (L : list Z).

Lemma wp_getFD s c x (Q : Z -> kernel D -> Prop) :
  k_current s = Some c -> 0 <= c -> k_pcb s !! Z.to_nat c = Some x -> length (fd x) = 16%nat ->
  Q (default (-1) (Z.of_nat <$> free_fd x)) s -> wp getFD Q s.
Proof.
  intros Hc Hc0 Hx Hl HQ. unfold getFD. wp_step.
  change (Z.to_nat FDT_LIMIT) with 16%nat. rewrite <-Hl. apply (wp_scan (fd x) no_entry (fun k => k)).
  - intros k e Hk He. rewrite (run_bind _ _ _ x s (cur_run s c x Hc Hc0 Hx)).
    unfold mbind, M_bind, lift. rewrite (aget_done _ _ _ Hk He). by destruct e.
  - wp_steps. unfold free_fd in HQ. by destruct (list_find _ (fd x)) as [[]|].
Qed.

Lemma wp_getOFT s (Q : option Z -> kernel D -> Prop) :
  length (k_oft s) = 128%nat -> Q (Z.of_nat <$> free_oft (k_oft s)) s -> wp getOFT Q s.
Proof.
  intros Hl HQ. unfold getOFT. change (Z.to_nat OFT_LIMIT) with 128%nat. rewrite <-Hl.
  apply (wp_scan (k_oft s) (fun o => no_entry (o_inptr o)) (fun k => k)).
  - intros k o Hk Ho. rewrite (run_bind _ _ _ o s (at_run Oft k o s Hk Ho)).
    by destruct (o_inptr o).
  - unfold free_oft in HQ. by destruct (list_find _ (k_oft s)) as [[]|].
Qed.

Lemma wp_getAIT s n (Q : option Z -> kernel D -> Prop) :
  length (k_ai s) = 128%nat -> dev_ok (k_disk s) -> geometry D (k_fs s) -> lwf (k_fs s) ->
  is_ino (k_fs s) n ->
  match holder s n, free_ai (k_ai s) with
  | Some (p, _), _ => Q (Some (Z.of_nat p)) s
  | None, Some (p, i) =>
      Q (Some (Z.of_nat p))
        (put_ai (Z.of_nat p) (mk_inode n (i_links i) (inode_at (k_fs s) (k_disk s) n)) s)
  | None, None => Q None s
  end -> wp (getAIT n) Q s.
Proof.
  intros Hl Hok Hg Hf Hn HQ. unfold getAIT. wp_step.
  change (Z.to_nat AIT_LIMIT) with 128%nat. rewrite <-Hl. pose proof (is_ino_u32 _ _ Hf Hn) as Hu.
  apply (wp_scan (k_ai s) (fun i => (i_number i =? u32 n) &&
    negb (ic_mode (i_ic i) =? mode_val IFZERO)) (fun k => k)).
  { intros k i Hk Hi. by rewrite (run_bind _ _ _ i s (at_run Ai k i s Hk Hi)). }
  rewrite (list_find_ext _ (fun i => i_number i = n /\ in_use i)).
  2:{ intros i. rewrite andb_true_iff, negb_true_iff, Z.eqb_eq, Z.eqb_neq. by rewrite u32_small. }
  fold (holder s n). destruct (holder s n) as [[p i]|]; [by wp_steps|]. cbn [fmap option_fmap option_map].
  apply (wp_search (k_ai s) (fun i => ic_mode (i_ic i) =? mode_val IFZERO)).
  { intros k i Hk Hi HP. rewrite (run_bind _ _ _ i s (at_run Ai k i s Hk Hi)). by rewrite HP. }
  rewrite (list_find_ext _ (fun i => ~ in_use i)).
  2:{ intros i. rewrite Z.eqb_eq. unfold in_use. split; [tauto|apply dec_stable]. }
  fold (free_ai (k_ai s)). destruct (free_ai (k_ai s)) as [[p i]|] eqn:E; [|done].
  apply list_find_Some in E as (Hi & HP & _).
  wp_step. apply (wp_at Ai _ i); [lia|by rewrite Nat2Z.id|]. unfold in_use in HP. apply dec_stable in HP.
  rewrite HP, Z.eqb_refl. wp_step. apply wp_readInode; [done..|]. wp_step.
  apply (wp_upd Ai _ i); [lia|by rewrite Nat2Z.id|]. by wp_steps.
Qed.
End Search.

(** ** One link made or undone *)

Section Link.
Context {D : Type} `{BlockDeviceLaws D}.
Implicit Types (s t : kernel D) (L : list Z).

(** An open-file entry that now leads to entry [p], or no longer does. *)
Definition link_step (o o' : ofile_t) (p : nat) (j i : inode_t) : Prop :=
  o_inptr o = None /\ o_inptr o' = Some (Z.of_nat p) /\ i_links i = i_links j + 1 \/
  o_inptr o = Some (Z.of_nat p) /\ o_inptr o' = None /\ o_head o' = 0 /\ i_links i = i_links j - 1.

Lemma tables_ok_link s t g o o' p j i :
  tables_ok s -> k_oft s !! g = Some o -> k_ai s !! p = Some j -> link_step o o' p j i ->
  k_oft t = <[g := o']> (k_oft s) -> k_ai t = <[p := i]> (k_ai s) -> k_fs t = k_fs s ->
  (in_use i <-> i_links i <> 0) -> (in_use i -> is_ino (k_fs s) (i_number i) /\ lwf (i_ic i)) ->
  (in_use i -> forall q j', q <> p -> k_ai s !! q = Some j' -> in_use j' -> i_number j' <> i_number i) ->
  tables_ok t.
Proof.
  intros [Ho Ha Hptr Hhead Hlinks Hmode Hinj Hwf] Hg Hp Hstep Eo Ea Ef Hmi Hwi Hdi.
  assert (Hpl : (p < 128)%nat) by (rewrite <-Ha; by eapply lookup_lt_Some).
  split; rewrite ?Eo, ?Ea, ?Ef.
  - by rewrite length_insert.
  - by rewrite length_insert.
  - intros g' o1 p' [(-> & <- & _)|[Hne Ho1]]%list_lookup_insert_Some Hp'; [|by apply (Hptr g' o1)].
    unfold AIT_LIMIT, OFT_LIMIT, FDT_LIMIT, PROCESS_LIMIT.
    destruct Hstep as [(_ & E & _)|(_ & E & _)]; rewrite E in Hp'; [|done]. injection Hp' as <-. lia.
  - intros g' o1 [(-> & <- & _)|[Hne Ho1]]%list_lookup_insert_Some Hp'; [|by apply (Hhead g' o1)].
    destruct Hstep as [(_ & E & _)|(_ & E & Hh & _)]; [by rewrite E in Hp'|done].
  - intros q j' Hq. pose proof (uses_insert _ g o o' (Z.of_nat q) Hg) as Hu.
    apply list_lookup_insert_Some in Hq as [(<- & <- & _)|[Hne Hq]].
    + pose proof (Hlinks p j Hp). destruct Hstep as [(E1 & E2 & E3)|(E1 & E2 & _ & E3)];
        rewrite E1, E2 in Hu; rewrite E3; do 2 case_decide; simplify_eq; lia.
    + rewrite (Hlinks q j' Hq). assert (Hqp : Some (Z.of_nat q) <> Some (Z.of_nat p)) by (intros [=]; lia).
      destruct Hstep as [(E1 & E2 & E3)|(E1 & E2 & _ & E3)];
        rewrite E1, E2 in Hu; do 2 case_decide; simplify_eq; lia.
  - intros q j' [(<- & <- & _)|[Hne Hq]]%list_lookup_insert_Some; [done|by apply (Hmode q)].
  - intros q q' j1 j2 [(<- & <- & _)|[Hne Hq]]%list_lookup_insert_Some
      [(<- & <- & _)|[Hne' Hq']]%list_lookup_insert_Some H1 H2 E; [done| | |by apply (Hinj q q' j1 j2)].
    + by destruct (Hdi H1 q' j2).
    + by destruct (Hdi H2 q j1).
  - intros q j' [(<- & <- & _)|[Hne Hq]]%list_lookup_insert_Some; [done|by apply (Hwf q)].
Qed.

Lemma holder_some s n p i :
  tables_ok s -> k_ai s !! p = Some i -> in_use i -> i_number i = n -> holder s n = Some (p, i).
Proof.
  intros Ht Hi Hu Hn. apply list_find_Some. split_and!; [done|done|done|].
  intros q j Hj Hq [En Hj']. assert (q = p); [|lia].
  apply (to_inj s Ht q p j i); [done..|congruence].
Qed.

(** An entry of the inode table that changes does not matter to the other inodes. *)
Lemma current_ic_other s t p j i m :
  tables_ok s -> tables_ok t -> k_ai s !! p = Some j -> k_ai t = <[p := i]> (k_ai s) ->
  (in_use j -> i_number j = i_number i) -> m <> i_number i ->
  inode_at (k_fs t) (k_disk t) m = inode_at (k_fs s) (k_disk s) m ->
  current_ic t m = current_ic s m.
Proof.
  intros Ht Ht' Hj Ea Hju Hne Hat. unfold current_ic.
  destruct (holder s m) as [[q j']|] eqn:Eh.
  - apply list_find_Some in Eh as (Hq & [En Huq] & _).
    rewrite (holder_some t m q j'); [done|done| |done|done].
    rewrite Ea, list_lookup_insert_ne; [done|]. intros ->. rewrite Hj in Hq.
    injection Hq as <-. rewrite Hju in En; done.
  - destruct (holder t m) as [[q j']|] eqn:Eh'; [|done].
    exfalso. apply list_find_Some in Eh' as (Hq & [En Huq] & _). rewrite Ea in Hq.
    apply list_lookup_insert_Some in Hq as [(<- & <- & _)|[Hqp Hq]]; [by apply Hne|].
    apply list_find_None in Eh. by apply (Forall_lookup_1 _ _ _ _ Eh Hq).
Qed.

(** With an open-file entry free there is a free entry of the inode table. *)
Lemma free_ai_ex s g :
  tables_ok s -> free_oft (k_oft s) = Some g ->
  exists p i, free_ai (k_ai s) = Some (p, i) /\ k_ai s !! p = Some i /\ ~ in_use i.
Proof.
  intros Ht Hg. destruct (free_ai (k_ai s)) as [[p i]|] eqn:E.
  { apply list_find_Some in E as E'. destruct E' as (Hi & Hu & _). by exists p, i. }
  exfalso. apply list_find_None in E. apply free_oft_some in Hg as (o & Ho & Hno).
  destruct (uses_pigeon (k_oft s) 128) as (p & Hp & Hu).
  - apply list_elem_of_fmap. exists o. split; [done|by eapply list_elem_of_lookup_2].
  - by rewrite (to_oft s Ht).
  - destruct (lookup_lt_ex (k_ai s) (Z.to_nat p)) as [i Hi]; [rewrite (to_ai s Ht); lia|].
    apply (Forall_lookup_1 _ _ _ _ E Hi). rewrite (to_mode s Ht _ _ Hi), (to_links s Ht _ _ Hi).
    rewrite Z2Nat.id, Hu by lia. lia.
Qed.
End Link.

(** ** Opening *)

(** The entry of the inode table an open of inode [n] uses, and the inode in it. *)
Definition grab {D} `{BlockDevice D} (s : kernel D) (n : Z) : option (nat * inode_t) :=
  match holder s n with
  | Some e => Some e
  | None => (fun e => (e.1, mk_inode n (i_links e.2) (inode_at (k_fs s) (k_disk s) n)))
              <$> free_ai (k_ai s)
  end.

Definition link (i : inode_t) : inode_t := set_links (i_links i + 1) i.
Definition unlinked (i : inode_t) : inode_t := set_links (i_links i - 1) i.

Definition put_fd {D} (c : Z) (x : pcb_t) (n : Z) (v : option Z) (s : kernel D) : kernel D :=
  set_k_pcb (<[Z.to_nat c := set_fd (<[Z.to_nat n := v]> (fd x)) x]> (k_pcb s)) s.

(** The state after an open: descriptor [n] leads through open-file entry [g] to inode
    entry [p], whose inode [i] has one link more. *)
Definition open_state {D} (c : Z) (x : pcb_t) (n g p : nat) (i : inode_t) (s : kernel D) : kernel D :=
  put_oft (Z.of_nat g) (mk_ofile (Some (Z.of_nat p)) 0)
    (put_fd c x (Z.of_nat n) (Some (Z.of_nat g)) (put_ai (Z.of_nat p) (link i) s)).

(** The process that runs: entry [c] of the process table, [x]. *)
Record running {D} (s : kernel D) (c : Z) (x : pcb_t) : Prop := {
  ru_cur : k_current s = Some c;
  ru_pos : 0 <= c;
  ru_pcb : k_pcb s !! Z.to_nat c = Some x;
  ru_fd : length (fd x) = 16%nat;
}.

(** ** Descriptors *)

Section Descriptors.
Context {D : Type}.
Implicit Types (s t : kernel D).

Lemma fds_ok_ext s t : k_pcb t = k_pcb s -> k_oft t = k_oft s -> fds_ok s -> fds_ok t.
Proof. intros Hp Ho []. split; rewrite ?Hp, ?Ho; done. Qed.

(** An entry of a descriptor table written, and the open-file entry it led or now leads
    to. *)
Lemma fds_ok_put s t c x n v g o' :
  fds_ok s -> running s c x -> (n < 16)%nat ->
  k_pcb t = <[Z.to_nat c := set_fd (<[n := v]> (fd x)) x]> (k_pcb s) ->
  k_oft t = <[g := o']> (k_oft s) -> (g < length (k_oft s))%nat ->
  (v = Some (Z.of_nat g) /\ (exists p, o_inptr o' = Some p) /\
     (forall o, k_oft s !! g = Some o -> o_inptr o = None) \/
   v = None /\ fd x !! n = Some (Some (Z.of_nat g))) ->
  fds_ok t.
Proof.
  intros [Hlen Hsome Hinj] [Hc Hc0 Hx Hfd] Hn Ep Eo Hg Hv.
  assert (Hold : forall c' x' n' w, k_pcb t !! c' = Some x' -> fd x' !! n' = Some (Some w) ->
    c' = Z.to_nat c /\ n' = n /\ v = Some w \/
    ~ (c' = Z.to_nat c /\ n' = n) /\
    exists x'', k_pcb s !! c' = Some x'' /\ fd x'' !! n' = Some (Some w)).
  { intros c' x' n' w Hx' Hw. rewrite Ep in Hx'.
    apply list_lookup_insert_Some in Hx' as [(<- & <- & _)|[Hne Hx']].
    - cbn in Hw. apply list_lookup_insert_Some in Hw as [(<- & -> & _)|[Hne Hw]]; [by left|].
      right. split; [by intros [_ ->]|]. by exists x.
    - right. split; [by intros [-> _]|]. by exists x'. }
  assert (Hlive : forall c' x' n' w, ~ (c' = Z.to_nat c /\ n' = n) -> k_pcb s !! c' = Some x' ->
    fd x' !! n' = Some (Some w) -> w <> Z.of_nat g).
  { intros c' x' n' w Hne Hx' Hw ->. destruct Hv as [(_ & _ & Hfree)|(_ & Hcn)].
    - destruct (Hsome c' x' n' _ Hx' Hw) as (g' & o & p & Eg & Ho & Hp).
      apply Nat2Z.inj in Eg as <-. rewrite (Hfree o Ho) in Hp. done.
    - apply Hne. by destruct (Hinj c' (Z.to_nat c) x' x n' n _ Hx' Hx Hw Hcn). }
  split.
  - intros c' x' Hx'. rewrite Ep in Hx'.
    apply list_lookup_insert_Some in Hx' as [(<- & <- & _)|[_ Hx']]; [|by apply (Hlen c')].
    cbn. by rewrite length_insert.
  - intros c' x' n' w Hx' Hw. rewrite Eo.
    destruct (Hold c' x' n' w Hx' Hw) as [(-> & -> & Ev)|(Hne & x'' & Hx'' & Hw'')].
    + destruct Hv as [(Ev' & [p Hp] & _)|[Ev' _]]; [|congruence].
      exists g, o', p. split_and!; [congruence|by apply list_lookup_insert_eq|done].
    + destruct (Hsome _ _ _ _ Hx'' Hw'') as (g' & o & p & -> & Ho & Hp).
      pose proof (Hlive _ _ _ _ Hne Hx'' Hw'') as Hgg. exists g', o, p.
      split_and!; [done| |done]. rewrite list_lookup_insert_ne; [done|congruence].
  - intros c1 c2 x1 x2 n1 n2 w H1 H2 Hw1 Hw2.
    destruct (Hold _ _ _ _ H1 Hw1) as [(-> & -> & E1)|(Hne1 & y1 & Hy1 & Hz1)],
      (Hold _ _ _ _ H2 Hw2) as [(-> & -> & E2)|(Hne2 & y2 & Hy2 & Hz2)]; [done| | |].
    + exfalso. destruct Hv as [(Ev & _)|[Ev _]]; [|congruence].
      apply (Hlive _ _ _ _ Hne2 Hy2 Hz2). congruence.
    + exfalso. destruct Hv as [(Ev & _)|[Ev _]]; [|congruence].
      apply (Hlive _ _ _ _ Hne1 Hy1 Hz1). congruence.
    + by apply (Hinj c1 c2 y1 y2 n1 n2 w).
Qed.
End Descriptors.

Section Open.
Context {D : Type} `{BlockDeviceLaws D}.
Implicit Types (s t : kernel D) (L : list Z).

Lemma grab_ok s n p i :
  tables_ok s -> dev_ok (k_disk s) -> geometry D (k_fs s) -> is_ino (k_fs s) n -> grab s n = Some (p, i) ->
  i_number i = n /\ i_ic i = current_ic s n /\ is_ino (k_fs s) n /\ lwf (i_ic i) /\
  exists j, k_ai s !! p = Some j /\ i_links j = i_links i /\
    (in_use j -> j = i) /\
    forall q j', q <> p -> k_ai s !! q = Some j' -> in_use j' -> i_number j' <> n.
Proof.
  intros Ht Hok Hg Hn Hgr. unfold grab, current_ic in *. destruct (holder s n) as [[q j]|] eqn:Eh.
  - injection Hgr as -> ->. apply list_find_Some in Eh as (Hi & [En Hu] & _).
    destruct (to_wf s Ht p i Hi Hu) as [_ Hw]. split_and!; [done..|]. exists i. split_and!; [done..|].
    intros q j' Hq Hj' Hu' En'. apply Hq. by apply (to_inj s Ht q p j' i); [..|congruence].
  - destruct (free_ai (k_ai s)) as [[q j]|] eqn:Ef; [|done]. injection Hgr as -> <-.
    apply list_find_Some in Ef as (Hj & Hfree & _).
    split_and!; [done|done|done|by apply inode_at_wf|]. exists j. split_and!; [done..|].
    intros q j' _ Hj' Hu' En'. apply list_find_None in Eh.
    by apply (Forall_lookup_1 _ _ _ _ Eh Hj').
Qed.

Lemma tables_ok_open s c x n g p i r :
  tables_ok s -> dev_ok (k_disk s) -> geometry D (k_fs s) -> is_ino (k_fs s) r ->
  free_oft (k_oft s) = Some g -> grab s r = Some (p, i) -> ic_mode (current_ic s r) <> mode_val IFZERO ->
  tables_ok (open_state c x n g p i s).
Proof.
  intros Ht Hok Hg Hr Hfree Hgr Huse.
  destruct (grab_ok s r p i Ht Hok Hg Hr Hgr) as (En & Eic & _ & Hw & j & Hj & El & _ & Hoth).
  apply free_oft_some in Hfree as (o & Ho & Hno).
  pose proof (to_links s Ht p j Hj) as Hlk.
  apply (tables_ok_link s _ g o (mk_ofile (Some (Z.of_nat p)) 0) p j (link i));
    rewrite ?Nat2Z.id; try done.
  - left. split_and!; [done..|]. cbn. lia.
  - cbn. by rewrite Nat2Z.id.
  - cbn. by rewrite Nat2Z.id.
  - unfold in_use. cbn. rewrite Eic. split; [lia|done].
  - intros _. by rewrite <-En in Hr.
  - intros _ q j' Hq Hj' Hu'. cbn. rewrite En. by apply (Hoth q j').
Qed.

Lemma current_ic_open s c x n g p i r m :
  tables_ok s -> dev_ok (k_disk s) -> geometry D (k_fs s) -> is_ino (k_fs s) r ->
  free_oft (k_oft s) = Some g -> grab s r = Some (p, i) -> ic_mode (current_ic s r) <> mode_val IFZERO ->
  current_ic (open_state c x n g p i s) m = current_ic s m.
Proof.
  intros Ht Hok Hg Hr Hfree Hgr Huse.
  pose proof (tables_ok_open s c x n g p i r Ht Hok Hg Hr Hfree Hgr Huse) as Ht'.
  destruct (grab_ok s r p i Ht Hok Hg Hr Hgr) as (En & Eic & _ & Hw & j & Hj & El & Hju & Hoth).
  assert (Ea : k_ai (open_state c x n g p i s) = <[p := link i]> (k_ai s)) by (cbn; by rewrite Nat2Z.id).
  destruct (decide (m = r)) as [->|Hne].
  - unfold current_ic at 1. rewrite (holder_some _ r p (link i)); [exact Eic|done| | |done].
    + rewrite Ea. apply list_lookup_insert_eq. by eapply lookup_lt_Some.
    + unfold in_use. cbn. by rewrite Eic.
  - apply (current_ic_other s _ p j (link i)); try done.
    + intros Hu. by rewrite (Hju Hu).
    + cbn. by rewrite En.
Qed.

(** The position of an open file does not matter to the tables. *)
Lemma tables_ok_head s g o p v :
  tables_ok s -> k_oft s !! g = Some o -> o_inptr o = Some p ->
  tables_ok (put_oft (Z.of_nat g) (mk_ofile (Some p) v) s).
Proof.
  intros [Ho Ha Hptr Hhead Hlinks Hmode Hinj Hwf] Hg Hp.
  split; cbn; rewrite ?Nat2Z.id; try done.
  - by rewrite length_insert.
  - intros g' o' p' [(-> & <- & _)|[_ Ho']]%list_lookup_insert_Some Hp'; [|by apply (Hptr g' o')].
    injection Hp' as <-. by apply (Hptr g' o).
  - intros g' o' [(-> & <- & _)|[_ Ho']]%list_lookup_insert_Some Hp'; [done|by apply (Hhead g' o')].
  - intros q j Hq. rewrite (Hlinks q j Hq).
    pose proof (uses_insert _ g o (mk_ofile (Some p) v) (Z.of_nat q) Hg) as Hu.
    rewrite Hp in Hu. change (o_inptr (mk_ofile (Some p) v)) with (Some p) in Hu.
    destruct (decide (Some p = Some (Z.of_nat q))); unfold uses in *; lia.
Qed.

Lemma link_u32 s p j i :
  tables_ok s -> k_ai s !! p = Some j -> i_links i = i_links j ->
  set_links (u32 (i_links i + 1)) i = link i.
Proof.
  intros Ht Hj El. unfold link. f_equal. apply u32_small. unfold is_u32.
  rewrite El, (to_links s Ht p j Hj). pose proof (uses_le (k_oft s) (Z.of_nat p)).
  rewrite (to_oft s Ht) in *. lia.
Qed.

(** With an open-file entry free, the file has or gets an entry of the inode table. *)
Lemma grab_some s r g : tables_ok s -> free_oft (k_oft s) = Some g -> exists p i, grab s r = Some (p, i).
Proof.
  intros Ht Hg. destruct (free_ai_ex s g Ht Hg) as (p & i & Ef & _). unfold grab. rewrite Ef.
  destruct (holder s r) as [[q k]|]; eauto.
Qed.

Lemma opened_open s c x n g p i j :
  running s c x -> free_fd x = Some n -> free_oft (k_oft s) = Some g -> k_ai s !! p = Some j ->
  opened (open_state c x n g p i s) (Z.of_nat n) (Z.of_nat g)
    (mk_ofile (Some (Z.of_nat p)) 0) (Z.of_nat p) (link i).
Proof.
  intros [Hc Hc0 Hx Hfd] He%free_fd_some (o & Ho & _)%free_oft_some Hj.
  pose proof (lookup_lt_Some _ _ _ He). pose proof (lookup_lt_Some _ _ _ Ho).
  pose proof (lookup_lt_Some _ _ _ Hj). pose proof (lookup_lt_Some _ _ _ Hx).
  split; cbn; rewrite ?Nat2Z.id.
  - exists c. eexists. split_and!; [done|done|by apply list_lookup_insert_eq|lia| |].
    + unfold FDT_LIMIT. lia.
    + cbn. apply list_lookup_insert_eq. lia.
  - split; [lia|]. apply list_lookup_insert_eq. lia.
  - done.
  - split; [lia|]. apply list_lookup_insert_eq. lia.
Qed.

Lemma fds_ok_open s c x n g p i :
  fds_ok s -> running s c x -> free_fd x = Some n -> free_oft (k_oft s) = Some g ->
  fds_ok (open_state c x n g p i s).
Proof.
  intros Hfo Hrun Hn%free_fd_some (o & Ho & Hno)%free_oft_some.
  pose proof (lookup_lt_Some _ _ _ Hn) as Hl. rewrite (ru_fd _ _ _ Hrun) in Hl.
  apply (fds_ok_put s _ c x n (Some (Z.of_nat g)) g (mk_ofile (Some (Z.of_nat p)) 0));
    try done; cbn; rewrite ?Nat2Z.id; try done; [by eapply lookup_lt_Some|].
  left. split_and!; [done|by eexists|]. intros o' Ho'. by simplify_eq.
Qed.

(** The tail of [open], once the inode number is known. *)
Definition open_tail (n : Z) (path : list Z) (ino : Z) : M (kernel D) (Z * list Z) :=
  inode ← getAIT ino;
  match inode with
  | None => mret (-1, path)
  | Some inode =>
      ofile ← getOFT;
      match ofile with
      | None => mret (-1, path)
      | Some ofile =>
          upd Ai inode (fun i => set_links (u32 (i_links i + 1)) i) ;;
          set_fd_entry n (Some ofile) ;;
          upd Oft ofile (set_inptr (Some inode)) ;;
          mret (n, path)
      end
  end.

Lemma wp_open_tail s c x n path r (Q : Z * list Z -> kernel D -> Prop) :
  tables_ok s -> dev_ok (k_disk s) -> geometry D (k_fs s) -> lwf (k_fs s) ->
  running s c x -> free_fd x = Some n -> is_ino (k_fs s) r ->
  match grab s r, free_oft (k_oft s) with
  | Some (p, i), Some g => Q (Z.of_nat n, path) (open_state c x n g p i s)
  | Some (p, i), None => Q (-1, path) (put_ai (Z.of_nat p) i s)
  | None, _ => Q (-1, path) s
  end -> wp (open_tail (Z.of_nat n) path r) Q s.
Proof.
  intros Ht Hok Hg Hf [Hc Hc0 Hx Hfd] Hn Hr HQ.
  assert (Hshare : forall p i, grab s r = Some (p, i) ->
    wp (ofile ← getOFT;
        match ofile with
        | None => mret (-1, path)
        | Some ofile =>
            upd Ai (Z.of_nat p) (fun i => set_links (u32 (i_links i + 1)) i) ;;
            set_fd_entry (Z.of_nat n) (Some ofile) ;;
            upd Oft ofile (set_inptr (Some (Z.of_nat p))) ;;
            mret (Z.of_nat n, path)
        end) Q (put_ai (Z.of_nat p) i s)).
  { intros p i Hgr. rewrite Hgr in HQ.
    destruct (grab_ok s r p i Ht Hok Hg Hr Hgr) as (En & Eic & _ & Hw & j & Hj & El & _ & Hoth).
    wp_step. apply wp_getOFT; [apply Ht|]. cbn [put_ai k_oft set_k_ai].
    destruct (free_oft (k_oft s)) as [g|] eqn:Eg; cbn [fmap option_fmap option_map]; [|by wp_steps].
    apply free_oft_some in Eg as (o & Ho & Hno).
    assert (Ehd : o_head o = 0) by by apply (to_head s Ht g o Ho).
    pose proof (lookup_lt_Some _ _ _ Hj) as Hpl.
    wp_step. apply (wp_upd Ai _ i); [lia|cbn; rewrite Nat2Z.id; by apply list_lookup_insert_eq|].
    unfold set_fd_entry. wp_steps. apply (wp_cur _ c x); [done..|]. wp_step.
    apply free_fd_some in Hn as He. pose proof (lookup_lt_Some _ _ _ He).
    eapply wp_lift; [apply aset_done; lia|]. apply (wp_upd_cur _ c x); [done..|].
    wp_steps. apply (wp_upd Oft _ o); [lia|by rewrite Nat2Z.id|]. wp_steps.
    unfold set_inptr. rewrite Ehd, (link_u32 s p j i Ht Hj) by done. revert HQ.
    unfold open_state, put_oft, put_fd, put_ai. cbn. by rewrite list_insert_insert_eq. }
  unfold open_tail. wp_step. apply wp_getAIT; [apply Ht|done..|].
  unfold grab in *. destruct (holder s r) as [[p i]|] eqn:Eh.
  - specialize (Hshare p i eq_refl). apply list_find_Some in Eh as (Hi & _). revert Hshare.
    unfold put_ai. rewrite Nat2Z.id, list_insert_id by done. by destruct s.
  - destruct (free_ai (k_ai s)) as [[p i]|]; [by apply (Hshare p)|by wp_steps].
Qed.
End Open.

Section OpenCalls.
Context {D : Type} `{BlockDeviceLaws D}.
Implicit Types (s t : kernel D) (L : list Z).

Lemma open_full s c x path flag :
  running s c x -> free_fd x = None -> open path flag s = Done ((-1, path), s).
Proof.
  intros [Hc Hc0 Hx Hfd] Hn. apply wp_run. unfold open. wp_step.
  apply (wp_getFD s c x); [done..|]. by rewrite Hn.
Qed.

(** [open] of an existing file, up to what the tables answer. *)
Lemma wp_open_exist s L c x n path v ws r ino0 tok0 left (Q : Z * list Z -> kernel D -> Prop) :
  running s c x -> free_fd x = Some n ->
  path_of path (v :: ws) -> resolves s L ROOT_DIR v ws r ino0 tok0 left ->
  (forall path', wp (if r <? 0 then mret (-1, path') else open_tail (Z.of_nat n) path' r) Q s) ->
  wp (open path (oflag_val O_EXIST)) Q s.
Proof.
  intros [Hc Hc0 Hx Hfd] Hn Hp Hr HQ. unfold open. wp_step.
  apply (wp_getFD s c x); [done..|]. rewrite Hn.
  change (default (-1) (Z.of_nat <$> Some n)) with (Z.of_nat n).
  destruct (Z.eqb_spec (Z.of_nat n) (-1)) as [|_]; [lia|]. cbn [oflag_val Z.eqb Pos.eqb].
  wp_step. unfold path_to_ino. wp_step. apply (wp_walk_path s L path _ v ws r ino0 tok0 left); [done..|].
  intros e path' He. wp_steps. rewrite (we_ino _ _ _ _ _ _ He). apply HQ.
Qed.

Lemma resolves_fs s L dir v ws r ino0 tok0 left :
  resolves s L dir v ws r ino0 tok0 left -> fs_rep s L.
Proof. destruct ws; intros [Hd _]; apply Hd. Qed.
End OpenCalls.

(** ** Closing *)

(** The state after a close: the descriptor and the open-file entry are free, the inode
    has one link less, and its entry is free when that was the last. *)
Definition close_state {D} (c : Z) (x : pcb_t) (n g p : nat) (i : inode_t) (d : D)
    (s : kernel D) : kernel D :=
  put_fd c x (Z.of_nat n) None
    (put_oft (Z.of_nat g) (mk_ofile None 0)
      (put_ai (Z.of_nat p)
        (if i_links i =? 1 then set_mode (mode_val IFZERO) (unlinked i) else unlinked i)
        (set_k_disk d s))).

Section Close.
Context {D : Type} `{BlockDeviceLaws D}.
Implicit Types (s t : kernel D) (L : list Z).

Lemma close_used s g p o i :
  tables_ok s -> k_oft s !! g = Some o -> o_inptr o = Some (Z.of_nat p) -> k_ai s !! p = Some i ->
  in_use i /\ is_ino (k_fs s) (i_number i) /\ lwf (i_ic i).
Proof.
  intros Ht Ho Hin Hi. pose proof (to_links s Ht p i Hi). pose proof (uses_pos _ _ _ _ Ho Hin).
  assert (Hu : in_use i) by (apply (to_mode s Ht p i Hi); lia).
  split; [done|]. by apply (to_wf s Ht p i).
Qed.

Lemma tables_ok_close s c x n g p o i d :
  tables_ok s -> k_oft s !! g = Some o -> o_inptr o = Some (Z.of_nat p) -> k_ai s !! p = Some i ->
  tables_ok (close_state c x n g p i d s).
Proof.
  intros Ht Ho Hin Hi. pose proof (to_links s Ht p i Hi) as Hlk.
  pose proof (uses_pos _ _ _ _ Ho Hin) as Hpos.
  destruct (close_used s g p o i Ht Ho Hin Hi) as (Hu & Hn & Hw).
  apply (tables_ok_link s _ g o (mk_ofile None 0) p i
    (if i_links i =? 1 then set_mode (mode_val IFZERO) (unlinked i) else unlinked i)); try done.
  - right. split_and!; [done..|]. by destruct (i_links i =? 1).
  - cbn. by rewrite Nat2Z.id.
  - cbn. by rewrite Nat2Z.id.
  - unfold in_use in *. destruct (Z.eqb_spec (i_links i) 1); cbn; [split; [done|lia]|split; [lia|done]].
  - destruct (i_links i =? 1); [by intros []|done].
  - destruct (i_links i =? 1); [by intros []|]. intros _ q j' Hq Hj' Hu' En. apply Hq.
    by apply (to_inj s Ht q p j' i).
Qed.

Lemma wp_close s L c x n g p o i (Q : Z -> kernel D -> Prop) :
  tables_ok s -> fs_rep s L -> running s c x -> (n < 16)%nat ->
  fd x !! n = Some (Some (Z.of_nat g)) ->
  k_oft s !! g = Some o -> o_inptr o = Some (Z.of_nat p) -> k_ai s !! p = Some i ->
  (forall d, (if i_links i =? 1 then inode_put (k_fs s) (i_number i) (i_ic i) (k_disk s) d
              else d = k_disk s) ->
     Q 0 (close_state c x n g p i d s)) ->
  wp (close (Z.of_nat n)) Q s.
Proof.
  intros Ht Hs [Hc Hc0 Hx Hfd] Hn He Ho Hin Hi HQ. pose proof (to_links s Ht p i Hi) as Hlk.
  pose proof (uses_pos _ _ _ _ Ho Hin) as Hpos. pose proof (uses_le (k_oft s) (Z.of_nat p)) as Hle.
  rewrite (to_oft s Ht) in Hle.
  destruct (close_used s g p o i Ht Ho Hin Hi) as (Hu & Hino & Hw). pose proof (lookup_lt_Some _ _ _ Hi) as Hpl.
  pose proof (lookup_lt_Some _ _ _ Ho) as Hgl.
  unfold close, fd_file, FDT_LIMIT. replace ((Z.of_nat n <? 0) || (Z.of_nat n >=? 16)) with false by lia.
  wp_steps. apply (wp_cur s c x); [done..|].
  eapply wp_lift; [apply aget_done; [lia|rewrite Nat2Z.id; exact He]|]. wp_steps.
  apply (wp_at Oft _ o); [lia|by rewrite Nat2Z.id|]. rewrite Hin. wp_steps.
  apply (wp_upd Ai _ i); [lia|by rewrite Nat2Z.id|]. wp_steps.
  rewrite (u32_small (i_links i - 1)) by (unfold is_u32; lia).
  change (set_links (i_links i - 1) i) with (unlinked i).
  apply (wp_at Ai _ (unlinked i)); [lia|cbn; by apply list_lookup_insert_eq; lia|].
  change (i_links (unlinked i)) with (i_links i - 1).
  assert (Hrest : forall d,
    (if i_links i =? 1 then inode_put (k_fs s) (i_number i) (i_ic i) (k_disk s) d else d = k_disk s) ->
    wp (upd Oft (Z.of_nat g) (set_inptr None) ;; upd Oft (Z.of_nat g) (set_head 0) ;;
        set_fd_entry (Z.of_nat n) None ;; mret 0) Q
       (put_ai (Z.of_nat p)
         (if i_links i =? 1 then set_mode (mode_val IFZERO) (unlinked i) else unlinked i)
         (set_k_disk d s))).
  { intros d Hd. wp_steps. apply (wp_upd Oft _ o); [lia|by rewrite Nat2Z.id|]. wp_steps.
    apply (wp_upd Oft _ (set_inptr None o)); [lia|cbn; apply list_lookup_insert_eq; lia|].
    unfold set_fd_entry. wp_steps. apply (wp_cur _ c x); [done..|]. wp_step.
    eapply wp_lift; [apply aset_done; lia|]. apply (wp_upd_cur _ c x); [done..|]. wp_steps.
    specialize (HQ d Hd). revert HQ. unfold close_state, put_fd, put_oft, put_ai. cbn.
    by rewrite list_insert_insert_eq. }
  destruct (Z.eqb_spec (i_links i) 1) as [E1|E1].
  - unfold when. replace (i_links i - 1 =? 0) with true by lia. wp_steps.
    apply wp_writeInode; [apply Hs|apply Hs|done|done|]. intros d Hd.
    apply (wp_upd Ai _ (unlinked i)); [lia|cbn; by apply list_lookup_insert_eq; lia|].
    specialize (Hrest d Hd). revert Hrest. unfold put_ai. cbn. by rewrite list_insert_insert_eq.
  - unfold when. destruct (Z.eqb_spec (i_links i - 1) 0); [lia|]. apply wp_ret.
    specialize (Hrest (k_disk s) eq_refl). by rewrite set_k_disk_id in Hrest.
Qed.
End Close.

Section CloseSees.
Context {D : Type} `{BlockDeviceLaws D}.
Implicit Types (s t : kernel D) (L : list Z).

Lemma close_state_fs s c x n g p o i d L :
  tables_ok s -> fs_rep s L -> k_oft s !! g = Some o -> o_inptr o = Some (Z.of_nat p) ->
  k_ai s !! p = Some i ->
  (if i_links i =? 1 then inode_put (k_fs s) (i_number i) (i_ic i) (k_disk s) d else d = k_disk s) ->
  fs_rep (close_state c x n g p i d s) L.
Proof.
  intros Ht Hs Ho Hin Hi Hd. destruct (close_used s g p o i Ht Ho Hin Hi) as (_ & Hn & _).
  apply (fs_rep_ext (set_k_disk d s)); [done|done|]. destruct (i_links i =? 1).
  - by apply (fs_rep_inode s (i_number i) (i_ic i)).
  - subst d. by rewrite set_k_disk_id.
Qed.

Lemma current_ic_close s L c x n g p o i d m :
  tables_ok s -> fs_rep s L -> k_oft s !! g = Some o -> o_inptr o = Some (Z.of_nat p) ->
  k_ai s !! p = Some i ->
  (if i_links i =? 1 then inode_put (k_fs s) (i_number i) (i_ic i) (k_disk s) d else d = k_disk s) ->
  is_ino (k_fs s) m -> current_ic (close_state c x n g p i d s) m = current_ic s m.
Proof.
  intros Ht Hs Ho Hin Hi Hd Hm. destruct (close_used s g p o i Ht Ho Hin Hi) as (Hu & Hn & Hw).
  pose proof (tables_ok_close s c x n g p o i d Ht Ho Hin Hi) as Ht'.
  set (t := close_state c x n g p i d s) in *.
  pose proof (lookup_lt_Some _ _ _ Hi) as Hpl.
  set (i' := if i_links i =? 1 then set_mode (mode_val IFZERO) (unlinked i) else unlinked i).
  assert (Ea : k_ai t = <[p := i']> (k_ai s)) by (cbn; by rewrite Nat2Z.id).
  assert (Hdisk : forall m', is_ino (k_fs s) m' -> m' <> i_number i ->
    inode_at (k_fs t) (k_disk t) m' = inode_at (k_fs s) (k_disk s) m').
  { intros m' Hm' Hne. change (inode_at (k_fs s) d m' = inode_at (k_fs s) (k_disk s) m').
    destruct (i_links i =? 1); [|by subst d]. destruct Hd as (_ & Hput & _).
    by rewrite Hput, decide_False. }
  destruct (decide (m = i_number i)) as [->|Hne].
  - unfold current_ic. rewrite (holder_some s (i_number i) p i) by done.
    destruct (Z.eqb_spec (i_links i) 1) as [E|E].
    + destruct (holder t (i_number i)) as [[q j]|] eqn:Eh.
      * exfalso. apply list_find_Some in Eh as (Hq & [En Huq] & _). rewrite Ea in Hq.
        apply list_lookup_insert_Some in Hq as [(<- & <- & _)|[Hqp Hq]]; [by apply Huq|].
        apply Hqp. symmetry. by apply (to_inj s Ht q p j i).
      * destruct Hd as (_ & Hput & _). change (inode_at (k_fs s) d (i_number i) = i_ic i).
        by rewrite Hput, decide_True.
    + rewrite (holder_some t (i_number i) p (unlinked i)); [done|done| |done|done].
      rewrite Ea. by apply list_lookup_insert_eq.
  - assert (En : i_number i' = i_number i) by (unfold i'; by destruct (i_links i =? 1)).
    apply (current_ic_other s t p i i'); try done; [by rewrite En|by apply Hdisk].
Qed.
(** A descriptor that leads somewhere, closed. *)
Lemma close_done s L c x n v :
  tables_ok s -> fds_ok s -> fs_rep s L -> running s c x ->
  0 <= n < 16 -> fd x !! Z.to_nat n = Some (Some v) ->
  exists g o p i d t, v = Z.of_nat g /\ close n s = Done (0, t) /\
    opened s n (Z.of_nat g) o (Z.of_nat p) i /\
    t = close_state c x (Z.to_nat n) g p i d s /\ tables_ok t /\ fds_ok t /\ fs_rep t L /\
    (if i_links i =? 1 then inode_put (k_fs s) (i_number i) (i_ic i) (k_disk s) d
     else d = k_disk s) /\
    (forall m, is_ino (k_fs s) m -> current_ic t m = current_ic s m).
Proof.
  intros Ht Hfo Hs Hrun Hn Hv. pose proof Hrun as [Hc Hc0 Hx Hfd].
  destruct (fo_some s Hfo _ _ _ _ Hx Hv) as (g & o & p' & -> & Ho & Hin).
  destruct (to_ptr s Ht _ _ _ Ho Hin) as [Hp0 Hp].
  unfold AIT_LIMIT, OFT_LIMIT, FDT_LIMIT, PROCESS_LIMIT in Hp.
  destruct (lookup_lt_ex (k_ai s) (Z.to_nat p')) as [i Hi]; [rewrite (to_ai s Ht); lia|].
  rewrite <-(Z2Nat.id p') in Hin by lia. set (p := Z.to_nat p') in *.
  assert (Hw : wp (close n) (fun y t => y = 0 /\ exists d, t = close_state c x (Z.to_nat n) g p i d s /\
    if i_links i =? 1 then inode_put (k_fs s) (i_number i) (i_ic i) (k_disk s) d
    else d = k_disk s) s).
  { rewrite <-(Z2Nat.id n) at 1 by lia. apply (wp_close s L c x (Z.to_nat n) g p o i); try done; [lia|].
    intros d Hd. split; [done|]. by exists d. }
  apply wp_done in Hw as (y & t & Hr & -> & d & -> & Hd). exists g, o, p, i, d. eexists.
  split_and!; [done|done| |done| | | |done|].
  + split; rewrite ?Nat2Z.id; [|split; [lia|done]|done|split; [lia|done]].
    exists c, x. by unfold FDT_LIMIT.
  + by apply (tables_ok_close s c x _ g p o).
  + apply (fds_ok_put s _ c x (Z.to_nat n) None g (mk_ofile None 0)); try done; [lia| | | |].
    * unfold close_state, put_fd. cbn. by rewrite Nat2Z.id.
    * cbn. by rewrite Nat2Z.id.
    * by eapply lookup_lt_Some.
    * by right.
  + by apply (close_state_fs s c x _ g p o).
  + intros m Hm. by apply (current_ic_close s L c x _ g p o).
Qed.

(** One that is out of range or leads nowhere. *)
Lemma close_refused s c x n :
  running s c x -> n < 0 \/ 16 <= n \/ fd x !! Z.to_nat n = Some None -> close n s = Done (-1, s).
Proof.
  intros Hrun Hn. pose proof Hrun as [Hc Hc0 Hx Hfd]. apply wp_run. unfold close, fd_file, FDT_LIMIT.
  destruct ((n <? 0) || (n >=? 16)) eqn:E; [by wp_steps|].
  assert (Hn' : fd x !! Z.to_nat n = Some None) by (destruct Hn as [|[|]]; [lia..|done]).
  wp_steps. apply (wp_cur s c x); [done..|].
  eapply wp_lift; [apply aget_done; [lia|done]|]. by wp_steps.
Qed.
End CloseSees.

(** * The properties of the tables *)

Section Claims.
Context {D : Type} `{BlockDeviceLaws D}.
Implicit Types (s t : kernel D) (L : list Z).

(** C18: [open] of an existing file.  It takes the lowest free descriptor, which leads
    through the first free open-file entry, at position 0, to the entry of the inode
    table that holds the file: the one that is there already when the file is open (so
    all who have it open see one inode), else one filled from the disk.  Such an entry
    is always found: the inode table cannot be full while an open-file entry is free.
    The tables stay consistent, and for every inode the kernel sees what it saw before.
    With no descriptor or no such file the answer is -1 and nothing changes.  With no
    open-file entry free it is -1 too, but the inode table may have lost an entry
    ([open_full_leaks]). *)
Theorem open_correct s L c x path v ws r ino0 tok0 left :
  tables_ok s -> fds_ok s -> running s c x ->
  path_of path (v :: ws) -> resolves s L ROOT_DIR v ws r ino0 tok0 left ->
  (0 <= r -> is_ino (k_fs s) r /\ ic_mode (current_ic s r) <> mode_val IFZERO) ->
  match free_fd x, free_oft (k_oft s) with
  | None, _ => open path (oflag_val O_EXIST) s = Done ((-1, path), s)
  | Some n, Some g => exists path',
      if r <? 0 then open path (oflag_val O_EXIST) s = Done ((-1, path'), s)
      else exists p i t, open path (oflag_val O_EXIST) s = Done ((Z.of_nat n, path'), t) /\
        t = open_state c x n g p i s /\ tables_ok t /\ fds_ok t /\
        opened t (Z.of_nat n) (Z.of_nat g) (mk_ofile (Some (Z.of_nat p)) 0) (Z.of_nat p) (link i) /\
        i_number i = r /\ i_ic i = current_ic s r /\
        (forall q j, k_ai s !! q = Some j -> in_use j -> i_number j = r -> p = q /\ i = j) /\
        (forall m, current_ic t m = current_ic s m)
  | Some n, None => exists path' t, open path (oflag_val O_EXIST) s = Done ((-1, path'), t)
  end.
Proof.
  intros Ht Hfo Hrun Hp Hres Hr. pose proof (resolves_fs _ _ _ _ _ _ _ _ _ Hres) as Hs.
  destruct (free_fd x) as [n|] eqn:En; [|by apply (open_full s c x)].
  pose proof (wp_open_exist s L c x n path v ws r ino0 tok0 left) as Hopen.
  assert (Htail : 0 <= r -> forall path' Q,
    match grab s r, free_oft (k_oft s) with
    | Some (p, i), Some g => Q (Z.of_nat n, path') (open_state c x n g p i s)
    | Some (p, i), None => Q (-1, path') (put_ai (Z.of_nat p) i s)
    | None, _ => Q (-1, path') s
    end -> wp (if r <? 0 then mret (-1, path') else open_tail (Z.of_nat n) path' r) Q s).
  { intros Hr0 path' Q HQ. destruct (Z.ltb_spec r 0); [lia|].
    apply (wp_open_tail s c x); [done|apply Hs..|done|done|by apply Hr|done]. }
  destruct (free_oft (k_oft s)) as [g|] eqn:Eg.
  - destruct (Z.ltb_spec r 0) as [Hneg|Hr0].
    + assert (Hw : wp (open path (oflag_val O_EXIST)) (fun y t => y.1 = -1 /\ t = s) s).
      { apply Hopen; [done..|]. intros path'. by replace (r <? 0) with true by lia. }
      apply wp_done in Hw as ([y path'] & t & Hrn & Hy & ->). exists path'. cbn in Hy. by subst y.
    + destruct (Hr Hr0) as [Hino Huse]. destruct (grab_some s r g Ht Eg) as (p & i & Egr). rewrite Egr in Htail.
      assert (Hw : wp (open path (oflag_val O_EXIST))
                     (fun y t => y.1 = Z.of_nat n /\ t = open_state c x n g p i s) s).
      { apply Hopen; [done..|]. intros path'. by apply (Htail Hr0). }
      apply wp_done in Hw as ([y path'] & t & Hrn & Hy & ->). cbn in Hy. subst y.
      exists path', p, i, (open_state c x n g p i s).
      destruct (grab_ok s r p i Ht (fr_ok _ _ Hs) (fr_geo _ _ Hs) Hino Egr)
        as (Enum & Eic & _ & _ & j & Hj & _ & Hju & Hoth).
      split_and!; [done|done|by apply (tables_ok_open s c x n g p i r); [..|apply Hs|apply Hs| | | |]|
                   by apply (fds_ok_open s c x n g p i)|by apply (opened_open s c x n g p i j)|done|done| |
                   intros m; by apply (current_ic_open s c x n g p i r m); [..|apply Hs|apply Hs| | | |]].
      intros q j' Hq Huq Enq. destruct (decide (q = p)) as [->|Hne].
      * split; [done|]. rewrite Hj in Hq. injection Hq as <-. by rewrite Hju.
      * by destruct (Hoth q j' Hne Hq Huq).
  - assert (Hw : wp (open path (oflag_val O_EXIST)) (fun y _ => y.1 = -1) s).
    { apply Hopen; [done..|]. intros path'. destruct (Z.lt_ge_cases r 0).
      - by replace (r <? 0) with true by lia.
      - apply Htail; [done|]. by destruct (grab s r) as [[]|]. }
    apply wp_done in Hw as ([y path'] & t & Hrn & Hy). exists path', t. cbn in Hy. by subst y.
Qed.

(** C19: [close].  A descriptor that is out of range or leads nowhere is refused with -1
    and nothing changes.  Else the descriptor and its open-file entry become free (at
    position 0, where the next open starts) and the inode loses a link; with the last
    one it is written to the disk and its entry becomes free.  The tables stay
    consistent, the free list is as it was, and for every inode the kernel sees what it
    saw before. *)
Theorem close_correct s L c x n :
  tables_ok s -> fds_ok s -> fs_rep s L -> running s c x ->
  (n < 0 \/ 16 <= n \/ fd x !! Z.to_nat n = Some None -> close n s = Done (-1, s)) /\
  (forall v, 0 <= n < 16 -> fd x !! Z.to_nat n = Some (Some v) ->
     exists g o p i d t, v = Z.of_nat g /\ close n s = Done (0, t) /\
       opened s n (Z.of_nat g) o (Z.of_nat p) i /\
       t = close_state c x (Z.to_nat n) g p i d s /\ tables_ok t /\ fds_ok t /\ fs_rep t L /\
       (if i_links i =? 1 then inode_put (k_fs s) (i_number i) (i_ic i) (k_disk s) d
        else d = k_disk s) /\
       (forall m, is_ino (k_fs s) m -> current_ic t m = current_ic s m)).
Proof.
  intros Ht Hfo Hs Hrun. split; [by apply (close_refused s c x)|].
  intros v Hn Hv. by apply (close_done s L c x n v).
Qed.
End Claims.

(** ** A full open-file table *)

Section Leak.
Context {D : Type} `{BlockDeviceLaws D}.
Implicit Types (s t : kernel D) (L : list Z).

(** When no open-file entry is free, [open] has already taken an entry of the inode
    table before it finds out, and does not give it back: the entry holds the inode for
    good, with no link to it. *)
Theorem open_full_leaks s L c x n path v ws r ino0 tok0 left p i :
  tables_ok s -> running s c x -> free_fd x = Some n ->
  path_of path (v :: ws) -> resolves s L ROOT_DIR v ws r ino0 tok0 left ->
  is_ino (k_fs s) r -> holder s r = None -> free_ai (k_ai s) = Some (p, i) ->
  free_oft (k_oft s) = None ->
  let i' := mk_inode r (i_links i) (inode_at (k_fs s) (k_disk s) r) in
  exists path', open path (oflag_val O_EXIST) s = Done ((-1, path'), put_ai (Z.of_nat p) i' s) /\
    i_links i' = 0.
Proof.
  intros Ht Hrun Hn Hp Hres Hr Hh Hf Ho i'. pose proof (resolves_fs _ _ _ _ _ _ _ _ _ Hres) as Hs.
  assert (Hw : wp (open path (oflag_val O_EXIST))
                 (fun y t => y.1 = -1 /\ t = put_ai (Z.of_nat p) i' s) s).
  { apply (wp_open_exist s L c x n path v ws r ino0 tok0 left); [done..|]. intros path'.
    destruct (Z.ltb_spec r 0); [by destruct Hr; lia|].
    apply (wp_open_tail s c x); [done|apply Hs..|done|done|done|].
    unfold grab. by rewrite Hh, Hf, Ho. }
  apply wp_done in Hw as ([y path'] & t & Hrn & Hy & ->). exists path'. cbn in Hy. subst y.
  split; [done|]. apply list_find_Some in Hf as (Hi & Hu & _). cbn.
  destruct (decide (i_links i = 0)); [done|]. by destruct Hu; apply (to_mode s Ht p i Hi).
Qed.
End Leak.

(** ** Witnesses *)

Lemma uses_none n p : uses (replicate n (mk_ofile None 0)) p = 0%nat.
Proof. unfold uses. induction n as [|n IH]; [done|]. cbn [replicate]. by rewrite filter_cons_False. Qed.

(** The tables at power on. *)
Lemma tables_ok_empty {D} `{BlockDevice D} (s : kernel D) :
  k_oft s = replicate 128 (mk_ofile None 0) -> k_ai s = replicate 128 zero_inode -> tables_ok s.
Proof.
  intros Eo Ea. split; rewrite ?Eo, ?Ea.
  - apply length_replicate.
  - apply length_replicate.
  - by intros g o p [-> _]%lookup_replicate.
  - by intros g o [-> _]%lookup_replicate.
  - intros p i [-> _]%lookup_replicate. by rewrite uses_none.
  - intros p i [-> _]%lookup_replicate. unfold in_use. cbn. tauto.
  - intros p q i j [-> _]%lookup_replicate _ Hu. by destruct Hu.
  - intros p i [-> _]%lookup_replicate Hu. by destruct Hu.
Qed.

(** No process has a descriptor. *)
Lemma fds_ok_none {D} (s : kernel D) : Forall (fun x => fd x = replicate 16 None) (k_pcb s) -> fds_ok s.
Proof.
  intros Hall. assert (Hno : forall c x n v, k_pcb s !! c = Some x -> fd x !! n = Some (Some v) -> False).
  { intros c x n v Hx Hv. rewrite (Forall_lookup_1 _ _ _ _ Hall Hx) in Hv.
    by apply lookup_replicate in Hv as [? _]. }
  split; [|intros; exfalso; by eapply Hno..]. intros c x Hx. by rewrite (Forall_lookup_1 _ _ _ _ Hall Hx).
Qed.

(** The demo file, open once. *)
Lemma demo_tables : tables_ok demo_open.
Proof.
  apply (tables_ok_link demo_state _ 0 (mk_ofile None 0) (mk_ofile (Some 0) 508) 0 zero_inode demo_inode);
    try done.
  - by apply tables_ok_empty.
  - left. by split_and!.
  - intros _. split; [by split|by apply (bool_decide_unpack _)].
  - intros _ q j _ Hq Hu. exfalso. apply Hu.
    change (replicate 128 zero_inode !! q = Some j) in Hq. by apply lookup_replicate in Hq as [-> _].
Qed.

Lemma demo_running : running demo_open 0 (demo_proc (Some 0 :: replicate 15 None)).
Proof. by split. Qed.

Lemma demo_fds : fds_ok demo_open.
Proof.
  set (u := set_k_current (Some 0) (set_k_pcb (demo_proc (replicate 16 None) :: replicate 7 zero_pcb) demo_state)).
  apply (fds_ok_put u _ 0 (demo_proc (replicate 16 None)) 0 (Some 0) 0 (mk_ofile (Some 0) 508));
    try done; try (by split); try (cbn; lia).
  - apply fds_ok_none, list.Forall_cons. split; [done|by apply Forall_replicate].
  - left. split_and!; [done|by eexists|]. intros o [= <-]. done.
Qed.

(** [/f]. *)
Definition file_path : list Z := [47; 102; 0].

Lemma file_path_of : path_of file_path [[102]].
Proof.
  change file_path with (replicate 1 SLASH ++ [102] ++ [0]).
  apply path_comp; [|apply (path_end 0 [])|by right]. split; [done|]. split.
  - by apply (bool_decide_unpack _).
  - intros Hin%list_elem_of_singleton. done.
Qed.

Lemma file_resolves s :
  k_fs s = demo_fs -> k_disk s = demo_disk -> resolves s [21; 20] 0 [102] [] 1 0 [102] [].
Proof.
  intros Ef Ed. destruct (demo_is_dir 0 (or_introl eq_refl)) as [Hs Hf Hino Hsz Hm].
  assert (E : dir_find demo_state 0 [102] = 1) by (vm_compute; reflexivity).
  unfold is_dir, dir_find, dir_count, inode_of in *.
  change (k_fs demo_state) with demo_fs in *. change (k_disk demo_state) with demo_disk in *.
  cbn [resolves]. unfold is_dir, dir_find, dir_count, inode_of. rewrite Ef, Ed. split.
  - split; [exact (fs_rep_ext demo_state s _ Ef Ed Hs)|exact (file_rep_ext demo_state s _ _ _ Ef Ed Hf)|
           cbn [i_number]; by rewrite Ef|exact Hsz|exact Hm].
  - split_and!; [symmetry; exact E|done..].
Qed.

(** Opening [/f] again gives descriptor 1 and the same in-core inode, with two links. *)
Lemma open_correct_witness :
  exists path' t, open file_path (oflag_val O_EXIST) demo_open = Done ((1, path'), t) /\
    opened t 1 1 (mk_ofile (Some 0) 0) 0 (link demo_inode) /\ tables_ok t.
Proof.
  pose proof (open_correct demo_open [21; 20] 0 _ file_path [102] [] 1 0 [102] []
    demo_tables demo_fds demo_running file_path_of) as Hop.
  destruct Hop as (path' & p & i & t & Hr & _ & Ht & _ & Hopd & Hn & _ & Hshare & _).
  - by apply file_resolves.
  - intros _. split; [by split|]. by vm_compute.
  - exists path', t. split; [exact Hr|]. split; [|exact Ht].
    destruct (Hshare 0%nat demo_inode eq_refl) as [-> ->]; [by vm_compute|done|]. exact Hopd.
Defined.

(** Closing the only descriptor of [/f] writes its inode back. *)
Lemma close_correct_witness :
  exists t, close 0 demo_open = Done (0, t) /\ tables_ok t /\ fds_ok t /\ fs_rep t [21; 20] /\
    current_ic t 1 = demo_ic 3 510 10.
Proof.
  destruct (close_correct demo_open [21; 20] 0 _ 0 demo_tables demo_fds
    (fw_fs _ _ _ demo_file_wf) demo_running) as [_ Hc].
  destruct (Hc 0) as (g & o & p & i & d & t & _ & Hr & _ & _ & Ht & Hfo & Hs & _ & Hsee); [lia|done|].
  exists t. split_and!; [exact Hr|exact Ht|exact Hfo|exact Hs|].
  rewrite Hsee by by split. reflexivity.
Defined.
