(* ===== verification/Volume.v ===== *)
(** * The volume

    The invariant of the whole file system: what every inode in use owns, that nothing
    is owned twice or owned and free, that directories name inodes in use and no regular
    file has two names.  How it goes from one state to another when few inodes change. *)

From S2P Require Import Prelude CMonad Layout BlockDev Kernel FsOps FreeList InodeProof BlockMap FileRep FileGrow FileIO DirProof PathProof OpenProof.

(** ** What is in use *)

Section Defs.
Context {D : Type} `{BlockDevice D}.
Implicit Types (s : kernel D) (n : Z).

Definition live s n : Prop := is_ino (k_fs s) n /\ ~ is_free (k_fs s) (k_disk s) n.

Definition dir_mode s n : Prop := ic_mode (inode_at (k_fs s) (k_disk s) n) = mode_val IFDIR.

#[export] Instance dir_mode_dec s n : Decision (dir_mode s n).
Proof. unfold dir_mode. apply _. Defined.

(** The number of blocks an inode must have: a directory of [16 k] entries has [k]
    blocks, a file of [512 k] bytes one more. *)
Definition nblks (ic : icommon_t) : Z :=
  if decide (ic_mode ic = mode_val IFDIR) then Z.max 1 ((ic_size ic / 32 + 15) / 16)
  else nblocks (ic_size ic).

Definition held s n : list Z := owned (k_disk s) (current_ic s n) (nblks (current_ic s n)).

Definition entries s n : list dir_t :=
  dir_entries (k_disk s) (inode_at (k_fs s) (k_disk s) n) (dir_count s n).

(** The files, as the kernel sees them: an open one by its entry of the inode table. *)
Record files_ok s (L : list Z) : Prop := {
  fl_fs : fs_rep s L;
  fl_mode n : is_ino (k_fs s) n ->
    ic_mode (current_ic s n) = ic_mode (inode_at (k_fs s) (k_disk s) n);
  fl_rep n : live s n -> file_rep s (current_ic s n) (nblks (current_ic s n)) L;
  fl_apart n m a : live s n -> live s m -> a ∈ held s n -> a ∈ held s m -> n = m;
}.

(** The directories.  None of them is open: [open] does not refuse one, but then [close]
    writes back what it had read. *)
Record tree_ok s : Prop := {
  tr_dir n : live s n -> dir_mode s n ->
    holder s n = None /\ ic_size (inode_at (k_fs s) (k_disk s) n) = 32 * dir_count s n;
  tr_entry n e : live s n -> dir_mode s n -> e ∈ entries s n ->
    live s (d_ino e) /\ d_ino e < 2 ^ 31;
  tr_once n n' k k' e e' : live s n -> dir_mode s n -> live s n' -> dir_mode s n' ->
    entries s n !! k = Some e -> entries s n' !! k' = Some e' ->
    d_ino e = d_ino e' -> ~ dir_mode s (d_ino e) -> n = n' /\ k = k';
  tr_root : live s ROOT_DIR /\ dir_mode s ROOT_DIR;
  tr_cwd : live s (k_cwd s) /\ dir_mode s (k_cwd s) /\ k_cwd s < 2 ^ 31;
}.

Record volume s (L : list Z) : Prop := {
  vo_tables : tables_ok s;
  vo_fds : fds_ok s;
  vo_heads : Forall (fun o => is_u32 (o_head o)) (k_oft s);
  vo_files : files_ok s L;
  vo_tree : tree_ok s;
}.
End Defs.

(** ** Frames of data blocks *)

Section Frames.
Context {D : Type} `{BlockDeviceLaws D}.
Implicit Types (s t : kernel D) (ic : icommon_t) (L : list Z).

Lemma is_ino_disk (ex : Z -> Prop) s t m :
  disk_frame ex s t -> is_ino (k_fs t) m <-> is_ino (k_fs s) m.
Proof. intros [(_ & Hi & _) _]. unfold is_ino. by rewrite Hi. Qed.

Lemma blk_addr_disk (ex : Z -> Prop) s t ic n L k :
  file_rep s ic n L -> disk_frame ex s t -> (forall b, b ∈ owned (k_disk s) ic n -> ~ ex b) ->
  0 <= k < n -> blk_addr (k_disk t) ic k = blk_addr (k_disk s) ic k.
Proof.
  intros Hf Hfr Hex Hk. pose proof (fi_num _ _ _ _ Hf) as Hn. unfold MAXBLKS in Hn.
  apply (blk_addr_ext _ _ _ _ n); [done|lia|done|]. intros H11. split; [done|]. intros j Hj. unfold word.
  rewrite (df_blk _ _ _ Hfr); [done|by apply (file_rep_table s ic n L)|].
  apply Hex, elem_of_app. right. unfold table_of. destruct (Z.ltb_spec 11 n); [by left|lia].
Qed.

Lemma owned_disk (ex : Z -> Prop) s t ic n L :
  file_rep s ic n L -> disk_frame ex s t -> (forall b, b ∈ owned (k_disk s) ic n -> ~ ex b) ->
  owned (k_disk t) ic n = owned (k_disk s) ic n.
Proof.
  intros Hf Hfr Hex. unfold owned. f_equal. apply file_blocks_ext. intros k Hk.
  by apply (blk_addr_disk ex s t ic n L).
Qed.

Lemma file_rep_disk (ex : Z -> Prop) s t ic n L L' :
  file_rep s ic n L -> disk_frame ex s t -> (forall b, b ∈ owned (k_disk s) ic n -> ~ ex b) ->
  NoDup (owned (k_disk s) ic n ++ L') -> file_rep t ic n L'.
Proof.
  intros Hf Hfr Hex Hnd. pose proof (owned_disk ex s t ic n L Hf Hfr Hex) as Ho.
  destruct Hf as [Hwf Hn _ Hd]. split; [done|done|by rewrite Ho|]. rewrite Ho.
  eapply list.Forall_impl; [exact Hd|]. intros a. apply data_addr_frame. apply (df_geo _ _ _ Hfr).
Qed.

Lemma dir_entries_disk (ex : Z -> Prop) s t ic n L m :
  file_rep s ic n L -> disk_frame ex s t -> (forall b, b ∈ owned (k_disk s) ic n -> ~ ex b) ->
  (m + 15) / 16 <= n -> dir_entries (k_disk t) ic m = dir_entries (k_disk s) ic m.
Proof.
  intros Hf Hfr Hex Hm. unfold dir_entries. apply list_fmap_ext. intros j k Hk%lookup_seqZ.
  pose proof (Z.div_mod k 16). pose proof (Z.mod_pos_bound k 16).
  pose proof (Z.div_mod (m + 15) 16). pose proof (Z.mod_pos_bound (m + 15) 16).
  assert (Hkn : 0 <= k / 16 < n) by (split; [apply Z.div_pos|]; lia).
  unfold dir_at. rewrite (blk_addr_disk ex s t ic n L) by done.
  rewrite (df_blk _ _ _ Hfr); [done|by apply (file_rep_blk s ic n L)|].
  apply Hex, elem_of_app. left. apply elem_of_file_blocks. by exists (k / 16).
Qed.

Lemma fbytes_disk (ex : Z -> Prop) s t ic n L a len :
  file_rep s ic n L -> disk_frame ex s t -> (forall b, b ∈ owned (k_disk s) ic n -> ~ ex b) ->
  0 <= a -> a + len <= 512 * n -> fbytes (k_disk t) ic a len = fbytes (k_disk s) ic a len.
Proof.
  intros Hf Hfr Hex Ha Hlen. unfold fbytes. apply list_fmap_ext. intros j q Hq%list_elem_of_lookup_2%elem_of_seqZ.
  pose proof (Z.div_mod q 512). pose proof (Z.mod_pos_bound q 512).
  assert (Hk : 0 <= q / 512 < n) by (split; [apply Z.div_pos|]; lia).
  unfold fbyte. rewrite (blk_addr_disk ex s t ic n L) by done. rewrite (df_blk _ _ _ Hfr); [done| |].
  - by apply (file_rep_blk s ic n L).
  - apply Hex, elem_of_app. left. apply elem_of_file_blocks. by exists (q / 512).
Qed.
End Frames.

(** ** What the invariant gives *)

Section Facts.
Context {D : Type} `{BlockDeviceLaws D}.
Implicit Types (s t : kernel D) (ic : icommon_t) (L : list Z).

Lemma held_rep s L n : files_ok s L -> live s n ->
  NoDup (held s n ++ L) /\ forall b, b ∈ held s n -> data_addr D (k_fs s) b /\ b ∉ L.
Proof.
  intros Hfl Hn. pose proof (fl_rep s L Hfl n Hn) as [_ _ Hnd Hd]. split; [done|]. intros b Hb.
  split; [by apply (proj1 (list.Forall_forall _ _) Hd)|].
  apply list.NoDup_app in Hnd as (_ & Hdis & _). by apply Hdis.
Qed.

Lemma current_dir s n : tree_ok s -> live s n -> dir_mode s n ->
  current_ic s n = inode_at (k_fs s) (k_disk s) n.
Proof. intros Ht Hn Hd. unfold current_ic. by destruct (tr_dir s Ht n Hn Hd) as [-> _]. Qed.

Lemma nblks_dir s n : dir_mode s n ->
  nblks (inode_at (k_fs s) (k_disk s) n) = Z.max 1 ((dir_count s n + 15) / 16).
Proof. intros Hd. unfold nblks. by rewrite decide_True. Qed.

(** A directory in use is one the operations on directories work on. *)
Lemma live_is_dir s L n : files_ok s L -> tree_ok s -> live s n -> dir_mode s n -> is_dir s L n.
Proof.
  intros Hfl Ht Hn Hd. pose proof (fl_rep s L Hfl n Hn) as Hf.
  rewrite (current_dir s n Ht Hn Hd), (nblks_dir s n Hd) in Hf.
  destruct (tr_dir s Ht n Hn Hd) as [_ Hsz]. split; [apply Hfl|done|apply Hn|done|].
  destruct (fi_wf _ _ _ _ Hf) as (_ & Hz & _). cbn in Hz. unfold is_u32 in Hz. unfold dir_count.
  apply Z.div_pos; lia.
Qed.

(** A held inode is in use. *)
Lemma holder_live s L n p i : files_ok s L -> is_ino (k_fs s) n -> holder s n = Some (p, i) -> live s n.
Proof.
  intros Hfl Hn Hh. split; [done|]. unfold is_free. rewrite <-(fl_mode s L Hfl n Hn).
  unfold current_ic. rewrite Hh. by apply list_find_Some in Hh as (_ & [_ Hu] & _).
Qed.
End Facts.

(** ** One step *)

(** The blocks a step on the inodes [ch] may take: the free ones and theirs. *)
Definition pool {D} `{BlockDevice D} (s : kernel D) (L : list Z) (ch : Z -> Prop) (b : Z) : Prop :=
  b ∈ L \/ exists n, ch n /\ live s n /\ b ∈ held s n.

Section Step.
Context {D : Type} `{BlockDeviceLaws D}.
Implicit Types (s t : kernel D) (ic : icommon_t) (L : list Z) (ch : Z -> Prop).

Lemma pool_other s L ch n b :
  files_ok s L -> live s n -> ~ ch n -> b ∈ held s n -> ~ pool s L ch b.
Proof.
  intros Hfl Hn Hch Hb [HbL|(m & Hm & Hlm & Hbm)].
  - by destruct (held_rep s L n Hfl Hn) as [_ Hd], (Hd b Hb).
  - apply Hch. by rewrite (fl_apart s L Hfl n m b Hn Hlm Hb Hbm).
Qed.

(** The inodes but [ch] are what they were, and these only took from the pool. *)
Record changes (ch : Z -> Prop) s L t L' : Prop := {
  cg_fs : fs_rep t L';
  cg_frame : disk_frame (pool s L ch) s t;
  cg_mode n : is_ino (k_fs s) n ->
    ic_mode (current_ic t n) = ic_mode (inode_at (k_fs t) (k_disk t) n);
  cg_same n : is_ino (k_fs s) n -> ~ ch n ->
    current_ic t n = current_ic s n /\
    ic_mode (inode_at (k_fs t) (k_disk t) n) = ic_mode (inode_at (k_fs s) (k_disk s) n);
  cg_free b : b ∈ L' -> pool s L ch b;
  cg_rep n : ch n -> live t n -> file_rep t (current_ic t n) (nblks (current_ic t n)) L';
  cg_pool n b : ch n -> live t n -> b ∈ held t n -> pool s L ch b;
  cg_apart n m b : ch n -> ch m -> live t n -> live t m -> b ∈ held t n -> b ∈ held t m -> n = m;
}.

Lemma changes_live ch s L t L' n : changes ch s L t L' -> ~ ch n -> live t n <-> live s n.
Proof.
  intros Hc Hn. unfold live, is_free. rewrite (is_ino_disk _ s t n (cg_frame _ _ _ _ _ Hc)).
  split; intros [Hi Hf]; (split; [done|]); [rewrite <-(proj2 (cg_same _ _ _ _ _ Hc n Hi Hn))|
    rewrite (proj2 (cg_same _ _ _ _ _ Hc n Hi Hn))]; done.
Qed.

Lemma changes_held ch s L t L' n :
  files_ok s L -> changes ch s L t L' -> live s n -> ~ ch n -> held t n = held s n.
Proof.
  intros Hfl Hc Hn Hch. unfold held. destruct (cg_same _ _ _ _ _ Hc n (proj1 Hn) Hch) as [-> _].
  apply (owned_disk (pool s L ch) s t _ _ L); [by apply Hfl|apply Hc|].
  intros b Hb. by apply (pool_other s L ch n).
Qed.

Lemma files_change ch s L t L' :
  (forall n, ch n \/ ~ ch n) -> files_ok s L -> changes ch s L t L' -> files_ok t L'.
Proof.
  intros Hdec Hfl Hc.
  assert (Hmix : forall n m b, ch n -> live t n -> ~ ch m -> live t m -> b ∈ held t n -> b ∈ held t m -> False).
  { intros n m b Hn Hln Hm Hlm Hbn Hbm. apply (changes_live _ _ _ _ _ _ Hc Hm) in Hlm.
    rewrite (changes_held _ _ _ _ _ _ Hfl Hc Hlm Hm) in Hbm.
    apply (pool_other s L ch m b Hfl Hlm Hm Hbm). by apply (cg_pool _ _ _ _ _ Hc n). }
  split; [apply Hc| | |].
  - intros n Hn. apply (cg_mode _ _ _ _ _ Hc). by apply (is_ino_disk _ s t n (cg_frame _ _ _ _ _ Hc)).
  - intros n Hn. destruct (Hdec n) as [Hch|Hch]; [by apply (cg_rep _ _ _ _ _ Hc)|].
    apply (changes_live _ _ _ _ _ _ Hc Hch) in Hn.
    destruct (cg_same _ _ _ _ _ Hc n (proj1 Hn) Hch) as [-> _].
    apply (file_rep_disk (pool s L ch) s t _ _ L); [by apply Hfl|apply Hc| |].
    + intros b Hb. by apply (pool_other s L ch n).
    + apply list.NoDup_app. destruct (held_rep s L n Hfl Hn) as [Hnd _]. apply list.NoDup_app in Hnd as [Hnd _].
      split_and!; [done| |apply (fr_nodup _ _ (cg_fs _ _ _ _ _ Hc))].
      intros b Hb HbL. apply (pool_other s L ch n b Hfl Hn Hch Hb). by apply (cg_free _ _ _ _ _ Hc).
  - intros n m b Hn Hm Hbn Hbm. destruct (Hdec n) as [Hcn|Hcn], (Hdec m) as [Hcm|Hcm].
    + by apply (cg_apart _ _ _ _ _ Hc n m b).
    + by destruct (Hmix n m b).
    + by destruct (Hmix m n b).
    + apply (changes_live _ _ _ _ _ _ Hc) in Hn; [|done]. apply (changes_live _ _ _ _ _ _ Hc) in Hm; [|done].
      rewrite !(changes_held _ _ _ _ _ _ Hfl Hc) in * by done. by apply (fl_apart s L Hfl n m b).
Qed.

(** A directory that was left alone has its entries. *)
Lemma changes_entries ch s L t L' n :
  files_ok s L -> tree_ok s -> changes ch s L t L' -> live s n -> dir_mode s n -> ~ ch n ->
  inode_at (k_fs t) (k_disk t) n = inode_at (k_fs s) (k_disk s) n -> entries t n = entries s n.
Proof.
  intros Hfl Ht Hc Hn Hd Hch E. unfold entries, dir_count. rewrite E. fold (dir_count s n).
  pose proof (fl_rep s L Hfl n Hn) as Hf. rewrite (current_dir s n Ht Hn Hd) in Hf.
  apply (dir_entries_disk (pool s L ch) s t _ _ L _ Hf (cg_frame _ _ _ _ _ Hc)).
  - intros b Hb. apply (pool_other s L ch n b Hfl Hn Hch). unfold held. by rewrite (current_dir s n Ht Hn Hd).
  - rewrite nblks_dir by done. lia.
Qed.

(** A step that changes no directory and the mode of no inode. *)
Lemma tree_same ch s L t L' :
  files_ok s L -> tree_ok s -> changes ch s L t L' ->
  (forall n, is_ino (k_fs s) n -> ic_mode (inode_at (k_fs t) (k_disk t) n) = ic_mode (inode_at (k_fs s) (k_disk s) n)) ->
  (forall n, live s n -> dir_mode s n -> ~ ch n /\
     inode_at (k_fs t) (k_disk t) n = inode_at (k_fs s) (k_disk s) n /\ holder t n = None) ->
  k_cwd t = k_cwd s -> tree_ok t.
Proof.
  intros Hfl Ht Hc Hmode Hdir Hcwd.
  assert (Hlive : forall n, live t n <-> live s n).
  { intros n. unfold live, is_free. rewrite (is_ino_disk _ s t n (cg_frame _ _ _ _ _ Hc)).
    split; intros [Hi Hf]; (split; [done|]); [rewrite <-Hmode|rewrite Hmode]; done. }
  assert (Hdm : forall n, live s n -> dir_mode t n <-> dir_mode s n).
  { intros n [Hn _]. unfold dir_mode. by rewrite Hmode. }
  assert (He : forall n, live s n -> dir_mode s n -> entries t n = entries s n).
  { intros n Hn Hd. destruct (Hdir n Hn Hd) as (Hch & E & _). by apply (changes_entries ch s L t L'). }
  split.
  - intros n Hn%Hlive Hd. apply Hdm in Hd; [|done]. destruct (Hdir n Hn Hd) as (_ & E & ->).
    split; [done|]. unfold dir_count. rewrite E. by apply (tr_dir s Ht n).
  - intros n e Hn%Hlive Hd. apply Hdm in Hd; [|done]. rewrite He, Hlive by done. by apply (tr_entry s Ht n).
  - intros n n' k k' e e' Hn%Hlive Hd Hn'%Hlive Hd'. apply Hdm in Hd; [|done]. apply Hdm in Hd'; [|done].
    rewrite !He by done. intros Hk Hk' E Hr. apply (tr_once s Ht n n' k k' e e'); try done.
    intros Hx. apply Hr, Hdm; [|done]. apply (tr_entry s Ht n e); [done|done|]. by eapply list_elem_of_lookup_2.
  - destruct (tr_root s Ht) as [H1 H2]. rewrite Hlive. split; [done|by apply Hdm].
  - destruct (tr_cwd s Ht) as (H1 & H2 & H3). rewrite Hcwd, Hlive. split; [done|split; [by apply Hdm|done]].
Qed.
End Step.
