(* ===== verification/VolumeIO.v ===== *)
(** * The volume under reads and writes

    The calls on descriptors keep the invariant of Volume.v: what a write, a seek, an
    open and a close leave is a volume again. *)

From S2P Require Import Prelude CMonad Layout BlockDev Kernel FsOps FreeList InodeProof BlockMap FileRep FileGrow Dir Posix FileIO DirProof DirRemove PathProof Create Unlink OpenProof Volume.

Section Tables.
Context {D : Type} `{BlockDeviceLaws D}.
Implicit Types (s t : kernel D) (L : list Z).

(** An open inode that is written to. *)
Lemma tables_ok_ai s t p i i' :
  tables_ok s -> k_ai s !! p = Some i -> k_oft t = k_oft s -> k_ai t = <[p := i']> (k_ai s) ->
  (forall n, is_ino (k_fs s) n -> is_ino (k_fs t) n) ->
  i_number i' = i_number i -> i_links i' = i_links i -> ic_mode (i_ic i') = ic_mode (i_ic i) ->
  lwf (i_ic i') -> tables_ok t.
Proof.
  intros [Ho Ha Hptr Hhead Hlinks Hmode Hinj Hwf] Hi Eo Ea Hino En El Em Hw.
  assert (Hold : forall q j, k_ai t !! q = Some j -> exists j0, k_ai s !! q = Some j0 /\
    i_number j = i_number j0 /\ i_links j = i_links j0 /\ (in_use j <-> in_use j0) /\ (j = j0 \/ lwf (i_ic j))).
  { intros q j. rewrite Ea. intros [(<- & <- & _)|[_ Hq]]%list_lookup_insert_Some.
    - exists i. unfold in_use. rewrite Em. split_and!; [done..|by right].
    - exists j. split_and!; [done..|by left]. }
  split; rewrite ?Eo; try done.
  - by rewrite Ea, length_insert.
  - intros q j Hq. destruct (Hold q j Hq) as (j0 & Hj0 & _ & -> & _). by apply Hlinks.
  - intros q j Hq. destruct (Hold q j Hq) as (j0 & Hj0 & _ & -> & -> & _). by apply (Hmode q).
  - intros q q' j j' Hq Hq' Hu Hu' E. destruct (Hold q j Hq) as (j0 & Hj0 & E0 & _ & Hu0 & _).
    destruct (Hold q' j' Hq') as (j1 & Hj1 & E1 & _ & Hu1 & _). apply (Hinj q q' j0 j1); [done|done|tauto|tauto|congruence].
  - intros q j Hq Hu. destruct (Hold q j Hq) as (j0 & Hj0 & E0 & _ & Hu0 & Hl).
    destruct (Hwf q j0 Hj0) as [Hn Hlw]; [tauto|]. rewrite E0. split; [by apply Hino|].
    by destruct Hl as [->|Hl].
Qed.

(** The position of an open-file entry does not matter to the descriptors. *)
Lemma fds_ok_head s t g o o' :
  fds_ok s -> k_pcb t = k_pcb s -> k_oft s !! g = Some o -> k_oft t = <[g := o']> (k_oft s) ->
  o_inptr o' = o_inptr o -> fds_ok t.
Proof.
  intros [Hlen Hsome Hinj] Ep Hg Eo Ei. split; rewrite ?Ep; try done.
  intros c x n v Hx Hv. destruct (Hsome c x n v Hx Hv) as (g' & o1 & p & -> & Ho & Hp).
  rewrite Eo. destruct (decide (g' = g)) as [->|Hne].
  - exists g, o', p. simplify_eq. split_and!; [done| |congruence]. apply list_lookup_insert_eq.
    by eapply lookup_lt_Some.
  - exists g', o1, p. by rewrite list_lookup_insert_ne.
Qed.

Lemma heads_put s t g v p :
  Forall (fun o => is_u32 (o_head o)) (k_oft s) -> k_oft t = <[g := mk_ofile p v]> (k_oft s) -> is_u32 v ->
  Forall (fun o => is_u32 (o_head o)) (k_oft t).
Proof. intros Hh -> Hv. by apply Forall_insert. Qed.
End Tables.

Section Calls.
Context {D : Type} `{BlockDeviceLaws D}.
Implicit Types (s t : kernel D) (L : list Z).

(** An open file of a volume. *)
Record open_file s L (n f : Z) (o : ofile_t) (p : Z) (i : inode_t) : Prop := {
  of_use : in_use i /\ lwf (i_ic i);
  of_holder : holder s (i_number i) = Some (Z.to_nat p, i);
  of_live : live s (i_number i);
  of_reg : ~ dir_mode s (i_number i);
  of_file : file_wf s i L;
  of_held : held s (i_number i) = owned (k_disk s) (i_ic i) (nblocks (ic_size (i_ic i)));
  of_head : is_u32 (o_head o);
}.

Lemma nblks_reg ic : ic_mode ic <> mode_val IFDIR -> nblks ic = nblocks (ic_size ic).
Proof. intros Hm. unfold nblks. by rewrite decide_False. Qed.

Lemma opened_file s L n f o p i : volume s L -> opened s n f o p i -> open_file s L n f o p i.
Proof.
  intros [Ht Hfd Hh Hfl Htr] [_ [Hf Ho] Hin [Hp Hi]].
  rewrite <-(Z2Nat.id p) in Hin by done.
  destruct (close_used s _ _ o i Ht Ho Hin Hi) as (Hu & Hn & Hw).
  pose proof (holder_some s (i_number i) _ i Ht Hi Hu eq_refl) as Hhold.
  pose proof (holder_live s L _ _ _ Hfl Hn Hhold) as Hl.
  assert (Hr : ~ dir_mode s (i_number i)).
  { intros Hd. destruct (tr_dir s Htr _ Hl Hd) as [E _]. by rewrite E in Hhold. }
  assert (Hc : current_ic s (i_number i) = i_ic i) by (unfold current_ic; by rewrite Hhold).
  pose proof (fl_rep s L Hfl _ Hl) as Hf1. pose proof (fl_mode s L Hfl _ Hn) as Hm. rewrite Hc in Hf1, Hm.
  unfold dir_mode in Hr. rewrite <-Hm in Hr. rewrite nblks_reg in Hf1 by done.
  split; [done|done|done| |split; [apply Hfl|done|done]| |].
  - unfold dir_mode. by rewrite <-Hm.
  - unfold held. by rewrite Hc, nblks_reg.
  - apply (Forall_lookup_1 _ _ _ _ Hh Ho).
Qed.

(** Nothing of the files has changed, as the kernel sees them. *)
Lemma volume_same s t L :
  volume s L -> tables_ok t -> fds_ok t -> Forall (fun o => is_u32 (o_head o)) (k_oft t) ->
  fs_rep t L -> disk_frame (fun _ => False) s t -> k_cwd t = k_cwd s ->
  (forall n, is_ino (k_fs s) n -> current_ic t n = current_ic s n /\
     ic_mode (inode_at (k_fs t) (k_disk t) n) = ic_mode (inode_at (k_fs s) (k_disk s) n)) ->
  (forall n, live s n -> dir_mode s n ->
     inode_at (k_fs t) (k_disk t) n = inode_at (k_fs s) (k_disk s) n /\ holder t n = None) ->
  volume t L.
Proof.
  intros [Ht Hfd Hh Hfl Htr] Ht' Hfd' Hh' Hs Hfr Hcwd Hcur Hdir.
  assert (Hc : changes (fun _ => False) s L t L).
  { split; try done.
    - revert Hfr. apply disk_frame_mono. by intros b _ [].
    - intros n Hn. destruct (Hcur n Hn) as [-> ->]. by apply (fl_mode s L Hfl).
    - intros n Hn _. by apply Hcur.
    - intros b Hb. by left. }
  split; [done|done|done| |].
  - apply (files_change (fun _ => False) s L t L); [intros _; right; tauto|done|done].
  - apply (tree_same (fun _ => False) s L t L); try done.
    + intros n Hn. by apply Hcur.
    + intros n Hn Hd. split; [tauto|]. by apply Hdir.
Qed.

(** Calls that only move the position: [fread], [lseek]. *)
Lemma volume_head s L n f o p i v :
  volume s L -> opened s n f o p i -> is_u32 v -> volume (put_oft f (set_head v o) s) L.
Proof.
  intros Hv Hop Hu. pose proof Hv as [Ht Hfd Hh Hfl Htr]. destruct Hop as [_ [Hf Ho] Hin _].
  assert (E : put_oft f (set_head v o) s = put_oft (Z.of_nat (Z.to_nat f)) (mk_ofile (Some p) v) s).
  { unfold set_head. by rewrite Z2Nat.id, Hin. }
  rewrite E. assert (Ht' : tables_ok (put_oft (Z.of_nat (Z.to_nat f)) (mk_ofile (Some p) v) s))
    by by apply (tables_ok_head s _ o).
  apply (volume_same s); try done.
  - apply (fds_ok_head s _ (Z.to_nat f) o (mk_ofile (Some p) v)); try done. cbn. by rewrite Nat2Z.id.
  - apply (heads_put s _ (Z.to_nat f) v (Some p)); try done. cbn. by rewrite Nat2Z.id.
  - by apply (fs_rep_ext s); [..|apply Hfl].
  - intros m Hm Hd. split; [done|]. by apply (tr_dir s Htr m).
Qed.

Lemma current_other s t m : k_ai t = k_ai s -> inode_at (k_fs t) (k_disk t) m = inode_at (k_fs s) (k_disk s) m ->
  current_ic t m = current_ic s m.
Proof. intros Ea E. unfold current_ic, holder. by rewrite Ea, E. Qed.

Lemma not_holder s m p i i' :
  k_ai s !! p = Some i -> (in_use i' -> in_use i) -> i_number i' = i_number i -> holder s m = None ->
  list_find (fun i => i_number i = m /\ in_use i) (<[p := i']> (k_ai s)) = None.
Proof.
  intros Hi Hu En Hm. apply list_find_None. apply list_find_None in Hm.
  apply Forall_insert; [done|]. intros [E Hu']. apply (Forall_lookup_1 _ _ _ _ Hm Hi). split; [congruence|auto].
Qed.

Lemma volume_write s L n f o p i data t i' L' :
  volume s L -> opened s n f o p i -> wrote s n f o p i L data t i' L' -> L' ⊆ L -> volume t L'.
Proof.
  intros Hv Hop Hwr Hsub. pose proof Hv as [Ht Hfd Hh Hfl Htr].
  pose proof (opened_file s L n f o p i Hv Hop) as [[Hu Hw] Hhold Hl Hreg Hfile Hheld Hho].
  pose proof Hwr as [_ [Hs' Hf' Hn'] Hsz (En & El & Em) _ _ Hino Hfr Hown Hmode (fs & d & E)].
  destruct Hop as [_ [Hf Ho] Hin [Hp Hi]]. set (h := o_head o + Z.of_nat (length data)) in *.
  assert (Hhu : is_u32 h).
  { destruct (fi_wf _ _ _ _ Hf') as (_ & Hz & _). rewrite Hsz in Hz. unfold is_u32 in *. lia. }
  assert (Emode : ic_mode (i_ic i) = ic_mode (inode_at (k_fs s) (k_disk s) (i_number i))).
  { rewrite <-(fl_mode s L Hfl _ (proj1 Hl)). unfold current_ic. by rewrite Hhold. }
  assert (Hmt : ic_mode (inode_at (k_fs t) (k_disk t) (i_number i)) = ic_mode (i_ic i))
    by (destruct Hmode as [-> | ->]; done).
  assert (Hoft : k_oft t = <[Z.to_nat f := mk_ofile (Some p) h]> (k_oft s)).
  { rewrite E. cbn. by rewrite <-Hin. }
  assert (Hai : k_ai t = <[Z.to_nat p := i']> (k_ai s)) by by rewrite E.
  assert (Htab : tables_ok t).
  { assert (E' : t = put_oft (Z.of_nat (Z.to_nat f)) (mk_ofile (Some p) h) (set_k_oft (k_oft s) t)).
    { rewrite E. unfold put_oft, set_head. cbn. rewrite Nat2Z.id, <-Hin. done. }
    rewrite E'. apply (tables_ok_head _ _ o); [|done|done].
    apply (tables_ok_ai s _ (Z.to_nat p) i i'); try done.
    - intros m Hm. by apply (is_ino_disk _ s t m Hfr).
    - apply (fi_wf _ _ _ _ Hf'). }
  assert (Hpl : (Z.to_nat p < length (k_ai s))%nat) by by eapply lookup_lt_Some.
  assert (Hcur : current_ic t (i_number i) = i_ic i').
  { unfold current_ic. rewrite (holder_some t (i_number i) (Z.to_nat p) i'); [done|done| | |done].
    - rewrite Hai. by apply list_lookup_insert_eq.
    - unfold in_use. by rewrite Em. }
  assert (Hnb : nblks (i_ic i') = nblocks (ic_size (i_ic i'))).
  { apply nblks_reg. rewrite Em, Emode. done. }
  assert (Hother : forall m, is_ino (k_fs s) m -> m <> i_number i -> current_ic t m = current_ic s m).
  { intros m Hm Hne. apply (current_ic_other s t (Z.to_nat p) i i'); [done..| |congruence|by apply Hino].
    by rewrite En. }
  assert (Hpool : forall b, b ∈ owned (k_disk s) (i_ic i) (nblocks (ic_size (i_ic i))) \/ b ∈ L ->
    pool s L (fun m => m = i_number i) b).
  { intros b [Hb|Hb]; [right|by left]. exists (i_number i). by rewrite Hheld. }
  assert (Hc : changes (fun m => m = i_number i) s L t L').
  { split; try done.
    - revert Hfr. apply disk_frame_mono. intros b _. apply Hpool.
    - intros m Hm. destruct (decide (m = i_number i)) as [->|Hne]; [by rewrite Hcur, Hmt, Em|].
      rewrite Hother, Hino by done. by apply (fl_mode s L Hfl).
    - intros m Hm Hne. by rewrite Hother, Hino.
    - intros b Hb. left. by apply Hsub.
    - intros m -> _. by rewrite Hcur, Hnb.
    - intros m b -> _. unfold held. rewrite Hcur, Hnb. intros Hb. apply Hpool, Hown, Hb.
    - by intros m m' b -> ->. }
  split; [done| | | |].
  - apply (fds_ok_head s t (Z.to_nat f) o (mk_ofile (Some p) h)); try done. by rewrite E.
  - by apply (heads_put s t (Z.to_nat f) h (Some p)).
  - apply (files_change (fun m => m = i_number i) s L t L'); try done.
    intros m. destruct (decide (m = i_number i)); [by left|by right].
  - apply (tree_same (fun m => m = i_number i) s L t L'); try done.
    + intros m Hm. destruct (decide (m = i_number i)) as [->|Hne]; [congruence|by rewrite Hino].
    + intros m Hm Hd. assert (Hne : m <> i_number i) by (by intros ->). split; [done|].
      split; [by apply Hino; [apply Hm|]|]. unfold holder. rewrite Hai.
      apply (not_holder s m _ i i'); [done|done|done|]. by apply (tr_dir s Htr m).
    + by rewrite E.
Qed.

Lemma volume_close s L c x n r t :
  volume s L -> running s c x -> close n s = Done (r, t) -> volume t L.
Proof.
  intros Hv Hrun Hcl. pose proof Hv as [Ht Hfd Hh Hfl Htr]. pose proof Hrun as [Hc Hc0 Hx Hfdl].
  assert (Hcases : (n < 0 \/ 16 <= n \/ fd x !! Z.to_nat n = Some None) \/
                   0 <= n < 16 /\ exists v, fd x !! Z.to_nat n = Some (Some v)).
  { destruct (Z.lt_ge_cases n 0), (Z.le_gt_cases 16 n); try (left; lia).
    destruct (lookup_lt_ex (fd x) (Z.to_nat n)) as [[v|] Hn]; [lia|right|left; auto].
    split; [lia|by exists v]. }
  destruct Hcases as [Hn|[Hn [v Hn']]].
  { rewrite (close_refused s c x n Hrun Hn) in Hcl. by injection Hcl as _ <-. }
  destruct (close_done s L c x n v Ht Hfd (fl_fs s L Hfl) Hrun Hn Hn')
    as (g & o & p & i & d & t' & _ & Hr & Hop & E & Ht' & Hfd' & Hs' & Hd & Hcur).
  rewrite Hr in Hcl. injection Hcl as _ <-.
  pose proof (opened_file s L _ _ _ _ _ Hv Hop) as [[Hu Hw] Hhold Hl Hreg Hfile Hheld Hho].
  destruct Hop as [_ [_ Ho] _ [_ Hi]]. rewrite Nat2Z.id in *.
  pose proof (fr_geo _ _ (fl_fs s L Hfl)) as Hg.
  assert (Hm : ic_mode (i_ic i) = ic_mode (inode_at (k_fs s) (k_disk s) (i_number i))).
  { rewrite <-(fl_mode s L Hfl _ (proj1 Hl)). unfold current_ic. by rewrite Hhold. }
  assert (Ef : k_fs t' = k_fs s) by by rewrite E.
  assert (Ed : k_disk t' = d) by by rewrite E.
  assert (Hdisk : forall m, is_ino (k_fs s) m ->
    inode_at (k_fs t') (k_disk t') m = inode_at (k_fs s) (k_disk s) m \/
    m = i_number i /\ inode_at (k_fs t') (k_disk t') m = i_ic i).
  { intros m Hm'. rewrite Ef, Ed.
    destruct (i_links i =? 1); [|left; by subst d]. destruct Hd as (_ & Hput & _).
    rewrite Hput by done. case_decide; [by right|by left]. }
  apply (volume_same s); try done.
  - rewrite E. cbn. rewrite Nat2Z.id. apply Forall_insert; [done|]. cbn. unfold is_u32. lia.
  - split; [by rewrite Ef|]. intros b Hb _. rewrite Ed.
    destruct (i_links i =? 1); [|by subst d]. destruct Hd as (_ & _ & Hblk).
    pose proof (inode_blk_range _ _ Hg (proj1 Hl)). unfold data_addr in Hb.
    apply Hblk; [by apply (data_addr_valid (k_fs s))|lia].
  - by rewrite E.
  - intros m Hm'. split; [by apply Hcur|]. destruct (Hdisk m Hm') as [->|[-> ->]]; done.
  - intros m Hlm Hd'. split.
    + destruct (Hdisk m (proj1 Hlm)) as [->|[-> _]]; done.
    + unfold holder. rewrite E. cbn. rewrite Nat2Z.id. apply (not_holder s m p i); [done| | |].
      * intros _. done.
      * by destruct (i_links i =? 1).
      * by apply (tr_dir s Htr m).
Qed.

(** The table part of an open of a regular file. *)
Lemma volume_open s L c x n g p i r :
  volume s L -> running s c x -> free_fd x = Some n -> free_oft (k_oft s) = Some g ->
  live s r -> ~ dir_mode s r -> grab s r = Some (p, i) -> volume (open_state c x n g p i s) L.
Proof.
  intros Hv Hrun Hn Hg [Hr Hfree] Hreg Hgr. pose proof Hv as [Ht Hfd Hh Hfl Htr].
  pose proof (fl_fs s L Hfl) as Hs.
  assert (Hu : ic_mode (current_ic s r) <> mode_val IFZERO) by by rewrite (fl_mode s L Hfl).
  destruct (grab_ok s r p i Ht (fr_ok _ _ Hs) (fr_geo _ _ Hs) Hr Hgr) as (En & Eic & _ & _ & j & Hj & _ & Hjj & _).
  pose proof (tables_ok_open s c x n g p i r Ht (fr_ok _ _ Hs) (fr_geo _ _ Hs) Hr Hg Hgr Hu) as Ht'.
  apply (volume_same s); try done.
  - by apply fds_ok_open.
  - cbn. rewrite Nat2Z.id. apply Forall_insert; [done|]. cbn. unfold is_u32. lia.
  - by apply (fs_rep_ext s).
  - intros m Hm. split; [|done].
    by apply (current_ic_open s c x n g p i r m Ht (fr_ok _ _ Hs) (fr_geo _ _ Hs)).
  - intros m Hm Hd. split; [done|]. unfold holder. cbn. rewrite Nat2Z.id.
    destruct (tr_dir s Htr m Hm Hd) as [Hno _]. apply list_find_None. apply list_find_None in Hno.
    apply Forall_insert; [done|]. cbn. rewrite En. by intros [-> _].
Qed.
End Calls.
