(* ===== verification/VolumeTree.v ===== *)
(** * The volume under creation and deletion

    A file made in a directory, and one removed: the directories name inodes in use
    again, each regular file once, and no block has two owners. *)

From S2P Require Import Prelude CMonad Layout BlockDev Kernel FsOps FreeList InodeProof BlockMap FileRep FileGrow Dir Posix FileIO DirProof DirRemove PathProof Create Unlink OpenProof Volume VolumeIO.

(** ** Deletion *)

Section Deletion.
Context {D : Type} `{BlockDeviceLaws D}.
Implicit Types (s t : kernel D) (L w : list Z).

Lemma searched_le m : searched m <= m.
Proof. unfold searched. destruct (m mod 16 =? 0); lia. Qed.

(** An entry of a list that lost entry [k] to the last one was another entry before. *)
Lemma lookup_shrunk {A} (l : list A) m k z j x :
  0 < m -> length l = Z.to_nat m -> l !! Z.to_nat (m - 1) = Some z ->
  take (Z.to_nat (m - 1)) (<[k := z]> l) !! j = Some x ->
  exists j', l !! j' = Some x /\ j' <> k /\
    j' = (if decide (j = k) then Z.to_nat (m - 1) else j) /\ (j < Z.to_nat (m - 1))%nat.
Proof.
  intros Hm Hl Hz [Hx Hj]%lookup_take_Some. apply list_lookup_insert_Some in Hx as [(-> & <- & _)|[Hkj Hx]].
  - exists (Z.to_nat (m - 1)). rewrite decide_True by done. split_and!; [done|lia|done|done].
  - exists j. rewrite decide_False by done. by split_and!.
Qed.

Lemma entries_last s n : 0 < dir_count s n ->
  entries s n !! Z.to_nat (dir_count s n - 1) =
    Some (dir_at (k_disk s) (inode_at (k_fs s) (k_disk s) n) (dir_count s n - 1)).
Proof.
  intros Hm. unfold entries, dir_entries. rewrite list_lookup_fmap, lookup_seqZ_lt by lia. cbn. do 2 f_equal. lia.
Qed.

Lemma length_entries s n : length (entries s n) = Z.to_nat (dir_count s n).
Proof. unfold entries. apply length_dir_entries. Qed.

(** The entry that goes is one of the directory, and its inode is not open. *)
Lemma victim_entry s n m w k e :
  m = dir_count s n -> victim s (inode_of s n 0) m w = Some (k, e) ->
  entries s n !! k = Some e /\ holder s (d_ino e) = None.
Proof.
  intros Em Hv. apply list_find_Some in Hv as (Hk & Hgo & _). unfold goes in Hgo. split.
  - unfold entries. rewrite <-Em. pose proof (searched_le m) as Hle.
    destruct (Z.lt_ge_cases (searched m) 0) as [Hneg|Hpos].
    { apply lookup_lt_Some in Hk. rewrite length_dir_entries in Hk. lia. }
    replace m with (searched m + (m - searched m)) by lia. rewrite dir_entries_add by lia.
    by apply lookup_app_l_Some.
  - apply andb_true_iff in Hgo as [_ Hgo]. unfold may_remove in Hgo.
    apply andb_true_iff in Hgo as [Hgo _]. apply andb_true_iff in Hgo as [_ Hgo].
    apply negb_true_iff in Hgo. apply list_find_None, list.Forall_forall. intros i Hi [En Huse].
    assert (Ha : existsb (active (d_ino e)) (k_ai s) = true); [|by rewrite Ha in Hgo].
    apply existsb_exists. exists i. split; [by apply list_elem_of_In|]. unfold active, in_use in *.
    rewrite En, Z.eqb_refl. by apply negb_true_iff, Z.eqb_neq.
Qed.

Section Victim.
Variables (s : kernel D) (L w : list Z) (k : nat) (e : dir_t).
Local Abbreviation dir := (k_cwd s).
Local Abbreviation m := (dir_count s dir).
Local Abbreviation ic := (inode_at (k_fs s) (k_disk s) (d_ino e)).
Hypothesis Hv : volume s L.
Hypothesis Hvic : victim s (inode_of s dir 0) m w = Some (k, e).
Hypothesis Hreg : ~ dir_mode s (d_ino e).
Hypothesis Hsize : nfreed (ic_size ic) <= 11.

Lemma victim_facts :
  live s (d_ino e) /\ d_ino e < 2 ^ 31 /\ d_ino e <> dir /\ current_ic s (d_ino e) = ic /\
  held s (d_ino e) = owned (k_disk s) ic (nblocks (ic_size ic)) /\ entries s dir !! k = Some e.
Proof.
  destruct Hv as [Ht Hfd Hh Hfl Htr]. destruct (tr_cwd s Htr) as (Hl & Hd & _).
  destruct (victim_entry s dir m w k e eq_refl Hvic) as [He Hno].
  destruct (tr_entry s Htr dir e Hl Hd) as [Hle Hsm]; [by eapply list_elem_of_lookup_2|].
  assert (Hc : current_ic s (d_ino e) = ic) by (unfold current_ic; by rewrite Hno).
  split_and!; [done|done|by intros E; rewrite E in Hreg|done| |done].
  unfold held. rewrite Hc. f_equal. by apply nblks_reg.
Qed.

Lemma dead_held a : a ∈ dead_blocks s (d_ino e) -> a ∈ held s (d_ino e).
Proof.
  destruct victim_facts as (_ & _ & _ & _ & -> & _). unfold dead_blocks. cbv zeta.
  intros (j & Hj & ->)%elem_of_freed. apply elem_of_app. left. apply elem_of_file_blocks.
  exists j. rewrite blk_addr_direct by lia. split; [|done]. unfold nfreed, nblocks in *.
  pose proof (Z.div_mod (ic_size ic + 511) 512). pose proof (Z.mod_pos_bound (ic_size ic + 511) 512).
  pose proof (Z.div_mod (ic_size ic) 512). pose proof (Z.mod_pos_bound (ic_size ic) 512). lia.
Qed.

Lemma victim_doomed : doomed s dir m (d_ino e) L.
Proof.
  destruct Hv as [Ht Hfd Hh Hfl Htr]. destruct (tr_cwd s Htr) as (Hl & Hd & _).
  destruct victim_facts as (Hle & Hsm & Hne & Hc & Hheld & _). split; [done| |done| |].
  - split; [apply Hle|done].
  - pose proof (fl_rep s L Hfl _ Hle) as Hf. rewrite Hc, nblks_reg in Hf by done.
    apply (file_rep_less _ _ (nblocks (ic_size ic))); [done|]. pose proof (fi_num _ _ _ _ Hf) as Hn.
    unfold nfreed, nblocks in *.
    pose proof (Z.div_mod (ic_size ic + 511) 512). pose proof (Z.mod_pos_bound (ic_size ic + 511) 512).
    pose proof (Z.div_mod (ic_size ic) 512). pose proof (Z.mod_pos_bound (ic_size ic) 512). lia.
  - intros a Ha Hin. apply Hne. apply (fl_apart s L Hfl _ _ a Hle Hl); [by apply dead_held|].
    unfold held. by rewrite (current_dir s _ Htr Hl Hd), (nblks_dir s _ Hd).
Qed.

Lemma victim_removal : is_name w -> removal_ok s (inode_of s dir 0) m L w.
Proof.
  intros Hw. destruct Hv as [Ht Hfd Hh Hfl Htr]. destruct (tr_cwd s Htr) as (Hl & Hd & _).
  split; [by apply live_is_dir|done|apply Ht|]. apply list.Forall_forall. intros x Hx.
  destruct (tr_entry s Htr dir x Hl Hd Hx) as [[Hi _] Hs]. by split.
Qed.

(** After the deletion. *)
Variable t : kernel D.
Hypothesis Hdel : deleted s L dir m k e t.
Local Abbreviation L' := (dead_blocks s (d_ino e) ++ L).
Local Abbreviation ch := (fun n => n = d_ino e \/ n = dir).

Lemma deleted_dir :
  k_ai t = k_ai s /\ k_cwd t = dir /\ k_oft t = k_oft s /\ k_pcb t = k_pcb s /\
  current_ic t dir = inode_at (k_fs t) (k_disk t) dir /\ dir_mode t dir /\ live t dir.
Proof.
  destruct Hv as [Ht Hfd Hh Hfl Htr]. destruct (tr_cwd s Htr) as (Hl & Hd & _).
  destruct (dl_rest _ _ _ _ _ _ _ Hdel) as (f & d & E).
  assert (Ha : k_ai t = k_ai s) by by rewrite E.
  pose proof (dl_mode _ _ _ _ _ _ _ Hdel) as Hm.
  assert (Hdt : dir_mode t dir) by (unfold dir_mode; by rewrite Hm).
  split_and!; [done|by rewrite E..| |done|].
  - unfold current_ic, holder. rewrite Ha. fold (holder s dir). by destruct (tr_dir s Htr _ Hl Hd) as [-> _].
  - split; [by apply (is_ino_disk _ s t _ (dl_frame _ _ _ _ _ _ _ Hdel)), Hl|].
    unfold is_free. by rewrite Hdt.
Qed.

Lemma deleted_changes : changes ch s L t L'.
Proof.
  destruct Hv as [Ht Hfd Hh Hfl Htr]. destruct (tr_cwd s Htr) as (Hl & Hd & _).
  destruct victim_facts as (Hle & Hsm & Hne & Hc & Hheld & _).
  destruct deleted_dir as (Ha & _ & _ & _ & Hct & Hdt & Hlt).
  pose proof (dl_fs _ _ _ _ _ _ _ Hdel) as [Hst Hdir]. pose proof (dl_count _ _ _ _ _ _ _ Hdel) as Hcount.
  assert (Hhd : held s dir = owned (k_disk s) (inode_at (k_fs s) (k_disk s) dir) (Z.max 1 ((m + 15) / 16)))
    by (unfold held; by rewrite (current_dir s _ Htr Hl Hd), (nblks_dir s _ Hd)).
  assert (Hhdt : held t dir ⊆ held s dir).
  { rewrite Hhd. unfold held. rewrite Hct, (nblks_dir t _ Hdt), Hcount. apply (dl_owned _ _ _ _ _ _ _ Hdel). }
  assert (Hsame : forall n, is_ino (k_fs s) n -> ~ ch n -> inode_at (k_fs t) (k_disk t) n = inode_at (k_fs s) (k_disk s) n).
  { intros n Hn Hch. apply (dl_inodes _ _ _ _ _ _ _ Hdel); [done|tauto|tauto]. }
  assert (Hpd : forall b, b ∈ held s dir -> pool s L ch b) by (intros b Hb; right; exists dir; auto).
  assert (Hpe : forall b, b ∈ dead_blocks s (d_ino e) -> pool s L ch b).
  { intros b Hb. right. exists (d_ino e). split; [by left|split; [done|by apply dead_held]]. }
  assert (Hdead : ~ live t (d_ino e)) by (intros [_ Hx]; apply Hx, (dl_inode _ _ _ _ _ _ _ Hdel)).
  split.
  - exact Hst.
  - generalize (dl_frame _ _ _ _ _ _ _ Hdel). apply disk_frame_mono. intros b _ [Hb|Hb]; [|by apply Hpe].
    apply Hpd. by rewrite Hhd.
  - intros n Hn. unfold current_ic at 1, holder. rewrite Ha. fold (holder s n).
    destruct (holder s n) as [[q i]|] eqn:Eh; [|done].
    assert (Hch : ~ ch n).
    { intros [-> | ->].
      - destruct (victim_entry s dir m w k e eq_refl Hvic) as [_ Hno]. by rewrite Hno in Eh.
      - destruct (tr_dir s Htr _ Hl Hd) as [Hno _]. by rewrite Hno in Eh. }
    rewrite Hsame by done. pose proof (fl_mode s L Hfl n Hn) as Hmn. unfold current_ic in Hmn. by rewrite Eh in Hmn.
  - intros n Hn Hch. split; [apply current_other; [done|]|f_equal]; by apply Hsame.
  - intros b [Hb|Hb]%elem_of_app; [by apply Hpe|by left].
  - intros n [-> | ->] Hln; [done|]. rewrite Hct, (nblks_dir t _ Hdt). apply (dr_file _ _ _ _ Hdir).
  - intros n b [-> | ->] Hln Hb; [done|]. by apply Hpd, Hhdt.
  - intros n n' b [-> | ->] [-> | ->]; done.
Qed.

(** Where an entry of a directory was before. *)
Lemma deleted_entries n j x :
  live s n -> dir_mode s n -> entries t n !! j = Some x ->
  exists j', entries s n !! j' = Some x /\ ~ (n = dir /\ j' = k) /\
    j' = (if decide (n = dir /\ j = k) then Z.to_nat (m - 1) else j) /\
    (n = dir -> (j < Z.to_nat (m - 1))%nat).
Proof.
  intros Hn Hdn Hx. destruct Hv as [Ht Hfd Hh Hfl Htr]. destruct (tr_cwd s Htr) as (Hl & Hd & _).
  destruct victim_facts as (Hle & _ & Hne & _ & _ & Hek). destruct (decide (n = dir)) as [->|Hnd].
  - unfold entries in Hx. rewrite (dl_count _ _ _ _ _ _ _ Hdel) in Hx.
    pose proof (dl_entries _ _ _ _ _ _ _ Hdel) as He. cbv zeta in He. rewrite He in Hx. fold (entries s dir) in Hx.
    assert (Hm : 0 < m) by (apply lookup_lt_Some in Hek; rewrite length_entries in Hek; lia).
    destruct (lookup_shrunk _ m k _ j x Hm (length_entries s dir) (entries_last s dir Hm) Hx) as (j' & H1 & H2 & -> & H4).
    eexists. split; [exact H1|]. split; [by intros [_ ?]|]. split; [|by intros _].
    destruct (decide (j = k)) as [E|E]; [by rewrite decide_True|by rewrite decide_False by (by intros [_ ?])].
  - assert (E : entries t n = entries s n).
    { apply (changes_entries ch s L t L'); [done|done|by apply deleted_changes|done|done| |].
      - intros [-> | ->]; done.
      - apply (dl_inodes _ _ _ _ _ _ _ Hdel); [apply Hn|done|]. intros ->. done. }
    exists j. rewrite <-E, decide_False by tauto. split_and!; [done|tauto|done|done].
Qed.

Lemma deleted_tree : tree_ok t.
Proof.
  destruct Hv as [Ht Hfd Hh Hfl Htr]. destruct (tr_cwd s Htr) as (Hl & Hd & Hsm).
  destruct victim_facts as (Hle & _ & Hne & _ & _ & Hek).
  destruct deleted_dir as (Ha & Hcwd & _ & _ & Hct & Hdt & Hlt). pose proof deleted_changes as Hc.
  assert (Hlive : forall n, live t n <-> live s n /\ n <> d_ino e).
  { intros n. destruct (decide (n = d_ino e)) as [->|Hn].
    { split; [intros [_ Hx]|by intros []]. by destruct Hx; apply (dl_inode _ _ _ _ _ _ _ Hdel). }
    destruct (decide (n = dir)) as [->|Hnd]; [tauto|].
    rewrite (changes_live _ _ _ _ _ n Hc) by tauto. tauto. }
  assert (Hsame : forall n, live t n -> dir_mode t n -> live s n /\ dir_mode s n).
  { intros n Hn Hdn. apply Hlive in Hn as [Hn Hne']. split; [done|].
    destruct (decide (n = dir)) as [->|Hnd]; [done|]. unfold dir_mode in *.
    by rewrite <-(dl_inodes _ _ _ _ _ _ _ Hdel n (proj1 Hn) Hnd Hne'). }
  assert (Hmode : forall n, is_ino (k_fs s) n -> n <> d_ino e -> dir_mode t n <-> dir_mode s n).
  { intros n Hn Hne'. unfold dir_mode. destruct (decide (n = dir)) as [->|Hnd].
    - by rewrite (dl_mode _ _ _ _ _ _ _ Hdel).
    - by rewrite (dl_inodes _ _ _ _ _ _ _ Hdel n Hn Hnd Hne'). }
  (* no entry that is left leads to the inode that is gone *)
  assert (Hgone : forall n j x, live s n -> dir_mode s n -> entries s n !! j = Some x ->
            ~ (n = dir /\ j = k) -> d_ino x <> d_ino e).
  { intros n j x Hn Hdn Hx Hnk E. apply Hnk.
    apply (tr_once s Htr n dir j k x e); try done. by rewrite E. }
  assert (Hent : forall n j x, live t n -> dir_mode t n -> entries t n !! j = Some x ->
    d_ino x <> d_ino e /\ live s (d_ino x) /\ d_ino x < 2 ^ 31).
  { intros n j x Hn Hdn Hx. destruct (Hsame n Hn Hdn) as [Hn' Hdn'].
    destruct (deleted_entries n j x Hn' Hdn' Hx) as (j' & Hj' & Hnk & _).
    split; [by apply (Hgone n j')|]. apply (tr_entry s Htr n x Hn' Hdn'). by eapply list_elem_of_lookup_2. }
  split.
  - intros n Hn Hdn. destruct (Hsame n Hn Hdn) as [Hn' Hdn']. split.
    + unfold holder. rewrite Ha. by apply (tr_dir s Htr n).
    + destruct (decide (n = dir)) as [->|Hnd].
      * destruct (dl_fs _ _ _ _ _ _ _ Hdel) as [_ Hdir]. by destruct Hdir.
      * apply Hlive in Hn as [_ Hne']. unfold dir_count.
        rewrite (dl_inodes _ _ _ _ _ _ _ Hdel n (proj1 Hn') Hnd Hne'). by apply (tr_dir s Htr n).
  - intros n x Hn Hdn (j & Hj)%list_elem_of_lookup_1. destruct (Hent n j x Hn Hdn Hj) as (H1 & H2 & H3).
    split; [by apply Hlive|done].
  - intros n n' j j' x x' Hn Hdn Hn' Hdn' Hx Hx' E Hr.
    destruct (Hent n j x Hn Hdn Hx) as (Hxe & Hlx & _).
    destruct (Hsame n Hn Hdn) as [Hns Hdns], (Hsame n' Hn' Hdn') as [Hns' Hdns'].
    destruct (deleted_entries n j x Hns Hdns Hx) as (i1 & Hi1 & _ & E1 & Hj).
    destruct (deleted_entries n' j' x' Hns' Hdns' Hx') as (i2 & Hi2 & _ & E2 & Hj').
    destruct (tr_once s Htr n n' i1 i2 x x') as [-> Ei]; try done.
    { intros Hdx. apply Hr. by apply Hmode; [apply Hlx|..]. }
    split; [done|]. rewrite E1, E2 in Ei. repeat case_decide; try lia; naive_solver lia.
  - destruct (tr_root s Htr) as [Hlr Hdr]. assert (ROOT_DIR <> d_ino e) by (intros E; by rewrite <-E in Hreg).
    split; [by apply Hlive|by apply Hmode; [apply Hlr|..]].
  - rewrite Hcwd. done.
Qed.

Lemma volume_deleted : volume t L'.
Proof.
  destruct Hv as [Ht Hfd Hh Hfl Htr]. destruct deleted_dir as (Ha & Hcwd & Ho & Hp & _).
  pose proof (dl_frame _ _ _ _ _ _ _ Hdel) as Hfr.
  split; [|by apply (fds_ok_ext s)|by rewrite Ho| |apply deleted_tree].
  - destruct Ht as []. split; rewrite ?Ho, ?Ha; try done. intros p i Hi Hu.
    destruct (to_wf p i Hi Hu) as [Hn Hw]. split; [|done]. by apply (is_ino_disk _ s t _ Hfr).
  - apply (files_change ch s L t L'); [|done|apply deleted_changes]. intros n.
    destruct (decide (n = d_ino e)), (decide (n = dir)); tauto.
Qed.
End Victim.
End Deletion.

(** ** Creation *)

Section Creation.
Context {D : Type} `{BlockDeviceLaws D}.
Variables (s t : kernel D) (L L' w : list Z) (dir n a : Z) (ic : icommon_t).
Hypothesis Hv : volume s L.
Hypothesis Hdir : live s dir /\ dir_mode s dir.
Hypothesis Hn : is_ino (k_fs s) n /\ is_free (k_fs s) (k_disk s) n /\ n < 2 ^ 31.
Hypothesis Ha : a ∈ L.
Hypothesis Hcr : made s L dir n a ic w t L'.
Hypothesis Hic : ic_mode ic <> mode_val IFZERO /\ nblks ic = 1 /\ ic_db ic !! 0%nat = Some a.

Local Abbreviation ch := (fun x => x = n \/ x = dir).

Lemma new_ne : n <> dir.
Proof. intros E. destruct Hdir as [[_ Hl] _], Hn as (_ & Hf & _). by rewrite E in Hf. Qed.

Lemma made_tables : k_ai t = k_ai s /\ k_oft t = k_oft s /\ k_pcb t = k_pcb s /\ k_cwd t = k_cwd s.
Proof. destruct (cr_rest _ _ _ _ _ _ _ _ _ Hcr) as (f & d & ->). done. Qed.

Lemma made_holders : holder t n = None /\ holder t dir = None.
Proof.
  destruct Hv as [Ht Hfd Hh Hfl Htr]. destruct made_tables as (Eai & _). destruct Hn as (Hi & Hf & _).
  unfold holder. rewrite Eai. fold (holder s n) (holder s dir). split.
  - destruct (holder s n) as [[p i]|] eqn:E; [|done]. by destruct (holder_live s L n p i Hfl Hi E).
  - destruct Hdir as [Hl Hd]. by apply (tr_dir s Htr dir).
Qed.

Lemma made_current : current_ic t n = ic /\ current_ic t dir = inode_at (k_fs t) (k_disk t) dir.
Proof.
  destruct made_holders as [E1 E2]. unfold current_ic. rewrite E1, E2. by rewrite (cr_inode _ _ _ _ _ _ _ _ _ Hcr).
Qed.

Lemma made_held : held t n = [a].
Proof.
  destruct Hic as (_ & Hnb & Ha0). unfold held. rewrite (proj1 made_current), Hnb. apply owned_first; [|done].
  by apply ic_lists, (fi_wf _ _ _ _ (cr_file _ _ _ _ _ _ _ _ _ Hcr)).
Qed.

Lemma made_mode : dir_mode t dir /\ (dir_mode t n <-> ic_mode ic = mode_val IFDIR) /\ live t n /\ live t dir.
Proof.
  destruct Hdir as [[Hi Hl] Hd], Hn as (Hin & _). pose proof (cr_frame _ _ _ _ _ _ _ _ _ Hcr) as Hfr.
  assert (Hdt : dir_mode t dir) by (unfold dir_mode; by rewrite (cr_mode _ _ _ _ _ _ _ _ _ Hcr)).
  unfold live, is_free. rewrite !(is_ino_disk _ s t _ Hfr), (cr_inode _ _ _ _ _ _ _ _ _ Hcr).
  unfold dir_mode in *. rewrite (cr_inode _ _ _ _ _ _ _ _ _ Hcr), Hdt. destruct Hic as (Hz & _). done.
Qed.

Lemma made_changes : changes ch s L t L'.
Proof.
  destruct Hv as [Ht Hfd Hh Hfl Htr], Hdir as [Hl Hd]. destruct made_tables as (Eai & _).
  destruct made_current as [Hcn Hcd]. destruct made_mode as (Hmd & Hmn & Hln & Hld).
  assert (Hhd : held s dir = owned (k_disk s) (inode_at (k_fs s) (k_disk s) dir)
                               (Z.max 1 ((dir_count s dir + 15) / 16)))
    by (unfold held; by rewrite (current_dir s _ Htr Hl Hd), (nblks_dir s _ Hd)).
  assert (Hhdt : forall b, b ∈ held t dir -> b ∈ held s dir \/ b ∈ L /\ b <> a).
  { intros b. rewrite Hhd. unfold held. rewrite Hcd, (nblks_dir t _ Hmd), (cr_count _ _ _ _ _ _ _ _ _ Hcr).
    apply (cr_owned _ _ _ _ _ _ _ _ _ Hcr). }
  assert (Hna : a ∉ held s dir).
  { intros Hin. destruct (held_rep s L dir Hfl Hl) as [_ Hx]. by destruct (Hx a Hin). }
  assert (Hsame : forall x, is_ino (k_fs s) x -> ~ ch x -> inode_at (k_fs t) (k_disk t) x = inode_at (k_fs s) (k_disk s) x).
  { intros x Hx Hch. apply (cr_inodes _ _ _ _ _ _ _ _ _ Hcr); [done|tauto|tauto]. }
  split.
  - apply Hcr.
  - generalize (cr_frame _ _ _ _ _ _ _ _ _ Hcr). apply disk_frame_mono. intros b _ [Hb|Hb]; [|by left].
    right. exists dir. rewrite Hhd. auto.
  - intros x Hx. destruct (decide (x = n)) as [->|Hxn]; [by rewrite Hcn, (cr_inode _ _ _ _ _ _ _ _ _ Hcr)|].
    destruct (decide (x = dir)) as [->|Hxd]; [by rewrite Hcd|].
    rewrite (current_other s t x Eai) by (apply Hsame; tauto). rewrite Hsame by tauto. by apply (fl_mode s L Hfl).
  - intros x Hx Hch. split; [apply current_other; [done|]|f_equal]; by apply Hsame.
  - intros b Hb. left. by apply (cr_sub _ _ _ _ _ _ _ _ _ Hcr).
  - intros x [-> | ->] _.
    + rewrite Hcn, (proj1 (proj2 Hic)). apply (cr_file _ _ _ _ _ _ _ _ _ Hcr).
    + rewrite Hcd, (nblks_dir t _ Hmd). apply (dr_file _ _ _ _ (cr_dir _ _ _ _ _ _ _ _ _ Hcr)).
  - intros x b [-> | ->] _ Hb.
    + rewrite made_held in Hb. apply list_elem_of_singleton in Hb as ->. by left.
    + destruct (Hhdt b Hb) as [Hb'|[Hb' _]]; [|by left]. right. exists dir. auto.
  - assert (Hno : forall b, b ∈ held t n -> b ∈ held t dir -> False).
    { intros b Hb Hb'. rewrite made_held in Hb. apply list_elem_of_singleton in Hb as ->.
      destruct (Hhdt a Hb') as [Hx|[_ Hx]]; done. }
    intros x y b [-> | ->] [-> | ->] _ _ Hb Hb'; [done| | |done]; by destruct (Hno b).
Qed.

(** A directory is made with entries that lead to itself or to a directory in use. *)
Hypothesis Hnew : ic_mode ic = mode_val IFDIR ->
  ic_size ic mod 32 = 0 /\
  forall e, e ∈ entries t n ->
    d_ino e < 2 ^ 31 /\ (d_ino e = n \/ live s (d_ino e) /\ dir_mode s (d_ino e)).
Lemma made_tree : tree_ok t.
Proof.
  destruct Hv as [Ht Hfd Hh Hfl Htr], Hdir as [Hl Hd], Hn as (Hin & Hfree & Hsm).
  destruct made_tables as (Eai & _ & _ & Ecwd). destruct made_mode as (Hmd & Hmn & Hln & Hld).
  destruct made_holders as [Hhn _].
  pose proof made_changes as Hc. pose proof new_ne as Hne.
  assert (Hlive : forall x, live t x <-> live s x \/ x = n).
  { intros x. destruct (decide (x = n)) as [->|Hxn]; [tauto|]. destruct (decide (x = dir)) as [->|Hxd]; [tauto|].
    rewrite (changes_live _ _ _ _ _ x Hc) by tauto. tauto. }
  assert (Hmode : forall x, live s x -> dir_mode t x <-> dir_mode s x).
  { intros x [Hx Hxl]. unfold dir_mode. destruct (decide (x = dir)) as [->|Hxd].
    - by rewrite (cr_mode _ _ _ _ _ _ _ _ _ Hcr).
    - rewrite (cr_inodes _ _ _ _ _ _ _ _ _ Hcr x Hx); [done| |done]. by intros ->. }
  assert (Hsame : forall x, live t x -> dir_mode t x -> x = n \/ live s x /\ dir_mode s x).
  { intros x [Hx| ->]%Hlive Hdx; [right|by left]. split; [done|by apply Hmode]. }
  assert (Hself : forall e, dir_mode t n -> e ∈ entries t n ->
            live t (d_ino e) /\ d_ino e < 2 ^ 31 /\ dir_mode t (d_ino e)).
  { intros e Hdn He. destruct (proj2 (Hnew (proj1 Hmn Hdn)) e He) as [Hs31 [->|[Hl' Hd']]]; [done|].
    split_and!; [apply Hlive; by left|done|by apply Hmode]. }
  destruct (cr_entries _ _ _ _ _ _ _ _ _ Hcr) as (old & _ & He).
  fold (entries s dir) in He. fold (entries t dir) in He. set (e0 := new_entry n w old) in *.
  assert (En : d_ino e0 = n) by (cbn; apply u32_small; destruct Hin; unfold is_u32; lia).
  (* an entry of a directory is an old one at its place, or the new one *)
  assert (Hent : forall x k e, live s x -> dir_mode s x -> entries t x !! k = Some e ->
    (entries s x !! k = Some e /\ d_ino e <> n /\ live s (d_ino e) /\ d_ino e < 2 ^ 31) \/
    x = dir /\ k = length (entries s dir) /\ e = e0).
  { intros x k e Hx Hdx Hk. assert (Hcases : entries s x !! k = Some e \/ x = dir /\ k = length (entries s dir) /\ e = e0).
    { destruct (decide (x = dir)) as [->|Hxd].
      - rewrite He in Hk. apply lookup_app_Some in Hk as [Hk|[Hge Hk]]; [by left|right].
        apply list_lookup_singleton_Some in Hk as [Hk <-]. split_and!; [done|lia|done].
      - left. rewrite <-Hk. f_equal. symmetry. apply (changes_entries ch s L t L'); try done.
        + intros [-> | ->]; [|done]. by destruct Hx.
        + apply (cr_inodes _ _ _ _ _ _ _ _ _ Hcr); [apply Hx| |done]. intros ->. by destruct Hx. }
    destruct Hcases as [Hk'|Hlast]; [left|by right]. split; [done|].
    destruct (tr_entry s Htr x e Hx Hdx) as [Hle Hse]; [by eapply list_elem_of_lookup_2|].
    split; [|done]. intros E. rewrite E in Hle. by destruct Hle. }
  split.
  - intros x Hx Hdx. destruct (Hsame x Hx Hdx) as [->|[Hxs Hdxs]].
    { split; [done|]. unfold dir_count. rewrite (cr_inode _ _ _ _ _ _ _ _ _ Hcr).
      destruct (Hnew (proj1 Hmn Hdx)) as [Hz _]. pose proof (Z.div_mod (ic_size ic) 32). lia. }
    split.
    + unfold holder. rewrite Eai. by apply (tr_dir s Htr x).
    + destruct (decide (x = dir)) as [->|Hxd]; [by destruct (cr_dir _ _ _ _ _ _ _ _ _ Hcr)|].
      unfold dir_count. rewrite (cr_inodes _ _ _ _ _ _ _ _ _ Hcr x (proj1 Hxs)); [by apply (tr_dir s Htr x)| |done].
      intros ->. by destruct Hxs.
  - intros x e Hx Hdx Hin'. destruct (Hsame x Hx Hdx) as [->|[Hxs Hdxs]]; [by destruct (Hself e Hdx Hin') as (? & ? & _)|].
    apply list_elem_of_lookup_1 in Hin' as (k & Hk).
    destruct (Hent x k e Hxs Hdxs Hk) as [(_ & _ & H1 & H2)|(_ & _ & ->)].
    + split; [apply Hlive; by left|done].
    + rewrite En. split; [apply Hlive; by right|done].
  - intros x x' k k' e e' Hx Hdx Hx' Hdx' Hk Hk' E Hr.
    destruct (Hsame x Hx Hdx) as [->|[Hxs Hdxs]].
    { destruct Hr. by apply (Hself e Hdx); apply list_elem_of_lookup_2 in Hk. }
    destruct (Hsame x' Hx' Hdx') as [->|[Hxs' Hdxs']].
    { destruct Hr. rewrite E. by apply (Hself e' Hdx'); apply list_elem_of_lookup_2 in Hk'. }
    destruct (Hent x k e Hxs Hdxs Hk) as [(H1 & H2 & H3 & _)|(-> & -> & ->)],
      (Hent x' k' e' Hxs' Hdxs' Hk') as [(H1' & H2' & _)|(-> & -> & ->)]; [|congruence|congruence|done].
    apply (tr_once s Htr x x' k k' e e'); try done. intros Hdx1. apply Hr. by apply Hmode.
  - destruct (tr_root s Htr) as [H1 H2]. split; [apply Hlive; by left|by apply Hmode].
  - destruct (tr_cwd s Htr) as (H1 & H2 & H3). rewrite Ecwd. split; [apply Hlive; by left|split; [by apply Hmode|done]].
Qed.

Lemma volume_made : volume t L'.
Proof.
  destruct Hv as [Ht Hfd Hh Hfl Htr]. destruct made_tables as (Eai & Eo & Ep & Ecwd).
  pose proof (cr_frame _ _ _ _ _ _ _ _ _ Hcr) as Hfr.
  split; [|by apply (fds_ok_ext s)|by rewrite Eo| |apply made_tree].
  - destruct Ht as []. split; rewrite ?Eo, ?Eai; try done. intros p i Hi Hu.
    destruct (to_wf p i Hi Hu) as [Hx Hw]. split; [|done]. by apply (is_ino_disk _ s t _ Hfr).
  - apply (files_change ch s L t L'); [|done|apply made_changes]. intros x.
    destruct (decide (x = n)), (decide (x = dir)); tauto.
Qed.
End Creation.

(** A regular file. *)
Section NewFile.
Context {D : Type} `{BlockDeviceLaws D}.
Variables (s t : kernel D) (L L' w : list Z) (dir n a : Z).
Hypothesis Hv : volume s L.
Hypothesis Hdir : live s dir /\ dir_mode s dir.
Hypothesis Hn : is_ino (k_fs s) n /\ is_free (k_fs s) (k_disk s) n /\ n < 2 ^ 31.
Hypothesis Ha : a ∈ L.
Hypothesis Hcr : created s L dir n a w t L'.

Lemma new_file_shape : let ic := new_file s dir n a in
  ic_mode ic <> mode_val IFZERO /\ nblks ic = 1 /\ ic_db ic !! 0%nat = Some a.
Proof.
  split_and!; [done|unfold nblks; by rewrite decide_False|].
  destruct Hv as [_ _ _ Hfl Htr], Hdir as [Hl Hd]. pose proof (fl_rep s L Hfl _ Hl) as Hf.
  rewrite (current_dir s _ Htr Hl Hd) in Hf. destruct (ic_lists _ (fi_wf _ _ _ _ Hf)) as [E _].
  apply list_lookup_insert_eq. lia.
Qed.

Lemma volume_created : volume t L'.
Proof. by apply (volume_made s t L L' w dir n a _ Hv Hdir Hn Ha Hcr new_file_shape). Qed.

Lemma created_mode : ~ dir_mode t n /\ live t n.
Proof.
  destruct (made_mode s t L L' w dir n a _ Hdir Hn Hcr new_file_shape) as (_ & Hm & Hl & _).
  split; [|done]. by intros Hd%Hm.
Qed.
End NewFile.
