(* ===== verification/VolumeCalls.v ===== *)
(** * The volume under the file calls

    Every call on files, with any arguments the file system can serve, returns and keeps
    the invariant of Volume.v, whoever makes it and whatever else the kernel does between
    the calls. *)

From S2P Require Import Prelude CMonad Layout BlockDev Kernel FsOps FreeList InodeProof BlockMap FileRep FileGrow Dir Posix FileIO DirProof DirRemove PathProof Create Unlink OpenProof Volume VolumeIO VolumeTree.

(** ** Paths through directories *)

Section Follow.
Context {D : Type} `{BlockDeviceLaws D}.
Implicit Types (s t : kernel D) (L w : list Z).

(** Where a walk ends, when every inode it looks a name up in is a directory. *)
Fixpoint follow s (dir : Z) (v : list Z) (ws : list (list Z)) : option (Z * Z * list Z * list (list Z)) :=
  if decide (dir_mode s dir) then
    match ws with
    | [] => Some (dir_find s dir v, dir, v, [])
    | w :: ws' =>
        if dir_find s dir v =? -1 then Some (-1, dir, v, ws)
        else follow s (dir_find s dir v) w ws'
    end
  else None.

Lemma lookup_name_entry w ds r : lookup_name w ds = Some r -> exists e, e ∈ ds /\ r = s32 (d_ino e).
Proof.
  induction ds as [|d ds IH]; cbn; [done|]. destruct (matches w d).
  - intros [= <-]. exists d. split; [by left|done].
  - intros (e & He & ->)%IH. exists e. split; [by right|done].
Qed.

(** A name leads to an inode in use, or nowhere. *)
Lemma dir_find_live s L n w :
  volume s L -> live s n -> dir_mode s n ->
  dir_find s n w = -1 \/ live s (dir_find s n w) /\ 0 <= dir_find s n w.
Proof.
  intros [Ht Hfd Hh Hfl Htr] Hn Hd. unfold dir_find.
  destruct (lookup_name _ _) as [r|] eqn:E; cbn [default]; [|by left]. right.
  apply lookup_name_entry in E as (e & He & ->).
  assert (Hin : e ∈ entries s n).
  { unfold entries. pose proof (searched_le (dir_count s n)) as Hle.
    destruct (Z.lt_ge_cases (searched (dir_count s n)) 0) as [Hneg|Hpos].
    { unfold dir_entries in He. rewrite seqZ_nil in He by lia. by apply not_elem_of_nil in He. }
    replace (dir_count s n) with (searched (dir_count s n) + (dir_count s n - searched (dir_count s n))) by lia.
    rewrite dir_entries_add by lia. apply elem_of_app. by left. }
  destruct (tr_entry s Htr n e Hn Hd Hin) as [Hl Hs]. pose proof (proj1 (proj1 Hl)).
  rewrite s32_small by lia. by split.
Qed.

Lemma follow_resolves s L dir v ws r ino0 tok0 left :
  volume s L -> live s dir -> Forall is_comp (v :: ws) ->
  follow s dir v ws = Some (r, ino0, tok0, left) ->
  resolves s L dir v ws r ino0 tok0 left /\ live s ino0 /\ dir_mode s ino0 /\ is_name tok0 /\
  (r = -1 \/ live s r /\ 0 <= r).
Proof.
  intros Hv. revert dir v. induction ws as [|w ws IH]; intros dir v Hl Hc Hf; cbn [follow resolves] in *;
    (destruct (decide (dir_mode s dir)) as [Hd|]; [|done]); pose proof (Forall_inv Hc) as (_ & Hw & _);
    pose proof (live_is_dir s L dir (vo_files s L Hv) (vo_tree s L Hv) Hl Hd) as His.
  - injection Hf as <- <- <- <-. split; [done|]. split_and!; try done. by apply (dir_find_live s L).
  - destruct (Z.eqb_spec (dir_find s dir v) (-1)) as [E|E].
    + injection Hf as <- <- <- <-. split; [done|]. split_and!; try done. by left.
    + destruct (dir_find_live s L dir v Hv Hl Hd) as [|[Hl' _]]; [done|].
      apply Forall_inv_tail in Hc. destruct (IH _ w Hl' Hc Hf) as (H1 & H2). by split.
Qed.
End Follow.

(** ** The calls *)

Inductive fcall :=
  | C_open (path : list Z) (oflag : oflag_t)
  | C_close (n : Z)
  | C_read (n len : Z)
  | C_write (n : Z) (data : list Z)
  | C_seek (n offset whence : Z)
  | C_unlink (w : list Z)
  | C_cd (path : list Z).

Definition run_fcall {D} `{BlockDevice D} (c : fcall) : M (kernel D) unit :=
  match c with
  | C_open path f => _ ← open path (oflag_val f); mret tt
  | C_close n => _ ← close n; mret tt
  | C_read n len => _ ← fread n len; mret tt
  | C_write n data => _ ← fwrite n data (Z.of_nat (length data)); mret tt
  | C_seek n offset whence => _ ← lseek n offset whence; mret tt
  | C_unlink w => _ ← unlink (c_str w); mret tt
  | C_cd path => _ ← cd path; mret tt
  end.

Section Limits.
Context {D : Type} `{BlockDevice D}.
Implicit Types (s : kernel D).

(** At least [k] blocks are free. *)
Definition room s (k : nat) : Prop := forall L, fs_rep s L -> (k <= length L)%nat.

(** What the file system does not check itself: the inode table has no place left, a
    directory is full, blocks or inodes run out in the middle of a call, a file grows
    behind its first indirect table, a directory is opened, entered by a file's name
    or unlinked. *)
Definition call_ok s (c : fcall) : Prop :=
  match c with
  | C_open path f => exists v ws r ino0 tok0 left,
      path_of path (v :: ws) /\ follow s ROOT_DIR v ws = Some (r, ino0, tok0, left) /\
      free_oft (k_oft s) <> None /\ (0 <= r -> ~ dir_mode s r) /\
      (f = O_CREAT -> r = -1 -> left = [] ->
         dir_count s ino0 < 16 * MAXBLKS /\ room s 3 /\
         exists n, is_ino (k_fs s) n /\ is_free (k_fs s) (k_disk s) n /\ n < 2 ^ 31)
  | C_close _ => True
  | C_read n len => forall f o p i, opened s n f o p i ->
      0 <= len < 2 ^ 31 /\ o_head o + len < 2 ^ 32
  | C_write n data => forall f o p i, opened s n f o p i ->
      let last := o_head o + Z.of_nat (length data) in
      Forall is_byte data /\ nblocks (Z.max (ic_size (i_ic i)) last) <= MAXBLKS /\
      room s (write_cost (ic_size (i_ic i)) last)
  | C_seek _ _ _ => True
  | C_unlink w =>
      let m := dir_count s (k_cwd s) in
      is_name w /\ m <= 176 /\
      forall k e, victim s (inode_of s (k_cwd s) 0) m w = Some (k, e) ->
        ~ dir_mode s (d_ino e) /\
        nfreed (ic_size (inode_at (k_fs s) (k_disk s) (d_ino e))) <= 11
  | C_cd path => exists v ws r ino0 tok0 left,
      path_of path (v :: ws) /\ follow s (k_cwd s) v ws = Some (r, ino0, tok0, left) /\
      (0 <= r -> dir_mode s r /\ r < 2 ^ 31)
  end.
End Limits.

Section Calls.
Context {D : Type} `{BlockDeviceLaws D}.
Implicit Types (s t : kernel D) (L w : list Z).

(** A descriptor is open, or the call is refused. *)
Lemma descriptor s L c x n :
  volume s L -> running s c x ->
  (exists f o p i, opened s n f o p i) \/ fd_file n s = Done (None, s).
Proof.
  intros [Ht Hfd Hh Hfl Htr] [Hc Hc0 Hx Hfdl]. unfold fd_file, FDT_LIMIT.
  destruct ((n <? 0) || (n >=? 16)) eqn:E; [by right|].
  destruct (lookup_lt_ex (fd x) (Z.to_nat n)) as [[v|] Hn]; [lia|left|right].
  - destruct (fo_some s Hfd _ _ _ _ Hx Hn) as (g & o & p & -> & Ho & Hp).
    destruct (to_ptr s Ht _ _ _ Ho Hp) as [Hp0 Hp1]. unfold AIT_LIMIT, OFT_LIMIT, FDT_LIMIT, PROCESS_LIMIT in Hp1.
    destruct (lookup_lt_ex (k_ai s) (Z.to_nat p)) as [i Hi]; [rewrite (to_ai s Ht); lia|].
    exists (Z.of_nat g), o, p, i. split; [|rewrite Nat2Z.id; split; [lia|done]|done|done].
    exists c, x. unfold FDT_LIMIT. split_and!; [done..|lia|lia|done].
  - apply wp_run. wp_step. apply (wp_cur s c x); [done..|]. by eapply wp_lift; [apply aget_done; [lia|done]|].
Qed.

(** The tail of [open], on a regular file in use. *)
Lemma wp_volume_open s L c x n path r (Q : Z * list Z -> kernel D -> Prop) :
  volume s L -> running s c x -> free_fd x = Some n -> free_oft (k_oft s) <> None ->
  (0 <= r -> live s r /\ ~ dir_mode s r) ->
  (forall y t, volume t L -> Q y t) ->
  wp (if r <? 0 then mret (-1, path) else open_tail (Z.of_nat n) path r) Q s.
Proof.
  intros Hv Hrun Hn Hspare Hr HQ. destruct (Z.ltb_spec r 0) as [Hneg|Hpos]; [by wp_steps; apply HQ|].
  destruct (Hr Hpos) as [Hl Hreg]. pose proof Hv as [Ht Hfd Hh Hfl Htr]. pose proof (fl_fs s L Hfl) as Hs.
  destruct (free_oft (k_oft s)) as [g|] eqn:Eg; [|done].
  destruct (grab_some s r g Ht Eg) as (p & i & Egr).
  apply (wp_open_tail s c x n path r); try done; [apply Hs|apply Hs|apply Hs|apply Hl|].
  rewrite Egr, Eg. apply HQ. by apply (volume_open s L c x n g p i r).
Qed.

(** The free inode with the lowest number. *)
Lemma lowest_free_inode f d n : is_ino f n -> is_free (D := D) f d n ->
  exists m, is_ino f m /\ is_free f d m /\ m <= n /\ forall j, 0 <= j < m -> ~ is_free f d j.
Proof.
  intros Hi. pose proof (proj1 Hi) as H0n. revert Hi. pattern n.
  apply Zlt_0_ind; [|done]. clear n H0n. intros n IH Hn Hi Hf.
  destruct (decide (Exists (fun j => is_free f d j) (seqZ 0 n))) as [He|He].
  - apply list.Exists_exists in He as (j & Hj%elem_of_seqZ & Hfj).
    destruct (IH j ltac:(lia)) as (m & H1 & H2 & H3 & H4); [|done|].
    { destruct Hi as [_ Hq]. split; [lia|]. pose proof (Z.div_le_mono j n 8). lia. }
    exists m. split_and!; [done|done|lia|done].
  - exists n. split_and!; [done|done|lia|]. intros j Hj Hfj. apply He, list.Exists_exists.
    exists j. split; [apply elem_of_seqZ; lia|done].
Qed.

Lemma entry_rest_some m L : (2 <= length L)%nat -> exists L', entry_rest m L = Some L'.
Proof.
  intros Hl. unfold entry_rest, alloc_rest. destruct ((m mod 16 =? 0) && (0 <? m)); [|by exists L].
  destruct L as [|a [|b L]]; cbn in Hl; [lia|lia|]. destruct (m / 16 =? 11); eauto.
Qed.

Definition kept (_ : unit) (t : kernel D) : Prop := exists L, volume t L.

Lemma running_created s t L L' dir n a w c x :
  created s L dir n a w t L' -> running s c x -> running t c x /\ k_oft t = k_oft s.
Proof.
  intros Hcr Hrun. destruct (cr_rest _ _ _ _ _ _ _ _ _ Hcr) as (f & d & ->).
  split; [|done]. destruct Hrun. by split.
Qed.

(** [open] makes the file its path names, when only the last component is missing. *)
Lemma wp_open_new s a L L' c x n g path v ws ino0 w k (Q : Z * list Z -> kernel D -> Prop) :
  volume s (a :: L) -> running s c x -> free_fd x = Some n -> free_oft (k_oft s) = Some g ->
  path_of path (v :: ws) -> resolves s (a :: L) ROOT_DIR v ws (-1) ino0 w [] ->
  live s ino0 -> dir_mode s ino0 -> is_name w ->
  is_ino (k_fs s) k -> is_free (k_fs s) (k_disk s) k -> k < 2 ^ 31 ->
  (forall m, 0 <= m < k -> ~ is_free (k_fs s) (k_disk s) m) ->
  dir_count s ino0 < 16 * MAXBLKS -> entry_rest (dir_count s ino0) L = Some L' ->
  (forall t path' p i, created s (a :: L) ino0 k a w t L' -> volume t L' -> grab t k = Some (p, i) ->
     volume (open_state c x n g p i t) L' -> Q (Z.of_nat n, path') (open_state c x n g p i t)) ->
  wp (open path (oflag_val O_CREAT)) Q s.
Proof.
  intros Hv Hrun Hn Hg Hp Hres Hl0 Hd0 Hw Hk Hkf Hk31 Hmin Hcount HL' HQ.
  pose proof Hv as [Ht Hfd Hh Hfl Htr]. unfold open. wp_step.
  pose proof Hrun as [Hc Hc0 Hx Hfdl]. apply (wp_getFD s c x); [done..|]. rewrite Hn.
  change (default (-1) (Z.of_nat <$> Some n)) with (Z.of_nat n).
  destruct (Z.eqb_spec (Z.of_nat n) (-1)) as [|_]; [lia|]. cbn [oflag_val Z.eqb]. wp_step.
  apply (wp_path_to_ino2_new s a L L' path _ v ws ino0 w k); try done; [by apply live_is_dir|apply Hl0|].
  intros t path' Hcr. assert (Hk' : is_ino (k_fs s) k /\ is_free (k_fs s) (k_disk s) k /\ k < 2 ^ 31) by done.
  assert (Hvt : volume t L') by by apply (volume_created s t (a :: L) L' w ino0 k a Hv (conj Hl0 Hd0) Hk'); [left|].
  destruct (created_mode s t (a :: L) L' w ino0 k a) as (Hreg & Hlk); [done..|].
  destruct (running_created s t _ _ _ _ _ _ c x Hcr Hrun) as [Hrt Eo]. pose proof Hvt as [Htt _ _ Hflt _].
  destruct (Z.ltb_spec k 0) as [|_]; [destruct Hk; lia|].
  change (wp (open_tail (Z.of_nat n) path' k) Q t).
  apply (wp_open_tail t c x n path' k); try done; [apply Hflt|apply Hflt|apply Hflt|apply Hlk|].
  destruct (grab_some t k g Htt) as (p & i & Egr); [by rewrite Eo|]. rewrite Egr, Eo, Hg.
  apply HQ; [done|done|done|]. apply (volume_open t L' c x n g p i k); try done. by rewrite Eo.
Qed.
Lemma call_open s L c x path f :
  volume s L -> running s c x -> call_ok s (C_open path f) -> wp (run_fcall (C_open path f)) kept s.
Proof.
  intros Hv Hrun (v & ws & r & ino0 & tok0 & left & Hp & Hfo & Hspare & Hreg & Hnew).
  pose proof Hv as [Ht Hfd Hh Hfl Htr]. pose proof (fl_fs s L Hfl) as Hs.
  destruct (follow_resolves s L _ v ws r ino0 tok0 left Hv (proj1 (tr_root s Htr)) (path_of_comps _ _ Hp) Hfo)
    as (Hres & Hl0 & Hd0 & Hw & Hr).
  assert (Hold : 0 <= r -> live s r /\ ~ dir_mode s r).
  { intros H0r. destruct Hr as [->|[Hl _]]; [done|]. split; [done|by apply Hreg]. }
  cbn [run_fcall]. wp_step. destruct (free_fd x) as [n|] eqn:En.
  2:{ apply wp_done. eexists _, s. split; [by apply (open_full s c x)|]. wp_steps. by exists L. }
  destruct f.
  2:{ apply (wp_open_exist s L c x n path v ws r ino0 tok0 left); [done..|]. intros path'.
      apply (wp_volume_open s L c x); try done. intros y t Hvt. wp_steps. by exists L. }
  destruct (decide (r = -1 /\ left = [])) as [[-> ->]|Hno].
  - destruct (Hnew eq_refl eq_refl eq_refl) as (Hcount & Hroom & m & Hm & Hmf & Hm31).
    destruct (lowest_free_inode _ _ m Hm Hmf) as (k & Hk & Hkf & Hkm & Hmin). specialize (Hroom L Hs).
    destruct L as [|a L1]; [cbn in Hroom; lia|]. destruct (free_oft (k_oft s)) as [g|] eqn:Eg; [|done].
    destruct (entry_rest_some (dir_count s ino0) L1) as [L' HL']; [cbn in Hroom; lia|].
    apply (wp_open_new s a L1 L' c x n g path v ws ino0 tok0 k); try done; [lia|].
    intros t path' p i _ _ _ Hvo. wp_steps. by exists L'.
  - unfold open. wp_step. pose proof Hrun as [Hc Hc0 Hx Hfdl]. apply (wp_getFD s c x); [done..|]. rewrite En.
    change (default (-1) (Z.of_nat <$> Some n)) with (Z.of_nat n).
    destruct (Z.eqb_spec (Z.of_nat n) (-1)) as [|_]; [lia|]. cbn [oflag_val Z.eqb]. wp_step.
    rewrite path_to_ino2_eq. wp_step. apply (wp_walk_path s L path _ v ws r ino0 tok0 left); [done..|].
    intros e path' [(links & E0) E1 E2 E3 E4]. wp_steps. rewrite E1, E4.
    destruct (Z.eqb_spec r (-1)) as [->|Hr1]; cbn [negb].
    + destruct left as [|w left]; [tauto|]. cbn [head fmap option_fmap option_map]. wp_steps. by exists L.
    + wp_steps. apply (wp_volume_open s L c x); try done. intros y t Hvt. wp_steps. by exists L.
Qed.

Lemma call_close s L c x n :
  volume s L -> running s c x -> wp (run_fcall (C_close n)) kept s.
Proof.
  intros Hv Hrun. cbn [run_fcall]. wp_step. pose proof Hrun as [Hc Hc0 Hx Hfdl].
  assert (Hclose : exists r t, close n s = Done (r, t)).
  { destruct (decide (0 <= n < 16)) as [Hn|Hn].
    - destruct (lookup_lt_ex (fd x) (Z.to_nat n)) as [[v|] Hn']; [lia| |].
      + destruct (close_done s L c x n v (vo_tables s L Hv) (vo_fds s L Hv) (fl_fs s L (vo_files s L Hv)) Hrun Hn Hn')
          as (g & o & p & i & d & t & _ & Hr & _). by eexists _, t.
      + eexists _, s. apply (close_refused s c x n Hrun). by right; right.
    - eexists _, s. apply (close_refused s c x n Hrun). lia. }
  destruct Hclose as (r & t & Hr). apply wp_done. exists r, t. split; [done|]. wp_steps.
  exists L. by apply (volume_close s L c x n r).
Qed.

(** A call on a descriptor that is not open does nothing. *)
Lemma wp_refused {A} s L n (k : Z -> M (kernel D) A) (a : A) :
  volume s L -> fd_file n s = Done (None, s) ->
  wp (r ← (f ← fd_file n; match f with None => mret a | Some f => k f end); mret tt) kept s.
Proof.
  intros Hv Hno. wp_steps. apply wp_done. exists None, s. split; [done|]. wp_steps. by exists L.
Qed.

Lemma call_read s L c x n len :
  volume s L -> running s c x -> call_ok s (C_read n len) -> wp (run_fcall (C_read n len)) kept s.
Proof.
  intros Hv Hrun Hok. cbn [run_fcall].
  destruct (descriptor s L c x n Hv Hrun) as [(f & o & p & i & Hop)|Hno]; [|by apply (wp_refused s L)].
  destruct (Hok f o p i Hop) as [Hlen Hlast].
  destruct (opened_file s L n f o p i Hv Hop) as [_ _ _ _ Hfile _ Hho]. unfold is_u32 in Hho.
  pose proof (file_size_range s i L Hfile) as Hsz. wp_step.
  destruct (Z.le_gt_cases (o_head o + len) (ic_size (i_ic i))) as [Hle|Hgt].
  - apply (wp_fread s n f o p i L); try done; [lia|lia|]. wp_steps. exists L.
    apply (volume_head s L n f o p i); [done|done|]. unfold is_u32. lia.
  - apply wp_done. eexists _, s. split; [apply (fread_short s n f o p i L); done || unfold is_u32; lia|].
    wp_steps. by exists L.
Qed.

Lemma call_write s L c x n data :
  volume s L -> running s c x -> call_ok s (C_write n data) -> wp (run_fcall (C_write n data)) kept s.
Proof.
  intros Hv Hrun Hok. cbn [run_fcall].
  destruct (descriptor s L c x n Hv Hrun) as [(f & o & p & i & Hop)|Hno]; [|by apply (wp_refused s L)].
  destruct (Hok f o p i Hop) as (Hdata & Hmax & Hroom).
  destruct (opened_file s L n f o p i Hv Hop) as [_ _ _ _ Hfile _ Hho]. unfold is_u32 in Hho. wp_step.
  apply (wp_fwrite s n f o p i L); try done; [lia|by apply Hroom, Hfile|].
  intros t i' Hwr. wp_steps. eexists. apply (volume_write s L n f o p i data t i'); [done..|].
  apply subseteq_drop.
Qed.

Lemma call_seek s L c x n offset whence :
  volume s L -> running s c x -> wp (run_fcall (C_seek n offset whence)) kept s.
Proof.
  intros Hv Hrun. cbn [run_fcall].
  destruct (descriptor s L c x n Hv Hrun) as [(f & o & p & i & Hop)|Hno]; [|by apply (wp_refused s L)].
  wp_step. destruct (whence_of whence) as [w|] eqn:Hw.
  - apply (wp_lseek s n f o p i offset whence w); [done..|]. wp_steps. exists L.
    apply (volume_head s L n f o p i); [done..|]. destruct w; apply u32_range.
  - unfold lseek. wp_step. eapply wp_fd_file; [done|]. rewrite Hw. wp_steps. by exists L.
Qed.

Lemma call_unlink s L w :
  volume s L -> call_ok s (C_unlink w) -> wp (run_fcall (C_unlink w)) kept s.
Proof.
  intros Hv (Hw & Hm & Hvic). cbn [run_fcall]. wp_step. apply wp_done.
  destruct (tr_cwd s (vo_tree s L Hv)) as (Hl & Hd & Hsm).
  destruct (decide (head w = Some 46)) as [Hh|Hh].
  { eexists _, s. split; [by apply unlink_dot|]. wp_steps. by exists L. }
  destruct (victim s (inode_of s (k_cwd s) 0) (dir_count s (k_cwd s)) w) as [[k e]|] eqn:Ev.
  - destruct (Hvic k e eq_refl) as [Hreg Hsize].
    destruct (unlink_found s L w k e) as (t & Hr & Hdel); [|done..| |].
    + by apply victim_removal.
    + by apply (victim_doomed s L w k e).
    + eexists _, t. split; [done|]. wp_steps. eexists. by apply (volume_deleted s L w k e).
  - eexists _, s. split; [|wp_steps; by exists L]. apply (unlink_missing s L); [by apply victim_removal|done..].
Qed.

(** What the volume does not depend on: the processes but for their descriptors (which
    they may lose), the queues, memory, the devices. *)
Record elsewhere s t : Prop := {
  el_fs : k_fs t = k_fs s;
  el_disk : k_disk t = k_disk s;
  el_oft : k_oft t = k_oft s;
  el_ai : k_ai t = k_ai s;
  el_fds c x : k_pcb t !! c = Some x ->
    fd x = replicate 16 None \/ exists y, k_pcb s !! c = Some y /\ fd x = fd y;
}.

Lemma fds_ok_elsewhere s t : elsewhere s t -> fds_ok s -> fds_ok t.
Proof.
  intros [_ _ Ho _ Hp] [Hlen Hsome Hinj].
  assert (Hfd : forall c x n v, k_pcb t !! c = Some x -> fd x !! n = Some (Some v) ->
            exists y, k_pcb s !! c = Some y /\ fd y !! n = Some (Some v)).
  { intros c x n v Hx Hv. destruct (Hp c x Hx) as [E|(y & Hy & E)]; rewrite E in Hv.
    - by apply lookup_replicate in Hv as [? _].
    - by exists y. }
  split.
  - intros c x Hx. destruct (Hp c x Hx) as [->|(y & Hy & ->)]; [done|]. by apply (Hlen c).
  - intros c x n v Hx Hv. rewrite Ho. destruct (Hfd c x n v Hx Hv) as (y & Hy & Hv'). by apply (Hsome c y n).
  - intros c c' x x' n n' v Hx Hx' Hv Hv'. destruct (Hfd c x n v Hx Hv) as (y & Hy & Hw).
    destruct (Hfd c' x' n' v Hx' Hv') as (y' & Hy' & Hw'). by apply (Hinj c c' y y' n n' v).
Qed.

Lemma volume_elsewhere s t L :
  volume s L -> elsewhere s t ->
  k_cwd t = k_cwd s \/ live s (k_cwd t) /\ dir_mode s (k_cwd t) /\ k_cwd t < 2 ^ 31 -> volume t L.
Proof.
  intros [Ht Hfd Hh Hfl Htr] Hel Hcwd. pose proof (fds_ok_elsewhere s t Hel Hfd) as Hfd'.
  destruct Hel as [Ef Ed Eo Ea _]. destruct s, t. cbn in *. subst.
  split; [by destruct Ht|done|done|..].
  - destruct Hfl as [Hs Hm Hr Hx]. split; [by destruct Hs|exact Hm| |exact Hx].
    intros n Hn. by destruct (Hr n Hn).
  - destruct Htr as [H1 H2 H3 H4 H5]. split; [exact H1|exact H2|exact H3|exact H4|].
    destruct Hcwd as [->|Hc]; [exact H5|exact Hc].
Qed.

Lemma volume_cwd s L n :
  volume s L -> live s n -> dir_mode s n -> n < 2 ^ 31 -> volume (set_k_cwd n s) L.
Proof.
  intros Hv Hl Hd Hn. apply (volume_elsewhere s); [done| |by right].
  split; try done. intros c x Hx. right. by exists x.
Qed.

Lemma call_cd s L path :
  volume s L -> call_ok s (C_cd path) -> wp (run_fcall (C_cd path)) kept s.
Proof.
  intros Hv (v & ws & r & ino0 & tok0 & left & Hp & Hfo & Hr). cbn [run_fcall]. unfold cd. wp_steps.
  destruct (tr_cwd s (vo_tree s L Hv)) as (Hl & Hd & Hsm). pose proof (proj1 (proj1 Hl)).
  rewrite s32_small by lia.
  destruct (follow_resolves s L _ v ws r ino0 tok0 left Hv Hl (path_of_comps _ _ Hp) Hfo) as (Hres & _ & _ & _ & Hrl).
  apply (wp_walk_path s L path _ v ws r ino0 tok0 left); [done..|].
  intros e path' He. wp_steps. rewrite (we_ino _ _ _ _ _ _ He).
  destruct (Z.eqb_spec r (-1)) as [->|Hne]; wp_steps; exists L; [done|].
  destruct Hrl as [|[Hlr H0r]]; [done|]. destruct (Hr H0r) as [Hdr Hr31].
  rewrite u32_small by (unfold is_u32; lia). by apply volume_cwd.
Qed.

Lemma wp_call s L c x call :
  volume s L -> running s c x -> call_ok s call -> wp (run_fcall call) kept s.
Proof.
  intros Hv Hrun. destruct call; intros Hok.
  - by apply (call_open s L c x).
  - by apply (call_close s L c x).
  - by apply (call_read s L c x).
  - by apply (call_write s L c x).
  - by apply (call_seek s L c x).
  - by apply (call_unlink s L).
  - by apply (call_cd s L).
Qed.
End Calls.
