(* ===== verification/Session.v ===== *)
(** * A file from open to close

    The state between an [open] of an existing file and its [close], with the position
    where the reads left it, and what is left of it afterwards. *)

From S2P Require Import Prelude CMonad Layout BlockDev Kernel FsOps FreeList InodeProof FileRep FileGrow Posix FileIO PathProof OpenProof.

Lemma kernel_eq {D} (s t : kernel D) :
  k_pcb s = k_pcb t -> k_current s = k_current t -> k_rq s = k_rq t -> k_rq_size s = k_rq_size t ->
  k_mq s = k_mq t -> k_oft s = k_oft t -> k_ai s = k_ai t -> k_fs s = k_fs t -> k_cwd s = k_cwd t ->
  k_disk s = k_disk t -> k_mem s = k_mem t -> k_out s = k_out t -> k_in s = k_in t ->
  k_hw s = k_hw t -> s = t.
Proof. destruct s, t. cbn. by intros; subst. Qed.

Lemma unlinked_link i : unlinked (link i) = i.
Proof.
  destruct i as [a b ic]. unfold unlinked, link, set_links. cbn [i_links i_number i_ic].
  f_equal. lia.
Qed.


(** What [open] finds: a free descriptor [n] of the process, a free open-file entry [g],
    and entry [p] of the inode table for the file, inode [r] with the contents [ic]. *)
Record opening {D} `{BlockDevice D} (s : kernel D) (L : list Z) (c : Z) (x : pcb_t) (n g p : nat)
    (i : inode_t) (r : Z) (ic : icommon_t) : Prop := {
  og_tables : tables_ok s;
  og_run : running s c x;
  og_fd : free_fd x = Some n;
  og_oft : free_oft (k_oft s) = Some g;
  og_fs : fs_rep s L;
  og_ino : is_ino (k_fs s) r;
  og_grab : grab s r = Some (p, i);
  og_ic : current_ic s r = ic;
  og_used : ic_mode ic <> mode_val IFZERO;
  og_file : file_rep s ic (nblocks (ic_size ic)) L;
}.

(** What a file that was opened and closed leaves behind: its entry of the inode table is
    as it was when it was open before, and otherwise free again, its inode written
    back. *)
Definition reread {D} `{BlockDevice D} (s : kernel D) (p : nat) (i : inode_t) (t : kernel D) : Prop :=
  if i_links i =? 0
  then exists d, t = put_ai (Z.of_nat p) (set_mode (mode_val IFZERO) i) (set_k_disk d s) /\
                 inode_put (k_fs s) (i_number i) (i_ic i) (k_disk s) d
  else t = put_ai (Z.of_nat p) i s.


(** The file is open at position [v]; memory and console may have changed. *)
Definition session {D} (c : Z) (x : pcb_t) (n g p : nat) (i : inode_t) (v : Z) (mem : gmap Z Z)
    (out : list Z) (s : kernel D) : kernel D :=
  set_k_out out (set_k_mem mem
    (put_oft (Z.of_nat g) (mk_ofile (Some (Z.of_nat p)) v) (open_state c x n g p i s))).

Section Session.
Context {D : Type} `{BlockDeviceLaws D}.
Implicit Types (t : kernel D) (m : gmap Z Z).

(** Opened, read and closed, the tables are as they were but for the inode's entry. *)
Lemma closed_again (s : kernel D) c x n g p i d o1 o2 :
  k_pcb s !! Z.to_nat c = Some x -> fd x !! n = Some None -> k_oft s !! g = Some (mk_ofile None 0) ->
  close_state c (set_fd (<[n := Some (Z.of_nat g)]> (fd x)) x) n g p (link i) d
    (put_oft (Z.of_nat g) o2 (put_oft (Z.of_nat g) o1 (open_state c x n g p i s))) =
  put_ai (Z.of_nat p) (if i_links i =? 0 then set_mode (mode_val IFZERO) i else i) (set_k_disk d s).
Proof.
  intros Hx He Ho. unfold close_state. rewrite unlinked_link.
  change (i_links (link i)) with (i_links i + 1).
  replace (i_links i + 1 =? 1) with (i_links i =? 0) by lia.
  apply kernel_eq; try reflexivity; cbn; rewrite !Nat2Z.id, !list_insert_insert_eq.
  - apply list_insert_id. rewrite Hx. destruct x as [x1 x2 x3 x4 x5 x6 l].
    unfold set_fd. cbn in *. by rewrite (list_insert_id l) by done.
  - by apply list_insert_id.
  - done.
Qed.


Lemma reread_io (s : kernel D) p i t : reread s p i t -> set_k_out (k_out s) (set_k_mem (k_mem s) t) = t.
Proof. unfold reread. destruct (i_links i =? 0); [intros (d & -> & _)|intros ->]; by destruct s. Qed.

Variables (s : kernel D) (L : list Z) (c : Z) (x : pcb_t) (n g p : nat) (i : inode_t) (r : Z) (ic : icommon_t).
Local Abbreviation at_pos v m out := (session c x n g p i v m out s).
Hypothesis Hog : opening s L c x n g p i r ic.

Lemma session_start : open_state c x n g p i s = at_pos 0 (k_mem s) (k_out s).
Proof. apply kernel_eq; try reflexivity. cbn. by rewrite list_insert_insert_eq. Qed.

Lemma session_move v v' m out :
  put_oft (Z.of_nat g) (mk_ofile (Some (Z.of_nat p)) v') (at_pos v m out) = at_pos v' m out.
Proof. apply kernel_eq; try reflexivity. cbn. by rewrite list_insert_insert_eq. Qed.

Lemma session_inode : i_number i = r /\ i_ic i = ic /\ exists j, k_ai s !! p = Some j.
Proof.
  pose proof Hog as [Ht Hrun Hn Hg Hs Hr Hgr Hic Hu Hf].
  destruct (grab_ok s r p i Ht (fr_ok _ _ Hs) (fr_geo _ _ Hs) Hr Hgr) as (En & Eic & _ & Hw & j & Hj & _).
  split_and!; [done|congruence|by exists j].
Qed.

Lemma session_opened v m out :
  opened (at_pos v m out) (Z.of_nat n) (Z.of_nat g) (mk_ofile (Some (Z.of_nat p)) v) (Z.of_nat p) (link i).
Proof.
  destruct session_inode as (_ & _ & j & Hj).
  apply (opened_ext (put_oft (Z.of_nat g) (mk_ofile (Some (Z.of_nat p)) v) (open_state c x n g p i s))); [done..|].
  eapply opened_put_oft; [|done]. apply (opened_open s c x n g p i j); [by destruct Hog..|done].
Qed.

Lemma session_oft v m out : k_oft (at_pos v m out) !! g = Some (mk_ofile (Some (Z.of_nat p)) v).
Proof. destruct (session_opened v m out) as [_ [_ Ho] _ _]. by rewrite Nat2Z.id in Ho. Qed.

Lemma session_ai v m out : k_ai (at_pos v m out) !! p = Some (link i).
Proof. destruct (session_opened v m out) as [_ _ _ [_ Ha]]. by rewrite Nat2Z.id in Ha. Qed.

Lemma session_tables v m out : tables_ok (at_pos v m out).
Proof.
  pose proof Hog as [Ht Hrun Hn Hg Hs Hr Hgr Hic Hu Hf].
  rewrite <-Hic in Hu.
  pose proof (tables_ok_open s c x n g p i r Ht (fr_ok _ _ Hs) (fr_geo _ _ Hs) Hr Hg Hgr Hu) as Ho.
  pose proof (session_oft 0 (k_mem s) (k_out s)) as Hoft. rewrite <-session_start in Hoft.
  pose proof (tables_ok_head _ g _ _ v Ho Hoft eq_refl) as []. by split.
Qed.

Lemma session_fs v m out : fs_rep (at_pos v m out) L.
Proof. apply (fs_rep_ext s); [done|done|]. by destruct Hog. Qed.

Lemma session_file v m out : file_wf (at_pos v m out) (link i) L.
Proof.
  destruct session_inode as (En & Ei & _). split; [apply session_fs| |].
  - apply (file_rep_ext s); [done|done|]. cbn [link i_ic set_links]. rewrite Ei. by destruct Hog.
  - cbn. rewrite En. by destruct Hog.
Qed.

Lemma session_cur v m out k : current_ic (at_pos v m out) k = current_ic s k.
Proof.
  pose proof Hog as [Ht Hrun Hn Hg Hs Hr Hgr Hic Hu Hf].
  rewrite <-Hic in Hu. by apply (current_ic_open s c x n g p i r k Ht (fr_ok _ _ Hs) (fr_geo _ _ Hs)).
Qed.

Lemma session_running v m out :
  running (at_pos v m out) c (set_fd (<[n := Some (Z.of_nat g)]> (fd x)) x) /\ (n < 16)%nat /\ fd x !! n = Some None.
Proof.
  pose proof Hog as [_ [Hc Hc0 Hx Hfd] Hn _ _ _ _ _ _ _]. apply free_fd_some in Hn.
  pose proof (lookup_lt_Some _ _ _ Hn) as Hnl. rewrite Hfd in Hnl. pose proof (lookup_lt_Some _ _ _ Hx).
  split; [|done]. split; [done|done| |cbn; by rewrite length_insert].
  cbn. rewrite Nat2Z.id. by apply list_lookup_insert_eq.
Qed.

(** ** What a program does with the file *)

Lemma wp_session_read v m out len (Q : Z * list Z -> kernel D -> Prop) :
  0 <= v -> 0 <= len -> v + len <= ic_size ic ->
  Q (0, fbytes (k_disk s) ic v len) (at_pos (v + len) m out) -> wp (fread (Z.of_nat n) len) Q (at_pos v m out).
Proof.
  intros Hv Hlen Hmax HQ. destruct session_inode as (_ & Ei & _).
  apply (wp_fread _ _ _ _ _ _ L len _ (session_opened v m out) (session_file v m out));
    [done|done|cbn; by rewrite Ei|]. cbn [link i_ic set_links o_head]. rewrite Ei.
  change (put_oft _ _ _) with (put_oft (Z.of_nat g) (mk_ofile (Some (Z.of_nat p)) (v + len)) (at_pos v m out)).
  by rewrite session_move.
Qed.

Lemma wp_session_seek v m out offset whence w (Q : Z -> kernel D -> Prop) :
  whence_of whence = Some w ->
  (let v' := seek_to v (ic_size ic) offset w in Q (s32 v') (at_pos v' m out)) ->
  wp (lseek (Z.of_nat n) offset whence) Q (at_pos v m out).
Proof.
  intros Hw HQ. destruct session_inode as (_ & Ei & _).
  apply (wp_lseek _ _ _ _ _ _ _ _ w _ (session_opened v m out) Hw). cbn [link i_ic set_links o_head].
  rewrite Ei. set (v' := seek_to _ _ _ _) in *.
  change (put_oft _ _ _) with (put_oft (Z.of_nat g) (mk_ofile (Some (Z.of_nat p)) v') (at_pos v m out)).
  by rewrite session_move.
Qed.

Lemma wp_session_tell v m out (Q : Z -> kernel D -> Prop) :
  Q (s32 v) (at_pos v m out) -> wp (tell (Z.of_nat n)) Q (at_pos v m out).
Proof.
  intros HQ. pose proof (session_opened v m out) as Hop. unfold tell. wp_step.
  eapply wp_fd_file; [done|]. wp_steps. eapply (wp_at Oft); [apply Hop|apply Hop|]. by wp_steps.
Qed.

Lemma wp_session_close v m out (Q : Z -> kernel D -> Prop) :
  (forall t, reread s p i t -> tables_ok t -> fs_rep t L ->
     (forall k, is_ino (k_fs s) k -> current_ic t k = current_ic s k) ->
     Q 0 (set_k_out out (set_k_mem m t))) ->
  wp (close (Z.of_nat n)) Q (at_pos v m out).
Proof.
  intros HQ. destruct (session_running v m out) as (Hrun & Hn & He).
  pose proof (session_tables v m out) as Ht. pose proof (session_fs v m out) as Hs.
  pose proof (session_oft v m out) as Ho. pose proof (session_ai v m out) as Ha.
  apply (wp_close _ L c _ n g p (mk_ofile (Some (Z.of_nat p)) v) (link i) _ Ht Hs Hrun); [done| |done|done|done|].
  { cbn. apply list_lookup_insert_eq. by apply (lookup_lt_Some _ _ _ He). }
  intros d Hd. set (x' := set_fd _ x) in *.
  pose proof (tables_ok_close _ c x' n g p _ (link i) d Ht Ho eq_refl Ha) as Ht'.
  pose proof (close_state_fs _ c x' n g p _ (link i) d L Ht Hs Ho eq_refl Ha Hd) as Hs'.
  assert (Hcur : forall k, is_ino (k_fs s) k ->
    current_ic (close_state c x' n g p (link i) d (at_pos v m out)) k = current_ic s k).
  { intros k Hk. rewrite (current_ic_close _ L c x' n g p _ (link i) d k Ht Hs Ho eq_refl Ha Hd Hk). apply session_cur. }
  assert (Hx : k_pcb s !! Z.to_nat c = Some x) by (pose proof Hog as [_ [] _ _ _ _ _ _ _ _]; done).
  assert (Hfree : k_oft s !! g = Some (mk_ofile None 0)).
  { pose proof Hog as [Htab _ _ Hg _ _ _ _ _ _]. apply free_oft_some in Hg as ([h v0] & Hh & Hno).
    pose proof (to_head s Htab g _ Hh Hno) as Hv0. cbn in Hno, Hv0. by subst. }
  set (u := put_ai (Z.of_nat p) (if i_links i =? 0 then set_mode (mode_val IFZERO) i else i) (set_k_disk d s)).
  assert (Hfin : close_state c x' n g p (link i) d (at_pos v m out) = set_k_out out (set_k_mem m u)).
  { pose proof (closed_again s c x n g p i d (mk_ofile None 0) (mk_ofile (Some (Z.of_nat p)) v) Hx He Hfree) as E.
    subst u. rewrite <-E. apply kernel_eq; try reflexivity. cbn. by rewrite !list_insert_insert_eq. }
  rewrite Hfin in *. apply HQ.
  - unfold reread, u. cbn [link i_links set_links] in Hd.
    replace (i_links i + 1 =? 1) with (i_links i =? 0) in Hd by lia.
    destruct (i_links i =? 0); [by exists d|]. subst d. by rewrite (set_k_disk_id s : set_k_disk (k_disk (at_pos v m out)) s = s).
  - destruct Ht'. by split.
  - by apply (fs_rep_ext (set_k_out out (set_k_mem m u))).
  - exact Hcur.
Qed.
End Session.

Section OpenSession.
Context {D : Type} `{BlockDeviceLaws D}.
Implicit Types (s t : kernel D) (L : list Z).

(** The file a path leads to is opened. *)
Lemma wp_open_session s L c x n g path v ws r ino0 tok0 left (Q : Z * list Z -> kernel D -> Prop) :
  tables_ok s -> running s c x -> free_fd x = Some n -> free_oft (k_oft s) = Some g ->
  path_of path (v :: ws) -> resolves s L ROOT_DIR v ws r ino0 tok0 left ->
  0 <= r -> is_ino (k_fs s) r -> ic_mode (current_ic s r) <> mode_val IFZERO ->
  file_rep s (current_ic s r) (nblocks (ic_size (current_ic s r))) L ->
  (forall path' p i, opening s L c x n g p i r (current_ic s r) ->
     Q (Z.of_nat n, path') (open_state c x n g p i s)) ->
  wp (open path (oflag_val O_EXIST)) Q s.
Proof.
  intros Ht Hrun Hn Hg Hp Hres Hr0 Hr Hu Hf HQ. pose proof (resolves_fs _ _ _ _ _ _ _ _ _ Hres) as Hs.
  apply (wp_open_exist s L c x n path v ws r ino0 tok0 left); [done..|].
  intros path'. destruct (Z.ltb_spec r 0) as [|_]; [lia|].
  apply (wp_open_tail s c x n path' r); [done|apply Hs..|done|done|done|].
  destruct (grab_some s r g Ht Hg) as (p & i & Egr). rewrite Egr, Hg. by apply HQ.
Qed.
End OpenSession.
