(* ===== verification/Exec.v ===== *)
(** * Running programs

    [getProgramEntry] and [exec]: a program file is opened, its entry point and its
    priority are read, and it is closed again. *)

From S2P Require Import Prelude CMonad Layout BlockDev Kernel FsOps FreeList InodeProof BlockMap FileRep FileGrow Dir Posix FileIO DirProof PathProof OpenProof Session.

(** ** Paths of one component *)

Section Single.
Context {D : Type} `{BlockDeviceLaws D}.
Implicit Types (s t : kernel D) (L : list Z) (w : list Z).

Lemma strtok_single w :
  is_comp w -> strtok (c_str w) 0 = Done (Some (c_str w), length w, c_str w) /\
               strtok (c_str w) (length w) = Done (None, length w, c_str w).
Proof.
  intros Hw. pose proof (comp_plain w Hw) as Hpl. destruct Hw as (Hne & (_ & Hz & _) & Hsl).
  unfold strtok, c_str. split.
  - destruct w as [|a w]; [done|]. assert (Ha : a <> SLASH /\ a <> 0).
    { split; [intros ->; apply Hsl; by left|]. by apply Forall_inv in Hz. }
    rewrite drop_0. cbn [app count_while]. destruct (Z.eqb_spec SLASH a); [by destruct Ha|].
    cbn [Nat.add lookup list_lookup]. destruct (Z.eqb_spec a 0); [by destruct Ha|].
    change (a :: w ++ [0]) with ((a :: w) ++ [0]).
    rewrite drop_0, count_while_app; [|done|by intros c [= <-]]. rewrite take_app_length.
    rewrite lookup_app_r by lia. by rewrite Nat.sub_diag.
  - rewrite drop_app_length. cbn [count_while Z.eqb SLASH]. rewrite Nat.add_0_r.
    rewrite lookup_app_r by lia. by rewrite Nat.sub_diag.
Qed.

(** A walk along one component leaves the path as it is. *)
Lemma wp_path_single s L dir w (Q : Z * list Z -> kernel D -> Prop) :
  is_dir s L dir -> is_comp w -> Q (dir_find s dir w, c_str w) s ->
  wp (path_to_ino (c_str w) dir) Q s.
Proof.
  intros Hd Hw HQ. destruct (strtok_single w Hw) as [E1 E2]. unfold path_to_ino, walk_path. wp_steps.
  apply (wp_lift _ _ _ _ E1). cbn [default]. destruct (c_str w) as [|a l] eqn:Ew; [by destruct w|].
  rewrite <-Ew in *. change (length (a :: l)) with (S (length l)).
  replace (length (c_str w)) with (S (length l)) by by rewrite Ew.
  cbn [walk w_tok w_ino w_inode id].
  assert (Hdir : dir <> -1) by (pose proof (dr_ino _ _ _ _ Hd) as [Hge _]; cbn in Hge; lia).
  destruct (Z.eqb_spec dir (-1)); [done|]. wp_step. apply wp_readInode; [apply Hd..|]. wp_step.
  change (mk_inode dir (i_links zero_inode) _) with (inode_of s dir (i_links zero_inode)).
  apply (wp_dir_find s L dir); [done|apply Hw|]. wp_step. apply (wp_lift _ _ _ _ E2).
  destruct (length l); cbn [walk w_tok]; by wp_steps.
Qed.

Lemma resolves_single s L dir w :
  is_dir s L dir -> resolves s L dir w [] (dir_find s dir w) dir w [].
Proof. intros Hd. by split. Qed.

Lemma path_of_single w : is_comp w -> path_of (c_str w) [w].
Proof.
  intros Hw. apply (path_comp 0 w [0] []); [done|apply (path_end 0 [])|by right].
Qed.
End Single.

(** ** The program file *)

(** [/w] is a file of at least eight bytes, inode [r], whose contents the kernel sees
    through [ic]. *)
Record program_file {D} `{BlockDevice D} (s : kernel D) (L : list Z) (w : list Z) (r : Z)
    (ic : icommon_t) : Prop := {
  pf_root : is_dir s L ROOT_DIR;
  pf_name : is_comp w;
  pf_find : dir_find s ROOT_DIR w = r;
  pf_ino : 0 <= r /\ is_ino (k_fs s) r;
  pf_ic : current_ic s r = ic;
  pf_used : ic_mode ic <> mode_val IFZERO;
  pf_file : file_rep s ic (nblocks (ic_size ic)) L;
  pf_size : 8 <= ic_size ic;
}.

Definition entry_of {D} `{BlockDevice D} (d : D) (ic : icommon_t) : Z := le_val (fbytes d ic 0 4).
Definition priority_of {D} `{BlockDevice D} (d : D) (ic : icommon_t) : Z := le_val (fbytes d ic 4 4).

Section Program.
Context {D : Type} `{BlockDeviceLaws D}.
Implicit Types (s t : kernel D) (L : list Z) (w : list Z).

(** Two reads of four bytes from a file that was just opened, and the close. *)
Lemma wp_read_entry s L c x n g p i r ic entry priority path (Q : Z * list Z * Z * Z -> kernel D -> Prop) :
  opening s L c x n g p i r ic -> 8 <= ic_size ic ->
  (forall t, reread s p i t -> tables_ok t -> fs_rep t L ->
     (forall m, is_ino (k_fs s) m -> current_ic t m = current_ic s m) ->
     Q (0, path, entry_of (k_disk s) ic, priority_of (k_disk s) ic) t) ->
  wp ('(r, e) ← fread (Z.of_nat n) 4;
      '(r', q) ← fread (Z.of_nat n) 4;
      _ ← close (Z.of_nat n);
      mret (0, path, (if r =? 0 then le_val e else entry), (if r' =? 0 then le_val q else priority)))
    Q (open_state c x n g p i s).
Proof.
  intros Ho Hsz HQ. rewrite session_start.
  wp_step. apply (wp_session_read s L c x n g p i r ic Ho); [lia..|]. wp_steps.
  apply (wp_session_read s L c x n g p i r ic Ho); [lia..|]. wp_steps.
  apply (wp_session_close s L c x n g p i r ic Ho). intros t Hre Ht Hs Hcur. wp_steps.
  rewrite (reread_io s p i t Hre). by apply HQ.
Qed.
End Program.

(** ** Starting a program *)

(** The context a program starts with. *)
Definition start_ctx (im : image) (x : pcb_t) (entry : Z) : ctx_t :=
  mk_ctx 0x50 entry (replicate 13 0) (u32 (tos_init im - pid x * 0x00010000)) 0.

(** The process that runs it: as after [memset], but for its number. *)
Definition started (im : image) (x : pcb_t) (entry priority : Z) : pcb_t :=
  mk_pcb (pid x) 0 (start_ctx im x entry) EXECUTING priority priority (replicate 16 None).

Section Start.
Context {D : Type} `{BlockDeviceLaws D}.
Implicit Types (s t : kernel D) (L : list Z) (w : list Z).

Lemma reread_same s p i t :
  reread s p i t -> k_pcb t = k_pcb s /\ k_oft t = k_oft s /\ k_current t = k_current s /\ k_fs t = k_fs s.
Proof. unfold reread. destruct (i_links i =? 0); [intros (d & -> & _)|intros ->]; done. Qed.

Lemma wp_getProgramEntry s L c x n g w r ic entry0 priority0
    (Q : Z * list Z * Z * Z -> kernel D -> Prop) :
  tables_ok s -> running s c x -> free_fd x = Some n -> free_oft (k_oft s) = Some g ->
  program_file s L w r ic ->
  (forall t p i path', grab s r = Some (p, i) -> reread s p i t -> tables_ok t -> fs_rep t L ->
     (forall m, is_ino (k_fs s) m -> current_ic t m = current_ic s m) ->
     Q (0, path', entry_of (k_disk s) ic, priority_of (k_disk s) ic) t) ->
  wp (getProgramEntry (c_str w) entry0 priority0) Q s.
Proof.
  intros Ht Hrun Hn Hg [Hroot Hw Hfind [Hr0 Hr] Hic Hu Hfile Hsz] HQ.
  pose proof (dr_fs _ _ _ _ Hroot) as Hs. unfold getProgramEntry. wp_step.
  apply (wp_path_single s L); [done..|]. wp_steps. rewrite Hfind.
  destruct (Z.eqb_spec r (-1)) as [|_]; [lia|]. cbn [negb]. wp_step.
  rewrite <-Hic in *. apply (wp_open_session s L c x n g (c_str w) w [] r ROOT_DIR w []); try done.
  { by apply path_of_single. }
  intros path' p i Ho. cbv beta iota. destruct (Z.eqb_spec (Z.of_nat n) (-1)) as [|_]; [lia|]. cbn [negb].
  apply (wp_read_entry s L c x n g p i r (current_ic s r)); [done|done|].
  intros t Ht' Htt Hst Hcur. apply (HQ t p i); [by destruct Ho|done..].
Qed.

(** Both parts of [exec]. *)
Lemma wp_exec im entry0 priority0 ctx0 s L c x n g w r ic (Q : Z * ctx_t * list Z -> kernel D -> Prop) :
  tables_ok s -> running s c x -> free_fd x = Some n -> free_oft (k_oft s) = Some g ->
  program_file s L w r ic ->
  (forall u p i path', grab s r = Some (p, i) -> reread s p i u -> tables_ok u -> fs_rep u L ->
     (forall m, is_ino (k_fs s) m -> current_ic u m = current_ic s m) ->
     Q (0, start_ctx im x (entry_of (k_disk s) ic), path')
       (set_k_pcb (<[Z.to_nat c := started im x (entry_of (k_disk s) ic) (priority_of (k_disk s) ic)]> (k_pcb s)) u)) ->
  wp (exec im entry0 priority0 ctx0 (c_str w)) Q s.
Proof.
  intros Ht Hrun Hn Hg Hpf HQ. unfold exec. wp_step. apply (wp_getProgramEntry s L c x n g w r ic); [done..|].
  intros u p i path' Hgr Hre Hut Hus Hcur. change (0 =? -1) with false. wp_steps.
  destruct (reread_same s p i u Hre) as (Ep & Eo & Ec & _). destruct Hrun as [Hc Hc0 Hx Hfd].
  apply (wp_cur u c x); [congruence|done|congruence|]. wp_steps.
  apply (wp_upd_cur u c x); [congruence|done|congruence|]. wp_steps. rewrite Ep.
  by apply (HQ u p i path').
Qed.

Lemma exec_none im entry0 priority0 ctx0 s L w :
  is_dir s L ROOT_DIR -> is_comp w -> dir_find s ROOT_DIR w = -1 ->
  exec im entry0 priority0 ctx0 (c_str w) s = Done ((-1, ctx0, c_str w), s).
Proof.
  intros Hroot Hw Hnone. apply wp_run. unfold exec, getProgramEntry. wp_steps.
  apply (wp_path_single s L); [done..|]. rewrite Hnone. by wp_steps.
Qed.

(** C20: [exec].  A file of the root directory is run: its inode is opened, entry point
    and priority are its first two words, and it is closed again; the process then is
    one at the entry point, in user mode, with its own stack, cleared registers and no
    open file, at that priority and its default.  Nothing else of the kernel changes: the
    state is the one before but for that process and for what opening and closing the file
    leaves ([reread]) - when it was open, nothing; otherwise a free entry of the inode table
    that holds its inode, and that inode written to the disk as it was.  In particular
    the open-file entries the process had remain taken.  When there is no such file the
    call answers -1 and nothing changes at all. *)
Theorem exec_correct im entry0 priority0 ctx0 s L c x w :
  tables_ok s -> fds_ok s -> running s c x -> is_dir s L ROOT_DIR -> is_comp w ->
  (dir_find s ROOT_DIR w = -1 ->
     exec im entry0 priority0 ctx0 (c_str w) s = Done ((-1, ctx0, c_str w), s)) /\
  (forall n g r ic, free_fd x = Some n -> free_oft (k_oft s) = Some g -> program_file s L w r ic ->
     let entry := entry_of (k_disk s) ic in
     let priority := priority_of (k_disk s) ic in
     exists t path' p i u,
       exec im entry0 priority0 ctx0 (c_str w) s = Done ((0, start_ctx im x entry, path'), t) /\
       grab s r = Some (p, i) /\ reread s p i u /\
       t = set_k_pcb (<[Z.to_nat c := started im x entry priority]> (k_pcb s)) u /\
       k_pcb t = <[Z.to_nat c := started im x entry priority]> (k_pcb s) /\
       k_oft t = k_oft s /\ tables_ok t /\ fds_ok t /\ fs_rep t L /\
       (forall m, is_ino (k_fs s) m -> current_ic t m = current_ic s m)).
Proof.
  intros Ht Hfo Hrun Hroot Hw. split.
  - by apply (exec_none im entry0 priority0 ctx0 s L).
  - intros n g r ic Hn Hg Hpf entry priority.
    assert (Hwp : wp (exec im entry0 priority0 ctx0 (c_str w)) (fun y t =>
      y.1 = (0, start_ctx im x entry) /\
      exists u p i, t = set_k_pcb (<[Z.to_nat c := started im x entry priority]> (k_pcb s)) u /\
        grab s r = Some (p, i) /\ reread s p i u /\ tables_ok u /\ fs_rep u L /\
        (forall m, is_ino (k_fs s) m -> current_ic u m = current_ic s m)) s).
    { apply (wp_exec im entry0 priority0 ctx0 s L c x n g w r ic); [done..|].
      intros u p i path' Hgr Hre Hut Hus Hcur. split; [done|]. by exists u, p, i. }
    apply wp_done in Hwp as ([[r' c'] path'] & t & Hrn & Hy & u & p & i & -> & Hgr & Hre & Hut & Hus & Hcur).
    cbn in Hy. injection Hy as -> ->. eexists _, path', p, i, u. split; [exact Hrn|]. split; [done|]. split; [done|]. split; [done|].
    destruct (reread_same s p i u Hre) as (Ep & Eo & Ec & _).
    split_and!; [done|exact Eo| | |by apply (fs_rep_ext u)|exact Hcur].
    + destruct Hut. split; done.
    + destruct Hfo as [Hlen Hsome Hinj].
      assert (Hold : forall c' x' n' v,
        <[Z.to_nat c := started im x entry priority]> (k_pcb s) !! c' = Some x' ->
        fd x' !! n' = Some (Some v) -> k_pcb s !! c' = Some x').
      { intros c' x' n' v [(<- & <- & _)|[_ Hx']]%list_lookup_insert_Some Hv; [|done].
        change (replicate 16 None !! n' = Some (Some v)) in Hv. by apply lookup_replicate in Hv as [Hv _]. }
      split; cbn [k_pcb set_k_pcb k_oft].
      * intros c' x' [(<- & <- & _)|[_ Hx']]%list_lookup_insert_Some; [done|by apply (Hlen c')].
      * intros c' x' n' v Hx' Hv. rewrite Eo. apply (Hsome c' x' n'); [by apply (Hold c' x' n' v)|done].
      * intros c1 c2 x1 x2 n1 n2 v H1 H2 Hv1 Hv2.
        apply (Hinj c1 c2 x1 x2 n1 n2 v); [by apply (Hold c1 x1 n1 v)|by apply (Hold c2 x2 n2 v)|done|done].
Qed.
End Start.

(** ** Witness: the demo file as a program *)

Definition demo_image : image := mk_image 0x100000 0 0 0 0 0 0 0 0 0.

Lemma demo_root_dir : is_dir demo_open [21; 20] ROOT_DIR.
Proof. by destruct (file_resolves demo_open eq_refl eq_refl). Qed.

Lemma demo_program : program_file demo_open [21; 20] [102] 1 (demo_ic 3 510 10).
Proof.
  destruct (file_resolves demo_open eq_refl eq_refl) as (Hd & Hf & _).
  split; [exact Hd| |exact (eq_sym Hf)|by split; [|split]|reflexivity|by vm_compute|apply demo_file_wf|by vm_compute].
  split; [done|]. split; [by apply (bool_decide_unpack _)|]. by intros Hin%list_elem_of_singleton.
Qed.

Lemma exec_correct_witness :
  exists t path', exec demo_image 0 0 zero_ctx (c_str [102]) demo_open =
      Done ((0, mk_ctx 0x50 0x07070707 (replicate 13 0) 0x100000 0, path'), t) /\
    tables_ok t /\ fds_ok t.
Proof.
  destruct (exec_correct demo_image 0 0 zero_ctx demo_open [21; 20] 0 _ [102] demo_tables demo_fds
    demo_running demo_root_dir) as [_ Hex].
  - apply demo_program.
  - destruct (Hex 1%nat 1%nat 1 _ eq_refl eq_refl demo_program) as (t & path' & p & i & u & Hr & _ & _ & _ & _ & _ & Ht & Hfo & _).
    exists t, path'. split; [|split; [exact Ht|exact Hfo]]. rewrite Hr.
    replace (entry_of (k_disk demo_open) (demo_ic 3 510 10)) with 0x07070707 by (vm_compute; reflexivity).
    reflexivity.
Defined.
