(* ===== verification/Format.v ===== *)
(** * Formatting

    [wipe] establishes what the file system is verified under: the free list, an empty
    inode table, and a root directory.  A reset finds it again on the disk. *)

From S2P Require Import Prelude CMonad Layout BlockDev Kernel FsOps FreeList InodeProof BlockMap FileRep DirProof PathProof Posix Exec.

(** ** The free list [wipe] makes

    Link block [66 + i] stands for itself and the 63 blocks of its words; the superblock
    has 61 blocks of its own and begins the chain. *)

Definition link_blocks (i : Z) : list Z := (i + 66) :: rev ((fun j => 63 * i + j + 96) <$> seqZ 0 63).

Definition links_from (n : nat) : list Z := mjoin (link_blocks <$> seqZ (30 - Z.of_nat n) (Z.of_nat n)).

Definition own_blocks : list Z := (fun i => i + 1986) <$> seqZ 1 61.

Definition all_free : list Z := rev own_blocks ++ links_from 30.

(** The list after the root directory has its block, and that block. *)
Definition root_block : Z := 2047.
Definition left_free : list Z := tail all_free.

Lemma all_free_cons : all_free = root_block :: left_free.
Proof. vm_compute. reflexivity. Qed.

Lemma all_free_nodup : NoDup all_free.
Proof. apply (bool_decide_unpack _). vm_compute. exact I. Qed.

Lemma left_free_root : (root_block ∉ left_free) /\ NoDup left_free.
Proof.
  pose proof all_free_nodup as Hn. rewrite all_free_cons in *. apply list.NoDup_cons in Hn as [Hr Hn]. by split.
Qed.

Lemma all_free_range : Forall (fun b => 66 <= b < 2048) all_free.
Proof. apply (bool_decide_unpack _). vm_compute. exact I. Qed.

(** Every data block of the volume but one is on the list. *)
Lemma all_free_blocks b : 66 <= b < 2048 -> (b ∈ all_free <-> b <> 1986).
Proof.
  intros Hb. assert (Forall (fun b => b ∈ all_free <-> b <> 1986) (seqZ 66 1982)) as E
    by (apply (bool_decide_unpack _); vm_compute; exact I).
  rewrite list.Forall_forall in E. apply E, elem_of_seqZ. lia.
Qed.

(** ** The chain on the disk *)

Section Chain.
Context {D : Type} `{BlockDeviceLaws D}.
Implicit Types (s t : kernel D) (d : D).

(** The links before [n] are on the disk. *)
Definition linked (d : D) (n : Z) : Prop :=
  forall i, 0 <= i < n -> take 64 (dec_words 128 (dev_blk d (i + 66))) = wipe_link i.

Lemma wipe_link_words i : 0 <= i < 30 -> length (wipe_link i) = 64%nat /\ Forall is_u32 (wipe_link i).
Proof.
  intros Hi. unfold wipe_link. split; [by rewrite length_cons, length_fmap, length_seqZ|].
  constructor; [case_match; unfold is_u32; lia|]. apply Forall_fmap, list.Forall_forall.
  intros j Hj%elem_of_seqZ. cbn. unfold is_u32. lia.
Qed.

Lemma links_chain d n :
  linked d 30 -> (n <= 30)%nat ->
  chain d (if (n =? 0)%nat then 1 else 30 - Z.of_nat n + 66) (links_from n).
Proof.
  intros Hd. induction n as [|n IH]; intros Hn; [constructor|]. cbn [Nat.eqb].
  set (i := 30 - Z.of_nat (S n)). unfold links_from. fold i.
  rewrite seqZ_cons by lia. cbn [fmap list_fmap mjoin list_join].
  replace (Z.succ i) with (30 - Z.of_nat n) by lia. replace (Z.pred (Z.of_nat (S n))) with (Z.of_nat n) by lia.
  unfold link_blocks at 1. cbn [app]. eapply chain_link; [lia|rewrite Hd by lia; reflexivity|].
  replace (if i =? 29 then 1 else i + 1 + 66) with (if (n =? 0)%nat then 1 else 30 - Z.of_nat n + 66).
  - apply IH. lia.
  - destruct (Nat.eqb_spec n 0), (Z.eqb_spec i 29); lia.
Qed.

Lemma wp_wipe_links s (Q : unit -> kernel D -> Prop) :
  dev_ok (k_disk s) -> 2048 <= dev_num D ->
  (forall d, dev_ok d -> linked d 30 -> Q tt (set_k_disk d s)) ->
  wp (for_do 30 0 (fun i => disk_wr (i + 66) (enc_words (wipe_link i)))) Q s.
Proof.
  intros Hok Hnum HQ.
  apply (wp_for_do (fun i t => exists d, t = set_k_disk d s /\ dev_ok d /\ linked d i)).
  - exists (k_disk s). split_and!; [by destruct s|done|]. intros i Hi. lia.
  - intros i t Hi (d & -> & Hd & Hl). destruct (wipe_link_words i) as [Hlen Hu]; [lia|].
    apply wp_disk_wr; [done|unfold valid_addr; lia|rewrite length_enc_words, Hlen; lia|apply enc_words_bytes|].
    intros d' Hd' Hblk. exists d'. split_and!; [done|done|]. intros j Hj. cbn [k_disk set_k_disk] in Hblk.
    rewrite Hblk by (unfold valid_addr; lia). case_decide as E.
    + replace j with i by lia. by apply dec_words_overlay; [..|lia|].
    + apply Hl. lia.
  - intros t (d & -> & Hd & Hl). by apply HQ.
Qed.

Lemma wipe_fs_wf f : lwf f -> lwf (wipe_fs f).
Proof.
  intros Hf. destruct (lwf_fdb _ Hf) as [Hl Hu]. cbn in Hf. split_and!; try tauto; try (unfold is_u32; cbn [wipe_fs fs_sblkno fs_size fs_iblkno fs_isize fs_dblkno fs_dsize fs_fdbhead]; lia).
  - cbn [wipe_fs fs_fdb]. by rewrite length_cons, length_app, length_fmap, length_seqZ, length_drop, Hl.
  - cbn [wipe_fs fs_fdb]. constructor; [by unfold is_u32|]. apply Forall_app. split; [|by apply Forall_drop].
    apply Forall_fmap, list.Forall_forall. intros i Hi%elem_of_seqZ. cbn. unfold is_u32. lia.
Qed.

Lemma wipe_fs_geometry f : 2048 <= dev_num D -> geometry D (wipe_fs f).
Proof. intros Hnum. split; try by vm_compute. change (66 <= dev_num D). lia. Qed.

(** The superblock, the chain and the superblock on the disk. *)
Lemma wp_wipe_free s (Q : unit -> kernel D -> Prop) :
  dev_ok (k_disk s) -> lwf (k_fs s) -> 2048 <= dev_num D ->
  (forall d, let t := set_k_disk d (set_k_fs (wipe_fs (k_fs s)) s) in fs_rep t all_free -> Q tt t) ->
  wp (set_fs wipe_fs ;; for_do 30 0 (fun i => disk_wr (i + 66) (enc_words (wipe_link i))) ;; write_sb) Q s.
Proof.
  intros Hok Hf Hnum HQ. pose proof (wipe_fs_wf _ Hf) as Hf'.
  wp_steps. apply wp_set_fs. wp_steps. apply wp_wipe_links; [done|done|]. intros d Hd Hl.
  apply wp_write_sb; [done|by apply wipe_fs_geometry|done|]. intros d' Hd'. apply HQ.
  apply (fs_rep_written s d); [done|by apply wipe_fs_geometry|done| |apply all_free_nodup| |done|done].
  - exists 66, (own_blocks ++ drop 62 (fs_fdb (k_fs s))), (links_from 30). split_and!; [done| |done].
    by apply (links_chain d 30).
  - eapply list.Forall_impl; [apply all_free_range|]. intros b Hb. cbn in Hb. change (66 <= b < dev_num D). lia.
Qed.
End Chain.

(** ** The inode table *)

Section Table.
Context {D : Type} `{BlockDeviceLaws D}.
Implicit Types (s t : kernel D) (d : D) (f : fs_t) (L : list Z) (ics : list icommon_t).

Definition blanked (ic : icommon_t) : icommon_t := set_ic (mode_val IFZERO) 0 ic.

Definition root_inode (ic : icommon_t) : icommon_t :=
  set_ic_db (<[0%nat := root_block]> (ic_db ic)) (set_ic (mode_val IFDIR) 32 ic).

(** What the loop makes of block [i]. *)
Definition wiped_block (i : Z) ics : list icommon_t :=
  match ics with
  | ic :: ics' => (if i =? 0 then root_inode ic else blanked ic) :: (blanked <$> ics')
  | [] => []
  end.

Lemma blanked_wf ic : lwf ic -> lwf (blanked ic).
Proof. cbn. unfold is_u32. intuition lia. Qed.

Lemma root_inode_wf ic : lwf ic -> lwf (root_inode ic).
Proof.
  cbn. rewrite length_insert. intros (_ & _ & Hl & Hl' & Hu & Hu').
  split_and!; try done. by apply Forall_insert.
Qed.

Lemma wiped_block_wf i ics :
  Forall lwf ics -> length (wiped_block i ics) = length ics /\ Forall lwf (wiped_block i ics).
Proof.
  intros Hw. destruct Hw as [|ic ics Hic Hw]; [done|]. cbn [wiped_block]. split.
  - by rewrite !length_cons, length_fmap.
  - constructor; [destruct (i =? 0); [by apply root_inode_wf|by apply blanked_wf]|].
    apply Forall_fmap. eapply list.Forall_impl; [exact Hw|]. apply blanked_wf.
Qed.

Lemma wp_wipe_blank junk i j ics (Q : list icommon_t -> kernel D -> Prop) s :
  i <> 0 \/ 0 < j -> 0 <= j -> Q (blanked <$> ics) s -> wp (wipe_inodes junk i j ics) Q s.
Proof.
  revert j Q. induction ics as [|ic ics IH]; intros j Q Hij Hj HQ; cbn [wipe_inodes]; [by apply wp_ret|].
  unfold wipe_inode, ROOT_DIR. destruct (Z.eqb_spec i 0), (Z.eqb_spec j 0); cbn [andb]; try lia;
    wp_steps; (apply IH; [lia|lia|]); by wp_steps.
Qed.

(** The disk with a block of the table replaced. *)
Lemma inode_at_block f d d' i ics n :
  geometry D f -> is_ino f n -> length ics = 8%nat -> Forall lwf ics ->
  disk_put (fs_iblkno f + i) (enc_arr ics) d d' ->
  inode_at f d' n = if n / 8 =? i then default zero_ic (ics !! Z.to_nat (n mod 8)) else inode_at f d n.
Proof.
  intros Hg Hn Hl Hw [_ Hblk]. pose proof (inode_blk_valid f n Hg Hn) as Hv.
  unfold inode_at. rewrite Hblk by done. unfold inode_blk.
  destruct (Z.eqb_spec (n / 8) i); [rewrite decide_True by lia|by rewrite decide_False by lia].
  rewrite <-Hl at 1. by rewrite dec_enc_arr.
Qed.

Lemma table_ino f n : fs_isize f = 512 -> is_ino f n <-> 0 <= n < 512.
Proof.
  intros Hf. unfold is_ino. rewrite Hf. change (512 / 8) with 64. pose proof (Z.div_mod n 8).
  pose proof (Z.mod_pos_bound n 8). lia.
Qed.

(** Inode [n] after the loop. *)
Definition wiped f d n : Prop :=
  ic_mode (inode_at f d n) = mode_val (if n =? ROOT_DIR then IFDIR else IFZERO) /\
  ic_size (inode_at f d n) = (if n =? ROOT_DIR then 32 else 0) /\
  (n = ROOT_DIR -> db_at (inode_at f d n) 0 = root_block).

Lemma wiped_block_at f d d' i ics n :
  geometry D f -> is_ino f n -> length ics = 8%nat -> Forall lwf ics -> 0 <= i ->
  disk_put (fs_iblkno f + i) (enc_arr (wiped_block i ics)) d d' -> n / 8 = i -> wiped f d' n.
Proof.
  intros Hg Hn Hl Hw Hi Hput E. destruct (wiped_block_wf i ics Hw) as [Hl' Hw'].
  pose proof (Z.mod_pos_bound n 8). pose proof (Z.div_mod n 8).
  unfold wiped. rewrite (inode_at_block f d d' i _ n Hg Hn (eq_trans Hl' Hl) Hw' Hput).
  rewrite E, Z.eqb_refl. destruct Hw as [|ic ics Hic Hw]; [done|]. cbn [wiped_block].
  unfold ROOT_DIR. destruct (Z.eqb_spec n 0) as [->|Hne].
  - cbn in E. subst i. change (Z.to_nat (0 mod 8)) with 0%nat. cbn [Z.eqb lookup list_lookup default].
    split_and!; [done|done|]. intros _. cbn in Hic. destruct Hic as (_ & _ & Hdb & _).
    unfold db_at, root_inode. cbn [ic_db set_ic_db]. destruct (ic_db ic); done.
  - assert (exists ic', (((if i =? 0 then root_inode ic else blanked ic) :: (blanked <$> ics)) !! Z.to_nat (n mod 8)) = Some (blanked ic')) as [ic' ->].
    { destruct (Z.to_nat (n mod 8)) as [|k] eqn:Ek.
      - destruct (Z.eqb_spec i 0); [lia|]. by exists ic.
      - change (exists ic', (blanked <$> ics) !! k = Some (blanked ic')).
        rewrite list_lookup_fmap. destruct (lookup_lt_ex ics k) as [x ->]; [cbn in Hl; lia|]. by exists x. }
    by split_and!.
Qed.
End Table.

Section Loop.
Context {D : Type} `{BlockDeviceLaws D}.
Implicit Types (s t : kernel D) (d : D) (f : fs_t) (L : list Z) (ics : list icommon_t).
Variables (junk : list dir_t) (s : kernel D).
Hypothesis junk_len : length junk = 16%nat.
Hypothesis junk_wf : Forall lwf junk.
Hypothesis num : 2048 <= dev_num D.

(** The state when [i] blocks of the table are done. *)
Record table_done (i : Z) t : Prop := {
  td_fs : fs_rep t (if i =? 0 then all_free else left_free);
  td_geo : fs_iblkno (k_fs t) = 2 /\ fs_isize (k_fs t) = 512 /\ fs_dblkno (k_fs t) = 66;
  td_rest : exists f d, t = set_k_disk d (set_k_fs f s);
  td_ino n : 0 <= n < 8 * i -> wiped (k_fs t) (k_disk t) n;
  td_dir : 0 < i -> dev_blk (k_disk t) root_block = enc_arr (root_dir junk);
}.

(** Block [i] was computed: the free list and the root's block are as they will be. *)
Record block_done t u : Prop := {
  bd_fs : fs_rep u left_free;
  bd_frame : fs_frame (fun b => b = 1 \/ b = root_block) t u;
  bd_dir : dev_blk (k_disk u) root_block = enc_arr (root_dir junk);
}.

Lemma root_dir_wf : length (root_dir junk) = 16%nat /\ Forall lwf (root_dir junk).
Proof.
  split; [unfold root_dir; by rewrite length_alter|]. apply Forall_alter; [done|].
  intros d _ (_ & _ & Hl & Hb). cbn. rewrite length_insert. split_and!; try done. by apply Forall_insert.
Qed.

Lemma root_dir_block : is_block (enc_arr (root_dir junk)).
Proof.
  destruct root_dir_wf as [Hl Hw]. split; [|by apply enc_arr_bytes].
  by rewrite length_enc_arr, Hl.
Qed.

Lemma wp_root_block j ic t (Q : icommon_t -> kernel D -> Prop) :
  j = ROOT_DIR -> table_done 0 t ->
  (forall u, block_done t u -> Q (root_inode ic) u) -> wp (wipe_inode junk 0 j ic) Q t.
Proof.
  intros -> [Hs (G1 & G2 & G3) _ _ _] HQ. rewrite all_free_cons in Hs. unfold wipe_inode. cbn [Z.eqb ROOT_DIR andb].
  wp_step. apply (wp_balloc t (root_block :: left_free)); [done|]. intros u Hu Hfr. wp_steps.
  assert (Hd : data_addr D (k_fs u) root_block).
  { pose proof (ff_geo _ _ _ Hfr) as (_ & _ & E). unfold data_addr, root_block. lia. }
  apply wp_put_block; [apply Hu|by apply (data_addr_valid (k_fs u)), Hd; apply Hu|apply root_dir_block|].
  intros d' Hput. wp_steps. apply HQ. split.
  - by apply (fs_rep_data u root_block _ d' _ Hu Hd (proj1 left_free_root) Hput).
  - apply (fs_frame_trans _ _ u); [revert Hfr; apply fs_frame_mono; by left|].
    apply fs_frame_disk. intros b Hb Hne. destruct Hput as [_ Hblk]. rewrite Hblk by done.
    rewrite decide_False; [done|tauto].
  - cbn. destruct Hput as [_ ->]; [by rewrite decide_True|]. by apply (data_addr_valid (k_fs u)), Hd; apply Hu.
Qed.

Lemma wp_wipe_inodes i ics t (Q : list icommon_t -> kernel D -> Prop) :
  0 <= i -> ics <> [] -> table_done i t ->
  (forall u, block_done t u -> Q (wiped_block i ics) u) -> wp (wipe_inodes junk i 0 ics) Q t.
Proof.
  intros Hi Hne Ht HQ. destruct (Z.eqb_spec i 0) as [->|Hi0].
  - destruct ics as [|ic ics]; [done|]. cbn [wipe_inodes wiped_block]. wp_step.
    apply wp_root_block; [done|done|]. intros u Hu. wp_step.
    apply wp_wipe_blank; [by right|done|]. wp_steps. by apply HQ.
  - apply wp_wipe_blank; [by left|done|]. destruct Ht as [Hs G _ _ Hdir].
    assert (wiped_block i ics = blanked <$> ics) as <-.
    { destruct ics; cbn; [done|]. by rewrite (proj2 (Z.eqb_neq i 0) Hi0). }
    rewrite (proj2 (Z.eqb_neq i 0) Hi0) in Hs.
    apply HQ. split; [done|apply fs_frame_refl|apply Hdir; lia].
Qed.

(** The body of the loop over the table. *)
Definition table_block (i : Z) (buf : option (list Z)) : M (kernel D) (option (list Z)) :=
  f ← gets k_fs;
  buf ← disk_rd (i + fs_iblkno f) buf;
  b ← deref buf;
  ics ← wipe_inodes junk i 0 (dec_arr 8 b);
  disk_wr (i + fs_iblkno f) (enc_arr ics) ;;
  mret (Some (enc_arr ics)).

Lemma wp_table_block i buf t (Q : option (list Z) -> kernel D -> Prop) :
  0 <= i < 64 -> table_done i t ->
  (forall u b, table_done (i + 1) u -> Q (Some b) u) -> wp (table_block i buf) Q t.
Proof.
  intros Hi Ht HQ. pose proof Ht as [Hs (G1 & G2 & G3) (f & d & E) Hino Hdir].
  assert (Hv : valid_addr D (i + fs_iblkno (k_fs t))) by (unfold valid_addr; lia).
  unfold table_block. wp_steps. apply wp_disk_rd; [apply Hs|done|]. wp_steps.
  set (ics := dec_arr 8 _ : list icommon_t).
  assert (Hics : length ics = 8%nat /\ Forall lwf ics).
  { split; [apply length_dec_arr|]. apply block_inodes, dev_blk_block; [apply Hs|done]. }
  destruct Hics as [Hlen Hwf]. destruct (wiped_block_wf i ics Hwf) as [Hlen' Hwf'].
  apply (wp_wipe_inodes i ics t); [lia|by intros E'; rewrite E' in Hlen|done|].
  intros u [Hu Hfr Hud]. pose proof (ff_geo _ _ _ Hfr) as (F1 & F2 & F3). rewrite <-F1 in *. wp_steps.
  apply wp_put_block; [apply Hu|done| |].
  { split; [by rewrite length_enc_arr, Hlen', Hlen|by apply enc_arr_bytes]. }
  intros d' Hput. wp_steps. apply HQ. rewrite Z.add_comm in Hput. pose proof (fr_geo _ _ Hu) as Hg.
  assert (Hroot : root_block <> fs_iblkno (k_fs u) + i) by (unfold root_block; lia).
  split.
  - rewrite (proj2 (Z.eqb_neq (i + 1) 0)) by lia. destruct Hput as [Hok' Hblk].
    apply fs_rep_disk; [done|done| |].
    + rewrite Hblk, decide_False; [done|lia|]. by apply (geometry_sb_valid (k_fs u)).
    + intros b Hb. pose proof (proj1 (list.Forall_forall _ _) (fr_data _ _ Hu) b Hb) as Hda.
      rewrite Hblk by by apply (data_addr_valid (k_fs u)). unfold data_addr in Hda. rewrite decide_False by lia. done.
  - cbn. by rewrite F2, F3.
  - destruct (ff_rest _ _ _ Hfr) as (f' & d1 & ->). exists f', d'. by rewrite E.
  - intros n Hn. cbn [k_fs k_disk set_k_disk]. pose proof (Z.div_mod n 8). pose proof (Z.mod_pos_bound n 8).
    assert (Hn' : is_ino (k_fs u) n) by (apply table_ino; lia).
    destruct (Z.eq_dec (n / 8) i) as [Ei|Ei].
    + by apply (wiped_block_at _ (k_disk u) d' i ics); [..|lia| |].
    + unfold wiped. rewrite (inode_at_block _ (k_disk u) d' i _ n Hg Hn' (eq_trans Hlen' Hlen) Hwf' Hput).
      rewrite (proj2 (Z.eqb_neq _ _) Ei). rewrite (fs_frame_inode _ t u n Hfr).
      * apply Hino. lia.
      * apply Hs.
      * apply table_ino; lia.
      * unfold inode_blk, root_block. lia.
  - intros _. cbn [k_disk set_k_disk]. destruct Hput as [_ Hblk]. rewrite Hblk, decide_False by (done || unfold valid_addr, root_block; lia).
    done.
Qed.
End Loop.

(** ** What formatting promises *)

(** A formatted volume; the memory of the kernel is otherwise that of [s]. *)
Record formatted {D} `{BlockDevice D} (s t : kernel D) : Prop := {
  fm_free : fs_rep t left_free;
  fm_root : is_dir t left_free ROOT_DIR;
  fm_mode : ic_mode (inode_at (k_fs t) (k_disk t) ROOT_DIR) = mode_val IFDIR;
  fm_count : dir_count t ROOT_DIR = 1;
  fm_entries : exists old, lwf old /\
    dir_entries (k_disk t) (inode_at (k_fs t) (k_disk t) ROOT_DIR) 1 = [new_entry ROOT_DIR [46] old];
  fm_table n : is_ino (k_fs t) n <-> 0 <= n < 512;
  fm_inodes n : is_ino (k_fs t) n -> n <> ROOT_DIR -> is_free (k_fs t) (k_disk t) n;
  fm_rest : exists f d, t = set_k_disk d (set_k_fs f s);
}.

Section Claims.
Context {D : Type} `{BlockDeviceLaws D}.
Implicit Types (s t : kernel D).

Lemma table_done_formatted junk s t :
  length junk = 16%nat -> Forall lwf junk -> 2048 <= dev_num D ->
  table_done junk s 64 t -> formatted s t.
Proof.
  intros Hl Hw Hnum [Hs (G1 & G2 & G3) Hrest Hino Hdir]. cbn [Z.eqb] in Hs.
  assert (Htab : forall n, is_ino (k_fs t) n <-> 0 <= n < 512) by (intros n; by apply table_ino).
  assert (Hroot : is_ino (k_fs t) ROOT_DIR) by by apply Htab.
  destruct (Hino ROOT_DIR) as (Hmode & Hsize & Hdb); [unfold ROOT_DIR; lia|]. specialize (Hdb eq_refl).
  pose proof (inode_at_wf _ _ _ (fr_geo _ _ Hs) (fr_ok _ _ Hs) Hroot) as Hwf.
  set (ic := inode_at (k_fs t) (k_disk t) ROOT_DIR) in *.
  assert (Hcount : dir_count t ROOT_DIR = 1) by (unfold dir_count; fold ic; by rewrite Hsize).
  destruct (left_free_root) as [Hr Hnd].
  assert (Hblk : blk_addr (k_disk t) ic 0 = root_block) by by rewrite blk_addr_direct.
  assert (Hown : owned (k_disk t) ic 1 = [root_block]).
  { unfold owned, file_blocks, table_of. cbn [Z.ltb Z.compare Pos.compare Pos.compare_cont app fmap list_fmap seqZ].
    change (seqZ 0 1) with [0]. cbn [fmap list_fmap]. by rewrite Hblk. }
  assert (Hda : data_addr D (k_fs t) root_block) by (unfold data_addr, root_block; lia).
  split; [done| |done|done| |done| |done].
  - unfold is_dir. rewrite Hcount. split; [done| |done|exact Hsize|done].
    change (Z.max 1 ((1 + 15) / 16)) with 1. split; [done|done| |]; cbn [i_ic inode_of]; fold ic; rewrite Hown.
    + cbn [app]. by apply list.NoDup_cons.
    + apply Forall_cons_2; [done|apply Forall_nil_2].
  - destruct (root_dir_wf junk Hl Hw) as [Hl' Hw'].
    unfold dir_entries. change (seqZ 0 1) with [0]. cbn [fmap list_fmap]. fold ic.
    unfold dir_at. change (0 / 16) with 0. rewrite Hblk, Hdir by lia. unfold blk_entries. rewrite <-Hl'.
    rewrite dec_enc_arr by done. unfold root_dir. destruct junk as [|d ds]; [done|].
    apply list.Forall_cons in Hw as [Hd _]. exists d. split; [done|].
    destruct d as [ino n nm], Hd as (_ & _ & Hn & _). by destruct nm.
  - intros n Hn Hne. apply Htab in Hn. destruct (Hino n) as (Hm & _); [lia|].
    unfold is_free. by rewrite Hm, (proj2 (Z.eqb_neq _ _) Hne).
Qed.

(** [wipe] up to the files. *)
Definition format (junk : list dir_t) : M (kernel D) unit :=
  (set_fs wipe_fs ;;
   for_do 30 0 (fun i => disk_wr (i + 66) (enc_words (wipe_link i))) ;;
   write_sb) ;;
  _ ← for_fold 64 0 (table_block junk) None;
  mret tt.

Lemma wipe_format im junk s : wipe im junk s = (format junk ;; createObjFiles im) s.
Proof.
  unfold wipe, format. rewrite !run_bind_assoc. apply run_bind_ext. intros _ u.
  rewrite !run_bind_assoc. apply run_bind_ext. intros _ u'. apply run_bind_ext. intros _ u''.
  by rewrite !run_bind_assoc.
Qed.

Lemma wp_format junk s :
  dev_ok (k_disk s) -> lwf (k_fs s) -> 2048 <= dev_num D -> length junk = 16%nat -> Forall lwf junk ->
  wp (format junk) (fun _ t => formatted s t) s.
Proof.
  intros Hok Hf Hnum Hl Hw.
  unfold format. wp_step. apply wp_wipe_free; [done|done|done|]. intros d t Ht. wp_step.
  apply (wp_for_fold (fun i _ => table_done junk s i)).
  - split; [done|done|by eexists _, _|lia|lia].
  - intros i b u Hi Hu. apply (wp_table_block junk s); [done|done|done|lia|done|]. by intros v b' Hv.
  - intros b u Hu. wp_steps. by apply (table_done_formatted junk).
Qed.

(** Formatting.  Whatever is on the disk and in the stack, [wipe] leaves a well-formed
    free list - every data block of the volume but 1986 and the root's is on it, once -
    512 inodes of which only the root is in use, and a root directory whose one entry is
    itself under the name [.]; the rest of the kernel's memory is untouched.  From this
    state it goes on to create the program files. *)
Theorem wipe_formats im junk s :
  dev_ok (k_disk s) -> lwf (k_fs s) -> 2048 <= dev_num D -> length junk = 16%nat -> Forall lwf junk ->
  exists t, wipe im junk s = createObjFiles im t /\ formatted s t /\ dir_find t ROOT_DIR [46] = ROOT_DIR /\
    forall b, 66 <= b < 2048 -> b ∈ left_free <-> b <> 1986 /\ b <> root_block.
Proof.
  intros Hok Hf Hnum Hl Hw.
  cut (wp (format junk) (fun _ t => formatted s t) s).
  { intros ([] & t & Hr & Ht)%wp_done. exists t. split; [|split; [done|split]].
    - by rewrite wipe_format, (run_bind _ _ s tt t).
    - destruct Ht as [_ _ _ Hc (old & Ho & He) _ _ _]. unfold dir_find. rewrite Hc. change (searched 1) with 1.
      rewrite He. cbn [lookup_name]. rewrite matches_new; [done|]. by apply (bool_decide_unpack _).
    - intros b Hb. rewrite <-all_free_blocks, all_free_cons, elem_of_cons by done.
      destruct left_free_root as [Hr' _]. split; [intros Hin; split; [by right|by intros ->]|].
      by intros [[->|Hin] Hne]. }
  by apply wp_format.
Qed.
End Claims.

Lemma wipe_formats_witness :
  exists t, wipe demo_image (replicate 16 (demo_entry 0 [])) demo_state = createObjFiles demo_image t /\
    formatted demo_state t /\ dir_find t ROOT_DIR [46] = ROOT_DIR.
Proof.
  destruct (wipe_formats demo_image (replicate 16 (demo_entry 0 [])) demo_state) as (t & Hr & Ht & Hd & _).
  - apply demo_disk_ok.
  - apply demo_fs_wf.
  - reflexivity.
  - reflexivity.
  - apply Forall_replicate. by apply (bool_decide_unpack _).
  - exists t. split; [exact Hr|]. split; [exact Ht|exact Hd].
Defined.
