(* ===== verification/Install.v ===== *)
(** * Formatting, to the end

    [wipe] formats the disk (Format.v) and creates the eight program files: what is left
    is a volume in which each program is found under its name. *)

From S2P Require Import Prelude CMonad Layout BlockDev Kernel FsOps FreeList InodeProof BlockMap FileRep FileGrow Dir Posix FileIO DirProof DirRemove PathProof Create OpenProof Volume VolumeIO VolumeTree VolumeCalls Session Exec Format.

(** ** With nothing open *)

(** No file is open. *)
Definition nothing_open {D} (s : kernel D) : Prop := Forall (fun i => ~ in_use i) (k_ai s).

Section Start.
Context {D : Type} `{BlockDeviceLaws D}.
Implicit Types (s t : kernel D) (L : list Z).

Lemma nothing_holder s n : nothing_open s -> holder s n = None.
Proof.
  intros Hno. apply list_find_None. eapply list.Forall_impl; [exact Hno|]. by intros i Hi [_ Hu].
Qed.

Lemma nothing_current s n : nothing_open s -> current_ic s n = inode_at (k_fs s) (k_disk s) n.
Proof. intros Hno. unfold current_ic. by rewrite nothing_holder. Qed.

(** No open-file entry is taken. *)
Lemma nothing_oft s g o : tables_ok s -> nothing_open s -> k_oft s !! g = Some o -> o_inptr o = None.
Proof.
  intros Ht Hno Ho. destruct (o_inptr o) as [p|] eqn:Ep; [|done]. exfalso.
  destruct (to_ptr s Ht g o p Ho Ep) as [Hp0 Hp1].
  destruct (lookup_lt_ex (k_ai s) (Z.to_nat p)) as [i Hi];
    [rewrite (to_ai s Ht); unfold AIT_LIMIT, OFT_LIMIT, FDT_LIMIT, PROCESS_LIMIT in Hp1; lia|].
  apply (Forall_lookup_1 _ _ _ _ Hno Hi). apply (to_mode s Ht _ i Hi).
  rewrite (to_links s Ht _ i Hi), Z2Nat.id by done. pose proof (uses_pos _ _ o p Ho Ep). lia.
Qed.

Lemma nothing_heads s : tables_ok s -> nothing_open s -> Forall (fun o => is_u32 (o_head o)) (k_oft s).
Proof.
  intros Ht Hno. apply Forall_lookup_2. intros g o Ho.
  rewrite (to_head s Ht g o Ho (nothing_oft s g o Ht Hno Ho)). unfold is_u32. lia.
Qed.

(** The file system that formatting leaves, with nothing open and the root as the working
    directory, satisfies the invariant of all files: the one inode in use is the root,
    whose block is not on the free list and whose one entry leads to itself. *)
Lemma volume_formatted s t :
  formatted s t -> tables_ok t -> fds_ok t -> nothing_open t -> k_cwd t = ROOT_DIR -> volume t left_free.
Proof.
  intros [Hfs Hroot Hmode Hcount (old & _ & He) Htab Hfree _] Ht Hfd Hno Hc.
  assert (Hlive : forall n, live t n <-> n = ROOT_DIR).
  { intros n. split.
    - intros [Hi Hf]. destruct (decide (n = ROOT_DIR)) as [|Hne]; [done|]. by destruct Hf; apply Hfree.
    - intros ->. split; [apply Htab; unfold ROOT_DIR; lia|]. unfold is_free. by rewrite Hmode. }
  assert (Hlr : live t ROOT_DIR) by by apply Hlive.
  assert (Hent : entries t ROOT_DIR = [new_entry ROOT_DIR [46] old]) by (unfold entries; by rewrite Hcount).
  split; [done|done|by apply nothing_heads| |].
  - split; [done|intros n _; by rewrite nothing_current| |].
    + intros n ->%Hlive. rewrite nothing_current, nblks_dir by done. apply (dr_file _ _ _ _ Hroot).
    + intros n m a ->%Hlive ->%Hlive. done.
  - split; [| | |by split|by rewrite Hc].
    + intros n ->%Hlive _. split; [by apply nothing_holder|]. apply (dr_size _ _ _ _ Hroot).
    + intros n e ->%Hlive _. rewrite Hent, list_elem_of_singleton. intros ->. split; [done|]. reflexivity.
    + intros n n' k k' e e' ->%Hlive _ ->%Hlive _. rewrite Hent. intros Hk _ _ Hr.
      apply list_lookup_singleton_Some in Hk as [_ <-]. by destruct Hr.
Qed.


(** Nor is a descriptor. *)
Lemma nothing_fds s c x n v : tables_ok s -> fds_ok s -> nothing_open s -> k_pcb s !! c = Some x ->
  fd x !! n = Some v -> v = None.
Proof.
  intros Ht Hfd Hno Hx Hn. destruct v as [v|]; [|done]. exfalso.
  destruct (fo_some s Hfd c x n v Hx Hn) as (g & o & p & _ & Ho & Hp).
  by rewrite (nothing_oft s g o Ht Hno Ho) in Hp.
Qed.

Lemma nothing_spare s c x : tables_ok s -> fds_ok s -> nothing_open s -> running s c x ->
  free_fd x = Some 0%nat /\ free_oft (k_oft s) = Some 0%nat.
Proof.
  intros Ht Hfd Hno [Hc Hc0 Hx Hl]. split.
  - unfold free_fd. destruct (lookup_lt_ex (fd x) 0) as [v Hv]; [lia|].
    pose proof (nothing_fds s _ x 0 v Ht Hfd Hno Hx Hv) as ->. by destruct (fd x) as [|[] l]; [|done|].
  - unfold free_oft. destruct (lookup_lt_ex (k_oft s) 0) as [o Ho]; [rewrite (to_oft s Ht); lia|].
    pose proof (nothing_oft s 0 o Ht Hno Ho). destruct (k_oft s) as [|o' l]; [done|]. injection Ho as ->.
    cbn. by rewrite H1.
Qed.
End Start.

(** ** Filling a small file *)

Section Fill.
Context {D : Type} `{BlockDeviceLaws D}.
Implicit Types (t u : kernel D) (bs : list Z).
Variables (s : kernel D) (L : list Z) (c : Z) (x : pcb_t) (n g p : nat) (k : Z).
Hypothesis Hv : volume s L.
Hypothesis Hno : nothing_open s.
Hypothesis Hrun : running s c x.
Hypothesis Hfd : free_fd x = Some n.
Hypothesis Hoft : free_oft (k_oft s) = Some g.
Hypothesis Hlive : live s k /\ ~ dir_mode s k.
Local Abbreviation mine := (fun m => m = k).

(** File [k] of [s] is open, holds [bs], and the position is behind them. *)
Record filling bs t (i : inode_t) : Prop := {
  fg_volume : volume t L;
  fg_open : opened t (Z.of_nat n) (Z.of_nat g)
              (mk_ofile (Some (Z.of_nat p)) (Z.of_nat (length bs))) (Z.of_nat p) i;
  fg_inode : i_number i = k /\ i_links i = 1 /\
             ic_mode (i_ic i) = ic_mode (inode_at (k_fs s) (k_disk s) k) /\ ic_size (i_ic i) = Z.of_nat (length bs);
  fg_bytes : fbytes (k_disk t) (i_ic i) 0 (Z.of_nat (length bs)) = bs;
  fg_pcb : k_pcb t = <[Z.to_nat c := set_fd (<[n := Some (Z.of_nat g)]> (fd x)) x]> (k_pcb s) /\
           k_current t = k_current s /\ k_cwd t = k_cwd s;
  fg_ai : k_ai t = <[p := i]> (k_ai s);
  fg_inodes m : is_ino (k_fs s) m -> m <> k -> inode_at (k_fs t) (k_disk t) m = inode_at (k_fs s) (k_disk s) m;
  fg_frame : disk_frame (pool s L mine) s t;
  fg_owned b : b ∈ owned (k_disk t) (i_ic i) (nblocks (ic_size (i_ic i))) -> pool s L mine b;
}.

(** It is closed again. *)
Record filled bs t : Prop := {
  fc_volume : volume t L;
  fc_closed : nothing_open t;
  fc_kernel : k_pcb t = k_pcb s /\ k_current t = k_current s /\ k_cwd t = k_cwd s;
  fc_inodes m : is_ino (k_fs s) m -> m <> k -> inode_at (k_fs t) (k_disk t) m = inode_at (k_fs s) (k_disk s) m;
  fc_file : let ic := inode_at (k_fs t) (k_disk t) k in
    ic_mode ic = ic_mode (inode_at (k_fs s) (k_disk s) k) /\ ic_size ic = Z.of_nat (length bs) /\
    fbytes (k_disk t) ic 0 (Z.of_nat (length bs)) = bs;
  fc_frame : disk_frame (pool s L mine) s t;
}.

Lemma fill_start i :
  grab s k = Some (p, i) -> ic_size (inode_at (k_fs s) (k_disk s) k) = 0 ->
  volume (open_state c x n g p i s) L -> filling [] (open_state c x n g p i s) (link i).
Proof.
  intros Hgr Hsz Hvo. pose proof Hv as [Ht Hfds Hh Hfl Htr]. pose proof (fl_fs s L Hfl) as Hs. destruct Hlive as [Hl Hreg].
  destruct (grab_ok s k p i Ht (fr_ok _ _ Hs) (fr_geo _ _ Hs) (proj1 Hl) Hgr) as (En & Ei & _ & _ & j & Hj & El & _).
  rewrite nothing_current in Ei by done.
  assert (E0 : i_links i = 0).
  { rewrite <-El. destruct (decide (i_links j = 0)) as [|Hne]; [done|]. exfalso.
    by apply (Forall_lookup_1 _ _ _ _ Hno Hj), (to_mode s Ht p j Hj). }
  pose proof (fl_rep s L Hfl k Hl) as Hf. rewrite nothing_current in Hf by done.
  assert (Hheld : held s k = owned (k_disk s) (i_ic i) (nblocks (ic_size (i_ic i)))).
  { unfold held. rewrite nothing_current, Ei by done. by rewrite nblks_reg. }
  split; try done.
  - by apply (opened_open s c x n g p i j).
  - cbn. rewrite En, Ei, E0. done.
  - cbn. split_and!; try done. by rewrite Nat2Z.id.
  - cbn. by rewrite Nat2Z.id.
  - intros b Hb. right. exists k. split; [done|]. split; [done|]. by rewrite Hheld.
Qed.

(** A write that stays in the first block takes no block. *)
Lemma fill_write bs data t i (Q : Z -> kernel D -> Prop) :
  filling bs t i -> Forall is_byte data -> Z.of_nat (length bs + length data) < 512 ->
  (forall u i', filling (bs ++ data) u i' -> Q 0 u) ->
  wp (fwrite (Z.of_nat n) data (Z.of_nat (length data))) Q t.
Proof.
  intros [Hvt Hop (En & El & Em & Esz) Hbytes (Ep & Ec & Ecwd) Eai Hinos Hfr Hown] Hdata Hlen HQ.
  pose proof (opened_file t L _ _ _ _ _ Hvt Hop) as [_ _ _ _ Hfile _ _].
  assert (Hnb : forall z, 0 <= z < 512 -> nblocks z = 1) by (intros z Hz; unfold nblocks; by rewrite Z.div_small).
  assert (Hcost : write_cost (ic_size (i_ic i)) (Z.of_nat (length bs) + Z.of_nat (length data)) = 0%nat).
  { unfold write_cost. rewrite Esz, !Hnb by lia. apply grow_cost_same. }
  eapply (wp_fwrite t _ _ _ _ i L data); [done|done| |done| | |]; cbn [o_head].
  - lia.
  - rewrite Esz, Hnb by lia. unfold MAXBLKS. lia.
  - rewrite Hcost. lia.
  - intros u i' Hwr. rewrite Hcost, drop_0 in Hwr. apply (HQ u i').
    pose proof (volume_write t L _ _ _ _ i data u i' L Hvt Hop Hwr ltac:(done)) as Hvu.
    destruct Hwr as [Hop' Hfile' Hsz' (En' & El' & Em') Hd' Hrest' Hinos' Hfr' Hown' _ (fs & d & Ek)].
    cbn [o_head set_head o_inptr] in *.
    assert (Hsz : ic_size (i_ic i') = Z.of_nat (length (bs ++ data))) by (rewrite length_app; lia).
    split; try done.
    + rewrite length_app, Nat2Z.inj_add. exact Hop'.
    + split_and!; congruence.
    + rewrite length_app, Nat2Z.inj_add, fbytes_app, Z.add_0_l, Hd' by lia. f_equal. rewrite <-Hbytes at 2.
      apply list_fmap_ext. intros j q Hq%list_elem_of_lookup_2%elem_of_seqZ. apply Hrest'; lia.
    + rewrite Ek. cbn. by rewrite Ep, Ec, Ecwd.
    + rewrite Ek. cbn. rewrite Eai, Nat2Z.id. apply list_insert_insert_eq.
    + intros m Hm Hne. rewrite Hinos'; [by apply Hinos|by apply (is_ino_disk _ s t m Hfr)|congruence].
    + apply (disk_frame_trans _ s t); [done|]. revert Hfr'. apply disk_frame_mono.
      intros b _ [Hb|Hb]; [by apply Hown|by left].
    + intros b Hb. destruct (Hown' b Hb) as [Hb'|Hb']; [by apply Hown|by left].
Qed.

Lemma fill_close bs t i (Q : Z -> kernel D -> Prop) :
  filling bs t i -> (forall u, filled bs u -> Q 0 u) -> wp (close (Z.of_nat n)) Q t.
Proof.
  intros [Hvt Hop (En & El & Em & Esz) Hbytes (Ep & Ec & Ecwd) Eai Hinos Hfr Hown] HQ.
  pose proof Hrun as [Hcur Hc0 Hx Hfdl]. pose proof Hfd as He. apply free_fd_some in He.
  pose proof (lookup_lt_Some _ _ _ He) as Hnl. pose proof (lookup_lt_Some _ _ _ Hx) as Hcl.
  set (x' := set_fd (<[n := Some (Z.of_nat g)]> (fd x)) x) in *.
  assert (Hrt : running t c x').
  { split; [congruence|done| |cbn; by rewrite length_insert]. rewrite Ep. by apply list_lookup_insert_eq. }
  destruct (opened_file t L _ _ _ _ _ Hvt Hop) as [_ _ _ _ [_ Hfile _] _ _].
  pose proof Hvt as [Ht Hfds Hh Hfl Htr]. destruct Hop as [_ [_ Ho] _ [_ Hi]]. rewrite Nat2Z.id in *.
  assert (He' : fd x' !! n = Some (Some (Z.of_nat g))) by (cbn; by apply list_lookup_insert_eq).
  cut (wp (close (Z.of_nat n)) (fun r u => r = 0 /\ filled bs u) t).
  { intros Hwp. eapply wp_mono; [exact Hwp|]. intros r u [-> Hu]. by apply HQ. }
  apply wp_done.
  destruct (proj1 (wp_done _ _ _) (wp_close t L c x' n g p _ i
    (fun r u => r = 0 /\ exists d, inode_put (k_fs t) k (i_ic i) (k_disk t) d /\ u = close_state c x' n g p i d t)
    Ht (fl_fs t L Hfl) Hrt ltac:(lia) He' Ho eq_refl Hi
    ltac:(rewrite El, En; intros d Hd; split; [done|by exists d]))) as (r & u & Hr & -> & d & (Hok & Hput & Hblk) & Eu).
  pose proof (volume_close t L c x' _ 0 u Hvt Hrt Hr) as Hvu.
  exists 0, u. split; [done|]. split; [done|].
  assert (Hki : is_ino (k_fs t) k) by (apply (is_ino_disk _ s t k Hfr), Hlive).
  pose proof (fr_geo _ _ (fl_fs t L Hfl)) as Hg. pose proof (inode_blk_range _ _ Hg Hki) as Hir.
  assert (Hfru : disk_frame (fun _ => False) t u).
  { rewrite Eu. split; [done|]. intros b Hb _. cbn. unfold data_addr in Hb.
    apply Hblk; [by apply (data_addr_valid (k_fs t))|lia]. }
  assert (Hku : inode_at (k_fs u) (k_disk u) k = i_ic i).
  { rewrite Eu. change (inode_at (k_fs t) d k = i_ic i). by rewrite Hput, decide_True. }
  split; try done.
  - unfold nothing_open. rewrite Eu. cbn. rewrite Nat2Z.id, Eai, list_insert_insert_eq, El.
    apply Forall_insert; [done|]. intros Hu. by apply Hu.
  - rewrite Eu. cbn. rewrite Ep, Nat2Z.id, list_insert_insert_eq. split_and!; [|done..].
    apply list_insert_id. rewrite Hx. unfold x', set_fd. destruct x. cbn in *. by rewrite list_insert_insert_eq, list_insert_id.
  - intros m Hm Hne. rewrite <-Hinos by done. rewrite Eu. change (inode_at (k_fs t) d m = inode_at (k_fs t) (k_disk t) m).
    rewrite Hput, decide_False; [done|done|by apply (is_ino_disk _ s t m Hfr)].
  - cbv zeta. rewrite Hku. split_and!; [done|done|]. rewrite <-Hbytes at 2.
    apply (fbytes_disk (fun _ => False) t u _ _ L _ _ Hfile Hfru); [by intros b _ []|done|].
    rewrite Esz. unfold nblocks. pose proof (Z.div_mod (Z.of_nat (length bs)) 512).
    pose proof (Z.mod_pos_bound (Z.of_nat (length bs)) 512). lia.
  - apply (disk_frame_trans _ s t); [done|]. revert Hfru. apply disk_frame_mono. by intros b _ [].
Qed.
End Fill.

(** ** One program file *)

(** Regular file [n] holds [bs]. *)
Definition holds {D} `{BlockDevice D} (t : kernel D) (n : Z) (bs : list Z) : Prop :=
  let ic := inode_at (k_fs t) (k_disk t) n in
  ic_mode ic = mode_val IFREG /\ ic_size ic = Z.of_nat (length bs) /\
  fbytes (k_disk t) ic 0 (Z.of_nat (length bs)) = bs.

(** What [create_obj] writes. *)
Definition object (entry : Z) : list Z := le_bytes 4 entry ++ le_bytes 4 1.

Section Object.
Context {D : Type} `{BlockDeviceLaws D}.
Implicit Types (s t u : kernel D) (L w : list Z).
Local Abbreviation root := (fun m => m = ROOT_DIR).

(** The root directory has one entry more, [w], for file [k] with the contents [bs]. *)
Record obj_made s L L' k w bs t : Prop := {
  om_volume : volume t L';
  om_closed : nothing_open t;
  om_kernel : k_pcb t = k_pcb s /\ k_current t = k_current s /\ k_cwd t = k_cwd s;
  om_entries : exists old, entries t ROOT_DIR = entries s ROOT_DIR ++ [new_entry k w old];
  om_count : dir_count t ROOT_DIR = dir_count s ROOT_DIR + 1;
  om_mode : dir_mode t ROOT_DIR;
  om_inodes m : is_ino (k_fs s) m -> m <> k -> m <> ROOT_DIR ->
    inode_at (k_fs t) (k_disk t) m = inode_at (k_fs s) (k_disk s) m;
  om_file : holds t k bs;
  om_frame : disk_frame (pool s L root) s t;
}.

Lemma obj_made_of s t u a L k w bs :
  volume s (a :: L) -> nothing_open s -> created s (a :: L) ROOT_DIR k a w t L -> volume t L ->
  is_ino (k_fs s) k -> is_free (k_fs s) (k_disk s) k -> k < 2 ^ 31 ->
  filled t L k bs u -> obj_made s (a :: L) L k w bs u.
Proof.
  intros Hv Hno Hcr Hvt Hk Hkf Hk31 [Hvu Hnou (Kp & Kc & Kw) Hinos (Hm & Hsz & Hb) Hfr].
  destruct (tr_root s (vo_tree _ _ Hv)) as [Hlr Hdr].
  assert (Hk' : is_ino (k_fs s) k /\ is_free (k_fs s) (k_disk s) k /\ k < 2 ^ 31) by done.
  pose proof (new_file_shape s (a :: L) ROOT_DIR k a Hv (conj Hlr Hdr)) as Hshape.
  assert (Ha : a ∈ a :: L) by by left.
  pose proof (made_held s t (a :: L) L w ROOT_DIR k a _ Hv (conj Hlr Hdr) Hk' Hcr Hshape) as Hheld.
  destruct (tr_root t (vo_tree _ _ Hvt)) as [Hlt Hdt].
  assert (Hne : ROOT_DIR <> k) by (intros E; destruct Hlr as [_ Hx]; by rewrite E in Hx).
  assert (Hrt : is_ino (k_fs t) ROOT_DIR) by apply Hlt.
  pose proof (cr_frame _ _ _ _ _ _ _ _ _ Hcr) as Hf0. cbv zeta in Hf0.
  assert (Hroot : inode_at (k_fs u) (k_disk u) ROOT_DIR = inode_at (k_fs t) (k_disk t) ROOT_DIR) by by apply Hinos.
  assert (Hcount : dir_count u ROOT_DIR = dir_count s ROOT_DIR + 1).
  { unfold dir_count at 1. rewrite Hroot. apply (cr_count _ _ _ _ _ _ _ _ _ Hcr). }
  assert (Hents : entries u ROOT_DIR = entries t ROOT_DIR).
  { unfold entries, dir_count. rewrite Hroot. fold (dir_count t ROOT_DIR).
    pose proof (fl_rep t L (vo_files _ _ Hvt) ROOT_DIR Hlt) as Hfile.
    rewrite (current_dir t _ (vo_tree _ _ Hvt) Hlt Hdt) in Hfile.
    apply (dir_entries_disk _ t u _ _ L _ Hfile Hfr).
    - intros b Hb'. apply (pool_other t L _ ROOT_DIR b (vo_files _ _ Hvt) Hlt Hne).
      unfold held. by rewrite (current_dir t _ (vo_tree _ _ Hvt) Hlt Hdt).
    - rewrite nblks_dir by done. lia. }
  destruct (cr_rest _ _ _ _ _ _ _ _ _ Hcr) as (f & d & Et).
  split; [exact Hvu|exact Hnou| | |exact Hcount| | | |].
  - rewrite Kp, Kc, Kw, Et. done.
  - destruct (cr_entries _ _ _ _ _ _ _ _ _ Hcr) as (old & _ & He). exists old. rewrite Hents. exact He.
  - unfold dir_mode. by rewrite Hroot.
  - intros m Hmi Hmk Hmr. rewrite Hinos; [by apply (cr_inodes _ _ _ _ _ _ _ _ _ Hcr)| |done].
    by apply (is_ino_disk _ s t m Hf0).
  - split_and!; [|done|done]. rewrite Hm, (cr_inode _ _ _ _ _ _ _ _ _ Hcr). done.
  - assert (Hroots : held s ROOT_DIR = owned (k_disk s) (inode_at (k_fs s) (k_disk s) ROOT_DIR)
                                (Z.max 1 ((dir_count s ROOT_DIR + 15) / 16))).
    { unfold held. by rewrite nothing_current, nblks_dir. }
    apply (disk_frame_trans _ s t).
    + revert Hf0. apply disk_frame_mono. intros b _ [Hb'|Hb']; [|by left].
      right. exists ROOT_DIR. by rewrite Hroots.
    + revert Hfr. apply disk_frame_mono. intros b _ [Hb'|(m & -> & _ & Hb')]; left; [by right|].
      rewrite Hheld in Hb'. apply list_elem_of_singleton in Hb' as ->. by left.
Qed.

Lemma wp_create_obj s a L c x w e k (Q : unit -> kernel D -> Prop) :
  volume s (a :: L) -> nothing_open s -> running s c x -> is_comp w -> dir_find s ROOT_DIR w = -1 ->
  is_ino (k_fs s) k -> is_free (k_fs s) (k_disk s) k -> k < 2 ^ 31 ->
  (forall m, 0 <= m < k -> ~ is_free (k_fs s) (k_disk s) m) ->
  0 < dir_count s ROOT_DIR < 16 ->
  (forall t, obj_made s (a :: L) L k w (object e) t -> Q tt t) ->
  wp (create_obj w e) Q s.
Proof.
  intros Hv Hno Hrun Hw Hfind Hk Hkf Hk31 Hmin Hcount HQ. pose proof Hv as [Ht Hfds Hh Hfl Htr].
  destruct (tr_root s Htr) as [Hlr Hdr]. pose proof (live_is_dir s _ _ Hfl Htr Hlr Hdr) as Hdir.
  destruct (nothing_spare s c x Ht Hfds Hno Hrun) as [Hn Hg].
  unfold create_obj. wp_step. change (c_string w) with (c_str w).
  apply (wp_open_new s a L L c x 0 0 (c_str w) w [] ROOT_DIR w k);
    [done|done|done|done|by apply path_of_single| |done|done|apply Hw|done|done|done|done|unfold MAXBLKS; lia| |].
  - rewrite <-Hfind. by apply (resolves_single s).
  - unfold entry_rest. by rewrite (Z.mod_small (dir_count s ROOT_DIR)), (proj2 (Z.eqb_neq _ 0)) by lia.
  - intros t path' p i Hcr Hvt Hgr Hvo.
    assert (Hk' : is_ino (k_fs s) k /\ is_free (k_fs s) (k_disk s) k /\ k < 2 ^ 31) by done.
    destruct (created_mode s t (a :: L) L w ROOT_DIR k a) as (Hreg & Hlk); [done..|].
    destruct (running_created s t _ _ _ _ _ _ c x Hcr Hrun) as [Hrt Eo].
    assert (Hnot : nothing_open t).
    { destruct (cr_rest _ _ _ _ _ _ _ _ _ Hcr) as (f & d & ->). exact Hno. }
    assert (Hsz : ic_size (inode_at (k_fs t) (k_disk t) k) = 0) by by rewrite (cr_inode _ _ _ _ _ _ _ _ _ Hcr).
    rewrite <-Eo in Hg.
    pose proof (fill_start t L c x 0 0 p k Hvt Hnot Hrt Hn Hg (conj Hlk Hreg) i Hgr Hsz Hvo) as Hfill.
    wp_steps. change 4 with (Z.of_nat (length (le_bytes 4 e))) at 1.
    apply (fill_write t L c x 0 0 p k [] (le_bytes 4 e) _ _ _ Hfill); [apply le_bytes_bytes|done|].
    clear Hfill. intros u1 i1 Hfill. wp_steps. change 4 with (Z.of_nat (length (le_bytes 4 1))) at 1.
    apply (fill_write t L c x 0 0 p k _ (le_bytes 4 1) _ _ _ Hfill); [apply le_bytes_bytes|done|].
    clear Hfill. intros u2 i2 Hfill. wp_steps.
    apply (fill_close t L c x 0 0 p k Hnot Hrt Hn (conj Hlk Hreg) _ _ _ _ Hfill). intros u Hu. wp_steps. apply HQ.
    by apply (obj_made_of s t).
Qed.
End Object.

(** ** The eight of them *)

(** The program files and what is written to them. *)
Definition programs (im : image) : list (list Z * Z) :=
  [ ([80; 48], entry_P0 im); ([80; 49], entry_P1 im); ([80; 50], entry_P2 im);
    ([104; 101; 116], entry_het im); ([112; 105; 110; 103], entry_ping im);
    ([112; 111; 110; 103], entry_pong im); ([98; 108; 97; 110; 107; 115], entry_blanks im);
    ([104; 97; 115; 104; 115], entry_hashs im) ].

(** Two names that differ before the end of the shorter: an entry for the one is never
    taken for the other, whatever its slot held before. *)
Definition clash (w w' : list Z) : bool := existsb (fun '(a, b) => negb (a =? b)) (zip w w').

Fixpoint all_clash (ws : list (list Z)) : bool :=
  match ws with
  | [] => true
  | w :: ws' => forallb (fun w' => clash w w' && clash w' w) ws' && all_clash ws'
  end.

Lemma matches_clash w w' n old : clash w w' = true -> matches w (new_entry n w' old) = false.
Proof.
  unfold clash. intros ([a b] & Hin & Hab)%existsb_exists. apply list_elem_of_In in Hin.
  apply list_elem_of_lookup_1 in Hin as (i & Hi). apply lookup_zip_Some in Hi as [Ha Hb].
  unfold matches, new_entry, overlay. cbn [d_name d_namlen]. rewrite bool_decide_eq_false_2; [done|].
  intros E. rewrite <-E in Ha. pose proof (lookup_lt_Some _ _ _ Ha) as Hl. rewrite length_take in Hl.
  rewrite lookup_take_lt in Ha by lia. rewrite lookup_app_l in Ha by (by eapply lookup_lt_Some).
  rewrite Hb in Ha. injection Ha as <-. by rewrite Z.eqb_refl in Hab.
Qed.

Lemma all_clash_lookup ws i j w w' :
  all_clash ws = true -> ws !! i = Some w -> ws !! j = Some w' -> i <> j -> clash w w' = true.
Proof.
  revert i j. induction ws as [|v ws IH]; intros i j; [done|]. cbn [all_clash].
  intros [Hv Hws]%andb_true_iff. rewrite forallb_forall in Hv.
  assert (Hall : forall k u, ws !! k = Some u -> clash v u = true /\ clash u v = true).
  { intros k u Hk. apply andb_true_iff, Hv, list_elem_of_In. by eapply list_elem_of_lookup_2. }
  destruct i as [|i], j as [|j]; cbn; [done|..].
  - intros [= <-] Hj _. by apply (Hall j).
  - intros Hi [= <-] _. by apply (Hall i).
  - intros Hi Hj Hne. apply (IH i j); [done..|]. intros ->. by apply Hne.
Qed.

(** The names of the root directory: its own, and those of the programs. *)
Definition root_names (im : image) : list (list Z) := [46] :: (fst <$> programs im).

Lemma root_names_clash im : all_clash (root_names im) = true.
Proof. reflexivity. Qed.

Lemma program_names im : Forall is_comp (fst <$> programs im).
Proof. apply (bool_decide_unpack _). vm_compute. exact I. Qed.

Lemma lookup_name_first w ds j d :
  ds !! j = Some d -> matches w d = true ->
  (forall i d', (i < j)%nat -> ds !! i = Some d' -> matches w d' = false) ->
  lookup_name w ds = Some (s32 (d_ino d)).
Proof.
  revert j. induction ds as [|d0 ds IH]; intros j; [done|]. destruct j as [|j]; cbn.
  - intros [= ->] Hm _. by rewrite Hm.
  - intros Hj Hm Hbef. rewrite (Hbef 0%nat d0) by (done || lia). apply (IH j); [done|done|].
    intros i d' Hi Hd'. apply (Hbef (S i)); [lia|done].
Qed.

Section Install.
Context {D : Type} `{BlockDeviceLaws D}.
Implicit Types (s t u : kernel D) (w : list Z).
Variables (s : kernel D) (im : image).

(** The first [k] programs have their files. *)
Record installed (k : nat) t : Prop := {
  in_volume : volume t (drop k left_free);
  in_closed : nothing_open t;
  in_kernel : k_pcb t = k_pcb s /\ k_current t = k_current s /\ k_cwd t = k_cwd s;
  in_table n : is_ino (k_fs t) n <-> 0 <= n < 512;
  in_count : dir_count t ROOT_DIR = Z.of_nat (S k);
  in_entries j w : (j <= k)%nat -> root_names im !! j = Some w ->
    exists old, entries t ROOT_DIR !! j = Some (new_entry (Z.of_nat j) w old);
  in_free n : Z.of_nat k < n < 512 -> is_free (k_fs t) (k_disk t) n;
  in_used n : 0 <= n <= Z.of_nat k -> ~ is_free (k_fs t) (k_disk t) n;
  in_files j w e : (j < k)%nat -> programs im !! j = Some (w, e) -> holds t (Z.of_nat (S j)) (object e);
}.

Lemma root_name_program k w e : programs im !! k = Some (w, e) -> root_names im !! S k = Some w.
Proof.
  intros Hp. change (root_names im !! S k) with ((fst <$> programs im) !! k). by rewrite list_lookup_fmap, Hp.
Qed.

Lemma installed_entries k t i d : installed k t -> (k <= 8)%nat -> entries t ROOT_DIR !! i = Some d ->
  (i <= k)%nat /\ exists w old, root_names im !! i = Some w /\ d = new_entry (Z.of_nat i) w old.
Proof.
  intros Hin Hk8 Hi. pose proof (lookup_lt_Some _ _ _ Hi) as Hl. unfold entries in Hl.
  rewrite length_dir_entries, (in_count k t Hin) in Hl.
  destruct (lookup_lt_ex (root_names im) i) as [w Hw]; [cbn; lia|].
  destruct (in_entries k t Hin i w) as (old & Ho); [lia|done|]. split; [lia|].
  exists w, old. split; [done|congruence].
Qed.

(** A name is that of a file that has been made, or leads nowhere. *)
Lemma installed_find k t j w : installed k t -> (k <= 8)%nat -> root_names im !! j = Some w ->
  dir_find t ROOT_DIR w = if decide (j <= k)%nat then Z.of_nat j else -1.
Proof.
  intros Hin Hk8 Hw. unfold dir_find.
  assert (Hse : searched (dir_count t ROOT_DIR) = dir_count t ROOT_DIR).
  { unfold searched. rewrite (in_count k t Hin), Z.mod_small by lia. by rewrite (proj2 (Z.eqb_neq _ 0)) by lia. }
  rewrite Hse. fold (entries t ROOT_DIR).
  assert (Hno : forall i d, i <> j -> entries t ROOT_DIR !! i = Some d -> matches w d = false).
  { intros i d Hi Hd. destruct (installed_entries k t i d Hin Hk8 Hd) as (_ & w' & old & Hw' & ->).
    apply matches_clash. by apply (all_clash_lookup (root_names im) j i). }
  case_decide as Hj.
  - destruct (in_entries k t Hin j w Hj Hw) as (old & Ho).
    rewrite (lookup_name_first w _ j _ Ho); [|apply matches_new|].
    + cbn. pose proof (lookup_lt_Some _ _ _ Hw) as Hl. cbn in Hl.
      by rewrite u32_small, s32_small by (unfold is_u32; lia).
    + destruct j as [|j]; [injection Hw as <-; by apply (bool_decide_unpack _)|].
      apply (Forall_lookup_1 _ _ j _ (program_names im)). exact Hw.
    + intros i d' Hi. apply Hno. lia.
  - rewrite (proj2 (lookup_name_none _ _)); [done|]. apply Forall_lookup_2. intros i d Hd.
    apply (Hno i); [|done]. destruct (installed_entries k t i d Hin Hk8 Hd) as (Hi & _). lia.
Qed.

Lemma left_free_drop k : (k < 8)%nat -> exists a, drop k left_free = a :: drop (S k) left_free.
Proof.
  intros Hk. destruct (lookup_lt_ex left_free k) as [a Ha].
  - assert (8 < length left_free)%nat by (apply Nat.ltb_lt; vm_compute; reflexivity). lia.
  - exists a. by apply drop_S.
Qed.

(** The next one. *)
Lemma installed_next k t u a w e :
  installed k t -> (k < 8)%nat -> programs im !! k = Some (w, e) ->
  obj_made t (a :: drop (S k) left_free) (drop (S k) left_free) (Z.of_nat (S k)) w (object e) u ->
  drop k left_free = a :: drop (S k) left_free -> installed (S k) u.
Proof.
  intros Hin Hk8 Hp [Hvu Hnou (Kp & Kc & Kw) (old & He) Hcount Hmode Hinos Hfile Hfr] Hdrop.
  pose proof Hin as [Hvt Hnot (Tp & Tc & Tw) Htab Hc Hents Hfree Hused Hfiles]. rewrite <-Hdrop in Hfr.
  assert (Hlen : length (entries t ROOT_DIR) = S k).
  { unfold entries. rewrite length_dir_entries, Hc. lia. }
  assert (Hother : forall n, 0 <= n < 512 -> n <> Z.of_nat (S k) -> n <> ROOT_DIR ->
            inode_at (k_fs u) (k_disk u) n = inode_at (k_fs t) (k_disk t) n).
  { intros n Hn. apply Hinos. by apply Htab. }
  split; [done|done|split_and!; congruence| |rewrite Hcount, Hc; lia| | | |].
  - intros n. by rewrite (is_ino_disk _ t u n Hfr).
  - intros j v Hj Hv. rewrite He. destruct (decide (j = S k)) as [->|Hne].
    + rewrite lookup_app_r by lia. rewrite Hlen, Nat.sub_diag. exists old.
      rewrite (root_name_program k w e Hp) in Hv. by injection Hv as <-.
    + destruct (Hents j v) as (o & Ho); [lia|done|]. exists o. by apply lookup_app_l_Some.
  - intros n Hn. unfold is_free. rewrite Hother by (unfold ROOT_DIR; lia). apply Hfree. lia.
  - intros n Hn. destruct (decide (n = ROOT_DIR)) as [->|Hne]; [unfold is_free; by rewrite Hmode|].
    destruct (decide (n = Z.of_nat (S k))) as [->|Hnk].
    { destruct Hfile as (Hm & _). unfold is_free. by rewrite Hm. }
    unfold is_free. rewrite Hother by lia. apply Hused. lia.
  - intros j v f Hj Hv. destruct (decide (j = k)) as [->|Hne].
    { rewrite Hp in Hv. by injection Hv as <- <-. }
    pose proof (Hfiles j v f ltac:(lia) Hv) as (Hm & Hsz & Hb). set (n := Z.of_nat (S j)) in *.
    assert (Hn : 0 <= n < 512 /\ n <> Z.of_nat (S k) /\ n <> ROOT_DIR) by (unfold ROOT_DIR; lia).
    unfold holds. cbv zeta. rewrite Hother by tauto. split_and!; [done|done|]. rewrite <-Hb at 2.
    assert (Hl : live t n) by (split; [apply Htab; tauto|unfold is_free; by rewrite Hm]).
    pose proof (fl_rep t _ (vo_files _ _ Hvt) n Hl) as Hf. rewrite nothing_current in Hf by done.
    assert (Hreg : ic_mode (inode_at (k_fs t) (k_disk t) n) <> mode_val IFDIR) by by rewrite Hm.
    apply (fbytes_disk _ t u _ _ _ 0 _ Hf Hfr); [|done|].
    + intros b Hb'. apply (pool_other t _ _ n b (vo_files _ _ Hvt) Hl); [tauto|].
      unfold held. by rewrite nothing_current.
    + rewrite nblks_reg, Hsz by done. unfold nblocks. pose proof (Z.div_mod (Z.of_nat (length (object f))) 512).
      pose proof (Z.mod_pos_bound (Z.of_nat (length (object f))) 512). lia.
Qed.

Lemma wp_install k t c x w e (Q : unit -> kernel D -> Prop) :
  running s c x -> installed k t -> programs im !! k = Some (w, e) ->
  (forall u, installed (S k) u -> Q tt u) -> wp (create_obj w e) Q t.
Proof.
  intros Hrun Hin Hp HQ. pose proof (lookup_lt_Some _ _ _ Hp) as Hk8. cbn in Hk8.
  destruct (left_free_drop k Hk8) as (a & Hdrop).
  pose proof Hin as [Hvt Hnot (Tp & Tc & Tw) Htab Hc Hents Hfree Hused _]. rewrite Hdrop in Hvt.
  pose proof (root_name_program k w e Hp) as Hname.
  apply (wp_create_obj t a (drop (S k) left_free) c x w e (Z.of_nat (S k))); try done.
  - destruct Hrun. by split; [congruence| |rewrite Tp|].
  - apply (Forall_lookup_1 _ _ k _ (program_names im)). exact Hname.
  - rewrite (installed_find k t (S k) w Hin ltac:(lia) Hname). by rewrite decide_False by lia.
  - apply Htab. lia.
  - apply Hfree. lia.
  - lia.
  - intros m Hm. apply Hused. lia.
  - lia.
  - intros u Hu. apply HQ. by apply (installed_next k t u a w e).
Qed.

Lemma wp_createObjFiles t c x (Q : unit -> kernel D -> Prop) :
  running s c x -> installed 0 t -> (forall u, installed 8 u -> Q tt u) -> wp (createObjFiles im) Q t.
Proof.
  intros Hrun Ht HQ. unfold createObjFiles.
  apply wp_bind, (wp_install 0 t c x _ _ _ Hrun Ht eq_refl). clear Ht t. intros t Ht.
  apply wp_bind, (wp_install 1 t c x _ _ _ Hrun Ht eq_refl). clear Ht t. intros t Ht.
  apply wp_bind, (wp_install 2 t c x _ _ _ Hrun Ht eq_refl). clear Ht t. intros t Ht.
  apply wp_bind, (wp_install 3 t c x _ _ _ Hrun Ht eq_refl). clear Ht t. intros t Ht.
  apply wp_bind, (wp_install 4 t c x _ _ _ Hrun Ht eq_refl). clear Ht t. intros t Ht.
  apply wp_bind, (wp_install 5 t c x _ _ _ Hrun Ht eq_refl). clear Ht t. intros t Ht.
  apply wp_bind, (wp_install 6 t c x _ _ _ Hrun Ht eq_refl). clear Ht t. intros t Ht.
  by apply (wp_install 7 t c x _ _ _ Hrun Ht eq_refl).
Qed.

(** Formatting comes first. *)
Lemma installed_start t :
  formatted s t -> tables_ok s -> fds_ok s -> nothing_open s -> k_cwd s = ROOT_DIR -> installed 0 t.
Proof.
  intros Hf Ht Hfd Hno Hcwd. destruct (fm_rest _ _ Hf) as (f & d & E).
  assert (Hnot : nothing_open t) by by rewrite E.
  assert (Htt : tables_ok t).
  { destruct Ht as []. rewrite E. split; try done. intros p i Hp Hu.
    by destruct (Forall_lookup_1 _ _ _ _ Hno Hp). }
  split.
  - apply (volume_formatted s); [done|done|by apply (fds_ok_ext s); [by rewrite E..|]|done|by rewrite E].
  - done.
  - by rewrite E.
  - apply Hf.
  - by rewrite (fm_count _ _ Hf).
  - intros j w Hj. assert (j = 0%nat) as -> by lia. intros [= <-].
    destruct (fm_entries _ _ Hf) as (old & _ & He). exists old. unfold entries. by rewrite (fm_count _ _ Hf), He.
  - intros n Hn. apply Hf; [apply Hf; lia|unfold ROOT_DIR; lia].
  - intros n Hn. assert (n = ROOT_DIR) as -> by (unfold ROOT_DIR; lia). unfold is_free. by rewrite (fm_mode _ _ Hf).
  - lia.
Qed.

Lemma wp_wipe junk c x (Q : unit -> kernel D -> Prop) :
  tables_ok s -> fds_ok s -> nothing_open s -> running s c x -> k_cwd s = ROOT_DIR ->
  dev_ok (k_disk s) -> lwf (k_fs s) -> 2048 <= dev_num D -> length junk = 16%nat -> Forall lwf junk ->
  (forall t, installed 8 t -> Q tt t) -> wp (wipe im junk) Q s.
Proof.
  intros Ht Hfd Hno Hrun Hcwd Hok Hf Hnum Hl Hw HQ.
  destruct (proj1 (wp_done _ _ _) (wp_format junk s Hok Hf Hnum Hl Hw)) as ([] & t & Hr & Hft).
  pose proof (wp_createObjFiles t c x Q Hrun (installed_start t Hft Ht Hfd Hno Hcwd) HQ) as Hc.
  apply wp_done in Hc as (r & u & Hc & HQu). apply wp_done. exists r, u. split; [|done].
  by rewrite wipe_format, (run_bind _ _ s tt t Hr).
Qed.
End Install.

(** * The property of formatting *)

Section Claims.
Context {D : Type} `{BlockDeviceLaws D}.
Implicit Types (s t : kernel D).

(** What [exec] is to find. *)
Definition program_at (im : image) t (k : nat) (w : list Z) (e : Z) : Prop :=
  let r := Z.of_nat (S k) in
  dir_find t ROOT_DIR w = r /\
  program_file t (drop 8 left_free) w r (current_ic t r) /\
  (is_u32 e -> entry_of (k_disk t) (current_ic t r) = e) /\ priority_of (k_disk t) (current_ic t r) = 1.

Lemma installed_program s im t k w e : installed s im 8 t -> programs im !! k = Some (w, e) -> program_at im t k w e.
Proof.
  intros Hin Hp. pose proof (lookup_lt_Some _ _ _ Hp) as Hk. cbn in Hk.
  pose proof Hin as [Hv Hno _ Htab _ _ _ Hused Hfiles]. pose proof Hv as [_ _ _ Hfl Htr].
  destruct (Hfiles k w e Hk Hp) as (Hm & Hsz & Hb). set (r := Z.of_nat (S k)) in *.
  assert (Hr : 0 <= r <= 8) by lia. assert (Hl : live t r) by (split; [apply Htab; lia|by apply Hused]).
  destruct (tr_root t Htr) as [Hlr Hdr].
  assert (Hfind : dir_find t ROOT_DIR w = r).
  { rewrite (installed_find s im 8 t (S k) w Hin) by (done || by apply (root_name_program im k w e)).
    by rewrite decide_True by lia. }
  pose proof (fl_rep t _ Hfl r Hl) as Hf. unfold program_at. fold r. rewrite nothing_current in * by done.
  rewrite nblks_reg in Hf by by rewrite Hm. split; [done|].
  change (Z.of_nat (length (object e))) with (4 + 4) in Hb. rewrite fbytes_app in Hb by lia.
  apply app_inj_1 in Hb as [Hb1 Hb2]; [|unfold fbytes; by rewrite length_fmap, length_seqZ].
  split_and!.
  - split; try done.
    + by apply live_is_dir.
    + apply (Forall_lookup_1 _ _ k _ (program_names im)). by rewrite list_lookup_fmap, Hp.
    + split; [lia|apply Hl].
    + by rewrite nothing_current.
    + by rewrite Hm.
    + by rewrite Hsz.
  - intros He. unfold entry_of. rewrite Hb1. by apply le_val_le_bytes4.
  - unfold priority_of. change 4 with (0 + 4) at 1. by rewrite Hb2.
Qed.

(** C12: formatting, to the end.  Called by a process, with no file open and the root as the
    working directory, [wipe] returns whatever was on the disk: what it leaves is a volume -
    every inode in use with its blocks, no block with two owners, 512 inodes of which nine
    are in use - and in the root directory each of the eight programs is found under its
    name, in a file that [exec] accepts and that says the program's entry point and
    priority 1. *)
Theorem wipe_installs im junk s c x :
  tables_ok s -> fds_ok s -> nothing_open s -> running s c x -> k_cwd s = ROOT_DIR ->
  dev_ok (k_disk s) -> lwf (k_fs s) -> 2048 <= dev_num D -> length junk = 16%nat -> Forall lwf junk ->
  exists t, wipe im junk s = Done (tt, t) /\ volume t (drop 8 left_free) /\ nothing_open t /\
    (forall n, 0 <= n < 512 -> live t n <-> n <= 8) /\
    forall k w e, programs im !! k = Some (w, e) -> program_at im t k w e.
Proof.
  intros Ht Hfd Hno Hrun Hcwd Hok Hf Hnum Hl Hw.
  assert (Hwp : wp (wipe im junk) (fun _ t => installed s im 8 t) s) by by apply (wp_wipe s im junk c x).
  apply wp_done in Hwp as ([] & t & Hr & Hin). exists t. split; [done|].
  pose proof Hin as [Hv Hnot _ Htab _ _ Hfree Hused _]. split_and!; [done|done| |].
  - intros n Hn. split.
    + intros [_ Hx]. destruct (Z.le_gt_cases n 8); [done|]. by destruct Hx; apply Hfree; lia.
    + intros Hle. split; [by apply Htab|]. apply Hused. lia.
  - intros k w e. by apply (installed_program s).
Qed.
End Claims.
