(* ===== verification/Svc.v ===== *)
(** * The kernel's entry points

    Reset, interrupts and the 23 supervisor calls: kernel.c lines 1109-1420.  A call
    works on the interrupted context, which the handler may change; strings and
    buffers are read from and written to user memory here. *)

From S2P Require Import Prelude CMonad Layout BlockDev Kernel Sched MQueue FsOps Dir Posix.

(** What the uninitialised stack variables of the handlers hold. *)
Record junk := mk_junk {
  j_dir : list dir_t;
  j_inode : inode_t;
  j_entry : Z;
  j_priority : Z;
}.

(** The longest user string the model follows. *)
Definition STRING_MAX : nat := 4096.

Section Ops.
Context {D : Type} `{BlockDevice D}.
Local Abbreviation K := (M (kernel D)).

(** ** The console *)

Definition putc (x : Z) : K unit := modify (fun s => set_k_out (k_out s ++ [u8 x]) s).

(** Waits for a character; with none to come the wait does not end. *)
Definition getc : K Z :=
  i ← gets k_in;
  match i with
  | [] => lift Hang
  | c :: rest => modify (set_k_in rest) ;; mret (u8 c)
  end.

Definition put_bytes (bs : list Z) : K unit :=
  for_do (length bs) 0 (fun k => x ← lift (aget bs k); putc x).

(** ** Registers, as the handler sees them *)

Definition reg (c : ctx_t) (i : nat) : Z := nth i (gpr c) 0.
Definition ret (v : Z) (c : ctx_t) : ctx_t := set_gpr 0 v c.

(** A call on a user string: the string is read, and what the call left of it is
    stored back. *)
Definition with_string {A} (a : Z) (f : list Z -> K (A * list Z)) : K A :=
  s ← mem_string STRING_MAX a;
  '(x, s') ← f s;
  mem_write a s' ;;
  mret x.

(** ** Reset *)

Definition or_hw (r : hwreg) (v : Z) : K unit :=
  modify (fun s => set_k_hw (fun r' => if bool_decide (r' = r) then Z.lor (k_hw s r) v
                                       else k_hw s r') s).
Definition set_hw (r : hwreg) (v : Z) : K unit :=
  modify (fun s => set_k_hw (fun r' => if bool_decide (r' = r) then v else k_hw s r') s).

(** The file descriptors of process 0 are cleared, those of the others are not. *)
Definition kernel_handler_rst (im : image) : K ctx_t :=
  let c := mk_ctx 0x50 (u32 (entry_init im)) (replicate 13 0) (u32 (tos_init im)) 0 in
  upd Pcb 0 (fun _ => mk_pcb 0 0 c EXECUTING 1 1 (replicate 16 None)) ;;
  modify (set_k_current (Some 0)) ;;
  modify (set_k_rq_size 0) ;;
  rq_add 0 ;;
  f ← gets k_fs;
  b ← disk_rd 1 (Some (enc f));
  b ← deref b;
  modify (set_k_fs (dec b)) ;;
  modify (set_k_cwd (u32 ROOT_DIR)) ;;
  or_hw UART0_IMSC 0x10 ;;
  set_hw UART0_CR 0x301 ;;
  set_hw TIMER0_Load 0x1000 ;;
  set_hw TIMER0_Ctrl 0x02 ;;
  or_hw TIMER0_Ctrl 0x40 ;;
  or_hw TIMER0_Ctrl 0x20 ;;
  or_hw TIMER0_Ctrl 0x80 ;;
  set_hw GICC0_PMR 0xF0 ;;
  or_hw GICD0_ISENABLER1 0x10 ;;
  or_hw GICD0_ISENABLER1 0x1000 ;;
  set_hw GICC0_CTLR 1 ;;
  set_hw GICD0_CTLR 1 ;;
  set_hw CPSR_I 0 ;;
  mret c.

(** ** Interrupts: [id] is what the controller's IAR says *)

Definition GIC_SOURCE_TIMER0 : Z := 36.
Definition GIC_SOURCE_UART0 : Z := 44.

Definition kernel_handler_irq (c : ctx_t) (id : Z) : K ctx_t :=
  c ← (if id =? GIC_SOURCE_TIMER0 then
         c ← scheduler c;
         set_hw TIMER0_IntClr 1 ;;
         mret c
       else if id =? GIC_SOURCE_UART0 then
         me ← cur;
         c ← (if negb (pid me =? 0) then
                upd Pcb 0 (set_defp 0x7FFFFFFF) ;;
                upd Pcb 0 (set_prio 0x7FFFFFFF) ;;
                scheduler c
              else mret c);
         set_hw UART0_ICR 0x10 ;;
         mret c
       else mret c);
  set_hw GICC0_EOIR id ;;
  mret c.

(** ** Supervisor calls *)

Definition svc_write (c : ctx_t) : K ctx_t :=
  let f := s32 (reg c 0) in
  if f =? STDIO then
    let n := s32 (reg c 2) in
    for_do (Z.to_nat n) 0 (fun k => x ← gets (fun s => mem_byte s (reg c 1 + k)); putc x) ;;
    mret (ret n c)
  else
    data ← mem_read (reg c 1) (Z.to_nat (s32 (reg c 2)));
    r ← fwrite f data (s32 (reg c 2));
    mret (ret r c).

(** The echo loop: it ends after [n] characters or a carriage return, and the call
    returns [n] either way. *)
Definition svc_read (c : ctx_t) : K ctx_t :=
  let f := s32 (reg c 0) in
  if f =? STDIO then
    let n := s32 (reg c 2) in
    _ ← for_find (Z.to_nat n) 0 (fun k =>
      x ← getc;
      mem_write (reg c 1 + k) [x] ;;
      if x =? 13 then putc 10 ;; mret (Some tt)
      else putc x ;; mret None);
    mret (ret n c)
  else
    '(r, data) ← fread f (s32 (reg c 2));
    mem_write (reg c 1) data ;;
    mret (ret r c).

(** A receive or send that returned -1 gives the processor away. *)
Definition resched (c : ctx_t) : K ctx_t :=
  if reg c 0 =? NOADDR then scheduler c else mret c.

(** The names of the first [n] entries of the block in the buffer, a line each. *)
Definition ls_block (buf : option (list Z)) (n : nat) : K unit :=
  for_do n 0 (fun j =>
    b ← deref buf;
    d ← lift (aget (dec_arr 16 b) j);
    for_do (Z.to_nat (d_namlen d)) 0 (fun k => x ← lift (aget (d_name d) k); putc x) ;;
    putc 10).

Definition svc_ls (c : ctx_t) : K ctx_t :=
  w ← gets k_cwd;
  i ← readInode zero_inode (s32 w);
  let dirs := ic_size (i_ic i) / 32 in
  let blks := Z.quot (dirs - 1) 16 + 1 in
  let r := dirs mod 16 in
  buf ← for_fold (Z.to_nat (blks - 1)) 0 (fun k buf =>
    a ← lift (aget (ic_db (i_ic i)) k);
    buf ← disk_rd a buf;
    ls_block buf 16 ;;
    mret buf) None;
  a ← lift (aget (ic_db (i_ic i)) (blks - 1));
  buf ← disk_rd a buf;
  ls_block buf (Z.to_nat r) ;;
  mret c.

(** The block of a new directory: entries [.] and [..] over whatever the stack held. *)
Definition mkdir_entries (child parent : Z) (ds : list dir_t) : list dir_t :=
  alter (fun d => mk_dir parent 2 (<[1%nat := 46]> (<[0%nat := 46]> (d_name d)))) 1%nat
    (alter (fun d => mk_dir child 1 (<[0%nat := 46]> (d_name d))) 0%nat ds).

Definition svc_mkdir (j : junk) (c : ctx_t) : K ctx_t :=
  child ← getFreeInode (j_inode j);
  match child with
  | None => mret (ret (-1) c)
  | Some child =>
      w ← gets k_cwd;
      parent ← readInode zero_inode (s32 w);
      let child := set_size 64 (set_mode (mode_val IFDIR) child) in
      a ← balloc;
      let child := set_db (<[0%nat := a]> (ic_db (i_ic child))) child in
      disk_wr a (enc_arr (mkdir_entries (i_number child) (i_number parent) (j_dir j))) ;;
      writeInode child ;;
      name ← mem_string STRING_MAX (reg c 0);
      _ ← addInodeToDirectory parent (i_number child) name;
      mret (ret 0 c)
  end.

Definition svc_mv (c : ctx_t) : K ctx_t :=
  first ← gets (fun s => mem_byte s (reg c 0));
  if first =? 46 then mret (ret (-1) c)
  else
    ino ← with_string (reg c 1) (fun p => path_to_ino p ROOT_DIR);
    if ino =? -1 then mret c
    else
      dest ← readInode zero_inode ino;
      if negb (ic_mode (i_ic dest) =? mode_val IFDIR) then mret c
      else
        w ← gets k_cwd;
        i ← readInode zero_inode (s32 w);
        name ← mem_string STRING_MAX (reg c 0);
        '(r, d, _) ← remove zero_dir i name;
        when (negb (r =? -1)) (_ ← addInodeToDirectory dest (d_ino d) (d_name d); mret tt) ;;
        write_sb ;;
        mret c.

Definition svc_cp (j : junk) (c : ctx_t) : K ctx_t :=
  first ← gets (fun s => mem_byte s (reg c 0));
  if first =? 46 then mret (ret (-1) c)
  else
    w ← gets k_cwd;
    ino ← with_string (reg c 0) (fun p => path_to_ino p (s32 w));
    if ino =? -1 then mret c
    else
      src ← readInode zero_inode ino;
      if ic_mode (i_ic src) =? mode_val IFZERO then mret c
      else
        '(_, dest) ← copyInode (j_inode j) src;
        w ← gets k_cwd;
        dir ← readInode src (s32 w);
        name ← mem_string STRING_MAX (reg c 1);
        _ ← addInodeToDirectory dir (i_number dest) name;
        write_sb ;;
        mret c.

Definition kernel_handler_svc (im : image) (j : junk) (c : ctx_t) (id : Z) : K ctx_t :=
  let r0 := reg c 0 in
  let r1 := reg c 1 in
  let r2 := reg c 2 in
  match id with
  | 0x00 => scheduler c
  | 0x01 => svc_write c
  | 0x02 => svc_read c
  | 0x03 => r ← fork c; mret (ret r c)
  | 0x04 =>
      '(r, c) ← with_string r0 (fun p =>
        '(r, c, p) ← exec im (j_entry j) (j_priority j) c p; mret ((r, c), p));
      mret (ret r c)
  | 0x05 => r ← lseek (s32 r0) r1 (s32 r2); mret (ret r c)
  | 0x06 => kill (s32 r0) r1 ;; mret c
  | 0x07 => me ← cur; kill (pid me) r0 ;; scheduler c
  | 0x08 => r ← mq_open (s32 r0); mret (ret r c)
  | 0x09 => r ← mq_send (s32 r0) r1 r2; resched (ret r c)
  | 0x0a => r ← mq_receive (s32 r0) r1 r2; resched (ret r c)
  | 0x0b => wipe im (j_dir j) ;; mret c
  | 0x0c => r ← with_string r0 (fun p => open p (s32 r1)); mret (ret r c)
  | 0x0d => r ← close (s32 r0); mret (ret r c)
  | 0x0e => putc 47 ;; mret c
  | 0x0f => svc_ls c
  | 0x10 => svc_mkdir j c
  | 0x11 => r ← with_string r0 cd; mret (ret r c)
  | 0x12 => n ← mem_string STRING_MAX r0; r ← unlink n; mret (ret r c)
  | 0x13 => svc_mv c
  | 0x14 => svc_cp j c
  | 0x15 => r ← tell (s32 r0); mret (ret r c)
  | 0x16 => r ← mq_unlink (s32 r0); mret (ret r c)
  | _ => mret c
  end.
End Ops.
