(* ===== verification/Mkdir.v ===== *)
(** * Making directories

    Call 0x10: a new inode with a block of two entries, and an entry in the current
    directory. *)

From S2P Require Import Prelude CMonad Layout BlockDev Kernel FsOps FreeList InodeProof BlockMap FileRep FileGrow Dir Posix FileIO DirProof PathProof Create OpenProof Volume VolumeIO VolumeTree VolumeCalls Svc.

(** What the stack holds has the shape of the structures it is used for. *)
Record junk_wf (j : junk) : Prop := {
  jw_inode : lwf (i_ic (j_inode j));
  jw_len : length (j_dir j) = 16%nat;
  jw_dir : Forall lwf (j_dir j);
}.

(** The stack held a dot where the second byte of the first entry's name goes. *)
Definition dotted (j : junk) : bool :=
  match j_dir j with [] => false | d :: _ => nth 1 (d_name d) 0 =? 46 end.

(** The inode of the new directory: two entries in block [a], the other addresses from
    the stack. *)
Definition new_dir (j : junk) (a : Z) : icommon_t :=
  mk_icommon (mode_val IFDIR) 64 (<[0%nat := a]> (ic_db (i_ic (j_inode j)))) (ic_ib (i_ic (j_inode j))).

Lemma new_dir_wf j a : junk_wf j -> is_u32 a -> lwf (new_dir j a).
Proof.
  intros [Hi _ _] Ha. unfold new_dir. cbn in *. unfold is_u32 in *. rewrite length_insert.
  split_and!; try tauto; try lia. apply Forall_insert; [tauto|lia].
Qed.

Lemma new_dir_first j a : junk_wf j -> ic_db (new_dir j a) !! 0%nat = Some a.
Proof. intros [Hi _ _]. destruct (ic_lists _ Hi) as [Hl _]. apply list_lookup_insert_eq. lia. Qed.

Lemma mkdir_entries_wf n dir j : junk_wf j -> is_u32 n -> is_u32 dir ->
  length (mkdir_entries n dir (j_dir j)) = 16%nat /\ Forall lwf (mkdir_entries n dir (j_dir j)).
Proof.
  intros [_ Hl Hw] Hn Hd. unfold mkdir_entries. rewrite !length_alter. split; [done|].
  assert (Halt : forall (f : dir_t -> dir_t) k ds, Forall lwf ds -> (forall d, lwf d -> lwf (f d)) -> Forall lwf (alter f k ds))
    by (intros f k ds Hds Hf; apply Forall_alter; [done|]; intros d _; apply Hf).
  apply Halt; [apply Halt; [done|]|]; intros d (_ & _ & Hdl & Hb); cbn; rewrite !length_insert;
    split_and!; try done; repeat apply Forall_insert; done.
Qed.

(** Reading a string depends on nothing but the memory. *)
Lemma mem_string_ext {D} (s t : kernel D) k a w :
  k_mem t = k_mem s -> mem_string k a s = Done (w, s) -> mem_string k a t = Done (w, t).
Proof.
  intros Em. revert a w. induction k as [|k IH]; intros a w; cbn [mem_string]; [done|].
  assert (Eb : mem_byte t a = mem_byte s a) by (unfold mem_byte; by rewrite Em).
  intros (c & u & [= <- <-] & Hr)%run_bind_inv. apply wp_run. wp_steps. rewrite Eb.
  destruct (mem_byte s a =? 0); [injection Hr as <-; by wp_steps|].
  apply run_bind_inv in Hr as (rest & u & Hr & [= <- ->]). wp_step.
  apply wp_done. exists rest, t. split; [by apply IH|]. by wp_steps.
Qed.

Section Mkdir.
Context {D : Type} `{BlockDeviceLaws D}.
Implicit Types (s t : kernel D) (L w : list Z) (j : junk) (c : ctx_t).

(** The block taken from the free list, written. *)
Lemma fresh_block_put s u a L n x d1 :
  fs_rep s (a :: L) -> fs_rep u L -> fs_frame sb_only s u -> disk_put a x (k_disk u) d1 ->
  let u1 := set_k_disk d1 u in
  fs_rep u1 L /\ fs_frame (fresh_only s n a) s u1 /\
  forall k, is_ino (k_fs s) k -> inode_at (k_fs u1) (k_disk u1) k = inode_at (k_fs s) (k_disk s) k.
Proof.
  intros Hs Hu Hfu Hput u1. pose proof (fr_geo _ _ Hs) as Hg. pose proof (Forall_inv (fr_data _ _ Hs)) as Ha.
  pose proof (fr_nodup _ _ Hs) as Hnd. apply list.NoDup_cons in Hnd as [HaL _].
  assert (Hfr : fs_frame (fun b => b = 1 \/ b = a) s u1).
  { apply (fs_frame_trans _ _ u); [by revert Hfu; apply fs_frame_mono; left|].
    apply fs_frame_disk. intros b Hb Hex. by rewrite (proj2 Hput), decide_False by tauto. }
  split_and!.
  - apply (fs_rep_data u a x); try done. by apply (data_addr_frame (k_fs s)); [apply Hfu|].
  - revert Hfr. apply fs_frame_mono. intros b [->|Hb]; [by left; left|by right].
  - intros k Hk. apply (fs_frame_inode _ s u1 k Hfr Hg Hk).
    pose proof (inode_blk_range _ _ Hg Hk). unfold data_addr in Ha. lia.
Qed.

Lemma wp_svc_mkdir j c s a L L' n w (Q : ctx_t -> kernel D -> Prop) :
  let dir := k_cwd s in
  is_dir s (a :: L) dir -> ~ is_free (k_fs s) (k_disk s) dir -> dir < 2 ^ 31 -> junk_wf j ->
  mem_string STRING_MAX (reg c 0) s = Done (c_str w, s) -> is_name w ->
  is_ino (k_fs s) n -> is_free (k_fs s) (k_disk s) n -> n < 2 ^ 31 ->
  (forall m, 0 <= m < n -> ~ is_free (k_fs s) (k_disk s) m) ->
  dir_count s dir < 16 * MAXBLKS -> entry_rest (dir_count s dir) L = Some L' ->
  (forall t, made s (a :: L) dir n a (new_dir j a) w t L' ->
     dir_entries (k_disk t) (new_dir j a) 2 = take 2 (mkdir_entries n dir (j_dir j)) -> Q (ret 0 c) t) ->
  wp (svc_mkdir j c) Q s.
Proof.
  intros dir Hd Hused Hd31 Hj Hname Hw Hn Hfree Hn31 Hmin Hm Hrest HQ.
  pose proof (dr_fs _ _ _ _ Hd) as Hs. pose proof (fr_geo _ _ Hs) as Hg.
  pose proof (dr_ino _ _ _ _ Hd) as Hdino. cbn [i_number inode_of] in Hdino.
  pose proof (proj1 Hn) as Hn0. pose proof (proj1 Hdino) as Hd0.
  assert (Hne : n <> dir) by by intros ->.
  pose proof (Forall_inv (fr_data _ _ Hs)) as Ha. destruct (data_addr_s32 _ _ Hg Ha) as (_ & Hau & _).
  assert (Hau32 : is_u32 a) by (rewrite <-Hau; apply u32_range).
  pose proof (new_dir_wf j a Hj Hau32) as Hic.
  destruct (mkdir_entries_wf n dir j Hj) as [Hlen Hwf]; [unfold is_u32; lia..|].
  set (ents := mkdir_entries n dir (j_dir j)) in *.
  assert (Hblock : is_block (enc_arr ents)) by (split; [by rewrite length_enc_arr, Hlen|by apply enc_arr_bytes]).
  unfold svc_mkdir. wp_step. apply (wp_getFreeInode_at s _ n); [apply Hs..|done|done|done|].
  wp_steps. fold dir. rewrite s32_small by lia.
  apply wp_readInode; [apply Hs|apply Hs|apply Hs|done|]. wp_steps.
  change (mk_inode dir (i_links zero_inode) _) with (inode_of s dir 0).
  apply (wp_balloc s (a :: L)); [done|]. intros u Hu Hfu. wp_steps.
  cbn [i_number fresh_inode set_size set_mode set_number set_db i_ic ic_db inode_of]. fold ents.
  pose proof (fr_nodup _ _ Hs) as Hnd. apply list.NoDup_cons in Hnd as [HaL _].
  pose proof (data_addr_frame (k_fs s) (k_fs u) a (proj2 (proj2 (ff_geo _ _ _ Hfu))) Ha) as Hau'.
  pose proof (data_addr_valid (k_fs u) a (fr_geo _ _ Hu) Hau') as Hva.
  apply wp_put_block; [apply Hu|done|done|]. intros d1 Hput1. wp_steps.
  destruct (fresh_block_put s u a L n (enc_arr ents) d1) as (Hu1 & Hfu1 & Hold); try done. set (u1 := set_k_disk d1 u) in *.
  apply wp_writeInode; [apply Hu1|apply Hu1|by apply (is_ino_frame _ s _ _ Hfu1)|exact Hic|].
  intros d' Hd'. wp_steps. change (inode_put (k_fs u1) n (new_dir j a) (k_disk u1) d') in Hd'.
  destruct (fresh_inode_put s u1 a L n (new_dir j a) d') as (Hv & Hfv & Hino_v); try done; [by intros k Hk _; apply Hold|].
  apply wp_done. exists (c_str w), (set_k_disk d' u1). split.
  { apply (mem_string_ext s); [|done]. destruct (ff_rest _ _ _ Hfu) as (f & d & ->). done. }
  wp_steps. apply (wp_enter s _ L L' a dir n (new_dir j a) w); try done; [by apply new_dir_first|].
  intros t i' Hmade Hta. wp_steps. apply HQ; [done|].
  assert (Hblk : dev_blk (k_disk t) a = enc_arr ents).
  { rewrite Hta. destruct Hd' as (_ & _ & Hoth). cbn [k_disk set_k_disk]. rewrite Hoth; [|done|].
    - unfold u1. cbn [k_disk set_k_disk]. by rewrite (proj2 Hput1), decide_True.
    - pose proof (inode_blk_range _ _ (fr_geo _ _ Hu1) (is_ino_frame _ s _ _ Hfu1 Hn)).
      unfold data_addr in Hau'. unfold u1 in *. cbn [k_fs set_k_disk] in *. lia. }
  unfold dir_entries. rewrite (dir_entries_block (k_disk t) (new_dir j a) 0 2) by lia.
  rewrite blk_addr_direct by lia. unfold db_at. rewrite (nth_lookup_Some _ _ _ a) by by apply new_dir_first.
  rewrite Hblk. unfold blk_entries. rewrite <-Hlen. by rewrite dec_enc_arr.
Qed.

(** What a name is in the new directory. *)
Lemma mkdir_lookup s t a L L' n w j :
  junk_wf j -> made s L (k_cwd s) n a (new_dir j a) w t L' ->
  dir_entries (k_disk t) (new_dir j a) 2 = take 2 (mkdir_entries n (k_cwd s) (j_dir j)) ->
  is_ino (k_fs s) n -> n < 2 ^ 31 -> is_ino (k_fs s) (k_cwd s) -> k_cwd s < 2 ^ 31 ->
  dir_find t n [46] = n /\
  dir_find t n [46; 46] = if dotted j then n else k_cwd s.
Proof.
  intros [_ Hl Hw] Hmade He [Hn0 _] Hn31 [Hd0 _] Hd31.
  assert (Hf : forall v, dir_find t n v =
            default (-1) (lookup_name v (take 2 (mkdir_entries n (k_cwd s) (j_dir j))))).
  { intros v. unfold dir_find, dir_count. rewrite (cr_inode _ _ _ _ _ _ _ _ _ Hmade). by rewrite <-He. }
  rewrite !Hf. unfold dotted. destruct (j_dir j) as [|d [|d' ds]]; [done..|].
  apply list.Forall_cons in Hw as [(_ & _ & Hdl & _) [(_ & _ & Hdl' & _) _]%list.Forall_cons].
  destruct d as [i k [|x [|y nm]]], d' as [i' k' [|x' [|y' nm']]]; try done.
  cbn. unfold matches. cbn. rewrite !s32_small by lia. split; [done|]. destruct (Z.eqb_spec y 46) as [->|Hy]; [done|].
  by rewrite bool_decide_eq_false_2 by by intros [= ?].
Qed.

(** The limits of [mkdir], which it does not check. *)
Definition mkdir_ok s j c : Prop :=
  junk_wf j /\
  (exists w, mem_string STRING_MAX (reg c 0) s = Done (c_str w, s) /\ is_name w) /\
  dir_count s (k_cwd s) < 16 * MAXBLKS /\ room s 3 /\
  ((exists n, is_ino (k_fs s) n /\ is_free (k_fs s) (k_disk s) n /\ n < 2 ^ 31) \/
   forall n, is_ino (k_fs s) n -> ~ is_free (k_fs s) (k_disk s) n).

Lemma wp_mkdir_full j c s L (Q : ctx_t -> kernel D -> Prop) :
  fs_rep s L -> (forall n, is_ino (k_fs s) n -> ~ is_free (k_fs s) (k_disk s) n) ->
  Q (ret (-1) c) s -> wp (svc_mkdir j c) Q s.
Proof.
  intros Hs Hfull HQ. unfold svc_mkdir. wp_step. apply wp_getFreeInode; [apply Hs|apply Hs|apply Hs| |].
  - intros n Hn Hf. by destruct (Hfull n Hn).
  - intros _. by wp_steps.
Qed.

(** A new directory leads to itself and to its parent, so the tree is one still. *)
Lemma volume_mkdir j c s L :
  volume s L -> mkdir_ok s j c -> wp (svc_mkdir j c) (fun _ => kept tt) s.
Proof.
  intros Hv (Hj & (w & Hname & Hw) & Hm & Hroom & Hfree).
  pose proof Hv as [Ht Hfd Hh Hfl Htr]. pose proof (fl_fs s L Hfl) as Hs. destruct (tr_cwd s Htr) as (Hl & Hd & Hd31).
  destruct Hfree as [(m & Hmi & Hmf & Hm31)|Hfull]; [|apply (wp_mkdir_full j c s L _ Hs Hfull); by exists L].
  destruct (lowest_free_inode _ _ m Hmi Hmf) as (n & Hn & Hnf & Hnm & Hmin). specialize (Hroom L Hs).
  destruct L as [|a L1]; [cbn in Hroom; lia|].
  destruct (entry_rest_some (dir_count s (k_cwd s)) L1) as [L' HL']; [cbn in Hroom; lia|].
  apply (wp_svc_mkdir j c s a L1 L' n w); try done; [by apply live_is_dir|apply Hl|lia|].
  intros t Hmade He. exists L'. assert (Hn31 : n < 2 ^ 31) by lia.
  pose proof (proj1 Hn) as Hn0. pose proof (proj1 (proj1 Hl)) as Hd0.
  apply (volume_made s t (a :: L1) L' w (k_cwd s) n a (new_dir j a)); try done; [by left|..].
  - split_and!; [done|unfold nblks; by rewrite decide_True|by apply new_dir_first].
  - intros _. split; [done|]. intros e. unfold entries, dir_count. rewrite (cr_inode _ _ _ _ _ _ _ _ _ Hmade).
    change (ic_size (new_dir j a) / 32) with 2. rewrite He.
    destruct Hj as [_ Hlen _]. destruct (j_dir j) as [|d [|d' ds]]; [done..|].
    cbn. intros [->|[->|[]%not_elem_of_nil]%elem_of_cons]%elem_of_cons; cbn; [by split; [|left]|].
    split; [done|]. by right.
Qed.
End Mkdir.

(** * The property of mkdir *)

Section Claims.
Context {D : Type} `{BlockDeviceLaws D}.
Implicit Types (s t : kernel D) (L w : list Z) (j : junk) (c : ctx_t).

(** C22: mkdir.  In a directory with room, and with an inode and blocks to spare, the call
    answers 0: it takes the free inode with the lowest number and the top block of the
    free list, the inode is a directory of two entries in that block, the current
    directory has one entry more, with the name, and no third inode changes.  In the new
    directory [.] is itself; [..] is the current directory, unless the stack held a dot
    behind the one of the first entry, whose name is not cleared and which is then taken
    for [..].  The new directory is found under its name, but for the sixteenth entry of
    a block. *)
Theorem svc_mkdir_makes j c s a L L' n w :
  let dir := k_cwd s in
  is_dir s (a :: L) dir -> ~ is_free (k_fs s) (k_disk s) dir -> dir < 2 ^ 31 -> junk_wf j ->
  mem_string STRING_MAX (reg c 0) s = Done (c_str w, s) -> is_name w ->
  is_ino (k_fs s) n -> is_free (k_fs s) (k_disk s) n -> n < 2 ^ 31 ->
  (forall m, 0 <= m < n -> ~ is_free (k_fs s) (k_disk s) m) ->
  dir_count s dir < 16 * MAXBLKS -> entry_rest (dir_count s dir) L = Some L' ->
  exists t, svc_mkdir j c s = Done (ret 0 c, t) /\ made s (a :: L) dir n a (new_dir j a) w t L' /\
    dir_find t n [46] = n /\ dir_find t n [46; 46] = (if dotted j then n else dir) /\
    (lookup_name w (dir_entries (k_disk s) (inode_at (k_fs s) (k_disk s) dir) (dir_count s dir)) = None ->
     (dir_count s dir + 1) mod 16 <> 0 -> dir_find t dir w = n).
Proof.
  intros dir Hd Hused Hd31 Hj Hname Hw Hn Hfree Hn31 Hmin Hm Hrest.
  assert (Hwp : wp (svc_mkdir j c) (fun r t => r = ret 0 c /\ made s (a :: L) dir n a (new_dir j a) w t L' /\
      dir_entries (k_disk t) (new_dir j a) 2 = take 2 (mkdir_entries n dir (j_dir j))) s)
    by by apply (wp_svc_mkdir j c s a L L' n w).
  apply wp_done in Hwp as (r & t & Hrun & -> & Hmade & He). exists t. split; [done|]. split; [done|].
  destruct (mkdir_lookup s t a (a :: L) L' n w j Hj Hmade He Hn Hn31 (dr_ino _ _ _ _ Hd) Hd31) as [H1 H2].
  split; [done|]. split; [done|]. intros Hnone Hmod. by apply (made_found s (a :: L) dir n a (new_dir j a) w t L').
Qed.

(** With no inode free the call answers -1 and nothing changes. *)
Lemma svc_mkdir_full j c s L :
  fs_rep s L -> (forall n, is_ino (k_fs s) n -> ~ is_free (k_fs s) (k_disk s) n) ->
  svc_mkdir j c s = Done (ret (-1) c, s).
Proof. intros Hs Hfull. by apply wp_run, (wp_mkdir_full j c s L). Qed.
End Claims.

(** ** A witness: [mkdir new] in the root directory of the volume of PathProof.v *)

Definition demo_junk (x : Z) : junk :=
  mk_junk (replicate 16 (mk_dir 7 9 (replicate 26 x))) zero_inode 0 0.

Lemma demo_junk_wf x : is_byte x -> junk_wf (demo_junk x).
Proof.
  intros Hx. split; [by apply (bool_decide_unpack _)|done|]. apply Forall_replicate.
  split_and!; [done|done|done|by apply Forall_replicate].
Qed.

Definition demo_mkdir : kernel MemDisk := set_k_mem (list_to_map [(0, 110); (1, 101); (2, 119)]) demo_state.

Definition demo_mkdir_ctx : ctx_t := mk_ctx 0x50 0 (replicate 13 0) 0 0.

Lemma svc_mkdir_makes_witness :
  exists t, svc_mkdir (demo_junk 46) demo_mkdir_ctx demo_mkdir = Done (ret 0 demo_mkdir_ctx, t) /\
    dir_find t 0 [110; 101; 119] = 3 /\ dir_find t 3 [46; 46] = 3.
Proof.
  destruct (svc_mkdir_makes (demo_junk 46) demo_mkdir_ctx demo_mkdir 21 [20] [20] 3 [110; 101; 119])
    as (t & Hr & _ & _ & Hdd & Hf).
  - destruct (demo_is_dir 0) as [[] [] H1 H2 H3]; [by left|]. by split.
  - vm_compute. done.
  - done.
  - by apply demo_junk_wf.
  - vm_compute. reflexivity.
  - apply demo_name.
  - by split.
  - vm_compute. done.
  - done.
  - intros m Hm. assert (m = 0 \/ m = 1 \/ m = 2) as [-> |[-> | ->]] by lia; vm_compute; done.
  - vm_compute. done.
  - vm_compute. reflexivity.
  - exists t. split; [exact Hr|]. split; [|exact Hdd]. apply Hf; vm_compute; done.
Defined.
