(* ===== verification/Listing.v ===== *)
(** * Listing the current directory

    Call 0x0f prints the names of the entries that a lookup goes through, a line each,
    and touches nothing but the console. *)

From S2P Require Import Prelude CMonad Layout BlockDev Kernel FsOps FreeList InodeProof BlockMap FileRep FileGrow Dir Posix FileIO DirProof PathProof Create OpenProof Volume VolumeIO VolumeTree VolumeCalls Svc.

(** What is printed for an entry, and for entries. *)
Definition line (d : dir_t) : list Z := take (Z.to_nat (d_namlen d)) (d_name d) ++ [10].
Definition listing (ds : list dir_t) : list Z := concat (line <$> ds).

(** The stored length stays within the name. *)
Definition short (d : dir_t) : Prop := d_namlen d <= 26.

Lemma listing_app ds ds' : listing (ds ++ ds') = listing ds ++ listing ds'.
Proof. unfold listing. by rewrite fmap_app, concat_app. Qed.

(** The loop goes through the entries that a lookup goes through. *)
Lemma ls_split m : 0 <= m ->
  let q := Z.quot (m - 1) 16 in
  0 <= q < Z.max 1 ((m + 15) / 16) /\ (m <= 176 -> q < 11) /\
  (searched m = 16 * q + m mod 16 \/ searched m <= 0 /\ 16 * q + m mod 16 = 0).
Proof.
  intros Hm. unfold searched. destruct (Z.eqb_spec m 0) as [->|]; [split_and!; [by vm_compute..|right; by vm_compute]|].
  cbv zeta. rewrite Z.quot_div_nonneg by lia.
  pose proof (Z.div_mod (m - 1) 16). pose proof (Z.mod_pos_bound (m - 1) 16).
  pose proof (Z.div_mod m 16). pose proof (Z.mod_pos_bound m 16).
  pose proof (Z.div_mod (m + 15) 16). pose proof (Z.mod_pos_bound (m + 15) 16).
  destruct (Z.eqb_spec (m mod 16) 0); lia.
Qed.

Section Listing.
Context {D : Type} `{BlockDeviceLaws D}.
Implicit Types (s t : kernel D) (L w : list Z) (c : ctx_t).

(** [s] with [bs] printed. *)
Definition printed s (bs : list Z) : kernel D := set_k_out (k_out s ++ bs) s.

Lemma printed_app s bs bs' : printed (printed s bs) bs' = printed s (bs ++ bs').
Proof. unfold printed. cbn. by rewrite app_assoc. Qed.

Lemma printed_nil s : printed s [] = s.
Proof. unfold printed. rewrite app_nil_r. by destruct s. Qed.

Lemma wp_console_putc x s (Q : unit -> kernel D -> Prop) : is_byte x -> Q tt (printed s [x]) -> wp (putc x) Q s.
Proof. intros Hx HQ. unfold putc. wp_steps. by rewrite u8_small. Qed.

Lemma wp_line b j s (d : dir_t) (Q : unit -> kernel D -> Prop) :
  is_block b -> 0 <= j < 16 -> blk_entries b !! Z.to_nat j = Some d -> short d ->
  Q tt (printed s (line d)) ->
  wp (d ← lift (aget (dec_arr 16 b) j);
      for_do (Z.to_nat (d_namlen d)) 0 (fun k => x ← lift (aget (d_name d) k); putc x) ;; putc 10) Q s.
Proof.
  intros Hb Hj Hd Hs HQ. pose proof (Forall_lookup_1 _ _ _ _ (blk_entries_wf b Hb) Hd) as (_ & Hn & Hl & Hbytes).
  unfold short, is_u16, MAXNAMLEN in *. wp_step. apply (wp_lift _ d); [apply aget_done; [lia|exact Hd]|]. wp_step.
  apply (wp_for_do (fun k t => t = printed s (take (Z.to_nat k) (d_name d)))); [by rewrite printed_nil| |].
  - intros k t Hk ->. destruct (lookup_lt_ex (d_name d) (Z.to_nat k)) as [x Hx]; [lia|].
    wp_step. apply (wp_lift _ x); [apply aget_done; [lia|done]|].
    apply wp_console_putc; [by apply (Forall_lookup_1 _ _ _ _ Hbytes Hx)|]. rewrite printed_app. f_equal.
    replace (Z.to_nat (k + 1)) with (S (Z.to_nat k)) by lia. symmetry. by apply take_S_snoc.
  - intros t ->. apply wp_console_putc; [done|]. rewrite printed_app.
    replace (0 + Z.of_nat (Z.to_nat (d_namlen d))) with (d_namlen d) by lia. exact HQ.
Qed.

Lemma wp_ls_block b n s (Q : unit -> kernel D -> Prop) :
  is_block b -> (n <= 16)%nat -> Forall short (take n (blk_entries b)) ->
  Q tt (printed s (listing (take n (blk_entries b)))) -> wp (ls_block (Some b) n) Q s.
Proof.
  intros Hb Hn Hs HQ. unfold ls_block.
  apply (wp_for_do (fun j t => t = printed s (listing (take (Z.to_nat j) (blk_entries b)))));
    [by rewrite printed_nil| |].
  - intros j t Hj ->. destruct (lookup_lt_ex (blk_entries b) (Z.to_nat j)) as [d Hd].
    { unfold blk_entries. rewrite length_dec_arr. lia. }
    wp_step. apply (wp_lift _ b); [done|]. apply (wp_line b j _ d); [done|lia|done| |].
    + apply (Forall_lookup_1 _ _ (Z.to_nat j) _ Hs). rewrite lookup_take_lt by lia. done.
    + rewrite printed_app. f_equal. replace (Z.to_nat (j + 1)) with (S (Z.to_nat j)) by lia.
      rewrite (take_S_snoc _ _ _ Hd), listing_app. f_equal. unfold listing. cbn. by rewrite app_nil_r.
  - intros t ->. by replace (Z.to_nat (0 + Z.of_nat n)) with n by lia.
Qed.

(** Block [k], of those [ls] can reach. *)
Lemma wp_ls_read {A} s L ic n k buf t (K : option (list Z) -> M (kernel D) A) R :
  fs_rep s L -> file_rep s ic n L -> 0 <= k < 11 -> k < n -> k_disk t = k_disk s ->
  (is_block (dev_blk (k_disk s) (blk_addr (k_disk s) ic k)) ->
   wp (K (Some (dev_blk (k_disk s) (blk_addr (k_disk s) ic k)))) R t) ->
  wp (a ← lift (aget (ic_db ic) k); buf ← disk_rd a buf; K buf) R t.
Proof.
  intros Hfs Hf Hk Hn Ht HR. destruct (ic_lists _ (fi_wf _ _ _ _ Hf)) as [Hdb _].
  destruct (lookup_lt_ex (ic_db ic) (Z.to_nat k)) as [a Ha]; [lia|].
  assert (Ea : blk_addr (k_disk s) ic k = a) by (rewrite blk_addr_direct by lia; by apply nth_lookup_Some).
  destruct (file_rep_blk s ic n L k Hf) as [Hda _]; [lia|]. rewrite Ea in *.
  pose proof (data_addr_valid _ _ (fr_geo _ _ Hfs) Hda) as Hv.
  wp_step. apply (wp_lift _ a); [apply aget_done; [lia|done]|].
  wp_step. apply wp_disk_rd; rewrite ?Ht; [apply Hfs|done|]. by apply HR, dev_blk_block; [apply Hfs|].
Qed.

(** Behind them it reads past the array of block addresses. *)
Lemma svc_ls_overflow c s L :
  let dir := k_cwd s in
  is_dir s L dir -> dir < 2 ^ 31 -> 176 < dir_count s dir ->
  Forall short (dir_entries (k_disk s) (inode_at (k_fs s) (k_disk s) dir) 176) ->
  svc_ls c s = Undef.
Proof.
  intros dir Hd Hd31 H176 Hs. destruct Hd as [Hfs Hf Hino _ Hm]. cbn [inode_of i_ic i_number] in *.
  set (ic := inode_at (k_fs s) (k_disk s) dir) in *. set (m := dir_count s dir) in *.
  destruct (ls_split m Hm) as ([_ Hqn] & _). set (blks := Z.max 1 ((m + 15) / 16)) in *.
  assert (Hq : 11 <= Z.quot (m - 1) 16) by (rewrite Z.quot_div_nonneg by lia; apply Z.div_le_lower_bound; lia).
  destruct (ic_lists _ (fi_wf _ _ _ _ Hf)) as [Hdb _].
  assert (Hread : readInode zero_inode (s32 (k_cwd s)) s = Done (mk_inode dir (i_links zero_inode) ic, s)).
  { apply wp_run. rewrite s32_small by (pose proof (proj1 Hino); unfold dir in *; lia).
    apply wp_readInode; [apply Hfs|apply Hfs|apply Hfs|done|done]. }
  assert (Hout : forall B (k : Z) (K : Z -> M (kernel D) B) t, 11 <= k -> (a ← lift (aget (ic_db ic) k); K a) t = Undef).
  { intros B k K t Hk. apply run_bind_undef. unfold lift. by rewrite aget_undef by lia. }
  unfold svc_ls. rewrite run_gets, (run_bind _ _ _ _ _ Hread). cbn [i_ic]. change (ic_size ic / 32) with m. cbv zeta.
  set (q := Z.quot (m - 1) 16) in *. replace (q + 1 - 1) with q by lia.
  set (I := fun (k : Z) (_ : option (list Z)) t => exists x, t = printed s x).
  assert (Hround : forall k buf t, 0 <= k < 11 -> I k buf t ->
    wp (a ← lift (aget (ic_db ic) k); buf ← disk_rd a buf; ls_block buf 16 ;; mret buf) (I (k + 1)) t).
  { intros k buf t Hk [x ->]. apply (wp_ls_read s L ic blks); [done|done|done|lia|done|]. intros Hb. wp_step.
    apply wp_ls_block; [done|lia| |wp_steps; rewrite printed_app; by eexists].
    rewrite <-(dir_entries_block (k_disk s) ic k 16) by lia.
    replace 176 with (16 * k + 16 + (160 - 16 * k)) in Hs by lia. rewrite !dir_entries_add in Hs by lia.
    by apply Forall_app in Hs as [[_ Hs]%Forall_app _]. }
  destruct (decide (q = 11)) as [E|Hne].
  - apply run_wp_undef, (wp_for_fold I); [exists []; by rewrite printed_nil| |].
    + intros i b t Hi. apply Hround. lia.
    + intros b t _. apply Hout. lia.
  - apply run_bind_undef. apply (for_fold_undef I _ 0 11); [lia|exists []; by rewrite printed_nil| |].
    + intros i b t Hi. apply Hround. lia.
    + intros b t _. apply Hout. lia.
Qed.

Lemma wp_svc_ls c s L (Q : ctx_t -> kernel D -> Prop) :
  let dir := k_cwd s in
  let ds := dir_entries (k_disk s) (inode_at (k_fs s) (k_disk s) dir) (searched (dir_count s dir)) in
  is_dir s L dir -> dir < 2 ^ 31 -> dir_count s dir <= 176 -> Forall short ds ->
  Q c (printed s (listing ds)) -> wp (svc_ls c) Q s.
Proof.
  intros dir ds Hd Hd31 H176 Hs HQ. destruct Hd as [Hfs Hf Hino _ Hm]. cbn [inode_of i_ic i_number] in *.
  set (ic := inode_at (k_fs s) (k_disk s) dir) in *. set (m := dir_count s dir) in *.
  unfold svc_ls. wp_steps. rewrite s32_small by (pose proof (proj1 Hino); lia).
  apply wp_readInode; [apply Hfs|apply Hfs|apply Hfs|done|]. wp_steps. cbn [i_ic].
  change (inode_at (k_fs s) (k_disk s) (k_cwd s)) with ic. change (ic_size ic / 32) with m.
  destruct (ls_split m Hm) as (Hqn & Hq11 & Hsearch). set (q := Z.quot (m - 1) 16) in *.
  replace (q + 1 - 1) with q by lia. specialize (Hq11 H176). set (blks := Z.max 1 ((m + 15) / 16)) in *.
  pose proof (Z.mod_pos_bound m 16 ltac:(lia)).
  assert (Hrd : forall A k buf t (K : option (list Z) -> M (kernel D) A) R, 0 <= k <= q -> k_disk t = k_disk s ->
    (is_block (dev_blk (k_disk s) (blk_addr (k_disk s) ic k)) ->
     wp (K (Some (dev_blk (k_disk s) (blk_addr (k_disk s) ic k)))) R t) ->
    wp (a ← lift (aget (ic_db ic) k); buf ← disk_rd a buf; K buf) R t)
    by (intros A k buf t K R Hk Ht HR; apply (wp_ls_read s L ic blks); [done|done|lia|lia|done|done]).
  assert (Hentries : forall k n, 0 <= k <= q -> 0 <= n <= 16 ->
    dir_entries (k_disk s) ic (16 * k + n) =
    dir_entries (k_disk s) ic (16 * k) ++ take (Z.to_nat n) (blk_entries (dev_blk (k_disk s) (blk_addr (k_disk s) ic k)))).
  { intros k n Hk Hn. rewrite dir_entries_add by lia. by rewrite dir_entries_block by lia. }
  assert (Hds : ds = dir_entries (k_disk s) ic (16 * q + m mod 16)).
  { unfold ds. destruct Hsearch as [->|[Hle ->]]; [done|]. unfold dir_entries. by rewrite !seqZ_nil by lia. }
  assert (Hshort : forall k n, 0 <= k <= q -> 0 <= n <= 16 -> 16 * k + n <= 16 * q + m mod 16 ->
    Forall short (take (Z.to_nat n) (blk_entries (dev_blk (k_disk s) (blk_addr (k_disk s) ic k))))).
  { intros k n Hk Hn Hle. rewrite Hds in Hs.
    replace (16 * q + m mod 16) with (16 * k + n + (16 * q + m mod 16 - (16 * k + n))) in Hs by lia.
    rewrite dir_entries_add, Hentries in Hs by lia. by apply Forall_app in Hs as [[_ Hs]%Forall_app _]. }
  apply (wp_for_fold (fun k _ t => t = printed s (listing (dir_entries (k_disk s) ic (16 * k))))).
  - by rewrite printed_nil.
  - intros k buf t Hk ->. apply Hrd; [lia|done|]. intros Hb. cbv beta. wp_step.
    apply wp_ls_block; [done|lia|apply (Hshort k 16); lia|]. wp_steps.
    replace (16 * (k + 1)) with (16 * k + 16) by lia. by rewrite printed_app, Hentries, listing_app by lia.
  - intros buf t ->. replace (0 + Z.of_nat (Z.to_nat q)) with q by lia.
    apply Hrd; [lia|done|]. intros Hb. cbv beta. wp_step.
    apply wp_ls_block; [done|lia|apply (Hshort q (m mod 16)); lia|]. wp_steps.
    rewrite printed_app, <-listing_app, <-Hentries, <-Hds by lia. exact HQ.
Qed.

(** C24: [ls].  In a directory of up to 176 entries, eleven blocks, whose stored lengths stay
    within the names, the call prints the names, a line each, in the order of the
    entries, and touches nothing else: the entries it goes through are those a lookup goes
    through, so the sixteenth of a full last block is left out with the fifteen before it.
    In a larger directory it goes on to read block addresses behind the end of the
    array of direct blocks, and is undefined. *)
Theorem svc_ls_lists c s L :
  let dir := k_cwd s in
  let entries_to := dir_entries (k_disk s) (inode_at (k_fs s) (k_disk s) dir) in
  is_dir s L dir -> dir < 2 ^ 31 ->
  (dir_count s dir <= 176 -> Forall short (entries_to (searched (dir_count s dir))) ->
   svc_ls c s = Done (c, printed s (listing (entries_to (searched (dir_count s dir)))))) /\
  (176 < dir_count s dir -> Forall short (entries_to 176) -> svc_ls c s = Undef).
Proof.
  intros dir entries_to Hd Hd31. split; intros Hm Hs; [by apply wp_run, (wp_svc_ls c s L)|by apply (svc_ls_overflow c s L)].
Qed.

(** What [ls] does not check: a directory behind its direct blocks, a stored length
    behind the name. *)
Definition ls_ok s : Prop :=
  let dir := k_cwd s in
  dir_count s dir <= 176 /\
  Forall short (dir_entries (k_disk s) (inode_at (k_fs s) (k_disk s) dir) (searched (dir_count s dir))).
End Listing.

(** The three entries of the demo directory: [.], [f] and [d]. *)
Lemma svc_ls_lists_witness :
  svc_ls zero_ctx demo_state = Done (zero_ctx, printed demo_state [46; 10; 102; 10; 100; 10]).
Proof.
  assert (E : listing (dir_entries (k_disk demo_state) (inode_at (k_fs demo_state) (k_disk demo_state) 0)
    (searched (dir_count demo_state 0))) = [46; 10; 102; 10; 100; 10]) by (vm_compute; reflexivity).
  rewrite <-E. apply (proj1 (svc_ls_lists zero_ctx demo_state [21; 20] ltac:(apply demo_is_dir; by left) ltac:(done))).
  - by vm_compute.
  - by apply (bool_decide_unpack _).
Defined.
