(* ===== verification/Move.v ===== *)
(** * Moving entries

    Call 0x13: an entry of the current directory is taken out and entered in another
    directory, under the name its bytes spell. *)

From S2P Require Import Prelude CMonad Layout BlockDev Kernel FsOps FreeList InodeProof BlockMap FileRep FileGrow Dir Posix FileIO DirProof DirRemove PathProof Create Unlink OpenProof Volume VolumeIO VolumeTree VolumeCalls Svc Mkdir.

(** ** Strings that a path walk leaves alone *)

Section Strings.
Context {D : Type} `{BlockDevice D}.
Implicit Types (s t : kernel D).

(** The [n] bytes at [a] and the [m] bytes at [b] are disjoint. *)
Definition disjoint_bytes (a : Z) (n : nat) (b : Z) (m : nat) : Prop :=
  forall i j, 0 <= i < Z.of_nat n -> 0 <= j < Z.of_nat m -> u32 (b + j) <> u32 (a + i).

Lemma mem_string_store s k a w b bs :
  mem_string k a s = Done (w, s) -> disjoint_bytes a (length w) b (length bs) ->
  let t := set_k_mem (mem_store b bs (k_mem s)) s in mem_string k a t = Done (w, t).
Proof.
  intros Hw Hd t. revert a w Hw Hd. induction k as [|k IH]; intros a w; cbn [mem_string]; [done|].
  intros (c & u & [= <- <-] & Hr)%run_bind_inv Hd. apply wp_run. wp_steps.
  assert (Hsame : (0 < length w)%nat -> mem_byte t a = mem_byte s a).
  { intros Hl. unfold mem_byte. cbn [t k_mem set_k_mem]. rewrite mem_store_other; [done|].
    intros j Hj. rewrite <-(Z.add_0_r a). apply Hd; lia. }
  destruct (mem_byte s a =? 0) eqn:E.
  - injection Hr as <-. rewrite Hsame, E by (cbn; lia). by wp_steps.
  - apply run_bind_inv in Hr as (rest & u & Hr & [= <- ->]). rewrite Hsame, E by (cbn; lia). wp_step.
    apply wp_done. exists rest, t. split; [|by wp_steps]. apply IH; [done|].
    intros i j Hi Hj. replace (a + 1 + i) with (a + (i + 1)) by lia. apply Hd; cbn [length]; lia.
Qed.

Lemma length_strtok buf pos tok pos' buf' : strtok buf pos = Done (tok, pos', buf') -> length buf' = length buf.
Proof.
  unfold strtok. destruct (buf !! _) as [c|]; [|done]. destruct (c =? 0); [by intros [= _ _ <-]|].
  destruct (buf !! _) as [c'|]; [|done]. destruct (c' =? 0); intros [= _ _ <-]; [done|]. apply length_insert.
Qed.

(** A walk writes terminators into the path, and no more. *)
Lemma length_walk fuel e buf pos s e' buf' t :
  walk fuel e buf pos s = Done ((e', buf'), t) -> length buf' = length buf.
Proof.
  revert e buf pos s. induction fuel as [|fuel IH]; intros e buf pos s; cbn [walk];
    (destruct (w_tok e); [|by intros [= _ <- _]]); (destruct (w_ino e =? -1); [by intros [= _ <- _]|]); [done|].
  intros (i & s1 & _ & (ino & s2 & _ & (([tok' pos'] & buf1) & s3 & Hs & Hr)%run_bind_inv)%run_bind_inv)%run_bind_inv.
  unfold lift in Hs. destruct (strtok buf pos) as [[[]]| |] eqn:E; [|done..].
  injection Hs as <- <- <- <-. apply IH in Hr. by rewrite Hr, (length_strtok _ _ _ _ _ E).
Qed.

Lemma length_path path dir s r path' t :
  path_to_ino path dir s = Done ((r, path'), t) -> length path' = length path.
Proof.
  unfold path_to_ino, walk_path. intros ([e buf] & s1 & Hw & [= _ <- _])%run_bind_inv.
  apply run_bind_inv in Hw as (([tok pos] & buf1) & s2 & Hs & Hw).
  unfold lift in Hs. destruct (strtok path 0) as [[[]]| |] eqn:E; [|done..].
  injection Hs as <- <- <- <-. apply length_walk in Hw. by rewrite Hw, (length_strtok _ _ _ _ _ E).
Qed.
End Strings.

(** ** The move *)

(** The blocks of a directory. *)
Definition dir_owned {D} `{BlockDevice D} (s : kernel D) (n : Z) : list Z :=
  owned (k_disk s) (inode_at (k_fs s) (k_disk s) n) (Z.max 1 ((dir_count s n + 15) / 16)).

(** Entry [k], [e], of directory [from] is an entry of directory [to], named [v]. *)
Record moved {D} `{BlockDevice D} (s : kernel D) (L : list Z) (from to : Z) (k : nat) (e : dir_t) (v : list Z)
    (t : kernel D) (L' : list Z) : Prop := {
  mo_fs : fs_rep t L';
  mo_from : is_dir t L' from;
  mo_to : is_dir t L' to;
  mo_from_count : dir_count t from = dir_count s from - 1;
  mo_to_count : dir_count t to = dir_count s to + 1;
  mo_from_entries : entries t from =
    take (Z.to_nat (dir_count s from - 1))
      (<[k := dir_at (k_disk s) (inode_at (k_fs s) (k_disk s) from) (dir_count s from - 1)]> (entries s from));
  mo_to_entries : exists old, entries t to = entries s to ++ [new_entry (d_ino e) v old];
  mo_mode n : n = from \/ n = to ->
    ic_mode (inode_at (k_fs t) (k_disk t) n) = ic_mode (inode_at (k_fs s) (k_disk s) n);
  mo_inodes n : is_ino (k_fs s) n -> n <> from -> n <> to ->
    inode_at (k_fs t) (k_disk t) n = inode_at (k_fs s) (k_disk s) n;
  mo_rest : exists f d, t = set_k_disk d (set_k_fs f s);
  mo_frame : disk_frame (fun b => b ∈ dir_owned s from \/ b ∈ dir_owned s to \/ b ∈ L) s t;
  mo_from_owned : dir_owned t from ⊆ dir_owned s from;
  mo_to_owned b : b ∈ dir_owned t to -> b ∈ dir_owned s to \/ b ∈ L;
  mo_sub : L' ⊆ L;
}.

Section Move.
Context {D : Type} `{BlockDeviceLaws D}.
Implicit Types (s t u : kernel D) (L w v : list Z).

Lemma entry_rest_sub m L L' : entry_rest m L = Some L' -> L' ⊆ L.
Proof.
  unfold entry_rest. destruct (_ && _); [by apply alloc_rest_sub|]. by intros [= ->].
Qed.

(** A directory elsewhere is the same after blocks [ex] and other inodes were written. *)
Lemma is_dir_kept (ex : Z -> Prop) s t L L' n :
  is_dir s L n -> fs_rep t L' -> disk_frame ex s t -> L' ⊆ L ->
  inode_at (k_fs t) (k_disk t) n = inode_at (k_fs s) (k_disk s) n ->
  (forall b, b ∈ dir_owned s n -> ~ ex b) ->
  is_dir t L' n /\ dir_count t n = dir_count s n /\ entries t n = entries s n /\ dir_owned t n = dir_owned s n.
Proof.
  intros [Hs Hf Hn Hsz Hm] Ht Hfr Hsub E Hex. cbn [inode_of i_ic i_number] in *.
  assert (Ec : dir_count t n = dir_count s n) by (unfold dir_count; by rewrite E).
  split_and!; [|done| |].
  - unfold is_dir, inode_of. rewrite Ec, E. split; cbn [i_ic i_number]; [exact Ht| | |exact Hsz|exact Hm].
    + apply (file_rep_disk ex s t _ _ L L' Hf Hfr Hex). pose proof (fi_nodup _ _ _ _ Hf) as Hnd.
      apply list.NoDup_app in Hnd as (H1 & H2 & _). apply list.NoDup_app. split_and!; [done| |apply Ht].
      intros b Hb Hb'. apply (H2 b Hb). by apply Hsub.
    + by apply (is_ino_disk ex s t n Hfr).
  - unfold entries. rewrite Ec, E. apply (dir_entries_disk ex s t _ _ L _ Hf Hfr Hex). lia.
  - unfold dir_owned. rewrite Ec, E. by apply (owned_disk ex s t _ _ L).
Qed.

(** After the removal. *)
Lemma removed_dir s n L k t i' :
  is_dir s L n -> dir_removed s (inode_of s n 0) (dir_count s n) L k t i' ->
  is_dir t L n /\ dir_count t n = dir_count s n - 1 /\ dir_owned t n ⊆ dir_owned s n /\
  ic_mode (inode_at (k_fs t) (k_disk t) n) = ic_mode (inode_at (k_fs s) (k_disk s) n) /\
  entries t n = take (Z.to_nat (dir_count s n - 1))
    (<[k := dir_at (k_disk s) (inode_at (k_fs s) (k_disk s) n) (dir_count s n - 1)]> (entries s n)).
Proof.
  intros Hd [Hdir Hsize Hent Hino _ _ _ Hown]. set (m := dir_count s n) in *. cbn [i_number inode_of] in Hino.
  assert (Ec : dir_count t n = m - 1).
  { unfold dir_count. rewrite Hino, Hsize. cbn [i_ic set_size ic_size]. by rewrite Z.mul_comm, Z.div_mul. }
  split_and!; [|done| | |].
  - unfold is_dir, inode_of. rewrite Ec, Hino.
    destruct Hdir as [H1 H2 H3 H4 H5]. split; cbn [i_ic i_number]; try done. by rewrite Hsize in H3.
  - unfold dir_owned. by rewrite Ec, Hino.
  - rewrite Hino, Hsize. done.
  - unfold entries. rewrite Ec, Hino. exact Hent.
Qed.

Lemma added_dir s n L L' ino v t i' :
  is_dir s L n -> dir_added s (inode_of s n 0) (dir_count s n) L ino v t i' L' ->
  is_dir t L' n /\ dir_count t n = dir_count s n + 1 /\
  (forall b, b ∈ dir_owned t n -> b ∈ dir_owned s n \/ b ∈ L) /\
  ic_mode (inode_at (k_fs t) (k_disk t) n) = ic_mode (inode_at (k_fs s) (k_disk s) n) /\
  exists old, entries t n = entries s n ++ [new_entry ino v old].
Proof.
  intros Hd [Hdir (E1 & _ & E3) (old & _ & Hent) Hino _ _ _ Hown]. set (m := dir_count s n) in *.
  cbn [i_number inode_of] in *.
  assert (Ec : dir_count t n = m + 1).
  { unfold dir_count. rewrite Hino, (dr_size _ _ _ _ Hdir). by rewrite Z.mul_comm, Z.div_mul. }
  split_and!; [|done| | |].
  - unfold is_dir, inode_of. rewrite Ec, Hino.
    destruct Hdir as [H1 H2 H3 H4 H5]. split; cbn [i_ic i_number]; try done. by rewrite E1 in H3.
  - unfold dir_owned. rewrite Ec, Hino. exact Hown.
  - rewrite Hino. exact E3.
  - exists old. unfold entries. rewrite Ec, Hino. exact Hent.
Qed.

Lemma wp_move s L L' from to w k e v tl (Q : unit -> kernel D -> Prop) :
  removal_ok s (inode_of s from 0) (dir_count s from) L w -> is_dir s L to -> from <> to ->
  (forall b, b ∈ dir_owned s from -> b ∉ dir_owned s to) ->
  victim s (inode_of s from 0) (dir_count s from) w = Some (k, e) -> 
  d_name e = c_buf v tl -> is_name v -> dir_count s to < 16 * MAXBLKS ->
  entry_rest (dir_count s to) L = Some L' ->
  (forall t, moved s L from to k e v t L' -> Q tt t) ->
  wp ('(r, d, _) ← remove zero_dir (inode_of s from 0) (c_str w);
      when (negb (r =? -1)) (_ ← addInodeToDirectory (inode_of s to 0) (d_ino d) (d_name d); mret tt)) Q s.
Proof.
  intros Hro Hto Hne Hdis Hvic Hname Hv Hmax Hrest HQ. pose proof (ro_dir _ _ _ _ _ Hro) as Hfrom.
  pose proof (entry_rest_sub _ _ _ Hrest) as Hsub.
  pose proof (dr_ino _ _ _ _ Hfrom) as Hfi. pose proof (dr_ino _ _ _ _ Hto) as Hti. cbn [i_number inode_of] in Hfi, Hti.
  assert (HinL : forall n b, is_dir s L n -> b ∈ dir_owned s n -> b ∉ L).
  { intros n b Hn Hb. pose proof (fi_nodup _ _ _ _ (dr_file _ _ _ _ Hn)) as Hnd.
    apply list.NoDup_app in Hnd as (_ & H2 & _). by apply H2. }
  assert (He0 : d_ino e <> -1).
  { destruct (victim_entry s from _ w k e eq_refl Hvic) as [Hek _].
    destruct (Forall_lookup_1 _ _ _ _ (ro_inos _ _ _ _ _ Hro) Hek) as [[? _] _]. lia. }
  wp_step. apply (wp_remove s (inode_of s from 0) (dir_count s from) L w zero_dir); [done|]. rewrite Hvic. intros t i1 Hrem. wp_steps.
  destruct (Z.eqb_spec (d_ino e) (-1)) as [|_]; [done|]. unfold when. cbn [negb].
  destruct (removed_dir s from L k t i1 Hfrom Hrem) as (Hfrom1 & Ec1 & Ho1 & Hm1 & Hent1).
  pose proof (dv_frame _ _ _ _ _ _ _ Hrem) as Hfr1. cbn [i_ic inode_of] in Hfr1. fold (dir_owned s from) in Hfr1.
  pose proof (dr_fs _ _ _ _ Hfrom1) as Ht1.
  assert (Eto : inode_at (k_fs t) (k_disk t) to = inode_at (k_fs s) (k_disk s) to)
    by (apply (dv_inodes _ _ _ _ _ _ _ Hrem); [done|]; cbn; congruence).
  destruct (is_dir_kept _ s t L L to Hto Ht1 Hfr1 ltac:(done) Eto) as (Hto1 & Ect & Hentt & Hot).
  { intros b Hb Hb'. by apply (Hdis b). }
  wp_step. replace (inode_of s to 0) with (inode_of t to 0) by (unfold inode_of; by rewrite Eto).
  rewrite Hname. rewrite <-Ect in Hmax, Hrest.
  apply (wp_add_named t (inode_of t to 0) (dir_count t to) L L' (d_ino e) v tl); [done|done|done|done|].
  intros u i2 Hadd. wp_steps. apply HQ.
  destruct (added_dir t to L L' (d_ino e) v u i2 Hto1 Hadd) as (Hto2 & Ec2 & Ho2 & Hm2 & Hent2).
  pose proof (da_frame _ _ _ _ _ _ _ _ _ Hadd) as Hfr2. cbv zeta in Hfr2. cbn [i_ic inode_of] in Hfr2. fold (dir_owned t to) in Hfr2.
  assert (Efrom : inode_at (k_fs u) (k_disk u) from = inode_at (k_fs t) (k_disk t) from).
  { apply (da_inodes _ _ _ _ _ _ _ _ _ Hadd); [|done]. by apply (is_ino_disk _ s t from Hfr1). }
  pose proof (dr_fs _ _ _ _ Hto2) as Hu.
  destruct (is_dir_kept _ t u L L' from Hfrom1 Hu Hfr2 Hsub Efrom) as (Hfrom2 & Ecf & Hentf & Hof).
  { intros b Hb%Ho1 [Hb'|Hb']; [rewrite Hot in Hb'; by apply (Hdis b)|by apply (HinL from b)]. }
  split; [exact Hu|exact Hfrom2|exact Hto2|..|exact Hsub].
  - by rewrite Ecf.
  - by rewrite Ec2, Ect.
  - by rewrite Hentf.
  - by rewrite Hentt in Hent2.
  - intros n [-> | ->]; [by rewrite Efrom|by rewrite Hm2, Eto].
  - intros n Hn Hnf Hnt. rewrite (da_inodes _ _ _ _ _ _ _ _ _ Hadd); [|by apply (is_ino_disk _ s t n Hfr1)|done].
    by apply (dv_inodes _ _ _ _ _ _ _ Hrem).
  - destruct (da_rest _ _ _ _ _ _ _ _ _ Hadd) as (f & d & ->). rewrite (dv_rest _ _ _ _ _ _ _ Hrem). by exists f, d.
  - apply (disk_frame_trans _ s t).
    + revert Hfr1. apply disk_frame_mono. intros b _ Hb. by left.
    + revert Hfr2. apply disk_frame_mono. rewrite Hot. intros b _ [Hb|Hb]; right; [by left|by right].
  - by rewrite Hof.
  - intros b Hb. rewrite <-Hot. by apply Ho2.
Qed.
End Move.

(** ** The volume under a move *)

Section VolumeMove.
Context {D : Type} `{BlockDeviceLaws D}.
Variables (s t : kernel D) (L L' v : list Z) (from to : Z) (k : nat) (e : dir_t).
Hypothesis Hv : volume s L.
Hypothesis Hfrom : live s from /\ dir_mode s from.
Hypothesis Hto : live s to /\ dir_mode s to.
Hypothesis Hne : from <> to.
Hypothesis Hek : entries s from !! k = Some e.
Hypothesis Hmv : moved s L from to k e v t L'.
Local Abbreviation ch := (fun n => n = from \/ n = to).

Lemma moved_tables : k_ai t = k_ai s /\ k_oft t = k_oft s /\ k_pcb t = k_pcb s /\ k_cwd t = k_cwd s.
Proof. destruct (mo_rest _ _ _ _ _ _ _ _ _ Hmv) as (f & d & ->). done. Qed.

Lemma moved_mode n : is_ino (k_fs s) n ->
  ic_mode (inode_at (k_fs t) (k_disk t) n) = ic_mode (inode_at (k_fs s) (k_disk s) n).
Proof.
  intros Hn. destruct (decide (n = from)) as [->|Hf]; [by apply (mo_mode _ _ _ _ _ _ _ _ _ Hmv); left|].
  destruct (decide (n = to)) as [->|Ht]; [by apply (mo_mode _ _ _ _ _ _ _ _ _ Hmv); right|].
  by rewrite (mo_inodes _ _ _ _ _ _ _ _ _ Hmv).
Qed.

Lemma moved_live n : live t n <-> live s n.
Proof.
  unfold live, is_free. rewrite (is_ino_disk _ s t n (mo_frame _ _ _ _ _ _ _ _ _ Hmv)).
  split; intros [Hi Hf]; (split; [done|]); [rewrite <-moved_mode|rewrite moved_mode]; done.
Qed.

Lemma moved_dir n : live s n -> dir_mode t n <-> dir_mode s n.
Proof. intros [Hn _]. unfold dir_mode. by rewrite moved_mode. Qed.

(** The two directories, before and after. *)
Lemma moved_held n : ch n ->
  held s n = dir_owned s n /\ held t n = dir_owned t n /\ holder t n = None /\
  current_ic t n = inode_at (k_fs t) (k_disk t) n /\ live t n /\ dir_mode t n.
Proof.
  intros Hn. pose proof Hv as [_ _ _ Hfl Htr]. destruct moved_tables as (Ea & _).
  assert (Hl : live s n /\ dir_mode s n) by by destruct Hn as [-> | ->]. destruct Hl as [Hl Hd].
  assert (Hh : holder t n = None).
  { unfold holder. rewrite Ea. by apply (tr_dir s Htr n). }
  assert (Hc : current_ic t n = inode_at (k_fs t) (k_disk t) n) by (unfold current_ic; by rewrite Hh).
  assert (Hdt : dir_mode t n) by by apply moved_dir.
  split_and!; [|by unfold held; rewrite Hc, nblks_dir|done|done|by apply moved_live|done].
  unfold held. by rewrite (current_dir s n Htr Hl Hd), nblks_dir.
Qed.

Lemma moved_changes : changes ch s L t L'.
Proof.
  pose proof Hv as [_ _ _ Hfl Htr]. destruct moved_tables as (Ea & _).
  assert (Hpf : forall b, b ∈ dir_owned s from -> pool s L ch b).
  { intros b Hb. right. exists from. destruct (moved_held from) as (E & _); [by left|]. rewrite E. by split; [left|split; [apply Hfrom|]]. }
  assert (Hpt : forall b, b ∈ dir_owned s to -> pool s L ch b).
  { intros b Hb. right. exists to. destruct (moved_held to) as (E & _); [by right|]. rewrite E. by split; [right|split; [apply Hto|]]. }
  destruct (moved_held from) as (Ef & Ef' & _); [by left|]. destruct (moved_held to) as (Et & Et' & _); [by right|].
  split.
  - apply Hmv.
  - generalize (mo_frame _ _ _ _ _ _ _ _ _ Hmv). apply disk_frame_mono. intros b _ [Hb|[Hb|Hb]]; [by apply Hpf|by apply Hpt|by left].
  - intros n Hn. destruct (decide (ch n)) as [Hch|Hch]; [by destruct (moved_held n Hch) as (_ & _ & _ & -> & _)|].
    rewrite (current_other s t n Ea) by (apply (mo_inodes _ _ _ _ _ _ _ _ _ Hmv); tauto).
    rewrite (mo_inodes _ _ _ _ _ _ _ _ _ Hmv) by tauto. by apply (fl_mode s L Hfl).
  - intros n Hn Hch. pose proof (mo_inodes _ _ _ _ _ _ _ _ _ Hmv n Hn ltac:(tauto) ltac:(tauto)) as E.
    split; [by apply current_other|by rewrite E].
  - intros b Hb. left. by apply (mo_sub _ _ _ _ _ _ _ _ _ Hmv).
  - intros n Hch Hl. destruct (moved_held n Hch) as (_ & _ & _ & -> & _ & Hd). rewrite nblks_dir by done.
    destruct Hch as [-> | ->]; [apply (dr_file _ _ _ _ (mo_from _ _ _ _ _ _ _ _ _ Hmv))|
      apply (dr_file _ _ _ _ (mo_to _ _ _ _ _ _ _ _ _ Hmv))].
  - intros n b [-> | ->] Hl Hb.
    + rewrite Ef' in Hb. by apply Hpf, (mo_from_owned _ _ _ _ _ _ _ _ _ Hmv).
    + rewrite Et' in Hb. destruct (mo_to_owned _ _ _ _ _ _ _ _ _ Hmv b Hb); [by apply Hpt|by left].
  - assert (Hno : forall b, b ∈ held t from -> b ∈ held t to -> False).
    { intros b Hb Hb'. rewrite Ef' in Hb. rewrite Et' in Hb'. apply (mo_from_owned _ _ _ _ _ _ _ _ _ Hmv) in Hb.
      rewrite <-Ef in Hb. destruct (mo_to_owned _ _ _ _ _ _ _ _ _ Hmv b Hb') as [Hb2|Hb2].
      - rewrite <-Et in Hb2. by apply Hne, (fl_apart s L Hfl from to b); [apply Hfrom|apply Hto|..].
      - by destruct (held_rep s L from Hfl (proj1 Hfrom)) as [_ Hx], (Hx b Hb). }
    intros x y b [-> | ->] [-> | ->] _ _ Hb Hb'; [done| | |done]; by destruct (Hno b).
Qed.

(** Where an entry of a directory was before, but for the last of [to], which is [e]. *)
Lemma moved_entries n j x :
  live s n -> dir_mode s n -> entries t n !! j = Some x ->
  (n = to /\ j = length (entries s to) /\ d_ino x = d_ino e) \/
  exists j', entries s n !! j' = Some x /\ ~ (n = from /\ j' = k) /\
    j' = (if decide (n = from /\ j = k) then Z.to_nat (dir_count s from - 1) else j) /\
    (n = from -> (j < Z.to_nat (dir_count s from - 1))%nat) /\ (n = to -> (j < length (entries s to))%nat).
Proof.
  intros Hl Hd Hx. pose proof Hv as [_ _ _ Hfl Htr].
  destruct (decide (n = from)) as [->|Hnf]; [|destruct (decide (n = to)) as [->|Hnt]].
  - right. rewrite (mo_from_entries _ _ _ _ _ _ _ _ _ Hmv) in Hx.
    assert (Hm : 0 < dir_count s from) by (apply lookup_lt_Some in Hek; rewrite length_entries in Hek; lia).
    destruct (lookup_shrunk _ _ k _ j x Hm (length_entries s from) (entries_last s from Hm) Hx) as (j' & H1 & H2 & -> & H4).
    eexists. split; [exact H1|]. split; [by intros [_ ?]|]. split; [|by split].
    destruct (decide (j = k)) as [E|E]; [by rewrite decide_True|by rewrite decide_False by (by intros [_ ?])].
  - destruct (mo_to_entries _ _ _ _ _ _ _ _ _ Hmv) as (old & Hold). rewrite Hold in Hx.
    apply lookup_app_Some in Hx as [Hx|[Hge Hx]].
    + right. exists j. pose proof (lookup_lt_Some _ _ _ Hx). rewrite decide_False by tauto. by split_and!; [|intros []|..].
    + left. apply list_lookup_singleton_Some in Hx as [Hj <-]. split_and!; [done|lia|].
      destruct (tr_entry s Htr from e (proj1 Hfrom) (proj2 Hfrom)) as [[[? _] _] ?]; [by eapply list_elem_of_lookup_2|].
      cbn. apply u32_small. unfold is_u32. lia.
  - right. exists j. rewrite decide_False by tauto. rewrite <-Hx. split_and!; try tauto. symmetry. f_equal.
    apply (changes_entries ch s L t L'); [done|done|apply moved_changes|done|done|tauto|].
    apply (mo_inodes _ _ _ _ _ _ _ _ _ Hmv); [apply Hl|done|done].
Qed.

Lemma moved_tree : tree_ok t.
Proof.
  pose proof Hv as [_ _ _ Hfl Htr]. destruct moved_tables as (Ea & _ & _ & Ecwd).
  assert (Hback : forall n, live t n -> dir_mode t n -> live s n /\ dir_mode s n).
  { intros n Hn Hd. apply moved_live in Hn. split; [done|by apply moved_dir]. }
  pose proof (tr_entry s Htr from e (proj1 Hfrom) (proj2 Hfrom) ltac:(by eapply list_elem_of_lookup_2)) as [Hle Hse].
  split.
  - intros n Hn Hd. destruct (decide (ch n)) as [Hch|Hch].
    + destruct (moved_held n Hch) as (_ & _ & Hh & _). split; [done|].
      destruct Hch as [-> | ->]; [apply (dr_size _ _ _ _ (mo_from _ _ _ _ _ _ _ _ _ Hmv))|
        apply (dr_size _ _ _ _ (mo_to _ _ _ _ _ _ _ _ _ Hmv))].
    + destruct (Hback n Hn Hd) as [Hl Hdl]. destruct (tr_dir s Htr n Hl Hdl) as [Hh Hz].
      unfold holder, dir_count. rewrite Ea. rewrite (mo_inodes _ _ _ _ _ _ _ _ _ Hmv) by (apply Hl || tauto). done.
  - intros n x Hn Hd (j & Hj)%list_elem_of_lookup_1. destruct (Hback n Hn Hd) as [Hl Hdl].
    destruct (moved_entries n j x Hl Hdl Hj) as [(_ & _ & ->)|(j' & Hj' & _)]; [by rewrite moved_live|].
    rewrite moved_live. apply (tr_entry s Htr n x Hl Hdl). by eapply list_elem_of_lookup_2.
  - intros n n' j j' x x' Hn Hd Hn' Hd' Hx Hx' E Hr.
    destruct (Hback n Hn Hd) as [Hl Hdl], (Hback n' Hn' Hd') as [Hl' Hdl'].
    assert (Hreg : live s (d_ino x) -> ~ dir_mode s (d_ino x)) by (intros Hlx Hdx; by apply Hr, moved_dir).
    destruct (moved_entries n j x Hl Hdl Hx) as [(-> & -> & Ex)|(i1 & Hi1 & Hk1 & E1 & Hf1 & Ht1)],
      (moved_entries n' j' x' Hl' Hdl' Hx') as [(-> & -> & Ex')|(i2 & Hi2 & Hk2 & E2 & Hf2 & Ht2)]; [done|..].
    + exfalso. apply Hk2. destruct (tr_once s Htr n' from i2 k x' e) as [-> ->]; try done; [apply Hfrom..|congruence|].
      rewrite <-E. apply Hreg. by rewrite Ex.
    + exfalso. apply Hk1. destruct (tr_once s Htr n from i1 k x e) as [-> ->]; try done; [apply Hfrom..|congruence|].
      apply Hreg. by rewrite E, Ex'.
    + destruct (tr_once s Htr n n' i1 i2 x x') as [-> Ei]; try done.
      { apply Hreg. apply (tr_entry s Htr n x Hl Hdl). by eapply list_elem_of_lookup_2. }
      split; [done|]. rewrite E1, E2 in Ei. repeat case_decide; try lia; naive_solver lia.
  - destruct (tr_root s Htr) as [H1 H2]. split; [by apply moved_live|by apply moved_dir].
  - destruct (tr_cwd s Htr) as (H1 & H2 & H3). rewrite Ecwd. split; [by apply moved_live|split; [by apply moved_dir|done]].
Qed.

Lemma volume_moved : volume t L'.
Proof.
  pose proof Hv as [Ht Hfd Hh Hfl Htr]. destruct moved_tables as (Ea & Eo & Ep & Ecwd).
  pose proof (mo_frame _ _ _ _ _ _ _ _ _ Hmv) as Hfr.
  split; [|by apply (fds_ok_ext s)|by rewrite Eo| |apply moved_tree].
  - destruct Ht as []. split; rewrite ?Eo, ?Ea; try done. intros p i Hi Hu.
    destruct (to_wf p i Hi Hu) as [Hx Hw]. split; [|done]. by apply (is_ino_disk _ s t _ Hfr).
  - apply (files_change ch s L t L'); [|done|apply moved_changes]. intros n.
    destruct (decide (n = from)), (decide (n = to)); tauto.
Qed.
End VolumeMove.

(** ** The call *)

Section Call.
Context {D : Type} `{BlockDeviceLaws D}.
Implicit Types (s t u : kernel D) (L w v : list Z) (c : ctx_t).

(** Writing the superblock again changes nothing. *)
Lemma sb_kept s L d' :
  fs_rep s L -> disk_put 1 (enc (k_fs s)) (k_disk s) d' ->
  let u := set_k_disk d' s in
  fs_rep u L /\ disk_frame (fun _ => False) s u /\
  forall n, is_ino (k_fs s) n -> inode_at (k_fs u) (k_disk u) n = inode_at (k_fs s) (k_disk s) n.
Proof.
  intros Hs [Hok Hblk] u. pose proof (fr_geo _ _ Hs) as Hg.
  assert (Hfr : disk_frame (fun _ => False) s u).
  { split; [done|]. intros b Hb _. pose proof (geometry_data _ _ Hg Hb). cbn.
    rewrite Hblk, decide_False; [done|lia|by apply (data_addr_valid (k_fs s))]. }
  split_and!; [|done|].
  - apply fs_rep_disk; [done|done| |].
    + rewrite Hblk, decide_True by (done || by apply (geometry_sb_valid (k_fs s))). by rewrite (fr_sync _ _ Hs).
    + intros b Hb. apply (df_blk _ _ _ Hfr b); [|by intros []]. by apply (proj1 (list.Forall_forall _ _) (fr_data _ _ Hs)).
  - intros n Hn. apply inode_at_ext; [done|]. pose proof (inode_blk_range _ _ Hg Hn). cbn.
    rewrite Hblk, decide_False; [done|lia|by apply inode_blk_valid].
Qed.

Lemma volume_sb s L d' :
  volume s L -> disk_put 1 (enc (k_fs s)) (k_disk s) d' ->
  let u := set_k_disk d' s in
  volume u L /\ (forall n, is_ino (k_fs s) n -> inode_at (k_fs u) (k_disk u) n = inode_at (k_fs s) (k_disk s) n) /\
  forall n, live s n -> dir_mode s n -> entries u n = entries s n.
Proof.
  intros Hv Hput u. pose proof Hv as [Ht Hfd Hh Hfl Htr].
  destruct (sb_kept s L d' (fl_fs s L Hfl) Hput) as (Hu & Hfr & Hino). fold u in Hu, Hfr, Hino.
  assert (Hvu : volume u L).
  { apply (volume_same s); try done.
    - destruct Ht. by split.
    - by apply (fds_ok_ext s).
    - intros n Hn. rewrite Hino by done. split; [by apply current_other; [|apply Hino]|done].
    - intros n Hn Hd. rewrite Hino by apply Hn. split; [done|]. by apply (tr_dir s Htr n). }
  split_and!; [done..|]. intros n Hn Hd.
  apply (is_dir_kept (fun _ => False) s u L L n); [by apply live_is_dir|done..|by apply Hino, Hn|by intros b _ []].
Qed.

(** The path is followed, and its bytes are stored back. *)
Lemma wp_user_path a s L dir path v ws r ino0 tok0 left (Q : Z -> kernel D -> Prop) :
  mem_string STRING_MAX a s = Done (path, s) -> path_of path (v :: ws) ->
  resolves s L dir v ws r ino0 tok0 left ->
  (forall path', length path' = length path -> Q r (set_k_mem (mem_store a path' (k_mem s)) s)) ->
  wp (with_string a (fun p => path_to_ino p dir)) Q s.
Proof.
  intros Hm Hp Hr HQ. unfold with_string. wp_steps. apply wp_done. exists path, s. split; [done|]. wp_step.
  destruct (proj1 (wp_done _ _ _) (wp_walk_path s L path dir v ws r ino0 tok0 left
    (fun x t => walk_end s r ino0 tok0 left x.1 /\ t = s) Hp Hr ltac:(done))) as ([e path'] & t & Hw & He & ->).
  cbn [fst] in He.
  assert (Hrun : path_to_ino path dir s = Done ((r, path'), s)).
  { unfold path_to_ino. rewrite (run_bind _ _ _ _ _ Hw). cbn. by rewrite (we_ino _ _ _ _ _ _ He). }
  apply wp_done. exists (r, path'), s. split; [done|]. unfold mem_write. wp_steps.
  apply HQ. by apply (length_path path dir s r path' s).
Qed.

Lemma volume_mem s L m : volume s L -> volume (set_k_mem m s) L.
Proof.
  intros Hv. apply (volume_elsewhere s); [done| |by left]. split; try done. intros c x Hx. right. by exists x.
Qed.

(** What [mv] does once it has read the destination. *)
Definition mv_rest c (dest : inode_t) : M (kernel D) ctx_t :=
  w ← gets k_cwd;
  i ← readInode zero_inode (s32 w);
  name ← mem_string STRING_MAX (reg c 0);
  '(r, d, _) ← remove zero_dir i name;
  when (negb (r =? -1)) (_ ← addInodeToDirectory dest (d_ino d) (d_name d); mret tt) ;;
  write_sb ;;
  mret c.

(** When the destination is another directory. *)
Lemma wp_mv_tail c s L L' w to k e v tl (Q : ctx_t -> kernel D -> Prop) :
  let from := k_cwd s in
  volume s L -> live s to -> dir_mode s to -> to <> from ->
  mem_string STRING_MAX (reg c 0) s = Done (c_str w, s) -> is_name w ->
  victim s (inode_of s from 0) (dir_count s from) w = Some (k, e) -> d_name e = c_buf v tl -> is_name v ->
  dir_count s to < 16 * MAXBLKS -> entry_rest (dir_count s to) L = Some L' ->
  (forall t d', moved s L from to k e v t L' -> disk_put 1 (enc (k_fs t)) (k_disk t) d' -> Q c (set_k_disk d' t)) ->
  wp (mv_rest c (inode_of s to 0)) Q s.
Proof.
  intros from Hv Hl Hd Hne Hm Hw Hvic Hname Hvn Hmax Hrest HQ. pose proof Hv as [Ht Hfd Hh Hfl Htr].
  destruct (tr_cwd s Htr) as (Hlf & Hdf & Hsm). pose proof (fl_fs s L Hfl) as Hs. pose proof (proj1 (proj1 Hlf)).
  unfold mv_rest. wp_steps. fold from. rewrite s32_small by lia. apply wp_readInode; [apply Hs|apply Hs|apply Hs|apply Hlf|]. wp_steps.
  change (mk_inode from (i_links zero_inode) _) with (inode_of s from 0).
  apply wp_done. exists (c_str w), s. split; [done|].
  assert (Hmove : wp (remove zero_dir (inode_of s from 0) (c_str w)) (fun (x : Z * dir_t * inode_t) t0 =>
    wp ((let '(r, d, _) := x in
         when (negb (r =? -1)) (_ ← addInodeToDirectory (inode_of s to 0) (d_ino d) (d_name d); mret tt)) : M (kernel D) unit)
      (fun _ t => moved s L from to k e v t L') t0) s).
  { apply wp_unbind, (wp_move s L L' from to w k e v tl (fun _ t => moved s L from to k e v t L')); try done.
    - by apply victim_removal.
    - by apply live_is_dir.
    - intros b Hb Hb'. apply Hne. apply (fl_apart s L Hfl to from b); [done|done|..];
        unfold held; rewrite current_dir, nblks_dir by done; done. }
  wp_step. eapply wp_mono; [exact Hmove|]. intros [[r d] i'] t Hwhen. wp_step.
  eapply wp_mono; [exact Hwhen|]. intros [] u Hmv. wp_step. pose proof (mo_fs _ _ _ _ _ _ _ _ _ Hmv) as Hst.
  apply wp_write_sb; [apply Hst..|]. intros d' Hd'. wp_steps. by apply HQ.
Qed.

(** When there is nothing to move. *)
Lemma wp_mv_none c s L w dest (Q : ctx_t -> kernel D -> Prop) :
  let from := k_cwd s in
  volume s L -> mem_string STRING_MAX (reg c 0) s = Done (c_str w, s) -> is_name w ->
  victim s (inode_of s from 0) (dir_count s from) w = None ->
  (forall d', disk_put 1 (enc (k_fs s)) (k_disk s) d' -> Q c (set_k_disk d' s)) ->
  wp (mv_rest c dest) Q s.
Proof.
  intros from Hv Hm Hw Hvic HQ. pose proof Hv as [Ht Hfd Hh Hfl Htr].
  destruct (tr_cwd s Htr) as (Hlf & Hdf & Hsm). pose proof (fl_fs s L Hfl) as Hs. pose proof (proj1 (proj1 Hlf)).
  unfold mv_rest. wp_steps. fold from. rewrite s32_small by lia. apply wp_readInode; [apply Hs..|apply Hlf|]. wp_steps.
  change (mk_inode from (i_links zero_inode) _) with (inode_of s from 0).
  apply wp_done. exists (c_str w), s. split; [done|]. wp_step.
  apply (wp_remove s (inode_of s from 0) (dir_count s from) L w zero_dir); [by apply (victim_removal s L)|].
  fold from in Hvic. rewrite Hvic. wp_steps. change (when _ ?m) with (mret (M := M (kernel D)) tt). wp_steps.
  apply wp_write_sb; [apply Hs..|]. intros d' Hd'. wp_steps. by apply HQ.
Qed.

(** Up to there. *)
Lemma wp_svc_mv c s L path v ws r ino0 tok0 left (Q : ctx_t -> kernel D -> Prop) :
  volume s L -> mem_byte s (reg c 0) <> 46 ->
  mem_string STRING_MAX (reg c 1) s = Done (path, s) -> path_of path (v :: ws) ->
  follow s ROOT_DIR v ws = Some (r, ino0, tok0, left) ->
  (forall path', length path' = length path ->
     let s' := set_k_mem (mem_store (reg c 1) path' (k_mem s)) s in
     if decide (r <> -1 /\ dir_mode s r) then live s r -> wp (mv_rest c (inode_of s' r 0)) Q s' else Q c s') ->
  wp (svc_mv c) Q s.
Proof.
  intros Hv Hdot Hm Hp Hfo HQ. destruct (tr_root s (vo_tree s L Hv)) as [Hl Hd].
  destruct (follow_resolves s L _ v ws r ino0 tok0 left Hv Hl (path_of_comps _ _ Hp) Hfo) as (Hres & _ & _ & _ & Hrl).
  unfold svc_mv. wp_steps. destruct (Z.eqb_spec (mem_byte s (reg c 0)) 46); [done|]. wp_steps.
  apply (wp_user_path _ s L ROOT_DIR path v ws r ino0 tok0 left); [done..|]. intros path' Hlen. specialize (HQ path' Hlen). cbv zeta in HQ.
  set (s' := set_k_mem _ s) in *.
  destruct (Z.eqb_spec r (-1)) as [->|Hne]; [wp_steps; by rewrite decide_False in HQ by tauto|].
  destruct Hrl as [|[Hlr H0r]]; [done|]. pose proof (fl_fs s L (vo_files s L Hv)) as Hs.
  wp_steps. apply wp_readInode; [apply Hs|apply Hs|apply Hs|apply Hlr|]. wp_steps.
  change (mk_inode r (i_links zero_inode) _) with (inode_of s' r 0).
  change (ic_mode (i_ic (inode_of s' r 0))) with (ic_mode (inode_at (k_fs s) (k_disk s) r)).
  destruct (Z.eqb_spec (ic_mode (inode_at (k_fs s) (k_disk s) r)) (mode_val IFDIR)) as [E|E]; cbn [negb].
  - rewrite decide_True in HQ by done. by apply HQ.
  - wp_steps. rewrite decide_False in HQ; [done|]. by intros [_ ?].
Qed.

(** What a move leaves: the entry goes from one directory to the other, the last entry
    of the first takes its slot, and no other inode and no block of one changes. *)
Record relocated s (from to : Z) (k : nat) (e : dir_t) v t : Prop := {
  rl_from : entries t from = take (Z.to_nat (dir_count s from - 1))
    (<[k := dir_at (k_disk s) (inode_at (k_fs s) (k_disk s) from) (dir_count s from - 1)]> (entries s from));
  rl_to : exists old, entries t to = entries s to ++ [new_entry (d_ino e) v old];
  rl_count : dir_count t to = dir_count s to + 1;
  rl_inodes n : is_ino (k_fs s) n -> n <> from -> n <> to ->
    inode_at (k_fs t) (k_disk t) n = inode_at (k_fs s) (k_disk s) n /\ current_ic t n = current_ic s n;
  rl_blocks n b : live s n -> n <> from -> n <> to -> b ∈ held s n -> dev_blk (k_disk t) b = dev_blk (k_disk s) b;
}.

(** The entry [mv] finds, and its destination. *)
Record to_move s c w (to : Z) (k : nat) (e : dir_t) v : Prop := {
  tm_dir : live s to /\ dir_mode s to /\ to <> k_cwd s;
  tm_string : mem_string STRING_MAX (reg c 0) s = Done (c_str w, s) /\ is_name w;
  tm_victim : victim s (inode_of s (k_cwd s) 0) (dir_count s (k_cwd s)) w = Some (k, e);
  tm_name : is_name v /\ exists tl, d_name e = c_buf v tl;
  tm_room : dir_count s to < 16 * MAXBLKS;
}.

Lemma wp_relocate c s L L' w to k e v (Q : ctx_t -> kernel D -> Prop) :
  volume s L -> to_move s c w to k e v -> entry_rest (dir_count s to) L = Some L' ->
  (forall t, volume t L' -> relocated s (k_cwd s) to k e v t -> Q c t) ->
  wp (mv_rest c (inode_of s to 0)) Q s.
Proof.
  intros Hv [(Hl & Hd & Hne) [Hm Hw] Hvic [Hvn [tl Hname]] Hmax] Hrest HQ. pose proof Hv as [Ht Hfd Hh Hfl Htr].
  destruct (tr_cwd s Htr) as (Hlf & Hdf & Hsm). pose proof (fl_fs s L Hfl) as Hs.
  destruct (victim_entry s (k_cwd s) _ w k e eq_refl Hvic) as [Hek _].
  apply (wp_mv_tail c s L L' w to k e v tl); try done. intros t d' Hmv Hput.
  pose proof (volume_moved s t L L' v (k_cwd s) to k e Hv ltac:(done) ltac:(done) (not_eq_sym Hne) Hek Hmv) as Hvt.
  destruct (volume_sb t L' d' Hvt Hput) as (Hu & Hino & Hent).
  pose proof (mo_frame _ _ _ _ _ _ _ _ _ Hmv) as Hfr.
  pose proof (moved_tables s t L L' v (k_cwd s) to k e Hmv) as (Ea & _).
  assert (Hkeep : forall n, n = k_cwd s \/ n = to -> entries (set_k_disk d' t) n = entries t n).
  { intros n Hn. destruct (moved_held s t L L' v (k_cwd s) to k e Hv ltac:(done) ltac:(done) Hmv n Hn) as (_ & _ & _ & _ & ? & ?).
    by apply Hent. }
  assert (Hi : forall n, is_ino (k_fs s) n -> n <> k_cwd s -> n <> to ->
    inode_at (k_fs (set_k_disk d' t)) (k_disk (set_k_disk d' t)) n = inode_at (k_fs s) (k_disk s) n).
  { intros n Hn Hnf Hnt. rewrite Hino by by apply (is_ino_disk _ s t n Hfr). by apply (mo_inodes _ _ _ _ _ _ _ _ _ Hmv). }
  apply HQ; [done|]. split.
  - rewrite Hkeep by by left. apply Hmv.
  - rewrite Hkeep by by right. apply Hmv.
  - unfold dir_count at 1. rewrite Hino by apply (is_ino_disk _ s t to Hfr), Hl. apply Hmv.
  - intros n Hn Hnf Hnt. split; [by apply Hi|]. apply current_other; [done|by apply Hi].
  - intros n b Hn Hnf Hnt Hb. pose proof (fr_geo _ _ (mo_fs _ _ _ _ _ _ _ _ _ Hmv)) as Hgt.
    destruct (proj2 (held_rep s L n Hfl Hn) b Hb) as [Hda HnL].
    pose proof (data_addr_valid (k_fs s) b (fr_geo _ _ Hs) Hda) as Hval.
    pose proof (geometry_data _ _ (fr_geo _ _ Hs) Hda) as Hb2.
    cbn [k_disk set_k_disk]. rewrite (proj2 Hput), decide_False; [|lia|done].
    apply (df_blk _ _ _ Hfr b Hda). intros [Hx|[Hx|Hx]]; [| |done].
    + apply Hnf, (fl_apart s L Hfl n (k_cwd s) b); [done..|]. unfold held. by rewrite current_dir, nblks_dir.
    + apply Hnt, (fl_apart s L Hfl n to b); [done..|]. unfold held. by rewrite current_dir, nblks_dir.
Qed.

(** The limits of [mv], which it does not check: the destination is not the current
    directory, and has room; the path is not on top of the name; the name in the entry
    ends where it is stored. *)
Definition mv_ok s c : Prop := mem_byte s (reg c 0) = 46 \/
  exists w path v ws to ino0 tok0 left,
    mem_string STRING_MAX (reg c 0) s = Done (c_str w, s) /\ is_name w /\
    mem_string STRING_MAX (reg c 1) s = Done (path, s) /\ path_of path (v :: ws) /\
    disjoint_bytes (reg c 0) (length (c_str w)) (reg c 1) (length path) /\
    follow s ROOT_DIR v ws = Some (to, ino0, tok0, left) /\ to <> k_cwd s /\
    forall k e, victim s (inode_of s (k_cwd s) 0) (dir_count s (k_cwd s)) w = Some (k, e) -> dir_mode s to ->
      dir_count s to < 16 * MAXBLKS /\ room s 2 /\ exists x tl, d_name e = c_buf x tl /\ is_name x.

Lemma volume_mv c s L : volume s L -> mv_ok s c -> wp (svc_mv c) (fun _ => kept tt) s.
Proof.
  intros Hv [Hdot|(w & path & v & ws & to & ino0 & tok0 & left & Hm & Hw & Hp & Hpath & Hdis & Hfo & Hne & Hok)].
  { unfold svc_mv. wp_step. wp_step. rewrite Hdot. wp_steps. by exists L. }
  destruct (decide (mem_byte s (reg c 0) = 46)) as [Hdot|Hdot].
  { unfold svc_mv. wp_step. wp_step. rewrite Hdot. wp_steps. by exists L. }
  apply (wp_svc_mv c s L path v ws to ino0 tok0 left); try done. intros path' Hlen s'.
  pose proof (volume_mem s L (mem_store (reg c 1) path' (k_mem s)) Hv) as Hv'. fold s' in Hv'.
  case_decide as Hd; [|by exists L]. intros Hl.
  pose proof (mem_string_store s STRING_MAX (reg c 0) (c_str w) (reg c 1) path' Hm ltac:(by rewrite Hlen)) as Hm'.
  cbv zeta in Hm'. fold s' in Hm'.
  destruct (victim s (inode_of s (k_cwd s) 0) (dir_count s (k_cwd s)) w) as [[k e]|] eqn:Hvic.
  - destruct (Hok k e eq_refl (proj2 Hd)) as (Hmax & Hroom & x & tl & Hname & Hx).
    specialize (Hroom L (fl_fs s L (vo_files s L Hv))).
    destruct (entry_rest_some (dir_count s to) L) as [L' HL']; [lia|].
    apply (wp_relocate c s' L L' w to k e x); [done| |done|].
    + split; [by split_and!; [|apply Hd|]|done|done| |done]. split; [done|by exists tl].
    + intros t Hvt _. by exists L'.
  - apply (wp_mv_none c s' L w); [done..|]. intros d' Hput. exists L.
    apply (volume_sb s' L d' Hv' Hput).
Qed.

(** The file is found where it was moved to. *)
Lemma relocated_found s L from to k e v t w c :
  volume s L -> to_move s c w to k e v -> from = k_cwd s -> relocated s from to k e v t ->
  lookup_name v (entries s to) = None -> (dir_count s to + 1) mod 16 <> 0 -> dir_find t to v = d_ino e.
Proof.
  intros Hv Htm -> Hrl Hnone Hmod. pose proof (tm_name _ _ _ _ _ _ _ Htm) as [Hvn _].
  destruct (rl_to _ _ _ _ _ _ _ Hrl) as (old & He).
  pose proof (rl_count _ _ _ _ _ _ _ Hrl) as Hc. unfold dir_find, searched. rewrite Hc. destruct (Z.eqb_spec ((dir_count s to + 1) mod 16) 0); [done|].
  rewrite <-Hc. change (dir_entries _ _ _) with (entries t to). rewrite He, lookup_name_app, Hnone.
  cbn [lookup_name]. rewrite matches_new by done. cbn [default new_entry d_ino].
  destruct (tr_cwd s (vo_tree s L Hv)) as (Hlf & Hdf & _).
  destruct (tr_entry s (vo_tree s L Hv) (k_cwd s) e Hlf Hdf) as [[[? _] _] ?].
  { eapply list_elem_of_lookup_2, victim_entry, (tm_victim _ _ _ _ _ _ _ Htm). done. }
  rewrite u32_small by (unfold is_u32; lia). apply s32_small. lia.
Qed.
End Call.

(** * The property of mv *)

Section Claims.
Context {D : Type} `{BlockDeviceLaws D}.

(** C23: mv.  In a volume, for a name that starts with no dot and lies apart from the path in
    memory, when the path leads to a directory that is not the current one
    and has room, and the current directory has an entry for the name that may go, the
    call moves it: the last entry of the current directory takes the slot, the
    destination ends with an entry for the same inode, under the name whose bytes are in
    the old entry.  No other inode changes, on the disk or in the table, and no block of
    another file: what was moved is the same file, with the same contents.  It is a volume
    still.  The registers are not touched, so that a program cannot tell whether something
    was moved.  In the destination the name leads to the file, when it was not taken and
    the entry is not the sixteenth of its block. *)
Theorem svc_mv_moves c (s : kernel D) L L' w path v0 ws to ino0 tok0 left k e v :
  volume s L -> to_move s c w to k e v -> mem_byte s (reg c 0) <> 46 ->
  mem_string STRING_MAX (reg c 1) s = Done (path, s) -> path_of path (v0 :: ws) ->
  disjoint_bytes (reg c 0) (length (c_str w)) (reg c 1) (length path) ->
  follow s ROOT_DIR v0 ws = Some (to, ino0, tok0, left) ->
  entry_rest (dir_count s to) L = Some L' ->
  exists t, svc_mv c s = Done (c, t) /\ volume t L' /\ relocated s (k_cwd s) to k e v t /\
    (lookup_name v (entries s to) = None -> (dir_count s to + 1) mod 16 <> 0 -> dir_find t to v = d_ino e).
Proof.
  intros Hv Htm Hdot Hp Hpath Hdis Hfo Hrest.
  enough (Hwp : wp (svc_mv c) (fun r t => r = c /\ volume t L' /\ relocated s (k_cwd s) to k e v t) s).
  { apply wp_done in Hwp as (r & t & Hrun & -> & Hvt & Hrl). exists t. split_and!; [done..|].
    intros Hnone Hmod. by apply (relocated_found s L (k_cwd s) to k e v t w c). }
  pose proof (tm_dir _ _ _ _ _ _ _ Htm) as (Hl & Hd & Hne). destruct (tm_string _ _ _ _ _ _ _ Htm) as [Hm Hw].
  apply (wp_svc_mv c s L path v0 ws to ino0 tok0 left); try done. intros path' Hlen s'.
  rewrite decide_True by (split; [|done]; pose proof (proj1 (proj1 Hl)); lia). intros _.
  pose proof (volume_mem s L (mem_store (reg c 1) path' (k_mem s)) Hv) as Hv'. fold s' in Hv'.
  pose proof (mem_string_store s STRING_MAX (reg c 0) (c_str w) (reg c 1) path' Hm ltac:(by rewrite Hlen)) as Hm'.
  cbv zeta in Hm'. fold s' in Hm'.
  apply (wp_relocate c s' L L' w to k e v); [done| |done|].
  - by destruct Htm; split.
  - intros t Hvt []. split_and!; [done..|]. by split.
Qed.
End Claims.
