(* ===== verification/Copy.v ===== *)
(** * Copying a file

    Call 0x14.  What it leaves is not a copy: the new inode is never written, and the data
    goes wherever the uninitialised inode on the stack points. *)

From S2P Require Import Prelude CMonad Layout BlockDev Kernel FsOps FreeList InodeProof BlockMap FileRep FileGrow Dir Posix FileIO DirProof DirRemove PathProof Create Unlink OpenProof Volume VolumeIO VolumeTree VolumeCalls Svc Mkdir Move.

Section Copy.
Context {D : Type} `{BlockDeviceLaws D}.
Implicit Types (s t : kernel D) (d : D) (L w xs : list Z) (j : junk) (c : ctx_t).

(** The rounds of the loop of [copyInode]. *)
Definition rounds (size : Z) : Z := (size + 511) / 512.

Lemma rounds_le size k : 0 <= k < rounds size -> 512 * k < size /\ k < nblocks size.
Proof.
  unfold rounds, nblocks. pose proof (Z.div_mod (size + 511) 512). pose proof (Z.mod_pos_bound (size + 511) 512).
  pose proof (Z.div_mod size 512). pose proof (Z.mod_pos_bound size 512). lia.
Qed.

(** The blocks it writes to: what the stack held where the inode has its addresses. *)
Definition strays j (size : Z) : list Z := db_at (i_ic (j_inode j)) <$> seqZ 0 (rounds size).

(** Of these only data blocks outside of [xs] are on the disk. *)
Definition stray_ok s xs (x : Z) : Prop := dev_num D <= x < 2 ^ 31 \/ data_addr D (k_fs s) x /\ x ∉ xs.

(** The disk after writes to [xs]. *)
Definition strayed s xs d : Prop :=
  dev_ok d /\ forall b, valid_addr D b -> ~ (data_addr D (k_fs s) b /\ b ∈ xs) -> dev_blk d b = dev_blk (k_disk s) b.

(** The bytes of round [k]. *)
Definition chunk (size k : Z) (b : list Z) : list Z :=
  take (Z.to_nat (if size - 512 * k >? 512 then 512 else size - 512 * k)) b.

(** The blocks of the disk, by address, after [k] rounds from [get]: each copies a block of
    the inode [from], as it is then, over one of the inode [to]. *)
Fixpoint copied (get : Z -> list Z) (from to : icommon_t) (k : nat) : Z -> list Z :=
  match k with
  | O => get
  | S k' =>
      let f := copied get from to k' in
      let i := Z.of_nat k' in
      fun b => if decide (b = db_at to i) then overlay (chunk (ic_size from) i (f (db_at from i))) (f b) else f b
  end.

(** They are on the disk [d]. *)
Definition blocks_are d (f : Z -> list Z) : Prop := forall b, valid_addr D b -> dev_blk d b = f b.

Lemma wp_stray_wr s xs ys d x bs (Q : unit -> kernel D -> Prop) :
  geometry D (k_fs s) -> strayed s xs d -> x ∈ xs -> stray_ok s ys x ->
  (0 < length bs <= 512)%nat -> Forall is_byte bs ->
  (forall d', strayed s xs d' ->
     blocks_are d' (fun b => if decide (b = x) then overlay bs (dev_blk d b) else dev_blk d b) ->
     Q tt (set_k_disk d' s)) -> wp (disk_wr x bs) Q (set_k_disk d s).
Proof.
  intros Hg [Hok Hblk] Hin Hx Hl Hb HQ. pose proof dev_num_range. destruct Hx as [Hx|[Hx _]].
  - unfold disk_wr. wp_steps. rewrite u32_small by (unfold is_u32; lia).
    eapply wp_lift; [by apply dev_wr_refused; [done| |lia|done]|]. wp_steps. apply HQ; [done|].
    intros b Hb'. rewrite decide_False; [done|]. unfold valid_addr in Hb'. lia.
  - pose proof (data_addr_valid (k_fs s) x Hg Hx). apply (wp_disk_wr x bs); [exact Hok|done|lia|done|]. intros d' Hok' Hd'. apply HQ.
    2:{ intros b Hvb. rewrite Hd' by done. by case_decide as E; [rewrite E|]. }
    split; [done|]. intros b Hvb Hno. rewrite Hd', decide_False; [by apply Hblk|by intros E; rewrite E in Hno; apply Hno|done].
Qed.

(** A number of blocks, taken for a number of bytes, is not a block. *)
Lemma wp_alloc_none s n i size (Q : Z * inode_t -> kernel D -> Prop) :
  0 <= size <= 5632 -> (forall z, Q (z, set_size (size / 512 + 1) (fresh_inode n i)) s) ->
  wp (allocateDataBlocks (fresh_inode n i) (size / 512 + 1)) Q s.
Proof.
  intros Hsize HQ. pose proof (Z.div_pos size 512). pose proof (Z.div_le_upper_bound size 512 11).
  unfold allocateDataBlocks. change (ic_size (i_ic (fresh_inode n i))) with 0. change BLOCK_SIZE with 512.
  rewrite Z.add_0_l, u32_small by (unfold is_u32; lia). rewrite (Z.div_small (size / 512 + 1) 512) by lia.
  change (Z.to_nat (0 - 0 / 512)) with 0%nat. cbn [for_loop]. wp_steps.
  change (ic_size (i_ic (fresh_inode n i))) with 0. rewrite Z.add_0_l, (u32_small (size / 512 + 1)) by (unfold is_u32; lia).
  apply HQ.
Qed.

(** [copyInode] writes to the strays, allocates nothing, and returns an inode that is on
    the stack only. *)
Lemma wp_copyInode s L ys j src n (Q : option inode_t * inode_t -> kernel D -> Prop) :
  let size := ic_size (i_ic src) in let nb := rounds size in
  let copy := set_size (size / 512 + 1) (fresh_inode n (j_inode j)) in
  fs_rep s L -> lwf (i_ic (j_inode j)) -> lwf (i_ic src) -> 0 <= size <= 5632 ->
  (forall k, 0 <= k < nb -> valid_addr D (db_at (i_ic src) k)) ->
  Forall (stray_ok s ys) (strays j size) ->
  is_ino (k_fs s) n -> is_free (k_fs s) (k_disk s) n -> (forall m, 0 <= m < n -> ~ is_free (k_fs s) (k_disk s) m) ->
  (forall d, strayed s (strays j size) d ->
     blocks_are d (copied (dev_blk (k_disk s)) (i_ic src) (i_ic (j_inode j)) (Z.to_nat nb)) ->
     Q (Some copy, copy) (set_k_disk d s)) ->
  wp (copyInode (j_inode j) src) Q s.
Proof.
  intros size nb copy Hs Hj Hsrc Hsize Hva Hst Hn Hf Hmin HQ. pose proof (fr_geo _ _ Hs) as Hg.
  unfold copyInode. wp_step. apply (wp_getFreeInode_at s _ n); [apply Hs..|done|done|done|].
  fold size. wp_step. change BLOCK_SIZE with 512. apply wp_alloc_none; [done|]. intros z. fold copy. wp_steps.
  assert (Hnb : 0 <= nb <= 11).
  { unfold nb, rounds. pose proof (Z.div_mod (size + 511) 512). pose proof (Z.mod_pos_bound (size + 511) 512). lia. }
  assert (Hcw : lwf (i_ic copy)).
  { pose proof (Z.div_mod size 512). pose proof (Z.mod_pos_bound size 512).
    destruct Hj as (Hm & ? & ? & ? & ? & ?). unfold copy, fresh_inode. cbn. unfold is_u32. split_and!; try done; lia. }
  change ((size + (512 - 1)) / 512) with nb.
  eapply (wp_for_fold (fun k _ t => exists d, t = set_k_disk d s /\ strayed s (strays j size) d /\
    blocks_are d (copied (dev_blk (k_disk s)) (i_ic src) (i_ic (j_inode j)) (Z.to_nat k)))).
  - exists (k_disk s). split; [by rewrite set_k_disk_id|]. split; [by split; [apply Hs|]|done].
  - intros k buf t Hk (d & -> & [Hok Hd] & Hf'). rewrite Z2Nat.id in Hk by lia. wp_steps.
    assert (Ek : 512 * k / 512 = k) by (rewrite Z.mul_comm; by apply Z.div_mul).
    assert (Eu : u32 (512 * k) = 512 * k) by (apply u32_small; unfold is_u32; lia). rewrite Eu.
    assert (Hsk : forall ic, blk_ok d ic k /\ blk_addr d ic k = db_at ic k).
    { intros ic. split; [apply blk_ok_small; lia|by apply blk_addr_direct; lia]. }
    destruct (Hsk (i_ic src)) as [Hb1 Eb1]. destruct (Hsk (i_ic copy)) as [Hb2 Eb2].
    apply wp_getDataBlock; cbn [k_disk set_k_disk]; rewrite ?Ek, ?Eb1; [done|done|unfold is_u32; lia|done|by apply Hva; lia|].
    wp_steps. apply wp_getDataBlockAddr; cbn [k_disk set_k_disk]; rewrite ?Ek, ?Eb2; [done|done|unfold is_u32; lia|done|].
    wp_steps. change (db_at (i_ic copy) k) with (db_at (i_ic (j_inode j)) k). set (x := db_at (i_ic (j_inode j)) k).
    assert (Hin : x ∈ strays j size).
    { apply list_elem_of_fmap. exists k. split; [done|]. apply elem_of_seqZ. fold nb. lia. }
    pose proof (proj1 (list.Forall_forall _ _) Hst x Hin) as Hx.
    assert (Ex : s32 x = x).
    { apply s32_small. pose proof dev_num_range. destruct Hx as [?|[Hx _]]; [lia|].
      pose proof (data_addr_valid (k_fs s) x Hg Hx). unfold valid_addr in *. lia. }
    rewrite Ex. pose proof (dev_blk_block d _ Hok (Hva k ltac:(lia))) as [Hbl Hbb].
    assert (Hlast : 512 * k < size).
    { unfold nb, rounds in Hk. pose proof (Z.mul_div_le (size + 511) 512). lia. }
    apply (wp_stray_wr s (strays j size) ys); [done|done|done|done| |by apply Forall_take|].
    + rewrite length_take, Hbl. destruct (Z.gtb_spec (size - 512 * k) 512); lia.
    + intros d' Hd' Hb'. wp_steps. replace (in_int (512 * k + 512)) with true by (unfold in_int; lia).
      wp_steps. exists d'. split; [done|]. split; [done|]. intros b Hvb. rewrite Hb' by done.
      replace (Z.to_nat (k + 1)) with (S (Z.to_nat k)) by lia. cbn [copied]. rewrite Z2Nat.id by lia.
      fold x size. rewrite <-(Hf' b Hvb), <-(Hf' (db_at (i_ic src) k)) by (apply Hva; lia). done.
  - intros buf t (d & -> & Hd & Hb). rewrite Z.add_0_l, Z2Nat.id in Hb by lia. wp_steps. by apply HQ.
Qed.

(** The blocks of the source are direct. *)
Lemma source_blocks s L r :
  let ic := inode_at (k_fs s) (k_disk s) r in
  volume s L -> live s r -> ~ dir_mode s r -> holder s r = None -> ic_size ic <= 5632 ->
  lwf ic /\ 0 <= ic_size ic /\ forall k, 0 <= k < rounds (ic_size ic) -> valid_addr D (db_at ic k).
Proof.
  intros ic [_ _ _ Hfl _] Hl Hreg Hho Hsize. pose proof (fl_rep s L Hfl r Hl) as Hf. pose proof (fl_fs s L Hfl) as Hs.
  assert (Ecur : current_ic s r = ic) by (unfold current_ic; by rewrite Hho).
  rewrite Ecur, nblks_reg in Hf by done. assert (Hwf : lwf ic) by apply Hf. split_and!; [done|apply Hwf|].
  intros k Hk. destruct (rounds_le _ _ Hk) as [Hlast Hn]. rewrite <-(blk_addr_direct (k_disk s)) by lia.
  apply (data_addr_valid (k_fs s)); [apply Hs|]. apply (file_rep_blk s ic (nblocks (ic_size ic)) L k Hf). lia.
Qed.

(** The volume after the strays were written: the file system and the current directory
    are the same. *)
Lemma strayed_dir s L n xs d :
  is_dir s L n -> Forall (stray_ok s (dir_owned s n ++ L)) xs -> strayed s xs d ->
  let t := set_k_disk d s in
  fs_rep t L /\ is_dir t L n /\ dir_count t n = dir_count s n /\ entries t n = entries s n /\
  dir_owned t n = dir_owned s n /\
  forall m, is_ino (k_fs s) m -> inode_at (k_fs t) (k_disk t) m = inode_at (k_fs s) (k_disk s) m.
Proof.
  intros Hd Hxs [Hok Hblk] t. pose proof (dr_fs _ _ _ _ Hd) as Hs. pose proof (fr_geo _ _ Hs) as Hg.
  assert (Hout : forall x, x ∈ xs -> data_addr D (k_fs s) x -> x ∉ dir_owned s n ++ L).
  { intros x Hx Hda. destruct (proj1 (list.Forall_forall _ _) Hxs x Hx) as [Hr|[_ Hno]]; [|done].
    pose proof (data_addr_valid (k_fs s) x Hg Hda). unfold valid_addr in *. lia. }
  assert (Hfr : disk_frame (fun b => b ∈ xs) s t).
  { split; [done|]. intros b Hb Hno. cbn. apply Hblk; [by apply (data_addr_valid (k_fs s))|tauto]. }
  assert (Hmeta : forall b, valid_addr D b -> ~ data_addr D (k_fs s) b -> dev_blk d b = dev_blk (k_disk s) b)
    by (intros b Hb Hn; apply Hblk; tauto).
  assert (Ht : fs_rep t L).
  { apply fs_rep_disk; [done|done| |].
    - apply Hmeta; [by apply (geometry_sb_valid (k_fs s))|]. intros Hx. pose proof (geometry_data _ _ Hg Hx). lia.
    - intros b Hb. pose proof (proj1 (list.Forall_forall _ _) (fr_data _ _ Hs) b Hb) as Hda.
      apply (df_blk _ _ _ Hfr b Hda). intros Hx. apply (Hout b Hx Hda), elem_of_app. by right. }
  assert (Hino : forall m, is_ino (k_fs s) m -> inode_at (k_fs t) (k_disk t) m = inode_at (k_fs s) (k_disk s) m).
  { intros m Hm. apply inode_at_ext; [done|]. pose proof (inode_blk_range _ _ Hg Hm). cbn. apply Hmeta; [by apply inode_blk_valid|].
    unfold data_addr. lia. }
  destruct (is_dir_kept (fun b => b ∈ xs) s t L L n Hd Ht Hfr ltac:(done)) as (H1 & H2 & H3 & H4); [by apply Hino, Hd| |done].
  intros b Hb Hx. pose proof (proj1 (list.Forall_forall _ _) (fi_data _ _ _ _ (dr_file _ _ _ _ Hd)) b Hb) as Hda.
  apply (Hout b Hx Hda), elem_of_app. by left.
Qed.

(** What [cp] leaves. *)
Record miscopied s L (dir n : Z) w (f : Z -> list Z) t L' : Prop := {
  mc_dir : is_dir t L' dir;
  mc_mode : ic_mode (inode_at (k_fs t) (k_disk t) dir) = ic_mode (inode_at (k_fs s) (k_disk s) dir);
  mc_ino m : is_ino (k_fs t) m <-> is_ino (k_fs s) m;
  mc_entries : exists old, entries t dir = entries s dir ++ [new_entry n w old];
  mc_inodes m : is_ino (k_fs s) m -> m <> dir ->
    inode_at (k_fs t) (k_disk t) m = inode_at (k_fs s) (k_disk s) m;
  mc_blocks b : data_addr D (k_fs s) b -> b ∉ dir_owned s dir ++ L -> dev_blk (k_disk t) b = f b;
}.

(** The entry for the inode that was not written, and the superblock. *)
Lemma wp_cp_enter s L L' dir n w d c (Q : ctx_t -> kernel D -> Prop) xs f :
  let t := set_k_disk d s in
  is_dir s L dir -> Forall (stray_ok s (dir_owned s dir ++ L)) xs -> strayed s xs d -> blocks_are d f -> is_name w ->
  dir_count s dir < 16 * MAXBLKS -> entry_rest (dir_count s dir) L = Some L' ->
  (forall u, miscopied s L dir n w f u L' -> Q c u) ->
  wp (_ ← addInodeToDirectory (inode_of t dir 0) n (c_str w); write_sb ;; mret c) Q t.
Proof.
  intros t Hd Hxs Hst Hf Hw Hmax Hrest HQ.
  destruct (strayed_dir s L dir xs d Hd Hxs Hst) as (Ht & Hdt & Ec & Eent & Eown & Hino).
  fold t in Ht, Hdt, Ec, Eent, Eown, Hino.
  wp_step. rewrite <-Ec in Hmax, Hrest.
  apply (wp_addInodeToDirectory t (inode_of t dir 0) (dir_count t dir) L L'); [done..|]. intros u i' Hadd. wp_step.
  destruct (added_dir t dir L L' n w u i' Hdt Hadd) as (Hdu & _ & _ & Hmu & (old & Hentu)).
  pose proof (dr_fs _ _ _ _ Hdu) as Hu. pose proof (da_frame _ _ _ _ _ _ _ _ _ Hadd) as Hfr.
  apply wp_write_sb; [apply Hu..|]. intros d' Hput. wp_steps. apply HQ.
  destruct (sb_kept u L' d' Hu Hput) as (Hv & Hfv & Hinov). set (v := set_k_disk d' u) in *.
  assert (Hiu : forall m, is_ino (k_fs u) m <-> is_ino (k_fs s) m) by (intros m; by apply (is_ino_disk _ t u m Hfr)).
  pose proof (dr_ino _ _ _ _ Hd) as Hdi. cbn [i_number inode_of] in Hdi.
  destruct (is_dir_kept (fun _ => False) u v L' L' dir Hdu Hv Hfv ltac:(done)) as (Hdv & _ & Ev & _).
  { apply Hinov. by apply Hiu. }
  { by intros b _ []. }
  split.
  - done.
  - rewrite Hinov by by apply Hiu. by rewrite Hmu, Hino.
  - done.
  - exists old. by rewrite Ev, Hentu, Eent.
  - intros m Hm Hne. rewrite Hinov by by apply Hiu.
    rewrite (da_inodes _ _ _ _ _ _ _ _ _ Hadd) by done. by apply Hino.
  - intros b Hb Hno. assert (Hbu : data_addr D (k_fs u) b) by by apply (data_addr_frame (k_fs t)); [apply Hfr|].
    rewrite (df_blk _ _ _ Hfv b Hbu) by by intros []. rewrite (df_blk _ _ _ Hfr b Hb).
    + apply Hf. apply (data_addr_valid (k_fs s)); [apply Hd|done].
    + cbn [i_ic inode_of]. fold (dir_owned t dir). rewrite Eown. by rewrite <-elem_of_app.
Qed.

(** An entry that leads to a free inode. *)
Lemma miscopied_not s L dir n w f t L' L'' :
  live s dir -> dir_mode s dir -> is_ino (k_fs s) n -> n < 2 ^ 31 -> is_free (k_fs s) (k_disk s) n -> n <> dir ->
  miscopied s L dir n w f t L' -> ~ volume t L''.
Proof.
  intros [Hdi Hdf] Hdm Hn Hn31 Hf Hne [Hdt Hm Hi (old & He) Hino _] Hv.
  assert (Hl : live t dir) by (split; [by apply Hi|unfold is_free in *; by rewrite Hm]).
  assert (Hd : dir_mode t dir) by (unfold dir_mode; by rewrite Hm).
  destruct (tr_entry t (vo_tree t L'' Hv) dir (new_entry n w old) Hl Hd) as [[_ Hlf] _].
  { rewrite He. apply elem_of_app. right. by apply list_elem_of_singleton. }
  apply Hlf. cbn. rewrite u32_small by (unfold is_u32; destruct Hn; lia). unfold is_free. by rewrite Hino.
Qed.

(** The next search for a free inode finds the one that the entry leads to. *)
Lemma miscopied_next s L dir n w f t L' i :
  live s dir -> is_ino (k_fs s) n -> is_free (k_fs s) (k_disk s) n ->
  (forall m, 0 <= m < n -> ~ is_free (k_fs s) (k_disk s) m) ->
  miscopied s L dir n w f t L' -> getFreeInode i t = Done (Some (fresh_inode n i), t).
Proof.
  intros [Hdi Hdf] Hn Hf Hmin Hmc. assert (Hne : n <> dir) by by intros ->. pose proof (dr_fs _ _ _ _ (mc_dir _ _ _ _ _ _ _ _ Hmc)) as Ht.
  apply wp_run. apply (wp_getFreeInode_at t i n); [apply Ht..| | | |done].
  - by apply (mc_ino _ _ _ _ _ _ _ _ Hmc).
  - unfold is_free. by rewrite (mc_inodes _ _ _ _ _ _ _ _ Hmc).
  - intros m Hm. assert (Hmi : is_ino (k_fs s) m).
    { destruct Hn as [_ Hn]. split; [lia|]. pose proof (Z.div_le_mono m n 8). lia. }
    unfold is_free. destruct (decide (m = dir)) as [->|Hmd]; [by rewrite (mc_mode _ _ _ _ _ _ _ _ Hmc)|].
    rewrite (mc_inodes _ _ _ _ _ _ _ _ Hmc) by done. by apply Hmin.
Qed.
End Copy.

(** * The property of cp *)

Section Claims.
Context {D : Type} `{BlockDeviceLaws D}.
Implicit Types (s t : kernel D) (L w : list Z) (j : junk) (c : ctx_t).

(** C36: cp does not copy.  In a volume, for a path to a closed regular file of up to eleven
    blocks, with an inode free and room in the current directory, the call enters the name
    in the current directory with the number of the lowest free inode - which stays free: it
    is never written, and no other inode changes.  No block is allocated ([L'] is what the
    directory leaves of [L]); the data of the file goes, a block a round, over the blocks
    whose addresses the inode on the stack happens to hold ([copied]) - in the cases stated,
    addresses behind the end of the disk, where the write is refused, or data blocks
    neither free nor the directory's - and no other data block changes.  The registers are not
    touched.  What is left is no volume, with whatever free list: the next search for
    a free inode gives the one the name leads to. *)
Theorem svc_cp_loses j c s L L' path v0 ws r ino0 tok0 left w n :
  let dir := k_cwd s in
  let ic := inode_at (k_fs s) (k_disk s) r in
  volume s L -> mem_byte s (reg c 0) <> 46 ->
  mem_string STRING_MAX (reg c 0) s = Done (path, s) -> path_of path (v0 :: ws) ->
  follow s dir v0 ws = Some (r, ino0, tok0, left) ->
  0 <= r -> ~ dir_mode s r -> holder s r = None -> ic_size ic <= 5632 ->
  mem_string STRING_MAX (reg c 1) s = Done (c_str w, s) -> is_name w ->
  disjoint_bytes (reg c 1) (length (c_str w)) (reg c 0) (length path) ->
  lwf (i_ic (j_inode j)) -> Forall (stray_ok s (dir_owned s dir ++ L)) (strays j (ic_size ic)) ->
  is_ino (k_fs s) n -> is_free (k_fs s) (k_disk s) n -> n < 2 ^ 31 ->
  (forall m, 0 <= m < n -> ~ is_free (k_fs s) (k_disk s) m) ->
  dir_count s dir < 16 * MAXBLKS -> entry_rest (dir_count s dir) L = Some L' ->
  exists t, svc_cp j c s = Done (c, t) /\
    miscopied s L dir n w (copied (dev_blk (k_disk s)) ic (i_ic (j_inode j)) (Z.to_nat (rounds (ic_size ic)))) t L' /\
    is_free (k_fs t) (k_disk t) n /\ (forall i, getFreeInode i t = Done (Some (fresh_inode n i), t)) /\
    forall L'', ~ volume t L''.
Proof.
  intros dir ic Hv Hdot Hp Hpath Hfo H0r Hreg Hho Hsize Hw Hwn Hdis Hj Hst Hn Hf Hn31 Hmin Hmax Hrest.
  pose proof Hv as [Ht Hfd Hh Hfl Htr]. destruct (tr_cwd s Htr) as (Hl & Hd & Hd31). fold dir in Hl, Hd, Hd31.
  assert (Hne : n <> dir) by by intros E; apply Hl; rewrite <-E.
  set (f := copied _ ic _ _). enough (Hwp : wp (svc_cp j c) (fun c' t => c' = c /\ miscopied s L dir n w f t L') s).
  { apply wp_done in Hwp as (c' & t & Hr & -> & Hmc). exists t. split; [done|]. split; [done|]. split.
    - unfold is_free. by rewrite (mc_inodes _ _ _ _ _ _ _ _ Hmc).
    - split; [intros i; by apply (miscopied_next s L dir n w f t L')|].
      intros L''. by apply (miscopied_not s L dir n w f t L'). }
  pose proof (fl_fs s L Hfl) as Hs. pose proof (proj1 (proj1 Hl)) as Hd0.
  destruct (follow_resolves s L dir v0 ws r ino0 tok0 left Hv Hl (path_of_comps _ _ Hpath) Hfo) as (Hres & _ & _ & _ & Hrl).
  destruct Hrl as [->|[Hlr _]]; [done|].
  unfold svc_cp. wp_steps. destruct (Z.eqb_spec (mem_byte s (reg c 0)) 46); [done|]. wp_steps. fold dir.
  rewrite (s32_small dir) by lia. apply (wp_user_path _ s L dir path v0 ws r ino0 tok0 left); try done. intros path' Hlen.
  set (s' := set_k_mem _ s). assert (Hv' : volume s' L) by by apply volume_mem.
  destruct (Z.eqb_spec r (-1)) as [|_]; [lia|]. wp_steps.
  apply wp_readInode; [apply Hs|apply Hs|apply Hs|apply Hlr|]. wp_steps.
  change (mk_inode r (i_links zero_inode) _) with (inode_of s' r 0). change (i_ic (inode_of s' r 0)) with ic.
  destruct (Z.eqb_spec (ic_mode ic) (mode_val IFZERO)) as [E|_]; [by destruct (proj2 Hlr)|]. wp_steps.
  destruct (source_blocks s L r Hv Hlr Hreg Hho Hsize) as (Hwf & Hz & Hsrc). fold ic in Hwf, Hz, Hsrc.
  apply (wp_copyInode s' L (dir_owned s dir ++ L) j (inode_of s' r 0) n); try done.
  - apply (fl_fs s' L (vo_files s' L Hv')).
  - intros d Hd' Hblocks. wp_steps. fold dir.
    change (k_cwd (set_k_disk d s')) with dir. rewrite (s32_small dir) by lia.
    assert (Hdir : is_dir s' L dir) by (apply live_is_dir; [apply Hv'|apply Hv'|done|done]).
    destruct (strayed_dir s' L dir (strays j (ic_size ic)) d Hdir Hst Hd') as (Ht' & _).
    apply wp_readInode; [apply Ht'|apply Ht'|apply Ht'|apply Hl|]. wp_steps.
    change (mk_inode dir (i_links (inode_of s' r 0)) _) with (inode_of (set_k_disk d s') dir 0).
    apply wp_done. exists (c_str w), (set_k_disk d s'). split.
    { apply (mem_string_ext s'); [done|]. by apply (mem_string_store s); [|rewrite Hlen]. }
    cbn [i_number fresh_inode set_size set_mode set_number].
    apply (wp_cp_enter s' L L' dir n w d c _ (strays j (ic_size ic)) f); try done.
    intros u [H1 H2 H3 H4 H5 H6]. split; [done|]. by split.
Qed.
End Claims.
