(* ===== verification/VolumeKernel.v ===== *)
(** * The volume under the kernel

    Interrupts, user code and supervisor calls in any order: the file calls keep the
    invariant of Volume.v (VolumeCalls.v), and the other entries do not touch the file
    system. *)

From S2P Require Import Prelude CMonad Layout BlockDev Kernel Sched MQueue FsOps FreeList InodeProof BlockMap FileRep FileGrow Dir Posix FileIO DirProof DirRemove PathProof Create Unlink OpenProof Volume VolumeIO VolumeTree VolumeCalls Session Exec Format Install Svc Mkdir Listing Move.

(** ** Code that does not touch the file system *)

Definition aside {D} (s t : kernel D) : Prop := elsewhere s t /\ k_cwd t = k_cwd s.

(** [m], when it returns, has not touched it. *)
Definition still {D A} (m : M (kernel D) A) : Prop :=
  forall s a t, m s = Done (a, t) -> aside s t.

Create HintDb still.

Section Still.
Context {D : Type}.
Implicit Types (s t : kernel D).

Lemma elsewhere_refl s : elsewhere s s.
Proof. split; try done. intros c x Hx. right. by exists x. Qed.

Lemma elsewhere_trans s t u : elsewhere s t -> elsewhere t u -> elsewhere s u.
Proof.
  intros [Ef Ed Eo Ea Hp] [Ef' Ed' Eo' Ea' Hp']. split; [congruence..|]. intros c x Hx.
  destruct (Hp' c x Hx) as [?|(y & Hy & ->)]; [by left|]. by apply Hp.
Qed.

#[export] Instance aside_preorder : PreOrder (aside (D := D)).
Proof.
  split; [split; [apply elsewhere_refl|done]|].
  intros s t u [H1 E1] [H2 E2]. split; [by apply (elsewhere_trans s t)|congruence].
Qed.

Lemma still_ret {A} (a : A) : still (D := D) (mret a).
Proof. intros s a' t [= _ <-]. reflexivity. Qed.

Lemma still_bind {A B} (m : M (kernel D) A) (k : A -> M (kernel D) B) :
  still m -> (forall a, still (k a)) -> still (m ≫= k).
Proof.
  intros Hm Hk s b t (a & u & E & Hr)%run_bind_inv. etransitivity; [by apply (Hm s a u)|by apply (Hk a u b)].
Qed.

Lemma still_gets {A} (f : kernel D -> A) : still (gets f).
Proof. intros s a t [= _ <-]. reflexivity. Qed.

Lemma still_modify (f : kernel D -> kernel D) : (forall s, aside s (f s)) -> still (modify f).
Proof. intros Hf s a t [= _ <-]. apply Hf. Qed.

Lemma still_lift {A} (o : outcome A) : still (D := D) (lift o).
Proof. intros s a t Hr. unfold lift in Hr. destruct o; [|done..]. injection Hr as _ <-. reflexivity. Qed.

Lemma still_deref {A} (p : option A) : still (D := D) (deref p).
Proof. apply still_lift. Qed.

Lemma still_when b (m : M (kernel D) unit) : still m -> still (when b m).
Proof. intros Hm. destruct b; [done|apply still_ret]. Qed.

Lemma still_for_do n lo body : (forall i, still (D := D) (body i)) -> still (for_do n lo body).
Proof.
  intros Hb. revert lo. induction n as [|n IH]; intros lo; cbn [for_do]; [apply still_ret|].
  apply still_bind; [apply Hb|]. intros _. apply IH.
Qed.

Lemma still_for_find {R} n lo body : (forall i, still (D := D) (body i)) -> still (for_find (R := R) n lo body).
Proof.
  intros Hb. revert lo. induction n as [|n IH]; intros lo; cbn [for_find]; [apply still_ret|].
  apply still_bind; [apply Hb|]. intros [r|]; [apply still_ret|apply IH].
Qed.

(** *** The tables *)

Class Apart {A} (F : field D A) : Prop := apart s l : aside s (fset F l s).

#[export] Instance rq_apart : Apart Rq.
Proof. intros s l. split; [split; try done|done]. intros c x Hx. right. by exists x. Qed.
#[export] Instance mq_apart : Apart Mq.
Proof. intros s l. split; [split; try done|done]. intros c x Hx. right. by exists x. Qed.

Lemma upd_inv {A} (F : field D A) i f s a t :
  upd F i f s = Done (a, t) -> exists x, fget F s !! Z.to_nat i = Some x /\
    t = fset F (<[Z.to_nat i := f x]> (fget F s)) s.
Proof.
  intros Hr. destruct (decide (0 <= i < Z.of_nat (length (fget F s)))) as [Hi|Hi].
  - destruct (lookup_lt_ex (fget F s) (Z.to_nat i)) as [x Hx]; [lia|]. exists x. split; [done|].
    rewrite (upd_run F i x f s) in Hr by (lia || done). by injection Hr as _ <-.
  - by rewrite (upd_undef F i f s Hi) in Hr.
Qed.

Lemma still_at {A} (F : field D A) i : still (at_ F i).
Proof. unfold at_. apply still_bind; [apply still_gets|intros l; apply still_lift]. Qed.

Lemma still_addr_of {A} (F : field D A) i : still (addr_of F i).
Proof. unfold addr_of. apply still_bind; [apply still_at|intros l; apply still_ret]. Qed.

Lemma still_upd {A} (F : field D A) `{!Apart F} i f : still (upd F i f).
Proof. intros s a t (x & _ & ->)%upd_inv. apply apart. Qed.

Lemma still_upd_pcb i f : (forall x, fd (f x) = fd x) -> still (D := D) (upd Pcb i f).
Proof.
  intros Hf s a t (x & Hx & ->)%upd_inv. split; [|done]. split; try done. intros c y Hy. right.
  cbn in *. apply list_lookup_insert_Some in Hy as [(<- & <- & _)|[_ Hy]].
  - exists x. by rewrite Hf.
  - by exists y.
Qed.

Lemma still_cur : still (D := D) cur.
Proof.
  unfold cur. apply still_bind; [apply still_gets|]. intros c.
  apply still_bind; [apply still_deref|]. intros p. apply still_at.
Qed.

Lemma still_upd_cur f : (forall x, fd (f x) = fd x) -> still (D := D) (upd_cur f).
Proof.
  intros Hf. unfold upd_cur. apply still_bind; [apply still_gets|]. intros c.
  apply still_bind; [apply still_deref|]. intros p. by apply still_upd_pcb.
Qed.
End Still.

(** ** Automation *)

(** A write to one field that is none of the file system's. *)
Ltac aside_field := split; [split; try done; intros ? ? ?; right; by eexists|done].

Ltac still_step :=
  lazymatch goal with
  | |- still (mbind _ _) => apply still_bind
  | |- still (mret _) => apply still_ret
  | |- still (gets _) => apply still_gets
  | |- still (modify _) => apply still_modify; intros ?; solve [aside_field]
  | |- still (upd Pcb _ _) => apply still_upd_pcb; intros ?; done
  | |- still (upd _ _ _) => apply still_upd; apply _
  | |- still (upd_cur _) => apply still_upd_cur; intros ?; done
  | |- still (at_ _ _) => apply still_at
  | |- still (addr_of _ _) => apply still_addr_of
  | |- still cur => apply still_cur
  | |- still (when _ _) => apply still_when
  | |- still (for_do _ _ _) => apply still_for_do
  | |- still (for_find _ _ _) => apply still_for_find
  | |- still (deref _) => apply still_deref
  | |- still (lift _) => apply still_lift
  | |- still (match ?x with _ => _ end) => destruct x
  | |- still _ => solve [auto with still]
  | |- forall _, _ => intros ?
  end; cbv beta.

Ltac still := cbv zeta; repeat still_step.

(** ** Processes and messages *)

Section Calls.
Context {D : Type}.
Implicit Types (s t : kernel D).

Lemma still_rq_shift lo hi : still (D := D) (rq_shift lo hi).
Proof. unfold rq_shift. still. Qed.
#[local] Hint Resolve still_rq_shift : still.

Lemma still_rq_rotate fuel : still (D := D) (rq_rotate fuel).
Proof. induction fuel as [|fuel IH]; cbn [rq_rotate]; still. Qed.
#[local] Hint Resolve still_rq_rotate : still.

Lemma still_rq_add p : still (D := D) (rq_add p).
Proof. unfold rq_add. still. Qed.

Lemma still_rq_rm_from fuel p id : still (D := D) (rq_rm_from fuel p id).
Proof. revert p. induction fuel as [|fuel IH]; intros p; cbn [rq_rm_from]; still. Qed.
#[local] Hint Resolve still_rq_add still_rq_rm_from : still.

Lemma still_rq_rm id : still (D := D) (rq_rm id).
Proof. unfold rq_rm. still. Qed.
#[local] Hint Resolve still_rq_rm : still.

Lemma still_kill p z : still (D := D) (kill p z).
Proof. unfold kill. still. Qed.

Lemma still_fork c : still (D := D) (fork c).
Proof. unfold fork. still. Qed.

Lemma still_scheduler c : still (D := D) (scheduler c).
Proof. unfold scheduler. still. Qed.

Lemma still_mem_read a n : still (D := D) (mem_read a n).
Proof. unfold mem_read. still. Qed.

Lemma still_mem_write a bs : still (D := D) (mem_write a bs).
Proof. unfold mem_write. still. Qed.
#[local] Hint Resolve still_kill still_fork still_scheduler still_mem_read still_mem_write : still.

Lemma still_mq_open name : still (D := D) (mq_open name).
Proof. unfold mq_open. still. Qed.

Lemma still_mq_unlink m : still (D := D) (mq_unlink m).
Proof. unfold mq_unlink. still. Qed.

Lemma still_mq_fill mqd p len : still (D := D) (mq_fill mqd p len).
Proof. unfold mq_fill. still. Qed.
#[local] Hint Resolve still_mq_fill : still.

Lemma still_mq_send mqd p len : still (D := D) (mq_send mqd p len).
Proof. unfold mq_send. still. Qed.

Lemma still_mq_drain mqd p len : still (D := D) (mq_drain mqd p len).
Proof. unfold mq_drain. still. Qed.
#[local] Hint Resolve still_mq_drain : still.

Lemma still_mq_receive mqd p len : still (D := D) (mq_receive mqd p len).
Proof. unfold mq_receive. still. Qed.

Lemma still_putc x : still (D := D) (putc x).
Proof. unfold putc. still. Qed.

Lemma still_getc : still (D := D) getc.
Proof. unfold getc. still. Qed.

Lemma still_set_hw r v : still (D := D) (set_hw r v).
Proof. unfold set_hw. still. Qed.
#[local] Hint Resolve still_set_hw : still.

Lemma still_resched c : still (D := D) (resched c).
Proof. unfold resched. still. Qed.

Lemma still_irq c id : still (D := D) (kernel_handler_irq c id).
Proof. unfold kernel_handler_irq. still. Qed.
End Calls.

#[export] Hint Resolve still_kill still_fork still_scheduler still_mem_read still_mem_write still_mq_open
  still_mq_unlink still_mq_send still_mq_receive still_putc still_getc still_resched : still.

(** ** Supervisor calls *)

Section Svc.
Context {D : Type} `{BlockDevice D}.
Implicit Types (s t : kernel D) (c : ctx_t).

Lemma still_fd_file n : still (D := D) (fd_file n).
Proof. unfold fd_file. still. Qed.
#[local] Hint Resolve still_fd_file : still.

Lemma still_tell n : still (D := D) (tell n).
Proof. unfold tell. still. Qed.
#[local] Hint Resolve still_tell : still.

(** The calls on processes, messages and the console, and the numbers of no call. *)
Definition no_file_call c (id : Z) : Prop :=
  match id with
  | 0x00 | 0x03 | 0x06 | 0x07 | 0x08 | 0x09 | 0x0a | 0x0e | 0x15 | 0x16 => True
  | 0x01 | 0x02 => s32 (reg c 0) = STDIO
  | _ => id < 0 \/ 0x16 < id
  end.

Lemma still_svc im j c id : no_file_call c id -> still (kernel_handler_svc (D := D) im j c id).
Proof.
  intros Hno. unfold kernel_handler_svc. unfold no_file_call in Hno.
  repeat (first [done | case_match; try lia; subst]; cbv zeta);
    try (unfold svc_write, svc_read; rewrite Hno; cbv zeta; rewrite Z.eqb_refl); try (by still).
Qed.

(** The file call that call [id] with the registers [c] makes. *)
Inductive asks s c : Z -> fcall -> Prop :=
  | asks_write : s32 (reg c 0) <> STDIO -> 0 <= s32 (reg c 2) ->
      asks s c 0x01 (C_write (s32 (reg c 0))
        (mem_byte s <$> seqZ (reg c 1) (Z.of_nat (Z.to_nat (s32 (reg c 2))))))
  | asks_read : s32 (reg c 0) <> STDIO -> asks s c 0x02 (C_read (s32 (reg c 0)) (s32 (reg c 2)))
  | asks_seek : asks s c 0x05 (C_seek (s32 (reg c 0)) (reg c 1) (s32 (reg c 2)))
  | asks_open path f : mem_string STRING_MAX (reg c 0) s = Done (path, s) -> s32 (reg c 1) = oflag_val f ->
      asks s c 0x0c (C_open path f)
  | asks_close : asks s c 0x0d (C_close (s32 (reg c 0)))
  | asks_cd path : mem_string STRING_MAX (reg c 0) s = Done (path, s) -> asks s c 0x11 (C_cd path)
  | asks_unlink w : mem_string STRING_MAX (reg c 0) s = Done (c_str w, s) -> asks s c 0x12 (C_unlink w).

(** A program of the root directory that [exec] can run. *)
Definition exec_ok s c (x : pcb_t) : Prop := exists w,
  mem_string STRING_MAX (reg c 0) s = Done (c_str w, s) /\ is_comp w /\
  let r := dir_find s ROOT_DIR w in
  r = -1 \/ ~ dir_mode s r /\ 8 <= ic_size (current_ic s r) /\ free_fd x <> None /\ free_oft (k_oft s) <> None.

(** A disk that can be formatted: large enough, and nothing open; what the stack holds has
    the shape of directory entries. *)
Definition wipe_ok s (j : junk) : Prop :=
  nothing_open s /\ k_cwd s = ROOT_DIR /\ 2048 <= dev_num D /\ length (j_dir j) = 16%nat /\ Forall lwf (j_dir j).

(** A call the file system can serve, made by a running process. *)
Definition served s j c (id : Z) : Prop := exists p x, running s p x /\
  ((exists call, asks s c id call /\ call_ok s call) \/ id = 0x04 /\ exec_ok s c x \/
   id = 0x10 /\ mkdir_ok s j c \/ id = 0x0f /\ ls_ok s \/ id = 0x0b /\ wipe_ok s j \/
   id = 0x13 /\ mv_ok s c).
End Svc.

Section Machine.
Context {D : Type} `{BlockDeviceLaws D}.
Implicit Types (s t : kernel D) (c : ctx_t) (L : list Z).

Lemma wp_ran {A} (m : M (kernel D) A) s :
  wp (_ ← m; mret tt) kept s -> wp m (fun _ => kept tt) s.
Proof.
  intros ([] & t & (a & u & E & Hr)%run_bind_inv & Hk)%wp_done. injection Hr as <-.
  apply wp_done. by exists a, u.
Qed.

Lemma kept_aside s t : kept tt s -> aside s t -> kept tt t.
Proof. intros [L Hv] [Hel Hcwd]. exists L. apply (volume_elsewhere s); auto. Qed.

(** A call with a string: what is stored back is user memory. *)
Lemma wp_volume_string {A} a path (f : list Z -> M (kernel D) (A * list Z)) (g : A -> ctx_t) s :
  mem_string STRING_MAX a s = Done (path, s) -> wp (f path) (fun _ => kept tt) s ->
  wp (x ← with_string a f; mret (g x)) (fun _ => kept tt) s.
Proof.
  intros Hm Hf. unfold with_string. wp_steps. apply wp_done. exists path, s. split; [done|].
  wp_step. eapply wp_mono; [exact Hf|]. intros [x s'] t Hk. unfold mem_write. wp_steps.
  apply (kept_aside t); [done|]. aside_field.
Qed.

(** A file that was opened and closed again. *)
Lemma volume_reread s L r p i u :
  volume s L -> live s r -> ~ dir_mode s r -> grab s r = Some (p, i) -> reread s p i u ->
  tables_ok u -> fs_rep u L -> (forall m, is_ino (k_fs s) m -> current_ic u m = current_ic s m) -> volume u L.
Proof.
  intros Hv Hl Hreg Hgr Hre Hut Hus Hcur. pose proof Hv as [Ht Hfd Hh Hfl Htr]. pose proof (fl_fs s L Hfl) as Hs.
  destruct (grab_ok s r p i Ht (fr_ok _ _ Hs) (fr_geo _ _ Hs) (proj1 Hl) Hgr) as (En & Ei & _).
  assert (E : exists d i', u = put_ai (Z.of_nat p) i' (set_k_disk d s) /\ i_number i' = r /\
    (d = k_disk s \/ inode_put (k_fs s) r (current_ic s r) (k_disk s) d)).
  { unfold reread in Hre. destruct (i_links i =? 0).
    - destruct Hre as (d & -> & Hd). rewrite En, Ei in Hd. exists d, (set_mode (mode_val IFZERO) i). auto.
    - exists (k_disk s), i. subst u. by rewrite set_k_disk_id; auto. }
  destruct E as (d & i' & -> & En' & Hd).
  assert (Hdisk : forall m, is_ino (k_fs s) m ->
    inode_at (k_fs s) d m = inode_at (k_fs s) (k_disk s) m \/ m = r /\ inode_at (k_fs s) d m = current_ic s r).
  { intros m Hm. destruct Hd as [->|(_ & Hput & _)]; [by left|]. rewrite Hput by done. case_decide; auto. }
  apply (volume_same s); try done.
  - by apply (fds_ok_ext s).
  - split; [done|]. intros b Hb _. destruct Hd as [->|(_ & _ & Hblk)]; [done|].
    pose proof (fr_geo _ _ Hs) as Hg. pose proof (inode_blk_range _ _ Hg (proj1 Hl)). unfold data_addr in Hb.
    apply Hblk; [by apply (data_addr_valid (k_fs s))|lia].
  - intros m Hm. split; [by apply Hcur|]. cbn. destruct (Hdisk m Hm) as [->|[-> ->]]; [done|].
    by apply (fl_mode s L Hfl).
  - intros m Hlm Hdm. split; [by destruct (Hdisk m (proj1 Hlm)) as [E|[-> _]]|].
    destruct (tr_dir s Htr m Hlm Hdm) as [Hno _]. unfold holder. cbn. rewrite Nat2Z.id.
    apply list_find_None. apply list_find_None in Hno. apply Forall_insert; [done|].
    rewrite En'. by intros [-> _].
Qed.

Lemma volume_exec im j s c L p x :
  volume s L -> running s p x -> exec_ok s c x -> wp (kernel_handler_svc im j c 0x04) (fun _ => kept tt) s.
Proof.
  intros Hv Hrun (w & Hm & Hw & Hcase). pose proof Hv as [Ht Hfd Hh Hfl Htr].
  destruct (tr_root s Htr) as [Hl Hd]. pose proof (live_is_dir s L _ Hfl Htr Hl Hd) as Hroot.
  enough (He : wp (exec im (j_entry j) (j_priority j) c (c_str w)) (fun _ => kept tt) s).
  { cbn [kernel_handler_svc]. unfold with_string. wp_steps. apply wp_done. exists (c_str w), s. split; [done|].
    wp_step. wp_step. eapply wp_mono; [exact He|]. intros [[r c'] w'] t Hk. unfold mem_write. wp_steps.
    apply (kept_aside t); [done|]. aside_field. }
  destruct (dir_find_live s L ROOT_DIR w Hv Hl Hd) as [Hno|[Hlr H0r]].
  { apply wp_done. eexists _, s. split; [by apply (exec_none im (j_entry j) (j_priority j) c s L)|by exists L]. }
  destruct Hcase as [Hno|(Hreg & Hsz & Hfd' & Hof)]; [lia|].
  destruct (free_fd x) as [n|] eqn:En; [|done]. destruct (free_oft (k_oft s)) as [g|] eqn:Eg; [|done].
  set (r := dir_find s ROOT_DIR w) in *. pose proof (fl_rep s L Hfl r Hlr) as Hf.
  pose proof (fl_mode s L Hfl r (proj1 Hlr)) as Hmode.
  rewrite nblks_reg in Hf by by rewrite Hmode.
  apply (wp_exec im _ _ c s L p x n g w r (current_ic s r)); [done..| |].
  - split; try done; [by split; [|apply Hlr]|]. rewrite Hmode. apply Hlr.
  - intros u q i path' Hgr Hre Hut Hus Hcur. apply (kept_aside u).
    + exists L. by apply (volume_reread s L r q i).
    + destruct (reread_same s q i u Hre) as (Ep & _). split; [|done]. split; try done.
      cbn. rewrite Ep. intros c' y [(<- & <- & _)|[_ Hy]]%list_lookup_insert_Some; [by left|]. right. by exists y.
Qed.

Lemma svc_asked im j s c id L p x call :
  volume s L -> running s p x -> asks s c id call -> call_ok s call -> wp (kernel_handler_svc im j c id) (fun _ => kept tt) s.
Proof.
  intros Hv Hrun Hasks Hok. pose proof (wp_call s L p x call Hv Hrun Hok) as Hc.
  destruct Hasks as [Hn Hlen|Hn| |path f Hm Hf| |path Hm|w Hm]; cbn [run_fcall] in Hc; apply wp_ran in Hc.
  - change (wp (svc_write c) (fun _ => kept tt) s). unfold svc_write. cbv zeta.
    destruct (Z.eqb_spec (s32 (reg c 0)) STDIO); [done|]. unfold mem_read. wp_steps.
    rewrite length_fmap, length_seqZ in Hc. rewrite !Z2Nat.id in * by done.
    eapply wp_mono; [exact Hc|]. intros r t Hk. by wp_steps.
  - change (wp (svc_read c) (fun _ => kept tt) s). unfold svc_read. cbv zeta.
    destruct (Z.eqb_spec (s32 (reg c 0)) STDIO); [done|]. wp_step.
    eapply wp_mono; [exact Hc|]. intros [r data] t Hk. unfold mem_write. wp_steps.
    apply (kept_aside t); [done|]. aside_field.
  - cbn [kernel_handler_svc]. wp_step. eapply wp_mono; [exact Hc|]. intros r t Hk. by wp_steps.
  - cbn [kernel_handler_svc]. apply (wp_volume_string _ path); [done|]. by rewrite Hf.
  - cbn [kernel_handler_svc]. wp_step. eapply wp_mono; [exact Hc|]. intros r t Hk. by wp_steps.
  - cbn [kernel_handler_svc]. by apply (wp_volume_string _ path).
  - cbn [kernel_handler_svc]. wp_step. apply wp_done. eexists _, s. split; [exact Hm|].
    wp_step. eapply wp_mono; [exact Hc|]. intros r t Hk. by wp_steps.
Qed.

Lemma svc_served im j s c id L :
  volume s L -> served s j c id -> wp (kernel_handler_svc im j c id) (fun _ => kept tt) s.
Proof.
  intros Hv (p & x & Hrun & [(call & Hasks & Hok)|[[-> He]|[[-> Hm]|[[-> [Hm Hs]]|[[-> (Hno & Hcwd & Hnum & Hl & Hw)]|[-> Hmv]]]]]]).
  - by apply (svc_asked im j s c id L p x call).
  - by apply (volume_exec im j s c L p x).
  - by apply (volume_mkdir j c s L).
  - pose proof Hv as [_ _ _ Hfl Htr]. destruct (tr_cwd s Htr) as (Hl & Hd & Hd31).
    apply (wp_svc_ls c s L); [by apply live_is_dir|done..|].
    apply (kept_aside s); [by exists L|]. aside_field.
  - pose proof Hv as [Ht Hfd _ [[] _ _ _] _]. cbn [kernel_handler_svc]. wp_step.
    apply (wp_wipe s im (j_dir j) p x); try done. intros t Hin. wp_steps. eexists. apply Hin.
  - by apply (volume_mv c s L).
Qed.

(** ** The machine *)

Variable im : image.

(** The steps of System.v, with the calls on files that the file system can serve, and
    without [cp]. *)
Inductive serving : ctx_t * kernel D -> ctx_t * kernel D -> Prop :=
  | sv_user c c' m s : serving (c, s) (c', set_k_mem m s)
  | sv_key c l s : serving (c, s) (c, set_k_in l s)
  | sv_irq c id c' s t : kernel_handler_irq c id s = Done (c', t) -> serving (c, s) (c', t)
  | sv_svc j c id c' s t : served s j c id \/ no_file_call c id ->
      kernel_handler_svc im j c id s = Done (c', t) -> serving (c, s) (c', t).

Lemma serving_kept x y : serving x y -> kept tt x.2 -> kept tt y.2.
Proof.
  intros [c c' m s|c l s|c id c' s t Hr|j c id c' s t Hs Hr] Hk; cbn [snd] in *.
  - apply (kept_aside s); [done|]. aside_field.
  - apply (kept_aside s); [done|]. aside_field.
  - apply (kept_aside s); [done|]. by apply (still_irq c id s c').
  - destruct Hs as [Hs|Hs]; [|by apply (kept_aside s); [|apply (still_svc im j c id Hs s c')]].
    destruct Hk as [L Hv]. pose proof (svc_served im j s c id L Hv Hs) as (? & ? & E & Hk)%wp_done.
    rewrite E in Hr. by injection Hr as _ <-.
Qed.

Lemma serving_rtc x y : rtc serving x y -> kept tt x.2 -> kept tt y.2.
Proof. intros Hr. induction Hr as [x|x y z Hxy _ IH]; [done|]. intros Hk. by apply IH, (serving_kept x y). Qed.

(** C1: the file system holds together.  Start from a volume: in memory and on the disk every
    inode in use has the blocks its size asks for, no block belongs to two files or to a
    file and the free list, every directory entry leads to an inode in use, every regular
    file has at most one name, the open-file tables and the descriptors agree.  Then let
    any processes run, with interrupts, keys, scheduling, forks, signals and messages, and
    any open, close, read, write, seek, [ls], [mkdir], [mv], [cd], unlink, [exec] and [wipe] within
    what the file system can serve, in any order: it is a volume still, and the next such call returns. *)
Theorem kernel_volume c s L c' t :
  volume s L -> rtc serving (c, s) (c', t) ->
  exists L', volume t L' /\ forall j id, served t j c' id ->
    exists c'' u, kernel_handler_svc im j c' id t = Done (c'', u) /\ serving (c', t) (c'', u).
Proof.
  intros Hv Hr. pose proof (serving_rtc _ _ Hr (ex_intro _ L Hv)) as Hk.
  destruct Hk as [L' Hv']. exists L'. split; [done|]. intros j id Hs.
  pose proof (svc_served im j t c' id L' Hv' Hs) as (c'' & u & E & _)%wp_done.
  exists c'', u. split; [done|]. apply (sv_svc j c' id); [by left|done].
Qed.
End Machine.
