(* ===== verification/Boot.v ===== *)
(** * Reset

    [kernel_handler_rst] after a power cycle: what was on the disk is the file system
    again, and every invariant the other files assume holds. *)

From S2P Require Import Prelude CMonad Layout BlockDev Kernel Sched SchedProof FsOps FreeList OpenProof Posix Exec Svc.

Section Boot.
Context {D : Type} `{BlockDeviceLaws D}.
Implicit Types (s t : kernel D) (d : D) (L : list Z).

(** ** Device registers *)

Definition hw_set (r : hwreg) (v : Z) (h : hwreg -> Z) : hwreg -> Z := fun r' =>
  if bool_decide (r' = r) then v else h r'.
Definition hw_or (r : hwreg) (v : Z) (h : hwreg -> Z) : hwreg -> Z := hw_set r (Z.lor (h r) v) h.

Lemma wp_set_hw r v h (Q : unit -> kernel D -> Prop) s :
  Q tt (set_k_hw (hw_set r v h) s) -> wp (set_hw r v) Q (set_k_hw h s).
Proof. done. Qed.

Lemma wp_or_hw r v h (Q : unit -> kernel D -> Prop) s :
  Q tt (set_k_hw (hw_or r v h) s) -> wp (or_hw r v) Q (set_k_hw h s).
Proof. done. Qed.

Lemma set_k_hw_id s : set_k_hw (k_hw s) s = s.
Proof. by destruct s. Qed.

(** ** The state after a reset *)

(** The globals as the loader clears them, over a disk and what is in memory. *)
Definition power_on (d : D) (m : gmap Z Z) (input : list Z) : kernel D := set_k_mem m (bss d input).

(** The first process. *)
Definition init_ctx (im : image) : ctx_t :=
  mk_ctx 0x50 (u32 (entry_init im)) (replicate 13 0) (u32 (tos_init im)) 0.
Definition init_pcb (im : image) : pcb_t :=
  mk_pcb 0 0 (init_ctx im) EXECUTING 1 1 (replicate 16 None).
Definition init_table (im : image) : list pcb_t := init_pcb im :: replicate 7 zero_pcb.

(** What a reset makes of the globals. *)
Record fresh_boot (im : image) (d : D) (f : fs_t) (t : kernel D) : Prop := {
  fb_disk : k_disk t = d;
  fb_fs : k_fs t = f;
  fb_pcb : k_pcb t = init_table im;
  fb_current : k_current t = Some 0;
  fb_rq : k_rq t = queue [0] /\ k_rq_size t = 1;
  fb_mq : k_mq t = replicate 32 zero_mq;
  fb_oft : k_oft t = replicate 128 (mk_ofile None 0);
  fb_ai : k_ai t = replicate 128 zero_inode;
  fb_cwd : k_cwd t = ROOT_DIR;
  fb_timer : k_hw t TIMER0_Load = 0x1000 /\ k_hw t TIMER0_Ctrl = 0xe2 /\ k_hw t CPSR_I = 0;
}.

Lemma wp_reset im m d input f :
  dev_ok d -> valid_addr D 1 -> lwf f -> dev_blk d 1 = enc f ->
  wp (kernel_handler_rst im) (fun c t => c = init_ctx im /\ fresh_boot im d f t) (power_on d m input).
Proof.
  intros Hok H1 Hf Hsync. unfold kernel_handler_rst.
  wp_step. eapply (wp_upd Pcb 0 zero_pcb); [done|done|]. wp_steps.
  match goal with |- wp (rq_add 0) _ ?s => set (u := s) end.
  assert (Hq : rq_add 0 u = Done (tt, enqueued 0 [] u)).
  { apply (rq_add_run u [] 0 (init_pcb im)); [|done|apply not_elem_of_nil|done].
    split; try done; [cbn; lia|constructor|by intros p ?%not_elem_of_nil|]. by exists 0, (init_pcb im). }
  apply wp_run in Hq. eapply wp_mono; [exact Hq|]. intros [] v [_ ->]. wp_steps.
  apply wp_disk_rd; [done|done|]. wp_steps.
  match goal with |- wp _ _ ?s => set (w := s); rewrite <-(set_k_hw_id w) end.
  assert (E : k_hw w = fun _ => 0) by reflexivity. rewrite E. clear E.
  repeat first [apply wp_or_hw | apply wp_set_hw | wp_step]. split; [done|].
  subst w u. split; try reflexivity; [|by split|by split_and!].
  change (dec (dev_blk d 1) = f). by rewrite Hsync, dec_enc.
Qed.

(** ** What the other files assume *)

Lemma boot_sched im d f t : fresh_boot im d f t -> sched_wf t [0].
Proof.
  intros [_ _ Hp Hc [Hq Hz] _ _ _ _ _]. split.
  - by rewrite Hp.
  - done.
  - done.
  - cbn. lia.
  - apply NoDup_singleton.
  - intros p ->%list_elem_of_singleton. exists (init_pcb im). by rewrite Hp.
  - exists 0, (init_pcb im). by rewrite Hp.
Qed.

Lemma boot_tables im d f t : fresh_boot im d f t -> tables_ok t.
Proof. intros [_ _ _ _ _ _ Ho Ha _ _]. by apply tables_ok_empty. Qed.

Lemma boot_fds im d f t : fresh_boot im d f t -> fds_ok t.
Proof.
  intros [_ _ Hp _ _ _ _ _ _ _]. apply fds_ok_none. rewrite Hp.
  apply list.Forall_cons. split; [done|by apply Forall_replicate].
Qed.

(** C13: a reset recovers the volume.  From any file system that memory and disk agree on,
    a power cycle - only the disk survives - brings it back whole: the superblock is the
    one that was in memory, the free list the same, and with it every inode and directory.
    The queue holds just process 0, which runs from its entry point in user mode; nothing
    is open, every channel is unnamed, and the invariants of the scheduler, of the open-file
    tables and of the descriptors hold. *)
Theorem reset_recovers im m input s L :
  fs_rep s L ->
  exists t, kernel_handler_rst im (power_on (k_disk s) m input) = Done (init_ctx im, t) /\
    fresh_boot im (k_disk s) (k_fs s) t /\ fs_rep t L /\ sched_wf t [0] /\
    running t 0 (init_pcb im) /\ tables_ok t /\ fds_ok t.
Proof.
  intros Hs. pose proof Hs as [Hok Hf Hg Hsync Hh Hfree Hnd Hd].
  destruct (proj1 (wp_done _ _ _) (wp_reset im m (k_disk s) input (k_fs s) Hok
    (geometry_sb_valid _ Hg) Hf Hsync)) as (c & t & Hr & -> & Hb).
  exists t. split; [done|]. split; [done|]. split; [|split; [by apply (boot_sched im _ _ _ Hb)|]].
  - split; rewrite ?(fb_disk _ _ _ _ Hb), ?(fb_fs _ _ _ _ Hb); done.
  - split; [|split; [by apply (boot_tables im _ _ _ Hb)|by apply (boot_fds im _ _ _ Hb)]].
    split; [apply Hb|done| |done]. by rewrite (fb_pcb _ _ _ _ Hb).
Qed.
End Boot.

Lemma reset_recovers_witness :
  exists t, kernel_handler_rst demo_image (power_on demo_disk ∅ []) = Done (init_ctx demo_image, t) /\
    fs_rep t [21; 20] /\ sched_wf t [0].
Proof.
  destruct (reset_recovers demo_image ∅ [] demo_state [21; 20] demo_rep) as (t & Hr & _ & Ht & Hq & _).
  exists t. split; [exact Hr|]. split; [exact Ht|exact Hq].
Defined.
