(* ===== verification/VolumeStart.v ===== *)
(** * Where volumes come from

    A power cycle with nothing open keeps a volume, as formatting makes one (Install.v):
    the states from which VolumeKernel.v starts.  And a concrete volume, with the calls of
    VolumeKernel.v, Install.v and Move.v in it. *)

From S2P Require Import Prelude CMonad Layout BlockDev Kernel Sched MQueue FsOps FreeList InodeProof BlockMap FileRep FileGrow Dir Posix FileIO DirProof DirRemove PathProof Create Unlink OpenProof Volume VolumeIO VolumeTree VolumeCalls Session Exec Format Install Svc Mkdir Move Copy VolumeKernel Boot.

Section Start.
Context {D : Type} `{BlockDeviceLaws D}.
Implicit Types (s t : kernel D) (L : list Z).

(** With nothing open the volume is what is on the disk. *)
Lemma volume_closed s t L :
  volume s L -> nothing_open s -> k_fs t = k_fs s -> k_disk t = k_disk s -> k_cwd t = ROOT_DIR ->
  tables_ok t -> fds_ok t -> nothing_open t -> volume t L.
Proof.
  intros Hv Hno Ef Ed Ec Ht Hfd Hno'. pose proof Hv as [_ _ _ Hfl Htr].
  destruct (tr_root s Htr) as [Hl Hd].
  apply (volume_same (set_k_cwd ROOT_DIR s)); try done.
  - by apply volume_cwd.
  - by apply nothing_heads.
  - by apply (fs_rep_ext s); [..|apply Hfl].
  - split; [by cbn; rewrite Ef|]. intros b _ _. by rewrite Ed.
  - intros n Hn. rewrite !nothing_current by done. cbn. by rewrite Ef, Ed.
  - intros n Hn Hdn. rewrite nothing_holder by done. cbn. by rewrite Ef, Ed.
Qed.

(** C14: the volume survives a power cycle.  When no file is open, only the disk is needed:
    reset reads the superblock back, and the invariant holds for the same free list, with
    the working directory at the root. *)
Theorem reset_volume im m input s L :
  volume s L -> nothing_open s ->
  exists t, kernel_handler_rst im (power_on (k_disk s) m input) = Done (init_ctx im, t) /\ volume t L.
Proof.
  intros Hv Hno. pose proof (fl_fs s L (vo_files s L Hv)) as [Hok Hf Hg Hsync _ _ _ _].
  destruct (proj1 (wp_done _ _ _) (wp_reset im m (k_disk s) input (k_fs s) Hok
    (geometry_sb_valid _ Hg) Hf Hsync)) as (c & t & Hr & -> & Hb).
  exists t. split; [done|]. apply (volume_closed s); [done|done|apply Hb|apply Hb|apply Hb| | |].
  - by apply (boot_tables im _ _ _ Hb).
  - by apply (boot_fds im _ _ _ Hb).
  - unfold nothing_open. rewrite (fb_ai _ _ _ _ Hb). apply Forall_replicate. intros Hu. by apply Hu.
Qed.
End Start.

(** ** Witnesses: the demo disk, nothing open, one process *)

Definition demo_idle : kernel MemDisk :=
  set_k_mem {[4096 := 102]} (set_k_current (Some 0)
    (set_k_pcb (demo_proc (replicate 16 None) :: replicate 7 zero_pcb) demo_state)).

Lemma demo_idle_tables : tables_ok demo_idle.
Proof. by apply tables_ok_empty. Qed.

Lemma demo_idle_fds : fds_ok demo_idle.
Proof. apply fds_ok_none, list.Forall_cons. split; [done|by apply Forall_replicate]. Qed.

Lemma demo_idle_closed : nothing_open demo_idle.
Proof. apply Forall_replicate. intros Hu. by apply Hu. Qed.

Lemma demo_inode_live n : live demo_idle n <-> n = 0 \/ n = 1 \/ n = 2.
Proof.
  split.
  - intros [[H0 Hn] Hf]. change (k_fs demo_idle) with demo_fs in Hn.
    assert (Hr : 0 <= n < 16).
    { split; [done|]. pose proof (Z.div_mod n 8). pose proof (Z.mod_pos_bound n 8). change (n / 8 < 16 / 8) in Hn. change (16 / 8) with 2 in Hn. lia. }
    destruct (decide (n < 3)); [lia|exfalso; apply Hf].
    assert (Hc : n ∈ seqZ 3 13) by (apply elem_of_seqZ; lia).
    assert (Hall : forallb (fun n => ic_mode (inode_at demo_fs demo_disk n) =? mode_val IFZERO) (seqZ 3 13) = true)
      by (vm_compute; reflexivity).
    rewrite forallb_forall in Hall. by apply Z.eqb_eq, Hall, list_elem_of_In.
  - intros [-> |[-> | ->]]; (split; [split; [done|by vm_compute]|]); by vm_compute.
Qed.

Lemma demo_dir_modes n : live demo_idle n -> dir_mode demo_idle n -> n = 0 \/ n = 2.
Proof. intros [-> |[-> | ->]]%demo_inode_live Hd; [by left| |by right]. by vm_compute in Hd. Qed.

Lemma demo_held n : live demo_idle n -> held demo_idle n = [n + 9].
Proof. by intros [-> |[-> | ->]]%demo_inode_live. Qed.

Lemma demo_entries : entries demo_idle 0 = take 3 demo_root /\ entries demo_idle 2 = take 2 demo_sub.
Proof. split; vm_compute; reflexivity. Qed.

Lemma demo_is_dir_idle n : n = 0 \/ n = 2 -> is_dir demo_idle [21; 20] n.
Proof.
  intros Hn. destruct (demo_is_dir n Hn) as [Hs Hf Hi Hsz Hm]. split; [..|done].
  - by apply (fs_rep_ext demo_state).
  - by apply (file_rep_ext demo_state).
  - exact Hi.
  - exact Hsz.
Qed.

Lemma demo_volume : volume demo_idle [21; 20].
Proof.
  assert (Hdirs : forall n, n = 0 \/ n = 2 -> live demo_idle n /\ dir_mode demo_idle n).
  { intros n Hn. split; [apply demo_inode_live; tauto|by destruct Hn as [-> | ->]]. }
  split; [apply demo_idle_tables|apply demo_idle_fds|apply nothing_heads; [apply demo_idle_tables|apply demo_idle_closed]| |].
  - split.
    + apply (fs_rep_ext demo_state); [done..|apply demo_rep].
    + intros n _. by rewrite nothing_current by apply demo_idle_closed.
    + intros n Hn. rewrite nothing_current by apply demo_idle_closed. apply demo_inode_live in Hn as [-> |[-> | ->]].
      * apply (dr_file _ _ _ _ (demo_is_dir_idle 0 (or_introl eq_refl))).
      * by apply (file_rep_ext demo_state); [..|apply demo_file].
      * apply (dr_file _ _ _ _ (demo_is_dir_idle 2 (or_intror eq_refl))).
    + intros n m a Hn Hm. rewrite !demo_held, !list_elem_of_singleton by done. lia.
  - destruct demo_entries as [E0 E2]. split.
    + intros n Hn Hd. split; [apply nothing_holder, demo_idle_closed|].
      by destruct (demo_dir_modes n Hn Hd) as [-> | ->].
    + intros n e Hn Hd He.
      assert (Hall : Forall (fun e => d_ino e = 0 \/ d_ino e = 1 \/ d_ino e = 2) (entries demo_idle n))
        by (destruct (demo_dir_modes n Hn Hd) as [-> | ->]; rewrite ?E0, ?E2; by apply (bool_decide_unpack _)).
      pose proof (proj1 (list.Forall_forall _ _) Hall e He) as Hi. cbv beta in Hi. split; [by apply demo_inode_live|lia].
    + intros n n' k k' e e' Hn Hd Hn' Hd' Hk Hk' E Hr.
      assert (Hone : forall n k e, live demo_idle n -> dir_mode demo_idle n -> entries demo_idle n !! k = Some e ->
                ~ dir_mode demo_idle (d_ino e) -> n = 0 /\ k = 1%nat).
      { clear. intros n k e Hn Hd Hk Hr. destruct demo_entries as [E0 E2].
        destruct (demo_dir_modes n Hn Hd) as [-> | ->]; rewrite ?E0, ?E2 in Hk;
          (destruct k as [|[|[|k]]]; [..|done]); try (by injection Hk as <-; destruct Hr; vm_compute); try done. }
      destruct (Hone n k e Hn Hd Hk Hr) as [-> ->]. rewrite E in Hr.
      by destruct (Hone n' k' e' Hn' Hd' Hk' Hr) as [-> ->].
    + apply (Hdirs 0). by left.
    + destruct (Hdirs 0 (or_introl eq_refl)). by split_and!.
Qed.

(** The call [unlink("f")] of the demo process. *)
Definition demo_unlink : ctx_t := set_gpr 0 4096 zero_ctx.

Lemma demo_served j : served demo_idle j demo_unlink 0x12.
Proof.
  exists 0, (demo_proc (replicate 16 None)). split; [by split|]. left.
  exists (C_unlink [102]). split; [by apply asks_unlink; vm_compute|].
  split; [by apply (bool_decide_unpack _)|]. split; [by vm_compute|].
  assert (E : victim demo_idle (inode_of demo_idle 0 0) (dir_count demo_idle 0) [102] = Some (1%nat, demo_entry 1 [102]))
    by (vm_compute; reflexivity).
  change (k_cwd demo_idle) with 0. rewrite E. intros k e [= <- <-]. by split; vm_compute.
Qed.

(** After that call, and a timer interrupt, the demo volume is one still. *)
Lemma kernel_volume_witness :
  exists c t L, kernel_handler_svc demo_image (mk_junk [] zero_inode 0 0) demo_unlink 0x12 demo_idle = Done (c, t) /\
    volume t L.
Proof.
  destruct (kernel_volume demo_image demo_unlink demo_idle [21; 20] demo_unlink demo_idle demo_volume
    ltac:(constructor)) as (L & _ & Hnext).
  destruct (Hnext (mk_junk [] zero_inode 0 0) 0x12 (demo_served _)) as (c & t & Hr & Hstep).
  destruct (kernel_volume demo_image demo_unlink demo_idle [21; 20] c t demo_volume) as (L' & Hv & _).
  - by apply rtc_once.
  - exists c, t, L'. split; [exact Hr|exact Hv].
Defined.

Lemma reset_volume_witness :
  exists t, kernel_handler_rst demo_image (power_on demo_disk ∅ []) = Done (init_ctx demo_image, t) /\
    volume t [21; 20].
Proof. exact (reset_volume demo_image ∅ [] demo_idle [21; 20] demo_volume demo_idle_closed). Defined.

(** The demo disk formatted: the first program is there. *)
Lemma wipe_installs_witness :
  exists t, wipe demo_image (replicate 16 (demo_entry 0 [])) demo_idle = Done (tt, t) /\
    volume t (drop 8 left_free) /\ dir_find t ROOT_DIR [80; 48] = 1.
Proof.
  destruct (wipe_installs demo_image (replicate 16 (demo_entry 0 [])) demo_idle 0 (demo_proc (replicate 16 None)))
    as (t & Hr & Hv & _ & _ & Hp).
  - apply demo_volume.
  - apply demo_volume.
  - apply demo_idle_closed.
  - by split.
  - reflexivity.
  - apply demo_disk_ok.
  - apply demo_fs_wf.
  - done.
  - reflexivity.
  - apply Forall_replicate. by apply (bool_decide_unpack _).
  - exists t. split; [exact Hr|]. split; [exact Hv|]. by apply (Hp 0%nat [80; 48] (entry_P0 demo_image)).
Defined.

(** ** A directory that is open *)

(** [open] does not refuse a directory.  When an entry is made in it meanwhile, [close]
    writes back the size that [open] read: the entry is lost, and its file with it. *)
Theorem open_directory_loses :
  value ('(d, _) ← open [47; 100; 0] (oflag_val O_EXIST);
         '(f, _) ← open [47; 100; 47; 120; 0] (oflag_val O_CREAT);
         '(a, _) ← path_to_ino [47; 100; 47; 120; 0] ROOT_DIR;
         _ ← close f;
         _ ← close d;
         '(b, _) ← path_to_ino [47; 100; 47; 120; 0] ROOT_DIR;
         mret (d, f, a, b)) demo_idle = Some (0, 1, 3, -1).
Proof. vm_compute. reflexivity. Qed.

(** [cd] does not ask whether the path leads to a directory. *)
Theorem cd_enters_file :
  exists path t, cd [47; 102; 0] demo_idle = Done ((0, path), t) /\ k_cwd t = 1 /\ ~ dir_mode t 1.
Proof. eexists _, _. split; [vm_compute; reflexivity|]. split; [reflexivity|by vm_compute]. Qed.

(** [mv f d] in the demo volume: [f] is in [d] then. *)
Definition demo_mv : kernel MemDisk := set_k_mem (list_to_map [(0, 102); (1, 0); (8, 100); (9, 0)]) demo_idle.

Definition demo_mv_ctx : ctx_t := mk_ctx 0x50 0 [0; 8; 0; 0; 0; 0; 0; 0; 0; 0; 0; 0; 0] 0 0.

Lemma demo_to_move : to_move demo_mv demo_mv_ctx [102] 2 1 (demo_entry 1 [102]) [102].
Proof.
  split.
  - split_and!; [by split; [split|]; by vm_compute|by vm_compute|done].
  - split; [by vm_compute|by apply (bool_decide_unpack _)].
  - vm_compute. reflexivity.
  - split; [by apply (bool_decide_unpack _)|]. exists (replicate 24 0). by vm_compute.
  - by vm_compute.
Qed.

Lemma svc_mv_moves_witness :
  exists t, svc_mv demo_mv_ctx demo_mv = Done (demo_mv_ctx, t) /\ volume t [21; 20] /\ dir_find t 2 [102] = 1.
Proof.
  destruct (svc_mv_moves demo_mv_ctx demo_mv [21; 20] [21; 20] [102] [100; 0] [100] [] 2 0 [100] [] 1
    (demo_entry 1 [102]) [102]) as (t & Hr & Hv & _ & Hf).
  - apply volume_mem, demo_volume.
  - apply demo_to_move.
  - by vm_compute.
  - vm_compute. reflexivity.
  - apply (path_comp 0 [100] [0] []); [by split_and!; [|apply (bool_decide_unpack _)|apply (bool_decide_unpack _)]|apply (path_end 0 [])|by right].
  - intros i j Hi Hj. change (0 <= i < 2) in Hi. change (0 <= j < 2) in Hj. change (reg demo_mv_ctx 0) with 0.
    change (reg demo_mv_ctx 1) with 8. rewrite !u32_small by (unfold is_u32; lia). lia.
  - vm_compute. reflexivity.
  - vm_compute. reflexivity.
  - exists t. split; [exact Hr|]. split; [exact Hv|]. apply Hf; by vm_compute.
Defined.

(** What the limits of [mv] leave out, on the same volume.  A move into the current
    directory itself, [mv f .] with the inode of the destination read before the removal:
    the directory has one entry more, and [d] twice. *)
Definition demo_names (l : list (Z * Z)) : option (list (Z * Z) * list (Z * Z)) :=
  match svc_mv demo_mv_ctx (set_k_mem (list_to_map l) demo_idle) with
  | Done (_, t) =>
      let names n := (fun e : dir_t => (nth 0 (d_name e) 0, d_ino e)) <$> entries t n in
      Some (names 0, names 2)
  | _ => None
  end.

Lemma mv_same_directory :
  demo_names [(0, 102); (1, 0); (8, 46); (9, 0)] =
  Some ([(46, 0); (100, 2); (100, 2); (102, 1)], [(46, 2); (46, 0)]).
Proof. vm_compute. reflexivity. Qed.

(** A directory into itself, [mv d d]: no path leads to it any more. *)
Lemma mv_into_itself :
  demo_names [(0, 100); (1, 0); (8, 100); (9, 0)] =
  Some ([(46, 0); (102, 1)], [(46, 2); (46, 0); (100, 2)]).
Proof. vm_compute. reflexivity. Qed.

(** [cp f new] in the demo volume, when the stack has [x] for the first block. *)
Definition demo_cp : kernel MemDisk :=
  set_k_mem (list_to_map [(0, 102); (1, 0); (8, 110); (9, 101); (10, 119); (11, 0)]) demo_idle.

Definition cp_junk (x : Z) : junk :=
  mk_junk [] (mk_inode 0 0 (mk_icommon 0 0 (replicate 11 x) (replicate 3 0))) 0 0.

(** The entry is there, for an inode that is free. *)
Lemma svc_cp_loses_witness :
  exists t, svc_cp (cp_junk 4096) demo_mv_ctx demo_cp = Done (demo_mv_ctx, t) /\
    is_free (k_fs t) (k_disk t) 3 /\ forall L, ~ volume t L.
Proof.
  destruct (svc_cp_loses (cp_junk 4096) demo_mv_ctx demo_cp [21; 20] [21; 20] [102; 0] [102] [] 1 0 [102] [] [110; 101; 119] 3)
    as (t & Hr & _ & Hf & _ & Hv).
  - apply volume_mem, demo_volume.
  - by vm_compute.
  - vm_compute. reflexivity.
  - apply (path_comp 0 [102] [0] []); [by split_and!; [|apply (bool_decide_unpack _)|apply (bool_decide_unpack _)]|apply (path_end 0 [])|by right].
  - vm_compute. reflexivity.
  - done.
  - by vm_compute.
  - by vm_compute.
  - by vm_compute.
  - vm_compute. reflexivity.
  - by apply (bool_decide_unpack _).
  - intros i j Hi Hj. change (0 <= i < 4) in Hi. change (0 <= j < 2) in Hj. change (reg demo_mv_ctx 0) with 0.
    change (reg demo_mv_ctx 1) with 8. rewrite !u32_small by (unfold is_u32; lia). lia.
  - by apply (bool_decide_unpack _).
  - assert (E : strays (cp_junk 4096) (ic_size (inode_at (k_fs demo_cp) (k_disk demo_cp) 1)) = [4096])
      by (vm_compute; reflexivity).
    rewrite E. apply Forall_singleton. by left.
  - by split; vm_compute.
  - by vm_compute.
  - done.
  - intros m Hm. assert (m = 0 \/ m = 1 \/ m = 2) as [-> |[-> | ->]] by lia; by vm_compute.
  - by vm_compute.
  - vm_compute. reflexivity.
  - exists t. split; [exact Hr|]. split; [exact Hf|exact Hv].
Defined.

(** With the address of another block there, that block is overwritten: 11 is that of the
    directory [d], and the bytes of [f] are its entries then. *)
Lemma cp_overwrites :
  match svc_cp (cp_junk 11) demo_mv_ctx demo_cp with
  | Done (_, t) => d_name <$> entries t 2 = replicate 2 (replicate 26 7)
  | _ => False
  end.
Proof. vm_compute. done. Qed.
