(* ===== verification/Shape.v ===== *)
(** * The shape of the kernel's state

    What the types of kernel.h, fs.h and mqueue.h say that the lists and options of the
    model do not: every array has its declared length and every pointer points into the
    array it was made for.  Every entry point of the kernel keeps it. *)

From S2P Require Import Prelude CMonad Layout BlockDev Kernel Sched MQueue FsOps Dir Posix Svc.

(** ** Shapes by type *)

(** A pointer into an array of [n] elements. *)
Definition ptr (n : Z) (v : option Z) : Prop := match v with Some p => 0 <= p < n | None => True end.

Class Shaped (A : Type) := ok : A -> Prop.

#[export] Instance ok_any A : Shaped A | 100 := fun _ => True.
#[export] Instance ok_option {A} `{Shaped A} : Shaped (option A) := fun o =>
  match o with Some a => ok a | None => True end.
#[export] Instance ok_pair {A B} `{Shaped A, Shaped B} : Shaped (A * B) := fun ab => ok ab.1 /\ ok ab.2.
#[export] Instance ok_sum {A B} `{Shaped A, Shaped B} : Shaped (A + B) := fun x =>
  match x with inl a => ok a | inr b => ok b end.
#[export] Instance ok_icommon : Shaped icommon_t := fun ic =>
  length (ic_db ic) = NDADDR /\ length (ic_ib ic) = NIADDR.
#[export] Instance ok_inode : Shaped inode_t := fun i => ok (i_ic i).
#[export] Instance ok_walk : Shaped walk_t := fun w => ok (w_inode w).
#[export] Instance ok_ctx : Shaped ctx_t := fun c => length (gpr c) = 13%nat.
#[export] Instance ok_pcb : Shaped pcb_t := fun p =>
  ok (ctx p) /\ length (fd p) = 16%nat /\ Forall (ptr OFT_LIMIT) (fd p).
#[export] Instance ok_mq : Shaped mqueue := fun q => length (msg_qbuf q) = 64%nat.
#[export] Instance ok_ofile : Shaped ofile_t := fun o => ptr AIT_LIMIT (o_inptr o).
#[export] Instance ok_fs : Shaped fs_t := fun f =>
  length (fs_fdb f) = 64%nat /\ length (fs_fil f) = 32%nat.

(** The whole state. *)
Record shape {D} (s : kernel D) : Prop := {
  sh_pcb : length (k_pcb s) = 8%nat /\ Forall ok (k_pcb s);
  sh_current : ptr PROCESS_LIMIT (k_current s);
  sh_rq : length (k_rq s) = 8%nat /\ Forall (ptr PROCESS_LIMIT) (k_rq s);
  sh_mq : length (k_mq s) = 32%nat /\ Forall ok (k_mq s);
  sh_oft : length (k_oft s) = 128%nat /\ Forall ok (k_oft s);
  sh_ai : length (k_ai s) = 128%nat /\ Forall ok (k_ai s);
  sh_fs : ok (k_fs s);
}.

(** No claim about a result. *)
Definition any {A} (_ : A) : Prop := True.
#[export] Hint Extern 0 (any _) => exact I : core.

(** [m], when it returns, keeps the shape and returns a value that satisfies [P]. *)
Definition keeps {D A} (P : A -> Prop) (m : M (kernel D) A) : Prop :=
  forall s a t, m s = Done (a, t) -> shape s -> shape t /\ P a.

Create HintDb shape.

Section Rules.
Context {D : Type}.
Implicit Types (s t : kernel D).

Lemma keeps_weaken {A} (P Q : A -> Prop) (m : M (kernel D) A) :
  keeps P m -> (forall a, P a -> Q a) -> keeps Q m.
Proof. intros Hm HPQ s a t Hr Hs. destruct (Hm s a t Hr Hs). auto. Qed.

Lemma keeps_any {A} (P : A -> Prop) (m : M (kernel D) A) : keeps P m -> keeps any m.
Proof. intros Hm. by apply (keeps_weaken P). Qed.

Lemma keeps_ret {A} (P : A -> Prop) (a : A) : P a -> keeps (D := D) P (mret a).
Proof. intros Ha s a' t [= <- <-] Hs. done. Qed.

Lemma keeps_bind {A B} (P : A -> Prop) (Q : B -> Prop) (m : M (kernel D) A) k :
  keeps P m -> (forall a, P a -> keeps Q (k a)) -> keeps Q (m ≫= k).
Proof.
  intros Hm Hk s b t (a & u & E & Hr)%run_bind_inv Hs. destruct (Hm s a u E Hs) as [Hu Ha].
  by apply (Hk a Ha u).
Qed.

Lemma keeps_gets {A} (f : kernel D -> A) (P : A -> Prop) :
  (forall s, shape s -> P (f s)) -> keeps P (gets f).
Proof. intros Hf s a t [= <- <-] Hs. auto. Qed.

Lemma keeps_modify (f : kernel D -> kernel D) :
  (forall s, shape s -> shape (f s)) -> keeps any (modify f).
Proof. intros Hf s a t [= <- <-] Hs. auto. Qed.

Lemma keeps_lift {A} (P : A -> Prop) (o : outcome A) :
  (forall a, o = Done a -> P a) -> keeps (D := D) P (lift o).
Proof. intros Ho s a t Hr Hs. unfold lift in Hr. destruct o; [|done..]. injection Hr as <- <-. auto. Qed.

Lemma keeps_aget {A} (P : A -> Prop) (l : list A) i : Forall P l -> keeps (D := D) P (lift (aget l i)).
Proof.
  intros Hl. apply keeps_lift. intros a [_ Ha]%aget_inv. by apply (Forall_lookup_1 _ _ _ _ Hl Ha).
Qed.

Lemma keeps_aset {A} (P : A -> Prop) (l : list A) i x :
  Forall P l -> P x ->
  keeps (D := D) (fun l' => length l' = length l /\ Forall P l') (lift (aset l i x)).
Proof.
  intros Hl Hx. apply keeps_lift. intros l'. unfold aset. case_match; [|done]. intros [= <-].
  split; [apply length_insert|by apply Forall_insert].
Qed.

Lemma keeps_aset_len {A} (l : list A) i x :
  keeps (D := D) (fun l' => length l' = length l) (lift (aset l i x)).
Proof.
  eapply keeps_weaken; [apply (keeps_aset any); [by apply Forall_true|done]|]. by intros l' [Hl _].
Qed.

Lemma keeps_deref {A} (P : A -> Prop) (p : option A) :
  (forall a, p = Some a -> P a) -> keeps (D := D) P (deref p).
Proof. intros Hp. apply keeps_lift. intros a Ha. destruct p; [|done]. injection Ha as ->. auto. Qed.

Lemma keeps_when b (m : M (kernel D) unit) :
  keeps any m -> keeps any (when b m).
Proof. intros Hm. destruct b; [done|by apply keeps_ret]. Qed.

Lemma keeps_for_do n lo body :
  (forall i, lo <= i < lo + Z.of_nat n -> keeps (D := D) any (body i)) ->
  keeps any (for_do n lo body).
Proof.
  revert lo. induction n as [|n IH]; intros lo Hb; cbn [for_do]; [by apply keeps_ret|].
  apply (keeps_bind any); [apply Hb; lia|]. intros _ _. apply IH. intros i Hi. apply Hb. lia.
Qed.

Lemma keeps_for_fold {A} (P : A -> Prop) n lo body (a : A) :
  P a -> (forall i b, lo <= i < lo + Z.of_nat n -> P b -> keeps (D := D) P (body i b)) ->
  keeps P (for_fold n lo body a).
Proof.
  revert lo a. induction n as [|n IH]; intros lo a Ha Hb; cbn [for_fold]; [by apply keeps_ret|].
  apply (keeps_bind P); [apply Hb; [lia|done]|]. intros b Hpb. apply IH; [done|].
  intros i c Hi. apply Hb. lia.
Qed.

Lemma keeps_for_loop {A R} (P : A -> Prop) (Q : R -> Prop) n lo body (a : A) :
  P a ->
  (forall i b, lo <= i < lo + Z.of_nat n -> P b ->
     keeps (D := D) (fun x => match x with inl b' => P b' | inr r => Q r end) (body i b)) ->
  keeps (fun x => match x with inl b' => P b' | inr r => Q r end) (for_loop n lo body a).
Proof.
  revert lo a. induction n as [|n IH]; intros lo a Ha Hb; cbn [for_loop]; [by apply keeps_ret|].
  eapply keeps_bind; [apply Hb; [lia|done]|]. intros [b|r] Hx; [|by apply keeps_ret].
  apply IH; [done|]. intros i c Hi. apply Hb. lia.
Qed.

Lemma keeps_for_find {R} (P : R -> Prop) n lo body :
  (forall i, lo <= i < lo + Z.of_nat n ->
     keeps (D := D) (fun x => match x with Some r => P r | None => True end) (body i)) ->
  keeps (fun x => match x with Some r => P r | None => True end) (for_find n lo body).
Proof.
  revert lo. induction n as [|n IH]; intros lo Hb; cbn [for_find]; [by apply keeps_ret|].
  eapply keeps_bind; [apply Hb; lia|]. intros [r|] Hx; [by apply keeps_ret|].
  apply IH. intros i Hi. apply Hb. lia.
Qed.

Lemma keeps_for_find_any {R} n lo body :
  (forall i, lo <= i < lo + Z.of_nat n -> keeps (D := D) (any (A := option R)) (body i)) ->
  keeps any (for_find n lo body).
Proof.
  intros Hb. eapply keeps_any, (keeps_for_find any). intros i Hi.
  apply (keeps_weaken any); [by apply Hb|]. by intros [a|] _.
Qed.

(** ** The arrays *)

Class FieldShape {A} (F : field D A) (P : A -> Prop) := {
  fs_get s : shape s -> Forall P (fget F s);
  fs_set s l : shape s -> length l = length (fget F s) -> Forall P l -> shape (fset F l s);
}.

#[export] Instance pcb_shape : FieldShape Pcb ok.
Proof.
  split; [intros s Hs; apply Hs|]. intros s l [] Hl HP. split; try done.
  split; [cbn in *; destruct sh_pcb0; congruence|done].
Qed.
#[export] Instance rq_shape : FieldShape Rq (ptr PROCESS_LIMIT).
Proof.
  split; [intros s Hs; apply Hs|]. intros s l [] Hl HP. split; try done.
  split; [cbn in *; destruct sh_rq0; congruence|done].
Qed.
#[export] Instance mq_shape : FieldShape Mq ok.
Proof.
  split; [intros s Hs; apply Hs|]. intros s l [] Hl HP. split; try done.
  split; [cbn in *; destruct sh_mq0; congruence|done].
Qed.
#[export] Instance oft_shape : FieldShape Oft ok.
Proof.
  split; [intros s Hs; apply Hs|]. intros s l [] Hl HP. split; try done.
  split; [cbn in *; destruct sh_oft0; congruence|done].
Qed.
#[export] Instance ai_shape : FieldShape Ai ok.
Proof.
  split; [intros s Hs; apply Hs|]. intros s l [] Hl HP. split; try done.
  split; [cbn in *; destruct sh_ai0; congruence|done].
Qed.

Lemma keeps_at {A} (F : field D A) P `{!FieldShape F P} i : keeps P (at_ F i).
Proof.
  unfold at_. apply (keeps_bind (Forall P)); [apply keeps_gets, fs_get|].
  intros l Hl. by apply keeps_aget.
Qed.

Lemma keeps_upd {A} (F : field D A) P `{!FieldShape F P} i f :
  (forall x, P x -> P (f x)) -> keeps any (upd F i f).
Proof.
  intros Hf s a t Hr Hs. destruct (decide (0 <= i < Z.of_nat (length (fget F s)))) as [Hi|Hi].
  - destruct (lookup_lt_ex (fget F s) (Z.to_nat i)) as [x Hx]; [lia|].
    rewrite (upd_run F i x f s) in Hr by (lia || done). injection Hr as _ <-. split; [|done].
    apply (fs_set (P := P)); [done|apply length_insert|]. apply Forall_insert; [by apply fs_get|].
    apply Hf. by apply (Forall_lookup_1 _ _ _ _ (fs_get s Hs) Hx).
  - by rewrite (upd_undef F i f s Hi) in Hr.
Qed.

Lemma keeps_cur : keeps (D := D) ok cur.
Proof.
  unfold cur. apply (keeps_bind any); [by apply keeps_gets|]. intros c _.
  apply (keeps_bind any); [by apply keeps_deref|]. intros p _. apply (keeps_at Pcb ok).
Qed.

Lemma keeps_upd_cur f : (forall x, ok x -> ok (f x)) -> keeps (D := D) any (upd_cur f).
Proof.
  intros Hf. unfold upd_cur. apply (keeps_bind any); [by apply keeps_gets|]. intros c _.
  apply (keeps_bind any); [by apply keeps_deref|]. intros p _. by apply (keeps_upd Pcb ok).
Qed.

(** A pointer into an array of eight. *)
Lemma keeps_addr_of i : keeps (D := D) (ptr PROCESS_LIMIT) (addr_of Pcb i).
Proof.
  intros s a t Hr Hs. unfold addr_of in Hr. destruct (sh_pcb s Hs) as [Hl _].
  destruct (decide (0 <= i < Z.of_nat (length (k_pcb s)))) as [Hi|Hi].
  - destruct (lookup_lt_ex (k_pcb s) (Z.to_nat i)) as [x Hx]; [lia|].
    rewrite (run_bind _ _ _ x s (at_run Pcb i x s ltac:(lia) Hx)) in Hr. injection Hr as <- <-.
    split; [done|]. cbn. unfold PROCESS_LIMIT. lia.
  - by rewrite (run_bind_undef _ _ _ (at_undef Pcb i s Hi)) in Hr.
Qed.
End Rules.

(** ** Automation *)

Ltac keep_leaf := solve [eauto 3 with shape | eapply keeps_any; eauto 3 with shape].

Ltac keep_step :=
  lazymatch goal with
  | |- keeps _ (mbind _ _) =>
      first [ eapply keeps_bind; [solve [eauto 3 with shape]|] | apply (keeps_bind any) ]
  | |- keeps _ (mret _) => apply keeps_ret
  | |- keeps any (gets _) => apply keeps_gets
  | |- keeps any (modify _) => apply keeps_modify
  | |- keeps any (upd ?F _ _) => apply (keeps_upd F _)
  | |- keeps any (upd_cur _) => apply keeps_upd_cur
  | |- keeps any (when _ _) => apply keeps_when
  | |- keeps any (for_do _ _ _) => apply keeps_for_do
  | |- keeps any (for_find _ _ _) => apply keeps_for_find_any
  | |- keeps any (for_fold _ _ _ _) => apply keeps_for_fold
  | |- keeps any (deref _) => apply keeps_deref
  | |- keeps any (lift _) => apply keeps_lift
  | |- keeps _ (match ?x with _ => _ end) => destruct x
  | |- keeps _ _ => keep_leaf
  | |- any _ => exact I
  | |- forall _, _ => intros ?
  | |- _ => solve [eauto 4 with shape]
  end; cbv beta.

Ltac keep := cbv zeta; repeat keep_step.

#[export] Hint Extern 1 (keeps _ (at_ ?F _)) => apply (keeps_at F _) : shape.
#[export] Hint Resolve keeps_cur keeps_addr_of keeps_aset_len : shape.
#[export] Hint Extern 1 (ok (_, _)) => split; cbn [fst snd] : shape.
#[export] Hint Extern 0 (@ok _ (ok_any _) _) => exact I : shape.

(** ** The fields of the state *)

Section Fields.
Context {D : Type}.
Implicit Types (s t : kernel D).

Lemma shape_rq_size v s : shape s -> shape (set_k_rq_size v s).
Proof. by intros []. Qed.

Lemma shape_current v s : ptr PROCESS_LIMIT v -> shape s -> shape (set_k_current v s).
Proof. intros Hv []. by split. Qed.

Lemma shape_mem v s : shape s -> shape (set_k_mem v s).
Proof. by intros []. Qed.

Lemma shape_cwd v s : shape s -> shape (set_k_cwd v s).
Proof. by intros []. Qed.

Lemma shape_disk v s : shape s -> shape (set_k_disk v s).
Proof. by intros []. Qed.

Lemma shape_out v s : shape s -> shape (set_k_out v s).
Proof. by intros []. Qed.

Lemma shape_in v s : shape s -> shape (set_k_in v s).
Proof. by intros []. Qed.

Lemma shape_hw v s : shape s -> shape (set_k_hw v s).
Proof. by intros []. Qed.

Lemma shape_set_fs v s : ok v -> shape s -> shape (set_k_fs v s).
Proof. intros Hv []. by split. Qed.

Lemma ok_set_ctx c x : ok c -> ok x -> ok (set_ctx c x).
Proof. intros Hc (_ & H1 & H2). by split. Qed.

Lemma ok_set_gpr n v c : ok c -> ok (set_gpr n v c).
Proof. unfold ok, ok_ctx. intros Hc. cbn. by rewrite length_insert. Qed.
Lemma ok_set_gpr_ctx n v x : ok x -> ok (set_ctx (set_gpr n v (ctx x)) x).
Proof. intros Hx. apply ok_set_ctx; [apply ok_set_gpr, Hx|done]. Qed.
Lemma ok_ctx_of x : ok x -> ok (ctx x).
Proof. intros Hx. apply Hx. Qed.
End Fields.

#[export] Hint Resolve shape_rq_size shape_current shape_mem shape_cwd shape_disk shape_out
  shape_in shape_hw shape_set_fs ok_set_ctx ok_set_gpr ok_ctx_of : shape.
#[export] Hint Extern 2 (ok (set_ctx (set_gpr _ _ (ctx ?x)) ?x)) =>
  by apply ok_set_gpr_ctx : shape.

(** ** Processes *)

Section Processes.
Context {D : Type}.
Implicit Types (s t : kernel D).

Lemma keeps_rq_shift lo hi : keeps (D := D) any (rq_shift lo hi).
Proof. unfold rq_shift. keep. Qed.
#[local] Hint Resolve keeps_rq_shift : shape.

Lemma keeps_rq_rotate fuel : keeps (D := D) any (rq_rotate fuel).
Proof. induction fuel as [|fuel IH]; cbn [rq_rotate]; keep. Qed.
#[local] Hint Resolve keeps_rq_rotate : shape.

Lemma keeps_rq_add p : keeps (D := D) any (rq_add p).
Proof. unfold rq_add. keep. Qed.

Lemma keeps_rq_rm_from fuel p id : keeps (D := D) any (rq_rm_from fuel p id).
Proof.
  revert p. induction fuel as [|fuel IH]; intros p; cbn [rq_rm_from]; keep.
Qed.
#[local] Hint Resolve keeps_rq_add keeps_rq_rm_from : shape.

Lemma keeps_rq_rm id : keeps (D := D) any (rq_rm id).
Proof. unfold rq_rm. keep. Qed.
#[local] Hint Resolve keeps_rq_rm : shape.

Lemma keeps_kill p z : keeps (D := D) any (kill p z).
Proof. unfold kill. keep. Qed.

Lemma keeps_fork c : ok c -> keeps (D := D) any (fork c).
Proof. intros Hc. unfold fork. keep. Qed.

Lemma keeps_scheduler c : ok c -> keeps (D := D) ok (scheduler c).
Proof. intros Hc. unfold scheduler. keep. Qed.
End Processes.

#[export] Hint Resolve keeps_rq_add keeps_rq_rm keeps_kill keeps_fork keeps_scheduler : shape.

(** ** Message queues *)

Section Messages.
Context {D : Type}.
Implicit Types (s t : kernel D).

Lemma keeps_mem_read a n : keeps (D := D) (fun l => length l = n) (mem_read a n).
Proof. apply keeps_gets. intros s _. rewrite length_fmap, length_seqZ. lia. Qed.

Lemma keeps_mem_write a bs : keeps (D := D) any (mem_write a bs).
Proof. unfold mem_write. keep. Qed.

Lemma keeps_mem_string n a : keeps (D := D) any (mem_string n a).
Proof. revert a. induction n as [|n IH]; intros a; cbn [mem_string]; keep. Qed.
#[local] Hint Resolve keeps_mem_read keeps_mem_write keeps_mem_string : shape.

Lemma keeps_mq_open name : keeps (D := D) any (mq_open name).
Proof. unfold mq_open. keep. Qed.

Lemma keeps_mq_unlink m : keeps (D := D) any (mq_unlink m).
Proof. unfold mq_unlink. keep. Qed.

Lemma keeps_mq_fill mqd p len : keeps (D := D) any (mq_fill mqd p len).
Proof.
  unfold mq_fill. destruct (Z.leb_spec len 64); keep. unfold ok, ok_mq in *. cbn.
  rewrite length_overlay; [done|lia].
Qed.
#[local] Hint Resolve keeps_mq_fill : shape.

Lemma keeps_mq_send mqd p len : keeps (D := D) any (mq_send mqd p len).
Proof. unfold mq_send. keep. Qed.

Lemma keeps_mq_drain mqd p len : keeps (D := D) any (mq_drain mqd p len).
Proof. unfold mq_drain. keep. Qed.
#[local] Hint Resolve keeps_mq_drain : shape.

Lemma keeps_mq_receive mqd p len : keeps (D := D) any (mq_receive mqd p len).
Proof. unfold mq_receive. keep. Qed.
End Messages.

#[export] Hint Resolve keeps_mem_read keeps_mem_write keeps_mem_string keeps_mq_open keeps_mq_unlink
  keeps_mq_send keeps_mq_receive : shape.

(** ** The disk and its structures *)

Lemma ok_dec_icommon bs : ok (dec bs : icommon_t).
Proof.
  unfold ok, ok_icommon, NDADDR, NIADDR. cbn -[take drop].
  rewrite !length_take, !length_drop, length_dec_words. done.
Qed.

Lemma ok_dec_inodes n bs : Forall ok (dec_arr n bs : list icommon_t).
Proof. apply Forall_fmap, Forall_true. intros b. apply ok_dec_icommon. Qed.

Lemma ok_dec_fs bs : ok (dec bs : fs_t).
Proof.
  unfold ok, ok_fs. cbn -[take drop]. rewrite !length_take, !length_drop, length_dec_words. done.
Qed.

Section Inodes.
Implicit Types (i : inode_t).

Lemma ok_zero_inode : ok zero_inode.
Proof. done. Qed.
Lemma ok_set_size v i : ok i -> ok (set_size v i).
Proof. done. Qed.
Lemma ok_set_mode v i : ok i -> ok (set_mode v i).
Proof. done. Qed.
Lemma ok_set_number v i : ok i -> ok (set_number v i).
Proof. done. Qed.
Lemma ok_set_links v i : ok i -> ok (set_links v i).
Proof. done. Qed.
Lemma ok_set_db l i : length l = length (ic_db (i_ic i)) -> ok i -> ok (set_db l i).
Proof. intros Hl [H1 H2]. split; [cbn; congruence|done]. Qed.
Lemma ok_set_ib l i : length l = length (ic_ib (i_ic i)) -> ok i -> ok (set_ib l i).
Proof. intros Hl [H1 H2]. split; [done|cbn; congruence]. Qed.
Lemma ok_mk_inode n k ic : ok ic -> ok (mk_inode n k ic).
Proof. done. Qed.
End Inodes.

#[export] Hint Resolve ok_dec_inodes ok_dec_fs ok_zero_inode ok_set_size ok_set_mode ok_set_number
  ok_set_links ok_set_db ok_mk_inode : shape.

Section FileSystem.
Context {D : Type} `{BlockDevice D}.
Implicit Types (s t : kernel D) (i : inode_t).

Lemma keeps_disk_rd a buf : keeps (D := D) any (disk_rd a buf).
Proof. unfold disk_rd. keep. Qed.

Lemma keeps_disk_wr a x : keeps (D := D) any (disk_wr a x).
Proof. unfold disk_wr. keep. Qed.
#[local] Hint Resolve keeps_disk_rd keeps_disk_wr : shape.

Lemma keeps_disk_rd_new a : keeps (D := D) any (disk_rd_new a).
Proof. unfold disk_rd_new. keep. Qed.
#[local] Hint Resolve keeps_disk_rd_new : shape.

Lemma keeps_set_fs f : (forall x, ok x -> ok (f x)) -> keeps (D := D) any (set_fs f).
Proof. intros Hf. unfold set_fs. apply keeps_modify. intros s Hs. apply shape_set_fs; [apply Hf, Hs|done]. Qed.

Lemma keeps_write_sb : keeps (D := D) any write_sb.
Proof. unfold write_sb. keep. Qed.
#[local] Hint Resolve keeps_write_sb : shape.

Lemma ok_set_fdbhead v f : ok f -> ok (set_fdbhead v f).
Proof. done. Qed.

Lemma keeps_fdb_set j v : keeps (D := D) any (fdb_set j v).
Proof.
  unfold fdb_set. apply (keeps_bind ok); [apply keeps_gets; intros s Hs; apply Hs|]. intros f [Hf _].
  eapply keeps_bind; [apply (keeps_aset any); [by apply Forall_true|done]|]. intros l [Hl _].
  apply keeps_set_fs. intros x [_ Hx]. split; [cbn; congruence|done].
Qed.
#[local] Hint Resolve keeps_fdb_set : shape.

Lemma keeps_balloc : keeps (D := D) any balloc.
Proof.
  unfold balloc. keep.
  - by apply keeps_set_fs.
  - apply keeps_set_fs. intros x [_ Hx]. split; [|done]. cbn [set_fdb fs_fdb].
    by rewrite length_take, length_dec_words.
  - by apply keeps_set_fs.
Qed.

Lemma keeps_bfree a : keeps (D := D) any (bfree a).
Proof. unfold bfree. keep; by apply keeps_set_fs. Qed.
#[local] Hint Resolve keeps_balloc keeps_bfree : shape.

Lemma keeps_readInode i n : keeps (D := D) ok (readInode i n).
Proof.
  unfold readInode. keep_step; [keep|]. intros f _. keep_step. intros b _.
  eapply keeps_bind; [apply (keeps_aget ok), ok_dec_inodes|]. intros ic Hic. by apply keeps_ret.
Qed.

Lemma keeps_writeInode i : keeps (D := D) any (writeInode i).
Proof. unfold writeInode. keep. Qed.
#[local] Hint Resolve keeps_readInode keeps_writeInode : shape.

Lemma keeps_getFreeInode i : ok i -> keeps (D := D) ok (getFreeInode i).
Proof.
  intros Hi. unfold getFreeInode. keep_step; [keep|]. intros f _.
  eapply keeps_bind; [apply (keeps_for_loop any (ok (A := inode_t))); [done|]|].
  - intros k buf _ _. keep. by destruct (free_slot 0 _).
  - intros [b|i'] Hr; by apply keeps_ret.
Qed.

Lemma keeps_table_rd a j buf : keeps (D := D) any (table_rd a j buf).
Proof. unfold table_rd. keep. Qed.
#[local] Hint Resolve keeps_table_rd : shape.

Lemma keeps_getDataBlockAddr i byte : keeps (D := D) any (getDataBlockAddr i byte).
Proof. unfold getDataBlockAddr. keep. Qed.
#[local] Hint Resolve keeps_getDataBlockAddr : shape.

Lemma keeps_getDataBlock buf i byte : keeps (D := D) any (getDataBlock buf i byte).
Proof. unfold getDataBlock. keep. Qed.

Lemma keeps_table_wr a j v buf : keeps (D := D) any (table_wr a j v buf).
Proof. unfold table_wr. keep. Qed.
#[local] Hint Resolve keeps_getDataBlock keeps_table_wr : shape.

Lemma keeps_root_table i k fresh : ok i -> keeps (D := D) ok (root_table i k fresh).
Proof.
  intros Hi. unfold root_table. destruct fresh; keep; split; try done.
  apply ok_set_ib; [apply length_insert|done].
Qed.

Lemma keeps_next_table idx fresh buf : keeps (D := D) any (next_table idx fresh buf).
Proof. unfold next_table. keep. Qed.
#[local] Hint Resolve keeps_root_table keeps_next_table : shape.

Lemma keeps_allocateDataBlockAddr i byte : ok i -> keeps (D := D) ok (allocateDataBlockAddr i byte).
Proof.
  intros Hi. unfold allocateDataBlockAddr. keep.
Qed.
#[local] Hint Resolve keeps_getFreeInode keeps_allocateDataBlockAddr : shape.

Lemma keeps_allocateDataBlocks i bytes : ok i -> keeps (D := D) ok (allocateDataBlocks i bytes).
Proof.
  intros Hi. unfold allocateDataBlocks. cbv zeta.
  eapply keeps_bind; [apply (keeps_for_loop ok (ok (A := inode_t))); [done|]|].
  - intros k j _ Hj. destruct (in_int _); [|by keep].
    eapply keeps_bind; [by apply keeps_allocateDataBlockAddr|]. intros [a j'] [_ Hj'].
    apply keeps_ret. by destruct (a =? -1).
  - intros [j|j] Hj; apply keeps_ret; by split.
Qed.
#[local] Hint Resolve keeps_allocateDataBlocks : shape.

Lemma keeps_freeDataBlock i blk : keeps (D := D) any (freeDataBlock i blk).
Proof. unfold freeDataBlock. keep. Qed.
#[local] Hint Resolve keeps_freeDataBlock : shape.

Lemma keeps_freeDataBlocks i : keeps (D := D) any (freeDataBlocks i).
Proof. unfold freeDataBlocks. keep. Qed.

Lemma keeps_copyInode c i : ok c -> keeps (D := D) ok (copyInode c i).
Proof.
  intros Hc. unfold copyInode. eapply keeps_bind; [by apply keeps_getFreeInode|].
  intros [c'|] Hc'; [|by apply keeps_ret]. cbv zeta.
  eapply keeps_bind; [by apply keeps_allocateDataBlocks|]. intros [a c''] [_ Hc'']. keep.
Qed.
End FileSystem.

#[export] Hint Resolve keeps_disk_rd keeps_disk_wr keeps_disk_rd_new keeps_write_sb keeps_fdb_set
  keeps_balloc keeps_bfree keeps_readInode keeps_writeInode keeps_getFreeInode keeps_getDataBlockAddr
  keeps_getDataBlock keeps_allocateDataBlockAddr keeps_allocateDataBlocks keeps_freeDataBlocks
  keeps_copyInode : shape.

(** ** Directories and paths *)

Section Directories.
Context {D : Type} `{BlockDevice D}.
Implicit Types (s t : kernel D) (i : inode_t).

Lemma keeps_getLastDir i : keeps (D := D) any (getLastDir i).
Proof. unfold getLastDir. keep. Qed.

Lemma keeps_removable i d : keeps (D := D) any (removable i d).
Proof. unfold removable. keep. Qed.
#[local] Hint Resolve keeps_getLastDir keeps_removable : shape.

Lemma keeps_remove_in i name addr buf n : ok i -> keeps (D := D) ok (remove_in i name addr buf n).
Proof.
  intros Hi. unfold remove_in. apply (keeps_for_find (fun x => ok x)). intros j _.
  keep. all: split; [exact I|done].
Qed.

Lemma keeps_remove d i name : ok i -> keeps (D := D) ok (remove d i name).
Proof.
  intros Hi. unfold remove. cbv zeta. destruct (_ >? 0); [|apply keeps_ret; by split].
  eapply keeps_bind.
  - apply (keeps_for_loop any (fun x : dir_t * inode_t => ok x)); [done|]. intros k buf _ _. keep_step.
    intros [addr buf'] _. eapply keeps_bind; [by apply keeps_remove_in|]. intros r Hr. apply keeps_ret.
    by destruct r.
  - intros [buf|[d' i']] Hx; [|apply keeps_ret; split; [by split|apply Hx]].
    keep_step. intros [addr buf'] _. eapply keeps_bind; [by apply keeps_remove_in|].
    intros [[d' i']|] Hr; apply keeps_ret; (split; [by split|]); [apply Hr|done].
Qed.

Lemma keeps_find_in name buf n : keeps (D := D) any (find_in name buf n).
Proof. unfold find_in. keep. Qed.
#[local] Hint Resolve keeps_find_in : shape.

Lemma keeps_name_to_ino name i : keeps (D := D) any (name_to_ino name i).
Proof.
  unfold name_to_ino. cbv zeta. destruct (_ >? 0); [|by keep].
  apply (keeps_bind any); [|intros [buf|ino] _; keep].
  eapply keeps_any, (keeps_for_loop any any); [done|]. intros k buf _ _. keep. by case_match.
Qed.
#[local] Hint Resolve keeps_name_to_ino : shape.

Lemma keeps_addInodeToDirectory i n name : ok i -> keeps (D := D) ok (addInodeToDirectory i n name).
Proof.
  intros Hi. unfold addInodeToDirectory. cbv zeta. apply (keeps_bind ok); [keep|].
  intros [a i'] [_ Hi']. keep.
Qed.

Lemma keeps_walk fuel w buf pos : ok w -> keeps (D := D) ok (walk fuel w buf pos).
Proof.
  revert w buf pos. induction fuel as [|fuel IH]; intros w buf pos Hw; cbn [walk];
    (destruct (w_tok w); [|apply keeps_ret; by split]); (destruct (_ =? -1); [apply keeps_ret; by split|]).
  - by apply keeps_lift.
  - eapply keeps_bind; [apply keeps_readInode|]. intros i Hi. keep.
Qed.

Lemma keeps_walk_path path dir : keeps (D := D) ok (walk_path path dir).
Proof. unfold walk_path. keep. by apply keeps_walk. Qed.
#[local] Hint Resolve keeps_addInodeToDirectory keeps_walk_path : shape.

Lemma keeps_path_to_ino path dir : keeps (D := D) any (path_to_ino path dir).
Proof. unfold path_to_ino. keep. Qed.

Lemma keeps_path_to_ino2 path dir : keeps (D := D) any (path_to_ino2 path dir).
Proof.
  unfold path_to_ino2. eapply keeps_bind; [apply keeps_walk_path|]. intros [w p] [Hw _].
  destruct (negb _); [by keep|]. destruct (w_tok w); [by keep|].
  eapply keeps_bind; [by apply keeps_getFreeInode|]. intros [i|] Hi; keep.
Qed.

Lemma keeps_cd path : keeps (D := D) any (cd path).
Proof. unfold cd. keep. Qed.
End Directories.

#[export] Hint Resolve keeps_remove keeps_addInodeToDirectory keeps_path_to_ino keeps_path_to_ino2
  keeps_cd : shape.

(** ** Open files *)

Section Files.
Context {D : Type} `{BlockDevice D}.
Implicit Types (s t : kernel D) (i : inode_t).

Lemma keeps_getFD : keeps (D := D) any getFD.
Proof. unfold getFD. keep. Qed.

Lemma keeps_getOFT : keeps (D := D) (ptr OFT_LIMIT) getOFT.
Proof.
  unfold getOFT. apply (keeps_weaken (fun x => match x with Some r => 0 <= r < OFT_LIMIT | None => True end));
    [|done].
  apply (keeps_for_find (fun k => 0 <= k < OFT_LIMIT)). intros k Hk. keep_step. intros o _.
  apply keeps_ret. destruct (o_inptr o); [done|]. by rewrite Z2Nat.id in Hk.
Qed.

Lemma keeps_getAIT n : keeps (D := D) (ptr AIT_LIMIT) (getAIT n).
Proof.
  unfold getAIT. apply (keeps_bind (ptr AIT_LIMIT)).
  - apply (keeps_for_find (fun k => 0 <= k < AIT_LIMIT)). intros k Hk. keep_step. intros i _.
    apply keeps_ret. destruct (_ && _); [|done]. by rewrite Z2Nat.id in Hk.
  - intros [k|] Hk; [by apply keeps_ret|].
    apply (keeps_for_find (fun k => 0 <= k < AIT_LIMIT)). intros k Hk'. rewrite Z2Nat.id in Hk' by done.
    keep_step. intros i Hi. destruct (_ =? _); [|by apply keeps_ret].
    eapply keeps_bind; [apply keeps_readInode|]. intros i' Hi'.
    apply (keeps_bind any); [keep|]. intros _ _. by apply keeps_ret.
Qed.

Lemma keeps_set_fd_entry n v : ptr OFT_LIMIT v -> keeps (D := D) any (set_fd_entry n v).
Proof.
  intros Hv. unfold set_fd_entry. eapply keeps_bind; [apply keeps_cur|]. intros x (_ & Hl & Hx).
  eapply keeps_bind; [apply (keeps_aset (ptr OFT_LIMIT)); done|]. intros l [Hl' Hfl]. apply keeps_upd_cur.
  intros y (Hy & _). split; [done|]. cbn. split; [congruence|done].
Qed.

Lemma ok_set_inptr v o : ptr AIT_LIMIT v -> ok (set_inptr v o).
Proof. done. Qed.
Lemma ok_set_head v o : ok o -> ok (set_head v o).
Proof. done. Qed.
#[local] Hint Resolve keeps_getFD keeps_getOFT keeps_getAIT keeps_set_fd_entry ok_set_inptr ok_set_head
  : shape.

Lemma keeps_open path flag : keeps (D := D) any (open path flag).
Proof.
  unfold open. apply (keeps_bind any); [keep|]. intros n _. destruct (_ =? -1); [by keep|].
  apply (keeps_bind any); [destruct (flag =? _); keep|]. intros [ino p] _.
  destruct (ino <? 0); [by keep|]. eapply keeps_bind; [apply keeps_getAIT|].
  intros [k|] Hk; [|by keep]. eapply keeps_bind; [apply keeps_getOFT|]. intros [g|] Hg; [|by keep].
  keep.
Qed.

Lemma keeps_fd_file n : keeps (D := D) any (fd_file n).
Proof. unfold fd_file. keep. Qed.
#[local] Hint Resolve keeps_open keeps_fd_file : shape.

Lemma keeps_close n : keeps (D := D) any (close n).
Proof.
  unfold close. keep.
Qed.

Lemma keeps_fwrite_loop i head n data addr buf : keeps (D := D) any (fwrite_loop i head n data addr buf).
Proof. unfold fwrite_loop. keep. Qed.

Lemma keeps_fread_loop i head n buf : keeps (D := D) any (fread_loop i head n buf).
Proof. unfold fread_loop. keep. Qed.
#[local] Hint Resolve keeps_close keeps_fwrite_loop keeps_fread_loop : shape.

Lemma keeps_fwrite n data len : keeps (D := D) any (fwrite n data len).
Proof.
  unfold fwrite. keep_step. intros [f|] _; [|by keep]. keep_step. intros o Ho. keep_step; [by keep|].
  intros p _. eapply keeps_bind; [apply (keeps_at Ai ok)|]. intros i Hi.
  apply (keeps_bind any); [|intros _ _; keep]. apply keeps_when.
  eapply keeps_bind; [by apply keeps_allocateDataBlocks|]. intros [a i'] [_ Hi']. keep.
Qed.

Lemma keeps_fread n len : keeps (D := D) any (fread n len).
Proof. unfold fread. keep. Qed.

Lemma keeps_lseek n off wh : keeps (D := D) any (lseek n off wh).
Proof. unfold lseek. keep. Qed.

Lemma keeps_tell n : keeps (D := D) any (tell n).
Proof. unfold tell. keep. Qed.

Lemma keeps_unlink name : keeps (D := D) any (unlink name).
Proof. unfold unlink. keep. Qed.
#[local] Hint Resolve keeps_fwrite keeps_fread : shape.

Lemma keeps_getProgramEntry path e p : keeps (D := D) any (getProgramEntry path e p).
Proof. unfold getProgramEntry. keep. Qed.
#[local] Hint Resolve keeps_getProgramEntry : shape.

Lemma keeps_exec im e p c path : ok c -> keeps (D := D) ok (exec im e p c path).
Proof.
  intros Hc. unfold exec. keep.
  - split; [done|]. split; [done|]. by apply Forall_replicate.
  - by split; [split|].
Qed.

Lemma keeps_create_obj name e : keeps (D := D) any (create_obj name e).
Proof. unfold create_obj. keep. Qed.
#[local] Hint Resolve keeps_create_obj : shape.

Lemma keeps_createObjFiles im : keeps (D := D) any (createObjFiles im).
Proof. unfold createObjFiles. keep. Qed.
#[local] Hint Resolve keeps_createObjFiles : shape.

Lemma keeps_wipe_inode junk (i : Z) j ic : keeps (D := D) any (wipe_inode junk i j ic).
Proof. unfold wipe_inode. keep. Qed.
#[local] Hint Resolve keeps_wipe_inode : shape.

Lemma keeps_wipe_inodes junk (i : Z) j ics : keeps (D := D) any (wipe_inodes junk i j ics).
Proof. revert j. induction ics as [|ic ics IH]; intros j; cbn [wipe_inodes]; keep. Qed.
#[local] Hint Resolve keeps_wipe_inodes : shape.

Lemma ok_wipe_fs f : ok f -> ok (wipe_fs f).
Proof.
  intros [H1 H2]. split; [|done]. cbn [wipe_fs fs_fdb]. rewrite length_cons, length_app, length_fmap, length_seqZ.
  rewrite length_drop, H1. done.
Qed.

Lemma keeps_wipe im junk : keeps (D := D) any (wipe im junk).
Proof.
  unfold wipe. apply (keeps_bind any); [apply keeps_set_fs, ok_wipe_fs|]. intros _ _. keep.
Qed.
End Files.

#[export] Hint Resolve keeps_open keeps_close keeps_fwrite keeps_fread keeps_lseek keeps_tell
  keeps_unlink keeps_exec keeps_wipe : shape.

(** ** Entry points *)

Section Entry.
Context {D : Type} `{BlockDevice D}.
Implicit Types (s t : kernel D) (c : ctx_t).

Lemma keeps_putc x : keeps (D := D) any (putc x).
Proof. unfold putc. keep. Qed.

Lemma keeps_getc : keeps (D := D) any getc.
Proof. unfold getc. keep. Qed.

Lemma keeps_or_hw r v : keeps (D := D) any (or_hw r v).
Proof. unfold or_hw. keep. Qed.

Lemma keeps_set_hw r v : keeps (D := D) any (set_hw r v).
Proof. unfold set_hw. keep. Qed.
#[local] Hint Resolve keeps_putc keeps_getc keeps_or_hw keeps_set_hw : shape.

Lemma ok_ret v c : ok c -> ok (ret v c).
Proof. apply ok_set_gpr. Qed.
#[local] Hint Resolve ok_ret : shape.

Lemma keeps_with_string {A} (P : A -> Prop) a f :
  (forall p, keeps (D := D) (fun xs => P xs.1) (f p)) -> keeps P (with_string a f).
Proof.
  intros Hf. unfold with_string. keep_step. intros p _. eapply keeps_bind; [apply Hf|].
  intros [x p'] Hx. keep.
Qed.

Lemma keeps_with_string_any {A} a (f : list Z -> M (kernel D) (A * list Z)) :
  (forall p, keeps any (f p)) -> keeps any (with_string a f).
Proof. intros Hf. apply keeps_with_string. intros p. by apply (keeps_weaken any). Qed.
#[local] Hint Extern 1 (keeps any (with_string _ _)) => apply keeps_with_string_any; intros ? : shape.

Lemma keeps_rst im : keeps (D := D) ok (kernel_handler_rst im).
Proof.
  unfold kernel_handler_rst. keep.
  - split; [done|]. split; [done|]. by apply Forall_replicate.
  - by destruct H1; split.
  - done.
Qed.

Lemma keeps_irq c id : ok c -> keeps (D := D) ok (kernel_handler_irq c id).
Proof.
  intros Hc. unfold kernel_handler_irq. apply (keeps_bind ok); [|intros c' Hc'; keep].
  destruct (_ =? _).
  - eapply keeps_bind; [by apply keeps_scheduler|]. intros c' Hc'. keep.
  - destruct (_ =? _); [|by keep]. keep_step. intros x Hx. apply (keeps_bind ok).
    + destruct (negb _); [|by keep]. keep.
    + intros c' Hc'. keep.
Qed.

Lemma keeps_svc_write c : ok c -> keeps (D := D) ok (svc_write c).
Proof. intros Hc. unfold svc_write. keep. Qed.

Lemma keeps_svc_read c : ok c -> keeps (D := D) ok (svc_read c).
Proof. intros Hc. unfold svc_read. keep. Qed.

Lemma keeps_resched c : ok c -> keeps (D := D) ok (resched c).
Proof. intros Hc. unfold resched. keep. Qed.

Lemma keeps_svc_ls c : ok c -> keeps (D := D) ok (svc_ls c).
Proof. intros Hc. unfold svc_ls, ls_block. keep. Qed.

Lemma keeps_svc_mkdir j c : ok (j_inode j) -> ok c -> keeps (D := D) ok (svc_mkdir j c).
Proof.
  intros Hj Hc. unfold svc_mkdir. eapply keeps_bind; [by apply keeps_getFreeInode|].
  intros [i|] Hi; [|by keep]. keep.
Qed.

Lemma keeps_svc_mv c : ok c -> keeps (D := D) ok (svc_mv c).
Proof.
  intros Hc. unfold svc_mv. keep.
Qed.

Lemma keeps_svc_cp j c : ok (j_inode j) -> ok c -> keeps (D := D) ok (svc_cp j c).
Proof. intros Hj Hc. unfold svc_cp. keep. Qed.
#[local] Hint Resolve keeps_svc_write keeps_svc_read keeps_resched keeps_svc_ls keeps_svc_mkdir
  keeps_svc_mv keeps_svc_cp : shape.

Lemma keeps_exec_string im e p c a :
  ok c -> keeps (D := D) (fun x : Z * ctx_t => ok x.2) (with_string a (fun path =>
    '(r, c, path) ← exec im e p c path; mret ((r, c), path))).
Proof.
  intros Hc. apply keeps_with_string. intros path.
  eapply keeps_bind; [by apply keeps_exec|]. intros [[r c'] path'] [[_ Hc'] _]. by apply keeps_ret.
Qed.
#[local] Hint Resolve keeps_exec_string : shape.

Lemma keeps_svc im j c id :
  ok (j_inode j) -> ok c -> keeps (D := D) ok (kernel_handler_svc im j c id).
Proof.
  intros Hj Hc. unfold kernel_handler_svc. keep.
Qed.
End Entry.
