(* ===== verification/System.v ===== *)
(** * The running system

    Reset, then user code, interrupts and supervisor calls in any order: the states and
    the interrupted contexts the machine goes through (interrupt.s) as long as the handlers
    return, and the shape that all of them have. *)

From S2P Require Import Prelude CMonad Layout BlockDev Kernel Sched MQueue FsOps FreeList Dir Posix Exec Svc Shape.

Section System.
Context {D : Type} `{BlockDevice D}.
Variable im : image.

(** What the processor runs between two entries, and the entries whose handler returns.
    A call that C gives no result to, such as [mq_unlink] of the number 32
    ([mq_unchecked_bounds]), has no step: what the machine does after it is open.  User code sees its
    registers and the memory that is not the kernel's; a context always has its thirteen
    registers, which is what the assembly pushes. *)
Inductive step : ctx_t * kernel D -> ctx_t * kernel D -> Prop :=
  | user_step c c' m s : ok c' -> step (c, s) (c', set_k_mem m s)
  | key_step c l s : step (c, s) (c, set_k_in l s)
  | irq_step c id c' s t : kernel_handler_irq c id s = Done (c', t) -> step (c, s) (c', t)
  | svc_step j c id c' s t :
      ok (j_inode j) -> kernel_handler_svc im j c id s = Done (c', t) -> step (c, s) (c', t).

(** The states after a reset, with what the loader left of memory and any disk. *)
Definition booted (x : ctx_t * kernel D) : Prop :=
  exists d input m, kernel_handler_rst im (set_k_mem m (bss d input)) = Done x.

Definition reachable (x : ctx_t * kernel D) : Prop := exists x0, booted x0 /\ rtc step x0 x.

Lemma shape_bss d input : shape (D := D) (bss d input).
Proof.
  split; try done; (split; [done|]; apply Forall_replicate; try done).
  split; [done|]. split; [done|]. by apply Forall_replicate.
Qed.

Lemma step_shape x y : step x y -> ok x.1 /\ shape x.2 -> ok y.1 /\ shape y.2.
Proof.
  intros [c c' m s Hc'|c l s|c id c' s t Hr|j c id c' s t Hj Hr] [Hc Hs]; cbn [fst snd] in *.
  - split; [done|]. by apply shape_mem.
  - split; [done|]. by apply shape_in.
  - destruct (keeps_irq c id Hc s c' t Hr Hs). by split.
  - destruct (keeps_svc im j c id Hj Hc s c' t Hr Hs). by split.
Qed.

(** In every reachable state the arrays of the kernel have their declared lengths and the
    pointers it keeps (the current process, the ready queue, the descriptors, the open-file
    entries) stay within their arrays.  This is a property of the handlers' runs that
    return: it says nothing of the calls that are undefined. *)
Theorem system_shape x : reachable x -> ok x.1 /\ shape x.2.
Proof.
  intros (x0 & (d & input & m & Hb) & Hr). assert (ok x0.1 /\ shape x0.2) as H0.
  { destruct x0 as [c s]. destruct (keeps_rst im _ c s Hb) as [Hs Hc]; [|by split].
    apply shape_mem, shape_bss. }
  clear Hb. induction Hr as [x|x y z Hxy _ IH]; [done|]. by apply IH, (step_shape x y).
Qed.
End System.

(** ** Witness: a process forks and the timer gives the processor to the child *)

Definition demo_junk : junk := mk_junk [] zero_inode 0 0.

Definition demo_start : kernel MemDisk := set_k_mem ∅ (bss demo_disk []).

Definition demo_run : M (kernel MemDisk) ctx_t :=
  c ← kernel_handler_rst demo_image;
  c ← kernel_handler_svc demo_image demo_junk c 3;
  kernel_handler_irq c 36.

Definition demo_ends (P : ctx_t -> kernel MemDisk -> bool) : bool :=
  match demo_run demo_start with Done (c, s) => P c s | _ => false end.

Lemma demo_ends_child :
  demo_ends (fun c s => bool_decide (k_current s = Some 1) && (reg c 0 =? 0)) = true.
Proof. vm_compute. reflexivity. Qed.

Lemma demo_run_reachable c s : demo_run demo_start = Done (c, s) -> reachable demo_image (c, s).
Proof.
  unfold demo_run. intros (c1 & s1 & E1 & (c2 & s2 & E2 & E3)%run_bind_inv)%run_bind_inv.
  exists (c1, s1). split; [exists demo_disk, [], ∅; exact E1|].
  eapply rtc_l; [by apply (svc_step _ demo_junk _ 3 _ _ _ ltac:(done) E2)|].
  by apply rtc_once, (irq_step _ _ 36).
Qed.

Lemma system_shape_witness :
  exists c s, reachable demo_image (c, s) /\ k_current s = Some 1 /\ reg c 0 = 0 /\
    length (k_rq s) = 8%nat.
Proof.
  pose proof demo_ends_child as Hd. unfold demo_ends in Hd.
  destruct (demo_run demo_start) as [[c s]| |] eqn:E; [|done..].
  apply demo_run_reachable in E. apply andb_prop in Hd as [Hc%bool_decide_eq_true Hr%Z.eqb_eq].
  exists c, s. destruct (system_shape demo_image (c, s) E) as [_ [_ _ [Hq _] _ _ _ _]]. done.
Defined.
