(* ===== verification/Interrupt.v ===== *)
(** * The interrupt stubs

    interrupt.s: the instructions that carry a user context to the C handlers and back,
    the copy of the vector table, and the two functions on the interrupt bit, on a model
    of the ARM registers they use. *)

From S2P Require Import Prelude CMonad Layout BlockDev Kernel Sched MQueue FsOps FreeList Dir Posix Exec Svc Boot Shape System.

(** ** The processor *)

(** The modes the kernel runs in; the others (FIQ, ABT, UND) have a vector that loops. *)
Inductive pmode := USR | IRQ | SVC.

#[export] Instance pmode_eq_dec : EqDecision pmode.
Proof. solve_decision. Defined.

(** [r0]-[r12] are shared by the three modes; [sp], [lr] and the saved status register
    are banked.  Memory is words by address: the code and the stacks of the kernel. *)
Record cpu := mk_cpu {
  c_low : list Z;
  c_sp : pmode -> Z;
  c_lr : pmode -> Z;
  c_spsr : pmode -> Z;
  c_cpsr : Z;
  c_pc : Z;
  c_mem : Z -> Z;
}.

Definition mode_of (v : Z) : option pmode :=
  match Z.land v 0x1F with
  | 0x10 => Some USR
  | 0x12 => Some IRQ
  | 0x13 => Some SVC
  | _ => None
  end.

(** [msr] to a status register named without a field mask writes its fields [f] and [c], bits
    24-31 and 0-7; the bits of [s] and [x] (GE, IT, E and A among them) stay. *)
Definition psr_fc (old v : Z) : Z := Z.lor (Z.land old 0x00FFFF00) (Z.land v 0xFF0000FF).

Definition bank (m : pmode) (v : Z) (f : pmode -> Z) : pmode -> Z := fun m' =>
  if decide (m' = m) then v else f m'.
Definition poke (a v : Z) (f : Z -> Z) : Z -> Z := fun a' => if a' =? a then v else f a'.

(** *** Registers *)

Inductive areg := R (n : nat) | SP | LR.

Definition reg_get (m : pmode) (x : areg) (c : cpu) : Z :=
  match x with
  | R n => nth n (c_low c) 0
  | SP => c_sp c m
  | LR => c_lr c m
  end.

Definition reg_set (m : pmode) (x : areg) (v : Z) (c : cpu) : cpu :=
  match x with
  | R n => mk_cpu (<[n := v]> (c_low c)) (c_sp c) (c_lr c) (c_spsr c) (c_cpsr c) (c_pc c) (c_mem c)
  | SP => mk_cpu (c_low c) (bank m v (c_sp c)) (c_lr c) (c_spsr c) (c_cpsr c) (c_pc c) (c_mem c)
  | LR => mk_cpu (c_low c) (c_sp c) (bank m v (c_lr c)) (c_spsr c) (c_cpsr c) (c_pc c) (c_mem c)
  end.

Definition set_mem (f : Z -> Z) (c : cpu) : cpu :=
  mk_cpu (c_low c) (c_sp c) (c_lr c) (c_spsr c) (c_cpsr c) (c_pc c) f.
Definition set_cpsr (v : Z) (c : cpu) : cpu :=
  mk_cpu (c_low c) (c_sp c) (c_lr c) (c_spsr c) v (c_pc c) (c_mem c).
Definition set_spsr (m : pmode) (v : Z) (c : cpu) : cpu :=
  mk_cpu (c_low c) (c_sp c) (c_lr c) (bank m v (c_spsr c)) (c_cpsr c) (c_pc c) (c_mem c).
Definition set_pc (v : Z) (c : cpu) : cpu :=
  mk_cpu (c_low c) (c_sp c) (c_lr c) (c_spsr c) (c_cpsr c) v (c_mem c).

(** *** Blocks of words *)

Fixpoint store_words (a : Z) (l : list Z) (f : Z -> Z) : Z -> Z :=
  match l with
  | [] => f
  | w :: l' => store_words (a + 4) l' (poke (u32 a) w f)
  end.

Fixpoint load_words (a : Z) (n : nat) (f : Z -> Z) : list Z :=
  match n with
  | O => []
  | S n' => f (u32 a) :: load_words (a + 4) n' f
  end.

(** [ldm]: each register of the list from the next word. *)
Fixpoint load_regs (m : pmode) (l : list areg) (ws : list Z) (c : cpu) : cpu :=
  match l, ws with
  | x :: l', w :: ws' => load_regs m l' ws' (reg_set m x w c)
  | _, _ => c
  end.

(** *** Instructions: those of interrupt.s *)

Inductive instr :=
  | SUB (d s : areg) (n : Z)
  | ADD (d s : areg) (n : Z)
  | BIC (d s : areg) (n : Z)
  | ORR (d s : areg) (n : Z)
  | MOV (d s : areg)
  | MOVI (d : areg) (n : Z)            (* mov d, #n; ldr d, =n *)
  | LDR (d s : areg) (off : Z)         (* ldr d, [ s, #off ] *)
  | LDR_post (d s : areg) (off : Z)    (* ldr d, [ s ], #off *)
  | STR_post (d s : areg) (off : Z)    (* str d, [ s ], #off *)
  | STMIA_usr (s : areg) (l : list areg)   (* stmia s, { l }^ : the USR mode registers *)
  | LDMIA_usr (s : areg) (l : list areg)   (* ldmia s, { l }^ *)
  | STMDB_wb (s : areg) (l : list areg)    (* stmdb s!, { l } *)
  | LDMIA_wb (s : areg) (l : list areg)    (* ldmia s!, { l } *)
  | MRS_spsr (d : areg)
  | MSR_spsr (s : areg)                (* msr spsr, s: fields f and c *)
  | MRS_cpsr (d : areg)
  | MSR_cpsr (n : Z)                   (* msr cpsr, #n: fields f and c *)
  | MSR_cpsr_c (s : areg)              (* msr cpsr_c, s: bits 0-7 *)
  | MOVS_PC_LR.                        (* movs pc, lr: return from the exception *)

Definition istep (m : pmode) (i : instr) (c : cpu) : cpu :=
  match i with
  | SUB d s n => reg_set m d (u32 (reg_get m s c - n)) c
  | ADD d s n => reg_set m d (u32 (reg_get m s c + n)) c
  | BIC d s n => reg_set m d (Z.ldiff (reg_get m s c) n) c
  | ORR d s n => reg_set m d (Z.lor (reg_get m s c) n) c
  | MOV d s => reg_set m d (reg_get m s c) c
  | MOVI d n => reg_set m d n c
  | LDR d s off => reg_set m d (c_mem c (u32 (reg_get m s c + off))) c
  | LDR_post d s off =>
      let a := reg_get m s c in
      reg_set m d (c_mem c a) (reg_set m s (u32 (a + off)) c)
  | STR_post d s off =>
      let a := reg_get m s c in
      reg_set m s (u32 (a + off)) (set_mem (poke a (reg_get m d c) (c_mem c)) c)
  | STMIA_usr s l =>
      set_mem (store_words (reg_get m s c) ((fun x => reg_get USR x c) <$> l) (c_mem c)) c
  | LDMIA_usr s l => load_regs USR l (load_words (reg_get m s c) (length l) (c_mem c)) c
  | STMDB_wb s l =>
      let a := u32 (reg_get m s c - 4 * Z.of_nat (length l)) in
      reg_set m s a (set_mem (store_words a ((fun x => reg_get m x c) <$> l) (c_mem c)) c)
  | LDMIA_wb s l =>
      let a := reg_get m s c in
      load_regs m l (load_words a (length l) (c_mem c))
        (reg_set m s (u32 (a + 4 * Z.of_nat (length l))) c)
  | MRS_spsr d => reg_set m d (c_spsr c m) c
  | MSR_spsr s => set_spsr m (psr_fc (c_spsr c m) (reg_get m s c)) c
  | MRS_cpsr d => reg_set m d (c_cpsr c) c
  | MSR_cpsr n => set_cpsr (psr_fc (c_cpsr c) n) c
  | MSR_cpsr_c s =>
      set_cpsr (Z.lor (Z.ldiff (c_cpsr c) 0xFF) (Z.land (reg_get m s c) 0xFF)) c
  | MOVS_PC_LR => set_pc (c_lr c m) (set_cpsr (c_spsr c m) c)
  end.

(** Code without jumps, each instruction in the mode it finds. *)
Fixpoint exec_code (l : list instr) (c : cpu) : option cpu :=
  match l with
  | [] => Some c
  | i :: l' => match mode_of (c_cpsr c) with
               | Some m => exec_code l' (istep m i c)
               | None => None
               end
  end.

(** *** Exceptions *)

(** What the processor does itself: [lr] is 4 behind the next instruction for an
    interrupt, and the next instruction for a supervisor call; the status is saved; then
    interrupts are off (and asynchronous aborts, for an interrupt), the IT bits, J, T and E
    are clear, as with the exception state of the system control register at its reset
    value. *)
Definition take_irq (c : cpu) : cpu :=
  set_cpsr (Z.lor (Z.land (c_cpsr c) 0xF8FF0140) 0x192)
    (set_spsr IRQ (c_cpsr c) (reg_set IRQ LR (u32 (c_pc c + 4)) c)).
Definition take_svc (c : cpu) : cpu :=
  set_cpsr (Z.lor (Z.land (c_cpsr c) 0xF8FF0140) 0x93)
    (set_spsr SVC (c_cpsr c) (reg_set SVC LR (u32 (c_pc c + 4)) c)).

(** ** Calling C *)

(** A [ctx_t] in memory: seventeen words. *)
Definition ctx_words (c : ctx_t) : list Z := u32 <$> cpsr c :: pc c :: gpr c ++ [sp c; lr c].
Definition words_ctx (ws : list Z) : ctx_t :=
  mk_ctx (nth 0 ws 0) (nth 1 ws 0) (take 13 (drop 2 ws)) (nth 15 ws 0) (nth 16 ws 0).

(** What the procedure call standard lets a C function change: [r0]-[r3], [r12], [lr] and
    the stack below [sp], here down to [sk_low]. *)
Record scratch := mk_scratch {
  sk_regs : list Z;
  sk_lr : Z;
  sk_low : Z;
  sk_mem : Z -> Z;
}.

Definition clobber (m : pmode) (k : scratch) (c : cpu) : cpu :=
  mk_cpu (take 4 (sk_regs k) ++ take 8 (drop 4 (c_low c)) ++ drop 4 (sk_regs k))
    (c_sp c) (bank m (sk_lr k) (c_lr c)) (c_spsr c) (c_cpsr c) (c_pc c)
    (fun a => if (sk_low k <=? a) && (a <? c_sp c m) then sk_mem k a else c_mem c a).

Section Call.
Context {D : Type}.

(** [bl h]: the handler gets the context that [r0] points to and [r1]. *)
Definition call_c (h : ctx_t -> Z -> M (kernel D) ctx_t) (k : scratch) (c : cpu) (s : kernel D) :
    outcome (cpu * kernel D) :=
  match mode_of (c_cpsr c) with
  | None => Undef
  | Some m =>
      let p := reg_get m (R 0) c in
      match h (words_ctx (load_words p 17 (c_mem c))) (reg_get m (R 1) c) s with
      | Done (x, t) => Done (clobber m k (set_mem (store_words p (ctx_words x) (c_mem c)) c), t)
      | Undef => Undef
      | Hang => Hang
      end
  end.

(** Code, a call, and code. *)
Definition stub (pre post : list instr) (h : ctx_t -> Z -> M (kernel D) ctx_t) (k : scratch)
    (c : cpu) (s : kernel D) : outcome (cpu * kernel D) :=
  match exec_code pre c with
  | None => Undef
  | Some c1 =>
      match call_c h k c1 s with
      | Done (c2, t) => match exec_code post c2 with Some c3 => Done (c3, t) | None => Undef end
      | o => o
      end
  end.
End Call.

(** ** interrupt.s *)

Definition user_regs : list areg := (R <$> seq 0 13) ++ [SP; LR].



Definition irq_entry : list instr :=
  [ SUB LR LR 4;
    SUB SP SP 60;
    STMIA_usr SP user_regs;
    MRS_spsr (R 0);
    STMDB_wb SP [R 0; LR];
    MOV (R 0) SP ].

Definition irq_exit : list instr :=
  [ LDMIA_wb SP [R 0; LR];
    MSR_spsr (R 0);
    LDMIA_usr SP user_regs;
    ADD SP SP 60;
    MOVS_PC_LR ].

Definition svc_entry : list instr :=
  [ SUB LR LR 0;
    SUB SP SP 60;
    STMIA_usr SP user_regs;
    MRS_spsr (R 0);
    STMDB_wb SP [R 0; LR];
    MOV (R 0) SP;
    LDR (R 1) LR (-4);
    BIC (R 1) (R 1) 0xFF000000 ].

Definition svc_exit : list instr :=
  [ LDMIA_wb SP [R 0; LR];
    MSR_spsr (R 0);
    LDMIA_usr SP user_regs;
    ADD SP SP 60;
    MOVS_PC_LR ].






Definition irq_enable : list instr := [MRS_cpsr (R 0); BIC (R 0) (R 0) 0x80; MSR_cpsr_c (R 0)].
Definition irq_unable : list instr := [MRS_cpsr (R 0); ORR (R 0) (R 0) 0x80; MSR_cpsr_c (R 0)].

Section Handlers.
Context {D : Type} `{BlockDevice D}.
Variable im : image.

(** [id]: what the controller says when the handler reads it. *)
Definition handler_irq (id : Z) (k : scratch) (c : cpu) (s : kernel D) : outcome (cpu * kernel D) :=
  stub irq_entry irq_exit (fun x _ => kernel_handler_irq x id) k c s.

Definition handler_svc (j : junk) (k : scratch) (c : cpu) (s : kernel D) : outcome (cpu * kernel D) :=
  stub svc_entry svc_exit (fun x id => kernel_handler_svc im j x id) k c s.

End Handlers.

(** ** Words in memory *)

Section Words.
Implicit Types (a x : Z) (l : list Z) (f g : Z -> Z).

Lemma store_other l a f x :
  0 <= a -> a + 4 * Z.of_nat (length l) <= 2 ^ 32 -> x < a \/ a + 4 * Z.of_nat (length l) <= x ->
  store_words a l f x = f x.
Proof.
  revert a f. induction l as [|w l IH]; intros a f Ha Hl Hx; [done|]. cbn [store_words length] in *.
  rewrite IH by lia. unfold poke. rewrite u32_small by (unfold is_u32; lia).
  destruct (Z.eqb_spec x a); [lia|done].
Qed.

Lemma load_ext n a f g :
  (forall j, 0 <= j < Z.of_nat n -> f (u32 (a + 4 * j)) = g (u32 (a + 4 * j))) ->
  load_words a n f = load_words a n g.
Proof.
  revert a. induction n as [|n IH]; intros a Hj; [done|]. cbn [load_words]. f_equal.
  - specialize (Hj 0 ltac:(lia)). by rewrite Z.mul_0_r, Z.add_0_r in Hj.
  - apply IH. intros j Hj'. replace (a + 4 + 4 * j) with (a + 4 * (j + 1)) by lia. apply Hj. lia.
Qed.

Lemma load_app n k a f :
  load_words a (n + k) f = load_words a n f ++ load_words (a + 4 * Z.of_nat n) k f.
Proof.
  revert a. induction n as [|n IH]; intros a; [by rewrite Z.add_0_r|]. cbn [Nat.add load_words app].
  rewrite IH. do 3 f_equal. lia.
Qed.

Lemma load_store l a f :
  0 <= a -> a + 4 * Z.of_nat (length l) <= 2 ^ 32 -> load_words a (length l) (store_words a l f) = l.
Proof.
  revert a f. induction l as [|w l IH]; intros a f Ha Hl; [done|]. cbn [store_words load_words length] in *.
  f_equal; [|by apply IH; lia]. rewrite u32_small by (unfold is_u32; lia).
  rewrite store_other by lia. unfold poke. by rewrite Z.eqb_refl.
Qed.

(** Reading words that a store did not touch. *)
Lemma load_other n l a b f :
  0 <= a -> a + 4 * Z.of_nat (length l) <= 2 ^ 32 -> 0 <= b -> b + 4 * Z.of_nat n <= 2 ^ 32 ->
  b + 4 * Z.of_nat n <= a \/ a + 4 * Z.of_nat (length l) <= b ->
  load_words b n (store_words a l f) = load_words b n f.
Proof.
  intros Ha Hl Hb Hn Hd. apply load_ext. intros j Hj. rewrite u32_small by (unfold is_u32; lia).
  apply store_other; lia.
Qed.
End Words.

(** ** Running the stubs *)

(** The context of the user program, and what the hardware guarantees of it. *)
Definition user_ctx (c : cpu) : ctx_t := mk_ctx (c_cpsr c) (c_pc c) (c_low c) (c_sp c USR) (c_lr c USR).

Definition ctx_u32 (x : ctx_t) : Prop := length (gpr x) = 13%nat /\ Forall is_u32 (cpsr x :: pc x :: gpr x ++ [sp x; lr x]).

(** The context as the words of a [ctx_t] hold it. *)
Definition norm (x : ctx_t) : ctx_t :=
  mk_ctx (u32 (cpsr x)) (u32 (pc x)) (u32 <$> gpr x) (u32 (sp x)) (u32 (lr x)).

(** What runs after the handler left [x], when the status that was saved on entry is [v]: the
    fields of the status that are not written are those of [v]. *)
Definition resume (v : Z) (x : ctx_t) : ctx_t :=
  mk_ctx (psr_fc v (u32 (cpsr x))) (u32 (pc x)) (u32 <$> gpr x) (u32 (sp x)) (u32 (lr x)).

(** Between two exceptions: 32-bit registers, and room for the frames on both stacks. *)
Record settled (c : cpu) : Prop := {
  se_user : ctx_u32 (user_ctx c);
  se_irq : 68 <= c_sp c IRQ < 2 ^ 32;
  se_svc : 68 <= c_sp c SVC < 2 ^ 32;
}.

(** The instructions that leave the mode alone. *)
Definition plain (i : instr) : bool :=
  match i with MSR_cpsr _ | MSR_cpsr_c _ | MOVS_PC_LR => false | _ => true end.

Definition run_in (m : pmode) (l : list instr) (c : cpu) : cpu := foldl (fun c i => istep m i c) c l.

Lemma load_regs_cpsr m l ws c : c_cpsr (load_regs m l ws c) = c_cpsr c.
Proof.
  revert ws c. induction l as [|x l IH]; intros [|w ws] c; try done. cbn [load_regs]. rewrite IH. by destruct x.
Qed.

Lemma istep_cpsr m i c : plain i = true -> c_cpsr (istep m i c) = c_cpsr c.
Proof.
  destruct i as [[]|[]|[]|[]|[]|[]|[]|[] []|[] []|[]|[]|[]|[]|[]|[]|[]| | |]; cbn [plain]; try done;
    intros _; cbn [istep]; rewrite ?load_regs_cpsr; done.
Qed.

Lemma exec_plain m l c :
  mode_of (c_cpsr c) = Some m -> forallb plain l = true -> exec_code l c = Some (run_in m l c).
Proof.
  revert c. induction l as [|i l IH]; intros c Hm Hl; [done|]. cbn [exec_code forallb] in *. rewrite Hm.
  apply andb_true_iff in Hl as [Hi Hl]. apply IH; [by rewrite istep_cpsr|done].
Qed.


Lemma exec_app l l' c c' : exec_code l c = Some c' -> exec_code (l ++ l') c = exec_code l' c'.
Proof.
  revert c. induction l as [|i l IH]; intros c; [by intros [= ->]|]. cbn [exec_code app].
  destruct (mode_of (c_cpsr c)); [apply IH|done].
Qed.

Lemma entry_mode v b : b = 0x192 \/ b = 0x93 ->
  mode_of (Z.lor (Z.land v 0xF8FF0140) b) = Some (if b =? 0x192 then IRQ else SVC).
Proof.
  intros Hb. unfold mode_of.
  assert (E : Z.land (Z.lor (Z.land v 0xF8FF0140) b) 0x1F = Z.land b 0x1F).
  { rewrite Z.land_lor_distr_l, <-Z.land_assoc. change (Z.land 0xF8FF0140 0x1F) with 0. by rewrite Z.land_0_r. }
  rewrite E. by destruct Hb as [-> | ->].
Qed.

(** *** The status register *)

Lemma psr_fc_bits old v i : 0 <= i < 32 ->
  Z.testbit (psr_fc old v) i = if (8 <=? i) && (i <? 24) then Z.testbit old i else Z.testbit v i.
Proof.
  intros Hi. unfold psr_fc. rewrite Z.lor_spec, !Z.land_spec.
  assert (Hm : Z.testbit 0x00FFFF00 i = (8 <=? i) && (i <? 24) /\ Z.testbit 0xFF0000FF i = negb ((8 <=? i) && (i <? 24))).
  { assert (Hall : Forall (fun i => Z.testbit 0x00FFFF00 i = (8 <=? i) && (i <? 24) /\
        Z.testbit 0xFF0000FF i = negb ((8 <=? i) && (i <? 24))) (seqZ 0 32)) by by apply (bool_decide_unpack _); vm_compute.
    rewrite list.Forall_forall in Hall. apply Hall, elem_of_seqZ. lia. }
  destruct Hm as [-> ->]. destruct ((8 <=? i) && (i <? 24)); cbn [negb]; by rewrite andb_true_r, andb_false_r, ?orb_false_r.
Qed.

Lemma psr_fc_u32 old v : is_u32 (psr_fc old v).
Proof.
  assert (E : Z.land (psr_fc old v) (Z.ones 32) = psr_fc old v).
  { unfold psr_fc. by rewrite Z.land_lor_distr_l, <-!Z.land_assoc. }
  rewrite <-E, Z.land_ones by lia. apply Z.mod_pos_bound. lia.
Qed.

Lemma psr_fc_same v : is_u32 v -> psr_fc v v = v.
Proof.
  intros Hv. unfold psr_fc. rewrite <-Z.land_lor_distr_r. change (Z.lor 0x00FFFF00 0xFF0000FF) with (Z.ones 32).
  rewrite Z.land_ones by lia. by apply Z.mod_small.
Qed.


(** With the status it had, the interrupted context goes on as it was. *)
Lemma resume_same v x : is_u32 v -> cpsr x = v -> resume v x = norm x.
Proof. intros Hv <-. unfold resume, norm. by rewrite u32_small, psr_fc_same. Qed.

Lemma ctx_u32_resume v x : length (gpr x) = 13%nat -> ctx_u32 (resume v x).
Proof.
  intros Hl. split; [by cbn; rewrite length_fmap|]. unfold resume. cbn [cpsr pc gpr sp lr].
  constructor; [apply psr_fc_u32|]. constructor; [apply u32_range|]. apply Forall_app. split.
  - apply Forall_fmap, Forall_true. intros z. apply u32_range.
  - repeat (constructor; [apply u32_range|]). constructor.
Qed.

(** *** Saving *)

(** Common to both entries. *)
Definition save_code : list instr :=
  [ SUB SP SP 60; STMIA_usr SP user_regs; MRS_spsr (R 0); STMDB_wb SP [R 0; LR]; MOV (R 0) SP ].

Lemma low_cases (l : list Z) : length l = 13%nat ->
  exists a0 a1 a2 a3 a4 a5 a6 a7 a8 a9 a10 a11 a12, l = [a0; a1; a2; a3; a4; a5; a6; a7; a8; a9; a10; a11; a12].
Proof.
  intros Hl. do 13 (destruct l as [|? l]; [done|]). destruct l; [|done]. by do 13 eexists.
Qed.

Lemma user_regs_get c : length (c_low c) = 13%nat ->
  (fun x => reg_get USR x c) <$> user_regs = c_low c ++ [c_sp c USR; c_lr c USR].
Proof.
  intros Hl. destruct c as [l s r ss v p f]. cbn [c_low] in Hl.
  destruct (low_cases l Hl) as (? & ? & ? & ? & ? & ? & ? & ? & ? & ? & ? & ? & ? & ->). reflexivity.
Qed.

Lemma user_regs_load c l a b : length (c_low c) = 13%nat -> length l = 13%nat ->
  load_regs USR user_regs (l ++ [a; b]) c =
    mk_cpu l (bank USR a (c_sp c)) (bank USR b (c_lr c)) (c_spsr c) (c_cpsr c) (c_pc c) (c_mem c).
Proof.
  intros Hl Hl'. destruct c as [low s r ss v p f]. cbn [c_low] in Hl.
  destruct (low_cases low Hl) as (? & ? & ? & ? & ? & ? & ? & ? & ? & ? & ? & ? & ? & ->).
  destruct (low_cases l Hl') as (? & ? & ? & ? & ? & ? & ? & ? & ? & ? & ? & ? & ? & ->). reflexivity.
Qed.

Lemma bank_same m v f : bank m v f m = v.
Proof. unfold bank. by rewrite decide_True. Qed.
Lemma bank_other m v f m' : m' <> m -> bank m v f m' = f m'.
Proof. intros Hm. unfold bank. by rewrite decide_False. Qed.

(** The interrupted context is on the stack of mode [m], at [r0]. *)
Record saved (m : pmode) (top : Z) (x : ctx_t) (c c1 : cpu) : Prop := {
  sa_low : length (c_low c1) = 13%nat;
  sa_r0 : reg_get m (R 0) c1 = top - 68;
  sa_sp m' : c_sp c1 m' = bank m (top - 68) (c_sp c) m';
  sa_lr m' : m' <> m -> c_lr c1 m' = c_lr c m';
  sa_lr' : c_lr c1 m = c_lr c m;
  sa_cpsr : c_cpsr c1 = c_cpsr c;
  sa_spsr : c_spsr c1 = c_spsr c;
  sa_ctx : load_words (top - 68) 17 (c_mem c1) = ctx_words x;
  sa_mem a : a < top - 68 \/ top <= a -> c_mem c1 a = c_mem c a;
}.

Lemma ctx_u32_norm x : ctx_u32 x -> u32 <$> cpsr x :: pc x :: gpr x ++ [sp x; lr x] = cpsr x :: pc x :: gpr x ++ [sp x; lr x].
Proof.
  intros [_ Hu]. rewrite <-list_fmap_id. apply list_fmap_ext. intros i z Hz. apply u32_small.
  by apply (Forall_lookup_1 _ _ _ _ Hu Hz).
Qed.

Lemma save_frame m c :
  m <> USR -> length (c_low c) = 13%nat -> 68 <= c_sp c m < 2 ^ 32 ->
  let x := mk_ctx (c_spsr c m) (c_lr c m) (c_low c) (c_sp c USR) (c_lr c USR) in
  ctx_u32 x -> saved m (c_sp c m) x c (run_in m save_code c).
Proof.
  intros Hm Hl Hs x Hx. pose proof (ctx_u32_norm x Hx) as Hn. unfold save_code, run_in.
  cbn [foldl istep reg_get]. rewrite !user_regs_get by done.
  cbn [reg_set set_mem c_low c_sp c_lr c_spsr c_cpsr c_pc c_mem length fmap list_fmap reg_get].
  rewrite ?bank_same, !bank_other by done.
  rewrite (u32_small (c_sp c m - 60)) by (unfold is_u32; lia).
  replace (c_sp c m - 60 - 4 * Z.of_nat 2) with (c_sp c m - 68) by lia.
  rewrite (u32_small (c_sp c m - 68)) by (unfold is_u32; lia).
  assert (Hb : forall v w : Z, length (<[0%nat := v]> (<[0%nat := w]> (c_low c))) = 13%nat)
    by (intros; by rewrite !length_insert).
  assert (Hlen : length (c_low c ++ [c_sp c USR; c_lr c USR]) = 15%nat) by (rewrite length_app, Hl; done).
  split; cbn [reg_set reg_get c_low c_sp c_lr c_spsr c_cpsr c_pc c_mem].
  - apply Hb.
  - by destruct (c_low c).
  - intros m'. destruct (decide (m' = m)) as [->|Hne]; [by rewrite !bank_same|by rewrite !bank_other].
  - done.
  - done.
  - done.
  - done.
  - change 17%nat with (2 + 15)%nat. rewrite load_app. unfold ctx_words. rewrite Hn.
    change (4 * Z.of_nat 2) with 8. replace (c_sp c m - 68 + 8) with (c_sp c m - 60) by lia.
    rewrite (load_other 15) by (cbn [length]; lia).
    change 2%nat with (length [nth 0 (<[0%nat := c_spsr c m]> (c_low c)) 0; c_lr c m]) at 1.
    rewrite load_store by (cbn [length]; lia). rewrite <-Hlen at 1. rewrite load_store by (rewrite ?Hlen; lia).
    cbn [app]. f_equal. by destruct (c_low c).
  - intros a Ha. rewrite !store_other; cbn [length]; rewrite ?Hlen; try lia; done.
Qed.

(** *** Restoring *)

Definition restore_code : list instr :=
  [ LDMIA_wb SP [R 0; LR]; MSR_spsr (R 0); LDMIA_usr SP user_regs; ADD SP SP 60 ].

Lemma load_ctx a f x : length (gpr x) = 13%nat -> load_words a 17 f = ctx_words x ->
  load_words a 2 f = [u32 (cpsr x); u32 (pc x)] /\
  load_words (a + 8) 15 f = (u32 <$> gpr x) ++ [u32 (sp x); u32 (lr x)].
Proof.
  intros Hl E. change 17%nat with (2 + 15)%nat in E. rewrite load_app in E. unfold ctx_words in E.
  cbn [fmap list_fmap] in E. rewrite fmap_app in E. injection E as E1 E2 E3.
  split; [by cbn [load_words]; f_equal; [|f_equal]|exact E3].
Qed.

Lemma load_regs_two m d e v w c : load_regs m [d; e] [v; w] c = reg_set m e w (reg_set m d v c).
Proof. done. Qed.

Lemma restore_frame m c top x :
  m <> USR -> mode_of (c_cpsr c) = Some m -> length (c_low c) = 13%nat -> length (gpr x) = 13%nat ->
  68 <= top < 2 ^ 32 -> c_sp c m = top - 68 -> load_words (top - 68) 17 (c_mem c) = ctx_words x ->
  exists c', exec_code (restore_code ++ [MOVS_PC_LR]) c = Some c' /\ user_ctx c' = resume (c_spsr c m) x /\
    c_sp c' m = top /\ (forall m', m' <> m -> m' <> USR -> c_sp c' m' = c_sp c m') /\ c_mem c' = c_mem c.
Proof.
  intros Hm Hmode Hlow Hl Ht Hs Hctx. destruct (load_ctx _ _ x Hl Hctx) as [H2 H15].
  pose proof (exec_plain m restore_code c Hmode eq_refl) as E. rewrite (exec_app _ _ _ _ E).
  unfold restore_code, run_in. cbn [foldl istep reg_get length user_regs app fmap list_fmap seq].
  rewrite Hs, H2. change (4 * Z.of_nat 2) with 8. rewrite (u32_small (top - 68 + 8)) by (unfold is_u32; lia).
  rewrite load_regs_two. unfold set_spsr. cbn [reg_set set_spsr c_low c_sp c_lr c_spsr c_cpsr c_pc c_mem].
  rewrite !bank_same, H15. rewrite user_regs_load; [|cbn [c_low]; rewrite ?length_insert; done|by rewrite length_fmap].
  cbn [exec_code istep reg_set reg_get set_pc set_cpsr c_low c_sp c_lr c_spsr c_cpsr c_pc c_mem].
  rewrite Hmode. eexists. split; [reflexivity|].
  unfold user_ctx, resume, set_pc, set_cpsr. cbn [c_low c_sp c_lr c_spsr c_cpsr c_pc c_mem].
  assert (Hm' : USR <> m) by congruence.
  rewrite !(bank_other m _ _ USR), !(bank_other USR _ _ m), !bank_same by done.
  split_and!.
  - f_equal. destruct (c_low c); [done|]. done.
  - rewrite u32_small; unfold is_u32; lia.
  - intros m' H1 H2'. by rewrite !bank_other.
  - done.
Qed.

(** *** The call *)

Lemma words_ctx_words x : length (gpr x) = 13%nat -> words_ctx (ctx_words x) = norm x.
Proof.
  intros Hl. destruct x as [v p g s r]. cbn [gpr] in Hl.
  destruct (low_cases g Hl) as (? & ? & ? & ? & ? & ? & ? & ? & ? & ? & ? & ? & ? & ->). reflexivity.
Qed.

Lemma norm_u32 x : ctx_u32 x -> norm x = x.
Proof.
  intros Hx. pose proof (ctx_u32_norm x Hx) as E. destruct Hx as [Hl _]. destruct x as [v p g s r].
  cbn [gpr] in Hl. destruct (low_cases g Hl) as (? & ? & ? & ? & ? & ? & ? & ? & ? & ? & ? & ? & ? & ->).
  cbn in E. unfold norm. cbn. by injection E as -> -> -> -> -> -> -> -> -> -> -> -> -> -> -> -> ->.
Qed.

Lemma length_ctx_words x : length (gpr x) = 13%nat -> length (ctx_words x) = 17%nat.
Proof. intros Hl. unfold ctx_words. rewrite length_fmap. cbn. by rewrite length_app, Hl. Qed.

Definition scratch_ok (k : scratch) : Prop := length (sk_regs k) = 5%nat.

Section Run.
Context {D : Type}.
Implicit Types (s t : kernel D) (c f : cpu).

(** Save, call, restore: the handler works on the interrupted context, and what it leaves
    is what runs next. *)
Lemma stub_frame m top (h : ctx_t -> Z -> M (kernel D) ctx_t) k c c1 s x y t :
  m <> USR -> mode_of (c_cpsr c1) = Some m -> 68 <= top < 2 ^ 32 -> scratch_ok k -> ctx_u32 x ->
  saved m top x c c1 -> h x (reg_get m (R 1) c1) s = Done (y, t) -> length (gpr y) = 13%nat ->
  exists c2 f, call_c h k c1 s = Done (c2, t) /\ exec_code (restore_code ++ [MOVS_PC_LR]) c2 = Some f /\
    user_ctx f = resume (c_spsr c m) y /\ c_sp f m = top /\ (forall m', m' <> m -> m' <> USR -> c_sp f m' = c_sp c m') /\
    forall a, ~ (sk_low k <= a < top) -> a < top - 68 \/ top <= a -> c_mem f a = c_mem c a.
Proof.
  intros Hm Hmode Ht Hk Hx [Hlow Hr0 Hsp Hlr _ Hcp Hss Hctx Hmem] Hh Hy.
  set (c2 := clobber m k (set_mem (store_words (top - 68) (ctx_words y) (c_mem c1)) c1)).
  assert (Hcall : call_c h k c1 s = Done (c2, t)).
  { unfold call_c. rewrite Hmode, Hr0, Hctx, words_ctx_words, norm_u32 by (done || apply Hx).
    by rewrite Hh. }
  pose proof (length_ctx_words y Hy) as Hly. pose proof (Hsp m) as Hspm. rewrite bank_same in Hspm.
  destruct (restore_frame m c2 top y) as (f & Hf & Hu & Hsf & Hof & Hmf); try done.
  - unfold c2, clobber, set_mem. cbn [c_low]. rewrite !length_app, !length_take, !length_drop.
    unfold scratch_ok in Hk. lia.
  - unfold c2, clobber, set_mem. cbn [c_mem c_sp]. rewrite Hspm.
    etransitivity; [apply (load_ext 17 _ _ (store_words (top - 68) (ctx_words y) (c_mem c1)))|].
    + intros j Hj. rewrite u32_small by (unfold is_u32; lia).
      by replace ((sk_low k <=? top - 68 + 4 * j) && (top - 68 + 4 * j <? top - 68)) with false by lia.
    + rewrite <-Hly. apply load_store; lia.
  - change (c_spsr c2) with (c_spsr c1) in Hu. rewrite Hss in Hu. exists c2, f. split_and!; [done..| |].
    + intros m' H1 H2. rewrite Hof by done. unfold c2, clobber, set_mem. cbn [c_sp]. by rewrite Hsp, bank_other.
    + intros a Ha1 Ha2. rewrite Hmf. unfold c2, clobber, set_mem. cbn [c_mem c_sp]. rewrite Hspm.
      replace ((sk_low k <=? a) && (a <? top - 68)) with false by lia.
      rewrite store_other; [by apply Hmem|lia|lia|lia].
Qed.

(** Both entries, after the adjustment of [lr]. *)
Lemma stub_exact m (pre : list instr) (h : ctx_t -> Z -> M (kernel D) ctx_t) k c0 c1 s y t :
  let x := mk_ctx (c_spsr c0 m) (c_lr c0 m) (c_low c0) (c_sp c0 USR) (c_lr c0 USR) in
  m <> USR -> mode_of (c_cpsr c0) = Some m -> 68 <= c_sp c0 m < 2 ^ 32 -> scratch_ok k -> ctx_u32 x ->
  forallb plain pre = true -> run_in m (save_code ++ pre) c0 = c1 ->
  saved m (c_sp c0 m) x c0 c1 ->
  h x (reg_get m (R 1) c1) s = Done (y, t) -> length (gpr y) = 13%nat ->
  exists f, stub (save_code ++ pre) (restore_code ++ [MOVS_PC_LR]) h k c0 s = Done (f, t) /\
    user_ctx f = resume (c_spsr c0 m) y /\ c_sp f m = c_sp c0 m /\
    (forall m', m' <> m -> m' <> USR -> c_sp f m' = c_sp c0 m') /\
    forall a, c_sp c0 m <= a -> c_mem f a = c_mem c0 a.
Proof.
  intros x Hm Hmode Ht Hk Hx Hpl E Hsa Hh Hy.
  destruct (stub_frame m (c_sp c0 m) h k c0 c1 s x y t) as (c2 & f & Hcall & Hf & Hu & Hs & Ho & Hmem); try done.
  { by rewrite (sa_cpsr _ _ _ _ _ Hsa). }
  exists f. split_and!; [|done..|intros a Ha; apply Hmem; lia].
  unfold stub. rewrite (exec_plain m) by (done || by rewrite forallb_app, Hpl). by rewrite E, Hcall, Hf.
Qed.
End Run.

Lemma stub_cons {D} i pre post (h : ctx_t -> Z -> M (kernel D) ctx_t) k m c (s : kernel D) :
  mode_of (c_cpsr c) = Some m -> stub (i :: pre) post h k c s = stub pre post h k (istep m i c) s.
Proof. intros Hm. unfold stub. cbn [exec_code]. by rewrite Hm. Qed.

Lemma nth_insert_ne n m (l : list Z) v : n <> m -> nth n (<[m := v]> l) 0 = nth n l 0.
Proof. intros Hn. rewrite !nth_lookup, list_lookup_insert_ne; done. Qed.

(** Writing [r1] does not disturb the frame. *)
Lemma saved_r1 m top x c c1 v : saved m top x c c1 -> saved m top x c (reg_set m (R 1) v c1).
Proof.
  intros []. split; cbn [reg_set reg_get c_low c_sp c_lr c_cpsr c_mem] in *; try done.
  - by rewrite length_insert.
  - by rewrite nth_insert_ne.
Qed.

(** [bic r1, r1, #0xFF000000]: the immediate of a supervisor call. *)
Lemma svc_number w : is_u32 w -> Z.ldiff w 0xFF000000 = w mod 2 ^ 24.
Proof.
  intros Hw. rewrite <-Z.land_ones by lia. apply Z.bits_inj'. intros i Hi.
  rewrite Z.ldiff_spec, Z.land_spec, Z.testbit_ones_nonneg by lia.
  change 0xFF000000 with (Z.shiftl (Z.ones 8) 24). rewrite Z.shiftl_spec by done.
  destruct (Z.ltb_spec i 24) as [H1|H1].
  - by rewrite (Z.testbit_neg_r _ (i - 24)) by lia.
  - destruct (Z.lt_ge_cases i 32) as [H2|H2].
    + rewrite Z.ones_spec_low by lia. by rewrite !andb_false_r.
    + assert (E : Z.testbit w i = false); [|by rewrite E].
      destruct (Z.eq_dec w 0) as [->|Hne]; [apply Z.bits_0|]. unfold is_u32 in Hw.
      apply Z.bits_above_log2; [lia|]. apply Z.log2_lt_pow2; [lia|].
      pose proof (Z.pow_le_mono_r 2 32 i). lia.
Qed.

Section Claims.
Context {D : Type} `{BlockDevice D}.
Implicit Types (s t : kernel D) (c f : cpu).

(** The registers the stubs leave alone, and the memory: above the frame nothing changes. *)
Definition balanced c f : Prop :=
  c_sp f IRQ = c_sp c IRQ /\ c_sp f SVC = c_sp c SVC /\ settled f.

Lemma settled_of c f v x :
  settled c -> user_ctx f = resume v x -> length (gpr x) = 13%nat -> c_sp f IRQ = c_sp c IRQ ->
  c_sp f SVC = c_sp c SVC -> balanced c f.
Proof.
  intros [_ Hi Hs] Hu Hl E1 E2. split_and!; [done|done|]. split; [|by rewrite E1|by rewrite E2].
  rewrite Hu. by apply ctx_u32_resume.
Qed.

Lemma pc_back p : is_u32 p -> u32 (u32 (p + 4) - 4) = p.
Proof.
  intros Hp. unfold u32, is_u32 in *. rewrite Zminus_mod_idemp_l. replace (p + 4 - 4) with p by lia.
  by apply Z.mod_small.
Qed.

Lemma settled_pc c : settled c -> is_u32 (c_pc c) /\ length (c_low c) = 13%nat.
Proof.
  intros [[Hl Hu] _ _]. split; [|done]. apply Forall_inv_tail in Hu. by apply Forall_inv in Hu.
Qed.

Lemma irq_exact id k c s y t :
  settled c -> scratch_ok k -> kernel_handler_irq (user_ctx c) id s = Done (y, t) -> length (gpr y) = 13%nat ->
  exists f, handler_irq id k (take_irq c) s = Done (f, t) /\ user_ctx f = resume (c_cpsr c) y /\ balanced c f /\
    forall a, c_sp c IRQ <= a -> c_mem f a = c_mem c a.
Proof.
  intros Hc Hk Hh Hy. pose proof (settled_pc c Hc) as [Hpc Hlow]. pose proof Hc as [Hu Hi Hs].
  pose proof (entry_mode (c_cpsr c) 0x192 (or_introl eq_refl)) as Hm. cbn [Z.eqb Pos.eqb] in Hm.
  unfold handler_irq. change irq_entry with (SUB LR LR 4 :: save_code ++ []).
  change irq_exit with (restore_code ++ [MOVS_PC_LR]). rewrite (stub_cons _ _ _ _ _ IRQ) by done.
  set (c0 := istep IRQ (SUB LR LR 4) (take_irq c)).
  assert (Ex : mk_ctx (c_spsr c0 IRQ) (c_lr c0 IRQ) (c_low c0) (c_sp c0 USR) (c_lr c0 USR) = user_ctx c).
  { unfold c0, take_irq. cbn [istep reg_set reg_get set_cpsr set_spsr c_spsr c_lr c_low c_sp].
    rewrite !bank_same, !bank_other by done. by rewrite pc_back. }
  pose proof (save_frame IRQ c0 ltac:(done) Hlow Hi) as Hsa. cbv zeta in Hsa. rewrite Ex in Hsa. specialize (Hsa Hu).
  destruct (stub_exact IRQ [] (fun x _ => kernel_handler_irq x id) k c0 (run_in IRQ save_code c0) s y t)
    as (f & Hr & Huf & H1 & H2 & H3); rewrite ?Ex; try done.
  exists f. split_and!; [done|done| |done]. apply (settled_of c f (c_cpsr c) y); try done. by apply (H2 SVC).
Qed.

Lemma svc_exact im j k c s y t :
  settled c -> scratch_ok k -> is_u32 (c_mem c (c_pc c)) ->
  c_pc c < c_sp c SVC - 68 \/ c_sp c SVC <= c_pc c ->
  kernel_handler_svc im j (mk_ctx (c_cpsr c) (u32 (c_pc c + 4)) (c_low c) (c_sp c USR) (c_lr c USR))
    (c_mem c (c_pc c) mod 2 ^ 24) s = Done (y, t) -> length (gpr y) = 13%nat ->
  exists f, handler_svc im j k (take_svc c) s = Done (f, t) /\ user_ctx f = resume (c_cpsr c) y /\ balanced c f /\
    forall a, c_sp c SVC <= a -> c_mem f a = c_mem c a.
Proof.
  intros Hc Hk Hw Hpcs Hh Hy. pose proof (settled_pc c Hc) as [Hpc Hlow]. pose proof Hc as [Hu Hi Hs].
  pose proof (entry_mode (c_cpsr c) 0x93 (or_intror eq_refl)) as Hm. cbn [Z.eqb Pos.eqb] in Hm.
  set (pre := [LDR (R 1) LR (-4); BIC (R 1) (R 1) 0xFF000000]).
  unfold handler_svc. change svc_entry with (SUB LR LR 0 :: save_code ++ pre).
  change svc_exit with (restore_code ++ [MOVS_PC_LR]). rewrite (stub_cons _ _ _ _ _ SVC) by done.
  set (c0 := istep SVC (SUB LR LR 0) (take_svc c)).
  set (x := mk_ctx (c_cpsr c) (u32 (c_pc c + 4)) (c_low c) (c_sp c USR) (c_lr c USR)) in *.
  assert (El : c_lr c0 SVC = u32 (c_pc c + 4)).
  { unfold c0, take_svc. cbn [istep reg_set reg_get set_cpsr set_spsr c_lr].
    rewrite !bank_same, Z.sub_0_r. apply u32_idem. }
  assert (Ex : mk_ctx (c_spsr c0 SVC) (c_lr c0 SVC) (c_low c0) (c_sp c0 USR) (c_lr c0 USR) = x).
  { rewrite El. unfold c0, take_svc. cbn [istep reg_set reg_get set_cpsr set_spsr c_spsr c_lr c_low c_sp].
    by rewrite !bank_same, !bank_other. }
  assert (Hx : ctx_u32 x).
  { destruct Hu as [Hl Hf]. split; [done|]. unfold x. cbn [cpsr pc gpr sp lr] in *.
    inversion_clear Hf as [|? ? H1 H2]. inversion_clear H2 as [|? ? H3 H4].
    constructor; [done|]. by constructor; [apply u32_range|]. }
  pose proof (save_frame SVC c0 ltac:(done) Hlow Hs) as Hsa. cbv zeta in Hsa. rewrite Ex in Hsa. specialize (Hsa Hx).
  assert (Er : reg_get SVC (R 1) (run_in SVC (save_code ++ pre) c0) = c_mem c (c_pc c) mod 2 ^ 24).
  { rewrite <-svc_number by done. unfold run_in at 1. rewrite foldl_app. fold (run_in SVC save_code c0).
    set (c1 := run_in SVC save_code c0) in *. destruct Hsa as [Hl1 _ _ _ Hlr _ _ _ Hmem]. unfold pre.
    cbn [foldl istep reg_get reg_set c_low c_mem]. rewrite Hlr, El.
    replace (u32 (c_pc c + 4) + -4) with (u32 (c_pc c + 4) - 4) by lia. rewrite pc_back by done.
    rewrite Hmem by done.
    destruct (low_cases (c_low c1) Hl1) as (? & ? & ? & ? & ? & ? & ? & ? & ? & ? & ? & ? & ? & ->). reflexivity. }
  destruct (stub_exact SVC pre (fun x id => kernel_handler_svc im j x id) k c0 (run_in SVC (save_code ++ pre) c0) s y t)
    as (f & Hr & Huf & H1 & H2 & H3); rewrite ?Ex, ?Er; try done.
  { unfold run_in. rewrite foldl_app. cbn [foldl pre istep]. by do 2 apply saved_r1. }
  exists f. split_and!; [done|done| |done]. apply (settled_of c f (c_cpsr c) y); try done. by apply (H2 IRQ).
Qed.
End Claims.

(** ** Reset *)

Section Table.
Implicit Types (c f : cpu).



End Table.

(** ** The interrupt bit *)

(** [irq_enable] clears bit 7 of the status register, [irq_unable] sets it; no other bit
    changes. *)
Lemma irq_bit m b c : 
  mode_of (c_cpsr c) = Some m -> length (c_low c) = 13%nat ->
  exists c', exec_code (if b : bool then irq_enable else irq_unable) c = Some c' /\
    forall i, 0 <= i -> Z.testbit (c_cpsr c') i = if i =? 7 then negb b else Z.testbit (c_cpsr c) i.
Proof.
  intros Hm Hl. assert (Hr : forall l v : Z, nth 0 (<[0%nat := v]> (c_low c)) 0 = v) by (by destruct (c_low c)).
  destruct b; cbn [exec_code irq_enable irq_unable istep reg_set c_cpsr]; rewrite !Hm; eexists; (split; [reflexivity|]);
    intros i Hi; cbn [set_cpsr c_cpsr reg_get c_low].
  all: assert (E0 : forall v w, nth 0 (<[0%nat := v]> (<[0%nat := w]> (c_low c))) 0 = v) by (intros; by destruct (c_low c)).
  all: rewrite E0; assert (E1 : forall w, nth 0 (<[0%nat := w]> (c_low c)) 0 = w) by (intros; by destruct (c_low c)).
  all: rewrite E1, Z.lor_spec, Z.ldiff_spec, Z.land_spec; change 0xFF with (Z.ones 8); rewrite Z.testbit_ones_nonneg by lia.
  - rewrite Z.ldiff_spec. change 0x80 with (2 ^ 7). rewrite Z.pow2_bits_eqb by lia.
    destruct (Z.eqb_spec i 7) as [->|Hne]; [by destruct (Z.testbit _ _)|].
    destruct (Z.eqb_spec 7 i); [lia|]. by destruct (i <? 8), (Z.testbit _ _).
  - rewrite Z.lor_spec. change 0x80 with (2 ^ 7). rewrite Z.pow2_bits_eqb by lia.
    destruct (Z.eqb_spec i 7) as [->|Hne]; [by destruct (Z.testbit _ _)|].
    destruct (Z.eqb_spec 7 i); [lia|]. by destruct (i <? 8), (Z.testbit _ _).
Qed.




(** * The properties of the stubs *)

Section Stubs.
Context {D : Type} `{BlockDevice D}.
Implicit Types (s t : kernel D) (c f : cpu).

(** C15: the stubs.  Whatever the user program was doing, an interrupt is
    [kernel_handler_irq] applied to the registers, status and program counter it was at, and
    a supervisor call is [kernel_handler_svc] applied to those of the next instruction and
    the low 24 bits of the one that called.  What the handler leaves in the context is what
    runs next, in its registers, at its program counter, with the bits 0-7 and 24-31 of its
    status; bits 8-23 are those of the interrupted program, which [msr spsr] does not
    write: exact when the handler goes on with the same program, a leak when it
    switches.  The kernel's stacks are where they were, and nothing above the
    frame changed, whatever the C code does with the registers and the stack that are its
    own. *)
Theorem stubs_exact (im : image) c s k :
  settled c -> shape s -> scratch_ok k ->
  (forall id y t, kernel_handler_irq (user_ctx c) id s = Done (y, t) ->
     exists f, handler_irq id k (take_irq c) s = Done (f, t) /\ user_ctx f = resume (c_cpsr c) y /\ balanced c f /\
       forall a, c_sp c IRQ <= a -> c_mem f a = c_mem c a) /\
  (forall j y t, ok (j_inode j) ->
     let w := c_mem c (c_pc c) in
     is_u32 w -> c_pc c < c_sp c SVC - 68 \/ c_sp c SVC <= c_pc c ->
     kernel_handler_svc im j (mk_ctx (c_cpsr c) (u32 (c_pc c + 4)) (c_low c) (c_sp c USR) (c_lr c USR))
       (w mod 2 ^ 24) s = Done (y, t) ->
     exists f, handler_svc im j k (take_svc c) s = Done (f, t) /\ user_ctx f = resume (c_cpsr c) y /\ balanced c f /\
       forall a, c_sp c SVC <= a -> c_mem f a = c_mem c a).
Proof.
  intros Hc Hs Hk. pose proof (settled_pc c Hc) as [_ Hlow]. split.
  - intros id y t Hh. apply irq_exact; [done..|]. by destruct (keeps_irq (user_ctx c) id Hlow s y t Hh Hs).
  - intros j y t Hj w Hw Hp Hh. apply svc_exact; [done..|].
    by destruct (keeps_svc im j (mk_ctx _ _ (c_low c) _ _) _ Hj Hlow s y t Hh Hs).
Qed.

End Stubs.

(** ** Witnesses *)

(** A user program at 0x8000 about to execute [svc 0x0e], and the stacks. *)
Definition demo_cpu : cpu :=
  mk_cpu (replicate 13 7) (fun m => match m with USR => 0x5000 | IRQ => 0x9000 | SVC => 0xa000 end)
    (fun _ => 0x8100) (fun _ => 0) 0x50 0x8000 (fun a => if a =? 0x8000 then 0xEF00000E else 0).

Definition demo_scratch : scratch := mk_scratch [1; 2; 3; 4; 5] 6 0x9800 (fun _ => 9).

Lemma demo_settled : settled demo_cpu.
Proof. split; [split; [done|by apply (bool_decide_unpack _)]|by cbn|by cbn]. Qed.

(** The call prints a slash, and the program goes on behind it. *)
Lemma stubs_exact_witness :
  exists f t, handler_svc demo_image demo_junk demo_scratch (take_svc demo_cpu) (bss demo_disk []) = Done (f, t) /\
    k_out t = [47] /\ user_ctx f = mk_ctx 0x50 0x8004 (replicate 13 7) 0x5000 0x8100 /\ c_sp f SVC = 0xa000.
Proof.
  destruct (stubs_exact demo_image demo_cpu (bss demo_disk []) demo_scratch demo_settled
    (shape_bss demo_disk []) eq_refl) as [_ Hsvc].
  destruct (Hsvc demo_junk (mk_ctx 0x50 0x8004 (replicate 13 7) 0x5000 0x8100) (set_k_out [47] (bss demo_disk [])))
    as (f & Hr & Hu & (_ & Hsp & _) & _).
  - done.
  - unfold is_u32. cbn. lia.
  - left. cbn. lia.
  - reflexivity.
  - exists f, (set_k_out [47] (bss demo_disk [])). split; [exact Hr|]. split; [done|]. split; [exact Hu|exact Hsp].
Defined.


