(* ===== verification/Devices.v ===== *)
(** * The device registers in memory

    The register structures of GIC.h, SP804.h and PL011.h as a C compiler lays them out,
    the addresses they are put at, and where the registers that kernel.c writes are. *)

From stdpp Require Import strings.
From S2P Require Import Prelude BlockDev Kernel Boot Interrupt.

Local Open Scope string_scope.
Local Open Scope list_scope.
Local Open Scope Z_scope.

(** ** Layout of C structures *)

Inductive ctype :=
  | uint8_t
  | uint32_t
  | array (t : ctype) (n : Z)
  | union (t u : ctype).

Fixpoint alignof (t : ctype) : Z :=
  match t with
  | uint8_t => 1
  | uint32_t => 4
  | array t _ => alignof t
  | union t u => Z.max (alignof t) (alignof u)
  end.

Definition align_up (a n : Z) : Z := (n + a - 1) / a * a.

Fixpoint sizeof (t : ctype) : Z :=
  match t with
  | uint8_t => 1
  | uint32_t => 4
  | array t n => sizeof t * n
  | union t u => align_up (Z.max (alignof t) (alignof u)) (Z.max (sizeof t) (sizeof u))
  end.

Definition struct := list (string * ctype).

(** Each member at the next multiple of its alignment. *)
Fixpoint layout (s : struct) (off : Z) : list (string * Z * Z) :=
  match s with
  | [] => []
  | (x, t) :: s' =>
      let a := align_up (alignof t) off in
      (x, a, sizeof t) :: layout s' (a + sizeof t)
  end.

Definition struct_align (s : struct) : Z := foldr (fun m => Z.max (alignof m.2)) 1 s.
Definition struct_end (s : struct) : Z := foldl (fun off m => align_up (alignof m.2) off + sizeof m.2) 0 s.
Definition struct_size (s : struct) : Z := align_up (struct_align s) (struct_end s).

(** [offsetof]. *)
Definition offset (s : struct) (x : string) : option Z :=
  (fun m => m.2.1.2) <$> list_find (fun m => m.1.1 = x) (layout s 0).

(** *** Members do not overlap *)

Lemma alignof_pos t : 1 <= alignof t.
Proof. induction t; cbn [alignof]; lia. Qed.

Lemma align_up_spec a n : 1 <= a -> n <= align_up a n < n + a /\ (align_up a n) mod a = 0.
Proof.
  intros Ha. unfold align_up. pose proof (Z.div_mod (n + a - 1) a). pose proof (Z.mod_pos_bound (n + a - 1) a).
  split; [nia|]. apply Z.mod_mul. lia.
Qed.

(** In a structure whose members have sizes, each member starts behind the ones before it,
    at a multiple of its alignment. *)
Lemma layout_apart s off :
  Forall (fun m => 0 <= sizeof m.2) s ->
  (forall i x a n, layout s off !! i = Some (x, a, n) -> off <= a) /\
  (forall i x t a n, s !! i = Some (x, t) -> layout s off !! i = Some (x, a, n) -> a mod alignof t = 0 /\ n = sizeof t) /\
  (forall i j x y a b n k, (i < j)%nat -> layout s off !! i = Some (x, a, n) -> layout s off !! j = Some (y, b, k) ->
     a + n <= b).
Proof.
  intros Hs. revert off. induction Hs as [|[z t] s Ht _ IH]; intros off; [by split_and!; intros []|]. cbn [layout snd] in *.
  pose proof (align_up_spec (alignof t) off (alignof_pos t)) as [Ha Hm]. set (a0 := align_up (alignof t) off) in *.
  destruct (IH (a0 + sizeof t)) as (H1 & H2 & H3). split_and!.
  - intros [|i] x a n Hi; cbn in Hi; [injection Hi as <- <- <-; lia|]. specialize (H1 i x a n Hi). lia.
  - intros [|i] x t' a n Hst Hi; cbn in *; [|by apply (H2 i x t')]. injection Hst as <- <-. by injection Hi as <- <-.
  - intros [|i] [|j] x y a b n k Hij Hi Hj; cbn in *; try lia; [|apply (H3 i j x y a b n k); (lia || done)].
    injection Hi as <- <- <-. by apply (H1 j y b k).
Qed.

(** ** The structures *)

(** [RSVD( x, y, z )]: [z - y + 1] bytes. *)
Definition RSVD (x : string) (y z : Z) : string * ctype := ("reserved" +:+ x, array uint8_t (z - y + 1)).

Definition GICC_t : struct :=
  [ ("CTLR", uint32_t); ("PMR", uint32_t); ("BPR", uint32_t); ("IAR", uint32_t); ("EOIR", uint32_t);
    ("RPR", uint32_t); ("HPPIR", uint32_t) ].

Definition GICD_t : struct :=
  [ ("CTLR", uint32_t); ("TYPER", uint32_t);
    RSVD "0" 0x0008 0x00FC; ("ISENABLER", array uint32_t 3);
    RSVD "1" 0x010C 0x017C; ("ICENABLER", array uint32_t 3);
    RSVD "2" 0x018C 0x01FC; ("ISPENDR", array uint32_t 3);
    RSVD "3" 0x020C 0x027C; ("ICPENDR", array uint32_t 3);
    RSVD "4" 0x028C 0x02FC; ("ISACTIVER", array uint32_t 3);
    RSVD "5" 0x030C 0x03FC; ("IPRIORITYR", array uint32_t 24);
    RSVD "6" 0x0460 0x07FC; ("ITARGETSR", array uint32_t 24);
    RSVD "7" 0x0860 0x0BFC; ("ICFGR", array uint32_t 6);
    RSVD "8" 0x0C18 0x0EFC; ("SGIR", uint32_t);
    RSVD "9" 0x0F04 0x0FFC ].

Definition SP804_t : struct :=
  [ ("Timer1Load", uint32_t); ("Timer1Value", uint32_t); ("Timer1Ctrl", uint32_t); ("Timer1IntClr", uint32_t);
    ("Timer1RIS", uint32_t); ("Timer1MIS", uint32_t); ("Timer1BGLoad", uint32_t);
    RSVD "0" 0x001C 0x001F;
    ("Timer2Load", uint32_t); ("Timer2Value", uint32_t); ("Timer2Ctrl", uint32_t); ("Timer2IntClr", uint32_t);
    ("Timer2RIS", uint32_t); ("Timer2MIS", uint32_t); ("Timer2BGLoad", uint32_t);
    RSVD "1" 0x003C 0x0EFF;
    ("TimerITCR", uint32_t); ("TimerITOP", uint32_t);
    RSVD "2" 0x0F08 0x0FDF;
    ("PeriphID", array uint32_t 4); ("PCellID", array uint32_t 4) ].

(** The anonymous union of [RSR] and [ECR] is one member. *)
Definition PL011_t : struct :=
  [ ("DR", uint32_t); ("RSR, ECR", union uint32_t uint32_t);
    RSVD "0" 0x0008 0x0017; ("FR", uint32_t);
    RSVD "1" 0x001C 0x001F;
    ("LPR", uint32_t); ("IBRD", uint32_t); ("FBRD", uint32_t); ("LCR", uint32_t); ("CR", uint32_t);
    ("IFLS", uint32_t); ("IMSC", uint32_t); ("RIS", uint32_t); ("MIS", uint32_t); ("ICR", uint32_t);
    ("DMACR", uint32_t);
    RSVD "2" 0x004C 0x0FDF;
    ("PeriphID", array uint32_t 4); ("PCellID", array uint32_t 4) ].

(** ** The devices *)

Record device := mk_device { dev_regs : struct; dev_base : Z }.

Definition GICC0 := mk_device GICC_t 0x1E000000.
Definition GICD0 := mk_device GICD_t 0x1E001000.
Definition GICC1 := mk_device GICC_t 0x1E010000.
Definition GICD1 := mk_device GICD_t 0x1E011000.
Definition GICC2 := mk_device GICC_t 0x1E020000.
Definition GICD2 := mk_device GICD_t 0x1E021000.
Definition GICC3 := mk_device GICC_t 0x1E030000.
Definition GICD3 := mk_device GICD_t 0x1E031000.

Definition TIMER0 := mk_device SP804_t 0x10011000.
Definition TIMER1 := mk_device SP804_t 0x10012000.
Definition TIMER2 := mk_device SP804_t 0x10018000.
Definition TIMER3 := mk_device SP804_t 0x10019000.

Definition UART0 := mk_device PL011_t 0x10009000.
Definition UART1 := mk_device PL011_t 0x1000A000.
Definition UART2 := mk_device PL011_t 0x1000B000.
Definition UART3 := mk_device PL011_t 0x1000C000.

Definition devices : list device :=
  [ GICC0; GICD0; GICC1; GICD1; GICC2; GICD2; GICC3; GICD3; TIMER0; TIMER1; TIMER2; TIMER3;
    UART0; UART1; UART2; UART3 ].

Definition dev_end (d : device) : Z := dev_base d + struct_size (dev_regs d).

(** [&d->x], and [&d->x[ i ]]. *)
Definition reg_addr (d : device) (x : string) : option Z := Z.add (dev_base d) <$> offset (dev_regs d) x.
Definition reg_addr_at (d : device) (x : string) (i : Z) : option Z := (fun a => a + 4 * i) <$> reg_addr d x.

(** The registers that kernel.c writes, by its expressions; the last one is no memory. *)
Definition hw_addr (r : hwreg) : option Z :=
  match r with
  | UART0_IMSC => reg_addr UART0 "IMSC"
  | UART0_CR => reg_addr UART0 "CR"
  | UART0_ICR => reg_addr UART0 "ICR"
  | TIMER0_Load => reg_addr TIMER0 "Timer1Load"
  | TIMER0_Ctrl => reg_addr TIMER0 "Timer1Ctrl"
  | TIMER0_IntClr => reg_addr TIMER0 "Timer1IntClr"
  | GICC0_PMR => reg_addr GICC0 "PMR"
  | GICC0_CTLR => reg_addr GICC0 "CTLR"
  | GICC0_EOIR => reg_addr GICC0 "EOIR"
  | GICD0_ISENABLER1 => reg_addr_at GICD0 "ISENABLER" 1
  | GICD0_CTLR => reg_addr GICD0 "CTLR"
  | CPSR_I => None
  end.

(** ** What the comments of the headers say: the first address of each register *)

Definition GICC_doc : list (string * Z) :=
  [ ("CTLR", 0x0000); ("PMR", 0x0004); ("BPR", 0x0008); ("IAR", 0x000C); ("EOIR", 0x0010); ("RPR", 0x0014);
    ("HPPIR", 0x0018) ].

Definition GICD_doc : list (string * Z) :=
  [ ("CTLR", 0x0000); ("TYPER", 0x0004); ("ISENABLER", 0x0100); ("ICENABLER", 0x0180); ("ISPENDR", 0x0200);
    ("ICPENDR", 0x0280); ("ISACTIVER", 0x0300); ("IPRIORITYR", 0x0400); ("ITARGETSR", 0x0800); ("ICFGR", 0x0C00);
    ("SGIR", 0x0F00); ("reserved9", 0x0F04) ].

Definition SP804_doc : list (string * Z) :=
  [ ("Timer1Load", 0x0000); ("Timer1Value", 0x0004); ("Timer1Ctrl", 0x0008); ("Timer1IntClr", 0x000C);
    ("Timer1RIS", 0x0010); ("Timer1MIS", 0x0014); ("Timer1BGLoad", 0x0018); ("Timer2Load", 0x0020);
    ("Timer2Value", 0x0024); ("Timer2Ctrl", 0x0028); ("Timer2IntClr", 0x002C); ("Timer2RIS", 0x0030);
    ("Timer2MIS", 0x0034); ("Timer2BGLoad", 0x0038); ("TimerITCR", 0x0F00); ("TimerITOP", 0x0F04);
    ("PeriphID", 0x0FE0); ("PCellID", 0x0FF0) ].

Definition PL011_doc : list (string * Z) :=
  [ ("DR", 0x0000); ("RSR, ECR", 0x0004); ("FR", 0x0018); ("LPR", 0x0020); ("IBRD", 0x0024); ("FBRD", 0x0028);
    ("LCR", 0x002C); ("CR", 0x0030); ("IFLS", 0x0034); ("IMSC", 0x0038); ("RIS", 0x003C); ("MIS", 0x0040);
    ("ICR", 0x0044); ("DMACR", 0x0048); ("PeriphID", 0x0FE0); ("PCellID", 0x0FF0) ].

Definition documented (s : struct) (doc : list (string * Z)) : Prop :=
  Forall (fun m => offset s m.1 = Some m.2) doc.

(** Memory and the register file of the model agree. *)
Definition hw_agree (f : Z -> Z) (h : hwreg -> Z) : Prop :=
  forall r a, hw_addr r = Some a -> f a = h r.

Lemma hw_addr_inj r r' a : hw_addr r = Some a -> hw_addr r' = Some a -> r = r'.
Proof.
  intros Hr Hr'.
  destruct r, r'; try reflexivity; exfalso; vm_compute in Hr, Hr'; congruence.
Qed.

Lemma apart_by_index (l : list device) :
  forallb (fun i => forallb (fun j => (i =? j)%nat || match l !! i, l !! j with
    | Some d, Some e => (dev_end d <=? dev_base e) || (dev_end e <=? dev_base d)
    | _, _ => true end) (seq 0 (length l))) (seq 0 (length l)) = true ->
  forall i j d e, i <> j -> l !! i = Some d -> l !! j = Some e -> dev_end d <= dev_base e \/ dev_end e <= dev_base d.
Proof.
  intros Hall i j d e Hij Hi Hj. rewrite forallb_forall in Hall.
  specialize (Hall i). rewrite in_seq in Hall. pose proof (lookup_lt_Some _ _ _ Hi). pose proof (lookup_lt_Some _ _ _ Hj).
  specialize (Hall ltac:(lia)). rewrite forallb_forall in Hall. specialize (Hall j). rewrite in_seq in Hall.
  specialize (Hall ltac:(lia)). rewrite Hi, Hj in Hall.
  rewrite (proj2 (Nat.eqb_neq i j) Hij) in Hall. cbn [orb] in Hall. lia.
Qed.

(** C37: the registers are where the headers say.  Laid out by C's rules - and the alignment is
    needed, since the reserved ranges of GIC.h end three bytes early - every register of
    the four structures has the offset its comment gives, no two members of a structure
    and no two of the sixteen devices overlap, and the eleven registers that the kernel
    writes are eleven different words: a store to one, in memory, is what the model's
    table of registers does. *)
Theorem device_map :
  documented GICC_t GICC_doc /\ documented GICD_t GICD_doc /\ documented SP804_t SP804_doc /\
  documented PL011_t PL011_doc /\
  (forall d, d ∈ devices -> forall i j x y a b n k, (i < j)%nat ->
     layout (dev_regs d) 0 !! i = Some (x, a, n) -> layout (dev_regs d) 0 !! j = Some (y, b, k) -> a + n <= b) /\
  (forall i j d e, i <> j -> devices !! i = Some d -> devices !! j = Some e ->
     dev_end d <= dev_base e \/ dev_end e <= dev_base d) /\
  (forall f h r a v, hw_agree f h -> hw_addr r = Some a -> hw_agree (poke a v f) (hw_set r v h)).
Proof.
  split; [by apply (bool_decide_unpack _); vm_compute|]. split; [by apply (bool_decide_unpack _); vm_compute|].
  split; [by apply (bool_decide_unpack _); vm_compute|]. split; [by apply (bool_decide_unpack _); vm_compute|].
  split; [|split].
  - intros d Hd. apply (layout_apart (dev_regs d) 0).
    assert (Hall : Forall (fun d => Forall (fun m => 0 <= sizeof m.2) (dev_regs d)) devices)
      by by apply (bool_decide_unpack _); vm_compute.
    by apply (proj1 (list.Forall_forall _ _) Hall).
  - apply apart_by_index. vm_compute. reflexivity.
  - intros f h r a v Hag Hr r' a' Hr'. unfold poke, hw_set. destruct (Z.eqb_spec a' a) as [->|Hne].
    + by rewrite bool_decide_true by by apply (hw_addr_inj _ _ a).
    + rewrite bool_decide_false; [by apply Hag|]. intros ->. congruence.
Qed.

(** The comment on the seventh reserved range gives another address, 0x0760. *)
Theorem reserved7_at : offset GICD_t "reserved7" = Some 0x0860.
Proof. vm_compute. reflexivity. Qed.

(** Starting the UART, in memory and in the table of registers. *)
Lemma device_map_witness : hw_agree (poke 0x10009030 0x301 (fun _ => 0)) (hw_set UART0_CR 0x301 (fun _ => 0)).
Proof.
  destruct device_map as (_ & _ & _ & _ & _ & _ & Hst). apply Hst; [by intros r a _|reflexivity].
Defined.
