(* ===== verification/Libc.v ===== *)
(** * The user library and the three test programs

    The functions of libc.c that compute, and P0, P1 and P2: user/libc.c lines 290-345,
    user/P0.c, user/P1.c and user/P2.c.  A character buffer is the state of the monad;
    what a program writes to the console is the result. *)

From Stdlib Require String Ascii.
From S2P Require Import Prelude CMonad.
Import String.StringSyntax.

(** ** Loops that may run for long

    [2 ^ n] iterations of [f], with early exit: enough for a loop whose variable has
    [n] bits, and executable. *)
Fixpoint loop2 {A R} (n : nat) (f : A -> A + R) (a : A) : A + R :=
  match n with
  | O => f a
  | S n' =>
      match loop2 n' f a with
      | inl a' => loop2 n' f a'
      | inr r => inr r
      end
  end.

(** A loop that is still running then never ends. *)
Definition while2 {A R} (n : nat) (f : A -> A + outcome R) (a : A) : outcome R :=
  match loop2 n f a with inl _ => Hang | inr r => r end.

(** ** Strings *)

(** The bytes of a literal. *)
Definition bytes_of (s : String.string) : list Z :=
  (fun a => Z.of_nat (Ascii.nat_of_ascii a)) <$> String.list_ascii_of_string s.
Arguments bytes_of _%_string_scope.

Definition getb (i : Z) : M (list Z) Z := l ← gets id; lift (aget l i).
Definition putb (i x : Z) : M (list Z) unit :=
  l ← gets id; l' ← lift (aset l i x); modify (fun _ => l').

(** ** Numbers as text *)

(** The digits of [value], the last one first, from [str\[c\]] on: the index behind
    them.  The fuel is one more than the buffer is long, so it cannot run out before a
    write is out of bounds. *)
Fixpoint put_digits (fuel : nat) (c value base : Z) : M (list Z) Z :=
  match fuel with
  | O => lift Undef
  | S fuel' =>
      if base =? 0 then lift Undef
      else
        putb c (u8 (Z.rem value base + 48)) ;;
        let value := Z.quot value base in
        if value =? 0 then mret (c + 1) else put_digits fuel' (c + 1) value base
  end.

Definition reverse_str (c : Z) : M (list Z) unit :=
  for_do (Z.to_nat (Z.quot (c - 1) 2 + 1)) 0 (fun i =>
    t ← getb i;
    x ← getb (c - i - 1);
    putb i x ;;
    putb (c - i - 1) t).

Definition int2str (value base : Z) : M (list Z) unit :=
  c ← (if value =? 0 then putb 0 48 ;; mret 1
       else
         let negative := value <? 0 in
         v ← lift (if negative then (if in_int (- value) then Done (- value) else Undef)
                   else Done value);
         l ← gets id;
         c ← put_digits (S (length l)) 0 v base;
         c ← (if negative then putb c 45 ;; mret (c + 1) else mret c);
         reverse_str c ;;
         mret c);
  putb c 0.

Fixpoint str2int_loop (str : list Z) (base : Z) (n : nat) (e value : Z) : outcome Z :=
  match n with
  | O => Done value
  | S i =>
      c ← aget str (Z.of_nat i);
      if c =? 45 then (if in_int (- value) then Done (- value) else Undef)
      else
        let t := e * (c - 48) in
        if in_int t && in_int (value + t) && in_int (e * base)
        then str2int_loop str base i (e * base) (value + t)
        else Undef
  end.

Definition str2int (str : list Z) (n base : Z) : outcome Z :=
  str2int_loop str base (Z.to_nat n) 1 0.

(** The bytes [write_int] passes to [write]; with no terminator in the first twelve
    characters it writes nothing. *)
Definition write_int (x : Z) : M (list Z) (list Z) :=
  int2str x 10 ;;
  r ← for_find 12 0 (fun n =>
    c ← getb n;
    if c =? 0 then l ← gets id; mret (Some (take (Z.to_nat n) l)) else mret None);
  mret (default [] r).

(** ** P0: prime numbers *)

Definition is_prime_step (x d : Z) : Z + outcome Z :=
  if u32 (d * d) <=? x then
    if d =? 0 then inr Undef
    else if x mod d =? 0 then inr (Done 0) else inl (u32 (d + 2))
  else inr (Done 1).

(** The divisors tried are odd, so there are 2^31 of them before they repeat. *)
Definition is_prime (x : Z) : outcome Z :=
  if (Z.land x 1 =? 0) || (x <? 2) then Done (if x =? 2 then 1 else 0)
  else while2 31 (is_prime_step x) 3.

Definition P0_line (x : Z) : M (list Z) (list Z) :=
  r ← lift (is_prime x);
  a ← write_int (s32 x);
  b ← write_int r;
  mret (bytes_of "is_prime( " ++ a ++ bytes_of " ) = " ++ b ++ [10]).

(** ** P1: greatest common divisors *)

Definition gcd_step (xy : Z * Z) : (Z * Z) + outcome Z :=
  let '(x, y) := xy in
  if x =? y then inr (Done x)
  else if x >? y then inl (u32 (x - y), y)
  else inl (x, u32 (y - x)).

(** Each call makes the sum of the two words smaller, unless one is zero and the call
    repeats itself. *)
Definition gcd (x y : Z) : outcome Z := while2 33 gcd_step (x, y).

Definition P1_line (x y : Z) : M (list Z) (list Z) :=
  r ← lift (gcd x y);
  a ← write_int (s32 x);
  b ← write_int (s32 y);
  c ← write_int (s32 r);
  mret (bytes_of "gcd( " ++ a ++ bytes_of ", " ++ b ++ bytes_of " ) = " ++ c ++ [10]).

(** ** P2: Hamming weights *)

Definition weight_step (k m x : Z) : Z :=
  u32 (Z.land x m + Z.land (Z.shiftr x k) m).

Definition weight (x : Z) : Z :=
  let x := weight_step 1 0x55555555 x in
  let x := weight_step 2 0x33333333 x in
  let x := weight_step 4 0x0F0F0F0F x in
  let x := weight_step 8 0x00FF00FF x in
  weight_step 16 0x0000FFFF x.

Definition P2_line (x : Z) : M (list Z) (list Z) :=
  let r := weight x in
  a ← write_int (s32 x);
  b ← write_int (s32 r);
  mret (bytes_of "weight( " ++ a ++ bytes_of " ) = " ++ b ++ [10]).

(** ** The programs' loops: the output of the first [n] lines *)

(** The next value of a loop variable that runs from 2^8 to 2^24 - 1 for ever. *)
Definition next_x (x : Z) : Z := if x + 1 <? 2 ^ 24 then x + 1 else 2 ^ 8.

Fixpoint run_lines {A} (line : A -> M (list Z) (list Z)) (next : A -> A) (n : nat) (a : A) :
    M (list Z) (list Z) :=
  match n with
  | O => mret []
  | S n' => l ← line a; rest ← run_lines line next n' (next a); mret (l ++ rest)
  end.

Definition P0 (n : nat) : M (list Z) (list Z) := run_lines P0_line next_x n (2 ^ 8).

Definition next_xy (xy : Z * Z) : Z * Z :=
  let '(x, y) := xy in if y + 1 <? 2 ^ 24 then (x, y + 1) else (next_x x, 2 ^ 8).
Definition P1 (n : nat) : M (list Z) (list Z) :=
  run_lines (fun xy => P1_line xy.1 xy.2) next_xy n (2 ^ 8, 2 ^ 8).

Definition P2 (n : nat) : M (list Z) (list Z) := run_lines P2_line next_x n (2 ^ 8).
