(* ===== verification/LibcProof.v ===== *)
(** * Properties of the user library and the test programs *)

From Stdlib Require Import Znumtheory.
From S2P Require Import Prelude CMonad Libc.
Import String.StringSyntax.

(** ** Long loops *)

Section Loop2.
Context {A R : Type} (f : A -> A + outcome R).

(** With an invariant [I] and a measure [m] that goes down, the loop ends. *)
Lemma loop2_inv (I : A -> Prop) (m : A -> Z) (Q : outcome R -> Prop) n a :
  I a ->
  (forall b, I b -> match f b with
                    | inl b' => I b' /\ 0 <= m b' < m b
                    | inr r => Q r
                    end) ->
  match loop2 n f a with
  | inl b => I b /\ 0 <= m b /\ m b + 2 ^ Z.of_nat n <= m a
  | inr r => Q r
  end.
Proof.
  intros Ha Hf. revert a Ha. induction n as [|n IH]; intros a Ha; cbn [loop2].
  - specialize (Hf a Ha). destruct (f a) as [b|r]; [|done]. cbn. split; [apply Hf|lia].
  - pose proof (IH a Ha) as H1. destruct (loop2 n f a) as [b|r]; [|done].
    destruct H1 as (Hb & H0 & H1). pose proof (IH b Hb) as H2.
    destruct (loop2 n f b) as [b'|r]; [|done]. destruct H2 as (Hb' & H0' & H2).
    rewrite Nat2Z.inj_succ, Z.pow_succ_r by lia. split; [done|lia].
Qed.

Lemma while2_total (I : A -> Prop) (m : A -> Z) (Q : outcome R -> Prop) n a :
  I a -> m a < 2 ^ Z.of_nat n ->
  (forall b, I b -> match f b with
                    | inl b' => I b' /\ 0 <= m b' < m b
                    | inr r => Q r
                    end) ->
  Q (while2 n f a).
Proof.
  intros Ha Hm Hf. pose proof (loop2_inv I m Q n a Ha Hf) as H. unfold while2.
  destruct (loop2 n f a) as [b|r]; [lia|done].
Qed.

(** A loop that stays in [I] never ends. *)
Lemma while2_hangs (I : A -> Prop) n a :
  I a -> (forall b, I b -> exists b', f b = inl b' /\ I b') -> while2 n f a = Hang.
Proof.
  intros Ha Hf. assert (H : exists b, loop2 n f a = inl b /\ I b).
  { revert a Ha. induction n as [|n IH]; intros a Ha; cbn [loop2]; [by apply Hf|].
    destruct (IH a Ha) as (b & -> & Hb). by apply IH. }
  unfold while2. by destruct H as (b & -> & _).
Qed.
End Loop2.

(** ** Greatest common divisors *)

Lemma gcd_sub x y : Z.gcd (x - y) y = Z.gcd x y.
Proof. rewrite !(Z.gcd_comm _ y). apply Z.gcd_sub_diag_r. Qed.

Lemma gcd_positive x y :
  is_u32 x -> is_u32 y -> 0 < x -> 0 < y ->
  gcd x y = Done (Z.gcd x y) /\ 0 < Z.gcd x y <= x.
Proof.
  intros Hx Hy Hx0 Hy0. split.
  - unfold gcd. apply (while2_total gcd_step
      (fun ab => 0 < ab.1 < 2 ^ 32 /\ 0 < ab.2 < 2 ^ 32 /\ Z.gcd ab.1 ab.2 = Z.gcd x y)
      (fun ab => ab.1 + ab.2)); unfold is_u32 in *; cbn [fst snd]; [lia|cbn; lia|].
    intros [a b] ((Ha & Ha') & (Hb & Hb') & Hg). cbn [fst snd] in *. unfold gcd_step.
    destruct (Z.eqb_spec a b) as [->|Hab]; [by rewrite <-Hg, Z.gcd_diag, Z.abs_eq by lia|].
    rewrite Z.gtb_ltb. destruct (Z.ltb_spec b a).
    + rewrite u32_small by (unfold is_u32; lia). cbn [fst snd]. rewrite gcd_sub. lia.
    + rewrite u32_small by (unfold is_u32; lia). cbn [fst snd].
      rewrite (Z.gcd_comm a (b - a)), gcd_sub, (Z.gcd_comm b a). lia.
  - pose proof (Z.gcd_nonneg x y). destruct (Z.eq_dec (Z.gcd x y) 0) as [E|].
    + apply Z.gcd_eq_0_l in E. lia.
    + pose proof (Z.gcd_divide_l x y) as Hd. apply Z.divide_pos_le in Hd; lia.
Qed.

(** C40: termination and correctness of [gcd].  On positive words it ends with their
    greatest common divisor; with exactly one of them zero it never ends, the call
    repeating itself; [gcd(0, 0)] is 0. *)
Theorem gcd_correct x y :
  is_u32 x -> is_u32 y ->
  gcd x y = if (x =? y) || (0 <? x) && (0 <? y) then Done (Z.gcd x y) else Hang.
Proof.
  intros Hx Hy.
  destruct (Z.eqb_spec x y) as [->|Hne].
  { unfold is_u32 in *. cbn [orb]. rewrite Z.gcd_diag, Z.abs_eq by lia. unfold gcd, while2.
    assert (E : forall n, loop2 n gcd_step (y, y) = inr (Done y)); [|by rewrite E].
    induction n as [|n IH]; cbn [loop2]; [|by rewrite IH]. unfold gcd_step. by rewrite Z.eqb_refl. }
  cbn [orb]. destruct (Z.ltb_spec 0 x), (Z.ltb_spec 0 y); cbn [andb].
  - by destruct (gcd_positive x y Hx Hy) as [-> _].
  - unfold gcd, is_u32 in *. apply (while2_hangs gcd_step (fun ab => ab = (x, y))); [done|]. intros ? ->. exists (x, y).
    split; [|done]. unfold gcd_step. destruct (Z.eqb_spec x y); [done|].
    rewrite Z.gtb_ltb. replace (y <? x) with true by lia. by rewrite u32_small by (unfold is_u32; lia); replace (x - y) with x by lia.
  - unfold gcd, is_u32 in *. apply (while2_hangs gcd_step (fun ab => ab = (x, y))); [done|]. intros ? ->. exists (x, y).
    split; [|done]. unfold gcd_step. destruct (Z.eqb_spec x y); [done|].
    rewrite Z.gtb_ltb. replace (y <? x) with false by lia. by rewrite u32_small by (unfold is_u32; lia); replace (y - x) with y by lia.
  - unfold is_u32 in *. lia.
Qed.

(** ** Prime numbers *)

Section Primes.
Implicit Types (x d p : Z).

(** An odd composite number has an odd divisor up to its root. *)
Lemma odd_divisor x :
  1 < x -> x mod 2 = 1 -> ~ Z.prime x -> exists p, 3 <= p /\ p mod 2 = 1 /\ p * p <= x /\ (p | x).
Proof.
  intros Hx Hodd Hnp. rewrite prime_alt in Hnp. destruct (not_prime_divide x Hx Hnp) as (d & Hd & [e He]).
  assert (Hpar : forall p q, x = q * p -> p mod 2 = 1).
  { intros p q ->. pose proof (Z.mod_pos_bound p 2).
    destruct (Z.eq_dec (p mod 2) 0) as [E|E]; [|lia]. exfalso.
    rewrite Z.mul_mod, E, Z.mul_0_r in Hodd by lia. done. }
  assert (Hsm : forall p q, x = q * p -> 1 < p -> p <= q -> 3 <= p /\ p mod 2 = 1 /\ p * p <= x /\ (p | x)).
  { intros p q E Hp Hpq. pose proof (Hpar p q E) as Hm. split_and!; [|done|nia|by exists q].
    destruct (Z.eq_dec p 2); [by subst p|lia]. }
  destruct (Z.le_ge_cases d e) as [Hle|Hle].
  - exists d. apply (Hsm d e); lia.
  - exists e. apply (Hsm e d); [lia| |done]. nia.
Qed.

Lemma is_prime_even x : Z.land x 1 = x mod 2.
Proof. change 1 with (Z.ones 1) at 1. by rewrite Z.land_ones. Qed.

Lemma odd_next d : d mod 2 = 1 -> (d + 2) mod 2 = 1.
Proof. intros E. by replace (d + 2) with (d + 1 * 2) by lia; rewrite Z.mod_add. Qed.

(** A composite number is found out. *)
Lemma is_prime_composite x : is_u32 x -> ~ Z.prime x -> is_prime x = Done 0.
Proof.
  intros Hx Hnp. unfold is_u32 in Hx. unfold is_prime. rewrite is_prime_even.
  pose proof (Z.mod_pos_bound x 2).
  destruct (Z.eqb_spec (x mod 2) 0), (Z.ltb_spec x 2); cbn [orb].
  1,2,3: destruct (Z.eqb_spec x 2) as [->|]; [by destruct Hnp; apply Z.prime_2|done].
  destruct (odd_divisor x) as (p & Hp3 & Hp & Hpp & Hdiv); [lia|lia|done|].
  apply (while2_total (is_prime_step x) (fun d => 3 <= d <= p /\ d mod 2 = 1) (fun d => p - d));
    [split; [lia|done]|cbn; nia|].
  intros d (Hd & Hodd). unfold is_prime_step. assert (Hdd : d * d <= p * p) by nia.
  rewrite u32_small by (unfold is_u32; nia).
  destruct (Z.leb_spec (d * d) x); [|lia]. destruct (Z.eqb_spec d 0); [lia|].
  destruct (Z.eqb_spec (x mod d) 0) as [_|Hm]; [done|].
  assert (Hdp : d <> p).
  { intros ->. apply Hm. by apply Z.mod_divide; [lia|]. }
  assert (d + 1 <> p).
  { intros <-. rewrite Z.add_mod, Hodd in Hp by lia. done. }
  rewrite u32_small by (unfold is_u32; nia). split; [split; [lia|by apply odd_next]|lia].
Qed.

Lemma prime_odd x : Z.prime x -> x mod 2 = 0 -> x = 2.
Proof.
  intros [Hx Hno] E. destruct (Z.eq_dec x 2) as [|Hne]; [done|]. exfalso.
  apply (Hno 2); [lia|]. by apply Z.mod_divide; [lia|].
Qed.

Lemma is_prime_small x : Z.prime x -> x < 65535 * 65535 -> is_prime x = Done 1.
Proof.
  intros Hpr Hx. pose proof Hpr as [Hx1 Hno]. unfold is_prime. rewrite is_prime_even.
  destruct (Z.eqb_spec (x mod 2) 0) as [E|E], (Z.ltb_spec x 2) as [|_]; cbn [orb]; try lia.
  - by rewrite (prime_odd x Hpr E).
  - apply (while2_total (is_prime_step x) (fun d => 3 <= d <= 65535 /\ d mod 2 = 1) (fun d => 65535 - d));
      [split; [lia|done]|cbn; lia|].
    intros d (Hd & Hodd). unfold is_prime_step. rewrite u32_small by (unfold is_u32; nia).
    destruct (Z.leb_spec (d * d) x); [|done]. destruct (Z.eqb_spec d 0); [lia|].
    destruct (Z.eqb_spec (x mod d) 0) as [Hm|_].
    { exfalso. apply (Hno d); [nia|]. by apply Z.mod_divide; [lia|]. }
    assert (d < 65535) by nia. assert (d <> 65534) by (intros ->; done).
    rewrite u32_small by (unfold is_u32; lia). split; [split; [lia|by apply odd_next]|lia].
Qed.

(** The square of an odd number is one more than a multiple of eight, wrapped or not. *)
Lemma odd_square d : d mod 2 = 1 -> u32 (d * d) mod 8 = 1.
Proof.
  intros Hd. unfold u32. replace (2 ^ 32) with (8 * 2 ^ 29) by reflexivity.
  rewrite Z.rem_mul_r by lia. rewrite Z.add_mod, (Z.mul_comm 8), Z.mod_mul, Z.add_0_r, !Z.mod_mod by lia.
  pose proof (Z.div_mod d 2). set (k := d / 2) in *.
  assert (E : d = 2 * k + 1) by lia. rewrite E.
  replace ((2 * k + 1) * (2 * k + 1)) with (1 + 4 * (k * (k + 1))) by ring.
  assert (Hk : exists h, k * (k + 1) = 2 * h).
  { destruct (Z.Even_or_Odd k) as [[h ->]|[h ->]]; [exists (h * (2 * h + 1))|exists ((2 * h + 1) * (h + 1))]; ring. }
  destruct Hk as [h ->]. replace (1 + 4 * (2 * h)) with (1 + h * 8) by ring. by rewrite Z.mod_add.
Qed.

(** The largest prime of a word: no wrapped square of an odd number is above it. *)
Definition big_prime : Z := 4294967291.

Fixpoint no_divisor (x : Z) (n : nat) (d : Z) : bool :=
  match n with O => true | S n' => negb (x mod d =? 0) && no_divisor x n' (d + 2) end.

Lemma no_divisor_spec x n d k :
  no_divisor x n d = true -> 0 <= k < Z.of_nat n -> x mod (d + 2 * k) <> 0.
Proof.
  revert d k. induction n as [|n IH]; intros d k Hn Hk; [lia|]. cbn [no_divisor] in Hn.
  apply andb_true_iff in Hn as [Hd Hn]. destruct (Z.eq_dec k 0) as [->|].
  - rewrite Z.add_0_r. by apply negb_true_iff, Z.eqb_neq in Hd.
  - replace (d + 2 * k) with (d + 2 + 2 * (k - 1)) by lia. by apply IH; [|lia].
Qed.

Lemma big_prime_prime : Z.prime big_prime.
Proof.
  apply prime_alt. destruct (prime_dec big_prime) as [|Hnp]; [done|]. exfalso.
  destruct (odd_divisor big_prime) as (p & Hp3 & Hp & Hpp & Hdiv); [done|done| |].
  { intros Hpr. apply Hnp. by apply prime_alt. }
  assert (Hall : no_divisor big_prime (Z.to_nat 32767) 3 = true) by (vm_compute; reflexivity).
  assert (Hp' : p <= 65535) by (unfold big_prime in *; nia).
  pose proof (Z.div_mod (p - 3) 2). assert (E : (p - 3) mod 2 = 0).
  { replace (p - 3) with (p + (-2) * 2 + 1) by lia. rewrite Z.add_mod, Z.mod_add, Hp by lia. done. }
  apply (no_divisor_spec _ _ _ ((p - 3) / 2) Hall); [lia|].
  replace (3 + 2 * ((p - 3) / 2)) with p by lia. by apply Z.mod_divide; [lia|].
Qed.

(** [is_prime] against the definition of prime numbers.  A composite word is always
    answered with 0, and a prime below 65535^2, so every one P0 asks for, with 1.
    Above, the square of the divisor wraps around: the largest prime of 32 bits is
    divided by all odd numbers up to itself, and then called composite. *)
Theorem is_prime_correct x :
  is_u32 x ->
  (~ Z.prime x -> is_prime x = Done 0) /\
  (Z.prime x -> x < 65535 * 65535 -> is_prime x = Done 1) /\
  (Z.prime big_prime /\ is_prime big_prime = Done 0).
Proof.
  intros Hx. split_and!; [by apply is_prime_composite|apply is_prime_small|apply big_prime_prime|].
  destruct big_prime_prime as [_ Hno]. unfold is_prime. rewrite is_prime_even.
  change ((big_prime mod 2 =? 0) || (big_prime <? 2)) with false. cbv iota.
  apply (while2_total (is_prime_step big_prime)
    (fun d => 3 <= d <= big_prime /\ d mod 2 = 1) (fun d => (big_prime - d) / 2));
    [by vm_compute|by vm_compute|].
  intros d (Hd & Hodd). unfold is_prime_step. pose proof (odd_square d Hodd) as Hsq.
  pose proof (u32_range (d * d)) as Hr. set (q := u32 (d * d)) in *. unfold big_prime, is_u32 in *.
  pose proof (Z.div_mod q 8). destruct (Z.leb_spec q 4294967291) as [_|]; [|lia].
  destruct (Z.eqb_spec d 0); [lia|].
  destruct (Z.eqb_spec (4294967291 mod d) 0) as [_|Hm]; [done|].
  assert (d <> 4294967291) by (intros ->; by apply Hm).
  assert (d <> 4294967290) by (intros ->; done).
  rewrite u32_small by (unfold is_u32; lia). split; [split; [lia|by apply odd_next]|].
  replace (4294967291 - d) with (4294967291 - (d + 2) + 1 * 2) by lia. rewrite Z.div_add by lia.
  split; [apply Z.div_pos; lia|lia].
Qed.
End Primes.

(** ** Hamming weights *)

(** The number of ones of a word. *)
Definition popcount (x : Z) : Z := foldr Z.add 0 ((fun i => Z.b2z (Z.testbit x i)) <$> seqZ 0 32).

(** The sum of the [n] lowest digits of [x] to the base [2 ^ k]. *)
Fixpoint digit_sum (k : Z) (n : nat) (x : Z) : Z :=
  match n with O => 0 | S n' => x mod 2 ^ k + digit_sum k n' (x / 2 ^ k) end.

(** [n] fields of [2 * k] bits, the low half of each set. *)
Fixpoint mask (k : Z) (n : nat) : Z :=
  match n with O => 0 | S n' => 2 ^ k - 1 + 2 ^ (2 * k) * mask k n' end.

Section Weight.
Implicit Types (k x : Z) (n : nat).

Lemma mask_nonneg k n : 0 < k -> 0 <= mask k n.
Proof.
  intros Hk. induction n as [|n IH]; cbn [mask]; [done|].
  pose proof (Z.pow_pos_nonneg 2 k). pose proof (Z.pow_pos_nonneg 2 (2 * k)). nia.
Qed.

Lemma mask_mod k n : 0 < k -> mask k (S n) mod 2 ^ (2 * k) = Z.ones k.
Proof.
  intros Hk. cbn [mask]. rewrite (Z.mul_comm (2 ^ (2 * k))), Z.mod_add by lia.
  rewrite Z.ones_equiv, <-Z.sub_1_r. apply Z.mod_small.
  pose proof (Z.pow_lt_mono_r 2 k (2 * k)). pose proof (Z.pow_pos_nonneg 2 k). lia.
Qed.

Lemma mask_div k n : 0 < k -> mask k (S n) / 2 ^ (2 * k) = mask k n.
Proof.
  intros Hk. cbn [mask]. rewrite (Z.mul_comm (2 ^ (2 * k))), Z.div_add by lia.
  rewrite Z.div_small; [done|].
  pose proof (Z.pow_lt_mono_r 2 k (2 * k)). pose proof (Z.pow_pos_nonneg 2 k). lia.
Qed.

(** The masked word, field by field. *)
Lemma land_mask k n x :
  0 < k -> 0 <= x ->
  Z.land x (mask k (S n)) = x mod 2 ^ k + 2 ^ (2 * k) * Z.land (x / 2 ^ (2 * k)) (mask k n).
Proof.
  intros Hk Hx. set (j := 2 * k). assert (Hj : 0 < 2 ^ j) by (apply Z.pow_pos_nonneg; lia).
  rewrite (Z.div_mod (Z.land x (mask k (S n))) (2 ^ j)) by lia.
  assert (E1 : Z.land x (mask k (S n)) mod 2 ^ j = x mod 2 ^ k).
  { rewrite <-!Z.land_ones by lia. rewrite <-Z.land_assoc. f_equal.
    rewrite Z.land_ones by lia. by apply mask_mod. }
  assert (E2 : Z.land x (mask k (S n)) / 2 ^ j = Z.land (x / 2 ^ j) (mask k n)).
  { rewrite <-!Z.shiftr_div_pow2 by lia. rewrite Z.shiftr_land. f_equal.
    rewrite Z.shiftr_div_pow2 by lia. by apply mask_div. }
  rewrite E1, E2. lia.
Qed.

Definition fold_fields k n x : Z := Z.land x (mask k n) + Z.land (Z.shiftr x k) (mask k n).

Lemma fold_fields_S k n x :
  0 < k -> 0 <= x ->
  fold_fields k (S n) x =
  (x mod 2 ^ k + (x / 2 ^ k) mod 2 ^ k) + 2 ^ (2 * k) * fold_fields k n (x / 2 ^ (2 * k)).
Proof.
  intros Hk Hx. unfold fold_fields. rewrite !Z.shiftr_div_pow2 by lia.
  rewrite !land_mask by (try lia; apply Z.div_pos; lia).
  rewrite !Z.div_div by (try lia; apply Z.pow_nonzero; lia).
  replace (2 ^ k * 2 ^ (2 * k)) with (2 ^ (2 * k) * 2 ^ k) by lia. lia.
Qed.

Lemma field_bound k x :
  0 < k -> 0 <= x mod 2 ^ k + (x / 2 ^ k) mod 2 ^ k < 2 ^ (2 * k).
Proof.
  intros Hk. assert (H1 : 0 < 2 ^ k) by (apply Z.pow_pos_nonneg; lia).
  pose proof (Z.mod_pos_bound x (2 ^ k) H1). pose proof (Z.mod_pos_bound (x / 2 ^ k) (2 ^ k) H1).
  assert (2 ^ (2 * k) = 2 ^ k * 2 ^ k) by (rewrite <-Z.pow_add_r by lia; f_equal; lia).
  assert (2 <= 2 ^ k) by (apply (Z.pow_le_mono_r 2 1 k); lia). nia.
Qed.

Lemma fold_fields_bound k n x :
  0 < k -> 0 <= x -> 0 <= fold_fields k n x < 2 ^ (2 * k * Z.of_nat n).
Proof.
  intros Hk. revert x. induction n as [|n IH]; intros x Hx.
  - unfold fold_fields. cbn [mask]. by rewrite !Z.land_0_r, Z.mul_0_r.
  - rewrite fold_fields_S by done. pose proof (field_bound k x Hk).
    specialize (IH (x / 2 ^ (2 * k)) ltac:(apply Z.div_pos; [lia|apply Z.pow_pos_nonneg; lia])).
    replace (2 * k * Z.of_nat (S n)) with (2 * k + 2 * k * Z.of_nat n) by lia.
    rewrite Z.pow_add_r by lia. nia.
Qed.

(** One step of the algorithm keeps the sum of the digits and doubles their width. *)
Lemma digit_sum_fold k n x :
  0 < k -> 0 <= x -> digit_sum (2 * k) n (fold_fields k n x) = digit_sum k (2 * n) x.
Proof.
  intros Hk. revert x. induction n as [|n IH]; intros x Hx; [done|].
  replace (2 * S n)%nat with (S (S (2 * n))) by lia. cbn [digit_sum]. rewrite fold_fields_S by done.
  pose proof (field_bound k x Hk).
  rewrite (Z.mul_comm (2 ^ (2 * k))), Z.mod_add, Z.div_add by lia.
  rewrite (Z.mod_small (_ + _)), (Z.div_small (_ + _)), Z.add_0_l by lia.
  assert (0 < 2 ^ k) by (apply Z.pow_pos_nonneg; lia).
  rewrite IH by (apply Z.div_pos; [lia|apply Z.pow_pos_nonneg; lia]).
  rewrite Z.div_div by lia. rewrite <-Z.pow_add_r by lia. replace (k + k) with (2 * k) by lia. lia.
Qed.

Lemma weight_step_fold k n m x :
  0 < k -> 0 <= x -> m = mask k n -> 2 * k * Z.of_nat n = 32 ->
  weight_step k m x = fold_fields k n x.
Proof.
  intros Hk Hx -> Hn. unfold weight_step. apply u32_small. unfold is_u32. rewrite <-Hn.
  by apply fold_fields_bound.
Qed.

Lemma popcount_digits x : popcount x = digit_sum 1 32 x.
Proof.
  assert (H : forall n y i, 0 <= i -> y = x / 2 ^ i ->
    foldr Z.add 0 ((fun i => Z.b2z (Z.testbit x i)) <$> seqZ i (Z.of_nat n)) = digit_sum 1 n y).
  2:{ apply (H 32%nat x 0); [done|]. by rewrite Z.div_1_r. }
  induction n as [|n IH]; intros y i Hi ->; [done|].
  rewrite seqZ_cons by lia. cbn [fmap list_fmap foldr digit_sum].
  replace (Z.pred (Z.of_nat (S n))) with (Z.of_nat n) by lia.
  rewrite (IH (x / 2 ^ Z.succ i)) by (lia || done). rewrite Z.testbit_spec' by lia.
  change (2 ^ 1) with 2. rewrite Z.div_div by (try lia; apply Z.pow_nonzero; lia).
  by rewrite Z.pow_succ_r, (Z.mul_comm 2) by lia.
Qed.

Lemma weight_popcount x : is_u32 x -> weight x = popcount x.
Proof.
  intros Hx. unfold is_u32 in Hx. rewrite popcount_digits. unfold weight.
  rewrite (weight_step_fold 1 16) by (done || lia).
  pose proof (fold_fields_bound 1 16 x ltac:(lia) ltac:(lia)) as B1. set (y1 := fold_fields 1 16 x) in *.
  rewrite (weight_step_fold 2 8) by (done || lia).
  pose proof (fold_fields_bound 2 8 y1 ltac:(lia) ltac:(lia)) as B2. set (y2 := fold_fields 2 8 y1) in *.
  rewrite (weight_step_fold 4 4) by (done || lia).
  pose proof (fold_fields_bound 4 4 y2 ltac:(lia) ltac:(lia)) as B3. set (y3 := fold_fields 4 4 y2) in *.
  rewrite (weight_step_fold 8 2) by (done || lia).
  pose proof (fold_fields_bound 8 2 y3 ltac:(lia) ltac:(lia)) as B4. set (y4 := fold_fields 8 2 y3) in *.
  rewrite (weight_step_fold 16 1) by (done || lia).
  pose proof (fold_fields_bound 16 1 y4 ltac:(lia) ltac:(lia)) as B5. set (y5 := fold_fields 16 1 y4) in *.
  rewrite <-(digit_sum_fold 1 16) by lia. fold y1. cbn [Z.mul Pos.mul].
  rewrite <-(digit_sum_fold 2 8) by lia. fold y2. cbn [Z.mul Pos.mul].
  rewrite <-(digit_sum_fold 4 4) by lia. fold y3. cbn [Z.mul Pos.mul].
  rewrite <-(digit_sum_fold 8 2) by lia. fold y4. cbn [Z.mul Pos.mul].
  rewrite <-(digit_sum_fold 16 1) by lia. fold y5. cbn [digit_sum].
  rewrite Z.add_0_r. symmetry. apply Z.mod_small. exact B5.
Qed.

(** [weight] counts the ones of a word: the five steps add up the fields of one,
    two, four, eight and sixteen bits without a carry between them. *)
Theorem weight_correct x : is_u32 x -> weight x = popcount x.
Proof. apply weight_popcount. Qed.
End Weight.

(** ** Numbers as text *)

(** [ds] is the numeral of [v] to the base [b], the most significant digit first. *)
Record numeral (b v : Z) (ds : list Z) : Prop := {
  nu_digits : Forall (fun d => 0 <= d < b) ds;
  nu_value : fold_left (fun a d => a * b + d) ds 0 = v;
  nu_lead : head ds = Some 0 -> ds = [0];
  nu_some : ds <> [];
}.

Definition chars (ds : list Z) : list Z := (fun d => d + 48) <$> ds.

(** [w] is the text of [v]: a sign when it is negative, and the numeral. *)
Definition text_of (b v : Z) (w : list Z) : Prop :=
  exists ds, numeral b (Z.abs v) ds /\ w = (if v <? 0 then [45] else []) ++ chars ds.

(** The digits the other way round. *)
Definition rvalue (b : Z) (rds : list Z) : Z := foldr (fun d a => d + b * a) 0 rds.

Record rnumeral (b v : Z) (rds : list Z) : Prop := {
  rn_digits : Forall (fun d => 0 <= d < b) rds;
  rn_value : rvalue b rds = v;
  rn_lead : head (reverse rds) <> Some 0;
  rn_some : rds <> [];
}.

Section Text.
Implicit Types (b v : Z) (l w rds : list Z).

Lemma rnumeral_reverse b v rds : rnumeral b v rds -> numeral b v (reverse rds).
Proof.
  intros [Hd Hv Hl Hs]. split.
  - by apply Forall_reverse.
  - rewrite <-Hv. clear. induction rds as [|d rds IH]; [done|].
    rewrite reverse_cons, fold_left_app, IH. unfold rvalue. cbn. lia.
  - done.
  - intros E. apply Hs. by rewrite <-(reverse_involutive rds), E.
Qed.

Lemma splice_cons (i : nat) x xs l :
  (i < length l)%nat -> splice (S i) xs (<[i := x]> l) = splice i (x :: xs) l.
Proof.
  intros Hi. unfold splice. rewrite (take_S_snoc _ i x) by by apply list_lookup_insert_eq.
  rewrite take_insert_ge by lia. rewrite drop_insert_lt by lia.
  rewrite <-app_assoc. cbn [app length]. by replace (i + S (length xs))%nat with (S i + length xs)%nat by lia.
Qed.

Lemma wp_putb i x l (Q : unit -> list Z -> Prop) :
  0 <= i < Z.of_nat (length l) -> Q tt (<[Z.to_nat i := x]> l) -> wp (putb i x) Q l.
Proof.
  intros Hi HQ. unfold putb. wp_steps. eapply wp_lift; [by apply aset_done|]. by wp_steps.
Qed.

Lemma wp_getb i x l (Q : Z -> list Z -> Prop) :
  0 <= i -> l !! Z.to_nat i = Some x -> Q x l -> wp (getb i) Q l.
Proof. intros Hi Hx HQ. unfold getb. wp_steps. by eapply wp_lift; [apply aget_done|]. Qed.

Lemma wp_put_digits fuel k c v b l (Q : Z -> list Z -> Prop) :
  2 <= b <= 10 -> 0 < v < b ^ Z.of_nat k -> (k <= fuel)%nat -> (c + k <= length l)%nat ->
  (forall rds, rnumeral b v rds -> (length rds <= k)%nat ->
     Q (Z.of_nat (c + length rds)) (splice c (chars rds) l)) ->
  wp (put_digits fuel (Z.of_nat c) v b) Q l.
Proof.
  intros Hb. revert fuel c v l Q. induction k as [|k IH]; intros fuel c v l Q Hv Hf Hl HQ.
  { cbn in Hv. lia. }
  destruct fuel as [|fuel]; [lia|]. cbn [put_digits]. destruct (Z.eqb_spec b 0); [lia|].
  rewrite Z.rem_mod_nonneg, Z.quot_div_nonneg by lia. pose proof (Z.mod_pos_bound v b).
  rewrite u8_small by (unfold is_byte; lia). wp_step. apply wp_putb; [lia|]. rewrite Nat2Z.id.
  pose proof (Z.div_mod v b). rewrite Nat2Z.inj_succ, Z.pow_succ_r in Hv by lia.
  assert (Hdiv : 0 <= v / b < b ^ Z.of_nat k).
  { split; [apply Z.div_pos; lia|apply Z.div_lt_upper_bound; lia]. }
  cbv zeta. destruct (Z.eqb_spec (v / b) 0) as [E|E].
  - wp_steps. replace (Z.of_nat c + 1) with (Z.of_nat (c + length [v mod b])) by (cbn; lia).
    rewrite <-(splice_nil (S c) (<[c := v mod b + 48]> l)), splice_cons by lia. apply HQ; [|cbn; lia].
    split; [apply Forall_singleton; lia|unfold rvalue; cbn; lia| |done]. cbn. intros [=]. lia.
  - replace (Z.of_nat c + 1) with (Z.of_nat (S c)) by lia.
    apply IH; [lia|lia|rewrite length_insert; lia|]. intros rds [Hd Hv' Hlast Hs] Hlen.
    rewrite splice_cons by lia. replace (S c + length rds)%nat with (c + length ((v mod b)%Z :: rds))%nat by (cbn; lia).
    apply (HQ (v mod b :: rds)); [|cbn; lia]. split.
    + apply Forall_cons_2; [lia|done].
    + cbn. fold (rvalue b rds). lia.
    + rewrite reverse_cons. destruct (reverse rds) eqn:Er; [|exact Hlast].
      by rewrite <-(reverse_involutive rds), Er in Hs.
    + done.
Qed.

(** The reversal of the first characters. *)
Lemma wp_reverse w tl (Q : unit -> list Z -> Prop) :
  w <> [] -> Q tt (reverse w ++ tl) -> wp (reverse_str (Z.of_nat (length w))) Q (w ++ tl).
Proof.
  intros Hw HQ. set (c := length w). assert (Hc : (0 < c)%nat) by (destruct w; [done|cbn; lia]).
  unfold reverse_str. rewrite Z.quot_div_nonneg by lia. pose proof (Z.div_mod (Z.of_nat c - 1) 2).
  pose proof (Z.mod_pos_bound (Z.of_nat c - 1) 2). set (h := (Z.of_nat c - 1) / 2) in *.
  assert (Hlow : forall j : nat, (j < c)%nat -> (w ++ tl) !! j = w !! j)
    by (intros j Hj; by rewrite lookup_app_l).
  apply (wp_for_do (fun i l => length l = length (w ++ tl) /\
    forall j : nat, l !! j =
      if decide ((j < c)%nat /\ (Z.of_nat j < i \/ Z.of_nat c - 1 - Z.of_nat j < i))
      then w !! (c - 1 - j)%nat else (w ++ tl) !! j)).
  - split; [done|]. intros j. by rewrite decide_False by lia.
  - intros i l Hi [Hlen Hl]. rewrite length_app in Hlen. fold c in Hlen.
    destruct (lookup_lt_ex w (Z.to_nat i)) as [t Ht]; [unfold c in *; lia|].
    destruct (lookup_lt_ex w (c - 1 - Z.to_nat i)) as [x Hx]; [unfold c in *; lia|].
    wp_step. apply (wp_getb i t); [lia|rewrite Hl, decide_False, Hlow by lia; done|].
    wp_step. apply (wp_getb _ x); [lia| |].
    { rewrite Hl. replace (Z.to_nat (Z.of_nat c - i - 1)) with (c - 1 - Z.to_nat i)%nat by lia.
      rewrite decide_False, Hlow by lia. done. }
    wp_step. apply wp_putb; [lia|]. apply wp_putb; [rewrite length_insert; lia|].
    split; [rewrite !length_insert, length_app; fold c; lia|]. intros j.
    replace (Z.to_nat (Z.of_nat c - i - 1)) with (c - 1 - Z.to_nat i)%nat by lia.
    destruct (decide (j = (c - 1 - Z.to_nat i)%nat)) as [->|Hj1].
    { rewrite list_lookup_insert_eq by (rewrite length_insert; lia). rewrite decide_True by lia.
      by replace (c - 1 - (c - 1 - Z.to_nat i))%nat with (Z.to_nat i) by lia. }
    rewrite list_lookup_insert_ne by done. destruct (decide (j = Z.to_nat i)) as [->|Hj2].
    { rewrite list_lookup_insert_eq by lia. by rewrite decide_True by lia. }
    rewrite list_lookup_insert_ne, Hl by done. do 2 case_decide; try done; lia.
  - intros l [Hlen Hl]. rewrite Z2Nat.id, Z.add_0_l in Hl by lia.
    replace l with (reverse w ++ tl); [done|]. apply list_eq. intros j. rewrite Hl.
    case_decide as Hj.
    + rewrite lookup_app_l by (rewrite length_reverse; fold c; lia).
      rewrite reverse_lookup by (fold c; lia). f_equal. unfold c. lia.
    + destruct (decide (j < c)%nat); [lia|].
      rewrite !lookup_app_r by (rewrite ?length_reverse; fold c; lia). by rewrite length_reverse.
Qed.
End Text.

Section Printing.
Implicit Types (b v : Z) (l w rds : list Z).

Lemma length_chars rds : length (chars rds) = length rds.
Proof. apply length_fmap. Qed.

Lemma splice_0 xs l : splice 0 xs l = overlay xs l.
Proof. done. Qed.

Lemma overlay_snoc xs x l :
  (length xs < length l)%nat -> <[length xs := x]> (overlay xs l) = overlay (xs ++ [x]) l.
Proof. intros Hl. rewrite <-!splice_0, splice_snoc by lia. done. Qed.

Lemma chars_reverse rds : reverse (chars rds) = chars (reverse rds).
Proof. unfold chars. by rewrite fmap_reverse. Qed.

Lemma wp_int2str v b k l (Q : unit -> list Z -> Prop) :
  2 <= b <= 10 -> Z.abs v < b ^ Z.of_nat k -> Z.abs v < 2 ^ 31 -> (k + 2 <= length l)%nat ->
  (forall w, text_of b v w -> (length w <= S k)%nat -> (0 <= v -> (length w <= Nat.max 1 k)%nat) ->
     Q tt (overlay (w ++ [0]) l)) ->
  wp (int2str v b) Q l.
Proof.
  intros Hb Hk Hv Hl HQ. unfold int2str. destruct (Z.eqb_spec v 0) as [->|Hv0].
  - wp_steps. apply wp_putb; [lia|]. wp_steps. apply wp_putb; [rewrite length_insert; lia|].
    change (Z.to_nat 0) with 0%nat. change (Z.to_nat 1) with 1%nat.
    destruct l as [|x0 [|x1 l]]; [cbn in Hl; lia|cbn in Hl; lia|].
    apply (HQ [48]); [|cbn; lia|cbn; lia]. exists [0]. split; [|done].
    split; [apply Forall_singleton; lia|done|done|done].
  - cbv zeta. wp_step. apply (wp_bind (lift _)). apply (wp_lift _ (Z.abs v)).
    { destruct (Z.ltb_spec v 0); [|f_equal; lia]. unfold in_int.
      replace ((- 2 ^ 31 <=? - v) && (- v <? 2 ^ 31)) with true by lia. f_equal. lia. }
    wp_steps. cbn [id]. apply (wp_put_digits _ k 0); [done|lia|lia|lia|]. intros rds Hrn Hlen.
    rewrite splice_0, Nat.add_0_l. wp_step.
    set (sg := if v <? 0 then [45] else []). set (cs := chars rds ++ sg).
    assert (Hcs : (length cs <= S k)%nat /\ (0 <= v -> (length cs <= k)%nat)).
    { unfold cs, sg. rewrite length_app, length_chars. destruct (Z.ltb_spec v 0); cbn; lia. }
    assert (Hne : cs <> []).
    { unfold cs. destruct Hrn as [_ _ _ Hs]. by destruct rds. }
    assert (Hrest : wp (reverse_str (Z.of_nat (length cs)) ;; mret (Z.of_nat (length cs)))
      (fun c => wp (putb c 0) Q) (overlay cs l)).
    { wp_step. unfold overlay. apply wp_reverse; [done|]. wp_step. apply wp_putb.
      { rewrite length_app, length_reverse, length_drop. lia. }
      rewrite Nat2Z.id, <-(length_reverse cs). change (reverse cs ++ drop _ l) with (overlay (reverse cs) l).
      rewrite overlay_snoc by (rewrite length_reverse; lia).
      apply HQ; [|rewrite length_reverse; lia|rewrite length_reverse; lia].
      exists (reverse rds). split; [by apply rnumeral_reverse|].
      unfold cs, sg. rewrite reverse_app, chars_reverse. by destruct (v <? 0). }
    unfold cs, sg in Hrest. destruct (v <? 0).
    + wp_step. apply wp_putb; [rewrite length_overlay by (rewrite length_chars; lia); lia|]. wp_steps.
      rewrite Nat2Z.id, <-(length_chars rds), overlay_snoc by (rewrite length_chars; lia).
      rewrite length_app in Hrest. cbn [length] in Hrest. rewrite Nat2Z.inj_add in Hrest.
      exact (wp_unbind _ _ _ _ Hrest).
    + wp_steps. rewrite app_nil_r in Hrest. rewrite length_chars in Hrest.
      exact (wp_unbind _ _ _ _ Hrest).
Qed.

(** Reading the digits from the right. *)
Lemma str2int_digits b str sg rds e value :
  2 <= b <= 10 -> Forall (fun d => 0 <= d < b) rds ->
  (forall i x, (sg ++ chars (reverse rds)) !! i = Some x -> str !! i = Some x) ->
  0 < e -> 0 <= value -> value + e * rvalue b rds < 2 ^ 31 ->
  e * b ^ Z.of_nat (length rds) < 2 ^ 31 -> sg = [] \/ sg = [45] ->
  str2int_loop str b (length sg + length rds) e value =
    Done (match sg with [] => value + e * rvalue b rds | _ => - (value + e * rvalue b rds) end).
Proof.
  intros Hb Hd. revert e value. induction Hd as [|d rds Hd0 Hd IH]; intros e value Hstr He Hval Hv Hp Hsg.
  - cbn [rvalue foldr] in *. rewrite Z.mul_0_r, Z.add_0_r in *. destruct Hsg as [->| ->]; [done|].
    cbn [length Nat.add str2int_loop]. rewrite (aget_done _ _ 45); [|done|by apply Hstr].
    cbn [mbind outcome_bind]. change (45 =? 45) with true. cbv iota. unfold in_int.
    by replace ((- 2 ^ 31 <=? - value) && (- value <? 2 ^ 31)) with true by lia.
  - assert (Hr : 0 <= rvalue b rds).
    { clear - Hd Hb. induction Hd as [|d rds Hd0 _ IH]; cbn; [done|]. unfold rvalue in IH. nia. }
    change (rvalue b (d :: rds)) with (d + b * rvalue b rds) in *.
    cbn [length] in *. rewrite Nat2Z.inj_succ, Z.pow_succ_r in Hp by lia.
    rewrite Nat.add_succ_r. cbn [str2int_loop].
    rewrite (aget_done _ _ (d + 48)); [|lia|].
    2:{ rewrite Nat2Z.id. apply Hstr. rewrite reverse_cons. unfold chars. rewrite fmap_app.
        rewrite lookup_app_r by lia. rewrite lookup_app_r by (rewrite length_fmap, length_reverse; lia).
        by replace (_ - _ - _)%nat with 0%nat by (rewrite length_fmap, length_reverse; lia). }
    cbn [mbind outcome_bind]. destruct (Z.eqb_spec (d + 48) 45); [lia|]. cbv zeta.
    replace (d + 48 - 48) with d by lia. pose proof (Z.pow_pos_nonneg b (Z.of_nat (length rds))).
    unfold in_int.
    assert (0 <= e * d) by nia. assert (e * d <= e * (d + b * rvalue b rds)) by nia.
    assert (0 < e * b <= e * (b * b ^ Z.of_nat (length rds))) by nia.
    replace ((- 2 ^ 31 <=? e * d) && (e * d <? 2 ^ 31)) with true by lia.
    replace ((- 2 ^ 31 <=? value + e * d) && (value + e * d <? 2 ^ 31)) with true by lia.
    replace ((- 2 ^ 31 <=? e * b) && (e * b <? 2 ^ 31)) with true by lia. cbn [andb].
    rewrite IH; try done; try nia.
    + destruct sg; apply f_equal; ring.
    + intros i x Hx. apply Hstr. rewrite reverse_cons. unfold chars in *. rewrite fmap_app, app_assoc.
      by apply lookup_app_l_Some.
Qed.

Lemma numeral_rnumeral b v ds : 2 <= b -> numeral b v ds ->
  Forall (fun d => 0 <= d < b) (reverse ds) /\ rvalue b (reverse ds) = v.
Proof.
  intros Hb [Hd Hv _ _]. split; [by apply Forall_reverse|]. rewrite <-Hv. clear.
  rewrite <-(reverse_involutive ds) at 2. induction (reverse ds) as [|d rds IH]; [done|].
  rewrite reverse_cons, fold_left_app. cbn. rewrite <-IH. unfold rvalue. lia.
Qed.
End Printing.

Section TextClaims.
Implicit Types (b v : Z) (buf w : list Z).

(** [int2str] on every number it can take.  It writes the sign and the digits of
    the number, most significant first and without leading zeros, and a terminator, and
    leaves the rest of the buffer alone; twelve bytes are enough for base ten.  The
    least number of all has no negation, so it is out of its domain. *)
Theorem int2str_correct v b k buf :
  2 <= b <= 10 -> Z.abs v < b ^ Z.of_nat k -> Z.abs v < 2 ^ 31 -> (k + 2 <= length buf)%nat ->
  (exists w, text_of b v w /\ (length w <= S k)%nat /\
     int2str v b buf = Done (tt, overlay (w ++ [0]) buf)) /\
  int2str (- 2 ^ 31) b buf = Undef.
Proof.
  intros Hb Hk Hv Hl. split.
  - assert (Hw : wp (int2str v b) (fun _ l => exists w, text_of b v w /\ (length w <= S k)%nat /\
                                               l = overlay (w ++ [0]) buf) buf).
    { apply (wp_int2str v b k); [done..|]. intros w Hw Hlen _. by exists w. }
    apply wp_done in Hw as ([] & l & Hr & w & Hw & Hlen & ->). by exists w.
  - done.
Qed.

(** C39: printing and reading a number back: [str2int] of what [int2str] wrote is the
    number, whenever one more digit still fits an [int].  It is not enough that the
    number itself fits: after the last digit the weight of the next one is computed, so
    reading the ten digits of the greatest number overflows. *)
Theorem int2str_str2int v b k buf :
  2 <= b <= 10 -> Z.abs v < b ^ Z.of_nat k -> b ^ Z.of_nat k < 2 ^ 31 -> (0 < k)%nat ->
  (k + 2 <= length buf)%nat ->
  (exists w, int2str v b buf = Done (tt, overlay (w ++ [0]) buf) /\
     str2int (overlay (w ++ [0]) buf) (Z.of_nat (length w)) b = Done v) /\
  str2int (bytes_of "2147483647") 10 10 = Undef.
Proof.
  intros Hb Hk Hp Hk0 Hl. split; [|by vm_compute].
  assert (Hw : wp (int2str v b) (fun _ l => exists w, l = overlay (w ++ [0]) buf /\
    text_of b v w /\ (length w <= S k)%nat /\ (0 <= v -> (length w <= Nat.max 1 k)%nat)) buf).
  { apply (wp_int2str v b k); [done|done|lia|done|]. intros w Hw Hlen Hlen'. by exists w. }
  apply wp_done in Hw as ([] & l & Hr & w & -> & (ds & Hn & ->) & Hlen & Hlen').
  eexists. split; [exact Hr|]. destruct (numeral_rnumeral b (Z.abs v) ds) as [Hd Hrv]; [lia|done|].
  set (sg := if v <? 0 then [45] else []) in *. unfold str2int. rewrite Nat2Z.id, length_app, length_chars.
  rewrite <-(length_reverse ds).
  assert (Hds : (length (reverse ds) <= k)%nat).
  { rewrite length_reverse. unfold sg in Hlen, Hlen'. rewrite length_app, length_chars in Hlen, Hlen'.
    destruct (Z.ltb_spec v 0); cbn in *; lia. }
  rewrite (str2int_digits b _ sg (reverse ds) 1 0); try done; try lia.
  - rewrite Hrv. unfold sg. destruct (Z.ltb_spec v 0); f_equal; lia.
  - intros i x. rewrite reverse_involutive. intros Hx. unfold overlay. rewrite <-app_assoc.
    by apply lookup_app_l_Some.
  - pose proof (Z.pow_le_mono_r b (Z.of_nat (length (reverse ds))) (Z.of_nat k)). lia.
  - unfold sg. destruct (v <? 0); [by right|by left].
Qed.
End TextClaims.

(** ** The lines of the programs *)

Section Lines.
Implicit Types (b v x y : Z) (l w buf : list Z).

Lemma text_plain b v w : 2 <= b <= 10 -> text_of b v w -> Forall (fun c => c <> 0) w.
Proof.
  intros Hb (ds & [Hd _ _ _] & ->). apply Forall_app. split.
  - destruct (v <? 0); [by apply Forall_singleton|apply Forall_nil_2].
  - apply Forall_fmap. revert Hd. apply Forall_impl. intros d Hd. cbn. lia.
Qed.

(** The text of an [int] fits the twelve bytes of the programs' buffers. *)
Lemma wp_write_int x buf (Q : list Z -> list Z -> Prop) :
  length buf = 12%nat -> Z.abs x < 2 ^ 31 ->
  (forall w buf', text_of 10 x w -> length buf' = 12%nat -> Q w buf') -> wp (write_int x) Q buf.
Proof.
  intros Hl Hx HQ. unfold write_int. wp_step.
  apply (wp_int2str x 10 10); [lia|change (10 ^ Z.of_nat 10) with 10000000000; lia|done|lia|].
  intros w Hw Hlen _. set (l := overlay (w ++ [0]) buf).
  assert (Hl12 : length l = 12%nat).
  { unfold l. rewrite length_overlay; [done|]. rewrite length_app. cbn. lia. }
  wp_step. change 12%nat with (length (replicate 12 0)). rewrite length_replicate, <-Hl12.
  apply (wp_scan l (fun c => c =? 0) (fun n => take (Z.to_nat n) l)).
  - intros k c Hk Hc. rewrite (run_bind _ _ _ c l); [by destruct (c =? 0)|].
    apply wp_run, (wp_getb k c); done.
  - assert (E : list_find (fun c => (c =? 0) = true) l = Some (length w, 0)).
    { apply list_find_Some. pose proof (text_plain 10 x w ltac:(lia) Hw) as Hp. unfold l, overlay. split_and!.
      - rewrite <-app_assoc. by apply list_lookup_middle.
      - done.
      - intros j c Hc Hj. rewrite <-app_assoc, lookup_app_l in Hc by done.
        pose proof (Forall_lookup_1 _ _ _ _ Hp Hc). by intros ->%Z.eqb_eq. }
    rewrite E. cbn [fmap option_fmap option_map fst]. wp_steps.
    change (Q (take (Z.to_nat (Z.of_nat (length w))) l) l). rewrite Nat2Z.id.
    replace (take (length w) l) with w; [by apply HQ|].
    unfold l, overlay. by rewrite <-app_assoc, take_app_length.
Qed.

Lemma small_s32 x : 0 <= x < 2 ^ 31 -> s32 x = x.
Proof. intros Hx. apply s32_small. lia. Qed.

Lemma is_prime_total x :
  is_u32 x -> x < 65535 * 65535 ->
  exists r, is_prime x = Done r /\ (Z.prime x /\ r = 1 \/ ~ Z.prime x /\ r = 0).
Proof.
  intros Hx Hs. destruct (prime_dec x) as [Hp|Hp]; rewrite <-prime_alt in Hp.
  - exists 1. split; [by apply is_prime_small|by left].
  - exists 0. split; [by apply is_prime_composite|by right].
Qed.

Lemma popcount_bound x : 0 <= popcount x <= 32.
Proof.
  assert (H : forall l, 0 <= foldr Z.add 0 ((fun i => Z.b2z (Z.testbit x i)) <$> l) <= Z.of_nat (length l)).
  { induction l as [|i l IH]; [done|]. rewrite fmap_cons. cbn [foldr length].
    destruct (Z.testbit x i); cbn [Z.b2z]; lia. }
  apply (H (seqZ 0 32)).
Qed.

(** A number of a loop's range. *)
Definition in_range (x : Z) : Prop := 2 ^ 8 <= x < 2 ^ 24.

Lemma wp_P0_line x buf (Q : list Z -> list Z -> Prop) :
  length buf = 12%nat -> in_range x ->
  (forall r wx wr buf', length buf' = 12%nat -> text_of 10 x wx -> text_of 10 r wr ->
     Z.prime x /\ r = 1 \/ ~ Z.prime x /\ r = 0 ->
     Q (bytes_of "is_prime( " ++ wx ++ bytes_of " ) = " ++ wr ++ [10]) buf') ->
  wp (P0_line x) Q buf.
Proof.
  unfold in_range. intros Hl Hx HQ.
  destruct (is_prime_total x) as (r & Er & Hr); [unfold is_u32; lia|lia|].
  unfold P0_line. wp_step. apply (wp_lift _ r); [done|]. wp_step. rewrite small_s32 by lia.
  apply wp_write_int; [done|lia|]. intros wx b1 Hwx Hb1. wp_step.
  apply wp_write_int; [done|lia|]. intros wr b2 Hwr Hb2. wp_steps. by apply (HQ r).
Qed.

Lemma wp_P1_line x y buf (Q : list Z -> list Z -> Prop) :
  length buf = 12%nat -> in_range x -> in_range y ->
  (forall wx wy wr buf', length buf' = 12%nat ->
     text_of 10 x wx -> text_of 10 y wy -> text_of 10 (Z.gcd x y) wr ->
     Q (bytes_of "gcd( " ++ wx ++ bytes_of ", " ++ wy ++ bytes_of " ) = " ++ wr ++ [10]) buf') ->
  wp (P1_line x y) Q buf.
Proof.
  unfold in_range. intros Hl Hx Hy HQ. destruct (gcd_positive x y) as [Eg Hg]; [unfold is_u32; lia..|].
  unfold P1_line. wp_step. apply (wp_lift _ (Z.gcd x y)); [done|]. wp_step. rewrite !small_s32 by lia.
  apply wp_write_int; [done|lia|]. intros wx b1 Hwx Hb1. wp_step.
  apply wp_write_int; [done|lia|]. intros wy b2 Hwy Hb2. wp_step.
  apply wp_write_int; [done|lia|]. intros wr b3 Hwr Hb3. wp_steps. by apply HQ.
Qed.

Lemma wp_P2_line x buf (Q : list Z -> list Z -> Prop) :
  length buf = 12%nat -> in_range x ->
  (forall wx wr buf', length buf' = 12%nat -> text_of 10 x wx -> text_of 10 (popcount x) wr ->
     Q (bytes_of "weight( " ++ wx ++ bytes_of " ) = " ++ wr ++ [10]) buf') ->
  wp (P2_line x) Q buf.
Proof.
  unfold in_range. intros Hl Hx HQ. pose proof (popcount_bound x).
  unfold P2_line. cbv zeta. rewrite weight_popcount by (unfold is_u32; lia).
  wp_step. rewrite !small_s32 by lia.
  apply wp_write_int; [done|lia|]. intros wx b1 Hwx Hb1. wp_step.
  apply wp_write_int; [done|lia|]. intros wr b2 Hwr Hb2. wp_steps. by apply HQ.
Qed.

(** C38: the lines the three test programs print.  For every number in their range P0
    prints whether it is prime, P1 the greatest common divisor and P2 the number of
    ones, in decimal, whatever was in the twelve bytes they print from. *)
Theorem program_lines x y buf :
  length buf = 12%nat -> in_range x -> in_range y ->
  (exists r wx wr buf', P0_line x buf =
     Done (bytes_of "is_prime( " ++ wx ++ bytes_of " ) = " ++ wr ++ [10], buf') /\
     text_of 10 x wx /\ text_of 10 r wr /\ (Z.prime x /\ r = 1 \/ ~ Z.prime x /\ r = 0)) /\
  (exists wx wy wr buf', P1_line x y buf =
     Done (bytes_of "gcd( " ++ wx ++ bytes_of ", " ++ wy ++ bytes_of " ) = " ++ wr ++ [10], buf') /\
     text_of 10 x wx /\ text_of 10 y wy /\ text_of 10 (Z.gcd x y) wr) /\
  (exists wx wr buf', P2_line x buf =
     Done (bytes_of "weight( " ++ wx ++ bytes_of " ) = " ++ wr ++ [10], buf') /\
     text_of 10 x wx /\ text_of 10 (popcount x) wr).
Proof.
  intros Hl Hx Hy. split_and!.
  - assert (Hw : wp (P0_line x) (fun out _ => exists r wx wr,
      out = bytes_of "is_prime( " ++ wx ++ bytes_of " ) = " ++ wr ++ [10] /\ text_of 10 x wx /\
      text_of 10 r wr /\ (Z.prime x /\ r = 1 \/ ~ Z.prime x /\ r = 0)) buf).
    { apply wp_P0_line; [done..|]. intros r wx wr _ _ ? ? ?. by exists r, wx, wr. }
    apply wp_done in Hw as (out & buf' & Hrun & r & wx & wr & -> & Hrest). by exists r, wx, wr, buf'.
  - assert (Hw : wp (P1_line x y) (fun out _ => exists wx wy wr,
      out = bytes_of "gcd( " ++ wx ++ bytes_of ", " ++ wy ++ bytes_of " ) = " ++ wr ++ [10] /\
      text_of 10 x wx /\ text_of 10 y wy /\ text_of 10 (Z.gcd x y) wr) buf).
    { apply wp_P1_line; [done..|]. intros wx wy wr _ _ ? ? ?. by exists wx, wy, wr. }
    apply wp_done in Hw as (out & buf' & Hrun & wx & wy & wr & -> & Hrest). by exists wx, wy, wr, buf'.
  - assert (Hw : wp (P2_line x) (fun out _ => exists wx wr,
      out = bytes_of "weight( " ++ wx ++ bytes_of " ) = " ++ wr ++ [10] /\
      text_of 10 x wx /\ text_of 10 (popcount x) wr) buf).
    { apply wp_P2_line; [done..|]. intros wx wr _ _ ? ?. by exists wx, wr. }
    apply wp_done in Hw as (out & buf' & Hrun & wx & wr & -> & Hrest). by exists wx, wr, buf'.
Qed.
End Lines.

(** Each program prints as many lines as it is given time for. *)
Section Run.
Implicit Types (buf : list Z).

Lemma run_lines_total {A} (I : A -> Prop) (line : A -> M (list Z) (list Z)) next n a buf :
  I a -> length buf = 12%nat -> (forall b, I b -> I (next b)) ->
  (forall b l, I b -> length l = 12%nat -> wp (line b) (fun _ l' => length l' = 12%nat) l) ->
  exists out buf', run_lines line next n a buf = Done (out, buf').
Proof.
  intros Ha Hl Hnext Hline.
  assert (Hw : wp (run_lines line next n a) (fun _ l' => length l' = 12%nat) buf).
  { revert a buf Ha Hl. induction n as [|n IH]; intros a buf Ha Hl; cbn [run_lines]; [by wp_steps|].
    wp_step. apply (wp_mono _ _ _ _ (Hline a buf Ha Hl)). intros out l' Hl'. wp_step.
    apply (wp_mono _ _ _ _ (IH (next a) l' (Hnext a Ha) Hl')). intros rest l2 Hl2. by wp_steps. }
  apply wp_done in Hw as (out & buf' & Hr & _). by exists out, buf'.
Qed.

Lemma next_x_range x : in_range x -> in_range (next_x x).
Proof. unfold in_range, next_x. intros Hx. destruct (Z.ltb_spec (x + 1) (2 ^ 24)); lia. Qed.

Theorem programs_run n buf :
  length buf = 12%nat ->
  (exists out buf', P0 n buf = Done (out, buf')) /\
  (exists out buf', P1 n buf = Done (out, buf')) /\
  (exists out buf', P2 n buf = Done (out, buf')).
Proof.
  intros Hl. assert (H8 : in_range (2 ^ 8)) by (unfold in_range; lia). split_and!.
  - apply (run_lines_total in_range); [done|done|apply next_x_range|].
    intros x l Hx Hl'. by apply wp_P0_line.
  - apply (run_lines_total (fun xy => in_range xy.1 /\ in_range xy.2)); [done|done| |].
    + intros [x y] [Hx Hy]. cbn [fst snd] in *. unfold next_xy. pose proof (next_x_range x Hx).
      unfold in_range in *. destruct (Z.ltb_spec (y + 1) (2 ^ 24)); cbn [fst snd]; lia.
    + intros [x y] l [Hx Hy] Hl'. by apply wp_P1_line.
  - apply (run_lines_total in_range); [done|done|apply next_x_range|].
    intros x l Hx Hl'. by apply wp_P2_line.
Qed.
End Run.

(** ** Witnesses *)

Lemma gcd_correct_witness : gcd 1071 462 = Done 21 /\ gcd 0 5 = Hang.
Proof.
  split.
  - rewrite (gcd_correct 1071 462) by (by vm_compute). by vm_compute.
  - rewrite (gcd_correct 0 5) by (by vm_compute). reflexivity.
Defined.

Lemma is_prime_correct_witness : is_prime 9 = Done 0 /\ is_prime big_prime = Done 0.
Proof.
  destruct (is_prime_correct 9) as (Hc & _ & _ & Hbig); [by vm_compute|].
  split; [apply Hc|exact Hbig]. intros [_ Hno]. apply (Hno 3); [lia|]. by exists 3.
Defined.

Lemma weight_correct_witness : weight 0xF00F = 8.
Proof. rewrite (weight_correct 0xF00F) by (by vm_compute). reflexivity. Defined.

Lemma int2str_correct_witness :
  exists w, text_of 10 (-42) w /\ int2str (-42) 10 (replicate 12 7) = Done (tt, overlay (w ++ [0]) (replicate 12 7)).
Proof.
  destruct (int2str_correct (-42) 10 10 (replicate 12 7)) as [(w & Hw & _ & Hr) _];
    [lia|vm_compute; done|lia|cbn; lia|]. by exists w.
Defined.

Lemma int2str_str2int_witness :
  exists w, int2str (-305) 10 (replicate 12 7) = Done (tt, overlay (w ++ [0]) (replicate 12 7)) /\
    str2int (overlay (w ++ [0]) (replicate 12 7)) (Z.of_nat (length w)) 10 = Done (-305).
Proof.
  destruct (int2str_str2int (-305) 10 9 (replicate 12 7)) as [(w & Hw & Hr) _];
    [lia|vm_compute; done|vm_compute; done|lia|cbn; lia|]. by exists w.
Defined.

Lemma program_lines_witness :
  exists wx wr buf', P2_line 300 (replicate 12 7) =
     Done (bytes_of "weight( " ++ wx ++ bytes_of " ) = " ++ wr ++ [10], buf') /\
     text_of 10 300 wx /\ text_of 10 4 wr.
Proof.
  destruct (program_lines 300 256 (replicate 12 7)) as (_ & _ & H); [done|unfold in_range; lia..|exact H].
Defined.

(** The first lines, evaluated. *)
Example P0_first : value (P0 3) (replicate 12 0) = Some (bytes_of "is_prime( 256 ) = 0" ++ [10] ++
  bytes_of "is_prime( 257 ) = 1" ++ [10] ++ bytes_of "is_prime( 258 ) = 0" ++ [10]).
Proof. vm_compute. reflexivity. Qed.
Example P1_first : value (P1_line 360 1000) (replicate 12 0) = Some (bytes_of "gcd( 360, 1000 ) = 40" ++ [10]).
Proof. vm_compute. reflexivity. Qed.
Example P2_first : value (P2_line (0xffffff)) (replicate 12 0) = Some (bytes_of "weight( 16777215 ) = 24" ++ [10]).
Proof. vm_compute. reflexivity. Qed.
