(* ===== verification/User.v ===== *)
(** * User programs

    The system call wrappers of libc.c (lines 3-284) and the programs over them - init.c
    (the shell), het.c, ping.c, pong.c, blanks.c and hashs.c - as interaction trees: what
    a process asks of the kernel and of its own memory, some of them for ever.  The
    addresses of the strings the linker places and of the locals a program takes the
    address of are arguments. *)

From Stdlib Require String.
From ITree Require Import ITree.
From S2P Require Import Prelude CMonad Layout Kernel Libc.
Import String.StringSyntax.

(** ** Events *)

(** A supervisor call with the registers loaded before it, answered with [r0]; bytes of
    memory; and what C leaves undefined. *)
Inductive userE : Type -> Type :=
  | Svc (id : Z) (args : list Z) : userE Z
  | Load (a : Z) (n : nat) : userE (list Z)
  | Store (a : Z) (bs : list Z) : userE unit
  | Crash : userE void.

Abbreviation U := (itree userE).

#[export] Instance user_ret : MRet U := fun A a => Ret a.
#[export] Instance user_bind : MBind U := fun A B k t => ITree.bind t k.

Definition call (id : Z) (args : list Z) : U Z := ITree.trigger (Svc id (u32 <$> args)).
Definition load (a : Z) (n : nat) : U (list Z) := ITree.trigger (Load a n).
Definition store (a : Z) (bs : list Z) : U unit := ITree.trigger (Store a bs).
Definition crash {A} : U A := v ← ITree.trigger Crash; match v : void with end.
Definition byte (a : Z) : U Z := l ← load a 1; mret (nth 0 l 0).
Definition check {A} (o : outcome A) : U A := match o with Done a => mret a | _ => crash end.

Definition when_u (b : bool) (t : U unit) : U unit := if b then t else mret tt.

(** [for (int i = lo; i < lo + n; i++)]. *)
Fixpoint for_u (n : nat) (i : Z) (body : Z -> U unit) : U unit :=
  match n with
  | O => mret tt
  | S n' => body i ;; for_u n' (i + 1) body
  end.

(** ** libc.c: the wrappers *)

(** A call whose result is an [int]. *)
Definition icall (id : Z) (args : list Z) : U Z := r ← call id args; mret (s32 r).

Definition yield : U unit := _ ← call 0 []; mret tt.
Definition cfork : U Z := icall 3 [].

(** The result is moved the wrong way: [r0] is what the output register held. *)
Definition cexec (r0 path : Z) : U Z := _ ← call 4 [path]; mret (s32 r0).

Definition craise (sig : Z) : U unit := _ ← call 7 [sig]; mret tt.
Definition cexit : U unit := craise 0.
Definition ckill (pid sig : Z) : U unit := _ ← call 6 [pid; sig]; mret tt.
Definition mqinit (mqd : Z) : U Z := icall 8 [mqd].
Definition mqunlink (mqd : Z) : U Z := icall 22 [mqd].

(** A refused send or receive is tried again. *)
Definition again (id mqd buf size : Z) : U unit :=
  ITree.iter (fun _ : unit =>
    m ← icall id [mqd; buf; size];
    mret (if m =? -1 then inl tt else inr tt)) tt.

Definition msgsend (mqd buf size : Z) : U unit := again 9 mqd buf size.
Definition msgreceive (mqd buf size : Z) : U unit := again 10 mqd buf size.
Definition write (fd x n : Z) : U Z := icall 1 [fd; x; n].
Definition read (fd x n : Z) : U Z := icall 2 [fd; x; n].
Definition disk_wipe : U unit := _ ← call 11 []; mret tt.
Definition fopen (path ofile : Z) : U Z := icall 12 [path; ofile].
Definition fclose (fd : Z) : U Z := icall 13 [fd].
Definition fseek (fd offset whence : Z) : U Z := icall 5 [fd; offset; whence].
Definition funlink (name : Z) : U Z := icall 18 [name].
Definition ftell (fd : Z) : U Z := icall 21 [fd].
Definition pwd : U unit := _ ← call 14 []; mret tt.
Definition ls : U unit := _ ← call 15 []; mret tt.
Definition mkdir (name : Z) : U Z := icall 16 [name].
Definition cd (path : Z) : U Z := icall 17 [path].
Definition mv (src dest : Z) : U Z := icall 19 [src; dest].
Definition cp (src dest : Z) : U Z := icall 20 [src; dest].

(** ** The C string functions, on memory

    [strtok] keeps where it stopped in [last]; 0 is NULL. *)

Definition delim (delims : list Z) (c : Z) : bool := bool_decide (c ∈ delims).

Definition strtok (s : Z) (delims : list Z) (last : Z) : U (Z * Z) :=
  let s := if s =? 0 then last else s in
  if s =? 0 then mret (0, 0)
  else
    s ← ITree.iter (fun a => c ← byte a; mret (if delim delims c then inl (a + 1) else inr a)) s;
    c ← byte s;
    if c =? 0 then mret (0, 0)
    else
      '(e, c) ← ITree.iter (fun a =>
        c ← byte a; mret (if (c =? 0) || delim delims c then inr (a, c) else inl (a + 1))) (s + 1);
      if c =? 0 then mret (s, 0) else store e [0] ;; mret (s, e + 1).

(** [strncmp(a, lit, n) == 0], for a literal with its terminator. *)
Fixpoint strncmp_u (n : nat) (a : Z) (lit : list Z) : U bool :=
  match n with
  | O => mret true
  | S n' =>
      x ← byte a;
      let y := nth 0 lit 0 in
      if x =? y then if x =? 0 then mret true else strncmp_u n' (a + 1) (tail lit)
      else mret false
  end.

Definition strlen_u (a : Z) : U Z :=
  ITree.iter (fun n => c ← byte (a + n); mret (if c =? 0 then inr n else inl (n + 1))) 0.

(** ** Addresses *)

(** Where the linker put the string literals. *)
Record rodata := mk_rodata {
  ro_prompt : Z; ro_fault : Z;
  ro_het_name : Z; ro_het_text : Z;
  ro_ping : Z; ro_pong : Z;
  ro_grid : Z; ro_blanks : Z; ro_hashs : Z;
}.

Definition NULL : Z := 0.
Definition SPACE : list Z := [32].
Definition SPACES : list Z := [32; 10; 13].

(** ** The shell *)

Section Shell.
Variable ro : rodata.

(** The locals of [init] whose addresses it uses, and what is in the register [cexec]
    reads its result from. *)
Variables (x buf priority junk : Z).
Variable last_first : bool.

(** [cat]: the branch of the file at [tok]. *)
Definition cat (tok : Z) : U unit :=
  FILE ← fopen tok 1;
  when_u (negb (FILE =? -1))
   (_ ← fseek FILE 0 2;
    length ← ftell FILE;
    _ ← fseek FILE 0 0;
    ITree.iter (fun i =>
      if i <? length then
        let n := if length - i >? 512 then 512 else length - i in
        _ ← read FILE buf n;
        _ ← write STDIO buf n;
        i ← check (if in_int (i + 512) then Done (i + 512) else Undef);
        mret (inl i)
      else mret (inr tt)) 0 ;;
    _ ← fclose FILE;
    mret tt).

Definition setp (tok last : Z) : U Z :=
  n ← strlen_u tok;
  str ← load tok (Z.to_nat n);
  p ← check (str2int str n 10);
  store priority (le_bytes 4 p) ;;
  '(path, last) ← strtok NULL SPACES last;
  FILE ← fopen path 1;
  when_u (negb (FILE =? -1))
    (_ ← fseek FILE 4 1;
     _ ← write FILE priority 4;
     _ ← fclose FILE;
     mret tt) ;;
  mret last.

(** The arguments of [mv] and [cp].  C does not fix the order in which the two calls of
    [strtok] are made: [last_first] when the right one is. *)
Definition two_args (last : Z) : U (Z * Z * Z) :=
  '(a, last) ← strtok NULL SPACES last;
  '(b, last) ← strtok NULL SPACES last;
  mret (if last_first then (b, a, last) else (a, b, last)).

(** One command: whether the loop goes on, and what [strtok] keeps. *)
Definition command (tok last : Z) : U (bool * Z) :=
  b ← strncmp_u 4 tok (bytes_of "run");
  if (b : bool) then
    '(tok, last) ← strtok NULL SPACES last;
    f ← cfork;
    if f =? 0 then _ ← cexec junk tok; mret (false, last)
    else
      when_u (f =? -1) (_ ← write STDIO (ro_fault ro) 14; mret tt) ;;
      mret (true, last)
  else
  b ← strncmp_u 4 tok (bytes_of "kill");
  if (b : bool) then
    '(tok, last) ← strtok NULL SPACES last;
    str ← load tok 1;
    p ← check (str2int str 1 10);
    ckill p 0 ;;
    mret (true, last)
  else
  b ← strncmp_u 4 tok (bytes_of "wipe");
  if (b : bool) then disk_wipe ;; mret (true, last)
  else
  b ← strncmp_u 4 tok (bytes_of "quit");
  if (b : bool) then mret (false, last)
  else
  b ← strncmp_u 3 tok (bytes_of "pwd");
  if (b : bool) then pwd ;; mret (true, last)
  else
  b ← strncmp_u 2 tok (bytes_of "ls");
  if (b : bool) then ls ;; mret (true, last)
  else
  b ← strncmp_u 5 tok (bytes_of "mkdir");
  if (b : bool) then '(a, last) ← strtok NULL SPACES last; _ ← mkdir a; mret (true, last)
  else
  b ← strncmp_u 2 tok (bytes_of "cd");
  if (b : bool) then '(a, last) ← strtok NULL SPACES last; _ ← cd a; mret (true, last)
  else
  b ← strncmp_u 2 tok (bytes_of "rm");
  if (b : bool) then '(a, last) ← strtok NULL SPACES last; _ ← funlink a; mret (true, last)
  else
  b ← strncmp_u 2 tok (bytes_of "mv");
  if (b : bool) then
    '(a, b, last) ← two_args last;
    _ ← mv a b;
    mret (true, last)
  else
  b ← strncmp_u 2 tok (bytes_of "cp");
  if (b : bool) then
    '(a, b, last) ← two_args last;
    _ ← cp a b;
    mret (true, last)
  else
  b ← strncmp_u 3 tok (bytes_of "cat");
  if (b : bool) then '(tok, last) ← strtok NULL SPACES last; cat tok ;; mret (true, last)
  else
  b ← strncmp_u 4 tok (bytes_of "setp");
  if (b : bool) then
    '(tok, last) ← strtok NULL SPACE last;
    last ← setp tok last;
    mret (true, last)
  else mret (true, last).

Definition init : U unit :=
  ITree.iter (fun last =>
    _ ← write STDIO (ro_prompt ro) 2;
    _ ← read STDIO x 64;
    '(tok, last) ← strtok x SPACE last;
    '(on, last) ← command tok last;
    if (on : bool) then craise 3 ;; yield ;; mret (inl last) else mret (inr tt)) NULL ;;
  cexit.
End Shell.

(** ** The other programs *)

Section Programs.
Variable ro : rodata.

Definition het : U unit :=
  FILE ← fopen (ro_het_name ro) 0;
  for_u 32 0 (fun _ => _ ← write FILE (ro_het_text ro) 1812; mret tt) ;;
  _ ← fclose FILE;
  cexit.

(** [k++] on an [int]. *)
Definition next_int (k : Z) : U Z := check (if in_int (k + 1) then Done (k + 1) else Undef).

(** The characters are sent one by one; [c] is the address of the local they arrive in.
    The delay loop has no effect. *)
Definition send_all (m send : Z) : U unit := for_u 25 0 (fun i => msgsend m (send + i) 1).
Definition print_all (m c : Z) : U unit :=
  for_u 25 0 (fun _ => msgreceive m c 1 ;; _ ← write STDIO c 1; mret tt).

Definition ping_round (c k : Z) : U unit :=
  m ← mqinit k;
  send_all m (ro_ping ro) ;;
  print_all m c ;;
  _ ← mqunlink m;
  mret tt.

Definition pong_round (c k : Z) : U unit :=
  m ← mqinit k;
  print_all m c ;;
  send_all m (ro_pong ro).

(** [while (1)], with [k] from 100 on. *)
Definition rounds (round : Z -> U unit) : U unit :=
  ITree.iter (fun k => round k ;; k ← next_int k; mret (inl k)) 100.

Definition ping (c : Z) : U unit := rounds (ping_round c) ;; cexit.
Definition pong (c : Z) : U unit := rounds (pong_round c) ;; cexit.

Definition blanks : U unit :=
  FILE ← fopen (ro_grid ro) 0;
  when_u (negb (FILE =? -1)) (for_u 32 0 (fun _ => _ ← write FILE (ro_blanks ro) 33; mret tt)) ;;
  _ ← fclose FILE;
  cexit.

Definition hash_step (FILE skip : Z) : U unit :=
  _ ← write FILE (ro_hashs ro) 4;
  _ ← fseek FILE skip 1;
  mret tt.

Definition hashs : U unit :=
  FILE ← fopen (ro_grid ro) 0;
  when_u (negb (FILE =? -1))
    (for_u 8 0 (fun i =>
       for_u 4 0 (fun _ =>
         hash_step FILE 4 ;; hash_step FILE 4 ;; hash_step FILE 4 ;; hash_step FILE 5) ;;
       _ ← fseek FILE (if Z.rem i 2 =? 0 then 4 else -4) 1;
       mret tt)) ;;
  _ ← fclose FILE;
  cexit.
End Programs.
