(* ===== verification/UserRun.v ===== *)
(** * Running user programs

    What a program does between two context switches: its calls go to
    [kernel_handler_svc] with the registers the wrapper loads, and it goes on while it is
    the current process. *)

From ITree Require Import ITree Eq.Shallow.
From S2P Require Import Prelude CMonad Layout BlockDev Kernel Posix Svc Shape User.

Section Run.
Context {D : Type} `{BlockDevice D}.
Variables (im : image) (j : junk).
Local Abbreviation K := (M (kernel D)).

Fixpoint load_args (i : nat) (args : list Z) (c : ctx_t) : ctx_t :=
  match args with
  | [] => c
  | a :: args' => load_args (S i) args' (set_gpr i a c)
  end.

(** A successful [exec] (call 4) does not return to the program. *)
Definition handle {A} (e : userE A) (c : ctx_t) : K (A * ctx_t) :=
  match e in userE A return K (A * ctx_t) with
  | Svc id args =>
      me ← gets k_current;
      c' ← kernel_handler_svc im j (load_args 0 args c) id;
      now ← gets k_current;
      if bool_decide (now = me) && negb ((id =? 4) && (reg c' 0 =? 0)) then mret (reg c' 0, c')
      else lift Undef
  | Load a n => bs ← mem_read a n; mret (bs, c)
  | Store a bs => mem_write a bs ;; mret (tt, c)
  | Crash => lift Undef
  end.

(** [n] nodes of the tree. *)
Fixpoint urun {A} (n : nat) (t : U A) (c : ctx_t) : K (A * ctx_t) :=
  match n with
  | O => lift Hang
  | S n' =>
      match observe t with
      | RetF a => mret (a, c)
      | TauF t' => urun n' t' c
      | VisF e k => '(b, c') ← handle e c; urun n' (k b) c'
      end
  end.

(** The program comes to an end, and then [Q] holds. *)
Definition uwp {A} (t : U A) (Q : A -> ctx_t -> kernel D -> Prop) (c : ctx_t) (s : kernel D) : Prop :=
  exists n, wp (urun n t c) (fun ac t => Q ac.1 ac.2 t) s.

Lemma uwp_ret {A} (a : A) Q c s : Q a c s -> uwp (mret a) Q c s.
Proof. intros HQ. exists 1%nat. cbn [urun]. by apply wp_ret. Qed.

Lemma uwp_observe {A} (t t' : U A) Q c s : observe t = observe t' -> uwp t Q c s -> uwp t' Q c s.
Proof. intros E [n Hn]. exists n. destruct n; [done|]. cbn [urun] in *. by rewrite <-E. Qed.

Lemma uwp_tau {A} (t t' : U A) Q c s : observe t = TauF t' -> uwp t' Q c s -> uwp t Q c s.
Proof. intros E [n Hn]. exists (S n). cbn [urun]. by rewrite E. Qed.

Lemma uwp_vis {A B} (t : U A) (e : userE B) k Q c s :
  observe t = VisF e k -> wp (handle e c) (fun bc s' => uwp (k bc.1) Q bc.2 s') s -> uwp t Q c s.
Proof.
  intros E ([b c'] & s' & Hr & n & Hn)%wp_done. exists (S n). cbn [urun]. rewrite E. wp_step.
  apply wp_done. by exists (b, c'), s'.
Qed.

Lemma uwp_bind {A B} (t : U A) (k : A -> U B) Q c s :
  uwp t (fun a c s => uwp (k a) Q c s) c s -> uwp (t ≫= k) Q c s.
Proof.
  intros [n Hn]. revert t c s Hn. induction n as [|n IH]; intros t c s Hn; [done|]. cbn [urun] in Hn.
  pose proof (observe_bind t k : observe (t ≫= k) = _) as E.
  destruct (observe t) as [a|t'|X e ke] eqn:Et.
  - by apply (uwp_observe (k a)).
  - apply (uwp_tau _ _ _ _ _ E). by apply IH.
  - apply (uwp_vis _ _ _ _ _ _ E). apply wp_unbind in Hn. eapply wp_mono; [exact Hn|].
    intros [x c'] s' Hx. by apply IH.
Qed.

Lemma uwp_trigger {A} (e : userE A) Q c s :
  wp (handle e c) (fun bc s' => Q bc.1 bc.2 s') s -> uwp (ITree.trigger e) Q c s.
Proof.
  intros Hh. apply (uwp_vis _ e (fun x => Ret x)); [done|]. eapply wp_mono; [exact Hh|].
  intros [b c'] s' HQ. by apply (uwp_ret b).
Qed.

(** One round of a loop. *)
Lemma uwp_iter {A R} (f : A -> U (A + R)) a Q c s :
  uwp (f a) (fun x c s => match x with inl a' => uwp (ITree.iter f a') Q c s | inr r => Q r c s end) c s ->
  uwp (ITree.iter f a) Q c s.
Proof.
  intros Hf. apply (uwp_observe (f a ≫= fun x => ITree.on_left x l (Tau (ITree.iter f l)))).
  { symmetry. apply (observing_observe (unfold_aloop_ f a)). }
  apply uwp_bind. destruct Hf as [n Hn]. exists n. eapply wp_mono; [exact Hn|].
  intros [[a'|r] c'] s' Hx; cbn [fst snd] in *.
  - by apply (uwp_tau _ (ITree.iter f a')).
  - by apply uwp_ret.
Qed.

Lemma uwp_mono {A} (t : U A) (P Q : A -> ctx_t -> kernel D -> Prop) c s :
  uwp t P c s -> (forall a c s, P a c s -> Q a c s) -> uwp t Q c s.
Proof. intros [n Hn] HPQ. exists n. eapply wp_mono; [exact Hn|]. intros ac s'. apply HPQ. Qed.
End Run.

(** ** The registers of a call *)

Section Registers.
Implicit Types (c : ctx_t) (args : list Z).

Lemma reg_set i k v c : ok c -> (i < 13)%nat -> reg (set_gpr i v c) k = if decide (k = i) then u32 v else reg c k.
Proof.
  intros Hc Hi. unfold reg, set_gpr. cbn [gpr]. unfold ok, ok_ctx in Hc. rewrite !nth_lookup. case_decide as E.
  - subst. by rewrite list_lookup_insert_eq by lia.
  - by rewrite list_lookup_insert_ne by done.
Qed.

Lemma ok_load i args c : ok c -> ok (load_args i args c).
Proof. revert i c. induction args as [|a args IH]; intros i c Hc; [done|]. apply IH. by apply ok_set_gpr. Qed.

Lemma reg_load_lt i k args c :
  ok c -> (k < i)%nat -> (i + length args <= 13)%nat -> reg (load_args i args c) k = reg c k.
Proof.
  revert i c. induction args as [|a args IH]; intros i c Hc Hk Hl; [done|]. cbn [load_args length] in *.
  rewrite IH by (try apply ok_set_gpr; done || lia). rewrite reg_set by (done || lia). by rewrite decide_False by lia.
Qed.

Lemma reg_load i k args a c :
  ok c -> args !! k = Some a -> (i + length args <= 13)%nat -> reg (load_args i args c) (i + k) = u32 a.
Proof.
  revert i k c. induction args as [|b args IH]; intros i k c Hc Hk Hl; [done|]. cbn [load_args length] in *.
  destruct k as [|k].
  - injection Hk as ->. rewrite reg_load_lt by (try apply ok_set_gpr; done || lia).
    rewrite reg_set by (done || lia). by rewrite decide_True by lia.
  - replace (i + S k)%nat with (S i + k)%nat by lia. apply IH; [by apply ok_set_gpr|done|lia].
Qed.

(** Register [k] of a call holds its [k]th argument. *)
Lemma reg_args k args a c :
  ok c -> args !! k = Some a -> (length args <= 13)%nat -> reg (load_args 0 (u32 <$> args) c) k = u32 a.
Proof.
  intros Hc Hk Hl. rewrite (reg_load 0 k _ (u32 a)); [by rewrite u32_idem|done| |by rewrite length_fmap].
  by rewrite list_lookup_fmap, Hk.
Qed.

Lemma reg_ret v c : ok c -> reg (ret v c) 0 = u32 v.
Proof. intros Hc. unfold ret. rewrite reg_set by (done || lia). done. Qed.

Lemma s32_u32 z : s32 (u32 z) = s32 z.
Proof. unfold s32, u32. rewrite Zplus_mod_idemp_l. done. Qed.
End Registers.

(** ** Calls *)

Section Calls.
Context {D : Type} `{BlockDevice D}.
Variables (im : image) (j : junk).
Implicit Types (s t : kernel D) (c : ctx_t).

(** A call goes to the handler with the arguments in the registers. *)
Lemma uwp_icall id args (Q : Z -> ctx_t -> kernel D -> Prop) c s :
  id <> 4 ->
  wp (kernel_handler_svc im j (load_args 0 (u32 <$> args) c) id)
     (fun c' t => k_current t = k_current s /\ Q (s32 (reg c' 0)) c' t) s ->
  uwp im j (icall id args) Q c s.
Proof.
  intros Hid Hh. unfold icall, call. apply uwp_bind, uwp_trigger. cbn [handle]. wp_steps.
  eapply wp_mono; [exact Hh|]. intros c' t [Hcur HQ]. wp_steps.
  rewrite Hcur, bool_decide_eq_true_2, (proj2 (Z.eqb_neq _ _) Hid) by done. cbn [andb negb].
  wp_steps. by apply uwp_ret.
Qed.

(** Most handlers run an operation and return its result. *)
Lemma uwp_op id args (m : M (kernel D) Z) (Q : Z -> ctx_t -> kernel D -> Prop) c s :
  id <> 4 -> ok c ->
  kernel_handler_svc im j (load_args 0 (u32 <$> args) c) id s =
    (r ← m; mret (ret r (load_args 0 (u32 <$> args) c))) s ->
  wp m (fun r t => k_current t = k_current s /\ forall c', ok c' -> Q (s32 r) c' t) s ->
  uwp im j (icall id args) Q c s.
Proof.
  intros Hid Hc E Hm. apply uwp_icall; [done|]. apply wp_done. rewrite E. apply (wp_done (_ ≫= _)). wp_step. eapply wp_mono; [exact Hm|].
  intros r t [Hcur HQ]. wp_steps. split; [done|]. assert (ok (load_args 0 (u32 <$> args) c)) by by apply ok_load.
  rewrite reg_ret, s32_u32 by done. apply HQ. by apply ok_set_gpr.
Qed.

Lemma uwp_fopen a flag (Q : Z -> ctx_t -> kernel D -> Prop) c s :
  ok c ->
  wp (with_string (u32 a) (fun p => open p (s32 flag)))
     (fun r t => k_current t = k_current s /\ forall c', ok c' -> Q (s32 r) c' t) s ->
  uwp im j (fopen a flag) Q c s.
Proof.
  intros Hc Hm. eapply uwp_op; [done|done| |exact Hm]. cbn [kernel_handler_svc].
  by rewrite (reg_args 0 _ a), (reg_args 1 _ flag), s32_u32 by (done || cbn; lia).
Qed.

Lemma uwp_fclose n (Q : Z -> ctx_t -> kernel D -> Prop) c s :
  ok c -> wp (close (s32 n)) (fun r t => k_current t = k_current s /\ forall c', ok c' -> Q (s32 r) c' t) s ->
  uwp im j (fclose n) Q c s.
Proof.
  intros Hc Hm. eapply uwp_op; [done|done| |exact Hm]. cbn [kernel_handler_svc].
  by rewrite (reg_args 0 _ n), s32_u32 by (done || cbn; lia).
Qed.

Lemma uwp_fseek n offset whence (Q : Z -> ctx_t -> kernel D -> Prop) c s :
  ok c ->
  wp (lseek (s32 n) (u32 offset) (s32 whence))
     (fun r t => k_current t = k_current s /\ forall c', ok c' -> Q (s32 r) c' t) s ->
  uwp im j (fseek n offset whence) Q c s.
Proof.
  intros Hc Hm. eapply uwp_op; [done|done| |exact Hm]. cbn [kernel_handler_svc].
  by rewrite (reg_args 0 _ n), (reg_args 1 _ offset), (reg_args 2 _ whence), !s32_u32 by (done || cbn; lia).
Qed.

Lemma uwp_ftell n (Q : Z -> ctx_t -> kernel D -> Prop) c s :
  ok c -> wp (tell (s32 n)) (fun r t => k_current t = k_current s /\ forall c', ok c' -> Q (s32 r) c' t) s ->
  uwp im j (ftell n) Q c s.
Proof.
  intros Hc Hm. eapply uwp_op; [done|done| |exact Hm]. cbn [kernel_handler_svc].
  by rewrite (reg_args 0 _ n), s32_u32 by (done || cbn; lia).
Qed.
End Calls.
