(* ===== verification/UserProof.v ===== *)
(** * A command of the shell, from the keyboard line to the console

    [cat] run as the process runs it: its calls through the handler, the path and the
    buffer in its memory, and the console output. *)

From ITree Require Import ITree.
From S2P Require Import Prelude CMonad Layout BlockDev Kernel FsOps FreeList InodeProof BlockMap FileRep FileGrow Dir Posix FileIO PathProof OpenProof Session Exec Svc Shape System User UserRun.

(** ** User memory *)

Section Memory.
Context {D : Type}.
Implicit Types (s : kernel D).

End Memory.

(** ** Reading a file and writing to the console *)

Section Calls.
Context {D : Type} `{BlockDevice D}.
Variables (im : image) (j : junk).
Implicit Types (s t : kernel D) (c : ctx_t).


End Calls.

(** ** The bytes of a file *)

Section Bytes.
Context {D : Type} `{BlockDeviceLaws D}.
Implicit Types (s : kernel D) (d : D) (ic : icommon_t).


End Bytes.

(** ** [cat] *)

Section Cat.
Context {D : Type} `{BlockDeviceLaws D}.
Variables (im : image) (j : junk) (buf : Z).
Variables (s : kernel D) (L : list Z) (me : Z) (x : pcb_t) (n g p : nat) (i : inode_t) (r : Z) (ic : icommon_t).
Hypothesis Hog : opening s L me x n g p i r ic.
Local Abbreviation at_pos v m out := (session me x n g p i v m out s).


End Cat.

(** ** The property *)

Section Claims.
Context {D : Type} `{BlockDeviceLaws D}.
Implicit Types (s t : kernel D) (c : ctx_t).





End Claims.

(** ** Witness: the demo file, its path at address 4096 *)






