(* ===== verification/Uart.v ===== *)
(** * The disk behind the serial port

    The UART functions of device/PL011.c, the disk driver of device/disk.c and the
    server of device/disk.py at the other end of the wire.  A character written to
    the UART goes to the server; when it ends a line the server answers before the
    driver looks again, which only busy waits in between.  A wait for a character
    nobody will send does not end. *)

From S2P Require Import Prelude CMonad Layout.

(** ** Hexadecimal digits *)

(** [char] is unsigned on ARM. *)
Definition xtoi (x : Z) : Z :=
  if (48 <=? x) && (x <=? 57) then 0 + (x - 48)
  else if (97 <=? x) && (x <=? 102) then 10 + (x - 97)
  else if (65 <=? x) && (x <=? 70) then 10 + (x - 65)
  else -1.

Definition itox (x : Z) : Z :=
  if (0 <=? x) && (x <=? 9) then u8 (48 + (x - 0))
  else if (10 <=? x) && (x <=? 15) then u8 (65 + (x - 10))
  else u8 (-1).

(** ** The server: disk.sh runs it with these numbers *)

Definition block_num : Z := 2048.
Definition block_len : Z := 512.

Definition NL : Z := 10.
Definition SP : Z := 32.

(** [str.strip()] and [str.split( ' ' )]. *)
Definition is_space (c : Z) : bool := ((9 <=? c) && (c <=? 13)) || (c =? 32).

Fixpoint lstrip (s : list Z) : list Z :=
  match s with c :: s' => if is_space c then lstrip s' else s | [] => [] end.
Definition strip (s : list Z) : list Z := rev (lstrip (rev (lstrip s))).

Fixpoint split_on (sep : Z) (s : list Z) : list (list Z) :=
  match s with
  | [] => [[]]
  | c :: s' =>
      if c =? sep then [] :: split_on sep s'
      else match split_on sep s' with
           | w :: ws => (c :: w) :: ws
           | [] => [[c]]
           end
  end.

(** [binascii.unhexlify] raises an exception on a character that is no digit and on an
    odd number of them. *)
Fixpoint unhexlify (s : list Z) : option (list Z) :=
  match s with
  | [] => Some []
  | a :: b :: s' =>
      if (xtoi a =? -1) || (xtoi b =? -1) then None
      else r ← unhexlify s'; Some (16 * xtoi a + xtoi b :: r)
  | _ => None
  end.

Definition hexdigit (x : Z) : Z := if x <? 10 then 48 + x else 87 + x.
Definition hexlify (bs : list Z) : list Z :=
  mjoin ((fun b => [hexdigit (b / 16); hexdigit (b mod 16)]) <$> bs).

(** [struct.unpack( '<l', _ )\[ 0 \]] and [struct.pack]. *)
Definition unpack_l (bs : list Z) : option Z :=
  if (length bs =? 4)%nat then Some (s32 (le_val bs)) else None.
Definition pack_l (z : Z) : list Z := le_bytes 4 z.

Definition ACK_OKAY : list Z := [48; 48].
Definition ACK_FAIL : list Z := [48; 49].

(** A file: seeking to a negative position raises an exception, writing past the end
    fills the gap with zeroes. *)
Definition file_write (pos : Z) (data file : list Z) : list Z :=
  let file := file ++ replicate (Z.to_nat pos - length file) 0 in
  splice (Z.to_nat pos) data file.
Definition file_read (pos n : Z) (file : list Z) : list Z :=
  take (Z.to_nat n) (drop (Z.to_nat pos) file).

(** A handler: the acknowledgement, with its data if it has any, and the file; [None] is
    an exception nobody catches. *)
Definition conf (file : list Z) : option (list Z * option (list Z) * list Z) :=
  Some (ACK_OKAY, Some (pack_l block_num ++ pack_l block_len), file).

Definition wr (req : list (list Z)) (file : list Z) :
    option (list Z * option (list Z) * list Z) :=
  x ← req !! 1%nat; b ← unhexlify x; address ← unpack_l b;
  y ← req !! 2%nat; data ← unhexlify y;
  if address >=? block_num then Some (ACK_FAIL, None, file)
  else if address <? 0 then None
  else Some (ACK_OKAY, None, file_write (address * block_len) data file).

Definition rd (req : list (list Z)) (file : list Z) :
    option (list Z * option (list Z) * list Z) :=
  x ← req !! 1%nat; b ← unhexlify x; address ← unpack_l b;
  if address >=? block_num then Some (ACK_FAIL, None, file)
  else if address <? 0 then None
  else Some (ACK_OKAY, Some (file_read (address * block_len) block_len file), file).

(** One round of the server's loop: the line answered, and the file. *)
Definition serve (line : list Z) (file : list Z) : option (list Z * list Z) :=
  let req := split_on SP (strip line) in
  let cmd := default [] (req !! 0%nat) in
  '(ack, data, file) ←
    (if bool_decide (cmd = [48; 48]) then conf file
     else if bool_decide (cmd = [48; 49]) then wr req file
     else if bool_decide (cmd = [48; 50]) then rd req file
     else Some (ACK_FAIL, None, file));
  Some (match data with
        | Some d => ack ++ [SP] ++ hexlify d ++ [NL]
        | None => ack ++ [NL]
        end, file).

(** ** The wire *)

(** What waits to be received, the part of a line already sent, and the server's file
    while it runs. *)
Record uart := mk_uart {
  u_rx : list Z;
  u_tx : list Z;
  u_srv : option (list Z);
}.

Local Abbreviation U := (M uart).

Definition PL011_putc (x : Z) : U unit :=
  modify (fun u =>
    if x =? NL then
      match u_srv u ≫= serve (u_tx u ++ [NL]) with
      | Some (ack, file) => mk_uart (u_rx u ++ ack) [] (Some file)
      | None => mk_uart (u_rx u) [] None
      end
    else mk_uart (u_rx u) (u_tx u ++ [x]) (u_srv u)).

Definition PL011_getc : U Z :=
  r ← gets u_rx;
  match r with
  | [] => lift Hang
  | c :: rest => modify (fun u => mk_uart rest (u_tx u) (u_srv u)) ;; mret c
  end.

Definition PL011_puth (x : Z) : U unit :=
  PL011_putc (itox (Z.land (Z.shiftr x 4) 15)) ;;
  PL011_putc (itox (Z.land (Z.shiftr x 0) 15)).

(** Shifting the -1 of a character that is no digit is undefined. *)
Definition PL011_geth : U Z :=
  a ← PL011_getc;
  x ← lift (if xtoi a <? 0 then Undef else Done (u8 (Z.shiftl (xtoi a) 4)));
  b ← PL011_getc;
  y ← lift (if xtoi b <? 0 then Undef else Done (Z.shiftl (xtoi b) 0));
  mret (u8 (Z.lor x y)).

(** ** The driver *)

Definition addr_puth (x : Z) : U unit :=
  PL011_puth (Z.land (Z.shiftr x 0) 255) ;;
  PL011_puth (Z.land (Z.shiftr x 8) 255) ;;
  PL011_puth (Z.land (Z.shiftr x 16) 255) ;;
  PL011_puth (Z.land (Z.shiftr x 24) 255).

Definition data_puth (x : list Z) (n : Z) : U unit :=
  for_do (Z.to_nat n) 0 (fun i => v ← lift (aget x i); PL011_puth v).

(** The [n] bytes stored at the caller's array. *)
Definition data_geth (n : Z) : U (list Z) :=
  for_fold (Z.to_nat n) 0 (fun _ x => v ← PL011_geth; mret (x ++ [v])) [].

Definition RETRY : nat := 3.

(** [( x\[ i \] << 0 ) | ( x\[ i+1 \] << 8 ) | ...]. *)
Definition word_of (x : list Z) (i : Z) : outcome Z :=
  a ← aget x i; b ← aget x (i + 1); c ← aget x (i + 2); d ← aget x (i + 3);
  Done (Z.lor (Z.lor (Z.lor (Z.shiftl a 0) (Z.shiftl b 8)) (Z.shiftl c 16)) (Z.shiftl d 24)).

Definition disk_get_block_num : U Z :=
  r ← for_find RETRY 0 (fun _ =>
    PL011_puth 0x00 ;;
    PL011_putc NL ;;
    c ← PL011_geth;
    if c =? 0x00 then
      _ ← PL011_getc;
      x ← data_geth 8;
      _ ← PL011_getc;
      v ← lift (word_of x 0); mret (Some v)
    else _ ← PL011_getc; mret None);
  mret (default (u32 (-1)) r).

Definition disk_get_block_len : U Z :=
  r ← for_find RETRY 0 (fun _ =>
    PL011_puth 0x00 ;;
    PL011_putc NL ;;
    c ← PL011_geth;
    if c =? 0x00 then
      _ ← PL011_getc;
      x ← data_geth 8;
      _ ← PL011_getc;
      v ← lift (word_of x 4); mret (Some v)
    else _ ← PL011_getc; mret None);
  mret (default (u32 (-1)) r).

Definition disk_wr (a : Z) (x : list Z) (n : Z) : U unit :=
  _ ← for_find RETRY 0 (fun _ =>
    PL011_puth 0x01 ;;
    PL011_putc SP ;;
    addr_puth a ;;
    PL011_putc SP ;;
    data_puth x n ;;
    PL011_putc NL ;;
    c ← PL011_geth;
    if c =? 0x00 then _ ← PL011_getc; mret (Some tt)
    else _ ← PL011_getc; mret None);
  mret tt.

(** What [disk_rd] stores in [x]; [None] when it leaves [x] as it is. *)
Definition disk_rd (a : Z) (n : Z) : U (option (list Z)) :=
  for_find RETRY 0 (fun _ =>
    PL011_puth 0x02 ;;
    PL011_putc SP ;;
    addr_puth a ;;
    PL011_putc NL ;;
    c ← PL011_geth;
    if c =? 0x00 then
      _ ← PL011_getc;
      x ← data_geth n;
      _ ← PL011_getc;
      mret (Some x)
    else _ ← PL011_getc; mret None).
