(* ===== verification/UartProof.v ===== *)
(** * The serial disk is a block device

    The driver of device/disk.c and the server of device/disk.py, joined by the wire,
    satisfy the laws the file system is verified against (BlockDev.v). *)

From S2P Require Import Prelude CMonad Layout BlockDev Uart.

(** ** Bytes as characters *)

Definition hex_up (x : Z) : list Z := [itox (x / 16); itox (x mod 16)].
Definition hexs (bs : list Z) : list Z := mjoin (hex_up <$> bs).

(** A property of bytes holds when it holds of the 256 values. *)
Lemma byte_all (P : Z -> bool) x : forallb P (seqZ 0 256) = true -> is_byte x -> P x = true.
Proof.
  intros Hall Hx. rewrite forallb_forall in Hall. apply Hall, list_elem_of_In, elem_of_seqZ.
  unfold is_byte in Hx. lia.
Qed.

Lemma hex_up_plain x : is_byte x -> Forall (fun c => is_space c = false) (hex_up x).
Proof.
  intros Hx. unfold hex_up.
  assert (H : negb (is_space (itox (x / 16))) && negb (is_space (itox (x mod 16))) = true).
  { revert x Hx. intros x. by apply (byte_all (fun x => negb (is_space (itox (x / 16))) &&
      negb (is_space (itox (x mod 16))))). }
  apply andb_true_iff in H as [H1 H2]. apply negb_true_iff in H1, H2.
  by repeat constructor.
Qed.

Lemma hexs_plain bs : Forall is_byte bs -> Forall (fun c => is_space c = false) (hexs bs).
Proof.
  intros Hb. apply Forall_join, Forall_fmap. revert Hb. apply Forall_impl. intros x. apply hex_up_plain.
Qed.

Lemma hexs_cons b bs : hexs (b :: bs) = hex_up b ++ hexs bs.
Proof. done. Qed.

Lemma hexs_app bs bs' : hexs (bs ++ bs') = hexs bs ++ hexs bs'.
Proof. unfold hexs. by rewrite fmap_app, join_app. Qed.

Lemma unhex_up x : is_byte x ->
  (xtoi (itox (x / 16)) =? -1) || (xtoi (itox (x mod 16)) =? -1) = false /\
  16 * xtoi (itox (x / 16)) + xtoi (itox (x mod 16)) = x.
Proof.
  intros Hx. pose proof (byte_all (fun x =>
    negb ((xtoi (itox (x / 16)) =? -1) || (xtoi (itox (x mod 16)) =? -1)) &&
    (16 * xtoi (itox (x / 16)) + xtoi (itox (x mod 16)) =? x)) x ltac:(by vm_compute) Hx) as H.
  apply andb_true_iff in H as [H1 H2]. apply negb_true_iff in H1. split; [done|lia].
Qed.

(** What the driver sends, the server reads. *)
Lemma unhexlify_hexs bs : Forall is_byte bs -> unhexlify (hexs bs) = Some bs.
Proof.
  induction 1 as [|b bs Hb _ IH]; [done|]. rewrite hexs_cons. unfold hex_up.
  cbn [app unhexlify]. destruct (unhex_up b Hb) as [E1 E2]. rewrite E1, E2, IH. done.
Qed.

(** ** Lines *)

Lemma lstrip_plain s : Forall (fun c => is_space c = false) s -> lstrip s = s.
Proof. intros Hs. destruct Hs as [|c s Hc _]; [done|]. cbn. by rewrite Hc. Qed.

Lemma lstrip_head c s : is_space c = false -> lstrip (c :: s) = c :: s.
Proof. intros Hc. cbn. by rewrite Hc. Qed.

Lemma strip_line c s w :
  is_space c = false -> w <> [] -> Forall (fun c => is_space c = false) w ->
  strip ((c :: s ++ w) ++ [NL]) = c :: s ++ w.
Proof.
  intros Hc Hw Hp. unfold strip. rewrite <-app_comm_cons, lstrip_head by done.
  rewrite app_comm_cons, rev_app_distr. change (rev [NL] ++ rev (c :: s ++ w)) with (NL :: rev (c :: s ++ w)).
  change (lstrip (NL :: rev (c :: s ++ w))) with (lstrip (rev (c :: s ++ w))).
  assert (E : lstrip (rev (c :: s ++ w)) = rev (c :: s ++ w)).
  { rewrite app_comm_cons, rev_app_distr.
    destruct (rev w) as [|d r] eqn:Er.
    - apply (f_equal (@rev Z)) in Er. rewrite rev_involutive in Er. by subst.
    - cbn [app]. apply lstrip_head. 
      assert (Hd : d ∈ w). { apply list_elem_of_In, in_rev. rewrite Er. by left. }
      apply (proj1 (list.Forall_forall _ _) Hp d Hd). }
  rewrite E. apply rev_involutive.
Qed.

Lemma split_on_word w s : SP ∉ w -> split_on SP (w ++ SP :: s) = w :: split_on SP s.
Proof.
  induction w as [|c w IH]; intros Hw; cbn [app split_on].
  - by rewrite Z.eqb_refl.
  - apply not_elem_of_cons in Hw as [Hc Hw]. destruct (Z.eqb_spec c SP); [by subst|].
    by rewrite IH.
Qed.

Lemma split_on_last w : SP ∉ w -> split_on SP w = [w].
Proof.
  induction w as [|c w IH]; intros Hw; cbn [split_on]; [done|].
  apply not_elem_of_cons in Hw as [Hc Hw]. destruct (Z.eqb_spec c SP); [by subst|].
  by rewrite IH.
Qed.

Lemma plain_no_space w : Forall (fun c => is_space c = false) w -> SP ∉ w.
Proof. intros Hw Hin. by apply (proj1 (list.Forall_forall _ _) Hw) in Hin. Qed.

(** ** The server's answers *)

Lemma unpack_addr a : is_u32 a -> unpack_l (le_bytes 4 a) = Some (s32 a).
Proof. intros Ha. unfold unpack_l. rewrite length_le_bytes. cbn. by rewrite le_val_le_bytes4. Qed.

Lemma serve_rd a file : is_u32 a ->
  serve ([48; 50] ++ [SP] ++ hexs (le_bytes 4 a) ++ [NL]) file =
  if s32 a >=? block_num then Some (ACK_FAIL ++ [NL], file)
  else if s32 a <? 0 then None
  else Some (ACK_OKAY ++ [SP] ++ hexlify (file_read (s32 a * block_len) block_len file) ++ [NL], file).
Proof.
  intros Ha. unfold serve. set (h := hexs (le_bytes 4 a)).
  assert (Hp : Forall (fun c => is_space c = false) h) by apply hexs_plain, le_bytes_bytes.
  change ([48; 50] ++ [SP] ++ h ++ [NL]) with ((48 :: [50; SP] ++ h) ++ [NL]).
  rewrite strip_line; [|done|by unfold h|done].
  change (48 :: [50; SP] ++ h) with ([48; 50] ++ SP :: h).
  rewrite split_on_word by (by apply (bool_decide_unpack _)).
  rewrite split_on_last by by apply plain_no_space.
  cbn [lookup list_lookup default]. unfold rd. cbn -[unhexlify s32 hexlify file_read Z.geb].
  unfold h. rewrite unhexlify_hexs by apply le_bytes_bytes.
  cbn -[unhexlify s32 hexlify file_read Z.geb]. rewrite unpack_addr by done.
  cbn -[unhexlify s32 hexlify file_read Z.geb].
  destruct (s32 a >=? block_num); [done|]. by destruct (s32 a <? 0).
Qed.

Lemma serve_wr a xs file : is_u32 a -> xs <> [] -> Forall is_byte xs ->
  serve ([48; 49] ++ [SP] ++ hexs (le_bytes 4 a) ++ [SP] ++ hexs xs ++ [NL]) file =
  if s32 a >=? block_num then Some (ACK_FAIL ++ [NL], file)
  else if s32 a <? 0 then None
  else Some (ACK_OKAY ++ [NL], file_write (s32 a * block_len) xs file).
Proof.
  intros Ha Hx Hb. unfold serve. set (h := hexs (le_bytes 4 a)). set (g := hexs xs).
  assert (Hp : Forall (fun c => is_space c = false) h) by apply hexs_plain, le_bytes_bytes.
  assert (Hg : Forall (fun c => is_space c = false) g) by by apply hexs_plain.
  replace ([48; 49] ++ [SP] ++ h ++ [SP] ++ g ++ [NL]) with ((48 :: ([49; SP] ++ h ++ [SP]) ++ g) ++ [NL])
    by (cbn; by rewrite <-!app_assoc).
  rewrite strip_line; [|done| |done].
  2:{ unfold g. destruct xs; [done|by rewrite hexs_cons]. }
  replace (48 :: ([49; SP] ++ h ++ [SP]) ++ g) with ([48; 49] ++ SP :: h ++ SP :: g)
    by (cbn; by rewrite <-!app_assoc).
  rewrite split_on_word by (by apply (bool_decide_unpack _)).
  rewrite split_on_word, split_on_last by by apply plain_no_space.
  cbn [lookup list_lookup default]. unfold wr. cbn -[unhexlify s32 hexlify file_write Z.geb].
  unfold h, g. rewrite !unhexlify_hexs by (done || apply le_bytes_bytes).
  cbn -[unhexlify s32 hexlify file_write Z.geb]. rewrite unpack_addr by done.
  cbn -[unhexlify s32 hexlify file_write Z.geb].
  destruct (s32 a >=? block_num); [done|]. by destruct (s32 a <? 0).
Qed.

(** ** Sending and receiving *)

Section Wire.
Implicit Types (u : uart) (rx tx : list Z) (srv : option (list Z)).

Lemma wp_putc c rx tx srv (Q : unit -> uart -> Prop) :
  c <> NL -> Q tt (mk_uart rx (tx ++ [c]) srv) -> wp (PL011_putc c) Q (mk_uart rx tx srv).
Proof. intros Hc HQ. unfold PL011_putc. wp_steps. by destruct (Z.eqb_spec c NL). Qed.

(** The end of a line: the answer arrives. *)
Lemma wp_putc_nl tx file ack file' (Q : unit -> uart -> Prop) :
  serve (tx ++ [NL]) file = Some (ack, file') -> Q tt (mk_uart ack [] (Some file')) ->
  wp (PL011_putc NL) Q (mk_uart [] tx (Some file)).
Proof. intros Hs HQ. unfold PL011_putc. wp_steps. cbn. by rewrite Hs. Qed.

Lemma puth_digits x : is_byte x ->
  itox (Z.land (Z.shiftr x 4) 15) = itox (x / 16) /\
  itox (Z.land (Z.shiftr x 0) 15) = itox (x mod 16) /\
  itox (x / 16) <> NL /\ itox (x mod 16) <> NL.
Proof.
  intros Hx. pose proof (byte_all (fun x =>
    (itox (Z.land (Z.shiftr x 4) 15) =? itox (x / 16)) &&
    (itox (Z.land (Z.shiftr x 0) 15) =? itox (x mod 16)) &&
    negb (itox (x / 16) =? NL) && negb (itox (x mod 16) =? NL)) x ltac:(by vm_compute) Hx) as H.
  rewrite !andb_true_iff, !negb_true_iff in H. destruct H as [[[H1 H2] H3] H4].
  split_and!; lia.
Qed.

Lemma wp_puth x rx tx srv (Q : unit -> uart -> Prop) :
  is_byte x -> Q tt (mk_uart rx (tx ++ hex_up x) srv) -> wp (PL011_puth x) Q (mk_uart rx tx srv).
Proof.
  intros Hx HQ. destruct (puth_digits x Hx) as (E1 & E2 & N1 & N2). unfold PL011_puth.
  rewrite E1, E2. wp_step. apply wp_putc; [done|]. apply wp_putc; [done|].
  by rewrite <-app_assoc.
Qed.

Lemma land255 z : Z.land z 255 = z mod 256.
Proof. change 255 with (Z.ones 8). by rewrite Z.land_ones. Qed.

Lemma wp_addr_puth a rx tx srv (Q : unit -> uart -> Prop) :
  Q tt (mk_uart rx (tx ++ hexs (le_bytes 4 a)) srv) -> wp (addr_puth a) Q (mk_uart rx tx srv).
Proof.
  intros HQ. unfold addr_puth. rewrite !land255, !Z.shiftr_div_pow2 by lia.
  assert (Hm : forall z, is_byte (z mod 256)) by (intros z; apply Z.mod_pos_bound; lia).
  wp_step. apply wp_puth; [done|]. wp_step. apply wp_puth; [done|]. wp_step.
  apply wp_puth; [done|]. apply wp_puth; [done|]. rewrite <-!app_assoc.
  unfold le_bytes in HQ. rewrite !hexs_cons, !Z.div_div, app_nil_r in HQ by lia.
  change (2 ^ 0) with 1. by rewrite Z.div_1_r.
Qed.

Lemma wp_data_puth xs rx tx srv (Q : unit -> uart -> Prop) :
  Forall is_byte xs -> Q tt (mk_uart rx (tx ++ hexs xs) srv) ->
  wp (data_puth xs (Z.of_nat (length xs))) Q (mk_uart rx tx srv).
Proof.
  intros Hx HQ. unfold data_puth. rewrite Nat2Z.id.
  apply (wp_for_do (fun i u => u = mk_uart rx (tx ++ hexs (take (Z.to_nat i) xs)) srv)).
  - by rewrite app_nil_r.
  - intros i u Hi ->. destruct (lookup_lt_ex xs (Z.to_nat i)) as [v Hv]; [lia|].
    wp_steps. apply (wp_lift _ v); [by apply aget_done; [lia|]|].
    apply wp_puth; [apply (Forall_lookup_1 _ _ _ _ Hx Hv)|].
    replace (Z.to_nat (i + 1)) with (S (Z.to_nat i)) by lia.
    rewrite (take_S_snoc _ _ _ Hv), hexs_app, <-app_assoc. done.
  - intros u ->. by rewrite take_ge by lia.
Qed.

Lemma wp_getc c rx tx srv (Q : Z -> uart -> Prop) :
  Q c (mk_uart rx tx srv) -> wp PL011_getc Q (mk_uart (c :: rx) tx srv).
Proof. intros HQ. unfold PL011_getc. by wp_steps. Qed.

Lemma geth_digits b : is_byte b ->
  (xtoi (hexdigit (b / 16)) <? 0) = false /\ (xtoi (hexdigit (b mod 16)) <? 0) = false /\
  u8 (Z.lor (u8 (Z.shiftl (xtoi (hexdigit (b / 16))) 4)) (Z.shiftl (xtoi (hexdigit (b mod 16))) 0)) = b.
Proof.
  intros Hb. pose proof (byte_all (fun b =>
    negb (xtoi (hexdigit (b / 16)) <? 0) && negb (xtoi (hexdigit (b mod 16)) <? 0) &&
    (u8 (Z.lor (u8 (Z.shiftl (xtoi (hexdigit (b / 16))) 4)) (Z.shiftl (xtoi (hexdigit (b mod 16))) 0)) =? b))
    b ltac:(by vm_compute) Hb) as H.
  rewrite !andb_true_iff, !negb_true_iff in H. destruct H as [[H1 H2] H3]. split_and!; [done|done|lia].
Qed.

Lemma wp_geth b rx tx srv (Q : Z -> uart -> Prop) :
  is_byte b -> Q b (mk_uart rx tx srv) ->
  wp PL011_geth Q (mk_uart (hexdigit (b / 16) :: hexdigit (b mod 16) :: rx) tx srv).
Proof.
  intros Hb HQ. destruct (geth_digits b Hb) as (E1 & E2 & E3). unfold PL011_geth.
  wp_step. apply wp_getc. wp_step. eapply wp_lift; [by rewrite E1|].
  wp_step. apply wp_getc. wp_step. eapply wp_lift; [by rewrite E2|]. wp_steps. by rewrite E3.
Qed.

Lemma wp_geth_ok rx tx srv (Q : Z -> uart -> Prop) :
  Q 0 (mk_uart rx tx srv) -> wp PL011_geth Q (mk_uart (ACK_OKAY ++ rx) tx srv).
Proof. intros HQ. by apply (wp_geth 0). Qed.

Lemma wp_geth_fail rx tx srv (Q : Z -> uart -> Prop) :
  Q 1 (mk_uart rx tx srv) -> wp PL011_geth Q (mk_uart (ACK_FAIL ++ rx) tx srv).
Proof. intros HQ. by apply (wp_geth 1). Qed.

Lemma hexlify_cons b bs : hexlify (b :: bs) = hexdigit (b / 16) :: hexdigit (b mod 16) :: hexlify bs.
Proof. done. Qed.

(** What the server sends, the driver reads. *)
Lemma wp_data_geth bs rx tx srv (Q : list Z -> uart -> Prop) :
  Forall is_byte bs -> Q bs (mk_uart rx tx srv) ->
  wp (data_geth (Z.of_nat (length bs))) Q (mk_uart (hexlify bs ++ rx) tx srv).
Proof.
  intros Hb HQ. unfold data_geth. rewrite Nat2Z.id.
  apply (wp_for_fold (fun i x u => x = take (Z.to_nat i) bs /\
    u = mk_uart (hexlify (drop (Z.to_nat i) bs) ++ rx) tx srv)); [done| |].
  - intros i x u Hi [-> ->]. destruct (lookup_lt_ex bs (Z.to_nat i)) as [v Hv]; [lia|].
    rewrite (drop_S _ _ _ Hv), hexlify_cons. wp_step.
    apply wp_geth; [apply (Forall_lookup_1 _ _ _ _ Hb Hv)|]. wp_steps.
    replace (Z.to_nat (i + 1)) with (S (Z.to_nat i)) by lia.
    by rewrite (take_S_snoc _ _ _ Hv).
  - intros x u [-> ->]. rewrite take_ge, drop_ge by lia. done.
Qed.
End Wire.

(** ** The driver *)

(** A running server with a full disk image, and nothing on the wire. *)
Record idle (u : uart) (file : list Z) : Prop := {
  id_wire : u = mk_uart [] [] (Some file);
  id_len : Z.of_nat (length file) = block_num * block_len;
  id_bytes : Forall is_byte file;
}.

Section Driver.
Implicit Types (u : uart) (file xs : list Z) (a : Z).

Lemma file_read_length file a :
  Z.of_nat (length file) = block_num * block_len -> 0 <= a < block_num ->
  length (file_read (a * block_len) block_len file) = 512%nat.
Proof.
  unfold file_read, block_num, block_len. intros Hl Ha. rewrite length_take, length_drop. lia.
Qed.

(** Three refusals. *)
Lemma wp_retry {A} (body : Z -> M uart (option A)) u (Q : option A -> uart -> Prop) :
  (forall i, wp (body i) (fun r u' => r = None /\ u' = u) u) -> Q None u ->
  wp (for_find RETRY 0 body) Q u.
Proof.
  intros Hb HQ. apply (wp_for_find (fun _ u' => u' = u)); [done| |].
  - intros i t _ ->. eapply wp_mono; [apply Hb|]. by intros r t [-> ->].
  - by intros t ->.
Qed.

(** The first round answers. *)
Lemma wp_first {A} (body : Z -> M uart (option A)) u (Q : option A -> uart -> Prop) :
  wp (body 0) (fun r u' => exists x, r = Some x /\ Q (Some x) u') u ->
  wp (for_find RETRY 0 body) Q u.
Proof.
  intros Hb. unfold RETRY. cbn [for_find]. wp_step. eapply wp_mono; [exact Hb|].
  intros r u' (x & -> & HQ). by wp_steps.
Qed.

Lemma puth_cmd c rx srv (Q : unit -> uart -> Prop) :
  is_byte c -> Q tt (mk_uart rx (hex_up c) srv) -> wp (PL011_puth c) Q (mk_uart rx [] srv).
Proof. intros Hc HQ. by apply wp_puth. Qed.

(** The request for a read, up to the answer. *)
Lemma wp_request_rd a file {A} (k : M uart A) (Q : A -> uart -> Prop) ack file' :
  serve ([48; 50] ++ [SP] ++ hexs (le_bytes 4 a) ++ [NL]) file = Some (ack, file') ->
  wp k Q (mk_uart ack [] (Some file')) ->
  wp (PL011_puth 0x02 ;; PL011_putc SP ;; addr_puth a ;; PL011_putc NL ;; k) Q
    (mk_uart [] [] (Some file)).
Proof.
  intros Hs Hk. wp_step. apply puth_cmd; [done|]. wp_step. apply wp_putc; [done|]. wp_step.
  apply wp_addr_puth. wp_step. apply (wp_putc_nl _ _ ack file'); [|done].
  by rewrite <-Hs.
Qed.

Lemma wp_request_wr a xs file {A} (k : M uart A) (Q : A -> uart -> Prop) ack file' :
  Forall is_byte xs ->
  serve ([48; 49] ++ [SP] ++ hexs (le_bytes 4 a) ++ [SP] ++ hexs xs ++ [NL]) file = Some (ack, file') ->
  wp k Q (mk_uart ack [] (Some file')) ->
  wp (PL011_puth 0x01 ;; PL011_putc SP ;; addr_puth a ;; PL011_putc SP ;;
      data_puth xs (Z.of_nat (length xs)) ;; PL011_putc NL ;; k) Q (mk_uart [] [] (Some file)).
Proof.
  intros Hx Hs Hk. wp_step. apply puth_cmd; [done|]. wp_step. apply wp_putc; [done|]. wp_step.
  apply wp_addr_puth. wp_step. apply wp_putc; [done|]. wp_step. apply wp_data_puth; [done|].
  wp_step. apply (wp_putc_nl _ _ ack file'); [|done].
  rewrite <-Hs. f_equal.
Qed.

Lemma s32_pos a : 0 <= a < 2 ^ 31 -> s32 a = a.
Proof. intros. apply s32_small. lia. Qed.

Lemma s32_neg a : 2 ^ 31 <= a < 2 ^ 32 -> s32 a < 0.
Proof.
  intros Ha. unfold s32. replace (a + 2 ^ 31) with (a - 2 ^ 31 + 1 * 2 ^ 32) by lia.
  rewrite Z.mod_add, Z.mod_small; lia.
Qed.

Lemma wp_serial_rd a u file (Q : option (list Z) -> uart -> Prop) :
  idle u file -> 0 <= a < block_num ->
  Q (Some (file_read (a * block_len) block_len file)) u -> wp (disk_rd a 512) Q u.
Proof.
  intros [-> Hl Hb] Ha HQ. unfold disk_rd. apply wp_first. unfold block_num in Ha.
  set (data := file_read (a * block_len) block_len file) in *.
  assert (Hd : length data = 512%nat) by by apply file_read_length.
  apply (wp_request_rd a file _ _ (ACK_OKAY ++ [SP] ++ hexlify data ++ [NL]) file).
  { rewrite serve_rd, s32_pos by (unfold is_u32; lia). unfold block_num.
    destruct (Z.geb_spec a 2048); [lia|]. by destruct (Z.ltb_spec a 0); [lia|]. }
  wp_step. apply wp_geth_ok. cbn [Z.eqb]. wp_step. apply wp_getc. wp_step.
  replace 512 with (Z.of_nat (length data)) by lia. apply wp_data_geth.
  { apply Forall_take, Forall_drop, Hb. }
  wp_step. apply wp_getc. wp_steps. eauto.
Qed.

Lemma wp_serial_rd_refused a u file (Q : option (list Z) -> uart -> Prop) :
  idle u file -> block_num <= a < 2 ^ 31 -> Q None u -> wp (disk_rd a 512) Q u.
Proof.
  intros [-> Hl Hb] Ha HQ. unfold disk_rd. apply wp_retry; [|done]. intros _. unfold block_num in Ha.
  apply (wp_request_rd a file _ _ (ACK_FAIL ++ [NL]) file).
  { rewrite serve_rd, s32_pos by (unfold is_u32; lia). unfold block_num.
    by destruct (Z.geb_spec a 2048); [|lia]. }
  wp_step. apply wp_geth_fail. cbn [Z.eqb]. wp_step. apply wp_getc. by wp_steps.
Qed.

Lemma wp_serial_wr a xs u file (Q : unit -> uart -> Prop) :
  idle u file -> 0 <= a < block_num -> xs <> [] -> Forall is_byte xs ->
  Q tt (mk_uart [] [] (Some (file_write (a * block_len) xs file))) ->
  wp (disk_wr a xs (Z.of_nat (length xs))) Q u.
Proof.
  intros [-> Hl Hb] Ha Hne Hx HQ. unfold disk_wr. wp_step. apply wp_first. unfold block_num in Ha.
  apply (wp_request_wr a xs file _ _ (ACK_OKAY ++ [NL]) (file_write (a * block_len) xs file)); [done| |].
  { rewrite serve_wr, s32_pos by (done || unfold is_u32; lia). unfold block_num.
    destruct (Z.geb_spec a 2048); [lia|]. by destruct (Z.ltb_spec a 0); [lia|]. }
  wp_step. apply wp_geth_ok. cbn [Z.eqb]. wp_step. apply wp_getc. wp_steps. eauto.
Qed.

Lemma wp_serial_wr_refused a xs u file (Q : unit -> uart -> Prop) :
  idle u file -> block_num <= a < 2 ^ 31 -> xs <> [] -> Forall is_byte xs -> Q tt u ->
  wp (disk_wr a xs (Z.of_nat (length xs))) Q u.
Proof.
  intros [-> Hl Hb] Ha Hne Hx HQ. unfold disk_wr. wp_step. apply wp_retry; [|done]. intros _.
  unfold block_num in Ha. apply (wp_request_wr a xs file _ _ (ACK_FAIL ++ [NL]) file); [done| |].
  { rewrite serve_wr, s32_pos by (done || unfold is_u32; lia). unfold block_num.
    by destruct (Z.geb_spec a 2048); [|lia]. }
  wp_step. apply wp_geth_fail. cbn [Z.eqb]. wp_step. apply wp_getc. by wp_steps.
Qed.
End Driver.

(** ** The server that exits *)

Section Dead.
Context {S : Type}.

Definition hangs {A} (m : M S A) (s : S) : Prop := m s = Hang.

Lemma hangs_bind {A B} (m : M S A) (k : A -> M S B) s :
  wp m (fun a t => hangs (k a) t) s -> hangs (m ≫= k) s.
Proof. intros (a & t & Hr & Hk)%wp_done. unfold hangs. by rewrite (run_bind _ _ _ _ _ Hr). Qed.

Lemma hangs_first {A B} (m : M S A) (k : A -> M S B) s : hangs m s -> hangs (m ≫= k) s.
Proof. apply run_bind_hang. Qed.
End Dead.

Section DeadWire.
Implicit Types (u : uart) (file xs : list Z) (a : Z).

Lemma wp_putc_dead tx file (Q : unit -> uart -> Prop) :
  serve (tx ++ [NL]) file = None -> Q tt (mk_uart [] [] None) ->
  wp (PL011_putc NL) Q (mk_uart [] tx (Some file)).
Proof. intros Hs HQ. unfold PL011_putc. wp_steps. cbn. by rewrite Hs. Qed.

Lemma geth_hangs : hangs PL011_geth (mk_uart [] [] None).
Proof. by apply hangs_first. Qed.

Lemma disk_rd_hangs a u file : idle u file -> 2 ^ 31 <= a < 2 ^ 32 -> hangs (disk_rd a 512) u.
Proof.
  intros [-> _ _] Ha. unfold disk_rd, RETRY. cbn [for_find]. apply hangs_first.
  apply hangs_bind, puth_cmd; [done|]. apply hangs_bind, wp_putc; [done|].
  apply hangs_bind, wp_addr_puth. apply hangs_bind, wp_putc_dead.
  - pose proof (serve_rd a file ltac:(unfold is_u32; lia)) as Hs. pose proof (s32_neg a Ha).
    destruct (Z.geb_spec (s32 a) block_num); [unfold block_num in *; lia|].
    destruct (Z.ltb_spec (s32 a) 0); [|lia]. rewrite <-Hs. f_equal.
  - apply hangs_first, geth_hangs.
Qed.

(** The write that kills the server: a negative address, or no data. *)
Lemma disk_wr_hangs a xs u file :
  idle u file -> is_u32 a -> Forall is_byte xs ->
  serve ([48; 49] ++ [SP] ++ hexs (le_bytes 4 a) ++ [SP] ++ hexs xs ++ [NL]) file = None ->
  hangs (disk_wr a xs (Z.of_nat (length xs))) u.
Proof.
  intros [-> _ _] Ha Hx Hs. unfold disk_wr, RETRY. cbn [for_find]. apply hangs_first, hangs_first.
  apply hangs_bind, puth_cmd; [done|]. apply hangs_bind, wp_putc; [done|].
  apply hangs_bind, wp_addr_puth. apply hangs_bind, wp_putc; [done|].
  apply hangs_bind, wp_data_puth; [done|]. apply hangs_bind, wp_putc_dead.
  - rewrite <-Hs. f_equal.
  - apply hangs_first, geth_hangs.
Qed.

Lemma serve_wr_negative a xs file :
  2 ^ 31 <= a < 2 ^ 32 -> xs <> [] -> Forall is_byte xs ->
  serve ([48; 49] ++ [SP] ++ hexs (le_bytes 4 a) ++ [SP] ++ hexs xs ++ [NL]) file = None.
Proof.
  intros Ha Hne Hx. rewrite serve_wr by (done || unfold is_u32; lia). pose proof (s32_neg a Ha).
  unfold block_num. destruct (Z.geb_spec (s32 a) 2048); [lia|].
  by destruct (Z.ltb_spec (s32 a) 0); [|lia].
Qed.

(** With no data the separator is stripped off the line, and the third word of the
    request is missing. *)
Lemma serve_wr_empty a file : is_u32 a ->
  serve ([48; 49] ++ [SP] ++ hexs (le_bytes 4 a) ++ [SP] ++ hexs [] ++ [NL]) file = None.
Proof.
  intros Ha. set (h := hexs (le_bytes 4 a)).
  assert (Hp : Forall (fun c => is_space c = false) h) by apply hexs_plain, le_bytes_bytes.
  assert (Hstrip : strip ([48; 49] ++ [SP] ++ h ++ [SP] ++ hexs [] ++ [NL]) = [48; 49] ++ SP :: h).
  { unfold strip. cbn [app]. rewrite lstrip_head by done.
    assert (E : rev (48 :: 49 :: SP :: h ++ SP :: hexs [] ++ [NL]) = NL :: SP :: rev (48 :: 49 :: SP :: h)).
    { change (48 :: 49 :: SP :: h ++ SP :: hexs [] ++ [NL]) with ((48 :: 49 :: SP :: h) ++ [SP; NL]).
      by rewrite rev_app_distr. }
    rewrite E. change (lstrip (NL :: SP :: rev (48 :: 49 :: SP :: h))) with (lstrip (rev (48 :: 49 :: SP :: h))).
    assert (E2 : lstrip (rev (48 :: 49 :: SP :: h)) = rev (48 :: 49 :: SP :: h)).
    { unfold h. unfold le_bytes. rewrite !hexs_cons. unfold hexs. cbn [mjoin list_join fmap list_fmap].
      rewrite app_nil_r. unfold hex_up. cbn [app rev].
      pose proof (hexs_plain (le_bytes 4 a) (le_bytes_bytes 4 a)) as Hl.
      unfold le_bytes in Hl. rewrite !hexs_cons in Hl. unfold hexs, hex_up in Hl.
      cbn [mjoin list_join fmap list_fmap app] in Hl. apply lstrip_head.
      repeat (apply list.Forall_cons in Hl as [? Hl]). done. }
    rewrite E2. apply rev_involutive. }
  unfold serve. rewrite Hstrip, split_on_word by (by apply (bool_decide_unpack _)).
  rewrite split_on_last by by apply plain_no_space. cbn [lookup list_lookup default].
  unfold wr. cbn -[unhexlify]. unfold h. rewrite unhexlify_hexs by apply le_bytes_bytes.
  cbn -[unpack_l]. by rewrite unpack_addr.
Qed.
End DeadWire.

(** ** The block device *)

Definition uart_file (u : uart) : list Z := default [] (u_srv u).

#[export] Instance uart_device : BlockDevice uart := {
  dev_num := block_num;
  dev_rd u a := disk_rd a 512 u;
  dev_wr u a xs := '(_, u') ← disk_wr a xs (Z.of_nat (length xs)) u; Done u';
  dev_ok u := idle u (uart_file u);
  dev_blk u a := file_read (a * block_len) block_len (uart_file u);
}.

Lemma file_write_splice file a xs :
  Z.of_nat (length file) = block_num * block_len -> 0 <= a < block_num ->
  file_write (a * block_len) xs file = splice (Z.to_nat (a * block_len)) xs file.
Proof.
  unfold file_write, block_num, block_len. intros Hl Ha.
  replace (Z.to_nat (a * 512) - length file)%nat with 0%nat by lia. by rewrite app_nil_r.
Qed.

Lemma file_read_lookup file a j :
  0 <= a -> (j < 512)%nat ->
  file_read (a * block_len) block_len file !! j = file !! (Z.to_nat (a * block_len) + j)%nat.
Proof.
  intros Ha Hj. unfold file_read, block_len. rewrite lookup_take_lt by lia. by rewrite lookup_drop.
Qed.

(** A write of at most a block changes that block only. *)
Lemma file_read_splice file a b xs :
  Z.of_nat (length file) = block_num * block_len -> 0 <= a < block_num -> 0 <= b < block_num ->
  (length xs <= 512)%nat ->
  file_read (b * block_len) block_len (splice (Z.to_nat (a * block_len)) xs file) =
  if decide (b = a) then overlay xs (file_read (a * block_len) block_len file)
  else file_read (b * block_len) block_len file.
Proof.
  intros Hl Ha Hb Hx. assert (Hin : (Z.to_nat (a * block_len) + length xs <= length file)%nat)
    by (unfold block_num, block_len in *; lia).
  assert (Hlen : forall f c, Z.of_nat (length f) = block_num * block_len -> 0 <= c < block_num ->
    length (file_read (c * block_len) block_len f) = 512%nat) by (intros; by apply file_read_length).
  assert (Hls : Z.of_nat (length (splice (Z.to_nat (a * block_len)) xs file)) = block_num * block_len)
    by by rewrite length_splice.
  apply list_eq. intros j. destruct (decide (j < 512)%nat) as [Hj|Hj].
  2:{ rewrite !lookup_ge_None_2; [done| |rewrite Hlen by done; lia].
      case_decide; rewrite ?length_overlay, Hlen by (rewrite ?Hlen; done); lia. }
  rewrite file_read_lookup by lia. case_decide as E.
  - subst b. unfold overlay. destruct (decide (j < length xs)%nat).
    + rewrite lookup_splice_in by lia. rewrite lookup_app_l by lia. f_equal. lia.
    + rewrite lookup_splice_out by lia. rewrite lookup_app_r, lookup_drop by lia.
      replace (length xs + (j - length xs))%nat with j by lia. by rewrite file_read_lookup by lia.
  - rewrite lookup_splice_out, file_read_lookup by (try done; unfold block_len in *; lia). done.
Qed.

(** A write stores its bytes in the image. *)
Lemma disk_wr_run u file a xs :
  idle u file -> 0 <= a < block_num -> (0 < length xs <= 512)%nat -> Forall is_byte xs ->
  let file' := splice (Z.to_nat (a * block_len)) xs file in
  disk_wr a xs (Z.of_nat (length xs)) u = Done (tt, mk_uart [] [] (Some file')) /\
  idle (mk_uart [] [] (Some file')) file'.
Proof.
  intros Hid Ha Hx Hbx file'. pose proof Hid as [_ Hl Hb].
  assert (Hin : (Z.to_nat (a * block_len) + length xs <= length file)%nat)
    by (unfold block_num, block_len in *; lia).
  split.
  - apply wp_run. apply (wp_serial_wr a xs u file); [done|done| |done|].
    + intros ->. cbn in Hx. lia.
    + by rewrite file_write_splice.
  - split; [done|by unfold file'; rewrite length_splice|]. unfold file', splice.
    by apply Forall_app; split; [apply Forall_take|apply Forall_app; split; [|apply Forall_drop]].
Qed.

#[export] Instance uart_laws : BlockDeviceLaws uart.
Proof.
  split; cbn [dev_num dev_rd dev_wr dev_ok dev_blk uart_device].
  - by unfold block_num.
  - intros u a [Hu Hl Hb] Ha. split; [by apply file_read_length|].
    by apply Forall_take, Forall_drop.
  - intros u a Hok Ha. apply wp_run. by apply (wp_serial_rd a u (uart_file u)).
  - intros u a Hok Ha. apply wp_run. by apply (wp_serial_rd_refused a u (uart_file u)).
  - intros u a Hok Ha. by apply (disk_rd_hangs a u (uart_file u)).
  - intros u a xs Hok Ha Hx Hbx. destruct (disk_wr_run u (uart_file u) a xs Hok Ha Hx Hbx) as [Hr Hid].
    rewrite Hr. eexists. split_and!; [done|exact Hid|].
    intros b Hb'. apply file_read_splice; [apply Hok|done|done|lia].
  - intros u a xs Hok Ha Hne Hx.
    assert (Hr : disk_wr a xs (Z.of_nat (length xs)) u = Done (tt, u)).
    { apply wp_run. apply (wp_serial_wr_refused a xs u (uart_file u)); [done|done| |done|done].
      intros ->. cbn in Hne. lia. }
    by rewrite Hr.
  - intros u a xs Hok Ha Hx. unfold mbind, outcome_bind.
    rewrite (disk_wr_hangs a xs u (uart_file u)); [done|done|unfold is_u32; lia|done|].
    destruct xs as [|x xs]; [apply serve_wr_empty; unfold is_u32; lia|by apply serve_wr_negative].
Qed.

(** * The properties of the serial disk *)

(** C10: a block written over the serial line is read back, and no other block changed.
    The driver's hexadecimal request, the server's parsing of it, the seek in the image
    and the acknowledgement fit together; a write of less than a block leaves the rest of
    it.  Afterwards the wire is silent again. *)
Theorem serial_write_read u file a xs :
  idle u file -> 0 <= a < block_num -> (0 < length xs <= 512)%nat -> Forall is_byte xs ->
  exists u' file', disk_wr a xs (Z.of_nat (length xs)) u = Done (tt, u') /\ idle u' file' /\
    disk_rd a 512 u' =
      Done (Some (overlay xs (file_read (a * block_len) block_len file)), u') /\
    forall b, 0 <= b < block_num -> b <> a ->
      disk_rd b 512 u' = Done (Some (file_read (b * block_len) block_len file), u').
Proof.
  intros Hid Ha Hx Hb. destruct (disk_wr_run u file a xs Hid Ha Hx Hb) as [Hw Hid'].
  pose proof (id_len _ _ Hid) as Hl. eexists _, _. split_and!; [exact Hw|exact Hid'| |].
  - apply wp_run. eapply wp_serial_rd; [exact Hid'|done|].
    rewrite file_read_splice, decide_True by (done || lia). done.
  - intros b Hb' Hne. apply wp_run. eapply wp_serial_rd; [exact Hid'|done|].
    rewrite file_read_splice, decide_False by (done || lia). done.
Qed.

(** C34: what the driver cannot do.  An address the disk does not have is refused three
    times: a read leaves the caller's array as it is, a write does nothing, and neither
    says so.  A negative address as well as a write of no bytes raises an exception in
    the server; it exits, and the driver waits for its answer for ever. *)
Theorem serial_errors u file a xs :
  idle u file -> is_u32 a -> Forall is_byte xs ->
  (block_num <= a < 2 ^ 31 -> disk_rd a 512 u = Done (None, u) /\
     (xs <> [] -> disk_wr a xs (Z.of_nat (length xs)) u = Done (tt, u))) /\
  (2 ^ 31 <= a -> disk_rd a 512 u = Hang /\ disk_wr a xs (Z.of_nat (length xs)) u = Hang) /\
  disk_wr a [] 0 u = Hang.
Proof.
  intros Hid Ha Hx. split_and!.
  - intros Hr. split; [apply wp_run; by apply (wp_serial_rd_refused a u file)|].
    intros Hne. apply wp_run. by apply (wp_serial_wr_refused a xs u file).
  - intros Hr. unfold is_u32 in Ha. split; [apply (disk_rd_hangs a u file); [done|lia]|].
    apply (disk_wr_hangs a xs u file); [done|done|done|].
    destruct xs as [|x xs]; [by apply serve_wr_empty|apply serve_wr_negative; [lia|done|done]].
  - apply (disk_wr_hangs a [] u file); [done|done|constructor|by apply serve_wr_empty].
Qed.

(** The size queries answer what the server was started with, whatever the disk
    holds. *)
Theorem serial_conf u file :
  idle u file ->
  disk_get_block_num u = Done (block_num, u) /\ disk_get_block_len u = Done (block_len, u).
Proof. intros [-> _ _]. split; vm_compute; reflexivity. Qed.

(** ** Witnesses: an empty image *)

Definition empty_image : list Z := replicate (Z.to_nat (block_num * block_len)) 0.
Definition idle_uart : uart := mk_uart [] [] (Some empty_image).

Lemma empty_image_ok :
  Z.of_nat (length empty_image) = block_num * block_len /\ Forall is_byte empty_image.
Proof.
  unfold empty_image. split; [|apply Forall_replicate; unfold is_byte; lia].
  rewrite length_replicate, Z2Nat.id; unfold block_num, block_len; lia.
Qed.

#[global] Opaque empty_image.

Lemma idle_empty : idle idle_uart empty_image.
Proof. split; [reflexivity|apply empty_image_ok|apply empty_image_ok]. Qed.

Lemma serial_write_read_witness :
  exists u, disk_wr 5 [1; 2] 2 idle_uart = Done (tt, u) /\
    disk_rd 5 512 u =
      Done (Some (overlay [1; 2] (file_read (5 * block_len) block_len empty_image)), u).
Proof.
  destruct (serial_write_read idle_uart empty_image 5 [1; 2] idle_empty) as (u & f & Hw & _ & Hr & _).
  - by unfold block_num.
  - cbn. lia.
  - by apply (bool_decide_unpack _).
  - by exists u.
Defined.

Lemma serial_errors_witness :
  disk_rd 4096 512 idle_uart = Done (None, idle_uart) /\ disk_wr 0 [] 0 idle_uart = Hang.
Proof.
  destruct (serial_errors idle_uart empty_image 4096 [] idle_empty) as (H1 & _); [by split|constructor|].
  destruct (serial_errors idle_uart empty_image 0 [] idle_empty) as (_ & _ & H3); [by split|constructor|].
  split; [apply H1; by split|exact H3].
Defined.

Lemma serial_conf_witness : disk_get_block_num idle_uart = Done (2048, idle_uart).
Proof. destruct (serial_conf idle_uart empty_image idle_empty) as [H _]. exact H. Defined.
